(* ===== verification/_CoqProject ===== *)
-Q . S2P
Prelude.v
Headers.v
ProtocolMap.v
Checksum.v
BlockBuffer.v
State.v
Ethernet.v
Ipv4.v
TcpShared.v
TcpSocket.v
TcpStates.v
Tcp.v
Arp.v
Llc.v
Custom.v
Stack.v
Dhcp.v
Tls.v
TcpOutput.v
Handshake.v
Transfer.v
Delivery.v
Refuse.v
Stream.v
Reorder.v
Reset.v
ActiveOpen.v
SendData.v
Serve.v
Session.v
Lifecycle.v
Fuel.v
Traces.v
Rings.v
Offloader.v
Worker.v
Main.v
StartUp.v
Scenario.v
Running.v
ArpProgram.v
