(* ===== verification/Prelude.v ===== *)
(** * net_stack: a verification of the network stack

    The library models the C sources of net_stack, a TCP/IP stack in user space on top of DPDK,
    as executable functions and step relations, and proves what they do, on the branches that
    fail as well.

    ** The program and the files that model it

    A received frame comes from the device to the offloader ([main.c]), goes through the work
    queue to a worker ([worker.c]), and through the root handler (Ethernet) up the handlers; an
    answer goes down the same handlers and through the write queue back to the offloader.
    Handlers are objects with operations [read] and [write], called through function pointers;
    [in_packet_stack_t] and [out_packet_stack_t] carry a packet and the arguments of each level.

    - [Prelude]: unsigned integers with their wrap-around, byte order, record update, the monad
      [M] with faults, [wp] and [wlp], bytes in memory.
    - [Headers]: the packed structures of [handlers/*/*.h], read from and written to bytes.
    - [State]: the memory, [world]: one map per kind of allocated object, the static tables,
      and the traces [w_wire] (buffers given to the interface) and [w_calls] (callbacks of the
      application); [handler.c], [handler.h] and [types.h].
    - [ProtocolMap]: [handlers/protocol_map.c].
    - [Checksum]: the two checksum routines of [ipv4.c] and [tcp_shared.c] against RFC 1071.
    - [BlockBuffer]: [tcp_block_buffer.c], linked cells, against sorted lists of segments.
    - [Ethernet], [Ipv4], [Arp] (with its socket), [Llc], [Custom]: one handler each.
    - [TcpShared], [TcpSocket], [TcpStates], [Tcp]: the files of [handlers/tcp] of these names.
    - [Stack]: [net_stack.c], the body of the worker's loop for one packet ([consume_packet]),
      and [dispatch], which ties the calls through function pointers.
    - [TcpOutput], [Handshake], [Transfer], [Delivery], [Refuse], [Stream], [Reorder], [Reset],
      [ActiveOpen], [SendData], [Serve], [Session]: no definitions of the program; TCP over IPv4
      over Ethernet as the stack links them: what goes on the wire, the passive open, data and
      FIN, the way of a frame from the worker to [tcp_read], refused segments, sequences of data
      frames, frames out of order, resets, the active open, sending, requests that the custom
      handler answers, and whole sessions.
    - [Lifecycle], [Traces], [Fuel]: what every operation of the whole stack keeps.  Each has a
      class ([Evolving], [Keeping], [Extends]) that states what a handler's operations promise to
      their caller, and proves it for the operations of every handler.
    - [Rings]: [rte_ring], [rte_mempool] and [rte_mbuf] as classes with their documented laws,
      and one implementation.  [Offloader]: [offloader_loop], [dpdk/write.c], [dpdk/packet.c],
      and the step relation [sys_step] of the offloader and one worker in parallel.
    - [Worker]: [start], [stop] and the threads of [worker.c] as a step relation.
    - [Main]: [main], [check_all_ports_link_status] and [signal_handler] of [main.c], as a
      program of calls whose answers come from an environment ([program], [environment]); it
      calls [net_stack_init] and [create_netstack_execution_context] of [worker.c], which creates
      the work queue of a worker without looking at the result, and hands over to
      [arp_program_start] and [offloader_loop], which are calls there.  [StartUp]: the logic
      of such programs ([wp_program]) and what [main] does in every environment.
    - [Dhcp]: the option parser and [dhcp_read] of [handlers/dhcp/dhcp.c].  [Tls]: the writers,
      the state machine of the handshake and the record loop of [handlers/tls].
    - [ArpProgram]: [programs/arp/arp.c].
    - [Scenario], [Running]: the theorems at concrete inputs, in a run with one client.

    ** What the theorems show

    - Connections ([Lifecycle], [Handshake], [Transfer], [Refuse], [ActiveOpen], [SendData]): every
      connection moves along a machine of TCP states, whatever is received and called, and
      keeps its identity; the passive and the active open end in ESTABLISHED with the right
      numbers and frames, the passive one from frames to frames ([Delivery]); data is
      acknowledged and delivered, until it has filled the window once ([Stream]), and requests
      are answered one after the other ([Serve]), in a whole session from the first SYN on
      ([Session]), as long as the checksum, which reads behind the copy of the header, stays
      within readable memory ([SendData]); a FIN is answered; refused segments are answered or
      dropped and change nothing, or stay in the queue; no connection reaches CLOSED.
    - Where connections go wrong: after a frame before its turn the missing one brings the
      program down, or the connection is stuck, and one missing octet is acknowledged as if it
      had come ([Reorder]); after a reset that is accepted the
      next frame brings the program down ([Reset]); data of another host with the same
      identifier is taken ([Stream]).
    - Ways through the handlers: what each [read] and [write] does on every branch, the frames
      as bytes, and which handler is called next ([Ethernet], [Ipv4], [Arp], [Llc], [Custom],
      [TcpOutput], [Stack]: the first IPv4 frame goes to the ARP handler, an LLC frame is
      answered by the custom handler).
    - Data structures against specifications: the block buffer refines a sorted queue, the ARP
      list a queue of 256 entries with the oldest at its end, sockets and connections are found, added and deleted by
      key, the window test against RFC 9293, the checksums against RFC 1071, DHCP options and
      TLS extensions against their encodings.
    - The whole stack: the private data of the ARP and the TCP handlers are never confused, frames
      and callbacks are only appended ([Traces]); results do not depend on the fuel, and the
      write of every handler ends ([Fuel]).
    - The offloader and the workers: packets and frames stay in order under every
      interleaving, a queued packet is served, frames leave in pairs only, of which the device
      may take less, buffers leak ([Offloader]); [stop] never returns ([Worker]).
    - Bounds: which frames that end within their headers are read behind their end, and
      which are ignored ([Delivery]).
    - The start of the program, whatever DPDK answers: it stops at the first failure it looks
      at, and goes on after those listed in [passed_over], a missing work queue among them;
      the offloader is entered only with every port set up and started in the right order,
      and the check of the links ends ([StartUp]).
    - Where a loop can run forever, that it does ([ProtocolMap], [Tls]).

    ** Conventions

    - Integers are in [Z] within the range of their C type; arithmetic of the source is wrapped
      with [u8] ... [u64] where it is stored.  The host is little-endian; a header field is the
      raw little-endian load of its bytes, and [ntohs] and [ntohl] are where the source calls
      them.  Comparisons that forget them are compared raw as well.
    - Pointers to objects are addresses into the maps of [world], never used again after [free];
      a pointer into a packet is an offset into its frame.  Arguments passed by pointer that
      are not shared are values.  Undefined behaviour is [Fault] with its kind; a read
      handler whose function ends without [return] gives [None].
    - A header is read as far as the code reads it: of the TCP header [packet_headers] asks for the
      bytes up to the last field that was accessed so far ([up_to_ports] and on), and
      [need_header] for more where the code goes on; the other headers are needed whole.
    - A read behind an object is a fault, with two exceptions.  [tcb_after_header] is what can be
      read behind the copy of the header in a connection: 40 bytes of [out_header] and then
      the rest of the structure and of the heap, as far as it is mapped; how long it is is
      part of [Platform], and a read behind that is the fault.  And the block behind the ten
      that [create_tcp_block_buffer] allocates, to which it writes, is modelled as an eleventh
      block: the write happens for every connection, so that a fault there would leave
      nothing to say about TCP; what holds of the buffers holds where this memory belongs
      to nobody else.
    - The insert index of the ARP list is not initialised; what is said of the order of the
      entries ([arp_ages]) supposes that the allocation left it at 0, and
      [arp_uninitialised_index] shows what happens otherwise.
    - [malloc] never fails; what it returns is arbitrary, the class [Platform].
    - Locks inside the handlers are left out: one worker thread runs them ([main.c] starts one).
      The counter [x] of [tcp_shared_generate_sequence_number] is wrapped where it is read.
    - A worker's packet is read in one step of [sys_step]; the frames it wrote are put into the
      write queue one by one afterwards, interleaved with the offloader.

    ** Fuel

    [dispatch n] allows calls nested [n] deep; the packet stacks have ten levels, and
    [run_enough_fuel] shows that a run that ends within a bound ends in the same way within
    every larger one.  [flush_fuel] is 12, and [tcp_write_terminates] shows that it is enough: each
    round moves the index of a packet stack down, which is below 10; and that the write of
    every handler ends within a [dispatch] deeper than the sum of these indices.  [tcp_checksum_fold] folds three times
    ([tcp_checksum_fold_spec] shows that it is enough), [get_value_loop] has 257 rounds, one more than
    values of its index, [parse_fuel] is 104: every round moves three bytes in a field
    of 312.  [tls_read_loop] has no bound of its own: enough fuel is part of its theorem.
    [check_rounds] starts with 91, one more than the value at which its counter ends it
    ([link_check_ends]).

    ** Parameters

    The laws of [Rings] state what DPDK documents; [list_ring] and [count_mempool] satisfy
    them.  [handle_reply] of DHCP and the flight with which [tls_handle_handshake] answers
    are not C in the sources and parameters of what calls them.  The types, the constants and
    the answers of DPDK that [main] uses are the class [Dpdk] and an [environment] without
    any law.

    ** Not modelled

    [fflush], the text that [strerror] and the like give to [printf] in [main.c], and what a port or a core does that is added
    while the program runs; [pcapng.c], which only calls DPDK; [http.c], which stops at [switch];
    [execution_pool.c] and [main_dev.c], which are not in the build and call functions that do
    not exist; [server.c], whose body is commented out; the functions with empty bodies; the
    server hello of [tls.c] before its extensions, which does not compile, and what calls
    OpenSSL; [array.c],
    which only the tests call; the tests. *)

From Stdlib Require Export ZArith Lia.
From stdpp Require Export base list gmap.

#[export] Set Warnings "-clear-no-such-hyp".

Declare Scope net_scope.
Delimit Scope net_scope with net.

#[global] Open Scope Z_scope.
#[global] Open Scope net_scope.

(** ** Unsigned machine integers, as [Z] with the wrap-around of C *)

Definition u8 (z : Z) : Z := z mod 256.
Definition u16 (z : Z) : Z := z mod 65536.
Definition u32 (z : Z) : Z := z mod 4294967296.
Definition u64 (z : Z) : Z := z mod 18446744073709551616.

(** [ntohs] and [ntohl] of the C library on a little-endian host: the bytes
    are reversed.  [htons] and [htonl] are the same functions. *)
Definition ntohs (w : Z) : Z := (w mod 256) * 256 + (w / 256) mod 256.
Definition ntohl (w : Z) : Z :=
  (w mod 256) * 16777216 + ((w / 256) mod 256) * 65536
  + ((w / 65536) mod 256) * 256 + (w / 16777216) mod 256.
Abbreviation htons := ntohs (only parsing).
Abbreviation htonl := ntohl (only parsing).

(** The test [x & mask] of a C condition. *)
Definition flag_set (x mask : Z) : bool := negb (Z.land x mask =? 0).

Ltac Zify.zify_post_hook ::= Z.div_mod_to_equations.

Create HintDb net discriminated.

Definition is_u8 (z : Z) : Prop := 0 <= z < 256.
Definition is_u16 (z : Z) : Prop := 0 <= z < 65536.
Definition is_u32 (z : Z) : Prop := 0 <= z < 4294967296.

Section Integers.
Lemma u8_range z : is_u8 (u8 z).
Proof. unfold is_u8, u8. lia. Qed.
Lemma u16_range z : is_u16 (u16 z).
Proof. unfold is_u16, u16. lia. Qed.
Lemma u32_range z : is_u32 (u32 z).
Proof. unfold is_u32, u32. lia. Qed.

Lemma u8_id z : is_u8 z → u8 z = z.
Proof. unfold is_u8, u8. intros. apply Z.mod_small. lia. Qed.
Lemma u16_id z : is_u16 z → u16 z = z.
Proof. unfold is_u16, u16. intros. apply Z.mod_small. lia. Qed.
Lemma u32_id z : is_u32 z → u32 z = z.
Proof. unfold is_u32, u32. intros. apply Z.mod_small. lia. Qed.

(** Flags put together stay in a byte. *)
Lemma u8_lor x y : is_u8 x → is_u8 y → is_u8 (Z.lor x y).
Proof.
  unfold is_u8. intros [Hx Hx'] [Hy Hy']. assert (0 <= Z.lor x y) by (by apply Z.lor_nonneg).
  split; [done|]. destruct (Z.eq_dec (Z.lor x y) 0) as [->|]; [done|].
  apply (Z.log2_lt_pow2 _ 8); [lia|]. rewrite Z.log2_lor by done.
  assert (∀ z, 0 <= z < 256 → Z.log2 z < 8) as Hlog.
  { intros z Hz. destruct (Z.eq_dec z 0) as [->|]; [done|]. apply Z.log2_lt_pow2; lia. }
  apply Z.max_lub_lt; by apply Hlog.
Qed.

Lemma ntohs_range w : is_u16 (ntohs w).
Proof. unfold is_u16, ntohs. lia. Qed.
Lemma ntohl_range w : is_u32 (ntohl w).
Proof. unfold is_u32, ntohl. lia. Qed.

Lemma ntohs_involutive w : is_u16 w → ntohs (ntohs w) = w.
Proof. unfold is_u16, ntohs. lia. Qed.

Lemma ntohl_involutive w : is_u32 w → ntohl (ntohl w) = w.
Proof.
  unfold is_u32, ntohl. intros H.
  set (a := w mod 256). set (b := (w / 256) mod 256).
  set (c := (w / 65536) mod 256). set (d := (w / 16777216) mod 256).
  assert (0 <= a < 256) by (unfold a; lia). assert (0 <= b < 256) by (unfold b; lia).
  assert (0 <= c < 256) by (unfold c; lia). assert (0 <= d < 256) by (unfold d; lia).
  assert (w = a + 256 * b + 65536 * c + 16777216 * d) as Hw.
  { unfold a, b, c, d. lia. }
  clearbody a b c d. subst w. lia.
Qed.
End Integers.

#[export] Hint Resolve u8_range u16_range u32_range ntohs_range ntohl_range : net.

(** Unfolds the range predicates and finishes with [lia]. *)
Ltac range := unfold is_u8, is_u16, is_u32, u8, u16, u32, u64 in *; lia.

(** ** Record update

    [r <| f := v |>] replaces one field and [r <| f ::= g |>] applies [g] to it.
    A record type gives the eta-expansion of its constructor once, as an
    instance of [Eta]; the setter of a projection is computed from it. *)

Class Eta (R : Type) := eta : R → R.
Class Setter {R T : Type} (proj : R → T) := set_field : (T → T) → R → R.
Arguments set_field {R T} proj {_} _ _ / : assert.

Ltac build_setter :=
  lazymatch goal with
  | |- @Setter ?R ?T ?proj =>
      let i := constr:(_ : Eta R) in
      let e := eval cbv [eta] in (@eta R i) in
      let e := eval hnf in e in
      lazymatch e with
      | (fun r : R => @?body r) =>
          let p := eval pattern proj in body in
          lazymatch p with
          | ?f _ =>
              let s := eval cbv beta in
                (fun (g : T → T) (r : R) => f (fun q : R => g (proj q)) r) in
              exact s
          end
      end
  end.

#[export] Hint Extern 1 (Setter _) => build_setter : typeclass_instances.

Notation "r <| f := v |>" := (set_field f (λ _, v) r)
  (at level 1, left associativity, f at next level, v at level 200,
   format "r  <| f  :=  v |>") : net_scope.
Notation "r <| f ::= g |>" := (set_field f g r)
  (at level 1, left associativity, f at next level, g at level 200,
   format "r  <| f  ::=  g |>") : net_scope.

(** ** Effects: explicit state, undefined behaviour and fuel

    A computation takes the state and returns a value with the new state, or
    stops.  [Fault] is a C operation without a defined meaning (the kinds the
    sources can reach), [OutOfFuel] is a recursion bound that was too small. *)

Inductive fault : Type :=
  | NullDeref        (* access through a null pointer *)
  | Dangling         (* access to an object whose lifetime has ended *)
  | OutOfBounds      (* access outside of an object *)
  | TypeConfusion    (* a [void*] used at another type than it was stored with *)
  | PrivConfusion.   (* that of the ARP or the TCP handler, the private data of the handler *)

Inductive outcome (A : Type) : Type :=
  | Ok (a : A)
  | Fault (f : fault)
  | OutOfFuel.
Arguments Ok {A} a.
Arguments Fault {A} f.
Arguments OutOfFuel {A}.

#[export] Instance fault_eq_dec : EqDecision fault.
Proof. solve_decision. Defined.

Definition M (S A : Type) : Type := S → outcome (A * S).

Definition ret {S A} (a : A) : M S A := λ w, Ok (a, w).
Definition fail {S A} (f : fault) : M S A := λ _, Fault f.
Definition no_fuel {S A} : M S A := λ _, OutOfFuel.
Definition bind {S A B} (m : M S A) (k : A → M S B) : M S B :=
  λ w, match m w with
       | Ok (a, w') => k a w'
       | Fault f => Fault f
       | OutOfFuel => OutOfFuel
       end.
Definition get {S} : M S S := λ w, Ok (w, w).
Definition gets {S A} (f : S → A) : M S A := λ w, Ok (f w, w).
Definition modify {S} (f : S → S) : M S unit := λ w, Ok (tt, f w).
(** The value of an option, or the fault of using it when there is none. *)
Definition need {S A} (f : fault) (o : option A) : M S A :=
  match o with Some a => ret a | None => fail f end.
Definition when {S} (b : bool) (m : M S unit) : M S unit := if b then m else ret tt.
Definition lift_outcome {S A} (o : outcome A) : M S A :=
  λ w, match o with Ok a => Ok (a, w) | Fault f => Fault f | OutOfFuel => OutOfFuel end.

Notation "x <- m ;; k" := (bind m (λ x, k))
  (at level 20, m at level 99, k at level 200, only parsing) : net_scope.
Notation "m ;;; k" := (bind m (λ _, k))
  (at level 98, k at level 200, right associativity, only parsing) : net_scope.

(** [wp m Q w]: from [w] the computation ends without a fault, in a result and
    a state that satisfy [Q].  [wlp m Q w] says the same of the runs that end,
    and allows faults. *)
Definition wp {S A} (m : M S A) (Q : A → S → Prop) (w : S) : Prop :=
  match m w with Ok (a, w') => Q a w' | _ => False end.
Definition wlp {S A} (m : M S A) (Q : A → S → Prop) (w : S) : Prop :=
  match m w with Ok (a, w') => Q a w' | _ => True end.

Section Effects.
Context {S : Type}.

Lemma bind_ok {A B} (m : M S A) (k : A → M S B) w a w' :
  m w = Ok (a, w') → bind m k w = k a w'.
Proof. unfold bind. by intros ->. Qed.

Lemma bind_eq {A B} (m m' : M S A) (k : A → M S B) w w' :
  m w = m' w' → bind m k w = bind m' k w'.
Proof. unfold bind. by intros ->. Qed.

Lemma bind_ext {A B} (m : M S A) (k k' : A → M S B) w :
  (∀ x w', k x w' = k' x w') → bind m k w = bind m k' w.
Proof. intros H. unfold bind. destruct (m w) as [[x w']| |]; auto. Qed.

Lemma bind_fault {A B} (m : M S A) (k : A → M S B) w f :
  m w = Fault f → bind m k w = Fault f.
Proof. unfold bind. by intros ->. Qed.

Lemma bind_inv {A B} (m : M S A) (k : A → M S B) w r :
  bind m k w = Ok r → ∃ a w', m w = Ok (a, w') ∧ k a w' = Ok r.
Proof. unfold bind. destruct (m w) as [[a w']| |]; naive_solver. Qed.

Lemma bind_ret_l {A B} (a : A) (k : A → M S B) : bind (ret a) k = k a.
Proof. done. Qed.

Lemma bind_assoc {A B C} (m : M S A) (k : A → M S B) (l : B → M S C) w :
  bind (bind m k) l w = bind m (λ a, bind (k a) l) w.
Proof. unfold bind. by destruct (m w) as [[a w']| |]. Qed.

Lemma wp_bind {A B} (m : M S A) (k : A → M S B) Q w :
  wp m (λ a, wp (k a) Q) w → wp (bind m k) Q w.
Proof. unfold wp, bind. by destruct (m w) as [[a w']| |]. Qed.

Lemma wp_ret {A} (a : A) (Q : A → S → Prop) w : Q a w → wp (ret a) Q w.
Proof. done. Qed.

Lemma wp_mono {A} (m : M S A) (P Q : A → S → Prop) w :
  wp m P w → (∀ a w', P a w' → Q a w') → wp m Q w.
Proof. unfold wp. destruct (m w) as [[? ?]| |]; naive_solver. Qed.

Lemma wp_ok {A} (m : M S A) (Q : A → S → Prop) w :
  wp m Q w ↔ ∃ a w', m w = Ok (a, w') ∧ Q a w'.
Proof.
  unfold wp. destruct (m w) as [[a w']| |]; split; try done.
  - eauto.
  - by intros (? & ? & [= <- <-] & ?).
  - by intros (? & ? & ? & ?).
  - by intros (? & ? & ? & ?).
Qed.

Lemma wlp_bind {A B} (m : M S A) (k : A → M S B) Q w :
  wlp m (λ a, wlp (k a) Q) w → wlp (bind m k) Q w.
Proof. unfold wlp, bind. by destruct (m w) as [[a w']| |]. Qed.

Lemma wlp_ret {A} (a : A) (Q : A → S → Prop) w : Q a w → wlp (ret a) Q w.
Proof. done. Qed.

Lemma wlp_mono {A} (m : M S A) (P Q : A → S → Prop) w :
  wlp m P w → (∀ a w', P a w' → Q a w') → wlp m Q w.
Proof. unfold wlp. destruct (m w) as [[? ?]| |]; naive_solver. Qed.

Lemma wlp_gets {A} (f : S → A) (Q : A → S → Prop) w : Q (f w) w → wlp (gets f) Q w.
Proof. done. Qed.

Lemma wlp_modify (f : S → S) (Q : unit → S → Prop) w :
  Q tt (f w) → wlp (modify f) Q w.
Proof. done. Qed.

Lemma wlp_need {A} f (o : option A) (Q : A → S → Prop) w :
  (∀ a, o = Some a → Q a w) → wlp (need f o) Q w.
Proof. destruct o; simpl; [by intros H; apply H | done]. Qed.

Lemma wlp_fail {A} f (Q : A → S → Prop) w : wlp (fail f) Q w.
Proof. done. Qed.

Lemma wp_wlp {A} (m : M S A) (Q : A → S → Prop) w : wp m Q w → wlp m Q w.
Proof. unfold wp, wlp. by destruct (m w) as [[a w']| |]. Qed.
End Effects.

#[export] Hint Resolve wlp_ret wlp_gets wlp_modify wlp_fail : net.

(** ** Memory as a list of bytes *)

(** The little-endian load of a 16- and a 32-bit word, and the bytes a store of
    one writes. *)
Definition le16 (b0 b1 : Z) : Z := b0 + 256 * b1.
Definition le32 (b0 b1 b2 b3 : Z) : Z := b0 + 256 * b1 + 65536 * b2 + 16777216 * b3.
Definition bytes16 (w : Z) : list Z := [w mod 256; (w / 256) mod 256].
Definition bytes32 (w : Z) : list Z :=
  [w mod 256; (w / 256) mod 256; (w / 65536) mod 256; (w / 16777216) mod 256].

Definition bytes_ok (l : list Z) : Prop := Forall is_u8 l.

Section Bytes.
Lemma le16_range b0 b1 : is_u8 b0 → is_u8 b1 → is_u16 (le16 b0 b1).
Proof. unfold le16. range. Qed.
Lemma le32_range b0 b1 b2 b3 :
  is_u8 b0 → is_u8 b1 → is_u8 b2 → is_u8 b3 → is_u32 (le32 b0 b1 b2 b3).
Proof. unfold le32. range. Qed.

Lemma le16_bytes16 w : is_u16 w → le16 (w mod 256) ((w / 256) mod 256) = w.
Proof. unfold le16. range. Qed.
Lemma le32_bytes32 w :
  is_u32 w →
  le32 (w mod 256) ((w / 256) mod 256) ((w / 65536) mod 256) ((w / 16777216) mod 256) = w.
Proof. unfold le32. range. Qed.

Lemma bytes16_le16 b0 b1 : is_u8 b0 → is_u8 b1 → bytes16 (le16 b0 b1) = [b0; b1].
Proof. unfold bytes16, le16. intros. f_equal; [range|f_equal; range]. Qed.
Lemma bytes32_le32 b0 b1 b2 b3 :
  is_u8 b0 → is_u8 b1 → is_u8 b2 → is_u8 b3 →
  bytes32 (le32 b0 b1 b2 b3) = [b0; b1; b2; b3].
Proof. unfold bytes32, le32. intros. repeat f_equal; range. Qed.

Lemma bytes16_ok w : bytes_ok (bytes16 w).
Proof. unfold bytes_ok, bytes16. repeat constructor; range. Qed.
Lemma bytes32_ok w : bytes_ok (bytes32 w).
Proof. unfold bytes_ok, bytes32. repeat constructor; range. Qed.

Lemma ntohs_le16 b0 b1 : is_u8 b0 → is_u8 b1 → ntohs (le16 b0 b1) = b0 * 256 + b1.
Proof. unfold ntohs, le16. range. Qed.
End Bytes.

#[export] Hint Resolve le16_range le32_range bytes16_ok bytes32_ok : net.

(** Induction on a list two elements at a time, as the checksum loops read it. *)
Lemma list_pair_ind {A} (P : list A → Prop) :
  P [] → (∀ a, P [a]) → (∀ a b l, P l → P (a :: b :: l)) → ∀ l, P l.
Proof.
  intros H0 H1 H2 l. enough (P l ∧ ∀ a, P (a :: l)) as [? _] by done.
  induction l as [|a l [IH1 IH2]]; auto.
Qed.

Lemma Forall_cons_2_inv {A} (P : A → Prop) a b l :
  Forall P (a :: b :: l) → P a ∧ P b ∧ Forall P l.
Proof. intros [? [? ?]%Forall_cons]%Forall_cons. done. Qed.

(** Concrete memories are checked by evaluation. *)
Definition bytes_okb (l : list Z) : bool := forallb (λ b, (0 <=? b) && (b <? 256)) l.
Lemma bytes_okb_ok l : bytes_okb l = true → bytes_ok l.
Proof.
  intros H. unfold bytes_okb in H. apply Forall_forall. intros b Hb.
  rewrite forallb_forall in H. specialize (H b). rewrite <- list_elem_of_In in H.
  specialize (H Hb). range.
Qed.

(** Pure operations that can fault. *)
#[export] Instance outcome_ret : MRet outcome := λ _ a, Ok a.
#[export] Instance outcome_bind : MBind outcome := λ _ _ k m,
  match m with Ok a => k a | Fault f => Fault f | OutOfFuel => OutOfFuel end.

Definition from_option_fault {A} (f : fault) (o : option A) : outcome A :=
  match o with Some a => Ok a | None => Fault f end.

Lemma list_filter_ext {A} (P Q : A → Prop) `{!∀ x, Decision (P x), !∀ x, Decision (Q x)}
    (l : list A) :
  (∀ x, x ∈ l → P x ↔ Q x) → filter P l = filter Q l.
Proof.
  induction l as [|x l IH]; intros Hi; [done|]. rewrite !filter_cons, IH by set_solver.
  assert (P x ↔ Q x) as Hx by (apply Hi; set_solver).
  destruct (decide (P x)), (decide (Q x)); tauto || done.
Qed.

Lemma list_filter_nil {A} (P : A → Prop) `{!∀ x, Decision (P x)} (l : list A) :
  (∀ x, x ∈ l → ¬ P x) → filter P l = [].
Proof.
  induction l as [|x l IH]; intros Hi; [done|].
  rewrite filter_cons, decide_False by (apply Hi; set_solver). apply IH. set_solver.
Qed.

Lemma Forall_sublist {A} (P : A → Prop) (l k : list A) : l `sublist_of` k → Forall P k → Forall P l.
Proof.
  intros Hs Hk. apply Forall_forall. intros x Hx. eapply Forall_forall in Hk; [exact Hk|].
  by apply (sublist_subseteq _ _ Hs).
Qed.
