(* ===== verification/Headers.v ===== *)
(** * Headers: the wire structures of the protocols

    The packed structs of [ethernet.h], [ipv4.h], [tcp_shared.h] and [arp.h] as
    records, with the bytes a struct occupies in memory.  A field holds the value
    the C code loads from it on a little-endian host, so a field that travels in
    network order is byte-swapped ([ntohs], [ntohl] recover its number). *)

From S2P Require Import Prelude.

(** A MAC address, [uint8_t[ETHERNET_MAC_SIZE]]. *)
Definition ETHERNET_MAC_SIZE : nat := 6.
Definition mac_ok (m : list Z) : Prop := length m = ETHERNET_MAC_SIZE ∧ bytes_ok m.

(** [struct ethernet_header_t] (ethernet.h): 14 bytes. *)
Record ethernet_header_t := {
  eth_destination : list Z;
  eth_source : list Z;
  eth_ethernet_type : Z
}.

#[export] Instance eta_ethernet_header_t : Eta ethernet_header_t := λ r,
  Build_ethernet_header_t (eth_destination r) (eth_source r) (eth_ethernet_type r).

Definition sizeof_ethernet_header_t : nat := 14.

Definition decode_ethernet_header_t (m : list Z) : option ethernet_header_t :=
  match m with
  | b0 :: b1 :: b2 :: b3 :: b4 :: b5 :: b6 :: b7 :: b8 :: b9 ::
    b10 :: b11 :: b12 :: b13 :: _ =>
    Some (Build_ethernet_header_t [b0; b1; b2; b3; b4; b5] [b6; b7; b8; b9; b10; b11] (le16 b12 b13))
  | _ => None
  end.

Definition encode_ethernet_header_t (h : ethernet_header_t) : list Z :=
  eth_destination h ++
  eth_source h ++
  bytes16 (eth_ethernet_type h).

Definition ethernet_header_t_ok (h : ethernet_header_t) : Prop :=
  mac_ok (eth_destination h) ∧
  mac_ok (eth_source h) ∧
  is_u16 (eth_ethernet_type h).

(** [struct ipv4_header_t] (ipv4.h): 20 bytes, no options. *)
Record ipv4_header_t := {
  ip_flags_1 : Z;
  ip_flags_2 : Z;
  ip_total_length : Z;
  ip_identification : Z;
  ip_flags_3 : Z;
  ip_time_to_live : Z;
  ip_protocol : Z;
  ip_header_checksum : Z;
  ip_source_ip : Z;
  ip_destination_ip : Z
}.

#[export] Instance eta_ipv4_header_t : Eta ipv4_header_t := λ r,
  Build_ipv4_header_t (ip_flags_1 r) (ip_flags_2 r) (ip_total_length r) (ip_identification r) (ip_flags_3 r) (ip_time_to_live r) (ip_protocol r) (ip_header_checksum r) (ip_source_ip r) (ip_destination_ip r).

Definition sizeof_ipv4_header_t : nat := 20.

Definition decode_ipv4_header_t (m : list Z) : option ipv4_header_t :=
  match m with
  | b0 :: b1 :: b2 :: b3 :: b4 :: b5 :: b6 :: b7 :: b8 :: b9 ::
    b10 :: b11 :: b12 :: b13 :: b14 :: b15 :: b16 :: b17 :: b18 :: b19 :: _ =>
    Some (Build_ipv4_header_t b0 b1 (le16 b2 b3) (le16 b4 b5) (le16 b6 b7)
      b8 b9 (le16 b10 b11) (le32 b12 b13 b14 b15) (le32 b16 b17 b18 b19))
  | _ => None
  end.

Definition encode_ipv4_header_t (h : ipv4_header_t) : list Z :=
  [ip_flags_1 h] ++
  [ip_flags_2 h] ++
  bytes16 (ip_total_length h) ++
  bytes16 (ip_identification h) ++
  bytes16 (ip_flags_3 h) ++
  [ip_time_to_live h] ++
  [ip_protocol h] ++
  bytes16 (ip_header_checksum h) ++
  bytes32 (ip_source_ip h) ++
  bytes32 (ip_destination_ip h).

Definition ipv4_header_t_ok (h : ipv4_header_t) : Prop :=
  is_u8 (ip_flags_1 h) ∧
  is_u8 (ip_flags_2 h) ∧
  is_u16 (ip_total_length h) ∧
  is_u16 (ip_identification h) ∧
  is_u16 (ip_flags_3 h) ∧
  is_u8 (ip_time_to_live h) ∧
  is_u8 (ip_protocol h) ∧
  is_u16 (ip_header_checksum h) ∧
  is_u32 (ip_source_ip h) ∧
  is_u32 (ip_destination_ip h).

(** [struct tcp_header_t] (tcp_shared.h): 20 bytes. *)
Record tcp_header_t := {
  th_source_port : Z;
  th_destination_port : Z;
  th_sequence_num : Z;
  th_acknowledgement_num : Z;
  th_data_offset : Z;
  th_control_bits : Z;
  th_window : Z;
  th_checksum : Z;
  th_urgent_pointer : Z
}.

#[export] Instance eta_tcp_header_t : Eta tcp_header_t := λ r,
  Build_tcp_header_t (th_source_port r) (th_destination_port r) (th_sequence_num r) (th_acknowledgement_num r) (th_data_offset r) (th_control_bits r) (th_window r) (th_checksum r) (th_urgent_pointer r).

Definition sizeof_tcp_header_t : nat := 20.

Definition decode_tcp_header_t (m : list Z) : option tcp_header_t :=
  match m with
  | b0 :: b1 :: b2 :: b3 :: b4 :: b5 :: b6 :: b7 :: b8 :: b9 ::
    b10 :: b11 :: b12 :: b13 :: b14 :: b15 :: b16 :: b17 :: b18 :: b19 :: _ =>
    Some (Build_tcp_header_t (le16 b0 b1) (le16 b2 b3) (le32 b4 b5 b6 b7) (le32 b8 b9 b10 b11) b12
      b13 (le16 b14 b15) (le16 b16 b17) (le16 b18 b19))
  | _ => None
  end.

Definition encode_tcp_header_t (h : tcp_header_t) : list Z :=
  bytes16 (th_source_port h) ++
  bytes16 (th_destination_port h) ++
  bytes32 (th_sequence_num h) ++
  bytes32 (th_acknowledgement_num h) ++
  [th_data_offset h] ++
  [th_control_bits h] ++
  bytes16 (th_window h) ++
  bytes16 (th_checksum h) ++
  bytes16 (th_urgent_pointer h).

Definition tcp_header_t_ok (h : tcp_header_t) : Prop :=
  is_u16 (th_source_port h) ∧
  is_u16 (th_destination_port h) ∧
  is_u32 (th_sequence_num h) ∧
  is_u32 (th_acknowledgement_num h) ∧
  is_u8 (th_data_offset h) ∧
  is_u8 (th_control_bits h) ∧
  is_u16 (th_window h) ∧
  is_u16 (th_checksum h) ∧
  is_u16 (th_urgent_pointer h).

(** [struct arp_header_t] (arp.h): 28 bytes. *)
Record arp_header_t := {
  ah_hdw_type : Z;
  ah_pro_type : Z;
  ah_hdw_addr_length : Z;
  ah_pro_addr_length : Z;
  ah_operation : Z;
  ah_sender_hardware_addr : list Z;
  ah_sender_protocol_addr : Z;
  ah_target_hardware_addr : list Z;
  ah_target_protocol_addr : Z
}.

#[export] Instance eta_arp_header_t : Eta arp_header_t := λ r,
  Build_arp_header_t (ah_hdw_type r) (ah_pro_type r) (ah_hdw_addr_length r) (ah_pro_addr_length r) (ah_operation r) (ah_sender_hardware_addr r) (ah_sender_protocol_addr r) (ah_target_hardware_addr r) (ah_target_protocol_addr r).

Definition sizeof_arp_header_t : nat := 28.

Definition decode_arp_header_t (m : list Z) : option arp_header_t :=
  match m with
  | b0 :: b1 :: b2 :: b3 :: b4 :: b5 :: b6 :: b7 :: b8 :: b9 ::
    b10 :: b11 :: b12 :: b13 :: b14 :: b15 :: b16 :: b17 :: b18 :: b19 ::
    b20 :: b21 :: b22 :: b23 :: b24 :: b25 :: b26 :: b27 :: _ =>
    Some (Build_arp_header_t (le16 b0 b1) (le16 b2 b3) b4 b5 (le16 b6 b7)
      [b8; b9; b10; b11; b12; b13] (le32 b14 b15 b16 b17) [b18; b19; b20; b21; b22; b23] (le32 b24 b25 b26 b27))
  | _ => None
  end.

Definition encode_arp_header_t (h : arp_header_t) : list Z :=
  bytes16 (ah_hdw_type h) ++
  bytes16 (ah_pro_type h) ++
  [ah_hdw_addr_length h] ++
  [ah_pro_addr_length h] ++
  bytes16 (ah_operation h) ++
  ah_sender_hardware_addr h ++
  bytes32 (ah_sender_protocol_addr h) ++
  ah_target_hardware_addr h ++
  bytes32 (ah_target_protocol_addr h).

Definition arp_header_t_ok (h : arp_header_t) : Prop :=
  is_u16 (ah_hdw_type h) ∧
  is_u16 (ah_pro_type h) ∧
  is_u8 (ah_hdw_addr_length h) ∧
  is_u8 (ah_pro_addr_length h) ∧
  is_u16 (ah_operation h) ∧
  mac_ok (ah_sender_hardware_addr h) ∧
  is_u32 (ah_sender_protocol_addr h) ∧
  mac_ok (ah_target_hardware_addr h) ∧
  is_u32 (ah_target_protocol_addr h).

(** [struct tcp_pseudo_header_t], built on the stack by [_tcp_calculate_checksum]. *)
Record tcp_pseudo_header_t := {
  ph_source_ip : Z;
  ph_destination_ip : Z;
  ph_zero : Z;
  ph_ptcl : Z;
  ph_tcp_length : Z
}.

Definition encode_tcp_pseudo_header_t (h : tcp_pseudo_header_t) : list Z :=
  bytes32 (ph_source_ip h) ++ bytes32 (ph_destination_ip h) ++
  [ph_zero h] ++ [ph_ptcl h] ++ bytes16 (ph_tcp_length h).

(** ** Round trips: reading a header back from the bytes a store of it writes *)

Ltac mac_cases H :=
  let Hl := fresh in let Hb := fresh in
  destruct H as [Hl Hb];
  repeat match type of Hl with
         | length ?m = _ => destruct m as [|? m]; simpl in Hl; try discriminate Hl
         | S (length ?m) = _ => destruct m as [|? m]; simpl in Hl; try discriminate Hl
         end.

Lemma mac_ok_inv m :
  mac_ok m → ∃ a b c d e f, m = [a; b; c; d; e; f] ∧ bytes_ok [a; b; c; d; e; f].
Proof.
  intros [Hl Hb]. do 6 (destruct m as [|? m]; [discriminate Hl|]).
  destruct m; [|discriminate Hl]. eauto 10.
Qed.

Lemma bytes_ok_app a b : bytes_ok a → bytes_ok b → bytes_ok (a ++ b).
Proof. apply Forall_app_2. Qed.
Lemma bytes_ok_1 a : is_u8 a → bytes_ok [a].
Proof. constructor; [done|constructor]. Qed.
Lemma bytes_ok_nil : bytes_ok [].
Proof. constructor. Qed.
Lemma bytes_ok_cons a l : is_u8 a → bytes_ok l → bytes_ok (a :: l).
Proof. by constructor. Qed.
#[export] Hint Resolve bytes_ok_app bytes_ok_1 bytes_ok_nil bytes_ok_cons : net.

(** Splits a header hypothesis, opens its MAC addresses and rewrites every
    field with the round trip of its width. *)
Ltac solve_decode_encode Hok :=
  repeat match type of Hok with
         | _ ∧ _ => let H := fresh in destruct Hok as [H Hok]
         end;
  repeat match goal with
         | H : mac_ok ?m |- _ =>
             apply mac_ok_inv in H; destruct H as (? & ? & ? & ? & ? & ? & -> & ?)
         end;
  cbn -[Z.modulo Z.div le16 le32];
  repeat first [rewrite le16_bytes16 by assumption | rewrite le32_bytes32 by assumption];
  done.

(** Takes the bytes of a memory [m] the decoder reads one by one. *)
Ltac solve_decode_ok Hm Hd :=
  repeat match type of Hd with
         | match ?m with _ => _ end = Some _ =>
             let b := fresh "b" in destruct m as [|b m]; [discriminate Hd|]
         | _ => progress (unfold decode_ethernet_header_t, decode_ipv4_header_t,
                            decode_tcp_header_t, decode_arp_header_t in Hd)
         end;
  injection Hd as <-;
  unfold bytes_ok in Hm;
  repeat match type of Hm with Forall _ (_ :: _) =>
           let H := fresh in apply Forall_cons in Hm; destruct Hm as [H Hm] end;
  hnf; simpl; unfold mac_ok, bytes_ok;
  repeat match goal with |- _ ∧ _ => split end;
  try match goal with |- Forall _ _ => repeat constructor end; auto with net;
  match goal with H : is_u8 ?b |- _ <= ?b => apply H | H : is_u8 ?b |- ?b < _ => apply H end.

Section RoundTrips.
Lemma decode_encode_ethernet h rest :
  ethernet_header_t_ok h →
  decode_ethernet_header_t (encode_ethernet_header_t h ++ rest) = Some h.
Proof. destruct h as [d s t]. intros Hok. hnf in Hok. simpl in Hok. solve_decode_encode Hok. Qed.

Lemma decode_encode_ipv4 h rest :
  ipv4_header_t_ok h →
  decode_ipv4_header_t (encode_ipv4_header_t h ++ rest) = Some h.
Proof. destruct h. intros Hok. hnf in Hok. simpl in Hok. solve_decode_encode Hok. Qed.

Lemma decode_encode_tcp h rest :
  tcp_header_t_ok h →
  decode_tcp_header_t (encode_tcp_header_t h ++ rest) = Some h.
Proof. destruct h. intros Hok. hnf in Hok. simpl in Hok. solve_decode_encode Hok. Qed.

Lemma decode_encode_arp h rest :
  arp_header_t_ok h →
  decode_arp_header_t (encode_arp_header_t h ++ rest) = Some h.
Proof. destruct h. intros Hok. hnf in Hok. simpl in Hok. solve_decode_encode Hok. Qed.

(** What a header cast reads from bytes is within the ranges of its fields. *)
Lemma decode_ethernet_ok m h :
  bytes_ok m → decode_ethernet_header_t m = Some h → ethernet_header_t_ok h.
Proof. intros Hm Hd. solve_decode_ok Hm Hd. Qed.

Lemma decode_ipv4_ok m h :
  bytes_ok m → decode_ipv4_header_t m = Some h → ipv4_header_t_ok h.
Proof. intros Hm Hd. solve_decode_ok Hm Hd. Qed.

Lemma decode_tcp_ok m h :
  bytes_ok m → decode_tcp_header_t m = Some h → tcp_header_t_ok h.
Proof. intros Hm Hd. solve_decode_ok Hm Hd. Qed.

Lemma decode_arp_ok m h :
  bytes_ok m → decode_arp_header_t m = Some h → arp_header_t_ok h.
Proof. intros Hm Hd. solve_decode_ok Hm Hd. Qed.

(** A stored header has the size the C compiler gives the struct. *)
Lemma length_encode_ethernet h :
  ethernet_header_t_ok h → length (encode_ethernet_header_t h) = sizeof_ethernet_header_t.
Proof. intros ([Hd _] & [Hs _] & _). unfold encode_ethernet_header_t. rewrite !length_app, Hd, Hs. done. Qed.

Lemma length_encode_ipv4 h : length (encode_ipv4_header_t h) = sizeof_ipv4_header_t.
Proof. done. Qed.

Lemma length_encode_tcp h : length (encode_tcp_header_t h) = sizeof_tcp_header_t.
Proof. done. Qed.

Lemma length_encode_arp h :
  arp_header_t_ok h → length (encode_arp_header_t h) = sizeof_arp_header_t.
Proof.
  intros (_ & _ & _ & _ & _ & [Hs _] & _ & [Ht _] & _).
  unfold encode_arp_header_t. rewrite !length_app, Hs, Ht. done.
Qed.

Lemma encode_ethernet_bytes_ok h : ethernet_header_t_ok h → bytes_ok (encode_ethernet_header_t h).
Proof. intros ([_ ?] & [_ ?] & ?). unfold encode_ethernet_header_t. auto with net. Qed.

Lemma encode_ipv4_bytes_ok h : ipv4_header_t_ok h → bytes_ok (encode_ipv4_header_t h).
Proof. intros Hok. unfold encode_ipv4_header_t. destruct_and! Hok. repeat apply bytes_ok_app; auto with net. Qed.

Lemma encode_tcp_bytes_ok h : tcp_header_t_ok h → bytes_ok (encode_tcp_header_t h).
Proof. intros Hok. unfold encode_tcp_header_t. destruct_and! Hok. repeat apply bytes_ok_app; auto with net. Qed.
End RoundTrips.

Create Rewrite HintDb net_decode.
#[export] Hint Rewrite decode_encode_ethernet decode_encode_ipv4 decode_encode_tcp
  decode_encode_arp using assumption : net_decode.
