(* ===== verification/ProtocolMap.v ===== *)
(** * ProtocolMap: the tables from protocol numbers to handlers

    [handlers/protocol_map.c].  A table is a fixed array of entries; key 0 marks a
    free entry and ends a search.  A lookup counts a hit on the entry it finds and
    moves the entry one place up when it overtakes its predecessor.  A value is a
    pointer to a handler ([None] is the null pointer). *)

From S2P Require Import Prelude.

Record key_val_t := {
  kv_key : Z;
  kv_priority : Z;
  kv_value : option nat
}.
#[export] Instance eta_key_val_t : Eta key_val_t := λ r,
  Build_key_val_t (kv_key r) (kv_priority r) (kv_value r).

Record priority_map_t := {
  pm_max_size : Z;
  pm_map : list key_val_t
}.
#[export] Instance eta_priority_map_t : Eta priority_map_t := λ r,
  Build_priority_map_t (pm_max_size r) (pm_map r).

#[export] Instance key_val_t_eq_dec : EqDecision key_val_t.
Proof. solve_decision. Defined.

(** A statically allocated table of [max_size] zero entries. *)
Definition empty_priority_map (max_size : Z) : priority_map_t :=
  {| pm_max_size := max_size;
     pm_map := replicate (Z.to_nat max_size)
                 {| kv_key := 0; kv_priority := 0; kv_value := None |} |}.

(** [add_value]: the loop over the entries from [i] on; the result code and the
    entries. *)
Fixpoint add_value_loop (key_vals : list key_val_t) (key : Z) (value : option nat)
    : Z * list key_val_t :=
  match key_vals with
  | [] => (-1, [])
  | key_val :: key_vals =>
      if kv_key key_val =? 0
      then (0, {| kv_key := key; kv_priority := 0; kv_value := value |} :: key_vals)
      else let '(r, key_vals) := add_value_loop key_vals key value in
           (r, key_val :: key_vals)
  end.

Definition add_value (map : priority_map_t) (key : Z) (value : option nat)
    : Z * priority_map_t :=
  let '(r, key_vals) := add_value_loop (pm_map map) key value in
  (r, map <| pm_map := key_vals |>).

(** What [get_value] does at the index [i] whose entry has the key: count the hit,
    exchange the entry with a predecessor it overtakes, and return the value that is
    then at index [i]. *)
Definition get_value_hit (map : priority_map_t) (i : nat) (key_val : key_val_t)
    : option nat * priority_map_t :=
  let key_val := key_val <| kv_priority ::= λ p, u64 (p + 1) |> in
  let key_vals := <[i := key_val]> (pm_map map) in
  let key_vals :=
    match i with
    | O => key_vals
    | S i' =>
        match key_vals !! i' with
        | Some previous =>
            if kv_priority previous <? kv_priority key_val
            then <[i := previous]> (<[i' := key_val]> key_vals)
            else key_vals
        | None => key_vals
        end
    end in
  (key_vals !! i ≫= kv_value, map <| pm_map := key_vals |>).

(** The loop of [get_value]; its index is a [uint8_t], so it wraps at 256. *)
Fixpoint get_value_loop (fuel : nat) (map : priority_map_t) (key : Z) (i : Z)
    : outcome (option nat * priority_map_t) :=
  match fuel with
  | O => OutOfFuel
  | S fuel =>
      if pm_max_size map <=? i then Ok (None, map)
      else match pm_map map !! Z.to_nat i with
           | None => Fault OutOfBounds
           | Some key_val =>
               if kv_key key_val =? 0 then Ok (None, map)
               else if kv_key key_val =? key then Ok (get_value_hit map (Z.to_nat i) key_val)
               else get_value_loop fuel map key (u8 (i + 1))
           end
  end.

(** 257 rounds visit every value of the index and the one after it. *)
Definition get_value (map : priority_map_t) (key : Z) : outcome (option nat * priority_map_t) :=
  get_value_loop 257 map key 0.

(** ** Specification *)

(** The table has as many entries as its [max_size] says. *)
Definition pm_wf (map : priority_map_t) : Prop :=
  0 <= pm_max_size map ∧ length (pm_map map) = Z.to_nat (pm_max_size map).

(** Entry [i] is the one a search for [key] reaches: its key is [key], and no
    earlier entry is free or has that key. *)
Definition pm_index (map : priority_map_t) (key : Z) (i : nat) (kv : key_val_t) : Prop :=
  pm_map map !! i = Some kv ∧ kv_key kv = key ∧
  ∀ j kv', (j < i)%nat → pm_map map !! j = Some kv' → kv_key kv' ≠ 0 ∧ kv_key kv' ≠ key.

(** A search for [key] stops at entry [i], free or past the end, without a hit. *)
Definition pm_stops (map : priority_map_t) (key : Z) (i : nat) : Prop :=
  (Z.of_nat i = pm_max_size map ∨ ∃ kv, pm_map map !! i = Some kv ∧ kv_key kv = 0) ∧
  ∀ j, (j < i)%nat → ∃ kv', pm_map map !! j = Some kv' ∧ kv_key kv' ≠ 0 ∧ kv_key kv' ≠ key.

Definition kv_pair (kv : key_val_t) : Z * option nat := (kv_key kv, kv_value kv).

Section Search.
Context (map : priority_map_t) (key : Z).

(** The search skips entries that are neither free nor the key's. *)
Lemma get_value_loop_skip n fuel i :
  pm_wf map → (i + n <= 255)%nat → (i + n <= Z.to_nat (pm_max_size map))%nat →
  (∀ j, (i <= j < i + n)%nat →
     ∃ kv, pm_map map !! j = Some kv ∧ kv_key kv ≠ 0 ∧ kv_key kv ≠ key) →
  get_value_loop (n + fuel) map key (Z.of_nat i)
  = get_value_loop fuel map key (Z.of_nat (i + n)).
Proof.
  intros Hwf Hb Hm Hskip. revert i Hb Hm Hskip.
  induction n as [|n IH]; intros i Hb Hm Hskip; [by rewrite Nat.add_0_r|].
  destruct (Hskip i ltac:(lia)) as (kv & Hkv & Hz & Hk). cbn [get_value_loop Nat.add].
  rewrite Nat2Z.id, Hkv.
  destruct (Z.leb_spec (pm_max_size map) (Z.of_nat i)); [lia|].
  rewrite (proj2 (Z.eqb_neq _ _) Hz), (proj2 (Z.eqb_neq _ _) Hk).
  rewrite u8_id by range. replace (Z.of_nat i + 1) with (Z.of_nat (S i)) by lia.
  rewrite IH by (done || lia || (intros; apply Hskip; lia)). do 2 f_equal; lia.
Qed.

Lemma pm_index_lt i kv : pm_wf map → pm_index map key i kv → (i < Z.to_nat (pm_max_size map))%nat.
Proof. intros [_ Hl] [Hi _]. rewrite <- Hl. by eapply lookup_lt_Some. Qed.

Lemma get_value_at i kv :
  pm_wf map → key ≠ 0 → (i < 256)%nat → pm_index map key i kv →
  get_value map key = Ok (get_value_hit map i kv).
Proof.
  intros Hwf Hk Hi Hidx. pose proof (pm_index_lt i kv Hwf Hidx) as Hlt.
  destruct Hidx as (Hkv & Hkey & Hbefore). destruct Hwf as [Hpos Hlen].
  unfold get_value. replace 257%nat with (i + S (256 - i))%nat by lia.
  change 0 with (Z.of_nat 0). rewrite get_value_loop_skip; [| |lia|lia|]; cycle 1.
  { by split. }
  { intros j Hj. destruct (lookup_lt_is_Some_2 (pm_map map) j) as [kv' Hkv']; [lia|].
    exists kv'. split; [done|]. apply (Hbefore j); [lia|done]. }
  cbn [get_value_loop]. rewrite Nat.add_0_l, Nat2Z.id, Hkv, Hkey.
  destruct (Z.leb_spec (pm_max_size map) (Z.of_nat i)); [lia|].
  by rewrite (proj2 (Z.eqb_neq _ _) Hk), Z.eqb_refl.
Qed.
End Search.

Section Hits.
Lemma get_value_hit_pairs map i kv :
  pm_map map !! i = Some kv →
  kv_pair <$> pm_map (snd (get_value_hit map i kv)) ≡ₚ kv_pair <$> pm_map map.
Proof.
  intros Hi. unfold get_value_hit. cbn [snd set_field pm_map].
  set (kv' := Build_key_val_t _ _ _).
  assert (kv_pair <$> <[i:=kv']> (pm_map map) = kv_pair <$> pm_map map) as Hb.
  { rewrite list_fmap_insert. apply list_insert_id. rewrite list_lookup_fmap, Hi. done. }
  destruct i as [|i]; [by rewrite Hb|]. destruct (_ !! i) as [prev|] eqn:Hp; [|by rewrite Hb].
  destruct (_ <? _); [|by rewrite Hb]. rewrite <- Hb.
  assert (<[S i:=kv']> (pm_map map) !! S i = Some kv') as Hs.
  { apply list_lookup_insert_eq. by eapply lookup_lt_Some. }
  set (l := <[S i:=kv']> (pm_map map)) in *. clearbody l. clear -Hp Hs.
  revert i Hp Hs. induction l as [|a l IH]; intros i Hp Hs; [done|].
  destruct i as [|i].
  - destruct l as [|b l]; simplify_eq/=. constructor.
  - simpl in *. f_equiv. apply IH; [done|]. done.
Qed.

Lemma get_value_hit_max_size map i kv :
  pm_max_size (snd (get_value_hit map i kv)) = pm_max_size map.
Proof. done. Qed.

Lemma get_value_hit_length map i kv :
  length (pm_map (snd (get_value_hit map i kv))) = length (pm_map map).
Proof.
  unfold get_value_hit. cbn [snd set_field pm_map].
  destruct i as [|i]; [by rewrite length_insert|].
  destruct (_ !! i); [|by rewrite length_insert].
  destruct (_ <? _); by rewrite !length_insert.
Qed.

(** Every result of the search comes from a hit, or leaves the table alone. *)
Lemma get_value_loop_inv fuel map key i v map' :
  get_value_loop fuel map key i = Ok (v, map') →
  (v = None ∧ map' = map) ∨
  ∃ j kv, pm_map map !! j = Some kv ∧ kv_key kv = key ∧ (v, map') = get_value_hit map j kv.
Proof.
  revert i. induction fuel as [|fuel IH]; intros i Hg; [done|]. cbn [get_value_loop] in Hg.
  destruct (_ <=? _); [naive_solver|].
  destruct (pm_map map !! Z.to_nat i) as [kv|] eqn:Hkv; [|done].
  destruct (kv_key kv =? 0); [naive_solver|].
  destruct (Z.eqb_spec (kv_key kv) key); [|by apply IH in Hg].
  right. exists (Z.to_nat i), kv. split; [done|]. split; [done|]. congruence.
Qed.
End Hits.

Lemma get_value_kept map key i kv :
  pm_wf map → key ≠ 0 → (i < 256)%nat → pm_index map key i kv →
  (∀ prev, (0 < i)%nat → pm_map map !! (i - 1)%nat = Some prev →
     u64 (kv_priority kv + 1) <= kv_priority prev) →
  get_value map key =
  Ok (kv_value kv,
      map <| pm_map ::= <[i := kv <| kv_priority := u64 (kv_priority kv + 1) |>]> |>).
Proof.
  intros Hwf Hk Hi Hidx Hprev. rewrite (get_value_at map key i kv) by done.
  destruct Hidx as (Hkv & _). f_equal. unfold get_value_hit.
  cbn [set_field kv_priority kv_key kv_value].
  assert (<[i := kv <| kv_priority := u64 (kv_priority kv + 1) |>]> (pm_map map) !! i =
    Some (kv <| kv_priority := u64 (kv_priority kv + 1) |>)) as Hl
    by (apply list_lookup_insert_eq; by eapply lookup_lt_Some).
  destruct i as [|i]; [simpl in *; by rewrite Hl|].
  rewrite list_lookup_insert_ne by lia.
  destruct (pm_map map !! i) as [prev|] eqn:Hp; [|simpl in *; by rewrite Hl].
  specialize (Hprev prev ltac:(lia)). rewrite Nat.sub_1_r in Hprev. specialize (Hprev Hp).
  destruct (Z.ltb_spec (kv_priority prev) (u64 (kv_priority kv + 1))); [lia|].
  simpl in *. by rewrite Hl.
Qed.

(** The first entry of a table is found without an exchange, and stays the first. *)
Definition leads (map : priority_map_t) (key : Z) (h : nat) : Prop :=
  pm_wf map ∧ key ≠ 0 ∧ ∃ kv, pm_map map !! 0%nat = Some kv ∧ kv_key kv = key ∧ kv_value kv = Some h.

Lemma get_value_leads map key h :
  leads map key h → ∃ map', get_value map key = Ok (Some h, map') ∧ leads map' key h.
Proof.
  intros ((Hpos & Hlen) & Hk & kv & Hkv & Hkey & Hv). eexists. split.
  - rewrite (get_value_kept map key 0 kv); [by rewrite Hv|done|done|lia| |lia].
    split; [done|]. split; [done|lia].
  - split; [|split; [done|]].
    + split; [done|]. simpl. by rewrite length_insert.
    + exists (kv <| kv_priority := u64 (kv_priority kv + 1) |>). split; [|by split].
      apply list_lookup_insert_eq. by eapply lookup_lt_Some.
Qed.

Lemma get_value_swap map key i kv prev :
  pm_wf map → key ≠ 0 → (S i < 256)%nat → pm_index map key (S i) kv →
  pm_map map !! i = Some prev → kv_priority prev < u64 (kv_priority kv + 1) →
  kv_key prev ≠ key ∧
  get_value map key =
  Ok (kv_value prev,
      map <| pm_map ::= λ l, <[S i := prev]>
               (<[i := kv <| kv_priority := u64 (kv_priority kv + 1) |>]> l) |>).
Proof.
  intros Hwf Hk Hi Hidx Hp Hlt. split.
  { destruct Hidx as (_ & _ & Hb). by apply (Hb i prev ltac:(lia)). }
  rewrite (get_value_at map key (S i) kv) by done. destruct Hidx as (Hkv & _).
  f_equal. unfold get_value_hit. cbn [set_field kv_priority kv_key kv_value].
  rewrite list_lookup_insert_ne by lia. rewrite Hp.
  destruct (Z.ltb_spec (kv_priority prev) (u64 (kv_priority kv + 1))); [|lia].
  rewrite list_lookup_insert_eq.
  2: { rewrite !length_insert. by eapply lookup_lt_Some. }
  cbn [mbind option_bind]. f_equal. simpl. f_equal.
  by rewrite (list_insert_insert_ne _ i (S i)), list_insert_insert_eq by lia.
Qed.

(** C37: a lookup of a registered protocol.  As long as its entry does not overtake its
    predecessor, it returns the registered handler and counts the hit.  When the entry does
    overtake it, the two are exchanged before the value is read again, and the lookup
    returns the handler of the predecessor, which is registered for another protocol. *)
Theorem get_value_found map key i kv :
  pm_wf map → key ≠ 0 → (i < 256)%nat → pm_index map key i kv →
  let priority := u64 (kv_priority kv + 1) in
  let counted := <[i := kv <| kv_priority := priority |>]> (pm_map map) in
  ((∀ prev, (0 < i)%nat → pm_map map !! (i - 1)%nat = Some prev → priority <= kv_priority prev) →
   get_value map key = Ok (kv_value kv, map <| pm_map := counted |>)) ∧
  (∀ j prev, i = S j → pm_map map !! j = Some prev → kv_priority prev < priority →
   kv_key prev ≠ key ∧
   get_value map key =
   Ok (kv_value prev,
       map <| pm_map := <[i := prev]> (<[j := kv <| kv_priority := priority |>]> (pm_map map)) |>)).
Proof.
  intros Hwf Hk Hi Hidx priority counted. split.
  - intros Hprev. by apply (get_value_kept map key i kv).
  - intros j prev -> Hp Hlt. by apply (get_value_swap map key j kv prev).
Qed.

(** A lookup of a protocol that is not registered returns no handler and leaves
    the table unchanged, when the table is used up to at most 255 entries. *)
Lemma get_value_missing map key i :
  pm_wf map → (i <= 255)%nat → pm_stops map key i → get_value map key = Ok (None, map).
Proof.
  intros Hwf Hi [Hend Hbefore]. unfold get_value. destruct Hwf as [Hpos Hlen].
  assert (i <= Z.to_nat (pm_max_size map))%nat as Him.
  { destruct Hend as [?|(kv & Hkv & _)]; [lia|]. rewrite <- Hlen.
    apply lookup_lt_Some in Hkv. lia. }
  replace 257%nat with (i + S (256 - i))%nat by lia. change 0 with (Z.of_nat 0).
  rewrite get_value_loop_skip; [|by split|lia|lia|intros j Hj; apply Hbefore; lia].
  cbn [get_value_loop]. rewrite Nat.add_0_l, Nat2Z.id.
  destruct (Z.leb_spec (pm_max_size map) (Z.of_nat i)); [done|].
  destruct Hend as [?|(kv & -> & Hz)]; [lia|]. by rewrite Hz.
Qed.

(** With 256 or more registrations and an unregistered protocol the 8-bit index
    wraps around and the search never ends. *)
Lemma get_value_diverges map key fuel i :
  is_u8 i → 256 <= pm_max_size map →
  (∀ j, (j < 256)%nat → ∃ kv, pm_map map !! j = Some kv ∧ kv_key kv ≠ 0 ∧ kv_key kv ≠ key) →
  get_value_loop fuel map key i = OutOfFuel.
Proof.
  intros Hi Hm Hall. revert i Hi. induction fuel as [|fuel IH]; intros i Hi; [done|].
  cbn [get_value_loop]. unfold is_u8 in Hi. destruct (Z.leb_spec (pm_max_size map) i); [lia|].
  destruct (Hall (Z.to_nat i) ltac:(lia)) as (kv & -> & Hz & Hk).
  rewrite (proj2 (Z.eqb_neq _ _) Hz), (proj2 (Z.eqb_neq _ _) Hk). apply IH, u8_range.
Qed.

(** Lookups only reorder the entries and count hits: which handler is
    registered for which protocol does not change. *)
Lemma get_value_preserves_entries map key v map' :
  pm_wf map → get_value map key = Ok (v, map') →
  pm_wf map' ∧ kv_pair <$> pm_map map' ≡ₚ kv_pair <$> pm_map map.
Proof.
  intros [Hpos Hlen] Hg. apply get_value_loop_inv in Hg as [[_ ->]|(j & kv & Hj & _ & Hh)];
    [by split|].
  apply (f_equal snd) in Hh. change (map' = snd (get_value_hit map j kv)) in Hh. subst map'. split; [split|].
  - done.
  - rewrite get_value_hit_length. done.
  - by apply get_value_hit_pairs.
Qed.

Section Registration.
Lemma add_value_loop_free l n key value kv :
  l !! n = Some kv → kv_key kv = 0 →
  (∀ j kv', (j < n)%nat → l !! j = Some kv' → kv_key kv' ≠ 0) →
  add_value_loop l key value =
  (0, <[n := {| kv_key := key; kv_priority := 0; kv_value := value |}]> l).
Proof.
  revert n. induction l as [|x l IH]; intros n Hn Hz Hb; [done|]. simpl.
  destruct n as [|n].
  - simpl in Hn. injection Hn as ->. by rewrite Hz.
  - pose proof (Hb 0%nat x ltac:(lia) eq_refl) as Hx.
    rewrite (proj2 (Z.eqb_neq _ _) Hx).
    rewrite (IH n); [done|done|done|]. intros j kv' Hj. apply (Hb (S j)). lia.
Qed.

Lemma add_value_loop_full l key value :
  (∀ kv, kv ∈ l → kv_key kv ≠ 0) → add_value_loop l key value = (-1, l).
Proof.
  induction l as [|x l IH]; intros Hall; [done|]. simpl.
  rewrite (proj2 (Z.eqb_neq _ _) (Hall x ltac:(set_solver))), IH by set_solver. done.
Qed.
End Registration.

(** Registering a new protocol in a table with a free entry succeeds; a search
    for it then reaches the new entry, and searches for the protocols registered
    before reach the entries they reached. *)
Lemma add_value_registers map key value n :
  pm_wf map → key ≠ 0 → pm_stops map key n → (n < Z.to_nat (pm_max_size map))%nat →
  ∃ map', add_value map key value = (0, map') ∧ pm_wf map' ∧
    pm_index map' key n {| kv_key := key; kv_priority := 0; kv_value := value |} ∧
    ∀ key' j kv, key' ≠ 0 → pm_index map key' j kv → pm_index map' key' j kv.
Proof.
  intros [Hpos Hlen] Hk [Hend Hbefore] Hn.
  destruct Hend as [?|(kv0 & Hkv0 & Hz0)]; [lia|].
  unfold add_value. rewrite (add_value_loop_free _ n _ _ kv0); [|done|done|]; cycle 1.
  { intros j kv' Hj Hkv'. destruct (Hbefore j Hj) as (? & ? & ? & ?). by simplify_eq. }
  eexists. split; [done|]. split; [|split].
  - split; simpl; rewrite ?length_insert; done.
  - split; [|split]; simpl; [apply list_lookup_insert_eq; lia|done|].
    intros j kv' Hj. rewrite list_lookup_insert_ne by lia. intros Hkv'.
    destruct (Hbefore j Hj) as (? & ? & ? & ?). by simplify_eq.
  - intros key' j kv Hk' (Hj & Hkey & Hb). assert (j < n)%nat as Hjn.
    { destruct (decide (j < n)%nat); [done|exfalso]. destruct (decide (j = n)) as [->|].
      - by simplify_eq.
      - by destruct (Hb n kv0 ltac:(lia) Hkv0). }
    split; [|split]; simpl; [by rewrite list_lookup_insert_ne by lia|done|].
    intros i kv' Hi. rewrite list_lookup_insert_ne by lia. by apply Hb.
Qed.

(** A full table refuses a registration with -1 and stays as it is. *)
Lemma add_value_full map key value :
  (∀ kv, kv ∈ pm_map map → kv_key kv ≠ 0) → add_value map key value = (-1, map).
Proof. intros H. unfold add_value. rewrite add_value_loop_full by done. by destruct map. Qed.

(** ** Witnesses: the registrations of [net_stack_init], ARP and then IPv4 *)

Definition example_map : priority_map_t :=
  snd (add_value (snd (add_value (empty_priority_map 512) 1544 (Some 7%nat))) 8 (Some 9%nat)).

Lemma example_map_wf : pm_wf example_map.
Proof. split; [discriminate|reflexivity]. Qed.

Lemma example_map_arp :
  pm_index example_map 1544 0 {| kv_key := 1544; kv_priority := 0; kv_value := Some 7%nat |}.
Proof. split; [reflexivity|]. split; [reflexivity|]. lia. Qed.

Lemma example_map_ipv4 :
  pm_index example_map 8 1 {| kv_key := 8; kv_priority := 0; kv_value := Some 9%nat |}.
Proof.
  split; [reflexivity|]. split; [reflexivity|]. intros j kv Hj.
  replace j with 0%nat by lia. vm_compute. intros [= <-]. done.
Qed.

Lemma example_map_stops : pm_stops example_map 7 2.
Proof.
  split.
  - right. eexists. split; reflexivity.
  - intros j Hj. destruct j as [|[|j]]; [| |lia]; eexists; (split; [reflexivity|]); done.
Qed.

Lemma get_value_found_witness :
  fst <$> match get_value example_map 1544 with Ok r => Some r | _ => None end = Some (Some 7%nat) ∧
  fst <$> match get_value example_map 8 with Ok r => Some r | _ => None end = Some (Some 7%nat).
Proof.
  split.
  - destruct (get_value_found example_map 1544 0 _ example_map_wf ltac:(done) ltac:(lia) example_map_arp)
      as [H _].
    rewrite H; [reflexivity|]. intros prev Hi. lia.
  - destruct (get_value_found example_map 8 1 _ example_map_wf ltac:(done) ltac:(lia) example_map_ipv4)
      as [_ H].
    destruct (H 0%nat {| kv_key := 1544; kv_priority := 0; kv_value := Some 7%nat |} eq_refl eq_refl
      ltac:(done)) as [_ E]. rewrite E. reflexivity.
Defined.

Example get_value_missing_example : get_value example_map 7 = Ok (None, example_map).
Proof. apply (get_value_missing example_map 7 2 example_map_wf ltac:(lia) example_map_stops). Qed.

Definition full_map : priority_map_t :=
  {| pm_max_size := 512;
     pm_map := replicate 512 {| kv_key := 1; kv_priority := 0; kv_value := None |} |}.

Example get_value_diverges_example :
  pm_max_size full_map = 512 ∧ ∀ fuel, get_value_loop fuel full_map 2 0 = OutOfFuel.
Proof.
  split; [done|]. intros fuel. apply (get_value_diverges full_map 2 fuel 0); [done|done|].
  intros j Hj. eexists. split; [apply lookup_replicate_2; lia|]. done.
Qed.

Example get_value_preserves_entries_example :
  ∃ v map', get_value example_map 8 = Ok (v, map') ∧
    kv_pair <$> pm_map map' ≡ₚ kv_pair <$> pm_map example_map.
Proof.
  destruct (get_value example_map 8) as [[v map']| |] eqn:E; [|discriminate E|discriminate E].
  exists v, map'. split; [done|].
  apply (get_value_preserves_entries example_map 8 v map' example_map_wf E).
Qed.

Example add_value_registers_example :
  ∃ map', add_value example_map 7 (Some 3%nat) = (0, map') ∧
    pm_index map' 7 2 {| kv_key := 7; kv_priority := 0; kv_value := Some 3%nat |}.
Proof.
  destruct (add_value_registers example_map 7 (Some 3%nat) 2 example_map_wf ltac:(done)
    example_map_stops) as (map' & H & _ & Hi & _); [vm_compute; lia|eauto].
Qed.

Example add_value_full_example : add_value full_map 2 None = (-1, full_map).
Proof.
  apply add_value_full. intros kv Hkv. by apply elem_of_replicate_inv in Hkv as ->.
Qed.
