(* ===== verification/Checksum.v ===== *)
(** * Checksum: the internet checksum of IPv4 and TCP

    [ipv4_calculate_checksum] (ipv4.c) adds 16-bit words with an end-around carry
    at every step; [tcp_calculate_checksum] (tcp_shared.c) adds them in 32 bits
    and folds the carries at the end.  Both are shown equal to one reference, the
    one's-complement sum [oc_norm] of the words, in host and in network order.
    Memory is the list of bytes from the header pointer on; [None] is a read past
    the end of it. *)

From S2P Require Import Prelude Headers.

Definition IPV4_IHL_MASK : Z := 15.
Definition TCP_DATA_OFFSET_MASK : Z := 240.

(** The [uint16_t] loads of [n] consecutive words; the accumulation of each routine. *)
Fixpoint ipv4_checksum_loop (n : nat) (data : list Z) (sum : Z) : option Z :=
  match n with
  | O => Some sum
  | S n =>
      match data with
      | b0 :: b1 :: data =>
          let byte := le16 b0 b1 in
          let sum := u16 (sum + byte) in
          ipv4_checksum_loop n data (if sum <? byte then u16 (sum + 1) else sum)
      | _ => None
      end
  end.

Definition ipv4_calculate_checksum (header : list Z) : option Z :=
  match header with
  | flags_1 :: _ =>
      let length := u8 (Z.land flags_1 IPV4_IHL_MASK * 2) in
      sum ← ipv4_checksum_loop (Z.to_nat length) header 0;
      Some (u16 (Z.lnot sum))
  | [] => None
  end.

Fixpoint tcp_checksum_loop (n : nat) (data : list Z) (sum : Z) : option Z :=
  match n with
  | O => Some sum
  | S n =>
      match data with
      | b0 :: b1 :: data => tcp_checksum_loop n data (u32 (sum + le16 b0 b1))
      | _ => None
      end
  end.

(** [while (sum>>16) sum = (sum & 0xffff) + (sum >> 16)]; [None] when the fuel
    runs out. *)
Fixpoint tcp_checksum_fold (fuel : nat) (sum : Z) : option Z :=
  if Z.shiftr sum 16 =? 0 then Some sum
  else match fuel with
       | O => None
       | S fuel => tcp_checksum_fold fuel (u32 (Z.land sum 65535 + Z.shiftr sum 16))
       end.

Definition tcp_calculate_checksum (pseudo_header : tcp_pseudo_header_t) (header : list Z)
    : option Z :=
  let length := ntohs (ph_tcp_length pseudo_header) / 2 in
  sum ← tcp_checksum_loop 6 (encode_tcp_pseudo_header_t pseudo_header) 0;
  sum ← tcp_checksum_loop (Z.to_nat length) header sum;
  sum ← tcp_checksum_fold 3 sum;
  Some (u16 (Z.lnot sum)).

Definition _tcp_calculate_checksum (tcp_header : list Z)
    (source_ip destination_ip payload_size : Z) : option Z :=
  data_offset ← tcp_header !! 12%nat;
  let tcp_header_size := u16 (Z.shiftr data_offset 4 * 4) in
  let pseudo_header :=
    {| ph_source_ip := source_ip; ph_destination_ip := destination_ip;
       ph_zero := 0; ph_ptcl := 6;
       ph_tcp_length := htons (u16 (tcp_header_size + payload_size)) |} in
  tcp_calculate_checksum pseudo_header tcp_header.

(** ** Reference: the one's-complement sum of RFC 1071 *)

(** The 16-bit words of a memory, an odd last byte left out, and the same words
    read in network order. *)
Fixpoint words16 (m : list Z) : list Z :=
  match m with
  | b0 :: b1 :: m => le16 b0 b1 :: words16 m
  | _ => []
  end.
Fixpoint words16_be (m : list Z) : list Z :=
  match m with
  | b0 :: b1 :: m => (b0 * 256 + b1) :: words16_be m
  | _ => []
  end.

Definition sum_list (l : list Z) : Z := foldr Z.add 0 l.

(** The representative of a sum modulo [2^16 - 1]: 0 for the empty sum, else
    between 1 and [0xFFFF]. *)
Definition oc_norm (n : Z) : Z := if n =? 0 then 0 else (n - 1) mod 65535 + 1.

(** The checksum RFC 791 and RFC 9293 ask for. *)
Definition rfc1071_checksum (words : list Z) : Z := 65535 - oc_norm (sum_list words).

Section OneComplement.
Lemma oc_norm_range n : 0 <= n → is_u16 (oc_norm n).
Proof. unfold oc_norm, is_u16. destruct (Z.eqb_spec n 0); lia. Qed.

Lemma oc_norm_small n : is_u16 n → oc_norm n = n.
Proof. unfold oc_norm, is_u16. destruct (Z.eqb_spec n 0); lia. Qed.

Lemma oc_norm_pos n : 0 < n → 0 < oc_norm n.
Proof. unfold oc_norm. destruct (Z.eqb_spec n 0); lia. Qed.

Lemma oc_norm_congr n : 0 <= n → (oc_norm n) mod 65535 = n mod 65535.
Proof. unfold oc_norm. destruct (Z.eqb_spec n 0); lia. Qed.

(** Two positive sums have the same representative iff they are congruent. *)
Lemma oc_norm_eq a b : 0 < a → 0 < b → oc_norm a = oc_norm b ↔ a mod 65535 = b mod 65535.
Proof.
  intros Ha Hb. unfold oc_norm.
  destruct (Z.eqb_spec a 0), (Z.eqb_spec b 0); lia.
Qed.

(** One end-around-carry addition. *)
Lemma oc_norm_add s a :
  0 <= s → is_u16 a →
  (if u16 (oc_norm s + a) <? a then u16 (u16 (oc_norm s + a) + 1)
   else u16 (oc_norm s + a)) = oc_norm (s + a).
Proof.
  intros Hs Ha. pose proof (oc_norm_range s Hs) as Hr.
  pose proof (oc_norm_congr s Hs) as Hc. unfold is_u16 in *.
  assert (oc_norm s = 0 ↔ s = 0) as H0
    by (unfold oc_norm; destruct (Z.eqb_spec s 0); lia).
  unfold oc_norm at 4, u16.
  destruct (Z.eqb_spec (s + a) 0); destruct (Z.ltb_spec ((oc_norm s + a) mod 65536) a); lia.
Qed.

(** Folding the high half into the low half keeps the representative. *)
Lemma oc_norm_fold n :
  0 <= n → oc_norm (Z.land n 65535 + Z.shiftr n 16) = oc_norm n.
Proof.
  intros Hn. change 65535 with (Z.ones 16).
  rewrite Z.land_ones, Z.shiftr_div_pow2 by lia. change (2 ^ 16) with 65536.
  unfold oc_norm.
  destruct (Z.eqb_spec (n mod 65536 + n / 65536) 0), (Z.eqb_spec n 0); lia.
Qed.
End OneComplement.

Section Words.
Lemma words16_range m : bytes_ok m → Forall is_u16 (words16 m).
Proof.
  induction m as [| |b0 b1 m IH] using list_pair_ind; try (by constructor).
  intros (? & ? & ?)%Forall_cons_2_inv. constructor; [by apply le16_range|auto].
Qed.

Lemma words16_app m m' :
  Nat.Even (length m) → words16 (m ++ m') = words16 m ++ words16 m'.
Proof.
  induction m as [| |b0 b1 m IH] using list_pair_ind; intros He; [done| |].
  - by apply Nat.even_spec in He.
  - simpl. f_equal. apply IH. apply Nat.even_spec in He. by apply Nat.even_spec.
Qed.

Lemma sum_list_app l l' : sum_list (l ++ l') = sum_list l + sum_list l'.
Proof. induction l; unfold sum_list in *; simpl; lia. Qed.

Lemma sum_list_nonneg l : Forall is_u16 l → 0 <= sum_list l <= 65535 * Z.of_nat (length l).
Proof. induction 1 as [|x l Hx _ IH]; simpl; unfold is_u16, sum_list in *; lia. Qed.

(** The sum of the words in network order is 256 times the sum in host order,
    modulo [2^16 - 1]. *)
Lemma sum_list_words16_be m :
  sum_list (words16_be m) mod 65535 = (256 * sum_list (words16 m)) mod 65535.
Proof.
  induction m as [| |b0 b1 m IH] using list_pair_ind; [done|done|].
  unfold sum_list in *. simpl. unfold le16. lia.
Qed.

Lemma sum_list_words16_zero m :
  bytes_ok m → sum_list (words16_be m) = 0 ↔ sum_list (words16 m) = 0.
Proof.
  induction m as [| |b0 b1 m IH] using list_pair_ind; [done|done|].
  intros (Hb0 & Hb1 & Hm)%Forall_cons_2_inv. specialize (IH Hm).
  pose proof (sum_list_nonneg _ (words16_range _ Hm)) as Hn.
  assert (0 <= sum_list (words16_be m)) as Hn'.
  { clear -Hm. induction m as [| |a b m IH] using list_pair_ind; [done|done|].
    apply Forall_cons_2_inv in Hm as (? & ? & ?).
    unfold sum_list in *. simpl. specialize (IH ltac:(done)). range. }
  unfold sum_list in *. simpl. unfold le16. range.
Qed.

(** The accumulation of the IPv4 routine is the representative of the sum. *)
Lemma ipv4_checksum_loop_spec n m s :
  bytes_ok m → (2 * n <= length m)%nat → 0 <= s →
  ipv4_checksum_loop n m (oc_norm s)
  = Some (oc_norm (s + sum_list (words16 (take (2 * n) m)))).
Proof.
  revert m s. induction n as [|n IH]; intros m s Hm Hl Hs.
  { simpl. f_equal. f_equal. unfold sum_list. simpl. lia. }
  destruct m as [|b0 [|b1 m]]; simpl in Hl; [lia|lia|].
  apply Forall_cons_2_inv in Hm as (? & ? & Hm).
  replace (2 * S n)%nat with (S (S (2 * n))) by lia.
  cbn -[u16 le16 Nat.mul]. rewrite oc_norm_add by (auto with net; lia).
  rewrite IH; [|done|lia|pose proof (le16_range b0 b1); range].
  do 2 f_equal. unfold sum_list. simpl. lia.
Qed.

(** The TCP routine's 32-bit sum does not overflow for fewer than [2^16] words. *)
Lemma tcp_checksum_loop_spec n m s :
  bytes_ok m → (2 * n <= length m)%nat →
  0 <= s → s + 65535 * Z.of_nat n < 4294967296 →
  tcp_checksum_loop n m s = Some (s + sum_list (words16 (take (2 * n) m))).
Proof.
  revert m s. induction n as [|n IH]; intros m s Hm Hl Hs Hb.
  { simpl. f_equal. unfold sum_list. simpl. lia. }
  destruct m as [|b0 [|b1 m]]; simpl in Hl; [lia|lia|].
  apply Forall_cons_2_inv in Hm as (? & ? & Hm).
  pose proof (le16_range b0 b1 ltac:(done) ltac:(done)) as Hw. unfold is_u16 in Hw.
  replace (2 * S n)%nat with (S (S (2 * n))) by lia.
  cbn -[u32 le16 Nat.mul]. rewrite u32_id by (unfold is_u32; lia).
  rewrite IH; [|done|lia|lia|lia].
  f_equal. unfold sum_list. simpl. lia.
Qed.

(** Three rounds of the carry loop are enough for every [uint32_t]. *)
Lemma tcp_checksum_fold_spec s : is_u32 s → tcp_checksum_fold 3 s = Some (oc_norm s).
Proof.
  intros Hs. unfold is_u32 in Hs.
  assert (∀ x, Z.shiftr x 16 = x / 65536) as Hsh
    by (intros x; rewrite Z.shiftr_div_pow2 by lia; done).
  assert (∀ x, Z.land x 65535 = x mod 65536) as Hla
    by (intros x; change 65535 with (Z.ones 16); rewrite Z.land_ones by lia; done).
  assert (∀ x, 0 <= x < 4294967296 →
    u32 (Z.land x 65535 + Z.shiftr x 16) = x mod 65536 + x / 65536) as Hu
    by (intros x Hx; rewrite Hla, Hsh; unfold u32; rewrite Z.mod_small; lia).
  assert (∀ x, 0 <= x → oc_norm (x mod 65536 + x / 65536) = oc_norm x) as Hf
    by (intros x Hx; rewrite <- (oc_norm_fold x), Hla, Hsh by done; done).
  assert (∀ x, (Z.shiftr x 16 =? 0) = true → 0 <= x → oc_norm x = x) as Hd
    by (intros x Hx ?; apply oc_norm_small; rewrite Hsh in Hx; unfold is_u16; lia).
  cbn [tcp_checksum_fold].
  destruct (Z.shiftr s 16 =? 0) eqn:E0; [by rewrite (Hd s E0) by lia|]. rewrite Hu by lia.
  pose proof (Hf s ltac:(lia)) as Hf1.
  set (s1 := s mod 65536 + s / 65536) in *. assert (0 <= s1 < 131072) by lia.
  destruct (Z.shiftr s1 16 =? 0) eqn:E1; [by rewrite <- Hf1, (Hd s1 E1) by lia|].
  rewrite Hu by lia. pose proof (Hf s1 ltac:(lia)) as Hf2. set (s2 := s1 mod 65536 + s1 / 65536) in *.
  assert (0 <= s2 < 65536) by lia.
  assert ((Z.shiftr s2 16 =? 0) = true) as E2 by (rewrite Hsh; lia). rewrite E2.
  by rewrite <- Hf1, <- Hf2, (Hd s2 E2) by lia.
Qed.
End Words.

Section ChecksumFacts.
Lemma lnot16 s : is_u16 s → u16 (Z.lnot s) = 65535 - s.
Proof. unfold is_u16, u16, Z.lnot. lia. Qed.

Lemma land_15 z : Z.land z IPV4_IHL_MASK = z mod 16.
Proof. change IPV4_IHL_MASK with (Z.ones 4). by rewrite Z.land_ones. Qed.

(** The bytes of the header [ipv4_calculate_checksum] looks at. *)
Definition ipv4_header_length (m : list Z) : nat :=
  match m with flags_1 :: _ => Z.to_nat (4 * Z.land flags_1 IPV4_IHL_MASK) | [] => 0 end.

Lemma ntohs_complement s : is_u16 s → ntohs (65535 - s) = 65535 - ntohs s.
Proof. unfold ntohs, is_u16. lia. Qed.

Lemma ntohs_congr s : is_u16 s → ntohs s mod 65535 = (256 * s) mod 65535.
Proof. unfold ntohs, is_u16. lia. Qed.

Lemma ntohs_oc_norm a b :
  0 <= a → 0 <= b → (b = 0 ↔ a = 0) → b mod 65535 = (256 * a) mod 65535 →
  ntohs (oc_norm a) = oc_norm b.
Proof.
  intros Ha Hb H0 Hc. destruct (decide (a = 0)) as [->|Hne].
  { destruct H0 as [_ H0]. by rewrite (H0 eq_refl). }
  pose proof (oc_norm_range a Ha) as Hr. pose proof (oc_norm_congr a Ha) as Hm.
  pose proof (oc_norm_pos a ltac:(lia)) as Hp. pose proof (ntohs_congr _ Hr) as Hn.
  rewrite <- (oc_norm_small (ntohs (oc_norm a))) by apply ntohs_range.
  apply oc_norm_eq; [|lia|].
  - unfold ntohs, is_u16 in *. lia.
  - rewrite Hn, Hc. rewrite <- (Z.mul_mod_idemp_r 256 (oc_norm a)), Hm by lia.
    by rewrite Z.mul_mod_idemp_r by lia.
Qed.

Lemma bytes_ok_take n m : bytes_ok m → bytes_ok (take n m).
Proof. apply Forall_take. Qed.

Lemma sum_words16_be_nonneg m : bytes_ok m → 0 <= sum_list (words16_be m).
Proof.
  induction m as [| |b0 b1 m IH] using list_pair_ind; [done|done|].
  intros (? & ? & Hm)%Forall_cons_2_inv. specialize (IH Hm).
  unfold sum_list in *. simpl. range.
Qed.
End ChecksumFacts.

#[export] Hint Resolve bytes_ok_take oc_norm_range : net.

Lemma ipv4_checksum_value m :
  bytes_ok m → m ≠ [] → (ipv4_header_length m <= length m)%nat →
  ipv4_calculate_checksum m
  = Some (rfc1071_checksum (words16 (take (ipv4_header_length m) m))).
Proof.
  intros Hm Hne Hl. destruct m as [|f m]; [done|]. unfold ipv4_header_length in *.
  unfold ipv4_calculate_checksum, rfc1071_checksum. rewrite land_15 in *.
  assert (Z.to_nat (4 * (f mod 16)) = 2 * Z.to_nat (u8 (f mod 16 * 2)))%nat as Hk.
  { unfold u8. rewrite (Z.mod_small (f mod 16 * 2)) by lia. lia. }
  change 0 with (oc_norm 0) at 1.
  rewrite ipv4_checksum_loop_spec by (done || lia). rewrite <- Hk.
  simpl. rewrite lnot16; [done|]. apply oc_norm_range.
  pose proof (sum_list_nonneg _ (words16_range _ (bytes_ok_take (Z.to_nat (4 * (f mod 16))) _ Hm))).
  lia.
Qed.

(** The routine reads as far as the header length field says. *)
Lemma ipv4_checksum_loop_short k m sum : (length m < 2 * k)%nat → ipv4_checksum_loop k m sum = None.
Proof.
  revert m sum. induction k as [|k IH]; intros m sum Hl; [lia|].
  destruct m as [|b0 [|b1 m]]; [done..|]. cbn [ipv4_checksum_loop]. apply IH. simpl in Hl. lia.
Qed.

Lemma ipv4_checksum_short m :
  bytes_ok m → m = [] ∨ (length m < ipv4_header_length m)%nat → ipv4_calculate_checksum m = None.
Proof.
  intros Hm [-> | Hl]; [done|]. destruct m as [|f m]; [done|]. unfold ipv4_calculate_checksum.
  rewrite ipv4_checksum_loop_short; [done|]. unfold ipv4_header_length in Hl. cbn [length] in *.
  rewrite land_15 in *. unfold u8. pose proof (Z.mod_pos_bound f 16 ltac:(lia)). lia.
Qed.

(** C35: whatever the header length field says, as long as that many bytes are
    there, [ipv4_calculate_checksum] is the checksum of RFC 1071 over them. *)
Theorem ipv4_checksum_rfc m :
  bytes_ok m → m ≠ [] → (ipv4_header_length m <= length m)%nat →
  ipv4_calculate_checksum m
  = Some (rfc1071_checksum (words16 (take (ipv4_header_length m) m))).
Proof. apply ipv4_checksum_value. Qed.

(** The header of the test in [test/ipv4/test.c], its checksum field cleared. *)
Definition ipv4_example_header : list Z :=
  [69; 0; 0; 20; 0; 0; 64; 0; 64; 6; 0; 0; 32; 32; 32; 32; 192; 168; 0; 117].

Lemma ipv4_checksum_rfc_witness :
  ipv4_calculate_checksum ipv4_example_header = Some 34617.
Proof.
  rewrite (ipv4_checksum_rfc ipv4_example_header);
    [reflexivity|by apply bytes_okb_ok|discriminate|vm_compute; lia].
Defined.

(** Computed on little-endian loads and stored back little-endian, the IPv4
    checksum is, read in network order, the checksum of the network-order words. *)
Lemma ipv4_checksum_network_order m c :
  bytes_ok m → (ipv4_header_length m <= length m)%nat →
  ipv4_calculate_checksum m = Some c →
  ntohs c = rfc1071_checksum (words16_be (take (ipv4_header_length m) m)).
Proof.
  intros Hm Hl Hc. rewrite ipv4_checksum_value in Hc by (done || by intros ->).
  injection Hc as <-. unfold rfc1071_checksum.
  pose proof (bytes_ok_take (ipv4_header_length m) _ Hm) as Ht.
  pose proof (sum_list_nonneg _ (words16_range _ Ht)) as Hn.
  rewrite ntohs_complement by (apply oc_norm_range; lia). f_equal.
  apply ntohs_oc_norm; [lia| |by apply sum_list_words16_zero|apply sum_list_words16_be].
  by apply sum_words16_be_nonneg.
Qed.

Example ipv4_checksum_network_order_example :
  ntohs 34617 = rfc1071_checksum (words16_be ipv4_example_header) ∧ ntohs 34617 = 14727.
Proof.
  split; [|reflexivity].
  apply (ipv4_checksum_network_order ipv4_example_header);
    [by apply bytes_okb_ok|vm_compute; lia|reflexivity].
Qed.

Section Verification.
Lemma checksum_complement_zero S c :
  0 < S → is_u16 c → c = 65535 - oc_norm S → oc_norm (S + c) = 65535.
Proof.
  intros HS Hc ->. pose proof (oc_norm_congr S ltac:(lia)) as Hm.
  pose proof (oc_norm_range S ltac:(lia)) as Hr. pose proof (oc_norm_pos S HS).
  unfold is_u16 in *. change 65535 with (oc_norm 65535) at 2.
  apply oc_norm_eq; [lia|lia|]. lia.
Qed.

(** A header verifies iff the sum of its words is a positive multiple of [0xFFFF]. *)
Lemma rfc1071_checksum_zero l :
  Forall is_u16 l →
  rfc1071_checksum l = 0 ↔ 0 < sum_list l ∧ sum_list l mod 65535 = 0.
Proof.
  intros Hl. pose proof (sum_list_nonneg l Hl) as [Hn _].
  unfold rfc1071_checksum, oc_norm. destruct (Z.eqb_spec (sum_list l) 0); lia.
Qed.

Lemma words16_encode_ipv4 h :
  ipv4_header_t_ok h →
  words16 (encode_ipv4_header_t h) =
  [ip_flags_1 h + 256 * ip_flags_2 h; ip_total_length h; ip_identification h;
   ip_flags_3 h; ip_time_to_live h + 256 * ip_protocol h; ip_header_checksum h;
   ip_source_ip h mod 65536; ip_source_ip h / 65536;
   ip_destination_ip h mod 65536; ip_destination_ip h / 65536].
Proof.
  intros (? & ? & ? & ? & ? & ? & ? & ? & Hs & Hd). cbn -[Z.modulo Z.div le16].
  rewrite !le16_bytes16 by done. unfold is_u32, le16 in *.
  by repeat (apply (f_equal2 cons); [lia|]).
Qed.
End Verification.

Lemma ipv4_checksum_fill h c rest :
  ipv4_header_t_ok h → Z.land (ip_flags_1 h) IPV4_IHL_MASK = 5 → ip_header_checksum h = 0 →
  ipv4_calculate_checksum (encode_ipv4_header_t h) = Some c → bytes_ok rest →
  ipv4_calculate_checksum (encode_ipv4_header_t (h <| ip_header_checksum := c |>) ++ rest)
  = Some 0.
Proof.
  intros Hok Hihl H0 Hc Hrest.
  assert (ipv4_header_t_ok (h <| ip_header_checksum := c |>)) as Hok'.
  { destruct h; unfold ipv4_header_t_ok in *; simpl in *. destruct_and! Hok.
    repeat (split; [assumption|]). split; [|done].
    unfold ipv4_calculate_checksum in Hc. apply bind_Some in Hc as (s & _ & [= <-]). range. }
  assert (∀ g, ip_flags_1 g = ip_flags_1 h → ∀ r, ipv4_header_length (encode_ipv4_header_t g ++ r) = 20%nat) as Hlen.
  { intros g Hg r. simpl. rewrite Hg, Hihl. done. }
  rewrite ipv4_checksum_value; [|auto using encode_ipv4_bytes_ok with net|done|by rewrite Hlen; simpl; lia].
  rewrite Hlen, take_app_length' by done. f_equal.
  rewrite <- (app_nil_r (encode_ipv4_header_t h)) in Hc.
  rewrite ipv4_checksum_value in Hc; [|auto using encode_ipv4_bytes_ok with net|done|by rewrite Hlen; simpl; lia].
  rewrite Hlen, take_app_length' in Hc by done. apply (inj Some) in Hc.
  rewrite words16_encode_ipv4 in Hc by done. rewrite words16_encode_ipv4 by done.
  destruct Hok as (Hf & _ & ? & ? & ? & ? & ? & _ & Hs & Hd). destruct Hok' as (_ & Hok').
  unfold rfc1071_checksum, sum_list in *. simpl in *. rewrite H0 in Hc.
  assert (ip_flags_1 h <> 0) as Hne by (intros E; rewrite E in Hihl; done).
  match type of Hc with _ - oc_norm ?S = _ =>
    match goal with |- _ - oc_norm ?S' = 0 =>
      replace S' with (S + c) by lia;
      rewrite (checksum_complement_zero S c); [lia| |tauto|lia] end end.
  range.
Qed.

(** Storing the checksum [ipv4_calculate_checksum] computes over a header whose
    checksum field is 0 gives a header that the same routine accepts (it returns
    0), whatever follows the header in memory. *)
Lemma ipv4_checksum_roundtrip h c rest :
  ipv4_header_t_ok h → Z.land (ip_flags_1 h) IPV4_IHL_MASK = 5 → ip_header_checksum h = 0 →
  ipv4_calculate_checksum (encode_ipv4_header_t h) = Some c → bytes_ok rest →
  ipv4_calculate_checksum (encode_ipv4_header_t (h <| ip_header_checksum := c |>) ++ rest)
  = Some 0.
Proof. apply ipv4_checksum_fill. Qed.

Example ipv4_checksum_roundtrip_example :
  ipv4_calculate_checksum [69; 0; 0; 20; 0; 0; 64; 0; 64; 6; 57; 135; 32; 32; 32; 32; 192; 168; 0; 117] = Some 0.
Proof.
  apply (ipv4_checksum_roundtrip
    {| ip_flags_1 := 69; ip_flags_2 := 0; ip_total_length := 5120; ip_identification := 0;
       ip_flags_3 := 64; ip_time_to_live := 64; ip_protocol := 6; ip_header_checksum := 0;
       ip_source_ip := 538976288; ip_destination_ip := 1962977472 |} 34617 []);
    [|reflexivity|reflexivity|reflexivity|constructor].
  unfold ipv4_header_t_ok. simpl. range.
Qed.

(** A header that verifies no longer does once one 16-bit word of it after the
    first is replaced by a word that differs from it modulo [0xFFFF]. *)
Lemma ipv4_checksum_detects pre post b0 b1 c0 c1 m :
  m = pre ++ b0 :: b1 :: post →
  bytes_ok m → is_u8 c0 → is_u8 c1 →
  (2 <= length pre)%nat → Nat.Even (length pre) →
  (length pre + 2 <= ipv4_header_length m <= length m)%nat →
  ipv4_calculate_checksum m = Some 0 →
  le16 b0 b1 mod 65535 ≠ le16 c0 c1 mod 65535 →
  ∃ c, ipv4_calculate_checksum (pre ++ c0 :: c1 :: post) = Some c ∧ c ≠ 0.
Proof.
  intros Em Hm Hc0 Hc1 Hpre He Hlen Hv Hne. set (m' := pre ++ c0 :: c1 :: post).
  assert (ipv4_header_length m' = ipv4_header_length m ∧ length m' = length m) as [Hh Hl].
  { subst m m'. destruct pre; [simpl in Hpre; lia|]. simpl. by rewrite !length_app. }
  assert (bytes_ok m') as Hm'.
  { subst m m'. unfold bytes_ok in *. rewrite Forall_app in *. destruct Hm as [? (? & ? & ?)%Forall_cons_2_inv].
    split; [done|]. by apply bytes_ok_cons, bytes_ok_cons. }
  assert (∀ x y, take (ipv4_header_length m) (pre ++ x :: y :: post) =
     pre ++ x :: y :: take (ipv4_header_length m - length pre - 2) post) as Htake.
  { intros x y. rewrite take_app_ge by lia. f_equal.
    destruct (ipv4_header_length m - length pre)%nat as [|[|n]] eqn:E; [lia|lia|].
    simpl. do 3 f_equal. lia. }
  rewrite ipv4_checksum_value in Hv by (done || lia || by intros ->).
  apply (inj Some) in Hv.
  eexists. split.
  { apply ipv4_checksum_value; [done|subst m'; by destruct pre|lia]. }
  rewrite Hh. subst m'. rewrite Htake.
  apply rfc1071_checksum_zero in Hv as [Hv1 Hv2]; [|apply words16_range; auto with net].
  intros [Hw1 Hw2]%rfc1071_checksum_zero; last first.
  { apply words16_range. rewrite <- Htake. auto with net. }
  pose proof (Htake b0 b1) as Ht. rewrite <- Em in Ht. rewrite Ht in Hv2.
  rewrite words16_app, sum_list_app in Hv2, Hw2 by done.
  unfold sum_list in *. simpl in *. lia.
Qed.

Example ipv4_checksum_detects_example :
  ∃ c, ipv4_calculate_checksum
         [69; 0; 0; 20; 0; 0; 64; 0; 63; 6; 57; 135; 32; 32; 32; 32; 192; 168; 0; 117] = Some c
       ∧ c ≠ 0.
Proof.
  apply (ipv4_checksum_detects [69; 0; 0; 20; 0; 0; 64; 0]
    [57; 135; 32; 32; 32; 32; 192; 168; 0; 117] 64 6 63 6
    [69; 0; 0; 20; 0; 0; 64; 0; 64; 6; 57; 135; 32; 32; 32; 32; 192; 168; 0; 117]).
  - reflexivity.
  - by apply bytes_okb_ok.
  - split; [discriminate|reflexivity].
  - split; [discriminate|reflexivity].
  - simpl. lia.
  - by exists 4%nat.
  - vm_compute. lia.
  - reflexivity.
  - vm_compute. discriminate.
Qed.

Definition pseudo_header_ok (h : tcp_pseudo_header_t) : Prop :=
  is_u32 (ph_source_ip h) ∧ is_u32 (ph_destination_ip h) ∧
  is_u8 (ph_zero h) ∧ is_u8 (ph_ptcl h) ∧ is_u16 (ph_tcp_length h).

Lemma encode_pseudo_ok h : pseudo_header_ok h → bytes_ok (encode_tcp_pseudo_header_t h).
Proof.
  intros (? & ? & ? & ? & ?). unfold encode_tcp_pseudo_header_t.
  repeat apply bytes_ok_app; auto with net.
Qed.

Lemma tcp_checksum_value ph header :
  pseudo_header_ok ph → bytes_ok header →
  (2 * Z.to_nat (ntohs (ph_tcp_length ph) / 2) <= length header)%nat →
  tcp_calculate_checksum ph header =
  Some (rfc1071_checksum (words16 (encode_tcp_pseudo_header_t ph) ++
          words16 (take (2 * Z.to_nat (ntohs (ph_tcp_length ph) / 2)) header))).
Proof.
  intros Hph Hb Hl. unfold tcp_calculate_checksum, rfc1071_checksum.
  pose proof (encode_pseudo_ok ph Hph) as He.
  pose proof (ntohs_range (ph_tcp_length ph)) as Hr. unfold is_u16 in Hr.
  set (n := Z.to_nat (ntohs (ph_tcp_length ph) / 2)) in *.
  rewrite (tcp_checksum_loop_spec 6) by (done || simpl; lia).
  rewrite (firstn_all2 (n := 2 * 6)) by (simpl; lia). cbn [mbind option_bind].
  pose proof (sum_list_nonneg _ (words16_range _ He)) as H1.
  pose proof (sum_list_nonneg _ (words16_range _ (bytes_ok_take (2 * n) _ Hb))) as H2.
  assert (length (words16 (encode_tcp_pseudo_header_t ph)) = 6%nat) as E6 by done.
  assert (length (words16 (take (2 * n) header)) <= n)%nat as En.
  { clear. revert header. induction n as [|n IH]; intros header; [done|].
    replace (2 * S n)%nat with (S (S (2 * n))) by lia.
    destruct header as [|? [|? header]]; cbn [take words16 length]; [lia|lia|].
    specialize (IH header). lia. }
  rewrite tcp_checksum_loop_spec by (done || lia). cbn [mbind option_bind].
  rewrite tcp_checksum_fold_spec by (unfold is_u32; lia). cbn [mbind option_bind].
  rewrite lnot16 by (apply oc_norm_range; lia). rewrite sum_list_app. do 3 f_equal; lia.
Qed.

(** C36: [tcp_calculate_checksum] is the checksum of RFC 1071 over the pseudo header
    and the whole 16-bit words of the TCP length, computed without overflow and in
    at most three carry rounds. *)
Theorem tcp_checksum_rfc ph header :
  pseudo_header_ok ph → bytes_ok header →
  (2 * Z.to_nat (ntohs (ph_tcp_length ph) / 2) <= length header)%nat →
  tcp_calculate_checksum ph header =
  Some (rfc1071_checksum (words16 (encode_tcp_pseudo_header_t ph) ++
          words16 (take (2 * Z.to_nat (ntohs (ph_tcp_length ph) / 2)) header))).
Proof. apply tcp_checksum_value. Qed.

(** For an odd TCP length the last byte of the segment does not enter the
    checksum (RFC 9293 pads it with a zero byte and adds it). *)
Lemma tcp_checksum_ignores_odd_byte ph seg x y after :
  pseudo_header_ok ph → ntohs (ph_tcp_length ph) = Z.of_nat (length seg) + 1 →
  Nat.Even (length seg) → bytes_ok seg → is_u8 x → is_u8 y → bytes_ok after →
  tcp_calculate_checksum ph (seg ++ x :: after) = tcp_calculate_checksum ph (seg ++ y :: after).
Proof.
  intros Hph Hlen [k Hk] Hseg Hx Hy Hafter.
  assert (2 * Z.to_nat (ntohs (ph_tcp_length ph) / 2) = length seg)%nat as En
    by (rewrite Hlen; lia).
  assert (∀ z, is_u8 z → bytes_ok (seg ++ z :: after)) as Hb.
  { intros z Hz. auto with net. }
  rewrite !tcp_checksum_value by (auto; rewrite length_app; simpl; lia).
  rewrite En, !take_app_length. done.
Qed.

Example tcp_checksum_ignores_odd_byte_example :
  let ph := {| ph_source_ip := 1; ph_destination_ip := 2; ph_zero := 0; ph_ptcl := 6;
               ph_tcp_length := 768 |} in
  tcp_calculate_checksum ph [7; 8; 9] = tcp_calculate_checksum ph [7; 8; 200].
Proof.
  apply (tcp_checksum_ignores_odd_byte _ [7; 8] 9 200 []);
    [repeat split; discriminate || reflexivity|reflexivity|by exists 1%nat|by apply bytes_okb_ok
    |split; discriminate || reflexivity|split; discriminate || reflexivity|constructor].
Qed.

Lemma tcp_checksum_rfc_witness :
  let ph := {| ph_source_ip := 1; ph_destination_ip := 2; ph_zero := 0; ph_ptcl := 6;
               ph_tcp_length := 512 |} in
  tcp_calculate_checksum ph [255; 255] =
  Some (rfc1071_checksum (words16 (encode_tcp_pseudo_header_t ph) ++ [65535])).
Proof.
  apply (tcp_checksum_rfc {| ph_source_ip := 1; ph_destination_ip := 2; ph_zero := 0;
    ph_ptcl := 6; ph_tcp_length := 512 |} [255; 255]);
    [repeat split; discriminate || reflexivity|by apply bytes_okb_ok|vm_compute; lia].
Defined.
