(* ===== verification/BlockBuffer.v ===== *)
(** * BlockBuffer: the segment queues of a TCP connection

    [handlers/tcp/tcp_block_buffer.c].  A buffer owns an array of blocks; the blocks
    are linked through their [next] pointers into a free list and into the list of
    queued segments, ordered by sequence number.  A pointer is an index into the
    array, [None] the null pointer.  The array is allocated for
    [TCP_BLOCK_BUFFER_DEFAULT_SIZE] blocks; the memory right behind it is modelled as
    one more block, which [create_tcp_block_buffer] writes to.

    The second part gives the abstract queue (a list of segments and a number of
    free blocks), and shows that every operation on the linked blocks implements its
    operation on the abstract queue. *)

From Stdlib Require Import Sorting.Sorted.
From S2P Require Import Prelude.

Definition TCP_BLOCK_BUFFER_DEFAULT_SIZE : nat := 10.

Record tcp_block_t := {
  tb_payload_size : Z;
  tb_sequence_num : Z;
  tb_data : nat;
  tb_next : option nat
}.
#[export] Instance eta_tcp_block_t : Eta tcp_block_t := λ r,
  Build_tcp_block_t (tb_payload_size r) (tb_sequence_num r) (tb_data r) (tb_next r).

Record tcp_block_buffer_t := {
  bb_free_list : option nat;
  bb_blocks : option nat;
  bb_max_size : Z;
  bb_cells : list tcp_block_t
}.
#[export] Instance eta_tcp_block_buffer_t : Eta tcp_block_buffer_t := λ r,
  Build_tcp_block_buffer_t (bb_free_list r) (bb_blocks r) (bb_max_size r) (bb_cells r).

(** Reading the block a pointer points to, and writing it. *)
Definition block_at (bb : tcp_block_buffer_t) (p : option nat) : outcome tcp_block_t :=
  i ← from_option_fault NullDeref p;
  from_option_fault OutOfBounds (bb_cells bb !! i).
Definition set_block (i : nat) (b : tcp_block_t) (bb : tcp_block_buffer_t)
    : tcp_block_buffer_t :=
  bb <| bb_cells ::= <[i := b]> |>.

(** The [while] loop of [tcp_block_buffer_add]: the pair [(previous_block, block)]
    it ends with. *)
Fixpoint add_position (fuel : nat) (bb : tcp_block_buffer_t) (sequence_num : Z)
    (previous_block block : option nat) : outcome (option nat * option nat) :=
  match fuel with
  | O => OutOfFuel
  | S fuel =>
      match block with
      | None => Ok (previous_block, block)
      | Some _ =>
          b ← block_at bb block;
          if tb_sequence_num b <=? sequence_num
          then add_position fuel bb sequence_num block (tb_next b)
          else Ok (previous_block, block)
      end
  end.

Definition tcp_block_buffer_add (bb : tcp_block_buffer_t) (data : nat)
    (sequence_num tcp_payload_size : Z) : outcome (option nat * tcp_block_buffer_t) :=
  match bb_free_list bb with
  | None => Ok (None, bb)
  | Some new_block =>
      b ← block_at bb (Some new_block);
      let bb := bb <| bb_free_list := tb_next b |> in
      let sequence_num := ntohl sequence_num in
      let b := {| tb_payload_size := tcp_payload_size; tb_sequence_num := sequence_num;
                  tb_data := data; tb_next := None |} in
      let bb := set_block new_block b bb in
      match bb_blocks bb with
      | None => Ok (Some new_block, bb <| bb_blocks := Some new_block |>)
      | Some _ =>
          '(previous_block, block) ←
            add_position (S (length (bb_cells bb))) bb sequence_num None (bb_blocks bb);
          let bb := set_block new_block (b <| tb_next := block |>) bb in
          p ← block_at bb previous_block;
          i ← from_option_fault NullDeref previous_block;
          Ok (Some new_block, set_block i (p <| tb_next := Some new_block |>) bb)
      end
  end.

Fixpoint tcp_block_buffer_remove_front (bb : tcp_block_buffer_t) (num_to_remove : nat)
    : outcome tcp_block_buffer_t :=
  match num_to_remove with
  | O => Ok bb
  | S n =>
      match bb_blocks bb with
      | None => Ok bb
      | Some block =>
          b ← block_at bb (Some block);
          let bb := bb <| bb_blocks := tb_next b |> in
          let bb := set_block block (b <| tb_next := bb_free_list bb |>) bb in
          tcp_block_buffer_remove_front (bb <| bb_free_list := Some block |>) n
      end
  end.

Fixpoint num_ready_loop (fuel : nat) (bb : tcp_block_buffer_t) (start_sequence_num : Z)
    (num_ready : Z) (block : option nat) : outcome Z :=
  match fuel with
  | O => OutOfFuel
  | S fuel =>
      match block with
      | None => Ok num_ready
      | Some _ =>
          b ← block_at bb block;
          if (tb_sequence_num b =? start_sequence_num)
             || (tb_sequence_num b =? u32 (start_sequence_num + 1))
          then num_ready_loop fuel bb (u32 (tb_sequence_num b + tb_payload_size b))
                 (u16 (num_ready + 1)) (tb_next b)
          else Ok num_ready
      end
  end.

Definition tcp_block_buffer_num_ready (bb : tcp_block_buffer_t) (start_sequence_num : Z)
    : outcome Z :=
  num_ready_loop (S (length (bb_cells bb))) bb start_sequence_num 0 (bb_blocks bb).

Definition tcp_block_buffer_get_head (bb : tcp_block_buffer_t) : option nat := bb_blocks bb.

(** The loop of [create_tcp_block_buffer]: links the blocks below [iter] in front of
    [block]. *)
Fixpoint create_link (iter : nat) (block : nat) (cells : list tcp_block_t)
    : list tcp_block_t :=
  match iter with
  | O => cells
  | S iter => create_link iter iter (alter (λ b, b <| tb_next := Some block |>) iter cells)
  end.

(** [raw] is what the allocator leaves in the memory of the array and behind it. *)
Definition create_tcp_block_buffer (raw : list tcp_block_t) (max_size : Z)
    : tcp_block_buffer_t :=
  let iter := TCP_BLOCK_BUFFER_DEFAULT_SIZE in
  let cells := alter (λ b, b <| tb_next := None |>) iter raw in
  {| bb_free_list := Some 0%nat; bb_blocks := None; bb_max_size := max_size;
     bb_cells := create_link iter iter cells |}.

(** ** The abstract queue *)

Record segment := { seg_seq : Z; seg_size : Z; seg_data : nat }.

Definition block_segment (b : tcp_block_t) : segment :=
  {| seg_seq := tb_sequence_num b; seg_size := tb_payload_size b; seg_data := tb_data b |}.

(** Behind every queued segment with at most its sequence number. *)
Fixpoint queue_insert (s : segment) (q : list segment) : list segment :=
  match q with
  | [] => [s]
  | x :: q' => if seg_seq x <=? seg_seq s then x :: queue_insert s q' else s :: q
  end.

(** The length of the run of segments at the front that continues [start]. *)
Fixpoint queue_ready (start : Z) (q : list segment) : nat :=
  match q with
  | [] => 0
  | x :: q =>
      if (seg_seq x =? start) || (seg_seq x =? u32 (start + 1))
      then S (queue_ready (u32 (seg_seq x + seg_size x)) q)
      else 0
  end.

(** The insertion point is not in front of the head. *)
Definition insertable (s : segment) (q : list segment) : Prop :=
  match q with [] => True | x :: _ => seg_seq x <= seg_seq s end.
#[export] Instance insertable_dec s q : Decision (insertable s q).
Proof. destruct q; simpl; apply _. Defined.

(** [chain cells p l]: from [p] the [next] pointers lead through the blocks [l] to
    the null pointer. *)
Fixpoint chain (cells : list tcp_block_t) (p : option nat) (l : list nat) : Prop :=
  match l with
  | [] => p = None
  | i :: l => p = Some i ∧ ∃ b, cells !! i = Some b ∧ chain cells (tb_next b) l
  end.

(** The buffer holds the queue [q] and has [free] more blocks. *)
Definition bb_repr (bb : tcp_block_buffer_t) (q : list segment) (free : nat) : Prop :=
  ∃ used unused,
    chain (bb_cells bb) (bb_blocks bb) used ∧
    chain (bb_cells bb) (bb_free_list bb) unused ∧
    NoDup (used ++ unused) ∧
    Forall2 (λ i s, block_segment <$> bb_cells bb !! i = Some s) used q ∧
    length unused = free.

Section Chains.
Implicit Types (cells : list tcp_block_t) (p : option nat) (l : list nat).

Lemma chain_head cells p l : chain cells p l → p = head l.
Proof. destruct l as [|i l]; [done|]. by intros [-> _]. Qed.

Lemma chain_frame cells i b p l : i ∉ l → chain cells p l → chain (<[i := b]> cells) p l.
Proof.
  revert p. induction l as [|j l IH]; intros p Hi; [done|].
  intros (-> & c & Hc & Hl). apply not_elem_of_cons in Hi as [Hne Hi].
  split; [done|]. exists c. rewrite list_lookup_insert_ne by done. eauto.
Qed.

Lemma chain_lookup cells p l i : chain cells p l → i ∈ l → is_Some (cells !! i).
Proof.
  revert p. induction l as [|j l IH]; intros p Hl Hi; [set_solver|].
  destruct Hl as (_ & c & Hc & Hl). apply elem_of_cons in Hi as [->|Hi]; eauto.
Qed.

Lemma chain_length cells p l : chain cells p l → NoDup l → (length l <= length cells)%nat.
Proof.
  intros Hl Hnd.
  assert (l ⊆+ seq 0 (length cells)) as Hs.
  { apply NoDup_submseteq; [done|]. intros i Hi. apply elem_of_seq.
    destruct (chain_lookup _ _ _ _ Hl Hi) as [c Hc]. apply lookup_lt_Some in Hc. lia. }
  apply submseteq_length in Hs. by rewrite length_seq in Hs.
Qed.

(** Redirecting the block [i] of a chain to another chain. *)
Lemma chain_redirect cells p u1 i u2 b q u2' :
  chain cells p (u1 ++ i :: u2) → i ∉ u1 → cells !! i = Some b →
  chain (<[i := b <| tb_next := q |>]> cells) q u2' →
  chain (<[i := b <| tb_next := q |>]> cells) p (u1 ++ i :: u2').
Proof.
  intros Hc Hi Hb Hq. revert p Hc. induction u1 as [|j u1 IH]; intros p.
  - intros (-> & _). split; [done|]. exists (b <| tb_next := q |>).
    split; [|done]. apply list_lookup_insert_eq. by eapply lookup_lt_Some.
  - intros (-> & c & Hc & Hl). apply not_elem_of_cons in Hi as [Hne Hi].
    split; [done|]. exists c. rewrite list_lookup_insert_ne by done. auto.
Qed.

Definition content cells (i : nat) (s : segment) : Prop :=
  block_segment <$> cells !! i = Some s.

Lemma content_frame cells cells' l q :
  (∀ i, i ∈ l → block_segment <$> cells' !! i = block_segment <$> cells !! i) →
  Forall2 (content cells) l q → Forall2 (content cells') l q.
Proof.
  intros He H. induction H as [|i s l q Hi _ IH]; constructor.
  - unfold content in *. rewrite He by set_solver. done.
  - apply IH. set_solver.
Qed.

Lemma content_insert_ne cells i b l q :
  i ∉ l → Forall2 (content cells) l q → Forall2 (content (<[i := b]> cells)) l q.
Proof.
  intros Hi. apply content_frame. intros j Hj. by rewrite list_lookup_insert_ne by set_solver.
Qed.

(** Changing only the [next] pointer of a block keeps every content. *)
Lemma content_set_next cells i b n l q :
  cells !! i = Some b →
  Forall2 (content cells) l q → Forall2 (content (<[i := b <| tb_next := n |>]> cells)) l q.
Proof.
  intros Hb. apply content_frame. intros j _. destruct (decide (i = j)) as [->|].
  - rewrite list_lookup_insert_eq by (by eapply lookup_lt_Some). by rewrite Hb.
  - by rewrite list_lookup_insert_ne.
Qed.

Lemma block_at_Some bb i b : bb_cells bb !! i = Some b → block_at bb (Some i) = Ok b.
Proof. intros H. unfold block_at. simpl. by rewrite H. Qed.
End Chains.

Definition last_or (p : option nat) (l : list nat) : option nat :=
  match last l with Some i => Some i | None => p end.

Lemma last_or_cons i p l : last_or p (i :: l) = last_or (Some i) l.
Proof. unfold last_or. rewrite last_cons. by destruct (last l). Qed.

(** Where [tcp_block_buffer_add] links the new block in. *)
Lemma add_position_spec bb s u q fuel prev block :
  chain (bb_cells bb) block u → Forall2 (content (bb_cells bb)) u q →
  (length u < fuel)%nat →
  ∃ u1 u2 q1 q2, (insertable s q → q ≠ [] → u1 ≠ []) ∧ u = u1 ++ u2 ∧ q = q1 ++ q2 ∧ queue_insert s q = q1 ++ s :: q2 ∧
    Forall2 (content (bb_cells bb)) u1 q1 ∧ Forall2 (content (bb_cells bb)) u2 q2 ∧
    add_position fuel bb (seg_seq s) prev block = Ok (last_or prev u1, head u2).
Proof.
  revert q fuel prev block. induction u as [|i u IH]; intros q fuel prev block Hc H2 Hf.
  - inversion H2; subst. exists [], [], [], []. simpl in Hc. subst block.
    destruct fuel; [simpl in Hf; lia|]. by repeat split.
  - inversion H2 as [|? x ? q' Hx Hq']; subst. destruct Hc as (-> & b & Hb & Hc).
    destruct fuel as [|fuel]; [simpl in Hf; lia|].
    assert (seg_seq x = tb_sequence_num b) as Hs.
    { unfold content in Hx. rewrite Hb in Hx. by injection Hx as <-. }
    cbn [add_position queue_insert]. rewrite (block_at_Some _ _ b) by done. cbn [mbind outcome_bind].
    rewrite Hs. destruct (Z.leb_spec (tb_sequence_num b) (seg_seq s)).
    + destruct (IH q' fuel (Some i) (tb_next b)) as (u1 & u2 & q1 & q2 & _ & -> & -> & Hi & H1 & H2' & ->);
        [done|done|simpl in Hf; lia|].
      exists (i :: u1), u2, (x :: q1), q2. rewrite Hi, last_or_cons. repeat split; auto.
    + exists [], (i :: u), [], (x :: q'). repeat split; auto. simpl. lia.
Qed.

Section Refinement.
Implicit Types (bb : tcp_block_buffer_t) (q : list segment) (s : segment).

Lemma bb_repr_head bb q n :
  bb_repr bb q n →
  match q with
  | [] => tcp_block_buffer_get_head bb = None
  | s :: _ => ∃ i b, tcp_block_buffer_get_head bb = Some i ∧ bb_cells bb !! i = Some b ∧
                     block_segment b = s
  end.
Proof.
  intros (used & unused & Hc & _ & _ & H2 & _). destruct q as [|s q].
  - inversion H2; subst. done.
  - inversion H2 as [|i ? ? ? Hi]; subst. destruct Hc as (Hh & b & Hb & _).
    exists i, b. split; [done|]. split; [done|]. rewrite Hb in Hi. by injection Hi.
Qed.

(** Linking the block [new] in behind the block [j] of a chain. *)
Lemma splice_cells cells h u1 j u2 new b p q1 s q2 :
  chain cells h (u1 ++ j :: u2) → NoDup (u1 ++ j :: u2) → new ∉ u1 ++ j :: u2 →
  cells !! new = Some b → block_segment b = s → cells !! j = Some p →
  Forall2 (content cells) (u1 ++ [j]) q1 → Forall2 (content cells) u2 q2 →
  let cells' := <[j := p <| tb_next := Some new |>]>
                  (<[new := b <| tb_next := head u2 |>]> cells) in
  chain cells' h (u1 ++ j :: new :: u2) ∧
  Forall2 (content cells') (u1 ++ j :: new :: u2) (q1 ++ s :: q2).
Proof.
  intros Hc Hnd Hnew Hb Hs Hj H1 H2 cells'.
  apply not_elem_of_app in Hnew as [Hn1 [Hnj Hn2]%not_elem_of_cons].
  pose proof Hnd as (_ & Hd & [Hj2 _]%NoDup_cons)%NoDup_app.
  assert (j ∉ u1) as Hj1 by (intros ?; apply (Hd j); set_solver).
  set (cells1 := <[new := b <| tb_next := head u2 |>]> cells) in *.
  assert (cells1 !! j = Some p) as Hj' by (unfold cells1; by rewrite list_lookup_insert_ne).
  assert (chain cells (head u2) u2) as Htail.
  { clear -Hc. revert h Hc. induction u1 as [|k u1 IH]; intros h.
    - intros (_ & c & _ & Hc). by rewrite <- (chain_head _ _ _ Hc).
    - intros (_ & c & _ & Hc). eauto. }
  split.
  - apply (chain_redirect cells1 h u1 j u2 p); [|done|done|].
    { apply chain_frame; [|done]. rewrite elem_of_app, elem_of_cons. tauto. }
    apply chain_frame; [set_solver|].
    split; [done|]. exists (b <| tb_next := head u2 |>). split.
    + apply list_lookup_insert_eq. by eapply lookup_lt_Some.
    + by apply chain_frame.
  - replace (u1 ++ j :: new :: u2) with ((u1 ++ [j]) ++ new :: u2) by by rewrite <- app_assoc.
    apply content_set_next; [done|]. apply content_set_next; [done|].
    apply Forall2_app; [done|]. constructor; [|done]. unfold content. by rewrite Hb, <- Hs.
Qed.

Lemma last_or_app p u1 i : last_or p (u1 ++ [i]) = Some i.
Proof. unfold last_or. by rewrite last_snoc. Qed.
End Refinement.

(** The first segment of a buffer. *)
Lemma add_repr_empty bb n data seqnum size :
  bb_repr bb [] (S n) →
  ∃ p bb', tcp_block_buffer_add bb data seqnum size = Ok (Some p, bb') ∧
    bb_max_size bb' = bb_max_size bb ∧
    bb_repr bb' [{| seg_seq := ntohl seqnum; seg_size := size; seg_data := data |}] n.
Proof.
  intros (used & unused & Hu & Hf & Hnd & H2 & Hlen).
  inversion H2; subst used. simpl in Hu, Hnd.
  destruct unused as [|new unused]; [done|]. injection Hlen as Hlen.
  destruct Hf as (Hfl & c & Hcell & Hf). apply NoDup_cons in Hnd as [Hnew Hndf].
  unfold tcp_block_buffer_add. rewrite Hfl, (block_at_Some _ _ c) by done.
  cbn [mbind outcome_bind]. set (b := {| tb_payload_size := _ |}). set (bb1 := set_block new b _).
  assert (bb_cells bb1 !! new = Some b) as Hb1
    by (apply list_lookup_insert_eq; by eapply lookup_lt_Some).
  change (bb_blocks bb1) with (bb_blocks bb). rewrite Hu.
  exists new. eexists. split; [done|]. split; [done|]. exists [new], unused. simpl.
  split; [eauto|]. split; [by apply chain_frame|]. split; [by constructor|]. split; [|done].
  constructor; [|done]. change (block_segment <$> bb_cells bb1 !! new = Some (block_segment b)). by rewrite Hb1.
Qed.

Lemma add_repr bb q n data seqnum size :
  bb_repr bb q (S n) →
  insertable {| seg_seq := ntohl seqnum; seg_size := size; seg_data := data |} q →
  ∃ p bb', tcp_block_buffer_add bb data seqnum size = Ok (Some p, bb') ∧
    bb_max_size bb' = bb_max_size bb ∧
    bb_repr bb'
      (queue_insert {| seg_seq := ntohl seqnum; seg_size := size; seg_data := data |} q) n.
Proof.
  destruct (decide (q = [])) as [->|Hq]; [intros Hr _; by apply add_repr_empty|].
  intros (used & unused & Hu & Hf & Hnd & H2 & Hlen) Hins.
  destruct unused as [|new unused]; [done|]. injection Hlen as Hlen.
  destruct Hf as (Hfl & c & Hcell & Hf).
  apply NoDup_app in Hnd as (Hndu & Hdis & [Hnew Hndf]%NoDup_cons).
  assert (new ∉ used) as Hnu by (intros ?; apply (Hdis new); set_solver).
  unfold tcp_block_buffer_add. rewrite Hfl, (block_at_Some _ _ c) by done.
  cbn [mbind outcome_bind].
  set (s := {| seg_seq := _ |}) in *. set (b := {| tb_payload_size := _ |}).
  set (bb1 := set_block new b _).
  assert (chain (bb_cells bb1) (bb_blocks bb) used) as Hu1 by (by apply chain_frame).
  assert (Forall2 (content (bb_cells bb1)) used q) as H21 by (by apply content_insert_ne).
  assert (chain (bb_cells bb1) (tb_next c) unused) as Hf1 by (by apply chain_frame).
  assert (bb_cells bb1 !! new = Some b) as Hb1.
  { apply list_lookup_insert_eq. by eapply lookup_lt_Some. }
  change (bb_blocks bb1) with (bb_blocks bb).
  destruct used as [|i used]; [by inversion H2; subst q|].
  destruct (add_position_spec bb1 s (i :: used) q
    (S (length (bb_cells bb1))) None (bb_blocks bb)) as
    (u1 & u2 & q1 & q2 & Hne & Eu & Eq & Ei & H1 & H2' & Hpos); [done|done| |].
  { pose proof (chain_length _ _ _ Hu1 Hndu). lia. }
  assert (∃ u1' j, u1 = u1' ++ [j]) as (u1' & j & ->).
  { destruct u1 as [|j u1 _] using rev_ind; [|eauto]. by destruct (Hne Hins). }
  destruct (bb_blocks bb) as [h|] eqn:Hblk; [|by destruct Hu].
  replace (length (bb_cells bb)) with (length (bb_cells bb1)) by apply length_insert.
  change (ntohl seqnum) with (seg_seq s). rewrite Hpos, last_or_app. cbn [mbind outcome_bind].
  rewrite <- app_assoc in Eu. simpl in Eu. rewrite Eu in Hu1, Hnu, Hndu.
  assert (is_Some (bb_cells bb1 !! j)) as [p Hp]
    by (eapply chain_lookup; [exact Hu1|set_solver]).
  assert (new ≠ j) as Hnj by set_solver.
  rewrite (block_at_Some _ j p); cbn [mbind outcome_bind from_option_fault].
  2: { cbn [set_block set_field bb_cells]. by rewrite list_lookup_insert_ne. }
  destruct (splice_cells (bb_cells bb1) (Some h) u1' j u2 new b p q1 s q2) as [Hch Hct];
    [done..|].
  exists new. eexists. split; [done|]. split; [done|].
  exists (u1' ++ j :: new :: u2), unused. rewrite <- Hblk in Hch. split; [exact Hch|].
  assert (∀ y, y ∈ u1' ++ j :: u2 → y ∉ unused) as Hdis'.
  { intros y Hy Hy'. apply (Hdis y); [by rewrite Eu|set_solver]. }
  split; [|split; [|split]].
  - apply chain_frame; [apply Hdis'; set_solver|]. by apply chain_frame.
  - assert (u1' ++ j :: new :: u2 ≡ₚ new :: (u1' ++ j :: u2)) as ->.
    { rewrite (Permutation_swap new j u2), <- Permutation_middle. done. }
    simpl. constructor.
    + rewrite elem_of_app. intros [?|?]; [by apply Hnu|done].
    + apply NoDup_app. done.
  - rewrite Ei. exact Hct.
  - done.
Qed.

(** With no free block the segment is refused (a null pointer is returned) and
    the buffer is unchanged. *)
Lemma tcp_block_buffer_add_full bb q data seqnum size :
  bb_repr bb q 0 → tcp_block_buffer_add bb data seqnum size = Ok (None, bb).
Proof.
  intros (used & unused & _ & Hf & _ & _ & Hlen). apply nil_length_inv in Hlen as ->.
  unfold tcp_block_buffer_add. by rewrite Hf.
Qed.

Lemma add_before_head bb x q n data seqnum size :
  bb_repr bb (x :: q) (S n) → ntohl seqnum < seg_seq x →
  tcp_block_buffer_add bb data seqnum size = Fault NullDeref.
Proof.
  intros (used & unused & Hu & Hf & Hnd & H2 & Hlen) Hlt.
  destruct unused as [|new unused]; [done|]. destruct Hf as (Hfl & c & Hcell & Hf).
  inversion H2 as [|i ? used' ? Hx H2']; subst. destruct Hu as (Hh & b & Hb & Hu).
  assert (new ≠ i) as Hne.
  { intros ->. apply NoDup_app in Hnd as (_ & Hd & _). apply (Hd i); set_solver. }
  unfold tcp_block_buffer_add. rewrite Hfl, (block_at_Some _ _ c) by done.
  cbn [mbind outcome_bind]. set (b' := {| tb_payload_size := _ |}). set (bb1 := set_block new b' _).
  change (bb_blocks bb1) with (bb_blocks bb). rewrite Hh. cbn [add_position].
  assert (bb_cells bb1 !! i = Some b) as Hb1
    by (rewrite <- Hb; by apply list_lookup_insert_ne).
  rewrite (block_at_Some bb1 i b) by done. cbn [mbind outcome_bind].
  rewrite Hb in Hx. simpl in Hx. injection Hx as <-. simpl in Hlt.
  destruct (Z.leb_spec (tb_sequence_num b) (ntohl seqnum)); [lia|]. done.
Qed.

(** C33: [tcp_block_buffer_add] on every buffer.  With no free block the segment is refused (a null
    pointer is returned) and the buffer is unchanged.  Otherwise it goes behind the segments
    with at most its sequence number, takes one free block and returns it; but a segment
    whose place would be in front of the head is stored through a null pointer. *)
Theorem tcp_block_buffer_add_refines bb q n data seqnum size :
  bb_repr bb q n →
  let s := {| seg_seq := ntohl seqnum; seg_size := size; seg_data := data |} in
  match n with
  | O => tcp_block_buffer_add bb data seqnum size = Ok (None, bb)
  | S n =>
      if decide (insertable s q) then
        ∃ p bb', tcp_block_buffer_add bb data seqnum size = Ok (Some p, bb') ∧
          bb_max_size bb' = bb_max_size bb ∧ bb_repr bb' (queue_insert s q) n
      else tcp_block_buffer_add bb data seqnum size = Fault NullDeref
  end.
Proof.
  intros Hr s. destruct n as [|n]; [by eapply tcp_block_buffer_add_full|].
  case_decide as Hi; [by apply add_repr|]. destruct q as [|x q]; [by destruct Hi|].
  apply (add_before_head _ _ _ _ _ _ _ Hr). simpl in Hi. lia.
Qed.

Lemma length_queue_insert s q : length (queue_insert s q) = S (length q).
Proof. induction q as [|x q IH]; simpl; [done|]. destruct (_ <=? _); simpl; by rewrite ?IH. Qed.

Lemma remove_front_repr bb q n k :
  bb_repr bb q n →
  ∃ bb', tcp_block_buffer_remove_front bb k = Ok bb' ∧ bb_max_size bb' = bb_max_size bb ∧
    bb_repr bb' (drop k q) (n + Nat.min k (length q)).
Proof.
  revert bb q n. induction k as [|k IH]; intros bb q n Hr.
  { exists bb. rewrite Nat.add_0_r. done. }
  pose proof Hr as (used & unused & Hu & Hf & Hnd & H2 & Hlen). cbn [tcp_block_buffer_remove_front].
  destruct q as [|s q]; inversion H2 as [|i ? used' ? Hi H2']; subst.
  { simpl in Hu. rewrite Hu. exists bb. simpl. by rewrite Nat.add_0_r. }
  destruct Hu as (Hh & b & Hb & Hu). rewrite Hh, (block_at_Some _ _ b) by done.
  cbn [mbind outcome_bind].
  apply NoDup_app in Hnd as ([Hi1 Hnd1]%NoDup_cons & Hd & Hnd2).
  assert (i ∉ unused) as Hi2 by (apply Hd; set_solver).
  match goal with |- context [tcp_block_buffer_remove_front ?x k] => set (bb1 := x) end.
  destruct (IH bb1 q (S (length unused))) as (bb' & -> & Hm & Hr').
  - exists used', (i :: unused). split; [by apply chain_frame|]. split; [|split; [|split]].
    + split; [done|]. exists (b <| tb_next := bb_free_list bb |>). split.
      * apply list_lookup_insert_eq. by eapply lookup_lt_Some.
      * by apply chain_frame.
    + apply NoDup_app. split; [done|]. split; [|by apply NoDup_cons]. set_solver.
    + by apply content_set_next.
    + done.
  - exists bb'. split; [done|]. split; [done|]. simpl.
    by replace (length unused + S (Nat.min k (length q)))%nat
      with (S (length unused) + Nat.min k (length q))%nat by lia.
Qed.

(** Removing from the front drops that many segments (or all of them) and
    gives their blocks back to the free list. *)
Lemma tcp_block_buffer_remove_front_refines bb q n k :
  bb_repr bb q n →
  ∃ bb', tcp_block_buffer_remove_front bb k = Ok bb' ∧ bb_max_size bb' = bb_max_size bb ∧
    bb_repr bb' (drop k q) (n + Nat.min k (length q)).
Proof. apply remove_front_repr. Qed.

Lemma num_ready_repr bb q n start :
  bb_repr bb q n → Z.of_nat (length q) < 65536 →
  tcp_block_buffer_num_ready bb start = Ok (Z.of_nat (queue_ready start q)).
Proof.
  intros (used & unused & Hu & _ & [Hnd _]%NoDup_app & H2 & _) Hlen.
  pose proof (chain_length _ _ _ Hu Hnd) as Hl. clear Hnd.
  unfold tcp_block_buffer_num_ready.
  assert (∀ fuel p u q acc start, chain (bb_cells bb) p u → Forall2 (content (bb_cells bb)) u q →
    (length u < fuel)%nat → 0 <= acc → acc + Z.of_nat (length q) < 65536 →
    num_ready_loop fuel bb start acc p = Ok (acc + Z.of_nat (queue_ready start q))) as Hloop.
  { clear. induction fuel as [|fuel IH]; intros p u q acc start Hu H2 Hf Ha Hb; [lia|].
    destruct H2 as [|i s u q Hi H2]; cbn [num_ready_loop queue_ready].
    { rewrite Hu. by rewrite Z.add_0_r. }
    destruct Hu as (-> & b & Hcell & Hu). rewrite (block_at_Some _ _ b) by done.
    cbn [mbind outcome_bind]. unfold content in Hi. rewrite Hcell in Hi. injection Hi as <-.
    cbn [seg_seq seg_size block_segment]. simpl in Hb, Hf.
    destruct (_ || _); [|by rewrite Z.add_0_r].
    rewrite u16_id by range. rewrite (IH _ u q) by (done || lia). f_equal. lia. }
  rewrite (Hloop _ _ used q) by (done || lia). done.
Qed.

(** The number of ready segments is the length of the run that continues the
    expected sequence number (an acknowledgement may be one ahead). *)
Lemma tcp_block_buffer_num_ready_refines bb q n start :
  bb_repr bb q n → Z.of_nat (length q) < 65536 →
  tcp_block_buffer_num_ready bb start = Ok (Z.of_nat (queue_ready start q)).
Proof. apply num_ready_repr. Qed.

(** Insertion keeps a queue ordered by sequence number. *)
Lemma queue_insert_sorted s q :
  StronglySorted (λ a b, seg_seq a <= seg_seq b) q →
  StronglySorted (λ a b, seg_seq a <= seg_seq b) (queue_insert s q).
Proof.
  induction 1 as [|x q Hs IH Hx]; simpl; [by repeat constructor|].
  destruct (Z.leb_spec (seg_seq x) (seg_seq s)).
  - constructor; [done|]. clear -Hx H. induction q as [|y q IH]; simpl.
    + constructor; [done|constructor].
    + apply Forall_cons in Hx as [Hy Hq]. destruct (_ <=? _); repeat constructor; auto.
  - constructor; [by constructor|]. constructor; [lia|].
    eapply Forall_impl; [exact Hx|]. simpl. lia.
Qed.

Lemma create_repr raw max_size :
  length raw = S TCP_BLOCK_BUFFER_DEFAULT_SIZE →
  bb_repr (create_tcp_block_buffer raw max_size) [] (S TCP_BLOCK_BUFFER_DEFAULT_SIZE) ∧
  chain (bb_cells (create_tcp_block_buffer raw max_size))
    (bb_free_list (create_tcp_block_buffer raw max_size))
    (seq 0 TCP_BLOCK_BUFFER_DEFAULT_SIZE ++ [TCP_BLOCK_BUFFER_DEFAULT_SIZE]).
Proof.
  intros Hl. unfold TCP_BLOCK_BUFFER_DEFAULT_SIZE in *.
  do 11 (destruct raw as [|? raw]; [discriminate Hl|]). destruct raw; [|discriminate Hl].
  assert (∀ cells, (∀ i, (i < 10)%nat → ∃ b, cells !! i = Some b ∧ tb_next b = Some (S i)) →
    (∃ b, cells !! 10%nat = Some b ∧ tb_next b = None) → chain cells (Some 0%nat) (seq 0 11)) as Hc.
  { intros cells Hi Hlast. simpl.
    repeat match goal with
      | |- Some ?x = Some ?x ∧ _ => split; [done|]
      | |- ∃ b, cells !! 10%nat = _ ∧ _ => exact Hlast
      | |- ∃ b, cells !! ?i = _ ∧ _ =>
          let b := fresh in let H1 := fresh in let H2 := fresh in
          destruct (Hi i ltac:(lia)) as (b & H1 & H2); exists b; rewrite H2; split; [done|]
      end. }
  match goal with |- bb_repr ?b _ _ ∧ _ =>
    assert (chain (bb_cells b) (Some 0%nat) (seq 0 11)) as Hfree end.
  { apply Hc.
    - intros i Hi. do 10 (destruct i as [|i]; [eexists; split; reflexivity|]). lia.
    - eexists. split; reflexivity. }
  split; [|exact Hfree]. exists [], (seq 0 11).
  split; [done|]. split; [exact Hfree|]. split; [apply NoDup_seq|]. by split.
Qed.

(** A new buffer is empty and has eleven free blocks, one more than the array
    was allocated for: its free list ends in the block at index
    [TCP_BLOCK_BUFFER_DEFAULT_SIZE], behind the array.  The requested [max_size] has
    no influence on the capacity. *)
Lemma create_tcp_block_buffer_repr raw max_size :
  length raw = S TCP_BLOCK_BUFFER_DEFAULT_SIZE →
  bb_repr (create_tcp_block_buffer raw max_size) [] (S TCP_BLOCK_BUFFER_DEFAULT_SIZE) ∧
  chain (bb_cells (create_tcp_block_buffer raw max_size))
    (bb_free_list (create_tcp_block_buffer raw max_size))
    (seq 0 TCP_BLOCK_BUFFER_DEFAULT_SIZE ++ [TCP_BLOCK_BUFFER_DEFAULT_SIZE]).
Proof. apply create_repr. Qed.

(** ** Witnesses *)

Definition raw_cells : list tcp_block_t :=
  replicate 11 {| tb_payload_size := 0; tb_sequence_num := 0; tb_data := 0; tb_next := None |}.

Definition example_buffer : tcp_block_buffer_t := create_tcp_block_buffer raw_cells 10.

Lemma example_buffer_repr : bb_repr example_buffer [] 11.
Proof. apply (create_repr raw_cells 10). reflexivity. Qed.

(** The buffer after two adds: the segments 100 and 120 (in network order). *)
Definition two_segments : list segment :=
  [{| seg_seq := 100; seg_size := 20; seg_data := 1 |};
   {| seg_seq := 120; seg_size := 5; seg_data := 2 |}].

Definition add_seg (bb : tcp_block_buffer_t) (s : segment) : tcp_block_buffer_t :=
  match tcp_block_buffer_add bb (seg_data s) (htonl (seg_seq s)) (seg_size s) with
  | Ok (_, bb) => bb | _ => bb end.

Definition example_buffer2 : tcp_block_buffer_t := foldl add_seg example_buffer two_segments.

Lemma example_buffer2_repr : bb_repr example_buffer2 two_segments 9.
Proof.
  exists [0; 1]%nat, (seq 2 9). split; [vm_compute; eauto 10|].
  split; [vm_compute; eauto 40|]. split; [apply (NoDup_seq 0 11)|]. split; [|done].
  by repeat constructor.
Qed.

Example create_tcp_block_buffer_repr_example :
  bb_repr (create_tcp_block_buffer raw_cells 10) [] 11.
Proof. apply (create_tcp_block_buffer_repr raw_cells 10). reflexivity. Qed.

Lemma tcp_block_buffer_add_refines_witness :
  (∃ p bb', tcp_block_buffer_add example_buffer2 3 (htonl 110) 10 = Ok (Some p, bb') ∧
    bb_repr bb' [{| seg_seq := 100; seg_size := 20; seg_data := 1 |};
                 {| seg_seq := 110; seg_size := 10; seg_data := 3 |};
                 {| seg_seq := 120; seg_size := 5; seg_data := 2 |}] 8) ∧
  tcp_block_buffer_add example_buffer2 3 (htonl 90) 10 = Fault NullDeref.
Proof.
  split.
  - pose proof (tcp_block_buffer_add_refines example_buffer2 two_segments 9 3 (htonl 110) 10
      example_buffer2_repr) as H.
    cbv zeta iota in H. rewrite decide_True in H by (vm_compute; discriminate).
    destruct H as (p & bb' & H & _ & Hr). exists p, bb'. split; [exact H|exact Hr].
  - pose proof (tcp_block_buffer_add_refines example_buffer2 two_segments 9 3 (htonl 90) 10
      example_buffer2_repr) as H.
    cbv zeta iota in H. rewrite decide_False in H; [exact H|]. vm_compute. intros Hf. by apply Hf.
Defined.

Example tcp_block_buffer_add_full_example :
  let bb := example_buffer <| bb_free_list := None |> in
  tcp_block_buffer_add bb 3 0 0 = Ok (None, bb).
Proof.
  apply (tcp_block_buffer_add_full _ []). exists [], [].
  split; [done|]. split; [done|]. split; [constructor|]. split; [constructor|done].
Qed.

Example tcp_block_buffer_remove_front_refines_example :
  ∃ bb', tcp_block_buffer_remove_front example_buffer2 1 = Ok bb' ∧
    bb_repr bb' [{| seg_seq := 120; seg_size := 5; seg_data := 2 |}] 10.
Proof.
  destruct (tcp_block_buffer_remove_front_refines example_buffer2 two_segments 9 1
    example_buffer2_repr) as (bb' & H & _ & Hr).
  exists bb'. split; [exact H|exact Hr].
Qed.

Example tcp_block_buffer_num_ready_refines_example :
  tcp_block_buffer_num_ready example_buffer2 99 = Ok 2.
Proof.
  apply (tcp_block_buffer_num_ready_refines example_buffer2 two_segments 9 99
    example_buffer2_repr). reflexivity.
Qed.

Example queue_insert_sorted_example :
  StronglySorted (λ a b, seg_seq a <= seg_seq b)
    (queue_insert {| seg_seq := 110; seg_size := 10; seg_data := 3 |} two_segments).
Proof.
  apply queue_insert_sorted. repeat constructor. discriminate.
Qed.

(** The head of a buffer that holds a queue. *)
Lemma repr_nil bb n : bb_repr bb [] n → bb_blocks bb = None.
Proof. intros (used & unused & Hu & _ & _ & H2 & _). inversion H2; subst. apply Hu. Qed.
Lemma repr_cons bb s q n :
  bb_repr bb (s :: q) n →
  ∃ j b, bb_blocks bb = Some j ∧ block_at bb (Some j) = Ok b ∧ block_segment b = s.
Proof.
  intros (used & unused & Hu & _ & _ & H2 & _). inversion H2 as [|j ? used' ? Hj _]; subst.
  destruct Hu as (Hh & b & Hb & _). exists j, b. rewrite (block_at_Some _ _ b) by done.
  split; [done|]. split; [done|]. rewrite Hb in Hj. by injection Hj.
Qed.
