(* ===== verification/State.v ===== *)
(** * State: the structures of the stack and the memory they live in

    The structs of [handlers/handler.h], [handlers/interface.h], [handlers/types.h],
    [handlers/socket.h], [handlers/tcp/socket.h], [handlers/tcp/tcp_shared.h],
    [handlers/arp/arp.h], [handlers/arp/socket.h] and [handlers/custom/custom.h] as
    records, and the memory as one finite map per struct type, from addresses to live
    objects: using an address that is not in its map is use of an object whose
    lifetime has ended.  [None] is the null pointer.

    A pointer into a received frame is an offset into it.  Fields the sources never
    read ([own_ipv4], [own_port], [options], [dummy] and the locks) are left out: the
    development is about one worker thread, as [main.c] starts ([NUM_WORKERS]). *)

From S2P Require Import Prelude Headers ProtocolMap BlockBuffer.

Abbreviation addr := nat.

(** ** Interfaces and packet stacks *)

Record interface_t := {
  if_port : Z;
  if_ipv4_addr : Z;
  if_mac : list Z
}.
#[export] Instance eta_interface_t : Eta interface_t := λ r,
  Build_interface_t (if_port r) (if_ipv4_addr r) (if_mac r).

(** [struct out_buffer_t]: the bytes from [offset] up to [size] of the buffer; headers
    are only ever written right in front of them. *)
Record out_buffer_t := {
  ob_size : Z;
  ob_offset : Z;
  ob_data : list Z
}.
#[export] Instance eta_out_buffer_t : Eta out_buffer_t := λ r,
  Build_out_buffer_t (ob_size r) (ob_offset r) (ob_data r).

Record ethernet_write_args_t := { ewa_destination : list Z; ewa_ethernet_type : Z }.
Record ipv4_write_args_t := { iwa_destination_ip : Z; iwa_protocol : Z }.
Record tcp_write_args_t := { twa_connection_id : Z; twa_socket : option addr; twa_flags : Z }.
Record llc_write_args_t := {
  lwa_destination_access_service_point : Z;
  lwa_source_access_service_point : Z;
  lwa_control : Z
}.

(** What a [void*] of an argument stack points to. *)
Inductive write_args : Type :=
  | ArgNull
  | ArgEthernet (a : ethernet_write_args_t)
  | ArgIpv4 (a : ipv4_write_args_t)
  | ArgTcp (a : tcp_write_args_t)
  | ArgArp (a : arp_header_t)
  | ArgLlc (a : llc_write_args_t).

(** [struct in_packet_stack_t]; [ips_frame] is the frame its pointers point into. *)
Record in_packet_stack_t := {
  ips_handlers : list (option addr);
  ips_return_args : list write_args;
  ips_packet_pointers : list (option nat);
  ips_frame : list Z;
  ips_stack_idx : nat
}.
#[export] Instance eta_in_packet_stack_t : Eta in_packet_stack_t := λ r,
  Build_in_packet_stack_t (ips_handlers r) (ips_return_args r) (ips_packet_pointers r)
    (ips_frame r) (ips_stack_idx r).

Record out_packet_stack_t := {
  ops_handlers : list (option addr);
  ops_args : list write_args;
  ops_out_buffer : out_buffer_t;
  ops_stack_idx : nat
}.
#[export] Instance eta_out_packet_stack_t : Eta out_packet_stack_t := λ r,
  Build_out_packet_stack_t (ops_handlers r) (ops_args r) (ops_out_buffer r) (ops_stack_idx r).

Definition STACK_DEPTH : nat := 10.
Definition DEFAULT_PACKAGE_BUFFER_SIZE : Z := 65535.

(** [struct socket_client_args] *)
Record socket_client_args := {
  sca_handlers : list (option addr);
  sca_handler_args : list write_args;
  sca_depth : Z
}.
#[export] Instance eta_socket_client_args : Eta socket_client_args := λ r,
  Build_socket_client_args (sca_handlers r) (sca_handler_args r) (sca_depth r).

(** ** TCP *)

Definition TCP_SYN_FLAG : Z := 2.
Definition TCP_ACK_FLAG : Z := 16.
Definition TCP_RST_FLAG : Z := 4.
Definition TCP_FIN_FLAG : Z := 1.
Definition TCP_PSH_FLAG : Z := 8.
Definition SOCKET_BUFFER_SIZE : nat := 64.
Definition TCP_SOCKET_NUM_TCB : nat := 32.

Inductive TCP_STATE : Type :=
  | LISTEN | SYN_SENT | SYN_RECEIVED | ESTABLISHED | FIN_WAIT_1 | FIN_WAIT_2
  | CLOSE_WAIT | CLOSING | CLOSED | LAST_ACK | TIME_WAIT.
#[export] Instance TCP_STATE_eq_dec : EqDecision TCP_STATE.
Proof. solve_decision. Defined.

(** The functions a [state_function] pointer is set to. *)
Inductive state_function : Type := fn_tcp_close | fn_tcp_listen | fn_tcp_syn_sent | fn_tcp_others.
#[export] Instance state_function_eq_dec : EqDecision state_function.
Proof. solve_decision. Defined.

Record transmission_control_block_t := {
  tcb_id : Z;
  tcb_remote_ipv4 : Z;
  tcb_remote_port : Z;
  tcb_send_unacknowledged : Z;
  tcb_send_next : Z;
  tcb_send_window : Z;
  tcb_send_urgent_pointer : Z;
  tcb_send_initial_sequence_num : Z;
  tcb_send_last_update_sequence_num : Z;
  tcb_send_last_update_acknowledgement_num : Z;
  tcb_receive_next : Z;
  tcb_receive_window : Z;
  tcb_receive_urgent_pointer : Z;
  tcb_receive_initial_sequence_num : Z;
  tcb_fin_num : Z;
  tcb_state : TCP_STATE;
  tcb_active_mode : bool;
  tcb_active_mode_args : option addr;
  tcb_out_buffer : tcp_block_buffer_t;
  tcb_in_buffer : tcp_block_buffer_t;
  (* [out_header]: its first 20 bytes as a header, and what can be read behind them: the
     other 40 bytes, and the memory that follows in the structure and behind it *)
  tcb_out_header : tcp_header_t;
  tcb_after_header : list Z;
  tcb_state_function : state_function
}.
#[export] Instance eta_transmission_control_block_t : Eta transmission_control_block_t := λ r,
  Build_transmission_control_block_t (tcb_id r) (tcb_remote_ipv4 r) (tcb_remote_port r)
    (tcb_send_unacknowledged r) (tcb_send_next r) (tcb_send_window r)
    (tcb_send_urgent_pointer r) (tcb_send_initial_sequence_num r)
    (tcb_send_last_update_sequence_num r) (tcb_send_last_update_acknowledgement_num r)
    (tcb_receive_next r) (tcb_receive_window r) (tcb_receive_urgent_pointer r)
    (tcb_receive_initial_sequence_num r) (tcb_fin_num r) (tcb_state r) (tcb_active_mode r)
    (tcb_active_mode_args r) (tcb_out_buffer r) (tcb_in_buffer r) (tcb_out_header r)
    (tcb_after_header r) (tcb_state_function r).

(** [struct tcp_socket_t]; the operations are the functions of [socket.c], and
    [on_connect], [on_close] the application's. *)
Record tcp_socket_t := {
  sock_port : Z;
  sock_ipv4 : Z;
  sock_trans_control_block : list (option addr);
  sock_on_connect : option addr;
  sock_on_close : option addr;
  sock_interface : interface_t;
  sock_next_handler : option addr
}.
#[export] Instance eta_tcp_socket_t : Eta tcp_socket_t := λ r,
  Build_tcp_socket_t (sock_port r) (sock_ipv4 r) (sock_trans_control_block r)
    (sock_on_connect r) (sock_on_close r) (sock_interface r) (sock_next_handler r).

Record tcp_priv_t := {
  tp_window : Z;
  tp_tcp_sockets : list (option addr)
}.
#[export] Instance eta_tcp_priv_t : Eta tcp_priv_t := λ r,
  Build_tcp_priv_t (tp_window r) (tp_tcp_sockets r).

(** ** ARP and the custom handler *)

Definition ARP_RESOLUTION_LIST_SIZE : nat := 256.

Record arp_entry_t := { ae_ipv4 : Z; ae_mac : list Z }.

(** [struct arp_resoltion_list_t]: every slot owns the entry it points to. *)
Record arp_resoltion_list_t := {
  arl_list : list (option arp_entry_t);
  arl_insert_idx : Z
}.
#[export] Instance eta_arp_resoltion_list_t : Eta arp_resoltion_list_t := λ r,
  Build_arp_resoltion_list_t (arl_list r) (arl_insert_idx r).

Record arp_priv_t := {
  ap_socket : option addr;
  ap_resolution_list : arp_resoltion_list_t
}.
#[export] Instance eta_arp_priv_t : Eta arp_priv_t := λ r,
  Build_arp_priv_t (ap_socket r) (ap_resolution_list r).

Record arp_socket_t := {
  as_next_handler : option addr;
  as_passthrough : bool;
  as_interface : interface_t
}.

Record custom_priv_t := { cp_response_buffer : list Z; cp_response_length : Z }.

(** ** Handlers *)

(** Which functions a handler's [operations] point to. *)
Inductive handler_kind : Type :=
  | EthernetHandler | ArpHandler | Ipv4Handler | TcpHandler | LlcHandler | CustomHandler.

(** What a handler's [priv] points to; [PrivDummy] is a struct with a field no code reads. *)
Inductive handler_priv : Type :=
  | PrivNone
  | PrivFreed
  | PrivDummy
  | PrivArp (p : arp_priv_t)
  | PrivTcp (p : tcp_priv_t)
  | PrivCustom (p : custom_priv_t).

Record handler_t := { h_operations : handler_kind; h_priv : handler_priv }.
#[export] Instance eta_handler_t : Eta handler_t := λ r,
  Build_handler_t (h_operations r) (h_priv r).

(** ** The memory and what the stack has done to the outside *)

Record world := {
  w_handlers : gmap addr handler_t;
  w_in_stacks : gmap addr in_packet_stack_t;
  w_out_stacks : gmap addr out_packet_stack_t;
  w_tcbs : gmap addr transmission_control_block_t;
  w_sockets : gmap addr tcp_socket_t;
  w_client_args : gmap addr socket_client_args;
  w_arp_sockets : gmap addr arp_socket_t;
  (* [ethernet_type_to_handler], [ip_type_to_handler], [llc_type_to_handler] *)
  w_ethernet_map : priority_map_t;
  w_ip_map : priority_map_t;
  w_llc_map : priority_map_t;
  (* the counter [x] of [tcp_shared.c] *)
  w_x : Z;
  (* the next address the allocator hands out *)
  w_next : addr;
  (* the frames given to the interface's [write], in order *)
  w_wire : list (list Z);
  (* the application callbacks that were called, in order *)
  w_calls : list addr
}.
#[export] Instance eta_world : Eta world := λ r,
  Build_world (w_handlers r) (w_in_stacks r) (w_out_stacks r) (w_tcbs r) (w_sockets r)
    (w_client_args r) (w_arp_sockets r) (w_ethernet_map r) (w_ip_map r) (w_llc_map r)
    (w_x r) (w_next r) (w_wire r) (w_calls r).

(** What [NET_STACK_MALLOC] leaves in the fields the sources do not initialise. *)
Class Platform := {
  raw_cells : list tcp_block_t;
  raw_handler_priv : handler_priv;
  raw_tcb_header : tcp_header_t;
  raw_tcb_after_header : list Z;
  raw_tcb_active_mode : bool;
  raw_tcb_active_mode_args : option addr;
  raw_trans_control_block : list (option addr);
  raw_tcp_sockets : list (option addr);
  raw_insert_idx : Z;
  raw_num_arp_entries : Z;
  raw_llc_padding : Z
}.

(** Calls through the function pointers of a handler: [op_write handler packet_stack]
    and [op_read packet_stack handler].  A result [None] is the indeterminate value of
    a function that ends without a [return]. *)
Class Dispatch := {
  op_write : addr → addr → interface_t → M world bool;
  op_read : addr → interface_t → addr → M world (option Z)
}.

(** *** Access to an object of a store *)

Definition load {T} (store : world → gmap addr T) (a : addr) : M world T :=
  λ w, match store w !! a with Some x => Ok (x, w) | None => Fault Dangling end.

Definition update {T} (store : world → gmap addr T) `{!Setter store} (a : addr)
    (f : T → T) : M world unit :=
  λ w, match store w !! a with
       | Some x => Ok (tt, w <| store ::= <[a := f x]> |>)
       | None => Fault Dangling
       end.

(** A new object at an address that was never used. *)
Definition alloc {T} (store : world → gmap addr T) `{!Setter store} (x : T) : M world addr :=
  λ w, let a := w_next w in
       Ok (a, (w <| store ::= <[a := x]> |>) <| w_next := S a |>).

Definition free {T} (store : world → gmap addr T) `{!Setter store} (a : addr) : M world unit :=
  λ w, match store w !! a with
       | Some _ => Ok (tt, w <| store ::= delete a |>)
       | None => Fault Dangling
       end.

Definition set_array {A} (i : nat) (x : A) (l : list A) : option (list A) :=
  match l !! i with Some _ => Some (<[i := x]> l) | None => None end.

(** [packet_stack->in_buffer.packet_pointers[i]] as the memory from there on. *)
Definition packet_at (ps : in_packet_stack_t) (i : nat) : M world (list Z) :=
  p <- need OutOfBounds (ips_packet_pointers ps !! i);;
  off <- need NullDeref p;;
  ret (drop off (ips_frame ps)).

(** A cast of memory to a header; the access needs all of the struct to be there. *)
Definition cast {H} (decode : list Z → option H) (m : list Z) : M world H :=
  need OutOfBounds (decode m).

(** [interface->operations.write(buffer)], the only write the application sets up
    ([handler_write] of [handler.c] through [handler_config->write]). *)
Definition handler_write (buffer : out_buffer_t) (interface : interface_t) : M world unit :=
  modify (λ w, w <| w_wire ::= λ l, l ++ [ob_data buffer] |>).

(** A call of an application callback. *)
Definition callback (f : option addr) : M world unit :=
  f <- need NullDeref f;;
  modify (λ w, w <| w_calls ::= λ l, l ++ [f] |>).

(** Storing a header in front of the data of a buffer and moving [offset] down. *)
Definition push_header (bytes : list Z) (b : out_buffer_t) : out_buffer_t :=
  b <| ob_offset ::= λ o, o - Z.of_nat (length bytes) |> <| ob_data ::= app bytes |>.

(** The end of the write functions of all handlers below TCP: at the bottom of the
    stack the buffer goes to the interface, else to the handler one place down. *)
Definition write_down `{!Dispatch} (packet_stack : addr) (interface : interface_t)
    : M world bool :=
  ps <- load w_out_stacks packet_stack;;
  match ops_stack_idx ps with
  | O => handler_write (ops_out_buffer ps) interface;;; ret true
  | S idx =>
      update w_out_stacks packet_stack (λ ps, ps <| ops_stack_idx := idx |>);;;
      next <- need OutOfBounds (ops_handlers ps !! idx);;
      next_handler <- need NullDeref next;;
      op_write next_handler packet_stack interface
  end.

(** [handler_create_out_package_stack]: a response that goes back down the handlers
    the packet came up through. *)
Definition handler_create_out_package_stack (packet_stack : addr) (package_depth : nat)
    : M world addr :=
  ps <- load w_in_stacks packet_stack;;
  alloc w_out_stacks
    {| ops_handlers := ips_handlers ps;
       ops_args := ips_return_args ps;
       ops_out_buffer :=
         {| ob_size := DEFAULT_PACKAGE_BUFFER_SIZE; ob_offset := DEFAULT_PACKAGE_BUFFER_SIZE;
            ob_data := [] |};
       ops_stack_idx := package_depth |}.

(** [NET_STACK_FREE(handler->priv)]: the pointer keeps its value. *)
Definition free_priv (handler : addr) : M world unit :=
  h <- load w_handlers handler;;
  match h_priv h with
  | PrivNone => ret tt
  | PrivFreed => fail Dangling
  | _ => update w_handlers handler (λ h, h <| h_priv := PrivFreed |>)
  end.

(** The out buffer of a packet stack is consistent: the data fill it from [offset] to
    its end. *)
Definition out_buffer_ok (b : out_buffer_t) : Prop :=
  0 <= ob_offset b ∧ ob_offset b + Z.of_nat (length (ob_data b)) = ob_size b.

Section Access.
Context {T : Type} (store : world → gmap addr T) `{!Setter store}.

Lemma load_ok a x w : store w !! a = Some x → load store a w = Ok (x, w).
Proof. unfold load. by intros ->. Qed.

Lemma update_ok a f x w :
  store w !! a = Some x → update store a f w = Ok (tt, w <| store ::= <[a := f x]> |>).
Proof. unfold update. by intros ->. Qed.

Lemma wp_load a x (Q : T → world → Prop) w :
  store w !! a = Some x → Q x w → wp (load store a) Q w.
Proof. intros H ?. unfold wp. by rewrite (load_ok a x). Qed.

Lemma wp_update a f x (Q : unit → world → Prop) w :
  store w !! a = Some x → Q tt (w <| store ::= <[a := f x]> |>) →
  wp (update store a f) Q w.
Proof. intros H ?. unfold wp. by rewrite (update_ok a f x). Qed.

Lemma wlp_load a (Q : T → world → Prop) w :
  (∀ x, store w !! a = Some x → Q x w) → wlp (load store a) Q w.
Proof. unfold wlp, load. destruct (store w !! a); naive_solver. Qed.

Lemma wlp_update a f (Q : unit → world → Prop) w :
  (∀ x, store w !! a = Some x → Q tt (w <| store ::= <[a := f x]> |>)) →
  wlp (update store a f) Q w.
Proof. unfold wlp, update. destruct (store w !! a); naive_solver. Qed.
End Access.

Lemma wp_modify (f : world → world) (Q : unit → world → Prop) w :
  Q tt (f w) → wp (modify f) Q w.
Proof. done. Qed.

Lemma wp_need {A} f (o : option A) a (Q : A → world → Prop) w :
  o = Some a → Q a w → wp (need f o) Q w.
Proof. by intros ->. Qed.

Lemma push_header_ok bytes b :
  out_buffer_ok b → Z.of_nat (length bytes) <= ob_offset b → out_buffer_ok (push_header bytes b).
Proof. unfold out_buffer_ok, push_header. simpl. rewrite length_app. lia. Qed.

Lemma set_array_Some {A} i (x : A) l :
  (i < length l)%nat → set_array i x l = Some (<[i := x]> l).
Proof. intros H. unfold set_array. by destruct (lookup_lt_is_Some_2 _ _ H) as [y ->]. Qed.

(** ** Running a computation step by step

    The equations of [bind] at each primitive; [net_step] rewrites with them. *)
Section Steps.
Context {A B : Type}.
Implicit Types (k : A → M world B).

Lemma bind_load (store : world → gmap addr A) a x k w :
  store w !! a = Some x → bind (load store a) k w = k x w.
Proof. intros H. unfold bind. by rewrite (load_ok store a x). Qed.

Lemma bind_update {T} (store : world → gmap addr T) `{!Setter store} a f x
    (k : unit → M world B) w :
  store w !! a = Some x →
  bind (update store a f) k w = k tt (w <| store ::= <[a := f x]> |>).
Proof. intros H. unfold bind. by rewrite (update_ok store a f x). Qed.

Lemma bind_need f (o : option A) x k w : o = Some x → bind (need f o) k w = k x w.
Proof. by intros ->. Qed.

Lemma bind_lift (o : outcome A) x k w : o = Ok x → bind (lift_outcome o) k w = k x w.
Proof. intros ->. done. Qed.

Lemma bind_modify f (k : unit → M world B) w : bind (modify f) k w = k tt (f w).
Proof. done. Qed.

Lemma bind_get (k : world → M world B) w : bind get k w = k w w.
Proof. done. Qed.

Lemma bind_then {C} (m : M world A) (k : A → M world B) (l : B → M world C) w x w' :
  m w = Ok (x, w') → bind (bind m k) l w = bind (k x) l w'.
Proof. intros H. rewrite bind_assoc. by rewrite (bind_ok m _ w x w'). Qed.
End Steps.

(** A header at the place a packet pointer leads to. *)
Lemma packet_at_ok ps i off w :
  ips_packet_pointers ps !! i = Some (Some off) →
  packet_at ps i w = Ok (drop off (ips_frame ps), w).
Proof. intros H. unfold packet_at. rewrite H. done. Qed.

(** The next handler down. *)
Lemma write_down_next `{!Dispatch} ps i w p idx next :
  w_out_stacks w !! ps = Some p → ops_stack_idx p = S idx →
  ops_handlers p !! idx = Some (Some next) →
  write_down ps i w =
  op_write next ps i (w <| w_out_stacks ::= <[ps := p <| ops_stack_idx := idx |>]> |>).
Proof.
  intros Hp Hi Hn. unfold write_down. rewrite (bind_load _ _ p) by done. rewrite Hi.
  rewrite (bind_update _ _ _ p) by done. by rewrite Hn.
Qed.
Lemma write_down_bottom `{!Dispatch} ps i w p :
  w_out_stacks w !! ps = Some p → ops_stack_idx p = O →
  write_down ps i w = Ok (true, w <| w_wire ::= λ l, l ++ [ob_data (ops_out_buffer p)] |>).
Proof.
  intros Hp Hi. unfold write_down. rewrite (bind_load _ _ p) by done. by rewrite Hi.
Qed.
