(* ===== verification/Ethernet.v ===== *)
(** * Ethernet: the root handler of a received frame

    [handlers/ethernet/ethernet.c]. *)

From S2P Require Import Prelude Headers ProtocolMap BlockBuffer State.

(** [ETHERNET_TYPE_ARP], [ETHERNET_TYPE_IPV6] and [ETHERNET_TYPE_IPV4] of [ethernet.h]. *)
Definition ETHERNET_TYPE_ARP : Z := 2054.
Definition ETHERNET_TYPE_IPV6 : Z := 8.
Definition ETHERNET_TYPE_IPV4 : Z := 2048.
Definition ETHERNET_NUM_ETH_TYPE_ENTRIES : Z := 512.

Section Ethernet.
Context `{!Dispatch}.

Definition as_ethernet_args (a : write_args) : M world ethernet_write_args_t :=
  match a with
  | ArgEthernet a => ret a
  | ArgNull => fail NullDeref
  | _ => fail TypeConfusion
  end.

Definition ethernet_write (packet_stack : addr) (interface : interface_t) : M world bool :=
  ps <- load w_out_stacks packet_stack;;
  args <- need OutOfBounds (ops_args ps !! ops_stack_idx ps);;
  if ob_offset (ops_out_buffer ps) <? Z.of_nat sizeof_ethernet_header_t then ret false
  else
    ethernet_args <- as_ethernet_args args;;
    let response_header :=
      {| eth_destination := ewa_destination ethernet_args;
         eth_source := if_mac interface;
         eth_ethernet_type := ewa_ethernet_type ethernet_args |} in
    update w_out_stacks packet_stack
      (λ ps, ps <| ops_out_buffer ::= push_header (encode_ethernet_header_t response_header) |>);;;
    write_down packet_stack interface.

(** [GET_FROM_PRIORITY(&ethernet_type_to_handler, key, struct handler_t)] *)
Definition ethernet_get_handler (key : Z) : M world (option addr) :=
  w <- get;;
  r <- lift_outcome (get_value (w_ethernet_map w) key);;
  modify (λ w, w <| w_ethernet_map := snd r |>);;;
  ret (fst r).

Definition ethernet_read (packet_stack : addr) (interface : interface_t) (handler : addr)
    : M world (option Z) :=
  ps <- load w_in_stacks packet_stack;;
  let packet_idx := ips_stack_idx ps in
  handlers <- need OutOfBounds (set_array packet_idx (Some handler) (ips_handlers ps));;
  update w_in_stacks packet_stack
    (λ ps, ps <| ips_stack_idx := S packet_idx |> <| ips_handlers := handlers |>);;;
  m <- packet_at ps packet_idx;;
  header <- cast decode_ethernet_header_t m;;
  (if ntohs 1536 <? eth_ethernet_type header then
     next_handler <- ethernet_get_handler (eth_ethernet_type header);;
     match next_handler with
     | Some next_handler =>
         p <- need OutOfBounds (ips_packet_pointers ps !! packet_idx);;
         off <- need NullDeref p;;
         pointers <- need OutOfBounds
           (set_array (S packet_idx) (Some (off + sizeof_ethernet_header_t)%nat)
              (ips_packet_pointers ps));;
         let ethernet_response_args :=
           {| ewa_destination := eth_source header;
              ewa_ethernet_type := eth_ethernet_type header |} in
         args <- need OutOfBounds
           (set_array packet_idx (ArgEthernet ethernet_response_args) (ips_return_args ps));;
         update w_in_stacks packet_stack
           (λ ps, ps <| ips_packet_pointers := pointers |> <| ips_return_args := args |>);;;
         op_read packet_stack interface next_handler;;;
         ret tt
     | None => ret tt (* logged: non-supported ether_type *)
     end
   else ret tt (* logged: IEEE 802.3 *));;;
  ret None.

Definition ethernet_create_handler `{!Platform} : M world addr :=
  alloc w_handlers {| h_operations := EthernetHandler; h_priv := raw_handler_priv |}.

Definition ethernet_close_handler (handler : addr) : M world unit := free_priv handler.

Definition ethernet_init_handler (handler : addr) : M world unit :=
  update w_handlers handler (λ h, h <| h_priv := PrivDummy |>).
End Ethernet.

(** ** Properties *)

(** At the bottom of the stack [ethernet_write] puts one frame on the wire: the
    destination of the arguments, the own address, the type, and the data; with less
    than 14 bytes in front of the data it writes nothing and says so. *)
Lemma ethernet_write_ok `{!Dispatch} ps i w p a :
  w_out_stacks w !! ps = Some p → ops_stack_idx p = O →
  ops_args p !! O = Some (ArgEthernet a) →
  let buffer := ops_out_buffer p in
  let header := {| eth_destination := ewa_destination a; eth_source := if_mac i;
                   eth_ethernet_type := ewa_ethernet_type a |} in
  let p' := p <| ops_out_buffer := push_header (encode_ethernet_header_t header) buffer |> in
  ethernet_write ps i w =
  if ob_offset buffer <? 14 then Ok (false, w)
  else Ok (true, w <| w_out_stacks ::= <[ps := p']> |>
                   <| w_wire ::= λ l, l ++ [encode_ethernet_header_t header ++ ob_data buffer] |>).
Proof.
  intros Hp Hi Ha buffer header p'. unfold ethernet_write. rewrite (bind_load _ _ p) by done.
  rewrite Hi, (bind_need _ _ (ArgEthernet a)) by done. change (Z.of_nat sizeof_ethernet_header_t) with 14.
  fold buffer. destruct (ob_offset buffer <? 14); [done|]. simpl. rewrite bind_ret_l.
  rewrite (bind_update _ _ _ p) by done.
  rewrite (write_down_bottom _ _ _ p') by (done || apply lookup_insert_eq). done.
Qed.

Section EthernetRead.
Lemma ethertype_test hi lo :
  is_u8 hi → is_u8 lo → (ntohs 1536 <? le16 hi lo) = negb ((lo =? 0) && (hi <=? 6)).
Proof.
  intros. change (ntohs 1536) with 6. unfold le16, is_u8 in *.
  destruct (Z.ltb_spec 6 (hi + 256 * lo)), (Z.eqb_spec lo 0), (Z.leb_spec hi 6); simpl; lia.
Qed.
End EthernetRead.

Lemma ethernet_read_ok `{!Dispatch} ps i h w p off header hi lo r map' :
  w_in_stacks w !! ps = Some p → (ips_stack_idx p < length (ips_handlers p))%nat →
  ips_packet_pointers p !! ips_stack_idx p = Some (Some off) →
  (S (ips_stack_idx p) < length (ips_packet_pointers p))%nat →
  (ips_stack_idx p < length (ips_return_args p))%nat →
  decode_ethernet_header_t (drop off (ips_frame p)) = Some header →
  is_u8 hi → is_u8 lo → eth_ethernet_type header = le16 hi lo →
  get_value (w_ethernet_map w) (le16 hi lo) = Ok (r, map') →
  let p' := p <| ips_stack_idx := S (ips_stack_idx p) |>
              <| ips_handlers := <[ips_stack_idx p := Some h]> (ips_handlers p) |> in
  ethernet_read ps i h w =
  if (lo =? 0) && (hi <=? 6) then Ok (None, w <| w_in_stacks ::= <[ps := p']> |>)
  else match r with
  | None => Ok (None, w <| w_in_stacks ::= <[ps := p']> |> <| w_ethernet_map := map' |>)
  | Some next =>
      (op_read ps i next;;; ret None)
        (w <| w_ethernet_map := map' |>
           <| w_in_stacks ::= <[ps := p'
                <| ips_packet_pointers ::= <[S (ips_stack_idx p) := Some (off + 14)%nat]> |>
                <| ips_return_args ::= <[ips_stack_idx p := ArgEthernet
                     {| ewa_destination := eth_source header;
                        ewa_ethernet_type := le16 hi lo |}]> |>]> |>)
  end.
Proof.
  intros Hp Hh Hoff Hl1 Hl2 Hd Hhi Hlo Ht Hr p'. unfold ethernet_read.
  rewrite (bind_load _ _ p) by done. cbv zeta.
  rewrite (bind_need _ _ _ _ _ (set_array_Some _ _ _ Hh)), (bind_update _ _ _ p) by done.
  erewrite bind_ok; [|by apply packet_at_ok]. unfold cast. rewrite (bind_need _ _ header) by done.
  rewrite Ht, ethertype_test by done. destruct ((lo =? 0) && (hi <=? 6)); [done|]. cbn [negb].
  unfold ethernet_get_handler. rewrite !bind_assoc, bind_get, bind_assoc, (bind_lift _ (r, map')) by done.
  rewrite bind_assoc, bind_modify, bind_ret_l. cbn [fst snd]. destruct r as [next|]; [|done].
  rewrite bind_assoc, (bind_need _ _ _ _ _ Hoff), bind_assoc. cbn [need]. rewrite bind_ret_l.
  rewrite bind_assoc, (bind_need _ _ _ _ _ (set_array_Some _ _ _ Hl1)).
  rewrite bind_assoc, (bind_need _ _ _ _ _ (set_array_Some _ _ _ Hl2)).
  rewrite bind_assoc, (bind_update _ _ _ p') by apply lookup_insert_eq.
  rewrite bind_assoc. unfold set_field. simpl. by rewrite insert_insert_eq.
Qed.

(** The test for IEEE 802.3 compares the type as it was loaded, so that only the types
    [0x0000], [0x0100], ..., [0x0600] are refused: a frame with any other length field
    is looked up as a type.  A frame with a registered type goes to its handler, behind
    the 14 bytes of the header, with arguments for an answer to its sender.  The return
    value is never defined. *)
Lemma ethernet_read_delivers `{!Dispatch} ps i h w p off header hi lo r map' :
  w_in_stacks w !! ps = Some p → (ips_stack_idx p < length (ips_handlers p))%nat →
  ips_packet_pointers p !! ips_stack_idx p = Some (Some off) →
  (S (ips_stack_idx p) < length (ips_packet_pointers p))%nat →
  (ips_stack_idx p < length (ips_return_args p))%nat →
  decode_ethernet_header_t (drop off (ips_frame p)) = Some header →
  is_u8 hi → is_u8 lo → eth_ethernet_type header = le16 hi lo →
  get_value (w_ethernet_map w) (le16 hi lo) = Ok (r, map') →
  let p' := p <| ips_stack_idx := S (ips_stack_idx p) |>
              <| ips_handlers := <[ips_stack_idx p := Some h]> (ips_handlers p) |> in
  ethernet_read ps i h w =
  if (lo =? 0) && (hi <=? 6) then Ok (None, w <| w_in_stacks ::= <[ps := p']> |>)
  else match r with
  | None => Ok (None, w <| w_in_stacks ::= <[ps := p']> |> <| w_ethernet_map := map' |>)
  | Some next =>
      (op_read ps i next;;; ret None)
        (w <| w_ethernet_map := map' |>
           <| w_in_stacks ::= <[ps := p'
                <| ips_packet_pointers ::= <[S (ips_stack_idx p) := Some (off + 14)%nat]> |>
                <| ips_return_args ::= <[ips_stack_idx p := ArgEthernet
                     {| ewa_destination := eth_source header;
                        ewa_ethernet_type := le16 hi lo |}]> |>]> |>)
  end.
Proof. apply ethernet_read_ok. Qed.
