(* ===== verification/Ipv4.v ===== *)
(** * Ipv4: the internet layer

    [handlers/ipv4/ipv4.c].  No options and no fragmentation. *)

From S2P Require Import Prelude Headers Checksum ProtocolMap BlockBuffer State Ethernet.

Definition IP_NUM_PROTOCOL_TYPE_ENTRIES : Z := 64.

Section Ipv4.
Context `{!Dispatch}.

Definition as_ipv4_args (a : write_args) : M world ipv4_write_args_t :=
  match a with
  | ArgIpv4 a => ret a
  | ArgNull => fail NullDeref
  | _ => fail TypeConfusion
  end.

(** The header [ipv4_write] stores, before its checksum is filled in; [length] is
    [size - offset] with the header. *)
Definition ipv4_response_header (ipv4_args : ipv4_write_args_t) (interface : interface_t)
    (length : Z) : ipv4_header_t :=
  {| ip_flags_1 := 69;
     ip_flags_2 := 0;
     ip_total_length := htons (u16 length);
     ip_identification := 0;
     ip_flags_3 := 64;
     ip_time_to_live := 64;
     ip_protocol := iwa_protocol ipv4_args;
     ip_header_checksum := 0;
     ip_source_ip := if_ipv4_addr interface;
     ip_destination_ip := iwa_destination_ip ipv4_args |}.

Definition ipv4_write (packet_stack : addr) (interface : interface_t) : M world bool :=
  ps <- load w_out_stacks packet_stack;;
  args <- need OutOfBounds (ops_args ps !! ops_stack_idx ps);;
  let out_buffer := ops_out_buffer ps in
  if ob_offset out_buffer <? Z.of_nat sizeof_ipv4_header_t then ret false
  else
    ipv4_args <- as_ipv4_args args;;
    let offset := ob_offset out_buffer - Z.of_nat sizeof_ipv4_header_t in
    let response_header :=
      ipv4_response_header ipv4_args interface (ob_size out_buffer - offset) in
    checksum <- need OutOfBounds
      (ipv4_calculate_checksum (encode_ipv4_header_t response_header ++ ob_data out_buffer));;
    let response_header := response_header <| ip_header_checksum := checksum |> in
    update w_out_stacks packet_stack
      (λ ps, ps <| ops_out_buffer ::= push_header (encode_ipv4_header_t response_header) |>);;;
    write_down packet_stack interface.

(** [GET_FROM_PRIORITY(&ip_type_to_handler, key, struct handler_t)] *)
Definition ipv4_get_handler (key : Z) : M world (option addr) :=
  w <- get;;
  r <- lift_outcome (get_value (w_ip_map w) key);;
  modify (λ w, w <| w_ip_map := snd r |>);;;
  ret (fst r).

Definition ipv4_read (packet_stack : addr) (interface : interface_t) (handler : addr)
    : M world (option Z) :=
  ps <- load w_in_stacks packet_stack;;
  let packet_idx := ips_stack_idx ps in
  handlers <- need OutOfBounds (set_array packet_idx (Some handler) (ips_handlers ps));;
  update w_in_stacks packet_stack
    (λ ps, ps <| ips_stack_idx := S packet_idx |> <| ips_handlers := handlers |>);;;
  m <- packet_at ps packet_idx;;
  checksum <- need OutOfBounds (ipv4_calculate_checksum m);;
  if negb (checksum =? 0) then ret (Some 1)
  else
    header <- cast decode_ipv4_header_t m;;
    let IHL := Z.land (ip_flags_1 header) IPV4_IHL_MASK in
    if negb (IHL =? 5) then ret (Some 2)
    else if ip_time_to_live header =? 0 then ret (Some 3)
    else if ip_destination_ip header =? if_ipv4_addr interface then
      next_handler <- ipv4_get_handler (ip_protocol header);;
      match next_handler with
      | Some next_handler =>
          p <- need OutOfBounds (ips_packet_pointers ps !! packet_idx);;
          off <- need NullDeref p;;
          pointers <- need OutOfBounds
            (set_array (S packet_idx) (Some (off + sizeof_ipv4_header_t)%nat)
               (ips_packet_pointers ps));;
          let ipv4_response_args :=
            {| iwa_destination_ip := ip_source_ip header;
               iwa_protocol := ip_protocol header |} in
          args <- need OutOfBounds
            (set_array packet_idx (ArgIpv4 ipv4_response_args) (ips_return_args ps));;
          update w_in_stacks packet_stack
            (λ ps, ps <| ips_packet_pointers := pointers |> <| ips_return_args := args |>);;;
          op_read packet_stack interface next_handler;;;
          ret (Some 0)
      | None => ret (Some 4)
      end
    else ret (Some 0).

Definition ipv4_close_handler (handler : addr) : M world unit := free_priv handler.

Definition ipv4_init_handler (handler : addr) : M world unit :=
  update w_handlers handler (λ h, h <| h_priv := PrivDummy |>).

Definition ipv4_create_handler `{!Platform} : M world addr :=
  handler <- alloc w_handlers {| h_operations := Ipv4Handler; h_priv := raw_handler_priv |};;
  modify (λ w, w <| w_ethernet_map :=
    snd (add_value (w_ethernet_map w) (htons ETHERNET_TYPE_IPV4) (Some handler)) |>);;;
  ret handler.
End Ipv4.

(** ** Properties *)

(** A datagram [ipv4_read] takes: its header verifies, has no options, and is still
    alive.  The words are summed as RFC 1071 says. *)
Definition valid_datagram (m : list Z) : bool :=
  match decode_ipv4_header_t m with
  | Some header =>
      (ip_flags_1 header mod 16 =? 5)
      && (rfc1071_checksum (words16 (take 20 m)) =? 0)
      && negb (ip_time_to_live header =? 0)
  | None => false
  end.

Section Ipv4Lemmas.
Lemma decode_ipv4_length m header : decode_ipv4_header_t m = Some header → (20 <= length m)%nat.
Proof. intros H. do 20 (destruct m as [|? m]; [done|]). simpl. lia. Qed.

Lemma decode_ipv4_head m header :
  decode_ipv4_header_t m = Some header → ∃ rest, m = ip_flags_1 header :: rest.
Proof.
  intros H. do 20 (destruct m as [|? m]; [done|]). apply (inj Some) in H. subst. by eexists.
Qed.

(** The three tests of a header, on the bytes. *)
Lemma ipv4_header_length_decode m header :
  decode_ipv4_header_t m = Some header → ip_flags_1 header mod 16 = 5 →
  ipv4_header_length m = 20%nat.
Proof.
  intros (rest & ->)%decode_ipv4_head H. unfold ipv4_header_length. by rewrite land_15, H.
Qed.

Lemma checksum_value_5 m header :
  bytes_ok m → decode_ipv4_header_t m = Some header → ip_flags_1 header mod 16 = 5 →
  ipv4_calculate_checksum m = Some (rfc1071_checksum (words16 (take 20 m))).
Proof.
  intros Hm Hd H5. pose proof (ipv4_header_length_decode _ _ Hd H5) as Hl.
  pose proof (decode_ipv4_length _ _ Hd). rewrite <- Hl.
  apply ipv4_checksum_value; [done|intros ->; simpl in *; lia|lia].
Qed.

Lemma ipv4_decode_checksum m header :
  bytes_ok m → decode_ipv4_header_t m = Some header →
  (ipv4_header_length m <= length m)%nat →
  ∃ c, ipv4_calculate_checksum m = Some c.
Proof.
  intros Hm Hd Hl. pose proof (decode_ipv4_length _ _ Hd). eexists.
  apply ipv4_checksum_value; [done|intros ->; simpl in *; lia|done].
Qed.

Lemma response_header_ok a i len :
  is_u32 (iwa_destination_ip a) → is_u8 (iwa_protocol a) → is_u32 (if_ipv4_addr i) →
  ipv4_header_t_ok (ipv4_response_header a i len).
Proof.
  intros. unfold ipv4_header_t_ok, ipv4_response_header. cbn [ip_flags_1 ip_flags_2
    ip_total_length ip_identification ip_flags_3 ip_time_to_live ip_protocol
    ip_header_checksum ip_source_ip ip_destination_ip].
  repeat (split; [first [assumption | apply ntohs_range | by unfold is_u8, is_u16; lia]|]).
  done.
Qed.

(** The header [ipv4_write] stores. *)
Lemma response_checksum a i len data :
  is_u32 (iwa_destination_ip a) → is_u8 (iwa_protocol a) → is_u32 (if_ipv4_addr i) →
  bytes_ok data →
  ∃ c, is_u16 c ∧
    ipv4_calculate_checksum (encode_ipv4_header_t (ipv4_response_header a i len) ++ data) = Some c ∧
    ipv4_calculate_checksum
      (encode_ipv4_header_t ((ipv4_response_header a i len) <| ip_header_checksum := c |>) ++ data)
    = Some 0.
Proof.
  intros Ha Hp Hi Hd. pose proof (response_header_ok a i len Ha Hp Hi) as Hok.
  assert (∀ d, bytes_ok d →
    ipv4_calculate_checksum (encode_ipv4_header_t (ipv4_response_header a i len) ++ d) =
    Some (rfc1071_checksum (words16 (encode_ipv4_header_t (ipv4_response_header a i len)))))
    as Hc.
  { intros d Hd'. rewrite ipv4_checksum_value; [|auto using encode_ipv4_bytes_ok with net|done|].
    - do 3 f_equal.
    - rewrite length_app, length_encode_ipv4. unfold sizeof_ipv4_header_t.
      change (20 <= 20 + length d)%nat. lia. }
  eexists. split; [|split; [by apply Hc|]].
  - unfold rfc1071_checksum.
    pose proof (sum_list_nonneg _ (words16_range _ (encode_ipv4_bytes_ok _ Hok))).
    pose proof (oc_norm_range (sum_list (words16 (encode_ipv4_header_t
      (ipv4_response_header a i len)))) ltac:(lia)). unfold is_u16 in *. lia.
  - apply ipv4_checksum_fill; [done|done|done| |done].
    rewrite <- (app_nil_r (encode_ipv4_header_t (ipv4_response_header a i len))) at 1.
    apply Hc. constructor.
Qed.
End Ipv4Lemmas.

(** The step of [ipv4_write], for the checksum it computes. *)
Lemma ipv4_write_step `{!Dispatch} ps i w p a idx next c :
  w_out_stacks w !! ps = Some p → ops_stack_idx p = S idx →
  ops_args p !! S idx = Some (ArgIpv4 a) → ops_handlers p !! idx = Some (Some next) →
  20 <= ob_offset (ops_out_buffer p) →
  let len := ob_size (ops_out_buffer p) - (ob_offset (ops_out_buffer p) - 20) in
  let h := ipv4_response_header a i len in
  ipv4_calculate_checksum (encode_ipv4_header_t h ++ ob_data (ops_out_buffer p)) = Some c →
  ipv4_write ps i w = op_write next ps i (w <| w_out_stacks ::= <[ps :=
    p <| ops_out_buffer := push_header (encode_ipv4_header_t (h <| ip_header_checksum := c |>))
                             (ops_out_buffer p) |>
      <| ops_stack_idx := idx |>]> |>).
Proof.
  intros Hp Hi Ha Hn Ho len h Hc.
  unfold ipv4_write. rewrite (bind_load _ _ p) by done. rewrite Hi, (bind_need _ _ (ArgIpv4 a)) by done.
  cbv zeta. destruct (Z.ltb_spec (ob_offset (ops_out_buffer p)) (Z.of_nat sizeof_ipv4_header_t));
    [unfold sizeof_ipv4_header_t in *; lia|].
  unfold as_ipv4_args. rewrite bind_ret_l, (bind_need _ _ c) by exact Hc.
  rewrite (bind_update _ _ _ p) by done. erewrite write_down_next; [|apply lookup_insert_eq|done|done].
  f_equal. unfold set_field. simpl. by rewrite insert_insert_eq.
Qed.

(** With room for it, [ipv4_write] puts exactly one header in front of the data and
    hands the buffer to the handler below: the header verifies, names the own and the
    given address and the protocol, and its total length is that of the datagram. *)
Lemma ipv4_write_sends `{!Dispatch} ps i w p a idx next :
  w_out_stacks w !! ps = Some p → ops_stack_idx p = S idx →
  ops_args p !! S idx = Some (ArgIpv4 a) → ops_handlers p !! idx = Some (Some next) →
  out_buffer_ok (ops_out_buffer p) → ob_size (ops_out_buffer p) <= 65535 →
  20 <= ob_offset (ops_out_buffer p) → bytes_ok (ob_data (ops_out_buffer p)) →
  is_u32 (iwa_destination_ip a) → is_u8 (iwa_protocol a) → is_u32 (if_ipv4_addr i) →
  ∃ header, let datagram := encode_ipv4_header_t header ++ ob_data (ops_out_buffer p) in
    let p' := p <| ops_out_buffer := push_header (encode_ipv4_header_t header) (ops_out_buffer p) |>
                <| ops_stack_idx := idx |> in
    ipv4_write ps i w = op_write next ps i (w <| w_out_stacks ::= <[ps := p']> |>) ∧
    ipv4_calculate_checksum datagram = Some 0 ∧
    decode_ipv4_header_t datagram = Some header ∧
    ip_source_ip header = if_ipv4_addr i ∧ ip_destination_ip header = iwa_destination_ip a ∧
    ip_protocol header = iwa_protocol a ∧ ip_flags_1 header mod 16 = 5 ∧
    ntohs (ip_total_length header) = Z.of_nat (length datagram).
Proof.
  intros Hp Hi Ha Hn Hb Hs Ho Hd Hdst Hpr Hown.
  set (len := ob_size (ops_out_buffer p) - (ob_offset (ops_out_buffer p) - 20)).
  destruct (response_checksum a i len (ob_data (ops_out_buffer p)) Hdst Hpr Hown Hd)
    as (c & Hcr & Hc & Hv).
  pose proof (response_header_ok a i len Hdst Hpr Hown) as Hok.
  set (h := ipv4_response_header a i len) in *.
  assert (ipv4_header_t_ok (h <| ip_header_checksum := c |>)) as Hok'.
  { unfold ipv4_header_t_ok in *. simpl. destruct_and! Hok. by repeat (split; [assumption|]). }
  exists (h <| ip_header_checksum := c |>). cbv zeta. split.
  - by apply ipv4_write_step.
  - split; [done|]. split; [by apply decode_encode_ipv4|]. do 4 (split; [done|]).
    rewrite length_app, length_encode_ipv4. unfold h. cbn [set_field ip_total_length ipv4_response_header].
    rewrite ntohs_involutive by apply u16_range. destruct Hb as [Hb1 Hb2].
    unfold sizeof_ipv4_header_t, len, u16. lia.
Qed.

Section Ipv4Read.
Context `{!Dispatch}.
Variables (ps h : addr) (i : interface_t) (w : world) (p : in_packet_stack_t) (off : nat).
Hypothesis Hp : w_in_stacks w !! ps = Some p.
Hypothesis Hh : (ips_stack_idx p < length (ips_handlers p))%nat.
Hypothesis Hoff : ips_packet_pointers p !! ips_stack_idx p = Some (Some off).

(** The packet stack once [ipv4_read] has entered itself. *)
Definition entered : in_packet_stack_t :=
  p <| ips_stack_idx := S (ips_stack_idx p) |>
    <| ips_handlers := <[ips_stack_idx p := Some h]> (ips_handlers p) |>.

(** The checks of [ipv4_read], and what comes behind them. *)
Lemma ipv4_read_checks header c :
  decode_ipv4_header_t (drop off (ips_frame p)) = Some header →
  ipv4_calculate_checksum (drop off (ips_frame p)) = Some c →
  ∃ k, ipv4_read ps i h w =
    (if negb (c =? 0) then ret (Some 1)
     else if negb (ip_flags_1 header mod 16 =? 5) then ret (Some 2)
     else if ip_time_to_live header =? 0 then ret (Some 3)
     else if ip_destination_ip header =? if_ipv4_addr i then k
     else ret (Some 0)) (w <| w_in_stacks ::= <[ps := entered]> |>) ∧
    ∀ r map', get_value (w_ip_map w) (ip_protocol header) = Ok (r, map') →
      (S (ips_stack_idx p) < length (ips_packet_pointers p))%nat →
      (ips_stack_idx p < length (ips_return_args p))%nat →
      k (w <| w_in_stacks ::= <[ps := entered]> |>) =
      match r with
      | None => Ok (Some 4, w <| w_in_stacks ::= <[ps := entered]> |> <| w_ip_map := map' |>)
      | Some next =>
          (op_read ps i next;;; ret (Some 0))
            (w <| w_ip_map := map' |>
               <| w_in_stacks ::= <[ps := entered
                    <| ips_packet_pointers ::= <[S (ips_stack_idx p) := Some (off + 20)%nat]> |>
                    <| ips_return_args ::= <[ips_stack_idx p := ArgIpv4
                         {| iwa_destination_ip := ip_source_ip header;
                            iwa_protocol := ip_protocol header |}]> |>]> |>)
      end.
Proof.
  intros Hd Hc. eexists. split.
  - unfold ipv4_read. rewrite (bind_load _ _ p) by done. cbv zeta.
    rewrite (bind_need _ _ _ _ _ (set_array_Some _ _ _ Hh)), (bind_update _ _ _ p) by done.
    erewrite bind_ok; [|by apply packet_at_ok].
    rewrite (bind_need _ _ c) by done. destruct (negb (c =? 0)); [done|].
    unfold cast. rewrite (bind_need _ _ header) by done. rewrite land_15. reflexivity.
  - intros r map' Hr Hl1 Hl2. unfold ipv4_get_handler.
    erewrite bind_then by reflexivity. rewrite bind_assoc, (bind_lift _ (r, map')) by done.
    erewrite bind_then by reflexivity. rewrite bind_ret_l. simpl. destruct r as [next|]; [|done].
    rewrite (bind_need _ _ _ _ _ Hoff). cbn [need]. rewrite bind_ret_l.
    rewrite (bind_need _ _ _ _ _ (set_array_Some _ _ _ Hl1)).
    rewrite (bind_need _ _ _ _ _ (set_array_Some _ _ _ Hl2)).
    rewrite (bind_update _ _ _ entered) by apply lookup_insert_eq.
    unfold set_field. simpl. by rewrite insert_insert_eq.
Qed.
End Ipv4Read.

(** A datagram that is not valid is refused with one of the codes 1 to 3, whatever
    the handlers above would do: no other handler is called, and nothing but the
    receiver's own packet stack changes. *)
Lemma ipv4_read_rejects `{!Dispatch} ps h i w p off header :
  w_in_stacks w !! ps = Some p → (ips_stack_idx p < length (ips_handlers p))%nat →
  ips_packet_pointers p !! ips_stack_idx p = Some (Some off) →
  let m := drop off (ips_frame p) in
  bytes_ok m → decode_ipv4_header_t m = Some header → (ipv4_header_length m <= length m)%nat →
  valid_datagram m = false →
  ∃ code, code ∈ [1; 2; 3] ∧
    ipv4_read ps i h w = Ok (Some code, w <| w_in_stacks ::= <[ps := entered h p]> |>).
Proof.
  intros Hp Hh Hoff m Hm Hd Hl Hv.
  destruct (ipv4_decode_checksum m header) as [c Hc]; try done.
  destruct (ipv4_read_checks ps h i w p off Hp Hh Hoff header c Hd Hc) as (k & -> & _).
  destruct (Z.eqb_spec c 0) as [->|]; simpl; [|by exists 1; split; [set_solver|]].
  unfold valid_datagram in Hv. rewrite Hd in Hv.
  destruct (Z.eqb_spec (ip_flags_1 header mod 16) 5) as [H5|]; simpl;
    [|by exists 2; split; [set_solver|]].
  rewrite (checksum_value_5 _ _ Hm Hd H5) in Hc. apply (inj Some) in Hc.
  rewrite Hc, Z.eqb_refl in Hv. simpl in Hv.
  destruct (ip_time_to_live header =? 0); [|done]. by exists 3; split; [set_solver|].
Qed.

Lemma ipv4_read_ok `{!Dispatch} ps h i w p off header r map' :
  w_in_stacks w !! ps = Some p → (ips_stack_idx p < length (ips_handlers p))%nat →
  ips_packet_pointers p !! ips_stack_idx p = Some (Some off) →
  (S (ips_stack_idx p) < length (ips_packet_pointers p))%nat →
  (ips_stack_idx p < length (ips_return_args p))%nat →
  let m := drop off (ips_frame p) in
  bytes_ok m → decode_ipv4_header_t m = Some header → valid_datagram m = true →
  get_value (w_ip_map w) (ip_protocol header) = Ok (r, map') →
  ipv4_read ps i h w =
  if ip_destination_ip header =? if_ipv4_addr i then
    match r with
    | None => Ok (Some 4, w <| w_in_stacks ::= <[ps := entered h p]> |> <| w_ip_map := map' |>)
    | Some next =>
        (op_read ps i next;;; ret (Some 0))
          (w <| w_ip_map := map' |>
             <| w_in_stacks ::= <[ps := (entered h p)
                  <| ips_packet_pointers ::= <[S (ips_stack_idx p) := Some (off + 20)%nat]> |>
                  <| ips_return_args ::= <[ips_stack_idx p := ArgIpv4
                       {| iwa_destination_ip := ip_source_ip header;
                          iwa_protocol := ip_protocol header |}]> |>]> |>)
    end
  else Ok (Some 0, w <| w_in_stacks ::= <[ps := entered h p]> |>).
Proof.
  intros Hp Hh Hoff Hl1 Hl2 m Hm Hd Hv Hr. unfold valid_datagram in Hv. rewrite Hd in Hv.
  apply andb_true_iff in Hv as [[H5%Z.eqb_eq Hc%Z.eqb_eq]%andb_true_iff Ht].
  pose proof (checksum_value_5 _ _ Hm Hd H5) as Hcs. rewrite Hc in Hcs.
  destruct (ipv4_read_checks ps h i w p off Hp Hh Hoff header 0 Hd Hcs) as (k & -> & Hk).
  rewrite H5. apply negb_true_iff in Ht. rewrite Ht. cbn [negb Z.eqb Pos.eqb].
  destruct (ip_destination_ip header =? if_ipv4_addr i); [by apply Hk|done].
Qed.

(** C26: every datagram whose header is in memory.  One that is not valid is refused with one of
    the codes 1 to 3, whatever the handlers above would do: no other handler is called, and
    nothing but the receiver's own packet stack changes.  A valid datagram for another
    address is dropped with code 0; one for the own address goes to the handler registered
    for its protocol, behind the 20 bytes of the header, with arguments for an answer to its
    source; without a handler the code is 4. *)
Theorem ipv4_read_delivers `{!Dispatch} ps h i w p off header r map' :
  w_in_stacks w !! ps = Some p → (ips_stack_idx p < length (ips_handlers p))%nat →
  ips_packet_pointers p !! ips_stack_idx p = Some (Some off) →
  (S (ips_stack_idx p) < length (ips_packet_pointers p))%nat →
  (ips_stack_idx p < length (ips_return_args p))%nat →
  let m := drop off (ips_frame p) in
  bytes_ok m → decode_ipv4_header_t m = Some header → (ipv4_header_length m <= length m)%nat →
  get_value (w_ip_map w) (ip_protocol header) = Ok (r, map') →
  if valid_datagram m then
    ipv4_read ps i h w =
    if ip_destination_ip header =? if_ipv4_addr i then
      match r with
      | None => Ok (Some 4, w <| w_in_stacks ::= <[ps := entered h p]> |> <| w_ip_map := map' |>)
      | Some next =>
          (op_read ps i next;;; ret (Some 0))
            (w <| w_ip_map := map' |>
               <| w_in_stacks ::= <[ps := (entered h p)
                    <| ips_packet_pointers ::= <[S (ips_stack_idx p) := Some (off + 20)%nat]> |>
                    <| ips_return_args ::= <[ips_stack_idx p := ArgIpv4
                         {| iwa_destination_ip := ip_source_ip header;
                            iwa_protocol := ip_protocol header |}]> |>]> |>)
      end
    else Ok (Some 0, w <| w_in_stacks ::= <[ps := entered h p]> |>)
  else
    ∃ code, code ∈ [1; 2; 3] ∧
      ipv4_read ps i h w = Ok (Some code, w <| w_in_stacks ::= <[ps := entered h p]> |>).
Proof.
  intros Hp Hh Hoff Hl1 Hl2 m Hm Hd Hlen Hr. destruct (valid_datagram m) eqn:Hv.
  - by apply ipv4_read_ok.
  - by eapply ipv4_read_rejects.
Qed.
