(* ===== verification/TcpShared.v ===== *)
(** * TcpShared: connection identifiers, sequence numbers and segment lengths

    [handlers/tcp/tcp_shared.c] (its checksum is in [Checksum]). *)

From S2P Require Import Prelude Headers Checksum ProtocolMap BlockBuffer State.

(** The counter [x] is an [int]; the result is converted to [uint32_t]. *)
Definition tcp_shared_generate_sequence_number : M world Z :=
  modify (λ w, w <| w_x ::= λ x, x + 100 |>);;;
  w <- get;;
  ret (u32 (42 + w_x w)).

(** The 64-bit [id] is returned as a [uint32_t]. *)
Definition tcp_shared_calculate_connection_id (remote_ip remote_port host_port : Z) : Z :=
  let id := u64 (Z.shiftl remote_ip 32) in
  let id := Z.lor id (u32 (Z.shiftl remote_port 16)) in
  let id := Z.lor id host_port in
  u32 id.

Definition tcp_get_payload_length (ipv4_header : ipv4_header_t) (tcp_header : tcp_header_t) : Z :=
  u16 (ntohs (ip_total_length ipv4_header)
       - (Z.shiftr (Z.land (th_data_offset tcp_header) TCP_DATA_OFFSET_MASK) 4
          + Z.land (ip_flags_1 ipv4_header) IPV4_IHL_MASK) * 4).

(** [tcp_get_payload], as a distance from the header. *)
Definition tcp_get_payload (tcp_header : tcp_header_t) : Z :=
  Z.shiftr (Z.land (th_data_offset tcp_header) TCP_DATA_OFFSET_MASK) 4 * 4.

Section ConnectionId.
Lemma lor_disjoint_add a b n :
  0 <= n → 0 <= b < 2 ^ n → Z.lor (a * 2 ^ n) b = a * 2 ^ n + b.
Proof.
  intros Hn Hb. rewrite Z.lor_comm.
  assert (Z.land b (a * 2 ^ n) = 0) as H0.
  { destruct (decide (b = 0)) as [->|Hb0]; [done|].
    rewrite <- Z.shiftl_mul_pow2 by done. apply Z.bits_inj'. intros i Hi.
    rewrite Z.land_spec, Z.bits_0. destruct (Z.ltb_spec i n).
    - rewrite (Z.shiftl_spec_low a n i) by done. by rewrite andb_false_r.
    - rewrite Z.bits_above_log2; [done|lia|].
      apply Z.lt_le_trans with n; [|done]. apply Z.log2_lt_pow2; lia. }
  rewrite Z.add_comm. apply Z.add_nocarry_lxor in H0 as Hx. rewrite Hx.
  rewrite Z.lxor_lor by done. done.
Qed.

Lemma connection_id_value ip rp hp :
  is_u32 ip → is_u16 rp → is_u16 hp →
  tcp_shared_calculate_connection_id ip rp hp = rp * 65536 + hp.
Proof.
  unfold is_u32, is_u16. intros Hip Hrp Hhp. unfold tcp_shared_calculate_connection_id.
  rewrite !Z.shiftl_mul_pow2 by lia. change (2 ^ 32) with 4294967296. change (2 ^ 16) with 65536.
  unfold u64. rewrite (Z.mod_small (ip * 4294967296)) by lia.
  rewrite (u32_id (rp * 65536)) by (unfold is_u32; lia).
  change 4294967296 with (2 ^ 32) at 1. rewrite lor_disjoint_add by lia.
  replace (ip * 2 ^ 32 + rp * 65536) with ((ip * 65536 + rp) * 2 ^ 16) by lia.
  rewrite lor_disjoint_add by lia. unfold u32. lia.
Qed.
End ConnectionId.

(** The connection identifier is determined by the two ports alone: different port
    pairs have different identifiers, and only the pair (0, 0) has the identifier 0 that
    [tcp_write] refuses, but the remote address is shifted out of the 32 bits that are
    returned. *)
Lemma connection_id_injective ip ip' rp hp rp' hp' :
  is_u32 ip → is_u32 ip' → is_u16 rp → is_u16 hp → is_u16 rp' → is_u16 hp' →
  (tcp_shared_calculate_connection_id ip rp hp = tcp_shared_calculate_connection_id ip' rp' hp'
   ↔ rp = rp' ∧ hp = hp') ∧
  (tcp_shared_calculate_connection_id ip rp hp = 0 ↔ rp = 0 ∧ hp = 0).
Proof. intros. rewrite !connection_id_value by done. unfold is_u16 in *. lia. Qed.

Section PayloadLength.
Lemma land_240_shiftr z : 0 <= z < 256 → Z.shiftr (Z.land z TCP_DATA_OFFSET_MASK) 4 = z / 16.
Proof.
  intros Hz. rewrite Z.shiftr_land. change (Z.shiftr TCP_DATA_OFFSET_MASK 4) with (Z.ones 4).
  rewrite Z.land_ones, Z.shiftr_div_pow2 by lia. change (2 ^ 4) with 16. lia.
Qed.
End PayloadLength.

(** When the IP total length covers both headers, the payload length is the rest
    of the datagram, and the payload starts right behind the TCP header. *)
Lemma tcp_payload_length_correct ip tcp :
  is_u8 (ip_flags_1 ip) → is_u8 (th_data_offset tcp) →
  4 * (ip_flags_1 ip mod 16) + 4 * (th_data_offset tcp / 16) <= ntohs (ip_total_length ip) →
  tcp_get_payload_length ip tcp =
    ntohs (ip_total_length ip) - 4 * (ip_flags_1 ip mod 16) - 4 * (th_data_offset tcp / 16) ∧
  tcp_get_payload tcp = 4 * (th_data_offset tcp / 16).
Proof.
  unfold is_u8. intros Hf Hd Hle. unfold tcp_get_payload_length, tcp_get_payload.
  rewrite land_240_shiftr by done.
  rewrite land_15. pose proof (ntohs_range (ip_total_length ip)). unfold is_u16, u16 in *. lia.
Qed.

(** When it does not, the length wraps around to more bytes than an IP datagram
    can hold behind its headers: it is never a small or zero length. *)
Lemma tcp_payload_length_underflow ip tcp :
  is_u8 (ip_flags_1 ip) → is_u8 (th_data_offset tcp) →
  ntohs (ip_total_length ip) < 4 * (ip_flags_1 ip mod 16) + 4 * (th_data_offset tcp / 16) →
  65536 - 120 <= tcp_get_payload_length ip tcp.
Proof.
  unfold is_u8. intros Hf Hd Hlt. unfold tcp_get_payload_length.
  rewrite land_240_shiftr by done.
  rewrite land_15. pose proof (ntohs_range (ip_total_length ip)). unfold is_u16, u16 in *. lia.
Qed.

(** ** Witnesses *)

Example connection_id_injective_example :
  tcp_shared_calculate_connection_id 16777343 80 443
  = tcp_shared_calculate_connection_id 33554559 80 443 ↔ 80 = 80 ∧ 443 = 443.
Proof. apply connection_id_injective; split; discriminate || reflexivity. Qed.

Definition example_ip_header (total_length : Z) : ipv4_header_t :=
  {| ip_flags_1 := 69; ip_flags_2 := 0; ip_total_length := htons total_length;
     ip_identification := 0; ip_flags_3 := 64; ip_time_to_live := 64; ip_protocol := 6;
     ip_header_checksum := 0; ip_source_ip := 538976288; ip_destination_ip := 1962977472 |}.

Definition example_tcp_header : tcp_header_t :=
  {| th_source_port := 36895; th_destination_port := 14597; th_sequence_num := 0;
     th_acknowledgement_num := 0; th_data_offset := 80; th_control_bits := 16;
     th_window := 16; th_checksum := 0; th_urgent_pointer := 0 |}.

Example tcp_payload_length_correct_example :
  tcp_get_payload_length (example_ip_header 47) example_tcp_header = 7 ∧
  tcp_get_payload example_tcp_header = 20.
Proof.
  apply (tcp_payload_length_correct (example_ip_header 47) example_tcp_header);
    [split; discriminate || reflexivity|split; discriminate || reflexivity|vm_compute; discriminate].
Qed.

Example tcp_payload_length_underflow_example :
  65416 <= tcp_get_payload_length (example_ip_header 39) example_tcp_header.
Proof.
  apply (tcp_payload_length_underflow (example_ip_header 39) example_tcp_header);
    [split; discriminate || reflexivity|split; discriminate || reflexivity|vm_compute; reflexivity].
Qed.
