(* ===== verification/TcpSocket.v ===== *)
(** * TcpSocket: sockets and their transmission control blocks

    [handlers/tcp/socket.c].  The mutexes are left out (one worker thread). *)

From S2P Require Import Prelude Headers Checksum ProtocolMap BlockBuffer State TcpShared.

Section TcpSocket.
Context `{!Platform}.

Definition as_tcp_priv (h : handler_t) : M world tcp_priv_t :=
  match h_priv h with
  | PrivTcp p => ret p
  | PrivNone => fail NullDeref
  | PrivFreed => fail Dangling
  | _ => fail PrivConfusion
  end.

(** The [switch] of [tcp_create_transmission_control_block]. *)
Definition initial_state_function (state : TCP_STATE) : state_function :=
  match state with
  | LISTEN => fn_tcp_listen
  | SYN_SENT => fn_tcp_syn_sent
  | CLOSED => fn_tcp_close
  | _ => fn_tcp_others
  end.

Definition tcp_create_transmission_control_block (handler : addr) (connection_id : Z)
    (initial_header : option tcp_header_t) (source_ip : Z) (state : TCP_STATE)
    : M world addr :=
  h <- load w_handlers handler;;
  send_initial_sequence_num <- tcp_shared_generate_sequence_number;;
  priv <- as_tcp_priv h;;
  let or0 f := match initial_header with Some h => f h | None => 0 end in
  let receive_initial_sequence_num := or0 (λ h, ntohl (th_sequence_num h)) in
  alloc w_tcbs
    {| tcb_id := connection_id;
       tcb_remote_ipv4 := source_ip;
       tcb_remote_port := or0 th_source_port;
       tcb_send_unacknowledged := 0;
       tcb_send_next := send_initial_sequence_num;
       tcb_send_window := or0 th_window;
       tcb_send_urgent_pointer := 0;
       tcb_send_initial_sequence_num := send_initial_sequence_num;
       tcb_send_last_update_sequence_num := 0;
       tcb_send_last_update_acknowledgement_num := 0;
       tcb_receive_next := receive_initial_sequence_num;
       tcb_receive_window := u16 (tp_window priv);
       tcb_receive_urgent_pointer := or0 th_urgent_pointer;
       tcb_receive_initial_sequence_num := receive_initial_sequence_num;
       tcb_fin_num := 0;
       tcb_state := state;
       tcb_active_mode := raw_tcb_active_mode;
       tcb_active_mode_args := raw_tcb_active_mode_args;
       tcb_out_buffer := create_tcp_block_buffer raw_cells 10;
       tcb_in_buffer := create_tcp_block_buffer raw_cells 10;
       tcb_out_header := raw_tcb_header;
       tcb_after_header := raw_tcb_after_header;
       tcb_state_function := initial_state_function state |}.

(** The loop over [trans_control_block]: the first empty slot takes the block; with
    no empty slot nothing is stored. *)
Fixpoint add_slot (slots : list (option addr)) (a : addr) : list (option addr) :=
  match slots with
  | [] => []
  | None :: slots => Some a :: slots
  | Some b :: slots => Some b :: add_slot slots a
  end.

Definition tcp_add_transmission_control_block (socket : addr) (tcb : addr) : M world unit :=
  update w_sockets socket (λ s, s <| sock_trans_control_block ::= λ l, add_slot l tcb |>).

Fixpoint find_tcb (slots : list (option addr)) (connection_id : Z) : M world (option addr) :=
  match slots with
  | [] => ret None
  | None :: slots => find_tcb slots connection_id
  | Some a :: slots =>
      tcb <- load w_tcbs a;;
      if tcb_id tcb =? connection_id then ret (Some a) else find_tcb slots connection_id
  end.

Definition tcp_get_transmission_control_block (socket : addr) (connection_id : Z)
    : M world (option addr) :=
  s <- load w_sockets socket;;
  find_tcb (sock_trans_control_block s) connection_id.

(** Frees the block only: [tcp_block_buffer_destroy] does nothing, so its buffers stay allocated. *)
Definition delete_transmission_control_block (tcb : addr) : M world unit := free w_tcbs tcb.

(** Every slot whose block has the identifier is freed and emptied. *)
Fixpoint delete_tcbs (slots : list (option addr)) (connection_id : Z)
    : M world (list (option addr)) :=
  match slots with
  | [] => ret []
  | None :: slots =>
      slots <- delete_tcbs slots connection_id;; ret (None :: slots)
  | Some a :: slots =>
      tcb <- load w_tcbs a;;
      if tcb_id tcb =? connection_id then
        delete_transmission_control_block a;;;
        slots <- delete_tcbs slots connection_id;; ret (None :: slots)
      else slots <- delete_tcbs slots connection_id;; ret (Some a :: slots)
  end.

Definition tcp_delete_transmission_control_block (socket : addr) (connection_id : Z)
    : M world unit :=
  s <- load w_sockets socket;;
  slots <- delete_tcbs (sock_trans_control_block s) connection_id;;
  update w_sockets socket (λ s, s <| sock_trans_control_block := slots |>).

(** The loop of [tcp_get_socket] ends at the first null entry. *)
Fixpoint find_socket (sockets : list (option addr)) (ipv4 port : Z) : M world (option addr) :=
  match sockets with
  | [] => ret None
  | None :: _ => ret None
  | Some a :: sockets =>
      s <- load w_sockets a;;
      if (sock_port s =? port) && (sock_ipv4 s =? ipv4) then ret (Some a)
      else find_socket sockets ipv4 port
  end.

Definition tcp_get_socket (handler : addr) (ipv4 port : Z) : M world (option addr) :=
  h <- load w_handlers handler;;
  priv <- as_tcp_priv h;;
  find_socket (tp_tcp_sockets priv) ipv4 port.

(** The first null entry before the last takes the socket, and the entry behind it
    becomes null. *)
Fixpoint add_socket_entry (sockets : list (option addr)) (a : addr)
    : option (list (option addr)) :=
  match sockets with
  | None :: _ :: sockets => Some (Some a :: None :: sockets)
  | Some b :: sockets =>
      match add_socket_entry sockets a with
      | Some sockets => Some (Some b :: sockets)
      | None => None
      end
  | _ => None
  end.

Definition tcp_add_socket (handler : addr) (socket : addr) : M world bool :=
  h <- load w_handlers handler;;
  priv <- as_tcp_priv h;;
  match add_socket_entry (tp_tcp_sockets priv) socket with
  | Some sockets =>
      update w_handlers handler
        (λ h, h <| h_priv := PrivTcp (priv <| tp_tcp_sockets := sockets |>) |>);;;
      ret true
  | None => ret false
  end.

Definition tcp_create_socket (interface : interface_t) (next_handler : option addr)
    (port ipv4 : Z) (on_connect on_close : option addr) : M world addr :=
  alloc w_sockets
    {| sock_port := port; sock_ipv4 := ipv4;
       sock_trans_control_block := raw_trans_control_block;
       sock_on_connect := on_connect; sock_on_close := on_close;
       sock_interface := interface; sock_next_handler := next_handler |}.
End TcpSocket.

(** Freeing and client operations; writing goes through the handler. *)
Section TcpSocketClient.
Context `{!Platform} `{!Dispatch}.

(** The loop of [tcp_delete_socket] frees the blocks and leaves the slots as they are. *)
Fixpoint tcp_delete_socket_loop (slots : list (option addr)) : M world unit :=
  match slots with
  | [] => ret tt
  | None :: slots => tcp_delete_socket_loop slots
  | Some a :: slots => delete_transmission_control_block a;;; tcp_delete_socket_loop slots
  end.

Definition tcp_delete_socket (socket : addr) : M world unit :=
  s <- load w_sockets socket;;
  tcp_delete_socket_loop (sock_trans_control_block s).

(** The array index [depth - 1]. *)
Definition top_of (args : socket_client_args) : M world nat :=
  need OutOfBounds (if 1 <=? sca_depth args then Some (Z.to_nat (sca_depth args - 1)) else None).

(** [tcb->active_mode_args->handler_args[depth - 1] = &tcp_args]; the arguments with it. *)
Definition store_client_args (active_mode_args : addr) (tcp_args : tcp_write_args_t)
    : M world socket_client_args :=
  args <- load w_client_args active_mode_args;;
  top <- top_of args;;
  handler_args <- need OutOfBounds (set_array top (ArgTcp tcp_args) (sca_handler_args args));;
  update w_client_args active_mode_args (λ args, args <| sca_handler_args := handler_args |>);;;
  load w_client_args active_mode_args.

Definition tcp_socket_connect (handler socket : addr) (tcp_active_mode_args : addr)
    (local_port remote_ip remote_port : Z) : M world Z :=
  s <- load w_sockets socket;;
  let connection_id :=
    tcp_shared_calculate_connection_id remote_ip remote_port (sock_port s) in
  let initial_header :=
    {| th_source_port := remote_port; th_destination_port := 0; th_sequence_num := 0;
       th_acknowledgement_num := 0; th_data_offset := 0; th_control_bits := 0;
       th_window := 0; th_checksum := 0; th_urgent_pointer := 0 |} in
  tcb <- tcp_create_transmission_control_block handler connection_id (Some initial_header)
           remote_ip SYN_SENT;;
  update w_tcbs tcb (λ tcb, tcb <| tcb_active_mode := true |>
                                <| tcb_active_mode_args := Some tcp_active_mode_args |>);;;
  args <- store_client_args tcp_active_mode_args
            {| twa_connection_id := connection_id; twa_socket := Some socket;
               twa_flags := TCP_SYN_FLAG |};;
  top <- top_of args;;
  out_package_stack <- alloc w_out_stacks
    {| ops_handlers := sca_handlers args;
       ops_args := sca_handler_args args;
       ops_out_buffer :=
         {| ob_size := DEFAULT_PACKAGE_BUFFER_SIZE; ob_offset := DEFAULT_PACKAGE_BUFFER_SIZE;
            ob_data := [] |};
       ops_stack_idx := top |};;
  tcp_add_transmission_control_block socket tcb;;;
  ok <- op_write handler out_package_stack (sock_interface s);;
  if negb ok then ret 0
  else
    update w_tcbs tcb (λ tcb, tcb <| tcb_send_next ::= λ n, u32 (n + 1) |>);;;
    ret connection_id.

Definition tcp_socket_send (socket : addr) (connection_id : Z) (buffer : list Z) : M world bool :=
  tcb <- tcp_get_transmission_control_block socket connection_id;;
  tcb <- need NullDeref tcb;;
  tcb <- load w_tcbs tcb;;
  active_mode_args <- need NullDeref (tcb_active_mode_args tcb);;
  args <- load w_client_args active_mode_args;;
  top <- top_of args;;
  handler <- need OutOfBounds (sca_handlers args !! top);;
  args <- store_client_args active_mode_args
            {| twa_connection_id := connection_id; twa_socket := Some socket;
               twa_flags := Z.lor TCP_ACK_FLAG TCP_PSH_FLAG |};;
  let size := Z.of_nat (length buffer) in
  if DEFAULT_PACKAGE_BUFFER_SIZE <? size then fail OutOfBounds
  else
    out_package_stack <- alloc w_out_stacks
      {| ops_handlers := sca_handlers args;
         ops_args := sca_handler_args args;
         ops_out_buffer :=
           {| ob_size := DEFAULT_PACKAGE_BUFFER_SIZE;
              ob_offset := DEFAULT_PACKAGE_BUFFER_SIZE - size; ob_data := buffer |};
         ops_stack_idx := top |};;
    s <- load w_sockets socket;;
    handler <- need NullDeref handler;;
    op_write handler out_package_stack (sock_interface s).
End TcpSocketClient.

(** ** Properties *)

(** The blocks of a socket that have an identifier, in slot order. *)
Definition holders (w : world) (slots : list (option addr)) (connection_id : Z) : list addr :=
  filter (λ a, tcb_id <$> w_tcbs w !! a = Some connection_id) (omap id slots).
(** Every slot leads to a live block, and no two slots to the same. *)
Definition slots_ok (w : world) (slots : list (option addr)) : Prop :=
  Forall (λ a, is_Some (w_tcbs w !! a)) (omap id slots) ∧ NoDup (omap id slots).

Section Slots.
Lemma find_tcb_spec w slots cid :
  Forall (λ a, is_Some (w_tcbs w !! a)) (omap id slots) →
  find_tcb slots cid w = Ok (head (holders w slots cid), w).
Proof.
  unfold holders. induction slots as [|[a|] slots IH]; [done| |done].
  cbn [omap list_omap id find_tcb]. intros [[t Ht] Hl]%Forall_cons.
  rewrite (bind_load _ _ t) by done. rewrite filter_cons, Ht. simpl.
  destruct (Z.eqb_spec (tcb_id t) cid) as [->|Hne]; [by rewrite decide_True|].
  rewrite decide_False by congruence. by apply IH.
Qed.

Lemma omap_add_slot slots a :
  omap id (add_slot slots a) ≡ₚ (if decide (None ∈ slots) then [a] else []) ++ omap id slots.
Proof.
  induction slots as [|[b|] slots IH]; [done| |].
  - cbn [add_slot omap list_omap id]. rewrite IH.
    destruct (decide (None ∈ slots)), (decide (None ∈ Some b :: slots)); try set_solver.
    apply Permutation_swap.
  - rewrite decide_True by set_solver. done.
Qed.

Lemma add_slot_full slots a : None ∉ slots → add_slot slots a = slots.
Proof.
  induction slots as [|[b|] slots IH]; [done| |set_solver].
  intros H. simpl. f_equal. apply IH. set_solver.
Qed.

(** A new block is a holder of its own identifier only. *)
Lemma holders_add w slots a t cid :
  w_tcbs w !! a = Some t → None ∈ slots →
  holders w (add_slot slots a) cid ≡ₚ
    (if decide (tcb_id t = cid) then [a] else []) ++ holders w slots cid.
Proof.
  intros Ht Hn. unfold holders. rewrite omap_add_slot, decide_True by done.
  rewrite filter_app, filter_cons, Ht. simpl.
  destruct (decide (tcb_id t = cid)) as [->|Hne]; [by rewrite decide_True|].
  by rewrite decide_False by congruence.
Qed.

Lemma holders_add_other w slots a cid :
  tcb_id <$> w_tcbs w !! a ≠ Some cid → holders w (add_slot slots a) cid = holders w slots cid.
Proof.
  intros Ha. unfold holders. induction slots as [|[b|] slots IH]; [done| |].
  - cbn [add_slot omap list_omap id]. by rewrite !filter_cons, IH.
  - cbn [add_slot omap list_omap id]. by rewrite filter_cons, decide_False.
Qed.

Lemma delete_tcbs_spec w slots cid :
  slots_ok w slots →
  ∃ slots' w', delete_tcbs slots cid w = Ok (slots', w') ∧
    w' = w <| w_tcbs ::= filter (λ '(a, t), ¬ (a ∈ omap id slots ∧ tcb_id t = cid)) |> ∧
    omap id slots' = filter (λ a, tcb_id <$> w_tcbs w !! a ≠ Some cid) (omap id slots) ∧
    length slots' = length slots.
Proof.
  revert w. induction slots as [|[a|] slots IH]; intros w [Hl Hnd].
  - exists [], w. split; [done|]. split; [|done]. destruct w; simpl. f_equal.
    symmetry. apply map_filter_id. intros ? ? ? [H _]. set_solver.
  - cbn [omap list_omap id delete_tcbs] in *.
    apply Forall_cons in Hl as [[t Ht] Hl]. apply NoDup_cons in Hnd as [Ha Hnd].
    rewrite (bind_load _ _ t) by done. rewrite filter_cons, Ht. simpl.
    destruct (Z.eqb_spec (tcb_id t) cid) as [Heq|Hne].
    + rewrite decide_False by (rewrite Heq; tauto).
      destruct (IH (w <| w_tcbs ::= delete a |>)) as (sl & w' & Hd & -> & Hs & Hlen).
      { split; [|done]. rewrite Forall_forall in *. intros b Hb. simpl.
        rewrite lookup_delete_ne by (intros ->; done). auto. }
      exists (None :: sl). eexists. split.
      { unfold bind at 1, delete_transmission_control_block, free. rewrite Ht. rewrite (bind_ok _ _ _ _ _ Hd). reflexivity. }
      split; [|split; [|simpl; congruence]].
      * unfold set_field. simpl. f_equal. apply map_eq. intros b. rewrite !map_lookup_filter.
        destruct (decide (a = b)) as [->|Hab].
        -- rewrite lookup_delete_eq, Ht. simpl. rewrite option_guard_False; [done|]. set_solver.
        -- rewrite lookup_delete_ne by done. destruct (w_tcbs w !! b) as [u|]; simpl; [|done].
           apply option_guard_iff. set_solver.
      * cbn [omap list_omap id]. rewrite Hs. apply list_filter_ext.
        intros b Hb. simpl.
        by rewrite lookup_delete_ne by (intros ->; done).
    + rewrite decide_True by congruence.
      destruct (IH w) as (sl & w' & Hd & -> & Hs & Hlen); [done|].
      exists (Some a :: sl). eexists. split.
      { rewrite (bind_ok _ _ _ _ _ Hd). reflexivity. }
      split; [|split; [|simpl; congruence]].
      * unfold set_field. simpl. f_equal. apply map_filter_ext. intros b u Hu. simpl. split.
        -- intros H [[->|Hb]%elem_of_cons Hid]; [congruence|by apply H].
        -- intros H [Hb Hid]. apply H. split; [by right|done].
      * cbn [omap list_omap id]. by rewrite Hs.
  - cbn [omap list_omap id delete_tcbs] in *.
    destruct (IH w) as (sl & w' & Hd & -> & Hs & Hlen); [done|].
    exists (None :: sl). eexists. split; [rewrite (bind_ok _ _ _ _ _ Hd); reflexivity|].
    split; [done|]. split; [done|simpl; congruence].
Qed.
End Slots.

(** *** The arguments of a connection over three handlers *)

Section ClientArgs.
Lemma bind_top_of {B} args (k : nat → M world B) w :
  sca_depth args = 3 → bind (top_of args) k w = k 2%nat w.
Proof. intros Hd. unfold top_of. by rewrite Hd. Qed.

Lemma bind_store_client_args {B} a ca tcp_args (k : socket_client_args → M world B) w :
  w_client_args w !! a = Some ca → sca_depth ca = 3 → length (sca_handler_args ca) = STACK_DEPTH →
  let ca' := ca <| sca_handler_args ::= <[2%nat := ArgTcp tcp_args]> |> in
  bind (store_client_args a tcp_args) k w = k ca' (w <| w_client_args ::= <[a := ca']> |>).
Proof.
  intros Ha Hd Hl ca'. unfold STACK_DEPTH in *. unfold store_client_args.
  rewrite bind_assoc, (bind_load _ _ ca) by done. rewrite bind_assoc, bind_top_of by done.
  rewrite bind_assoc, (bind_need _ _ (<[2%nat := ArgTcp tcp_args]> (sca_handler_args ca)))
    by (apply set_array_Some; lia).
  rewrite bind_assoc, (bind_update _ _ _ ca) by done.
  by rewrite (bind_load _ _ ca') by apply lookup_insert_eq.
Qed.
End ClientArgs.

Section SocketLemmas.
Lemma get_tcb_spec w s so cid :
  w_sockets w !! s = Some so → slots_ok w (sock_trans_control_block so) →
  tcp_get_transmission_control_block s cid w
  = Ok (head (holders w (sock_trans_control_block so) cid), w).
Proof.
  intros Hs [Hl _]. unfold tcp_get_transmission_control_block.
  rewrite (bind_load _ _ so) by done. by apply find_tcb_spec.
Qed.

Lemma holders_elem w slots cid a :
  a ∈ holders w slots cid ↔ a ∈ omap id slots ∧ tcb_id <$> w_tcbs w !! a = Some cid.
Proof. unfold holders. rewrite list_elem_of_filter. tauto. Qed.
End SocketLemmas.

(** A block that is added to a socket with a free slot is what a lookup of its
    identifier gives, unless an earlier block has that identifier, and lookups of all
    other identifiers give what they gave before.  On a socket without a free slot the
    block is dropped without a report: the socket does not change. *)
Lemma tcb_add_get w s so a t :
  w_sockets w !! s = Some so → slots_ok w (sock_trans_control_block so) →
  w_tcbs w !! a = Some t → a ∉ omap id (sock_trans_control_block so) →
  holders w (sock_trans_control_block so) (tcb_id t) = [] →
  ∃ w', tcp_add_transmission_control_block s a w = Ok (tt, w') ∧
    if decide (None ∈ sock_trans_control_block so) then
      tcp_get_transmission_control_block s (tcb_id t) w' = Ok (Some a, w') ∧
      ∀ cid, cid ≠ tcb_id t →
        ∃ r, tcp_get_transmission_control_block s cid w = Ok (r, w) ∧
             tcp_get_transmission_control_block s cid w' = Ok (r, w')
    else w' = w.
Proof.
  intros Hs Hok Ht Ha Hh. unfold tcp_add_transmission_control_block.
  rewrite (update_ok _ _ _ so) by done. eexists. split; [done|].
  set (so' := so <| sock_trans_control_block ::= λ l, add_slot l a |>).
  destruct (decide (None ∈ sock_trans_control_block so)) as [Hn|Hn]; last first.
  { unfold so'. destruct w, so; unfold set_field; simpl in *. f_equal.
    rewrite add_slot_full by done. by apply insert_id. }
  set (w' := w <| w_sockets ::= <[s := so']> |>).
  assert (w_sockets w' !! s = Some so') as Hs' by apply lookup_insert_eq.
  assert (slots_ok w' (sock_trans_control_block so')) as Hok'.
  { destruct Hok as [Hl Hnd].
    assert (omap id (sock_trans_control_block so') ≡ₚ a :: omap id (sock_trans_control_block so))
      as Hp.
    { change (sock_trans_control_block so') with (add_slot (sock_trans_control_block so) a).
      by rewrite omap_add_slot, decide_True. }
    split; rewrite Hp; by constructor. }
  split.
  - rewrite (get_tcb_spec w' s so') by done.
    assert (holders w' (sock_trans_control_block so') (tcb_id t) ≡ₚ [a]) as Hhold.
    { change (holders w' (sock_trans_control_block so') (tcb_id t))
        with (holders w (add_slot (sock_trans_control_block so) a) (tcb_id t)).
      by rewrite (holders_add w _ a t), Hh, decide_True. }
    apply Permutation_singleton_r in Hhold. by rewrite Hhold.
  - intros cid Hne. eexists. split; [by apply (get_tcb_spec w s so)|].
    rewrite (get_tcb_spec w' s so') by done. do 2 f_equal.
    change (holders w' (sock_trans_control_block so') cid)
      with (holders w (add_slot (sock_trans_control_block so) a) cid).
    rewrite holders_add_other; [done|]. rewrite Ht. simpl. congruence.
Qed.

(** Deleting an identifier frees its block and empties its slot: a lookup finds
    nothing afterwards, every other block is still there, and lookups of other
    identifiers give what they gave before. *)
Lemma tcb_delete_get w s so cid :
  w_sockets w !! s = Some so → slots_ok w (sock_trans_control_block so) →
  ∃ w', tcp_delete_transmission_control_block s cid w = Ok (tt, w') ∧
    tcp_get_transmission_control_block s cid w' = Ok (None, w') ∧
    (∀ a, a ∈ holders w (sock_trans_control_block so) cid → w_tcbs w' !! a = None) ∧
    (∀ a, a ∉ holders w (sock_trans_control_block so) cid → w_tcbs w' !! a = w_tcbs w !! a) ∧
    ∀ cid', cid' ≠ cid →
      ∃ r, tcp_get_transmission_control_block s cid' w = Ok (r, w) ∧
           tcp_get_transmission_control_block s cid' w' = Ok (r, w').
Proof.
  intros Hs Hok. unfold tcp_delete_transmission_control_block.
  destruct (delete_tcbs_spec w (sock_trans_control_block so) cid Hok) as (sl & w1 & Hd & Hw1 & Hsl & _).
  rewrite (bind_load _ _ so), (bind_ok _ _ _ _ _ Hd) by done.
  assert (w_sockets w1 !! s = Some so) as Hs1 by (subst w1; exact Hs).
  assert (∀ a, w_tcbs w1 !! a = if decide (a ∈ holders w (sock_trans_control_block so) cid)
                                then None else w_tcbs w !! a) as Htcbs.
  { intros a. subst w1. simpl. rewrite map_lookup_filter.
    destruct (w_tcbs w !! a) as [t|] eqn:Ht; simpl; [|by case_decide].
    case_decide as Hh; rewrite holders_elem, Ht in Hh; simpl in Hh.
    - rewrite option_guard_False; [done|]. intros Hn. apply Hn. destruct Hh. split; congruence.
    - rewrite option_guard_True; [done|]. intros [? ?]. apply Hh. split; congruence. }
  rewrite (update_ok _ _ _ so) by done.
  set (so' := so <| sock_trans_control_block := sl |>).
  set (w' := w1 <| w_sockets ::= <[s := so']> |>). exists w'. split; [done|].
  assert (w_sockets w' !! s = Some so') as Hs' by apply lookup_insert_eq.
  destruct Hok as [Hl Hnd].
  assert (slots_ok w' (sock_trans_control_block so')) as Hok'.
  { change (slots_ok w1 sl). unfold slots_ok. rewrite Hsl. split; [|by apply NoDup_filter].
    rewrite Forall_forall in *. intros a [Hc Ha]%list_elem_of_filter.
    rewrite Htcbs, decide_False; [auto|]. rewrite holders_elem. tauto. }
  assert (∀ c, holders w' sl c =
    if decide (c = cid) then [] else holders w (sock_trans_control_block so) c) as Hhold.
  { intros c. unfold holders at 1. rewrite Hsl, list_filter_filter.
    change (w_tcbs w') with (w_tcbs w1). case_decide as Hc.
    - apply list_filter_nil. intros a Ha. rewrite Htcbs.
      case_decide as Hx; rewrite holders_elem in Hx; simpl; naive_solver.
    - apply list_filter_ext. intros a Ha. rewrite Htcbs.
      case_decide as Hx; rewrite holders_elem in Hx; simpl; naive_solver congruence. }
  split.
  { rewrite (get_tcb_spec w' s so') by done. change (sock_trans_control_block so') with sl.
    by rewrite Hhold, decide_True. }
  split; [intros a Ha; change (w_tcbs w1 !! a = None); by rewrite Htcbs, decide_True|].
  split; [intros a Ha; change (w_tcbs w1 !! a = w_tcbs w !! a); by rewrite Htcbs, decide_False|].
  intros c Hc. eexists. split; [by apply (get_tcb_spec w s so)|].
  rewrite (get_tcb_spec w' s so') by done. change (sock_trans_control_block so') with sl.
  by rewrite Hhold, decide_False.
Qed.

(** The sockets of a handler: the entries in front of the first null pointer. *)
Fixpoint registered (sockets : list (option addr)) : list addr :=
  match sockets with Some a :: sockets => a :: registered sockets | _ => [] end.
Definition listens (w : world) (ipv4 port : Z) (a : addr) : Prop :=
  (λ s, (sock_ipv4 s, sock_port s)) <$> w_sockets w !! a = Some (ipv4, port).
#[export] Instance listens_dec w ipv4 port a : Decision (listens w ipv4 port a).
Proof. unfold listens. apply _. Defined.

Section Sockets.
Lemma find_socket_spec w l ipv4 port :
  Forall (λ a, is_Some (w_sockets w !! a)) (registered l) →
  find_socket l ipv4 port w = Ok (head (filter (listens w ipv4 port) (registered l)), w).
Proof.
  induction l as [|[a|] l IH]; [done| |done]. cbn [registered find_socket].
  intros [[s Hs] Hl]%Forall_cons. rewrite (bind_load _ _ s) by done.
  rewrite filter_cons. unfold listens at 1. destruct (decide _) as [Hd|Hd]; rewrite Hs in Hd; simpl in Hd.
  - simplify_eq. by rewrite !Z.eqb_refl.
  - destruct (Z.eqb_spec (sock_port s) port), (Z.eqb_spec (sock_ipv4 s) ipv4); try by apply IH.
    congruence.
Qed.

Lemma registered_le l : (length (registered l) <= length l)%nat.
Proof. induction l as [|[a|] l IH]; simpl; lia. Qed.

Lemma add_socket_entry_spec l a :
  (S (length (registered l)) < length l)%nat →
  ∃ l', add_socket_entry l a = Some l' ∧ registered l' = registered l ++ [a] ∧ length l' = length l.
Proof.
  induction l as [|[b|] l IH]; simpl; intros Hl; [lia| |].
  - destruct IH as (l' & -> & Hr & Hlen); [lia|]. eexists. split; [done|]. simpl.
    by rewrite Hr, Hlen.
  - destruct l as [|x l]; simpl in *; [lia|]. by eexists.
Qed.
Lemma add_socket_entry_full l a :
  (length l <= S (length (registered l)))%nat → add_socket_entry l a = None.
Proof.
  induction l as [|[b|] l IH]; simpl; intros Hl; [done| |].
  - by rewrite IH by lia.
  - destruct l; simpl in *; [done|lia].
Qed.
End Sockets.

(** A handler takes 63 sockets.  A socket that is taken is what a lookup of its address
    and port gives, unless an earlier socket has them, and other lookups do not change;
    a handler with 63 sockets refuses, and does not change. *)
Lemma tcp_add_socket_get w h hd p a s :
  w_handlers w !! h = Some hd → h_priv hd = PrivTcp p →
  length (tp_tcp_sockets p) = SOCKET_BUFFER_SIZE →
  Forall (λ b, is_Some (w_sockets w !! b)) (registered (tp_tcp_sockets p)) →
  w_sockets w !! a = Some s →
  if decide (length (registered (tp_tcp_sockets p)) < 63)%nat then
    ∃ w', tcp_add_socket h a w = Ok (true, w') ∧
      ∀ ipv4 port, ∃ r, tcp_get_socket h ipv4 port w = Ok (r, w) ∧
        tcp_get_socket h ipv4 port w' =
        Ok (match r with
            | Some b => Some b
            | None => if decide (sock_ipv4 s = ipv4 ∧ sock_port s = port) then Some a else None
            end, w')
  else tcp_add_socket h a w = Ok (false, w).
Proof.
  intros Hh Hp Hlen Hl Hs. unfold SOCKET_BUFFER_SIZE in *.
  assert (∀ w k, bind (as_tcp_priv hd) k w = (k p w : outcome (bool * world))) as Hpriv
    by (intros; unfold as_tcp_priv; by rewrite Hp).
  unfold tcp_add_socket. rewrite (bind_load _ _ hd), Hpriv by done. case_decide as Hn; last first.
  { by rewrite add_socket_entry_full by lia. }
  destruct (add_socket_entry_spec (tp_tcp_sockets p) a) as (l' & -> & Hr & _); [lia|].
  rewrite (bind_update _ _ _ hd) by done. eexists. split; [done|]. intros ipv4 port.
  assert (∀ w hd p, w_handlers w !! h = Some hd → h_priv hd = PrivTcp p →
    Forall (λ b, is_Some (w_sockets w !! b)) (registered (tp_tcp_sockets p)) →
    tcp_get_socket h ipv4 port w =
    Ok (head (filter (listens w ipv4 port) (registered (tp_tcp_sockets p))), w)) as Hget.
  { intros w1 hd1 p1 H1 H2 H3. unfold tcp_get_socket. rewrite (bind_load _ _ hd1) by done.
    unfold as_tcp_priv. rewrite H2, bind_ret_l. by apply find_socket_spec. }
  eexists. split; [by eapply Hget|]. erewrite Hget; [|apply lookup_insert_eq|done|]; simpl.
  - rewrite Hr, filter_app. do 2 f_equal.
    match goal with |- head (?f ++ _) = match head ?g with _ => _ end => change f with g; destruct g end;
      [|done].
    rewrite filter_cons. case_decide as Hd; unfold listens in Hd; simpl in Hd; rewrite Hs in Hd;
      simpl in *; case_decide; naive_solver.
  - rewrite Hr. apply Forall_app. split; [done|]. by repeat constructor.
Qed.
