(* ===== verification/TcpStates.v ===== *)
(** * TcpStates: the TCP state functions

    [handlers/tcp/tcp_states.c].  A state function takes the connection and the
    number of segments at the front of its in buffer that are in order. *)

From S2P Require Import Prelude Headers Checksum ProtocolMap BlockBuffer State TcpShared TcpSocket.

Definition is_acknowledgement_valid (tcb : transmission_control_block_t) (tcp_header : tcp_header_t)
    : bool :=
  let acknowledgement_num := ntohl (th_acknowledgement_num tcp_header) in
  (tcb_send_unacknowledged tcb <? acknowledgement_num)
  && (acknowledgement_num <=? tcb_send_next tcb).

Definition is_segment_in_window (tcb : transmission_control_block_t) (tcp_header : tcp_header_t)
    (payload_size : Z) : bool :=
  let sequence_num := ntohl (th_sequence_num tcp_header) in
  let window := tcb_receive_window tcb in
  let window_end := u32 (tcb_receive_next tcb + window) in
  if negb (payload_size =? 0) then
    let sequence_end := u32 (sequence_num + payload_size - 1) in
    negb (window =? 0) && ((tcb_receive_next tcb <=? sequence_num)
      && (sequence_num <? window_end) && (sequence_end <? window_end))
  else
    (negb (window =? 0)
      && ((tcb_receive_next tcb <=? sequence_num) && (sequence_num <? window_end)))
    || ((window =? 0) && (tcb_receive_next tcb =? sequence_num)).

Section TcpStates.
Context `{!Dispatch}.

(** [tcb->field = ...] *)
Definition set_tcb (tcb : addr)
    (f : transmission_control_block_t → transmission_control_block_t) : M world unit :=
  update w_tcbs tcb f.

Definition tcp_internal_write (handler packet_stack : addr) (socket : option addr)
    (connection_id flags : Z) (stack_idx : nat) (interface : interface_t) : M world unit :=
  let tcp_args :=
    {| twa_connection_id := connection_id; twa_socket := socket; twa_flags := flags |} in
  ps <- load w_in_stacks packet_stack;;
  args <- need OutOfBounds (set_array stack_idx (ArgTcp tcp_args) (ips_return_args ps));;
  update w_in_stacks packet_stack (λ ps, ps <| ips_return_args := args |>);;;
  out_package_stack <- handler_create_out_package_stack packet_stack stack_idx;;
  op_write handler out_package_stack interface;;;
  ret tt.

(** [tcp_internal_write(handler, packet_stack, socket, tcb->id, flags,
    packet_stack->stack_idx, interface)], the call the state functions make. *)
Definition segment_reply (handler tcb_a packet_stack : addr) (socket : option addr)
    (flags : Z) (interface : interface_t) : M world unit :=
  tcb <- load w_tcbs tcb_a;;
  ps <- load w_in_stacks packet_stack;;
  tcp_internal_write handler packet_stack socket (tcb_id tcb) flags (ips_stack_idx ps) interface.

(** [tcp_block_buffer_get_head(tcb->in_buffer)->data] *)
Definition head_packet (tcb_a : addr) : M world addr :=
  tcb <- load w_tcbs tcb_a;;
  b <- lift_outcome (block_at (tcb_in_buffer tcb) (tcp_block_buffer_get_head (tcb_in_buffer tcb)));;
  ret (tb_data b).

(** [tcp_block_buffer_remove_front(tcb->in_buffer, 1)] *)
Definition drop_head (tcb_a : addr) : M world unit :=
  tcb <- load w_tcbs tcb_a;;
  bb <- lift_outcome (tcp_block_buffer_remove_front (tcb_in_buffer tcb) 1);;
  set_tcb tcb_a (λ tcb, tcb <| tcb_in_buffer := bb |>).

(** A TCP header of which the first [size] bytes are read, and must be there.  The fields
    behind them have no meaning; whoever reads one of them asks for more bytes first. *)
Definition tcp_header_prefix (size : nat) (m : list Z) : option tcp_header_t :=
  if decide (size <= length m)%nat then decode_tcp_header_t (m ++ replicate sizeof_tcp_header_t 0) else None.

(** How much of the header an access needs: up to the ports, [data_offset], [control_bits],
    [window], and [urgent_pointer]. *)
Definition up_to_ports : nat := 4.
Definition up_to_data_offset : nat := 13.
Definition up_to_control_bits : nat := 14.
Definition up_to_window : nat := 16.
Definition up_to_urgent_pointer : nat := 20.

(** The TCP and the IPv4 header of a received packet, at the stack index and one
    place below it. *)
Definition packet_headers (size : nat) (packet_stack : addr)
    : M world (tcp_header_t * ipv4_header_t) :=
  ps <- load w_in_stacks packet_stack;;
  let idx := ips_stack_idx ps in
  m <- packet_at ps idx;;
  tcp_header <- cast (tcp_header_prefix size) m;;
  below <- match idx with O => fail OutOfBounds | S i => ret i end;;
  m <- packet_at ps below;;
  ipv4_header <- cast decode_ipv4_header_t m;;
  ret (tcp_header, ipv4_header).

(** An access to a field further behind. *)
Definition need_header (size : nat) (packet_stack : addr) : M world unit :=
  packet_headers size packet_stack;;; ret tt.

Definition packet_socket (handler : addr) (ipv4_header : ipv4_header_t)
    (tcp_header : tcp_header_t) : M world (option addr) :=
  tcp_get_socket handler (ip_destination_ip ipv4_header) (th_destination_port tcp_header).

(** [socket->operations.on_connect()] and [on_close()] *)
Definition call_on_connect (socket : option addr) : M world unit :=
  s <- need NullDeref socket;;
  s <- load w_sockets s;;
  callback (sock_on_connect s).
Definition call_on_close (socket : option addr) : M world unit :=
  s <- need NullDeref socket;;
  s <- load w_sockets s;;
  callback (sock_on_close s).

(** One round of the loop of [tcp_close]. *)
Definition tcp_close_one (handler tcb_a : addr) (interface : interface_t) : M world unit :=
  packet_stack <- head_packet tcb_a;;
  hs <- packet_headers up_to_control_bits packet_stack;;
  let '(tcp_header, ipv4_header) := hs in
  let payload_size := tcp_get_payload_length ipv4_header tcp_header in
  socket <- packet_socket handler ipv4_header tcp_header;;
  when (negb (flag_set (th_control_bits tcp_header) TCP_RST_FLAG))
    ((if flag_set (th_control_bits tcp_header) TCP_ACK_FLAG then
        set_tcb tcb_a (λ tcb, tcb <| tcb_send_next := ntohl (th_acknowledgement_num tcp_header) |>)
      else
        set_tcb tcb_a (λ tcb, tcb <| tcb_send_next := 0 |>
          <| tcb_receive_next := u32 (ntohl (th_sequence_num tcp_header) + payload_size) |>));;;
     segment_reply handler tcb_a packet_stack socket TCP_RST_FLAG interface);;;
  drop_head tcb_a.

Fixpoint tcp_close_loop (handler tcb_a : addr) (num_ready : nat) (interface : interface_t)
    : M world unit :=
  match num_ready with
  | O => ret tt
  | S n => tcp_close_one handler tcb_a interface;;; tcp_close_loop handler tcb_a n interface
  end.

Definition tcp_close (handler tcb_a : addr) (num_ready : nat) (interface : interface_t)
    : M world (option Z) :=
  tcp_close_loop handler tcb_a num_ready interface;;; ret (Some 0).

Definition tcp_receive_payload (handler : addr) (socket_a : option addr) (tcb_a packet_stack : addr)
    (interface : interface_t) (payload : nat) (payload_size : Z) : M world unit :=
  sa <- need NullDeref socket_a;;
  socket <- load w_sockets sa;;
  let next_handler := sock_next_handler socket in
  set_tcb tcb_a (λ tcb, tcb <| tcb_receive_next ::= λ n, u32 (n + payload_size) |>
                            <| tcb_receive_window ::= λ n, u16 (n - payload_size) |>);;;
  segment_reply handler tcb_a packet_stack socket_a TCP_ACK_FLAG interface;;;
  tcb <- load w_tcbs tcb_a;;
  ps <- load w_in_stacks packet_stack;;
  let idx := ips_stack_idx ps in
  let tcp_args :=
    {| twa_connection_id := tcb_id tcb; twa_socket := socket_a; twa_flags := TCP_ACK_FLAG |} in
  args <- need OutOfBounds (set_array idx (ArgTcp tcp_args) (ips_return_args ps));;
  pointers <- need OutOfBounds (set_array (S idx) (Some payload) (ips_packet_pointers ps));;
  update w_in_stacks packet_stack
    (λ ps, ps <| ips_return_args := args |> <| ips_stack_idx := S idx |>
              <| ips_packet_pointers := pointers |>);;;
  socket <- load w_sockets sa;;
  match sock_next_handler socket with
  | Some _ =>
      next_handler <- need NullDeref next_handler;;
      op_read packet_stack interface next_handler;;; ret tt
  | None => ret tt
  end.

(** The payload pointer [tcp_get_payload(tcp_header)] as an offset into the frame. *)
Definition payload_pointer (packet_stack : addr) (tcp_header : tcp_header_t) : M world nat :=
  ps <- load w_in_stacks packet_stack;;
  p <- need OutOfBounds (ips_packet_pointers ps !! ips_stack_idx ps);;
  off <- need NullDeref p;;
  ret (off + Z.to_nat (tcp_get_payload tcp_header))%nat.

(** The branch of [tcp_syn_sent] for a SYN. *)
Definition tcp_syn_sent_synchronise (handler tcb_a packet_stack : addr) (socket : option addr)
    (tcp_header : tcp_header_t) (ipv4_header : ipv4_header_t) (interface : interface_t)
    : M world unit :=
  let sequence_num := ntohl (th_sequence_num tcp_header) in
  let acknowledgement_num := ntohl (th_acknowledgement_num tcp_header) in
  set_tcb tcb_a (λ tcb, tcb <| tcb_receive_initial_sequence_num := sequence_num |>
                            <| tcb_receive_next := u32 (sequence_num + 1) |>);;;
  when (flag_set (th_control_bits tcp_header) TCP_ACK_FLAG)
    (set_tcb tcb_a (λ tcb, tcb <| tcb_send_unacknowledged := acknowledgement_num |>));;;
  tcb <- load w_tcbs tcb_a;;
  (if tcb_send_initial_sequence_num tcb <? tcb_send_unacknowledged tcb then
     set_tcb tcb_a (λ tcb, tcb <| tcb_state := ESTABLISHED |>
                               <| tcb_state_function := fn_tcp_others |>);;;
     let payload_size := tcp_get_payload_length ipv4_header tcp_header in
     (if negb (payload_size =? 0) then
        payload <- payload_pointer packet_stack tcp_header;;
        tcp_receive_payload handler socket tcb_a packet_stack interface payload payload_size
      else segment_reply handler tcb_a packet_stack socket TCP_ACK_FLAG interface);;;
     call_on_connect socket
   else
     set_tcb tcb_a (λ tcb, tcb <| tcb_state := SYN_RECEIVED |>
                               <| tcb_state_function := fn_tcp_others |>);;;
     segment_reply handler tcb_a packet_stack socket (Z.lor TCP_SYN_FLAG TCP_ACK_FLAG) interface);;;
  need_header up_to_window packet_stack;;;
  set_tcb tcb_a (λ tcb, tcb <| tcb_send_window := ntohs (th_window tcp_header) |>
                            <| tcb_send_last_update_sequence_num := sequence_num |>
                            <| tcb_send_last_update_acknowledgement_num := acknowledgement_num |>);;;
  drop_head tcb_a.

Definition tcp_syn_sent (handler tcb_a : addr) (num_ready : nat) (interface : interface_t)
    : M world (option Z) :=
  match num_ready with
  | O => ret (Some 1)
  | S _ =>
      packet_stack <- head_packet tcb_a;;
      hs <- packet_headers up_to_control_bits packet_stack;;
      let '(tcp_header, ipv4_header) := hs in
      let control_bits := th_control_bits tcp_header in
      let acknowledgement_num := ntohl (th_acknowledgement_num tcp_header) in
      socket <- packet_socket handler ipv4_header tcp_header;;
      tcb <- load w_tcbs tcb_a;;
      if flag_set control_bits TCP_ACK_FLAG
         && ((acknowledgement_num <=? tcb_send_initial_sequence_num tcb)
             || (tcb_send_next tcb <? acknowledgement_num)) then
        segment_reply handler tcb_a packet_stack socket TCP_RST_FLAG interface;;;
        ret (Some 0)
      else
      let ack_acceptable := flag_set control_bits TCP_ACK_FLAG in
      if flag_set control_bits TCP_RST_FLAG then
        if ack_acceptable then
          socket <- need NullDeref socket;;
          tcp_delete_transmission_control_block socket (tcb_id tcb);;;
          ret (Some 0)
        else drop_head tcb_a;;; ret (Some 0)
      else
      when (flag_set control_bits TCP_SYN_FLAG)
        (tcp_syn_sent_synchronise handler tcb_a packet_stack socket tcp_header ipv4_header interface);;;
      (* [!control_bits & (TCP_SYN_FLAG | TCP_RST_FLAG)]: the logical negation first *)
      when (flag_set (if control_bits =? 0 then 1 else 0) (Z.lor TCP_SYN_FLAG TCP_RST_FLAG))
        (drop_head tcb_a);;;
      ret (Some 0)
  end.

(** How a part of a loop body ends. *)
Inductive flow : Type := FallThrough | Continue | Return (v : Z).

Definition and_then (m k : M world flow) : M world flow :=
  f <- m;; match f with FallThrough => k | f => ret f end.

(** [tcp_block_buffer_remove_front(tcb->in_buffer, 1); continue;] *)
Definition drop_and_continue (tcb_a : addr) : M world flow := drop_head tcb_a;;; ret Continue.

(** [tcb->fin_num && acknowledgement_num >= tcb->fin_num] *)
Definition acknowledges_fin (tcb : transmission_control_block_t) (acknowledgement_num : Z) : bool :=
  negb (tcb_fin_num tcb =? 0) && (tcb_fin_num tcb <=? acknowledgement_num).

(** RST in the window: [tcb->state == CLOSED;] is a comparison, so nothing changes. *)
Definition tcp_others_reset (tcb_a : addr) (socket : option addr) (state : TCP_STATE)
    : M world flow :=
  tcb <- load w_tcbs tcb_a;;
  when (bool_decide (state = SYN_RECEIVED) && tcb_active_mode tcb) (call_on_close socket);;;
  ret (Return 0).

(** SYN in the window. *)
Definition tcp_others_synchronise (handler tcb_a packet_stack : addr) (socket : option addr)
    (state : TCP_STATE) (interface : interface_t) : M world flow :=
  tcb <- load w_tcbs tcb_a;;
  if bool_decide (state = SYN_RECEIVED) && negb (tcb_active_mode tcb) then ret (Return 0)
  else
    segment_reply handler tcb_a packet_stack socket TCP_ACK_FLAG interface;;;
    drop_and_continue tcb_a.

(** Whether the window of a segment is newer than the one last taken. *)
Definition is_window_update (tcb : transmission_control_block_t)
    (sequence_num acknowledgement_num : Z) : bool :=
  (tcb_send_last_update_sequence_num tcb <? sequence_num)
  || ((tcb_send_last_update_sequence_num tcb =? sequence_num)
      && (tcb_send_last_update_acknowledgement_num tcb <=? acknowledgement_num)).

(** An ACK in the states that take data: lines 244-297.  The branches for [LAST_ACK]
    and [TIME_WAIT] are inside the test for five other states. *)
Definition tcp_others_acknowledge_data (handler tcb_a packet_stack : addr)
    (socket : option addr) (state : TCP_STATE) (tcp_header : tcp_header_t) (ackOk : bool)
    (interface : interface_t) : M world flow :=
  let acknowledgement_num := ntohl (th_acknowledgement_num tcp_header) in
  let sequence_num := ntohl (th_sequence_num tcp_header) in
  tcb <- load w_tcbs tcb_a;;
  if tcb_send_next tcb <? acknowledgement_num then
    segment_reply handler tcb_a packet_stack socket TCP_ACK_FLAG interface;;;
    drop_and_continue tcb_a
  else
  when ((ackOk || (acknowledgement_num =? tcb_send_unacknowledged tcb))
        && is_window_update tcb sequence_num acknowledgement_num)
    (need_header up_to_window packet_stack;;;
     set_tcb tcb_a (λ tcb, tcb <| tcb_send_window := ntohs (th_window tcp_header) |>
                               <| tcb_send_last_update_sequence_num := sequence_num |>));;;
  when ackOk
    (set_tcb tcb_a (λ tcb, tcb <| tcb_send_unacknowledged := acknowledgement_num |>));;;
  tcb <- load w_tcbs tcb_a;;
  match state with
  | FIN_WAIT_1 =>
      when (acknowledges_fin tcb acknowledgement_num)
        (drop_head tcb_a;;; set_tcb tcb_a (λ tcb, tcb <| tcb_state := FIN_WAIT_2 |>));;;
      ret FallThrough
  | FIN_WAIT_2 =>
      when (tcb_send_next tcb =? tcb_send_last_update_acknowledgement_num tcb)
        (call_on_close socket);;;
      ret FallThrough
  | CLOSING =>
      when (acknowledges_fin tcb acknowledgement_num)
        (drop_head tcb_a;;; set_tcb tcb_a (λ tcb, tcb <| tcb_state := TIME_WAIT |>));;;
      ret FallThrough
  | LAST_ACK =>
      if acknowledges_fin tcb acknowledgement_num then ret (Return 0) else ret FallThrough
  | TIME_WAIT =>
      when (acknowledges_fin tcb acknowledgement_num)
        (segment_reply handler tcb_a packet_stack socket TCP_ACK_FLAG interface);;;
      ret FallThrough
  | _ => ret FallThrough
  end.

(** An ACK in the window: lines 238-309. *)
Definition tcp_others_acknowledge (handler tcb_a packet_stack : addr) (socket : option addr)
    (state : TCP_STATE) (tcp_header : tcp_header_t) (interface : interface_t) : M world flow :=
  let acknowledgement_num := ntohl (th_acknowledgement_num tcp_header) in
  let sequence_num := ntohl (th_sequence_num tcp_header) in
  tcb <- load w_tcbs tcb_a;;
  let ackOk := (acknowledgement_num <=? tcb_send_next tcb)
               && (tcb_send_unacknowledged tcb <? acknowledgement_num) in
  match state with
  | ESTABLISHED | FIN_WAIT_1 | FIN_WAIT_2 | CLOSE_WAIT | CLOSING =>
      tcp_others_acknowledge_data handler tcb_a packet_stack socket state tcp_header ackOk interface
  | SYN_RECEIVED =>
      (if negb ackOk then
         set_tcb tcb_a (λ tcb, tcb <| tcb_send_next := acknowledgement_num |>);;;
         segment_reply handler tcb_a packet_stack socket TCP_RST_FLAG interface
       else
         need_header up_to_window packet_stack;;;
         set_tcb tcb_a (λ tcb, tcb <| tcb_send_window := ntohs (th_window tcp_header) |>
           <| tcb_send_last_update_sequence_num := sequence_num |>
           <| tcb_send_last_update_acknowledgement_num := acknowledgement_num |>
           <| tcb_state := ESTABLISHED |>));;;
      ret FallThrough
  | _ => ret FallThrough
  end.

(** The payload of a segment: lines 315-319. *)
Definition tcp_others_payload (handler tcb_a packet_stack : addr) (socket : option addr)
    (state : TCP_STATE) (tcp_header : tcp_header_t) (payload_size : Z)
    (interface : interface_t) : M world flow :=
  when (negb (payload_size =? 0)
        && bool_decide (state = ESTABLISHED ∨ state = FIN_WAIT_1 ∨ state = FIN_WAIT_2))
    (payload <- payload_pointer packet_stack tcp_header;;
     tcp_receive_payload handler socket tcb_a packet_stack interface payload payload_size);;;
  ret FallThrough.

(** The state a FIN moves the connection to, if any. *)
Definition state_after_fin (tcb : transmission_control_block_t) (state : TCP_STATE)
    (acknowledgement_num : Z) : option TCP_STATE :=
  match state with
  | ESTABLISHED => Some CLOSE_WAIT
  | FIN_WAIT_1 =>
      Some (if acknowledges_fin tcb acknowledgement_num then TIME_WAIT else CLOSING)
  | FIN_WAIT_2 => Some TIME_WAIT
  | _ => None
  end.

(** FIN in the window: lines 321-349. *)
Definition tcp_others_finish (handler tcb_a packet_stack : addr) (socket : option addr)
    (state : TCP_STATE) (tcp_header : tcp_header_t) (interface : interface_t) : M world flow :=
  if negb (flag_set (th_control_bits tcp_header) TCP_FIN_FLAG) then ret FallThrough
  else if bool_decide (state = CLOSED ∨ state = LISTEN ∨ state = SYN_SENT) then
    drop_and_continue tcb_a
  else
    set_tcb tcb_a (λ tcb, tcb <| tcb_receive_next := u32 (ntohl (th_sequence_num tcp_header) + 1) |>);;;
    segment_reply handler tcb_a packet_stack socket (Z.lor TCP_ACK_FLAG TCP_FIN_FLAG) interface;;;
    set_tcb tcb_a (λ tcb, tcb <| tcb_send_next ::= λ n, u32 (n + 1) |>);;;
    call_on_close socket;;;
    tcb <- load w_tcbs tcb_a;;
    match state_after_fin tcb state (ntohl (th_acknowledgement_num tcp_header)) with
    | Some state => set_tcb tcb_a (λ tcb, tcb <| tcb_state := state |>);;; ret FallThrough
    | None => ret FallThrough
    end.

(** A segment in the window: lines 206-349. *)
Definition tcp_others_in_window (handler tcb_a packet_stack : addr) (socket : option addr)
    (state : TCP_STATE) (tcp_header : tcp_header_t) (payload_size : Z)
    (interface : interface_t) : M world flow :=
  let control_bits := th_control_bits tcp_header in
  if flag_set control_bits TCP_RST_FLAG then tcp_others_reset tcb_a socket state
  else if flag_set control_bits TCP_SYN_FLAG then
    tcp_others_synchronise handler tcb_a packet_stack socket state interface
  else if flag_set control_bits TCP_ACK_FLAG then
    and_then (tcp_others_acknowledge handler tcb_a packet_stack socket state tcp_header interface)
    (and_then (tcp_others_payload handler tcb_a packet_stack socket state tcp_header payload_size
                 interface)
              (tcp_others_finish handler tcb_a packet_stack socket state tcp_header interface))
  else drop_and_continue tcb_a.

(** A segment outside the window: lines 350-357. *)
Definition tcp_others_out_of_window (handler tcb_a packet_stack : addr) (socket : option addr)
    (tcp_header : tcp_header_t) (interface : interface_t) : M world flow :=
  if flag_set (th_control_bits tcp_header) TCP_RST_FLAG then drop_and_continue tcb_a
  else segment_reply handler tcb_a packet_stack socket TCP_ACK_FLAG interface;;; ret FallThrough.

(** One round of the loop of [tcp_others]; a round that does not leave the loop ends
    with removing the segment. *)
Definition tcp_others_one (handler tcb_a : addr) (interface : interface_t) : M world flow :=
  packet_stack <- head_packet tcb_a;;
  hs <- packet_headers up_to_control_bits packet_stack;;
  let '(tcp_header, ipv4_header) := hs in
  let payload_size := tcp_get_payload_length ipv4_header tcp_header in
  socket <- packet_socket handler ipv4_header tcp_header;;
  tcb <- load w_tcbs tcb_a;;
  and_then
    (if is_segment_in_window tcb tcp_header payload_size then
       tcp_others_in_window handler tcb_a packet_stack socket (tcb_state tcb) tcp_header
         payload_size interface
     else tcp_others_out_of_window handler tcb_a packet_stack socket tcp_header interface)
    (drop_and_continue tcb_a).

(** The loop, which ends without a [return] when no segment is left. *)
Fixpoint tcp_others (handler tcb_a : addr) (num_ready : nat) (interface : interface_t)
    : M world (option Z) :=
  match num_ready with
  | O => ret None
  | S n =>
      f <- tcp_others_one handler tcb_a interface;;
      match f with
      | Return v => ret (Some v)
      | _ => tcp_others handler tcb_a n interface
      end
  end.

Definition tcp_listen (handler tcb_a : addr) (num_ready : nat) (interface : interface_t)
    : M world (option Z) :=
  match num_ready with
  | O => ret (Some 0)
  | S _ =>
      packet_stack <- head_packet tcb_a;;
      hs <- packet_headers up_to_control_bits packet_stack;;
      let '(tcp_header, ipv4_header) := hs in
      let control_bits := th_control_bits tcp_header in
      socket <- packet_socket handler ipv4_header tcp_header;;
      tcb <- load w_tcbs tcb_a;;
      if flag_set control_bits TCP_RST_FLAG then
        socket <- need NullDeref socket;;
        tcp_delete_transmission_control_block socket (tcb_id tcb);;;
        ret (Some 0)
      else
      (if flag_set control_bits TCP_ACK_FLAG then
         set_tcb tcb_a (λ tcb, tcb
           <| tcb_send_next := ntohl (th_acknowledgement_num tcp_header) |>
           <| tcb_receive_next := 0 |>);;;
         segment_reply handler tcb_a packet_stack socket TCP_RST_FLAG interface
       (* [control_bits | (TCP_SYN_FLAG == TCP_SYN_FLAG)] *)
       else if negb (Z.lor control_bits 1 =? 0) then
         set_tcb tcb_a (λ tcb, tcb
           <| tcb_receive_initial_sequence_num := ntohl (th_sequence_num tcp_header) |>
           <| tcb_receive_next := u32 (ntohl (th_sequence_num tcp_header) + 1) |>
           <| tcb_receive_urgent_pointer := 0 |>
           <| tcb_state := SYN_RECEIVED |>
           <| tcb_state_function := fn_tcp_others |>
           <| tcb_send_next := tcb_send_initial_sequence_num tcb |>);;;
         segment_reply handler tcb_a packet_stack socket (Z.lor TCP_ACK_FLAG TCP_SYN_FLAG) interface;;;
         set_tcb tcb_a (λ tcb, tcb <| tcb_send_unacknowledged := tcb_send_initial_sequence_num tcb |>
                                   <| tcb_send_next ::= λ n, u32 (n + 1) |>)
       else ret tt);;;
      drop_head tcb_a;;;
      ret (Some 0)
  end.

(** [tcb->state_function(handler, tcb, num_ready, interface)] *)
Definition call_state_function (f : state_function) (handler tcb_a : addr) (num_ready : nat)
    (interface : interface_t) : M world (option Z) :=
  match f with
  | fn_tcp_close => tcp_close handler tcb_a num_ready interface
  | fn_tcp_listen => tcp_listen handler tcb_a num_ready interface
  | fn_tcp_syn_sent => tcp_syn_sent handler tcb_a num_ready interface
  | fn_tcp_others => tcp_others handler tcb_a num_ready interface
  end.
End TcpStates.

(** ** Headers *)

Section HeaderPrefix.
Lemma decode_tcp_app m k th : decode_tcp_header_t m = Some th → decode_tcp_header_t (m ++ k) = Some th.
Proof. intros H. do 20 (destruct m as [|? m]; [discriminate H|]). exact H. Qed.
Lemma decode_tcp_length m th : decode_tcp_header_t m = Some th → (20 <= length m)%nat.
Proof. intros H. do 20 (destruct m as [|? m]; [discriminate H|]). simpl. lia. Qed.

(** Of a header that is there in full, every prefix is read as the header. *)
Lemma tcp_header_prefix_full size m th :
  decode_tcp_header_t m = Some th → (size <= 20)%nat → tcp_header_prefix size m = Some th.
Proof.
  intros H Hs. unfold tcp_header_prefix. pose proof (decode_tcp_length _ _ H).
  rewrite decide_True by lia. by apply decode_tcp_app.
Qed.
Lemma tcp_header_prefix_short size m : (length m < size)%nat → tcp_header_prefix size m = None.
Proof. intros H. unfold tcp_header_prefix. by rewrite decide_False by lia. Qed.
(** A prefix that is there is read, also without the rest. *)
Lemma tcp_header_prefix_some size m : (size <= length m)%nat → is_Some (tcp_header_prefix size m).
Proof.
  intros H. unfold tcp_header_prefix. rewrite decide_True by done.
  set (z := m ++ _). assert (20 <= length z)%nat as Hz by (unfold z; rewrite length_app, length_replicate; unfold sizeof_tcp_header_t; lia).
  clearbody z. do 20 (destruct z as [|? z]; [simpl in Hz; lia|]). by eexists.
Qed.
End HeaderPrefix.

(** ** Properties of the window test *)

(** The acceptability test of RFC 9293, 3.10.7.4, on sequence numbers modulo [2^32]: the
    first or the last octet of a segment is in the window. *)
Definition in_receive_window (receive_next window x : Z) : bool := u32 (x - receive_next) <? window.
Definition rfc9293_acceptable (receive_next window sequence_num payload_size : Z) : bool :=
  if payload_size =? 0 then
    if window =? 0 then sequence_num =? receive_next
    else in_receive_window receive_next window sequence_num
  else in_receive_window receive_next window sequence_num
       || in_receive_window receive_next window (u32 (sequence_num + payload_size - 1)).

Ltac window_cases :=
  repeat match goal with
  | |- context [Z.eqb ?a ?b] => destruct (Z.eqb_spec a b)
  | |- context [Z.leb ?a ?b] => destruct (Z.leb_spec a b)
  | |- context [Z.ltb ?a ?b] => destruct (Z.ltb_spec a b)
  end; simpl; try done; try lia.

(** A segment that is let through is acceptable in RFC 9293, with sequence numbers that wrap
    around. *)
Lemma segment_in_window_sound tcb header size :
  is_u32 (tcb_receive_next tcb) → is_u16 (tcb_receive_window tcb) → is_u16 size →
  is_segment_in_window tcb header size = true →
  rfc9293_acceptable (tcb_receive_next tcb) (tcb_receive_window tcb)
    (ntohl (th_sequence_num header)) size = true.
Proof.
  intros Hn Hw Hs. pose proof (ntohl_range (th_sequence_num header)) as Hq.
  unfold is_segment_in_window, rfc9293_acceptable, in_receive_window, is_u32, is_u16 in *.
  revert Hq. generalize (ntohl (th_sequence_num header)) as q. intros q Hq. unfold u32.
  window_cases.
Qed.

(** C34: a segment that [is_segment_in_window] lets through is acceptable in RFC 9293, whose
    sequence numbers wrap around.  As long as neither the window nor the segment wraps
    around, the test lets exactly the segments through that are in the window from the
    first to the last octet; once the window wraps around it refuses every segment, the
    expected one included.  The window is not 0. *)
Theorem is_segment_in_window_exact tcb header size :
  is_u32 (tcb_receive_next tcb) → is_u16 (tcb_receive_window tcb) → is_u16 size →
  let next := tcb_receive_next tcb in
  let window := tcb_receive_window tcb in
  let seq := ntohl (th_sequence_num header) in
  0 < window →
  (is_segment_in_window tcb header size = true → rfc9293_acceptable next window seq size = true) ∧
  (next + window < 4294967296 → seq + size <= 4294967296 →
   is_segment_in_window tcb header size = true ↔
     in_receive_window next window seq = true ∧
     (size ≠ 0 → in_receive_window next window (u32 (seq + size - 1)) = true)) ∧
  (4294967296 <= next + window → is_segment_in_window tcb header size = false).
Proof.
  intros Hn Hw Hs next window seq Hpos. pose proof (ntohl_range (th_sequence_num header)) as Hq.
  split; [by apply segment_in_window_sound|].
  unfold is_segment_in_window. fold next window seq. fold seq in Hq. fold next in Hn. fold window in Hw.
  clearbody next window seq. unfold in_receive_window, is_u32, is_u16, u32 in *. split.
  - intros Hnw Hsw. window_cases; split; intros; try done; try lia; destruct_and?; try done; lia.
  - intros Hwrap. window_cases.
Qed.

Definition example_tcb (state : TCP_STATE) (receive_next window : Z) : transmission_control_block_t :=
  let bb := create_tcp_block_buffer
    (replicate 11 {| tb_payload_size := 0; tb_sequence_num := 0; tb_data := 0; tb_next := None |}) 10 in
  {| tcb_id := 5242960; tcb_remote_ipv4 := 33554442; tcb_remote_port := 34835;
     tcb_send_unacknowledged := 642; tcb_send_next := 643; tcb_send_window := 1000;
     tcb_send_urgent_pointer := 0; tcb_send_initial_sequence_num := 642;
     tcb_send_last_update_sequence_num := 0; tcb_send_last_update_acknowledgement_num := 0;
     tcb_receive_next := receive_next; tcb_receive_window := window;
     tcb_receive_urgent_pointer := 0; tcb_receive_initial_sequence_num := 1000; tcb_fin_num := 0;
     tcb_state := state; tcb_active_mode := false; tcb_active_mode_args := None;
     tcb_out_buffer := bb; tcb_in_buffer := bb;
     tcb_out_header :=
       {| th_source_port := 0; th_destination_port := 0; th_sequence_num := 0;
          th_acknowledgement_num := 0; th_data_offset := 0; th_control_bits := 0;
          th_window := 0; th_checksum := 0; th_urgent_pointer := 0 |};
     tcb_after_header := replicate 40 0; tcb_state_function := initial_state_function state |}.

Definition example_header (sequence_num flags : Z) : tcp_header_t :=
  {| th_source_port := 34835; th_destination_port := 20480; th_sequence_num := htonl sequence_num;
     th_acknowledgement_num := htonl 643; th_data_offset := 80; th_control_bits := flags;
     th_window := htons 1000; th_checksum := 0; th_urgent_pointer := 0 |}.

Lemma is_segment_in_window_exact_witness :
  is_segment_in_window (example_tcb ESTABLISHED 4294967290 4096) (example_header 4294967290 16) 4
  = false.
Proof.
  apply (is_segment_in_window_exact (example_tcb ESTABLISHED 4294967290 4096)
           (example_header 4294967290 16) 4);
    solve [split; discriminate || reflexivity | reflexivity | discriminate].
Defined.

(** ** The segment at the head of the queue *)

Section HeadOfQueue.
Lemma head_packet_ok w a t sg q m :
  w_tcbs w !! a = Some t → bb_repr (tcb_in_buffer t) (sg :: q) m →
  head_packet a w = Ok (seg_data sg, w).
Proof.
  intros Ha Hbb. destruct (repr_cons _ _ _ _ Hbb) as (j & b & Hj & Hb & <-).
  unfold head_packet. rewrite (bind_load _ _ t) by done. unfold tcp_block_buffer_get_head.
  rewrite Hj. by rewrite (bind_lift _ b).
Qed.

Lemma drop_head_ok w a t sg q m :
  w_tcbs w !! a = Some t → bb_repr (tcb_in_buffer t) (sg :: q) m →
  ∃ bb, bb_repr bb q (S m) ∧
    drop_head a w = Ok (tt, w <| w_tcbs ::= <[a := t <| tcb_in_buffer := bb |>]> |>).
Proof.
  intros Ha Hbb. destruct (remove_front_repr _ _ _ 1 Hbb) as (bb & Hr & _ & Hbb').
  exists bb. split; [simpl in Hbb'; by replace (S m) with (m + 1)%nat by lia|].
  unfold drop_head. rewrite (bind_load _ _ t), (bind_lift _ bb) by done.
  unfold set_tcb. by rewrite (update_ok _ _ _ t).
Qed.
End HeadOfQueue.

(** A reset in the window of an open connection changes nothing at all: [tcb->state ==
    CLOSED] compares instead of assigning, and the segment stays at the head of the
    queue.  Its packet stack lives only as long as the packet is read, so that the next
    segment of the connection makes [tcp_others] use it after its lifetime. *)
Lemma reset_stays_queued `{!Dispatch} h a i n w t sg qs m ih th socket :
  w_tcbs w !! a = Some t → bb_repr (tcb_in_buffer t) (sg :: qs) m →
  (packet_headers up_to_control_bits (seg_data sg) w = Ok ((th, ih), w) →
   packet_socket h ih th w = Ok (socket, w) →
   is_segment_in_window t th (tcp_get_payload_length ih th) = true →
   flag_set (th_control_bits th) TCP_RST_FLAG = true →
   tcb_state t ≠ SYN_RECEIVED ∨ tcb_active_mode t = false →
   tcp_others h a (S n) i w = Ok (Some 0, w)) ∧
  (w_in_stacks w !! seg_data sg = None → tcp_others h a (S n) i w = Fault Dangling).
Proof.
  intros Ha Hbb. cbn [tcp_others]. unfold tcp_others_one. split.
  - intros Hh Hs Hwin Hrst Hst. rewrite bind_assoc.
    rewrite (bind_ok _ _ _ _ _ (head_packet_ok _ _ _ _ _ _ Ha Hbb)), bind_assoc.
    rewrite (bind_ok _ _ _ _ _ Hh). cbv beta iota zeta. rewrite bind_assoc, (bind_ok _ _ _ _ _ Hs).
    rewrite bind_assoc, (bind_load _ _ t) by done. rewrite Hwin. unfold tcp_others_in_window.
    rewrite Hrst. unfold and_then, tcp_others_reset. rewrite !bind_assoc, (bind_load _ _ t) by done.
    replace (bool_decide (tcb_state t = SYN_RECEIVED) && tcb_active_mode t) with false; [done|].
    symmetry. apply andb_false_iff. rewrite bool_decide_eq_false. tauto.
  - intros Hgone. rewrite bind_assoc.
    rewrite (bind_ok _ _ _ _ _ (head_packet_ok _ _ _ _ _ _ Ha Hbb)), bind_assoc.
    apply bind_fault. unfold packet_headers. apply bind_fault. unfold load. by rewrite Hgone.
Qed.
