(* ===== verification/Tcp.v ===== *)
(** * Tcp: the TCP handler

    [handlers/tcp/tcp.c]: writing a segment into the out buffer of its connection and
    flushing that buffer, and handing a received segment to the state function of its
    connection. *)

From S2P Require Import Prelude Headers Checksum ProtocolMap BlockBuffer State.
From S2P Require Import TcpShared TcpSocket TcpStates.

Section Tcp.
Context `{!Platform} `{!Dispatch}.

Definition tcp_close_handler (handler : addr) : M world unit := free_priv handler.

(** [priv_config] is the [window] of a [tcp_priv_config_t], or null. *)
Definition tcp_init_handler (handler : addr) (priv_config : option Z) : M world unit :=
  window <- need NullDeref priv_config;;
  update w_handlers handler
    (λ h, h <| h_priv := PrivTcp {| tp_window := window; tp_tcp_sockets := raw_tcp_sockets |} |>).

Definition tcb_header_to_connection_id (ipv4_header : ipv4_header_t) (tcp_header : tcp_header_t)
    : Z :=
  tcp_shared_calculate_connection_id (ip_source_ip ipv4_header) (th_source_port tcp_header)
    (th_destination_port tcp_header).

Definition as_tcp_args (a : write_args) : M world tcp_write_args_t :=
  match a with
  | ArgTcp a => ret a
  | ArgNull => fail NullDeref
  | _ => fail TypeConfusion
  end.

(** The fields [tcp_write] stores in [tcb->out_header]; the checksum field keeps its
    value. *)
Definition tcp_out_header (tcb : transmission_control_block_t) (port flags payload_size : Z)
    : tcp_header_t :=
  {| th_source_port := port;
     th_destination_port := tcb_remote_port tcb;
     th_sequence_num := htonl (tcb_send_next tcb);
     th_acknowledgement_num := htonl (tcb_receive_next tcb);
     th_data_offset := 80;
     th_control_bits :=
       if negb (payload_size =? 0) then Z.lor flags TCP_PSH_FLAG else flags;
     th_window := htons (tcb_receive_window tcb);
     th_checksum := th_checksum (tcb_out_header tcb);
     th_urgent_pointer := 0 |}.

(** Filling in the header of the connection and its checksum. *)
Definition tcp_write_header (tcb_a : addr) (port ipv4 flags payload_size : Z)
    : M world tcp_header_t :=
  tcb <- load w_tcbs tcb_a;;
  let out_header := tcp_out_header tcb port flags payload_size in
  checksum <- need OutOfBounds
    (_tcp_calculate_checksum (encode_tcp_header_t out_header ++ tcb_after_header tcb)
       ipv4 (tcb_remote_ipv4 tcb) (u16 payload_size));;
  let out_header := out_header <| th_checksum := checksum |> in
  update w_tcbs tcb_a (λ tcb, tcb <| tcb_out_header := out_header |>
    <| tcb_send_next ::= λ n, if negb (payload_size =? 0) then u32 (n + payload_size) else n |>);;;
  ret out_header.

(** The loop of [tcp_write].  The index of the handler to call is the one of the
    packet stack being written, decremented in every round, whichever packet stack
    is at the head. *)
Fixpoint tcp_write_flush (fuel : nat) (packet_stack tcb_a : addr) (interface : interface_t)
    : M world bool :=
  match fuel with
  | O => no_fuel
  | S fuel =>
      tcb <- load w_tcbs tcb_a;;
      match tcp_block_buffer_get_head (tcb_out_buffer tcb) with
      | None => ret true
      | Some buffer_block =>
          b <- lift_outcome (block_at (tcb_out_buffer tcb) (Some buffer_block));;
          let out_package_stack := tb_data b in
          let remote_window := ntohs (tcb_send_window tcb) in
          if tb_payload_size b <=? remote_window then
            ps <- load w_out_stacks packet_stack;;
            let stack_idx := match ops_stack_idx ps with O => 255%nat | S i => i end in
            update w_out_stacks packet_stack (λ ps, ps <| ops_stack_idx := stack_idx |>);;;
            ops <- load w_out_stacks out_package_stack;;
            next <- need OutOfBounds (ops_handlers ops !! stack_idx);;
            next_handler <- need NullDeref next;;
            ok <- op_write next_handler out_package_stack interface;;
            if negb ok then ret false
            else
              tcb <- load w_tcbs tcb_a;;
              bb <- lift_outcome (tcp_block_buffer_remove_front (tcb_out_buffer tcb) 1);;
              update w_tcbs tcb_a (λ tcb, tcb <| tcb_out_buffer := bb |>);;;
              tcp_write_flush fuel packet_stack tcb_a interface
          else ret true
      end
  end.

(** More rounds than there are blocks in an out buffer. *)
Definition flush_fuel : nat := S (S TCP_BLOCK_BUFFER_DEFAULT_SIZE).

Definition tcp_write (packet_stack : addr) (interface : interface_t) : M world bool :=
  ps <- load w_out_stacks packet_stack;;
  args <- need OutOfBounds (ops_args ps !! ops_stack_idx ps);;
  if bool_decide (ops_stack_idx ps = O) then ret false
  else
    let out_buffer := ops_out_buffer ps in
    let payload_size := ob_size out_buffer - ob_offset out_buffer in
    if ob_offset out_buffer <? Z.of_nat sizeof_tcp_header_t then ret false
    else
      tcp_args <- as_tcp_args args;;
      match twa_socket tcp_args with
      | None => ret false
      | Some socket =>
          if twa_connection_id tcp_args =? 0 then ret false
          else
            tcb <- tcp_get_transmission_control_block socket (twa_connection_id tcp_args);;
            match tcb with
            | None => ret false
            | Some tcb_a =>
                s <- load w_sockets socket;;
                out_header <- tcp_write_header tcb_a (sock_port s) (sock_ipv4 s)
                                (twa_flags tcp_args) payload_size;;
                update w_out_stacks packet_stack
                  (λ ps, ps <| ops_out_buffer ::= push_header (encode_tcp_header_t out_header) |>);;;
                tcb <- load w_tcbs tcb_a;;
                r <- lift_outcome (tcp_block_buffer_add (tcb_out_buffer tcb) packet_stack
                                     (th_sequence_num out_header) (u16 payload_size));;
                update w_tcbs tcb_a (λ tcb, tcb <| tcb_out_buffer := snd r |>);;;
                tcp_write_flush flush_fuel packet_stack tcb_a interface
            end
      end.

(** The connection of a received segment, created for a SYN when there is none. *)
Definition tcp_read_connection (handler socket packet_stack : addr) (connection_id : Z)
    (ipv4_header : ipv4_header_t) (header : tcp_header_t) : M world (option addr) :=
  tcb <- tcp_get_transmission_control_block socket connection_id;;
  match tcb with
  | Some tcb => ret (Some tcb)
  | None =>
      need_header up_to_control_bits packet_stack;;;
      if flag_set (th_control_bits header) TCP_SYN_FLAG then
        need_header up_to_urgent_pointer packet_stack;;;
        tcb <- tcp_create_transmission_control_block handler connection_id (Some header)
                 (ip_source_ip ipv4_header) LISTEN;;
        tcp_add_transmission_control_block socket tcb;;;
        ret (Some tcb)
      else ret None
  end.

(** Queueing the segment and running the state function on what is in order. *)
Definition tcp_read_segment (handler tcb_a packet_stack : addr) (ipv4_header : ipv4_header_t)
    (header : tcp_header_t) (interface : interface_t) : M world (option Z) :=
  need_header up_to_data_offset packet_stack;;;
  let tcp_payload_size := tcp_get_payload_length ipv4_header header in
  tcb <- load w_tcbs tcb_a;;
  r <- lift_outcome (tcp_block_buffer_add (tcb_in_buffer tcb) packet_stack
                       (th_sequence_num header) tcp_payload_size);;
  update w_tcbs tcb_a (λ tcb, tcb <| tcb_in_buffer := snd r |>);;;
  when (bool_decide (tcb_state tcb = SYN_SENT))
    (update w_tcbs tcb_a (λ tcb, tcb <| tcb_receive_next := ntohl (th_sequence_num header) |>));;;
  tcb <- load w_tcbs tcb_a;;
  num_ready <- lift_outcome (tcp_block_buffer_num_ready (tcb_in_buffer tcb) (tcb_receive_next tcb));;
  if negb (num_ready =? 0) then
    call_state_function (tcb_state_function tcb) handler tcb_a (Z.to_nat num_ready) interface
  else ret (Some 0).

Definition tcp_read (packet_stack : addr) (interface : interface_t) (handler : addr)
    : M world (option Z) :=
  ps <- load w_in_stacks packet_stack;;
  handlers <- need OutOfBounds (set_array (ips_stack_idx ps) (Some handler) (ips_handlers ps));;
  update w_in_stacks packet_stack (λ ps, ps <| ips_handlers := handlers |>);;;
  hs <- packet_headers up_to_ports packet_stack;;
  let '(header, ipv4_header) := hs in
  let connection_id := tcb_header_to_connection_id ipv4_header header in
  socket <- packet_socket handler ipv4_header header;;
  match socket with
  | None => ret (Some 0)
  | Some socket =>
      tcb <- tcp_read_connection handler socket packet_stack connection_id ipv4_header header;;
      match tcb with
      | None => ret (Some 1)
      | Some tcb => tcp_read_segment handler tcb packet_stack ipv4_header header interface
      end
  end.

Definition tcp_create_handler : M world addr :=
  handler <- alloc w_handlers {| h_operations := TcpHandler; h_priv := raw_handler_priv |};;
  modify (λ w, w <| w_ip_map := snd (add_value (w_ip_map w) 6 (Some handler)) |>);;;
  ret handler.
End Tcp.
