(* ===== verification/Arp.v ===== *)
(** * Arp: address resolution and its socket

    [handlers/arp/arp.c] and [handlers/arp/socket.c].  The read-write lock is left out
    (one worker thread). *)

From S2P Require Import Prelude Headers ProtocolMap BlockBuffer State Ethernet.

Definition ARP_OPERATION_REQUEST : Z := 256.
Definition ARP_OPERATION_RESPONSE : Z := 512.
Definition ARP_HDW_TYPE_ETHERNET : Z := 256.
Definition ARP_PRO_TYPE_IPV4 : Z := 2048.

(** ** The resolution list *)

(** The entry the index points at is freed and replaced; [None] is an access behind
    the slots the handler has initialised. *)
Definition arp_insert_mapping (l : arp_resoltion_list_t) (entry : arp_entry_t)
    : option arp_resoltion_list_t :=
  slots ← set_array (Z.to_nat (arl_insert_idx l)) (Some entry) (arl_list l);
  Some {| arl_list := slots;
          arl_insert_idx := u16 (u16 (arl_insert_idx l + 1) mod Z.of_nat ARP_RESOLUTION_LIST_SIZE) |}.

(** The index of the slot whose entry has the address; a null slot ends the search. *)
Fixpoint arp_find (slots : list (option arp_entry_t)) (ipv4 : Z) : option nat :=
  match slots with
  | Some entry :: slots => if ipv4 =? ae_ipv4 entry then Some O else S <$> arp_find slots ipv4
  | _ => None
  end.
Definition arp_get_ip_mapping (l : arp_resoltion_list_t) (ipv4 : Z) : option nat :=
  arp_find (arl_list l) ipv4.

(** What [arp_read] does to the list for a packet from a sender: an entry of the
    sender is overwritten, and only a packet for the own address adds a new one. *)
Definition arp_learn (l : arp_resoltion_list_t) (header : arp_header_t) (for_me : bool)
    : option arp_resoltion_list_t :=
  let entry := {| ae_ipv4 := ah_sender_protocol_addr header;
                  ae_mac := ah_sender_hardware_addr header |} in
  match arp_get_ip_mapping l (ah_sender_protocol_addr header) with
  | Some i => Some (l <| arl_list ::= <[i := Some entry]> |>)
  | None => if for_me then arp_insert_mapping l entry else Some l
  end.

Section Arp.
Context `{!Platform} `{!Dispatch}.

Definition as_arp_priv (h : handler_t) : M world arp_priv_t :=
  match h_priv h with
  | PrivArp p => ret p
  | PrivNone => fail NullDeref
  | PrivFreed => fail Dangling
  | _ => fail PrivConfusion
  end.

Definition as_arp_args (a : write_args) : M world arp_header_t :=
  match a with
  | ArgArp a => ret a
  | ArgNull => fail NullDeref
  | _ => fail TypeConfusion
  end.

Definition arp_close_handler (handler : addr) : M world unit := free_priv handler.

Definition arp_init_handler (handler : addr) : M world unit :=
  update w_handlers handler
    (λ h, h <| h_priv := PrivArp
      {| ap_socket := None;
         ap_resolution_list := {| arl_list := replicate ARP_RESOLUTION_LIST_SIZE None;
                                  arl_insert_idx := raw_insert_idx |} |} |>).

Definition arp_write (packet_stack : addr) (interface : interface_t) : M world bool :=
  ps <- load w_out_stacks packet_stack;;
  args <- need OutOfBounds (ops_args ps !! ops_stack_idx ps);;
  if ob_offset (ops_out_buffer ps) <? Z.of_nat sizeof_arp_header_t then ret false
  else
    header <- as_arp_args args;;
    update w_out_stacks packet_stack
      (λ ps, ps <| ops_out_buffer ::= push_header (encode_arp_header_t header) |>);;;
    write_down packet_stack interface.

(** The answer to a request: sender and target exchanged, with the own address. *)
Definition arp_response (header : arp_header_t) (interface : interface_t) : arp_header_t :=
  {| ah_hdw_type := ah_hdw_type header;
     ah_pro_type := ah_pro_type header;
     ah_hdw_addr_length := ah_hdw_addr_length header;
     ah_pro_addr_length := ah_pro_addr_length header;
     ah_operation := ARP_OPERATION_RESPONSE;
     ah_sender_hardware_addr := if_mac interface;
     ah_sender_protocol_addr := ah_target_protocol_addr header;
     ah_target_hardware_addr := ah_sender_hardware_addr header;
     ah_target_protocol_addr := ah_sender_protocol_addr header |}.

(** Lines 106-121: the socket sees the packet first.  [Some r] is the result of a
    passthrough socket, which ends [arp_read]. *)
Definition arp_read_socket (handler packet_stack : addr) (packet_idx : nat)
    (interface : interface_t) : M world (option (option Z)) :=
  h <- load w_handlers handler;;
  private <- as_arp_priv h;;
  match ap_socket private with
  | None => ret None
  | Some socket =>
      s <- load w_arp_sockets socket;;
      match as_next_handler s with
      | None => ret None
      | Some next_handler =>
          ps <- load w_in_stacks packet_stack;;
          p <- need OutOfBounds (ips_packet_pointers ps !! packet_idx);;
          off <- need NullDeref p;;
          pointers <- need OutOfBounds
            (set_array (S (ips_stack_idx ps)) (Some (off + sizeof_arp_header_t)%nat)
               (ips_packet_pointers ps));;
          args <- need OutOfBounds
            (set_array (S (ips_stack_idx ps)) ArgNull (ips_return_args ps));;
          update w_in_stacks packet_stack
            (λ ps, ps <| ips_packet_pointers := pointers |> <| ips_return_args := args |>
                      <| ips_stack_idx ::= S |>);;;
          result <- op_read packet_stack interface next_handler;;
          h <- load w_handlers handler;;
          private <- as_arp_priv h;;
          socket <- need NullDeref (ap_socket private);;
          s <- load w_arp_sockets socket;;
          if as_passthrough s then ret (Some result)
          else
            update w_in_stacks packet_stack (λ ps, ps <| ips_stack_idx := packet_idx |>);;;
            ret None
      end
  end.

(** Lines 123-168. *)
Definition arp_read_packet (handler packet_stack : addr) (packet_idx : nat)
    (header : arp_header_t) (interface : interface_t) : M world (option Z) :=
  if (ah_hdw_type header =? ARP_HDW_TYPE_ETHERNET) && (ah_pro_type header =? ETHERNET_TYPE_IPV6)
  then
    let for_me := ah_target_protocol_addr header =? if_ipv4_addr interface in
    h <- load w_handlers handler;;
    private <- as_arp_priv h;;
    l <- need OutOfBounds (arp_learn (ap_resolution_list private) header for_me);;
    update w_handlers handler
      (λ h, h <| h_priv := PrivArp (private <| ap_resolution_list := l |>) |>);;;
    if for_me && (ah_operation header =? ARP_OPERATION_REQUEST) then
      ps <- load w_in_stacks packet_stack;;
      args <- need OutOfBounds
        (set_array packet_idx (ArgArp (arp_response header interface)) (ips_return_args ps));;
      update w_in_stacks packet_stack (λ ps, ps <| ips_return_args := args |>);;;
      out_package_stack <- handler_create_out_package_stack packet_stack packet_idx;;
      ok <- op_write handler out_package_stack interface;;
      if negb ok then ret (Some (u16 (-1))) else ret (Some 0)
    else ret (Some 0)
  else ret (Some 0).

Definition arp_read (packet_stack : addr) (interface : interface_t) (handler : addr)
    : M world (option Z) :=
  ps <- load w_in_stacks packet_stack;;
  let packet_idx := ips_stack_idx ps in
  handlers <- need OutOfBounds (set_array packet_idx (Some handler) (ips_handlers ps));;
  update w_in_stacks packet_stack (λ ps, ps <| ips_handlers := handlers |>);;;
  r <- arp_read_socket handler packet_stack packet_idx interface;;
  match r with
  | Some result => ret result
  | None =>
      m <- packet_at ps packet_idx;;
      header <- cast decode_arp_header_t m;;
      arp_read_packet handler packet_stack packet_idx header interface
  end.

Definition arp_create_handler : M world addr :=
  handler <- alloc w_handlers {| h_operations := ArpHandler; h_priv := raw_handler_priv |};;
  modify (λ w, w <| w_ethernet_map :=
    snd (add_value (w_ethernet_map w) (htons ETHERNET_TYPE_ARP) (Some handler)) |>);;;
  ret handler.

(** ** The socket *)

Definition arp_socket_send (handler socket : addr) (protocol_stack : socket_client_args)
    : M world bool :=
  out_package_stack <- alloc w_out_stacks
    {| ops_handlers := sca_handlers protocol_stack;
       ops_args := sca_handler_args protocol_stack;
       ops_out_buffer :=
         {| ob_size := DEFAULT_PACKAGE_BUFFER_SIZE; ob_offset := DEFAULT_PACKAGE_BUFFER_SIZE;
            ob_data := [] |};
       ops_stack_idx := Z.to_nat (u8 (sca_depth protocol_stack - 1)) |};;
  s <- load w_arp_sockets socket;;
  op_write handler out_package_stack (as_interface s).

(** The entries that are copied, and [num_arp_entries], which only a null slot sets. *)
Fixpoint arp_status_entries (slots : list (option arp_entry_t)) : list arp_entry_t :=
  match slots with
  | Some entry :: slots => entry :: arp_status_entries slots
  | _ => []
  end.
Definition arp_status (handler : addr) : M world (list arp_entry_t * Z) :=
  h <- load w_handlers handler;;
  private <- as_arp_priv h;;
  let slots := arl_list (ap_resolution_list private) in
  let entries := arp_status_entries slots in
  ret (entries,
       if bool_decide (length entries < length slots)%nat then Z.of_nat (length entries)
       else raw_num_arp_entries).

Definition arp_create_socket (next_handler : option addr) (interface : interface_t)
    (passthrough : bool) : M world addr :=
  alloc w_arp_sockets
    {| as_next_handler := next_handler; as_passthrough := passthrough;
       as_interface := interface |}.

Definition arp_set_socket (handler : addr) (socket : option addr) : M world unit :=
  h <- load w_handlers handler;;
  private <- as_arp_priv h;;
  update w_handlers handler (λ h, h <| h_priv := PrivArp (private <| ap_socket := socket |>) |>).
End Arp.

(** ** Properties of the resolution list *)

(** The table a list stands for. *)
Definition entry_pair (e : arp_entry_t) : Z * list Z := (ae_ipv4 e, ae_mac e).
Definition arp_table (l : arp_resoltion_list_t) : gmap Z (list Z) :=
  list_to_map (entry_pair <$> omap id (arl_list l)).

(** What [arp_get_ip_mapping] finds, followed to the hardware address. *)
Definition arp_resolve (l : arp_resoltion_list_t) (ipv4 : Z) : option (list Z) :=
  i ← arp_get_ip_mapping l ipv4;
  e ← arl_list l !! i;
  ae_mac <$> e.

(** The hardware address of the entry for an address. *)
Fixpoint arp_lookup (q : list arp_entry_t) (ipv4 : Z) : option (list Z) :=
  match q with
  | [] => None
  | e :: q => if ae_ipv4 e =? ipv4 then Some (ae_mac e) else arp_lookup q ipv4
  end.

(** The entries are in front of the null slots, for distinct addresses, and the index is
    the first null slot until the list is full. *)
Definition arp_ok (l : arp_resoltion_list_t) (entries : list arp_entry_t) : Prop :=
  arl_list l = (Some <$> entries) ++ replicate (ARP_RESOLUTION_LIST_SIZE - length entries) None ∧
  (length entries <= ARP_RESOLUTION_LIST_SIZE)%nat ∧
  NoDup (ae_ipv4 <$> entries) ∧
  0 <= arl_insert_idx l < 256 ∧
  ((length entries < ARP_RESOLUTION_LIST_SIZE)%nat → arl_insert_idx l = Z.of_nat (length entries)).

Section ArpTable.
Lemma omap_entries (es : list arp_entry_t) n :
  omap id ((Some <$> es) ++ replicate n None) = es.
Proof.
  rewrite omap_app. replace (omap id (replicate n (@None arp_entry_t))) with (@nil arp_entry_t).
  - rewrite app_nil_r. induction es as [|e es IH]; [done|]. simpl. by f_equal.
  - by induction n.
Qed.

Lemma arp_table_ok l es : arp_ok l es → arp_table l = list_to_map (entry_pair <$> es).
Proof. intros (Hl & _). unfold arp_table. by rewrite Hl, omap_entries. Qed.

Lemma keys_pairs es : (entry_pair <$> es).*1 = ae_ipv4 <$> es.
Proof. rewrite <- list_fmap_compose. done. Qed.

Lemma arp_find_entries es n ip :
  arp_find ((Some <$> es) ++ replicate n None) ip =
  fst <$> list_find (λ e, ip = ae_ipv4 e) es.
Proof.
  induction es as [|e es IH]; [by destruct n|].
  rewrite fmap_cons, <- app_comm_cons. cbn [arp_find list_find].
  destruct (Z.eqb_spec ip (ae_ipv4 e)).
  - by rewrite decide_True.
  - rewrite decide_False by done. rewrite IH. by destruct (list_find _ es) as [[]|].
Qed.

(** The index of a sender that is known, and its entry. *)
Lemma arp_get_Some l es ip i :
  arp_ok l es → arp_get_ip_mapping l ip = Some i →
  ∃ e, es !! i = Some e ∧ arl_list l !! i = Some (Some e) ∧ ae_ipv4 e = ip.
Proof.
  intros (Hl & _). unfold arp_get_ip_mapping. rewrite Hl, arp_find_entries.
  intros ([j e] & Hf & ->)%fmap_Some. apply list_find_Some in Hf as (Hj & -> & _). exists e.
  split; [done|]. split; [|done]. apply lookup_app_l_Some. simpl. by rewrite list_lookup_fmap, Hj.
Qed.
Lemma arp_get_None l es ip :
  arp_ok l es → arp_get_ip_mapping l ip = None → ip ∉ ae_ipv4 <$> es.
Proof.
  intros (Hl & _). unfold arp_get_ip_mapping. rewrite Hl, arp_find_entries.
  intros H%fmap_None. apply list_find_None in H. rewrite Forall_forall in H.
  intros (e & -> & He)%list_elem_of_fmap. by apply (H e).
Qed.

(** Lookups in the list are lookups in its table. *)
Lemma arp_resolve_table l es ip : arp_ok l es → arp_resolve l ip = arp_table l !! ip.
Proof.
  intros Hok. rewrite (arp_table_ok l es) by done. unfold arp_resolve.
  destruct (arp_get_ip_mapping l ip) as [i|] eqn:Hi; simpl.
  - destruct (arp_get_Some _ _ _ _ Hok Hi) as (e & He & -> & <-). simpl. symmetry.
    apply elem_of_list_to_map; [rewrite keys_pairs; apply Hok|].
    apply list_elem_of_fmap. exists e. split; [done|]. by eapply list_elem_of_lookup_2.
  - symmetry. apply not_elem_of_list_to_map. rewrite keys_pairs. by eapply arp_get_None.
Qed.

(** The table is what the entries say, in any order. *)
Lemma arp_resolve_entries l es q ip :
  arp_ok l es → q ≡ₚ es → arp_resolve l ip = arp_lookup q ip.
Proof.
  intros Hok Hq. rewrite (arp_resolve_table l es), (arp_table_ok l es) by done.
  rewrite (list_to_map_proper (entry_pair <$> es) (entry_pair <$> q)).
  - clear. induction q as [|e q IH]; [done|]. cbn [fmap list_fmap list_to_map foldr arp_lookup].
    unfold entry_pair at 1. cbn [fst snd].
    destruct (Z.eqb_spec (ae_ipv4 e) ip) as [<-|Hne]; [apply lookup_insert_eq|by rewrite lookup_insert_ne].
  - rewrite keys_pairs. apply Hok.
  - by rewrite Hq.
Qed.
End ArpTable.

(** ** The list as a queue *)

(** What the list stands for: the known senders from the oldest entry to the newest.  A
    sender that is known keeps its place; an unknown one, if it is to be learned, becomes
    the newest, and pushes out the oldest of 256. *)
Definition learn (q : list arp_entry_t) (e : arp_entry_t) (for_me : bool) : list arp_entry_t :=
  if decide (ae_ipv4 e ∈ ae_ipv4 <$> q) then map (λ x, if ae_ipv4 x =? ae_ipv4 e then e else x) q
  else if for_me then (if decide (length q < 256)%nat then q else tail q) ++ [e] else q.

(** The index separates the newest slot from the oldest: the entries by age start there. *)
Definition arp_ages (l : arp_resoltion_list_t) (q : list arp_entry_t) : Prop :=
  ∃ es, arp_ok l es ∧
    q = drop (Z.to_nat (arl_insert_idx l)) es ++ take (Z.to_nat (arl_insert_idx l)) es.

Section ArpLearn.
Lemma rotate_perm {A} i (l : list A) : drop i l ++ take i l ≡ₚ l.
Proof. by rewrite Permutation_app_comm, take_drop. Qed.

Lemma ages_resolve l q ip : arp_ages l q → arp_resolve l ip = arp_lookup q ip.
Proof. intros (es & Hok & ->). eapply arp_resolve_entries; [done|apply rotate_perm]. Qed.

(** Overwriting the entry of an address in place. *)
Lemma map_update es i old e :
  NoDup (ae_ipv4 <$> es) → es !! i = Some old → ae_ipv4 old = ae_ipv4 e →
  map (λ x, if ae_ipv4 x =? ae_ipv4 e then e else x) es = <[i := e]> es.
Proof.
  intros Hnd Hi He. apply list_eq. intros j. change (map ?f es) with (f <$> es).
  rewrite list_lookup_fmap. destruct (decide (i = j)) as [<-|Hne].
  - rewrite Hi, list_lookup_insert_eq by (by eapply lookup_lt_Some). simpl. by rewrite He, Z.eqb_refl.
  - rewrite list_lookup_insert_ne by done. destruct (es !! j) as [x|] eqn:Hj; [|done]. simpl.
    destruct (Z.eqb_spec (ae_ipv4 x) (ae_ipv4 e)) as [E|]; [|done]. exfalso. apply Hne.
    eapply (NoDup_lookup _ i j (ae_ipv4 e) Hnd); rewrite list_lookup_fmap, ?Hi, ?Hj; simpl; congruence.
Qed.

Variables (l : arp_resoltion_list_t) (es : list arp_entry_t) (e : arp_entry_t).
Hypothesis Hok : arp_ok l es.
Abbreviation index := (Z.to_nat (arl_insert_idx l)).

Lemma ips_rotated : ae_ipv4 e ∈ ae_ipv4 <$> (drop index es ++ take index es) ↔ ae_ipv4 e ∈ ae_ipv4 <$> es.
Proof. by rewrite rotate_perm. Qed.

(** The slots after one was overwritten. *)
Lemma replace_ok i old idx :
  es !! i = Some old → NoDup (ae_ipv4 <$> <[i := e]> es) → 0 <= idx < 256 →
  ((length es < ARP_RESOLUTION_LIST_SIZE)%nat → idx = Z.of_nat (length es)) →
  arp_ok {| arl_list := <[i := Some e]> (arl_list l); arl_insert_idx := idx |} (<[i := e]> es).
Proof.
  intros Hi Hnd' Hidx Hfull. destruct Hok as (Hl & Hlen & Hnd & _).
  pose proof (lookup_lt_Some _ _ _ Hi) as Hlt.
  unfold arp_ok. cbn [arl_list arl_insert_idx]. rewrite length_insert.
  split; [|done]. rewrite Hl, insert_app_l by by rewrite length_fmap.
  by rewrite list_fmap_insert.
Qed.

(** The addresses stay distinct. *)
Lemma replace_distinct i old :
  es !! i = Some old → (ae_ipv4 e = ae_ipv4 old ∨ ae_ipv4 e ∉ ae_ipv4 <$> es) →
  NoDup (ae_ipv4 <$> <[i := e]> es).
Proof.
  intros Hi He. destruct Hok as (_ & _ & Hnd & _). pose proof (lookup_lt_Some _ _ _ Hi) as Hlt.
  rewrite list_fmap_insert. destruct He as [He|He].
  - rewrite list_insert_id; [done|]. by rewrite list_lookup_fmap, Hi, He.
  - rewrite insert_take_drop by (by rewrite length_fmap).
    assert (ae_ipv4 <$> es = take i (ae_ipv4 <$> es) ++ ae_ipv4 old :: drop (S i) (ae_ipv4 <$> es)) as E
      by (symmetry; apply take_drop_middle; by rewrite list_lookup_fmap, Hi).
    rewrite E in Hnd, He. revert Hnd. rewrite <- !Permutation_middle, !NoDup_cons. set_solver.
Qed.

Lemma overwrite_ages i :
  arp_get_ip_mapping l (ae_ipv4 e) = Some i → ∀ for_me,
  arp_ages (l <| arl_list ::= <[i := Some e]> |>) (learn (drop index es ++ take index es) e for_me).
Proof.
  intros Hi for_me. destruct (arp_get_Some _ _ _ _ Hok Hi) as (old & Ho & _ & Hip).
  pose proof Hok as (_ & _ & Hnd & Hidx & Hnext).
  exists (<[i := e]> es). split.
  - by apply (replace_ok i old); [|apply (replace_distinct i old); [|left]|..].
  - unfold learn. rewrite decide_True; last first.
    { rewrite ips_rotated. apply list_elem_of_fmap. exists old. split; [done|]. by eapply list_elem_of_lookup_2. }
    rewrite map_app. change (map ?f ?k) with (f <$> k). rewrite fmap_drop, fmap_take.
    by rewrite <- (map_update es i old).
Qed.

Lemma next_index z : 0 <= z < 256 → u16 (u16 (z + 1) mod Z.of_nat ARP_RESOLUTION_LIST_SIZE) = (z + 1) mod 256.
Proof. intros Hz. unfold u16. change (Z.of_nat ARP_RESOLUTION_LIST_SIZE) with 256. lia. Qed.

(** A new entry, behind the others or in place of the oldest. *)
Lemma insert_ages :
  ae_ipv4 e ∉ ae_ipv4 <$> es →
  ∃ l', arp_insert_mapping l e = Some l' ∧ arp_ages l' (learn (drop index es ++ take index es) e true).
Proof.
  intros Hnew. pose proof Hok as (Hl & Hlen & Hnd & Hidx & Hnext).
  assert (length (arl_list l) = 256%nat) as Hll.
  { rewrite Hl, length_app, length_fmap, length_replicate. unfold ARP_RESOLUTION_LIST_SIZE in *. lia. }
  unfold arp_insert_mapping. rewrite set_array_Some by lia. cbn [mbind option_bind].
  rewrite next_index by done. eexists. split; [reflexivity|].
  unfold learn. rewrite decide_False by by rewrite ips_rotated.
  rewrite length_app, length_drop, length_take. unfold ARP_RESOLUTION_LIST_SIZE in *.
  destruct (decide (length es < 256)%nat) as [Hlt|Hfull].
  - specialize (Hnext Hlt). rewrite decide_True by lia. rewrite Hnext, Nat2Z.id, drop_ge, take_ge by done.
    exists (es ++ [e]). unfold arp_ok. cbn [arl_list arl_insert_idx app].
    rewrite length_app. cbn [length]. unfold ARP_RESOLUTION_LIST_SIZE. split.
    + split_and!; [| lia | |lia..|lia].
      * rewrite Hl. unfold ARP_RESOLUTION_LIST_SIZE.
        replace (256 - length es)%nat with (S (256 - (length es + 1))) by lia.
        rewrite insert_app_r_alt by (rewrite length_fmap; lia).
        by rewrite length_fmap, Nat.sub_diag, fmap_app, <- app_assoc.
      * rewrite fmap_app. apply NoDup_app. split; [done|]. split; [|by apply NoDup_singleton].
        intros x Hx ->%list_elem_of_singleton. done.
    + destruct (decide (length es = 255)%nat) as [E|].
      * rewrite E. change (Z.to_nat ((Z.of_nat 255 + 1) mod 256)) with 0%nat. by rewrite app_nil_r.
      * rewrite Z.mod_small by lia. rewrite drop_ge, take_ge by (rewrite length_app; simpl; lia). done.
  - rewrite decide_False by lia. assert (length es = 256)%nat as H256 by lia.
    assert (index < length es)%nat as [old Ho]%lookup_lt_is_Some_2 by lia.
    exists (<[index := e]> es). split.
    + apply (replace_ok index old); [done|by apply (replace_distinct index old); [|right]|lia|].
      unfold ARP_RESOLUTION_LIST_SIZE. lia.
    + cbn [arl_insert_idx]. rewrite (drop_S _ old) by done. cbn [tail app].
      rewrite <- app_assoc. destruct (decide (arl_insert_idx l = 255)) as [E|].
      * rewrite E. change (Z.to_nat ((255 + 1) mod 256)) with 0%nat. rewrite drop_0, take_0, app_nil_r.
        rewrite (drop_ge es) by lia. rewrite insert_take_drop by lia. by rewrite (drop_ge es) by lia.
      * rewrite Z.mod_small by lia. replace (Z.to_nat (arl_insert_idx l + 1)) with (S index) by lia.
        rewrite drop_insert_lt by lia. f_equal. rewrite insert_take_drop by lia.
        rewrite take_app_ge by (rewrite length_take; lia). rewrite length_take.
        by replace (S index - _)%nat with 1%nat by lia.
Qed.
End ArpLearn.

Lemma arp_learn_ok l q header for_me :
  arp_ages l q →
  let e := {| ae_ipv4 := ah_sender_protocol_addr header; ae_mac := ah_sender_hardware_addr header |} in
  ∃ l', arp_learn l header for_me = Some l' ∧ arp_ages l' (learn q e for_me).
Proof.
  intros (es & Hok & ->) e. unfold arp_learn. fold e.
  destruct (arp_get_ip_mapping l (ah_sender_protocol_addr header)) as [i|] eqn:Hi.
  - eexists. split; [reflexivity|]. by apply overwrite_ages.
  - pose proof (arp_get_None _ _ _ Hok Hi) as Hnew. destruct for_me; [by apply insert_ages|].
    exists l. split; [done|]. exists es. split; [done|]. unfold learn.
    by rewrite decide_False by by rewrite ips_rotated.
Qed.

(** What was learned is found. *)
Lemma lookup_learned q e : arp_lookup (learn q e true) (ae_ipv4 e) = Some (ae_mac e).
Proof.
  unfold learn. case_decide as Hin.
  - induction q as [|x q IH]; [by apply elem_of_nil in Hin|]. cbn [map arp_lookup].
    destruct (Z.eqb_spec (ae_ipv4 x) (ae_ipv4 e)) as [E|Hne]; [by rewrite Z.eqb_refl|].
    destruct (Z.eqb_spec (ae_ipv4 x) (ae_ipv4 e)); [done|]. apply IH.
    rewrite fmap_cons in Hin. by apply elem_of_cons in Hin as [?|?].
  - set (k := if decide _ then q else tail q).
    assert (ae_ipv4 e ∉ ae_ipv4 <$> k) as Hk.
    { unfold k. case_decide; [done|]. intros Hx. apply Hin. destruct q; [done|]. by right. }
    clearbody k. clear Hin. induction k as [|x k IH]; simpl; [by rewrite Z.eqb_refl|].
    rewrite fmap_cons in Hk. apply not_elem_of_cons in Hk as [Hx Hk].
    destruct (Z.eqb_spec (ae_ipv4 x) (ae_ipv4 e)); [by destruct Hx|]. by apply IH.
Qed.

(** C32: the resolution list implements a queue of at most 256 senders, in the order in which they
    were learned, once its index and its entries fit each other (as in an empty list with index
    0).  A packet overwrites the hardware address of a known sender, which keeps its age; a packet
    for the own address adds an unknown sender as the newest one, and when there are 256 already
    the oldest is forgotten; any other packet changes nothing.  Lookups in the list are lookups
    in the queue. *)
Theorem arp_learn_refines l q header for_me :
  arp_ages l q →
  let e := {| ae_ipv4 := ah_sender_protocol_addr header; ae_mac := ah_sender_hardware_addr header |} in
  ∃ l', arp_learn l header for_me = Some l' ∧ arp_ages l' (learn q e for_me) ∧
    (length (learn q e for_me) <= 256)%nat ∧
    ∀ ip, arp_resolve l' ip = arp_lookup (learn q e for_me) ip.
Proof.
  intros Hq e. destruct (arp_learn_ok l q header for_me Hq) as (l' & Hl & Hq').
  exists l'. split; [done|]. split; [done|]. split.
  - destruct Hq' as (es & (_ & Hlen & _) & E). fold e in E. rewrite E, rotate_perm. exact Hlen.
  - intros ip. by apply ages_resolve.
Qed.

(** [arp_init_handler] leaves the insert index as the allocator did.  Unless that is
    0 (or out of range), the first sender is stored behind a null slot and never found. *)
Lemma arp_uninitialised_index `{!Platform} header :
  0 < raw_insert_idx < 256 →
  let l := {| arl_list := replicate ARP_RESOLUTION_LIST_SIZE None; arl_insert_idx := raw_insert_idx |} in
  ∃ l', arp_learn l header true = Some l' ∧
    arl_list l' !! Z.to_nat raw_insert_idx =
      Some (Some {| ae_ipv4 := ah_sender_protocol_addr header;
                    ae_mac := ah_sender_hardware_addr header |}) ∧
    ∀ ip, arp_resolve l' ip = None.
Proof.
  intros Hr l. unfold arp_learn, l, arp_get_ip_mapping. cbn [arl_list].
  change (arp_find (replicate ARP_RESOLUTION_LIST_SIZE None) (ah_sender_protocol_addr header)) with (@None nat).
  unfold arp_insert_mapping. cbn [arl_list arl_insert_idx].
  rewrite set_array_Some by (rewrite length_replicate; unfold ARP_RESOLUTION_LIST_SIZE; lia).
  eexists. split; [reflexivity|]. cbn [arl_list]. split.
  - apply list_lookup_insert_eq. rewrite length_replicate. unfold ARP_RESOLUTION_LIST_SIZE. lia.
  - intros ip. unfold arp_resolve, arp_get_ip_mapping. cbn [arl_list].
    destruct (Z.to_nat raw_insert_idx) as [|n] eqn:Hn; [lia|]. done.
Qed.

(** The socket of the handler gives no packet away: there is none, or it has no next handler,
    as the one that [arp_program_start] sets. *)
Definition socket_silent (w : world) (ap : arp_priv_t) : Prop :=
  match ap_socket ap with
  | None => True
  | Some socket => ∃ s, w_arp_sockets w !! socket = Some s ∧ as_next_handler s = None
  end.

Lemma arp_read_socket_silent `{!Platform} `{!Dispatch} h ps idx i w hd ap :
  w_handlers w !! h = Some hd → h_priv hd = PrivArp ap → socket_silent w ap →
  arp_read_socket h ps idx i w = Ok (None, w).
Proof.
  intros Hh Hp Hs. unfold arp_read_socket. rewrite (bind_load _ _ hd) by done. unfold as_arp_priv.
  rewrite Hp, bind_ret_l. unfold socket_silent in Hs. destruct (ap_socket ap) as [socket|]; [|done].
  destruct Hs as (s & Hs & Hn). rewrite (bind_load _ _ s) by done. by rewrite Hn.
Qed.

(** C25: a request for the own address is answered, unless a socket with a next handler takes the
    packet first and as long as the insert index is within the list (the sources never
    initialise it): [arp_read] runs the learning step on the list, and writes one packet stack
    to its own handler that goes back down the handlers of the request, with a response that has
    the own hardware address as sender's and the sender of the request as target.  A write
    that fails gives the code [0xFFFF].  If the index also fits the entries, the sender is
    found from then on. *)
Theorem arp_request_answered `{!Platform} `{!Dispatch} ps i h w q off header hd ap l :
  w_in_stacks w !! ps = Some q →
  (ips_stack_idx q < length (ips_handlers q))%nat →
  (ips_stack_idx q < length (ips_return_args q))%nat →
  ips_packet_pointers q !! ips_stack_idx q = Some (Some off) →
  decode_arp_header_t (drop off (ips_frame q)) = Some header →
  w_handlers w !! h = Some hd → h_priv hd = PrivArp ap → socket_silent w ap →
  arp_learn (ap_resolution_list ap) header true = Some l →
  ah_hdw_type header = ARP_HDW_TYPE_ETHERNET → ah_pro_type header = htons 2048 →
  ah_target_protocol_addr header = if_ipv4_addr i → ah_operation header = ARP_OPERATION_REQUEST →
  let response := arp_response header i in
  (ah_sender_hardware_addr response = if_mac i ∧
   ah_sender_protocol_addr response = if_ipv4_addr i ∧
   ah_target_hardware_addr response = ah_sender_hardware_addr header ∧
   ah_target_protocol_addr response = ah_sender_protocol_addr header ∧
   ah_operation response = htons 2) ∧
  (∃ w', arp_read ps i h w =
      (ok <- op_write h (w_next w) i;; if negb ok then ret (Some 65535) else ret (Some 0)) w' ∧
    w_out_stacks w' !! w_next w = Some
      {| ops_handlers := <[ips_stack_idx q := Some h]> (ips_handlers q);
         ops_args := <[ips_stack_idx q := ArgArp response]> (ips_return_args q);
         ops_out_buffer := {| ob_size := 65535; ob_offset := 65535; ob_data := [] |};
         ops_stack_idx := ips_stack_idx q |} ∧
    w_handlers w' !! h = Some (hd <| h_priv := PrivArp (ap <| ap_resolution_list := l |>) |>)) ∧
  ∀ senders, arp_ages (ap_resolution_list ap) senders →
    arp_resolve l (ah_sender_protocol_addr header) = Some (ah_sender_hardware_addr header).
Proof.
  intros Hq Hl1 Hl2 Hoff Hd Hh Hp Hsk Hl Hhw Hpr Htg Hop response.
  split. { unfold response, arp_response. simpl. by rewrite Htg. }
  set (q1 := q <| ips_handlers := <[ips_stack_idx q := Some h]> (ips_handlers q) |>).
  set (w1 := w <| w_in_stacks ::= <[ps := q1]> |>).
  set (hd' := hd <| h_priv := PrivArp (ap <| ap_resolution_list := l |>) |>).
  set (w2 := w1 <| w_handlers ::= <[h := hd']> |>).
  set (q2 := q1 <| ips_return_args := <[ips_stack_idx q := ArgArp response]> (ips_return_args q) |>).
  set (w3 := w2 <| w_in_stacks ::= <[ps := q2]> |>).
  split; [eexists; split; [|split]|].
  - unfold arp_read. rewrite (bind_load _ _ q) by done. cbv zeta.
    rewrite (bind_need _ _ _ _ _ (set_array_Some _ _ _ Hl1)), (bind_update _ _ _ q) by done.
    change (w <| w_in_stacks ::= <[ps := _]> |>) with w1.
    rewrite (bind_ok _ _ _ _ _ (arp_read_socket_silent h ps _ i w1 hd ap Hh Hp Hsk)).
    erewrite bind_ok; [|by apply packet_at_ok].
    unfold cast. rewrite (bind_need _ _ header) by done. unfold arp_read_packet.
    rewrite Hhw, Hpr, Htg, Hop, !Z.eqb_refl. change (htons 2048 =? ETHERNET_TYPE_IPV6) with true.
    cbn [andb]. cbv zeta. rewrite (bind_load _ _ hd) by done. unfold as_arp_priv.
    rewrite Hp, bind_ret_l, (bind_need _ _ l) by done. rewrite (bind_update _ _ _ hd) by done.
    change (w1 <| w_handlers ::= <[h := _]> |>) with w2.
    rewrite (bind_load _ _ q1) by apply lookup_insert_eq.
    rewrite (bind_need _ _ _ _ _ (set_array_Some _ _ _ Hl2)).
    rewrite (bind_update _ _ _ q1) by apply lookup_insert_eq.
    fold response. match goal with |- bind _ _ ?x = _ => change x with w3 end.
    unfold handler_create_out_package_stack.
    erewrite bind_then by (apply load_ok, lookup_insert_eq).
    erewrite bind_ok by reflexivity. reflexivity.
  - apply lookup_insert_eq.
  - apply lookup_insert_eq.
  - intros senders Hs. destruct (arp_learn_ok _ _ header true Hs) as (l' & Hl' & Hs').
    rewrite Hl in Hl'. injection Hl' as <-. rewrite (ages_resolve _ _ _ Hs'). apply lookup_learned.
Qed.
