(* ===== verification/Llc.v ===== *)
(** * Llc: logical link control

    [handlers/llc/llc.c].  The header has three fields and [aligned(2)], so that its
    size is 4; the fourth byte is never stored. *)

From S2P Require Import Prelude Headers ProtocolMap BlockBuffer State.

Definition LLC_NUM_PROTOCOL_TYPE_ENTRIES : Z := 64.
Definition LLC_UNUMBERED_FORMAT : Z := 17.
Definition sizeof_llc_header_t : nat := 4.

Record llc_header_t := {
  llc_destination_access_service_point : Z;
  llc_source_access_service_point : Z;
  llc_control : Z
}.

Definition decode_llc_header_t (m : list Z) : option llc_header_t :=
  match m with
  | d :: s :: c :: _ :: _ =>
      Some {| llc_destination_access_service_point := d;
              llc_source_access_service_point := s; llc_control := c |}
  | _ => None
  end.

Section Llc.
Context `{!Platform} `{!Dispatch}.

Definition encode_llc_header_t (h : llc_header_t) : list Z :=
  [llc_destination_access_service_point h; llc_source_access_service_point h; llc_control h;
   raw_llc_padding].

Definition as_llc_args (a : write_args) : M world llc_write_args_t :=
  match a with
  | ArgLlc a => ret a
  | ArgNull => fail NullDeref
  | _ => fail TypeConfusion
  end.

Definition llc_write (packet_stack : addr) (interface : interface_t) : M world bool :=
  ps <- load w_out_stacks packet_stack;;
  args <- need OutOfBounds (ops_args ps !! ops_stack_idx ps);;
  if ob_offset (ops_out_buffer ps) <? Z.of_nat sizeof_llc_header_t then ret false
  else
    llc_args <- as_llc_args args;;
    let response_header :=
      {| llc_destination_access_service_point := lwa_destination_access_service_point llc_args;
         llc_source_access_service_point := lwa_source_access_service_point llc_args;
         llc_control := lwa_control llc_args |} in
    update w_out_stacks packet_stack
      (λ ps, ps <| ops_out_buffer ::= push_header (encode_llc_header_t response_header) |>);;;
    write_down packet_stack interface.

(** [GET_FROM_PRIORITY(&llc_type_to_handler, key, struct handler_t)] *)
Definition llc_get_handler (key : Z) : M world (option addr) :=
  w <- get;;
  r <- lift_outcome (get_value (w_llc_map w) key);;
  modify (λ w, w <| w_llc_map := snd r |>);;;
  ret (fst r).

Definition llc_read (packet_stack : addr) (interface : interface_t) (handler : addr)
    : M world (option Z) :=
  ps <- load w_in_stacks packet_stack;;
  let packet_idx := ips_stack_idx ps in
  handlers <- need OutOfBounds (set_array packet_idx (Some handler) (ips_handlers ps));;
  update w_in_stacks packet_stack
    (λ ps, ps <| ips_stack_idx := S packet_idx |> <| ips_handlers := handlers |>);;;
  m <- packet_at ps packet_idx;;
  header <- cast decode_llc_header_t m;;
  if negb (llc_control header =? LLC_UNUMBERED_FORMAT) then ret (Some 1)
  else
    next_handler <- llc_get_handler (llc_control header);;
    match next_handler with
    | Some next_handler =>
        p <- need OutOfBounds (ips_packet_pointers ps !! packet_idx);;
        off <- need NullDeref p;;
        pointers <- need OutOfBounds
          (set_array (S packet_idx) (Some (off + sizeof_llc_header_t)%nat)
             (ips_packet_pointers ps));;
        let llc_response_args :=
          {| lwa_destination_access_service_point := llc_source_access_service_point header;
             lwa_source_access_service_point := llc_destination_access_service_point header;
             lwa_control := llc_control header |} in
        args <- need OutOfBounds
          (set_array packet_idx (ArgLlc llc_response_args) (ips_return_args ps));;
        update w_in_stacks packet_stack
          (λ ps, ps <| ips_packet_pointers := pointers |> <| ips_return_args := args |>);;;
        op_read packet_stack interface next_handler;;;
        ret (Some 0)
    | None => ret (Some 4)
    end.

Definition llc_close_handler (handler : addr) : M world unit := free_priv handler.

Definition llc_init_handler (handler : addr) : M world unit :=
  update w_handlers handler (λ h, h <| h_priv := PrivDummy |>).

Definition llc_create_handler : M world addr :=
  alloc w_handlers {| h_operations := LlcHandler; h_priv := raw_handler_priv |}.
End Llc.

(** ** Properties *)

(** The header in front of the data has four bytes, the last of them undefined, and the
    frame goes on down; without room for it nothing is written. *)
Lemma llc_write_ok `{!Platform} `{!Dispatch} ps i w p a :
  w_out_stacks w !! ps = Some p → ops_args p !! ops_stack_idx p = Some (ArgLlc a) →
  let header := [lwa_destination_access_service_point a; lwa_source_access_service_point a;
                 lwa_control a; raw_llc_padding] in
  llc_write ps i w =
  if ob_offset (ops_out_buffer p) <? 4 then Ok (false, w)
  else write_down ps i
         (w <| w_out_stacks ::= <[ps := p <| ops_out_buffer ::= push_header header |>]> |>).
Proof.
  intros Hp Ha header. unfold llc_write. rewrite (bind_load _ _ p) by done.
  rewrite (bind_need _ _ _ _ _ Ha). change (Z.of_nat sizeof_llc_header_t) with 4.
  destruct (ob_offset (ops_out_buffer p) <? 4); [done|]. cbn [as_llc_args]. rewrite bind_ret_l.
  by rewrite (bind_update _ _ _ p).
Qed.

(** Only unnumbered frames are read.  The control field, which is then 17, is also the key
    under which the next handler is looked up: the service access points choose nothing,
    they are only exchanged for the answer. *)
Lemma llc_read_ok `{!Dispatch} ps i h w p off d s c pad data r map' :
  w_in_stacks w !! ps = Some p → (ips_stack_idx p < length (ips_handlers p))%nat →
  ips_packet_pointers p !! ips_stack_idx p = Some (Some off) →
  (S (ips_stack_idx p) < length (ips_packet_pointers p))%nat →
  (ips_stack_idx p < length (ips_return_args p))%nat →
  drop off (ips_frame p) = d :: s :: c :: pad :: data →
  get_value (w_llc_map w) LLC_UNUMBERED_FORMAT = Ok (r, map') →
  let p' := p <| ips_stack_idx := S (ips_stack_idx p) |>
              <| ips_handlers := <[ips_stack_idx p := Some h]> (ips_handlers p) |> in
  llc_read ps i h w =
  if negb (c =? 17) then Ok (Some 1, w <| w_in_stacks ::= <[ps := p']> |>)
  else match r with
  | None => Ok (Some 4, w <| w_in_stacks ::= <[ps := p']> |> <| w_llc_map := map' |>)
  | Some next =>
      (op_read ps i next;;; ret (Some 0))
        (w <| w_llc_map := map' |>
           <| w_in_stacks ::= <[ps := p'
                <| ips_packet_pointers ::= <[S (ips_stack_idx p) := Some (off + 4)%nat]> |>
                <| ips_return_args ::= <[ips_stack_idx p := ArgLlc
                     {| lwa_destination_access_service_point := s;
                        lwa_source_access_service_point := d;
                        lwa_control := c |}]> |>]> |>)
  end.
Proof.
  intros Hp Hh Hoff Hl1 Hl2 Hd Hr p'. unfold llc_read. rewrite (bind_load _ _ p) by done. cbv zeta.
  rewrite (bind_need _ _ _ _ _ (set_array_Some _ _ _ Hh)), (bind_update _ _ _ p) by done.
  erewrite bind_ok; [|by apply packet_at_ok]. rewrite Hd. unfold cast.
  erewrite bind_need by done. cbn [llc_control]. change LLC_UNUMBERED_FORMAT with 17.
  destruct (Z.eqb_spec c 17) as [-> |]; [|done]. cbn [negb]. unfold llc_get_handler.
  rewrite bind_assoc, bind_get, bind_assoc, (bind_lift _ (r, map')) by done.
  rewrite bind_assoc, bind_modify, bind_ret_l. cbn [fst snd]. destruct r as [next|]; [|done].
  rewrite (bind_need _ _ _ _ _ Hoff). cbn [need]. rewrite bind_ret_l.
  rewrite (bind_need _ _ _ _ _ (set_array_Some _ _ _ Hl1)).
  rewrite (bind_need _ _ _ _ _ (set_array_Some _ _ _ Hl2)).
  rewrite (bind_update _ _ _ p') by apply lookup_insert_eq.
  unfold set_field. simpl. by rewrite insert_insert_eq.
Qed.
