(* ===== verification/Custom.v ===== *)
(** * Custom: the handler that answers with predefined data

    [handlers/custom/custom.c]. *)

From S2P Require Import Prelude Headers ProtocolMap BlockBuffer State.

Section Custom.
Context `{!Platform} `{!Dispatch}.

Definition as_custom_priv (h : handler_t) : M world custom_priv_t :=
  match h_priv h with
  | PrivCustom p => ret p
  | PrivNone => fail NullDeref
  | PrivFreed => fail Dangling
  | _ => fail TypeConfusion
  end.

Definition custom_close_handler (handler : addr) : M world unit := free_priv handler.

Definition custom_init_handler (handler : addr) : M world unit :=
  update w_handlers handler
    (λ h, h <| h_priv := PrivCustom {| cp_response_buffer := []; cp_response_length := 0 |} |>).

Definition custom_write (packet_stack : addr) (interface : interface_t) : M world bool :=
  ps <- load w_out_stacks packet_stack;;
  self <- need OutOfBounds (ops_handlers ps !! ops_stack_idx ps);;
  self <- need NullDeref self;;
  h <- load w_handlers self;;
  private <- as_custom_priv h;;
  let response_length := cp_response_length private in
  if ob_offset (ops_out_buffer ps) <? response_length then ret false
  else if Z.of_nat (length (cp_response_buffer private)) <? response_length then fail OutOfBounds
  else
    update w_out_stacks packet_stack
      (λ ps, ps <| ops_out_buffer ::=
         push_header (take (Z.to_nat response_length) (cp_response_buffer private)) |>);;;
    write_down packet_stack interface.

Definition custom_read (packet_stack : addr) (interface : interface_t) (handler : addr)
    : M world (option Z) :=
  ps <- load w_in_stacks packet_stack;;
  handlers <- need OutOfBounds (set_array (ips_stack_idx ps) (Some handler) (ips_handlers ps));;
  update w_in_stacks packet_stack (λ ps, ps <| ips_handlers := handlers |>);;;
  out_package_stack <- alloc w_out_stacks
    {| ops_handlers := handlers;
       ops_args := ips_return_args ps;
       ops_out_buffer :=
         {| ob_size := DEFAULT_PACKAGE_BUFFER_SIZE; ob_offset := DEFAULT_PACKAGE_BUFFER_SIZE;
            ob_data := [] |};
       ops_stack_idx := ips_stack_idx ps |};;
  op_write handler out_package_stack interface;;;
  ret None.

Definition custom_set_response (handler : addr) (response_buffer : list Z)
    (response_length : Z) : M world unit :=
  h <- load w_handlers handler;;
  private <- as_custom_priv h;;
  update w_handlers handler
    (λ h, h <| h_priv := PrivCustom
      {| cp_response_buffer := response_buffer; cp_response_length := response_length |} |>).

Definition custom_create_handler : M world addr :=
  alloc w_handlers {| h_operations := CustomHandler; h_priv := raw_handler_priv |}.
End Custom.

(** ** Properties *)

(** The handler whose answer is written is the one recorded in the packet stack, not the
    one the call goes to; an answer that does not fit is not written. *)
Lemma custom_write_ok `{!Dispatch} ps i w p self h c :
  w_out_stacks w !! ps = Some p → ops_handlers p !! ops_stack_idx p = Some (Some self) →
  w_handlers w !! self = Some h → h_priv h = PrivCustom c →
  cp_response_length c <= Z.of_nat (length (cp_response_buffer c)) →
  let response := take (Z.to_nat (cp_response_length c)) (cp_response_buffer c) in
  custom_write ps i w =
  if ob_offset (ops_out_buffer p) <? cp_response_length c then Ok (false, w)
  else write_down ps i
         (w <| w_out_stacks ::= <[ps := p <| ops_out_buffer ::= push_header response |>]> |>).
Proof.
  intros Hp Hself Hh Hc Hlen response. unfold custom_write. rewrite (bind_load _ _ p) by done.
  rewrite (bind_need _ _ _ _ _ Hself). cbn [need]. rewrite bind_ret_l.
  rewrite (bind_load _ _ h) by done. unfold as_custom_priv. rewrite Hc, bind_ret_l. cbv zeta.
  destruct (ob_offset (ops_out_buffer p) <? cp_response_length c); [done|].
  destruct (Z.ltb_spec (Z.of_nat (length (cp_response_buffer c))) (cp_response_length c)); [lia|].
  by rewrite (bind_update _ _ _ p).
Qed.

(** A packet that arrives is answered at once: a new packet stack with an empty buffer and
    the handlers and arguments the packet came up through is given to [write].  The
    index of the packet stack is not moved on. *)
Lemma custom_read_ok `{!Dispatch} ps i h w p :
  w_in_stacks w !! ps = Some p → (ips_stack_idx p < length (ips_handlers p))%nat →
  let handlers := <[ips_stack_idx p := Some h]> (ips_handlers p) in
  custom_read ps i h w =
  (op_write h (w_next w) i;;; ret None)
    (w <| w_in_stacks ::= <[ps := p <| ips_handlers := handlers |>]> |>
       <| w_out_stacks ::= <[w_next w :=
            {| ops_handlers := handlers; ops_args := ips_return_args p;
               ops_out_buffer := {| ob_size := DEFAULT_PACKAGE_BUFFER_SIZE;
                                    ob_offset := DEFAULT_PACKAGE_BUFFER_SIZE; ob_data := [] |};
               ops_stack_idx := ips_stack_idx p |}]> |>
       <| w_next := S (w_next w) |>).
Proof.
  intros Hp Hh handlers. unfold custom_read. rewrite (bind_load _ _ p) by done.
  rewrite (bind_need _ _ _ _ _ (set_array_Some _ _ _ Hh)), (bind_update _ _ _ p) by done.
  done.
Qed.
