(* ===== verification/Stack.v ===== *)
(** * Stack: the handlers tied together

    [net_stack.c] and the loop body of [worker.c].  A handler calls the next one
    through a function pointer; [dispatch] resolves these calls by the kind of the
    handler, with a bound on their depth. *)

From S2P Require Import Prelude Headers ProtocolMap BlockBuffer State.
From S2P Require Import Ethernet Ipv4 TcpShared TcpSocket TcpStates Tcp Arp Llc Custom.

Section Stack.
Context `{!Platform}.

(** [handler->operations.write] and [handler->operations.read] *)
Definition write_operation (d : Dispatch) (kind : handler_kind)
    : addr → interface_t → M world bool :=
  match kind with
  | EthernetHandler => ethernet_write
  | ArpHandler => arp_write
  | Ipv4Handler => ipv4_write
  | TcpHandler => tcp_write
  | LlcHandler => llc_write
  | CustomHandler => custom_write
  end.
Definition read_operation (d : Dispatch) (kind : handler_kind)
    : addr → interface_t → addr → M world (option Z) :=
  match kind with
  | EthernetHandler => ethernet_read
  | ArpHandler => arp_read
  | Ipv4Handler => ipv4_read
  | TcpHandler => tcp_read
  | LlcHandler => llc_read
  | CustomHandler => custom_read
  end.

(** [handler->close] *)
Definition close_operation (kind : handler_kind) : addr → M world unit :=
  match kind with
  | EthernetHandler => ethernet_close_handler
  | ArpHandler => arp_close_handler
  | Ipv4Handler => ipv4_close_handler
  | TcpHandler => tcp_close_handler
  | LlcHandler => llc_close_handler
  | CustomHandler => custom_close_handler
  end.
Definition close_handler (handler : addr) : M world unit :=
  h <- load w_handlers handler;; close_operation (h_operations h) handler.

(** The calls through function pointers, nested at most [fuel] deep. *)
Fixpoint dispatch (fuel : nat) : Dispatch :=
  match fuel with
  | O => {| op_write _ _ _ := no_fuel; op_read _ _ _ := no_fuel |}
  | S fuel =>
      {| op_write handler packet_stack interface :=
           h <- load w_handlers handler;;
           write_operation (dispatch fuel) (h_operations h) packet_stack interface;
         op_read packet_stack interface handler :=
           h <- load w_handlers handler;;
           read_operation (dispatch fuel) (h_operations h) packet_stack interface handler |}
  end.

Record net_stack_app := {
  arp_handler : addr;
  ipv4_handler : addr;
  tcp_handler : addr;
  ethernet_handler : addr;
  root_handlers : list addr;
  app_interface : interface_t
}.

Definition net_stack_init (interface : interface_t) : M world net_stack_app :=
  ethernet <- ethernet_create_handler;;
  arp <- arp_create_handler;;
  arp_init_handler arp;;;
  ipv4 <- ipv4_create_handler;;
  ipv4_init_handler ipv4;;;
  tcp <- tcp_create_handler;;
  tcp_init_handler tcp (Some 4096);;;
  ret {| arp_handler := arp; ipv4_handler := ipv4; tcp_handler := tcp;
         ethernet_handler := ethernet; root_handlers := [ethernet];
         app_interface := interface |}.

(** [packet_stack] of [consume_tasks]: all other fields are zero. *)
Definition new_packet_stack (frame : list Z) : in_packet_stack_t :=
  {| ips_handlers := replicate STACK_DEPTH None;
     ips_return_args := replicate STACK_DEPTH ArgNull;
     ips_packet_pointers := Some O :: replicate (pred STACK_DEPTH) None;
     ips_frame := frame;
     ips_stack_idx := O |}.

(** The inner loop of [consume_tasks] for one dequeued packet: a root handler reads it,
    from a packet stack that lives for that call, and [free_packet] ends the life of the
    packet, which a second root handler would read again. *)
Definition consume_packet (d : Dispatch) (handlers : list addr) (frame : list Z)
    (interface : interface_t) : M world unit :=
  match handlers with
  | [] => ret tt
  | handler :: handlers =>
      packet_stack <- alloc w_in_stacks (new_packet_stack frame);;
      op_read packet_stack interface handler;;;
      free w_in_stacks packet_stack;;;
      match handlers with [] => ret tt | _ :: _ => fail Dangling end
  end.
End Stack.

(** The memory before [net_stack_init]: the tables of statically allocated entries. *)
Definition initial_world : world :=
  {| w_handlers := ∅; w_in_stacks := ∅; w_out_stacks := ∅; w_tcbs := ∅; w_sockets := ∅;
     w_client_args := ∅; w_arp_sockets := ∅;
     w_ethernet_map := empty_priority_map ETHERNET_NUM_ETH_TYPE_ENTRIES;
     w_ip_map := empty_priority_map IP_NUM_PROTOCOL_TYPE_ENTRIES;
     w_llc_map := empty_priority_map LLC_NUM_PROTOCOL_TYPE_ENTRIES;
     w_x := 500; w_next := 1; w_wire := []; w_calls := [] |}.

(** ** Properties of the initialised stack *)

Section Initialised.
Context `{!Platform}.

(** [net_stack_init] from the memory at program start. *)
Lemma net_stack_init_ok i :
  ∃ w, net_stack_init i initial_world = Ok
    ({| arp_handler := 2; ipv4_handler := 3; tcp_handler := 4; ethernet_handler := 1;
        root_handlers := [1%nat]; app_interface := i |}, w) ∧
  (h_operations <$> w_handlers w !! 1%nat) = Some EthernetHandler ∧
  (h_operations <$> w_handlers w !! 2%nat) = Some ArpHandler ∧
  (h_operations <$> w_handlers w !! 3%nat) = Some Ipv4Handler ∧
  (h_operations <$> w_handlers w !! 4%nat) = Some TcpHandler ∧
  w_ethernet_map w = snd (add_value (snd (add_value
    (empty_priority_map ETHERNET_NUM_ETH_TYPE_ENTRIES) (htons ETHERNET_TYPE_ARP) (Some 2%nat)))
    (htons ETHERNET_TYPE_IPV4) (Some 3%nat)) ∧
  w_in_stacks w = ∅ ∧ w_next w = 5%nat.
Proof. eexists. split; [vm_compute; reflexivity|]. vm_compute. by split_and!. Qed.

(** The first lookup of the IPv4 type. *)
Lemma first_ipv4_lookup :
  ∃ map', get_value (snd (add_value (snd (add_value
    (empty_priority_map ETHERNET_NUM_ETH_TYPE_ENTRIES) (htons ETHERNET_TYPE_ARP) (Some 2%nat)))
    (htons ETHERNET_TYPE_IPV4) (Some 3%nat))) 8 = Ok (Some 2%nat, map').
Proof. eexists. vm_compute. reflexivity. Qed.
End Initialised.

(** ** Calls through the handlers *)

Section Calls.
Context `{!Platform}.

(** A call through an operation, one level down. *)
Lemma op_write_dispatch n h ps i w hd :
  w_handlers w !! h = Some hd →
  op_write (Dispatch := dispatch (S n)) h ps i w =
  write_operation (dispatch n) (h_operations hd) ps i w.
Proof. intros Hh. cbn [dispatch op_write]. by rewrite (bind_load _ _ hd). Qed.

Lemma op_read_dispatch n h ps i w hd :
  w_handlers w !! h = Some hd →
  op_read (Dispatch := dispatch (S n)) ps i h w =
  read_operation (dispatch n) (h_operations hd) ps i h w.
Proof. intros Hh. cbn [dispatch op_read]. by rewrite (bind_load _ _ hd). Qed.

(** The answer of the custom handler, through the LLC handler below it. *)
Lemma llc_custom_writes n out i l custom w q a hl hc c :
  w_handlers w !! l = Some hl → h_operations hl = LlcHandler →
  w_handlers w !! custom = Some hc → h_priv hc = PrivCustom c →
  0 <= cp_response_length c <= Z.of_nat (length (cp_response_buffer c)) →
  cp_response_length c + 4 <= ob_offset (ops_out_buffer q) →
  w_out_stacks w !! out = Some q → ops_stack_idx q = 1%nat →
  ops_handlers q !! 0%nat = Some (Some l) → ops_handlers q !! 1%nat = Some (Some custom) →
  ops_args q !! 0%nat = Some (ArgLlc a) →
  ∃ w', custom_write (H0 := dispatch (S n)) out i w = Ok (true, w') ∧
    w_wire w' = w_wire w ++
      [[lwa_destination_access_service_point a; lwa_source_access_service_point a;
        lwa_control a; raw_llc_padding]
       ++ take (Z.to_nat (cp_response_length c)) (cp_response_buffer c)
       ++ ob_data (ops_out_buffer q)].
Proof.
  intros Hl Hlk Hc Hp Hlen Hroom Hq Hi Hh0 Hh1 Ha. eexists. split; [|shelve].
  rewrite (custom_write_ok out i w q custom hc c) by (rewrite ?Hi; done || lia).
  rewrite (proj2 (Z.ltb_ge _ _)) by lia.
  erewrite (write_down_next out i _ _ 0%nat l); [|apply lookup_insert_eq|done..].
  rewrite (op_write_dispatch n l out i _ hl) by done. rewrite Hlk. cbn [write_operation].
  erewrite llc_write_ok; [|apply lookup_insert_eq|exact Ha]. cbv zeta.
  set (response := take _ (cp_response_buffer c)).
  assert (length response = Z.to_nat (cp_response_length c)) as Hn by (apply length_take_le; lia).
  rewrite (proj2 (Z.ltb_ge _ _)) by (simpl; rewrite Hn; lia).
  erewrite write_down_bottom; [reflexivity|apply lookup_insert_eq|done].
  Unshelve. simpl. done.
Qed.

(** The custom handler above the LLC handler: an unnumbered frame is answered with the
    predefined data, behind a header whose service access points are those of the frame
    exchanged. *)
Lemma llc_custom_answers n ps i l custom w p off d s pad data hl hc c map' :
  w_handlers w !! l = Some hl → h_operations hl = LlcHandler →
  w_handlers w !! custom = Some hc → h_operations hc = CustomHandler → h_priv hc = PrivCustom c →
  0 <= cp_response_length c <= Z.of_nat (length (cp_response_buffer c)) →
  cp_response_length c + 4 <= DEFAULT_PACKAGE_BUFFER_SIZE →
  w_in_stacks w !! ps = Some p → ips_stack_idx p = O →
  (1 < length (ips_handlers p))%nat → (0 < length (ips_return_args p))%nat →
  (1 < length (ips_packet_pointers p))%nat →
  ips_packet_pointers p !! O = Some (Some off) →
  drop off (ips_frame p) = d :: s :: LLC_UNUMBERED_FORMAT :: pad :: data →
  get_value (w_llc_map w) LLC_UNUMBERED_FORMAT = Ok (Some custom, map') →
  ∃ w', llc_read (H0 := dispatch (S (S (S n)))) ps i l w = Ok (Some 0, w') ∧
    w_wire w' = w_wire w ++
      [[s; d; LLC_UNUMBERED_FORMAT; raw_llc_padding]
       ++ take (Z.to_nat (cp_response_length c)) (cp_response_buffer c)].
Proof.
  intros Hl Hlk Hc Hck Hp Hlen Hroom Hps Hi Hh Hr Hpp Hoff Hd Hm.
  rewrite (llc_read_ok ps i l w p off d s LLC_UNUMBERED_FORMAT pad data (Some custom) map')
    by (rewrite ?Hi; done || lia).
  cbv zeta. change (negb (LLC_UNUMBERED_FORMAT =? 17)) with false. rewrite Hi.
  set (w1 := w <| w_llc_map := map' |> <| w_in_stacks ::= _ |>).
  set (q := <[_ := _]> (ips_handlers p)) in w1.
  match goal with w1 := context [<[ps := ?x]>] |- _ => set (p1 := x) in w1 end.
  set (w2 := w1 <| w_in_stacks ::= <[ps := p1 <| ips_handlers :=
    <[1%nat := Some custom]> (ips_handlers p1) |>]> |>
    <| w_out_stacks ::= <[w_next w1 := {|
       ops_handlers := <[1%nat := Some custom]> (ips_handlers p1);
       ops_args := ips_return_args p1;
       ops_out_buffer := {| ob_size := DEFAULT_PACKAGE_BUFFER_SIZE;
                            ob_offset := DEFAULT_PACKAGE_BUFFER_SIZE; ob_data := [] |};
       ops_stack_idx := 1%nat |}]> |> <| w_next := S (w_next w1) |>).
  assert (h1 : ips_handlers p1 = <[0%nat := Some l]> (ips_handlers p)) by done.
  assert (h2 : (1 < length (ips_handlers p1))%nat) by (rewrite h1, length_insert; lia).
  edestruct (llc_custom_writes n (w_next w1) i l custom w2) as (w' & Hw & Hwire);
    [exact Hl|exact Hlk|exact Hc|exact Hp|exact Hlen| |apply lookup_insert_eq|done| | | |].
  - exact Hroom.
  - cbn [ops_handlers]. rewrite list_lookup_insert_ne, h1 by done. by apply list_lookup_insert_eq; lia.
  - cbn [ops_handlers]. by apply list_lookup_insert_eq.
  - apply list_lookup_insert_eq. simpl. lia.
  - exists w'. split; [|rewrite Hwire; by rewrite app_nil_r].
    rewrite (bind_eq _ _ _ _ _ (op_read_dispatch _ custom ps i w1 hc Hc)), Hck. cbn [read_operation].
    rewrite (bind_eq _ _ _ w1 _ (custom_read_ok ps i custom w1 p1 (lookup_insert_eq _ _ _) h2)).
    rewrite bind_assoc. change (ips_stack_idx p1) with 1%nat. fold w2.
    rewrite (bind_eq _ _ _ _ _ (op_write_dispatch _ custom (w_next w1) i w2 hc Hc)), Hck.
    cbn [write_operation]. by rewrite (bind_ok _ _ _ _ _ Hw).
Qed.
End Calls.

(** C27: a lookup that moves an entry forward returns the handler it overtook.  In the stack
    as [net_stack_init] links it, the first IPv4 frame that is received is therefore
    read by the ARP handler, not by the IPv4 handler, whatever its content, unless an ARP frame
    came before and was counted. *)
Theorem first_ipv4_frame_to_arp `{!Platform} n i app w frame header :
  net_stack_init i initial_world = Ok (app, w) →
  decode_ethernet_header_t frame = Some header →
  eth_ethernet_type header = htons ETHERNET_TYPE_IPV4 →
  arp_handler app ≠ ipv4_handler app ∧
  h_operations <$> w_handlers w !! arp_handler app = Some ArpHandler ∧
  ∃ w', consume_packet (dispatch (S n)) (root_handlers app) frame i w =
    (op_read (Dispatch := dispatch n) (w_next w) i (arp_handler app);;;
     free w_in_stacks (w_next w);;; ret tt) w'.
Proof.
  intros Hinit Hd Ht.
  destruct (net_stack_init_ok i) as (w0 & H0 & He & Ha & _ & _ & Hm & Hin & Hn).
  rewrite H0 in Hinit. simplify_eq. cbn [arp_handler ipv4_handler root_handlers].
  split; [done|]. split; [done|]. destruct (first_ipv4_lookup) as [map' Hl].
  destruct (w_handlers w !! 1%nat) as [he|] eqn:Hhe; [|done]. injection He as He.
  set (w2 := (w <| w_in_stacks ::= <[w_next w := new_packet_stack frame]> |>) <| w_next := S (w_next w) |>).
  assert (∃ w3, op_read (Dispatch := dispatch (S n)) (w_next w) i 1%nat w2 =
    (op_read (Dispatch := dispatch n) (w_next w) i 2%nat;;; ret None) w3) as [w3 Hw3].
  { cbn [dispatch op_read]. rewrite (bind_load _ _ he) by done. rewrite He. cbn [read_operation].
    rewrite (ethernet_read_ok (w_next w) i 1%nat w2 (new_packet_stack frame) 0 header 8 0 (Some 2%nat) map');
      try done; try (simpl; lia); [by eexists|apply lookup_insert_eq|].
    change (w_ethernet_map w2) with (w_ethernet_map w). by rewrite Hm. }
  exists w3. cbn [consume_packet]. erewrite bind_ok; [|reflexivity]. fold w2.
  rewrite (bind_eq _ _ _ _ _ Hw3), bind_assoc. reflexivity.
Qed.
