(* ===== verification/Dhcp.v ===== *)
(** * Dhcp: the option parser and the checks of a received message

    [handlers/dhcp/dhcp.c].  [parse_options] is complete; [handle_reply] is unfinished (it is
    not C) and a parameter of [dhcp_read]; [dhcp_write] has an empty body. *)

From S2P Require Import Prelude State Stack.

Definition DHCP_OPCODE_BOOTREQUEST : Z := 1.
Definition DHCP_OPCODE_BOOTREPLY : Z := 2.
Definition DHCP_HTYPE_ETHERNET : Z := 1.
Definition DHCP_HLEN_ETHERNET : Z := 6.
Definition DHCP_OPTION_MESSAGE_TYPE : Z := 53.
Definition DHCP_OPTION_REQUESTED_IP : Z := 50.
Definition DHCP_OPTION_SERVER_IDENTIFIER : Z := 54.
Definition DHCP_OPTION_PARAMETER_REQUEST_LIST : Z := 55.
Definition DHCP_OPTION_END : Z := 255.
Definition DHCP_MAX_OPTIONS_SIZE : Z := 312.

(** The fields the parser sets; a pointer is an offset into the options. *)
Record dhcp_options := {
  dhcp_message_type : option Z;
  requested_ip : option Z;
  server_identifier : option Z;
  parameter_request_list : option Z;
  option_end : option Z
}.
#[export] Instance eta_dhcp_options : Eta dhcp_options := λ r,
  Build_dhcp_options (dhcp_message_type r) (requested_ip r) (server_identifier r)
    (parameter_request_list r) (option_end r).

(** [options[idx]] *)
Definition option_byte (options : list Z) (idx : Z) : outcome Z :=
  from_option_fault OutOfBounds (options !! Z.to_nat idx).

(** The [switch] on the type. *)
Definition store_option (option_type idx : Z) (o : dhcp_options) : dhcp_options :=
  if option_type =? DHCP_OPTION_MESSAGE_TYPE then o <| dhcp_message_type := Some idx |>
  else if option_type =? DHCP_OPTION_REQUESTED_IP then o <| requested_ip := Some idx |>
  else if option_type =? DHCP_OPTION_SERVER_IDENTIFIER then o <| server_identifier := Some idx |>
  else if option_type =? DHCP_OPTION_PARAMETER_REQUEST_LIST then o <| parameter_request_list := Some idx |>
  else o.

Fixpoint parse_options_loop (fuel : nat) (options : list Z) (idx : Z) (o : dhcp_options)
    : outcome dhcp_options :=
  match fuel with
  | O => OutOfFuel
  | S fuel =>
      if idx <? DHCP_MAX_OPTIONS_SIZE then
        option_type ← option_byte options idx;
        if option_type =? DHCP_OPTION_END then Ok (o <| option_end := Some idx |>)
        else
          let o := store_option option_type idx o in
          length ← option_byte options (idx + 1);
          if length =? 0 then Ok o
          else parse_options_loop fuel options (u16 (idx + (2 + length))) o
      else Ok o
  end.

(** Every round moves at least three bytes forward. *)
Definition parse_fuel : nat := 104.
Definition parse_options (options : list Z) (o : dhcp_options) : outcome dhcp_options :=
  parse_options_loop parse_fuel options 4 o.

Section Read.
Context (handle_reply : list Z → M world (option Z)).

Definition dhcp_read (packet_stack : addr) (interface : interface_t) (handler : addr)
    : M world (option Z) :=
  ps <- load w_in_stacks packet_stack;;
  let packet_idx := ips_stack_idx ps in
  handlers <- need OutOfBounds (set_array packet_idx (Some handler) (ips_handlers ps));;
  update w_in_stacks packet_stack
    (λ ps, ps <| ips_stack_idx ::= S |> <| ips_handlers := handlers |>);;;
  packet <- packet_at ps packet_idx;;
  htype <- need OutOfBounds (packet !! 1%nat);;
  if negb (htype =? DHCP_HTYPE_ETHERNET) then ret (Some 1)
  else
    hlen <- need OutOfBounds (packet !! 2%nat);;
    if negb (hlen =? DHCP_HLEN_ETHERNET) then ret (Some 2)
    else
      op <- need OutOfBounds (packet !! 0%nat);;
      if negb (op =? DHCP_OPCODE_BOOTREQUEST) then ret (Some 0)
      else if negb (op =? DHCP_OPCODE_BOOTREPLY) then handle_reply packet
      else ret (Some 3).
End Read.

(** ** The options of a message as they are specified (RFC 2132) *)

Record tlv := { tlv_type : Z; tlv_value : list Z }.

(** A type with its length and its value, and what the parser can take. *)
Definition encode_tlv (t : tlv) : list Z :=
  tlv_type t :: Z.of_nat (length (tlv_value t)) :: tlv_value t.
Definition encode_options (cookie : list Z) (l : list tlv) (rest : list Z) : list Z :=
  cookie ++ concat (map encode_tlv l) ++ DHCP_OPTION_END :: rest.
Definition tlv_ok (t : tlv) : Prop :=
  is_u8 (tlv_type t) ∧ tlv_type t ≠ DHCP_OPTION_END ∧ (0 < length (tlv_value t) < 256)%nat.

Definition options_size (l : list tlv) : Z := Z.of_nat (length (concat (map encode_tlv l))).

(** Where the [k]th option of a message starts: behind the cookie and the options before. *)
Definition option_position (l : list tlv) (k : nat) : Z := 4 + options_size (take k l).

(** A pointer to the last option of a type, at its place in the message; without one it
    keeps its value. *)
Definition last_of_type (message : list Z) (l : list tlv) (type : Z) (old new : option Z) : Prop :=
  (∃ k t, l !! k = Some t ∧ tlv_type t = type ∧
     (∀ j u, (k < j)%nat → l !! j = Some u → tlv_type u ≠ type) ∧
     new = Some (option_position l k) ∧
     take (length (encode_tlv t)) (drop (Z.to_nat (option_position l k)) message) = encode_tlv t) ∨
  (Forall (λ t, tlv_type t ≠ type) l ∧ new = old).

(** The options the loop stores one after the other. *)
Fixpoint store_options (idx : Z) (l : list tlv) (o : dhcp_options) : dhcp_options :=
  match l with
  | [] => o
  | t :: l => store_options (idx + 2 + Z.of_nat (length (tlv_value t))) l (store_option (tlv_type t) idx o)
  end.

Section Parser.
Lemma option_byte_app l x k idx : idx = Z.of_nat (length l) → option_byte (l ++ x :: k) idx = Ok x.
Proof.
  intros ->. unfold option_byte. rewrite Nat2Z.id, lookup_app_r, Nat.sub_diag by done. done.
Qed.

Lemma length_encode_tlv t : length (encode_tlv t) = (2 + length (tlv_value t))%nat.
Proof. done. Qed.

Lemma options_size_cons t l : options_size (t :: l) = 2 + Z.of_nat (length (tlv_value t)) + options_size l.
Proof. unfold options_size. cbn [map concat]. rewrite length_app, length_encode_tlv. lia. Qed.

(** Within its bounds the loop follows the encoding, whatever comes behind it. *)
Lemma parse_loop_options fuel before l tail idx o :
  Forall tlv_ok l → idx = Z.of_nat (length before) → idx + options_size l <= DHCP_MAX_OPTIONS_SIZE →
  parse_options_loop (length l + fuel) (before ++ concat (map encode_tlv l) ++ tail) idx o =
  parse_options_loop fuel (before ++ concat (map encode_tlv l) ++ tail) (idx + options_size l)
    (store_options idx l o).
Proof.
  revert before idx o. induction l as [|t l IH]; intros before idx o Hok Hidx Hlen.
  { unfold options_size. simpl. by rewrite Z.add_0_r. }
  apply Forall_cons in Hok as [(Hu & Hne & Hv) Hok]. rewrite options_size_cons in *.
  assert (0 <= options_size l) by (unfold options_size; lia).
  cbn [length Nat.add parse_options_loop map concat store_options].
  destruct (Z.ltb_spec idx DHCP_MAX_OPTIONS_SIZE); [|lia].
  rewrite <- (app_assoc (encode_tlv t)).
  set (mem := before ++ _).
  assert (mem = (before ++ encode_tlv t) ++ concat (map encode_tlv l) ++ tail) as Hmem
    by (unfold mem; by rewrite <- app_assoc).
  assert (option_byte mem idx = Ok (tlv_type t)) as ->
    by (unfold mem, encode_tlv; rewrite <- app_comm_cons; by apply option_byte_app).
  cbn [mbind outcome_bind]. destruct (Z.eqb_spec (tlv_type t) DHCP_OPTION_END); [done|]. cbv zeta.
  assert (option_byte mem (idx + 1) = Ok (Z.of_nat (length (tlv_value t)))) as ->.
  { replace mem with ((before ++ [tlv_type t]) ++ Z.of_nat (length (tlv_value t)) ::
      (tlv_value t ++ concat (map encode_tlv l) ++ tail)) by (unfold mem; by rewrite <- app_assoc).
    apply option_byte_app. rewrite length_app. simpl. lia. }
  cbn [mbind outcome_bind]. destruct (Z.eqb_spec (Z.of_nat (length (tlv_value t))) 0); [lia|].
  replace (u16 _) with (idx + 2 + Z.of_nat (length (tlv_value t)))
    by (unfold DHCP_MAX_OPTIONS_SIZE, u16 in *; rewrite Z.mod_small; lia).
  rewrite Hmem, IH; [|done|rewrite length_app, length_encode_tlv; lia|lia]. f_equal. lia.
Qed.

(** Every option takes at least three bytes. *)
Lemma length_options l : Forall tlv_ok l → 3 * Z.of_nat (length l) <= options_size l.
Proof.
  induction 1 as [|t l (_ & _ & Hv) _ IH]; [done|]. rewrite options_size_cons. cbn [length]. lia.
Qed.

(** The parser behind some options that fit the field. *)
Lemma parse_options_behind cookie l tail o :
  length cookie = 4%nat → Forall tlv_ok l → 4 + options_size l <= DHCP_MAX_OPTIONS_SIZE →
  ∃ fuel, (0 < fuel)%nat ∧
    parse_options (cookie ++ concat (map encode_tlv l) ++ tail) o =
    parse_options_loop fuel (cookie ++ concat (map encode_tlv l) ++ tail) (4 + options_size l)
      (store_options 4 l o).
Proof.
  intros Hc Hok Hlen. pose proof (length_options l Hok).
  exists (parse_fuel - length l)%nat. unfold DHCP_MAX_OPTIONS_SIZE, parse_fuel in *. split; [lia|].
  unfold parse_options, parse_fuel. rewrite <- parse_loop_options; [f_equal; lia|done|by rewrite Hc|done].
Qed.

(** The bytes behind the options. *)
Lemma option_byte_behind (cookie : list Z) l tail k x :
  length cookie = 4%nat → tail !! k = Some x →
  option_byte (cookie ++ concat (map encode_tlv l) ++ tail) (4 + options_size l + Z.of_nat k) = Ok x.
Proof.
  intros Hc Hx. unfold option_byte, options_size. rewrite app_assoc, lookup_app_r by (rewrite length_app; lia).
  rewrite length_app. replace (_ - _)%nat with k by lia. by rewrite Hx.
Qed.

Lemma option_byte_ok options idx :
  bytes_ok options → 0 <= idx < Z.of_nat (length options) →
  ∃ b, option_byte options idx = Ok b ∧ is_u8 b.
Proof.
  intros Hb Hi. unfold option_byte.
  destruct (lookup_lt_is_Some_2 options (Z.to_nat idx)) as [b E]; [lia|]. rewrite E.
  exists b. split; [done|]. by eapply Forall_lookup_1 in Hb.
Qed.

Lemma parse_loop_total fuel options idx o :
  bytes_ok options → 0 <= idx → DHCP_MAX_OPTIONS_SIZE < Z.of_nat (length options) →
  DHCP_MAX_OPTIONS_SIZE - idx < 3 * Z.of_nat fuel →
  ∃ o', parse_options_loop (S fuel) options idx o = Ok o'.
Proof.
  intros Hb. revert idx o. induction fuel as [|fuel IH]; intros idx o Hidx Hlen Hf;
    cbn [parse_options_loop]; fold parse_options_loop;
    (destruct (Z.ltb_spec idx DHCP_MAX_OPTIONS_SIZE) as [Hlt|]; [|by eexists]); [lia|].
  destruct (option_byte_ok options idx Hb) as (t & -> & Ht); [lia|]. cbn [mbind outcome_bind].
  destruct (t =? DHCP_OPTION_END); [by eexists|].
  destruct (option_byte_ok options (idx + 1) Hb) as (n & -> & Hn); [lia|]. cbn [mbind outcome_bind].
  destruct (Z.eqb_spec n 0); [by eexists|].
  apply IH; unfold DHCP_MAX_OPTIONS_SIZE, u16, is_u8 in *; rewrite ?Z.mod_small; lia.
Qed.

(** With any memory the loop ends within its bound. *)
Lemma parse_loop_ends fuel options idx o :
  bytes_ok options → 0 <= idx → DHCP_MAX_OPTIONS_SIZE - idx < 3 * Z.of_nat fuel →
  parse_options_loop (S fuel) options idx o ≠ OutOfFuel.
Proof.
  intros Hb. revert idx o. induction fuel as [|fuel IH]; intros idx o Hidx Hf;
    cbn [parse_options_loop]; fold parse_options_loop;
    (destruct (Z.ltb_spec idx DHCP_MAX_OPTIONS_SIZE) as [Hlt|]; [|done]); [lia|].
  unfold option_byte. destruct (options !! Z.to_nat idx) as [t|] eqn:Et; [|done]. simpl.
  destruct (t =? DHCP_OPTION_END); [done|].
  destruct (options !! Z.to_nat (idx + 1)) as [n|] eqn:En; [|done]. simpl.
  destruct (Z.eqb_spec n 0); [done|].
  assert (is_u8 n) by (by eapply Forall_lookup_1 in En).
  apply IH; unfold DHCP_MAX_OPTIONS_SIZE, u16, is_u8 in *; rewrite ?Z.mod_small; lia.
Qed.

(** *** Where the pointers lead *)

(** The [switch] against the table of types. *)
Lemma store_option_cases ty idx o :
  (dhcp_message_type (store_option ty idx o) = if ty =? 53 then Some idx else dhcp_message_type o) ∧
  (requested_ip (store_option ty idx o) = if ty =? 50 then Some idx else requested_ip o) ∧
  (server_identifier (store_option ty idx o) = if ty =? 54 then Some idx else server_identifier o) ∧
  (parameter_request_list (store_option ty idx o) = if ty =? 55 then Some idx else parameter_request_list o).
Proof.
  unfold store_option, DHCP_OPTION_MESSAGE_TYPE, DHCP_OPTION_REQUESTED_IP, DHCP_OPTION_SERVER_IDENTIFIER,
    DHCP_OPTION_PARAMETER_REQUEST_LIST.
  destruct (Z.eqb_spec ty 53) as [E |]; [by subst|].
  destruct (Z.eqb_spec ty 50) as [E |]; [by subst|].
  destruct (Z.eqb_spec ty 54) as [E |]; [by subst|].
  by destruct (Z.eqb_spec ty 55).
Qed.

Section Pointer.
Context (f : dhcp_options → option Z) (type : Z).
Hypothesis f_store : ∀ ty idx o, f (store_option ty idx o) = if ty =? type then Some idx else f o.

Lemma store_options_last l idx o :
  (∃ k t, l !! k = Some t ∧ tlv_type t = type ∧
     (∀ j u, (k < j)%nat → l !! j = Some u → tlv_type u ≠ type) ∧
     f (store_options idx l o) = Some (idx + options_size (take k l))) ∨
  (Forall (λ t, tlv_type t ≠ type) l ∧ f (store_options idx l o) = f o).
Proof.
  revert idx o. induction l as [|t l IH]; intros idx o; [by right|]. cbn [store_options].
  destruct (IH (idx + 2 + Z.of_nat (length (tlv_value t))) (store_option (tlv_type t) idx o))
    as [(k & u & Hk & Hu & Hlast & Hf)|[Hno Hf]]; rewrite Hf.
  - left. exists (S k), u. split_and!; [done..| |].
    + intros [|j] v Hj Hv; [lia|]. apply (Hlast j); [lia|done].
    + rewrite firstn_cons, options_size_cons. f_equal. lia.
  - rewrite f_store. destruct (Z.eqb_spec (tlv_type t) type) as [Heq|Hne]; [left|by right; auto].
    exists 0%nat, t. split_and!; [done..| |].
    + intros [|j] v Hj Hv; [lia|]. by eapply (Forall_lookup_1 _ _ _ _ Hno).
    + unfold options_size. simpl. by rewrite Z.add_0_r.
Qed.
End Pointer.

(** The bytes of an option are at its position. *)
Lemma option_at_position cookie l tail k t :
  length cookie = 4%nat → l !! k = Some t →
  take (length (encode_tlv t)) (drop (Z.to_nat (option_position l k)) (cookie ++ concat (map encode_tlv l) ++ tail))
  = encode_tlv t.
Proof.
  intros Hc Hk. unfold option_position, options_size.
  rewrite <- (take_drop_middle l k t Hk) at 2. rewrite map_app, concat_app. cbn [map concat].
  set (before := concat (map encode_tlv (take k l))).
  rewrite <- (app_assoc before), (app_assoc cookie), drop_app_length' by (rewrite length_app; lia).
  rewrite <- app_assoc. by apply take_app_length.
Qed.

Lemma options_last f type l cookie tail o e :
  length cookie = 4%nat →
  (∀ ty idx o, f (store_option ty idx o) = if ty =? type then Some idx else f o) →
  (∀ o, f (o <| option_end := e |>) = f o) →
  last_of_type (cookie ++ concat (map encode_tlv l) ++ tail) l type (f o) (f ((store_options 4 l o) <| option_end := e |>)).
Proof.
  intros Hc Hf He. rewrite He. destruct (store_options_last f type Hf l 4 o) as [(k & t & Hk & Ht & Hl & E)|[Hno E]].
  - left. exists k, t. split_and!; try done. by apply option_at_position.
  - by right.
Qed.

Lemma parse_options_ok cookie l rest o :
  length cookie = 4%nat → Forall tlv_ok l → 4 + options_size l < DHCP_MAX_OPTIONS_SIZE →
  parse_options (encode_options cookie l rest) o =
  Ok ((store_options 4 l o) <| option_end := Some (4 + options_size l) |>).
Proof.
  intros Hc Hok Hlen. unfold encode_options.
  destruct (parse_options_behind cookie l (DHCP_OPTION_END :: rest) o) as (fuel & Hf & ->); [done..|lia|].
  destruct fuel as [|fuel]; [lia|]. cbn [parse_options_loop].
  destruct (Z.ltb_spec (4 + options_size l) DHCP_MAX_OPTIONS_SIZE); [|lia].
  pose proof (option_byte_behind cookie l (DHCP_OPTION_END :: rest) 0 _ Hc eq_refl) as E.
  rewrite Z.add_0_r in E. by rewrite E.
Qed.
End Parser.

(** C38: the option parser finds what RFC 2132 puts into a message, on one whose options fit the
    field and have values: afterwards each of the four pointers leads to the last option of its
    type (53 message type, 50 requested address, 54 server identifier, 55 parameter request
    list), where the message holds this type, the length and the value; a pointer of a type that
    does not occur keeps its value, and the end pointer leads to the end option. *)
Theorem parse_options_roundtrip cookie l rest o :
  length cookie = 4%nat → Forall tlv_ok l → 4 + options_size l < DHCP_MAX_OPTIONS_SIZE →
  let message := encode_options cookie l rest in
  ∃ o', parse_options message o = Ok o' ∧
    last_of_type message l 53 (dhcp_message_type o) (dhcp_message_type o') ∧
    last_of_type message l 50 (requested_ip o) (requested_ip o') ∧
    last_of_type message l 54 (server_identifier o) (server_identifier o') ∧
    last_of_type message l 55 (parameter_request_list o) (parameter_request_list o') ∧
    option_end o' = Some (4 + options_size l) ∧ option_byte message (4 + options_size l) = Ok 255.
Proof.
  intros Hc Hok Hlen message.
  exists ((store_options 4 l o) <| option_end := Some (4 + options_size l) |>).
  split; [by apply parse_options_ok|]. split_and!; try (apply options_last; [done|intros ? ? ?; apply store_option_cases|done]).
  - done.
  - pose proof (option_byte_behind cookie l (DHCP_OPTION_END :: rest) 0 _ Hc eq_refl) as E.
    by rewrite Z.add_0_r in E.
Qed.

(** The parser ends on every memory, and with one byte behind the option field it never
    reads out of bounds; without that byte it does when an option starts in the last byte
    of the field, to read its length. *)
Lemma parse_options_bounds options o :
  bytes_ok options →
  parse_options options o ≠ OutOfFuel ∧
  (DHCP_MAX_OPTIONS_SIZE < Z.of_nat (length options) → ∃ o', parse_options options o = Ok o') ∧
  (∀ cookie l x, options = cookie ++ concat (map encode_tlv l) ++ [x] → length cookie = 4%nat →
     Forall tlv_ok l → Z.of_nat (length options) = DHCP_MAX_OPTIONS_SIZE → x ≠ DHCP_OPTION_END →
     parse_options options o = Fault OutOfBounds).
Proof.
  intros Hb. split_and!.
  - by apply parse_loop_ends.
  - intros Hlen. by apply parse_loop_total.
  - intros cookie l x -> Hc Hok Hlen Hx. rewrite !length_app, Hc in Hlen. cbn [length] in Hlen.
    assert (4 + options_size l = 311) as Hsize by (unfold options_size, DHCP_MAX_OPTIONS_SIZE in *; lia).
    destruct (parse_options_behind cookie l [x] o) as (fuel & Hf & ->);
      [done..|unfold DHCP_MAX_OPTIONS_SIZE; lia|].
    destruct fuel as [|fuel]; [lia|]. cbn [parse_options_loop].
    pose proof (option_byte_behind cookie l [x] 0 _ Hc eq_refl) as E. rewrite Z.add_0_r in E.
    rewrite E, Hsize. cbn [mbind outcome_bind]. change (311 <? DHCP_MAX_OPTIONS_SIZE) with true.
    cbv iota zeta. destruct (Z.eqb_spec x DHCP_OPTION_END); [done|].
    unfold option_byte. rewrite lookup_ge_None_2; [done|].
    rewrite !length_app, Hc. unfold options_size in Hsize. simpl. lia.
Qed.

(** An option without a value, which RFC 2132 allows for other types than pad and end, ends
    the parsing: no option behind it is found, nor the end. *)
Lemma empty_option_hides_rest cookie l t rest o :
  length cookie = 4%nat → Forall tlv_ok l → 4 + options_size l < DHCP_MAX_OPTIONS_SIZE →
  t ≠ DHCP_OPTION_END →
  parse_options (cookie ++ concat (map encode_tlv l) ++ encode_tlv {| tlv_type := t; tlv_value := [] |} ++ rest) o
  = Ok (store_option t (4 + options_size l) (store_options 4 l o)).
Proof.
  intros Hc Hok Hlen Ht.
  destruct (parse_options_behind cookie l (encode_tlv {| tlv_type := t; tlv_value := [] |} ++ rest) o)
    as (fuel & Hf & ->); [done..|lia|].
  destruct fuel as [|fuel]; [lia|]. cbn [parse_options_loop].
  destruct (Z.ltb_spec (4 + options_size l) DHCP_MAX_OPTIONS_SIZE); [|lia].
  pose proof (option_byte_behind cookie l (t :: 0 :: rest) 0 _ Hc eq_refl) as E. rewrite Z.add_0_r in E.
  pose proof (option_byte_behind cookie l (t :: 0 :: rest) 1 _ Hc eq_refl) as E1.
  change (encode_tlv _ ++ rest) with (t :: 0 :: rest). rewrite E. cbn [mbind outcome_bind].
  destruct (Z.eqb_spec t DHCP_OPTION_END); [done|]. change (Z.of_nat 1) with 1 in E1.
  by rewrite E1.
Qed.

(** [dhcp_read] drops messages for other hardware than Ethernet with the codes 1 and 2; of
    the others it hands exactly the requests to [handle_reply], and drops every reply
    without a report: the conditions on the operation are the wrong way round. *)
Lemma dhcp_read_dispatches handle_reply ps i h w p op htype hlen packet hs :
  w_in_stacks w !! ps = Some p →
  set_array (ips_stack_idx p) (Some h) (ips_handlers p) = Some hs →
  ips_packet_pointers p !! ips_stack_idx p = Some (Some packet) →
  take 3 (drop packet (ips_frame p)) = [op; htype; hlen] →
  let w' := w <| w_in_stacks ::= <[ps := p <| ips_stack_idx ::= S |> <| ips_handlers := hs |>]> |> in
  dhcp_read handle_reply ps i h w =
  if negb (htype =? DHCP_HTYPE_ETHERNET) then Ok (Some 1, w')
  else if negb (hlen =? DHCP_HLEN_ETHERNET) then Ok (Some 2, w')
  else if op =? DHCP_OPCODE_BOOTREQUEST then handle_reply (drop packet (ips_frame p)) w'
  else Ok (Some 0, w').
Proof.
  intros Hp Hs Hpk Hb w'. unfold dhcp_read. rewrite (bind_load _ _ p) by done. cbv zeta. rewrite Hs.
  cbn [need]. rewrite bind_ret_l, (bind_update _ _ _ p) by done. fold w'.
  rewrite (bind_ok _ _ w' (drop packet (ips_frame p)) w') by (unfold packet_at; by rewrite Hpk).
  assert (∀ k x, [op; htype; hlen] !! k = Some x → drop packet (ips_frame p) !! k = Some x) as Hbyte.
  { intros k x Hk. rewrite <- Hb in Hk. by apply lookup_take_Some in Hk as [? _]. }
  rewrite (bind_need _ _ _ _ _ (Hbyte 1%nat htype eq_refl)).
  destruct (negb (htype =? _)); [done|]. rewrite (bind_need _ _ _ _ _ (Hbyte 2%nat hlen eq_refl)).
  destruct (negb (hlen =? _)); [done|]. rewrite (bind_need _ _ _ _ _ (Hbyte 0%nat op eq_refl)).
  destruct (Z.eqb_spec op DHCP_OPCODE_BOOTREQUEST) as [->|]; done.
Qed.

(** ** Witnesses *)

Definition magic_cookie : list Z := [99; 130; 83; 99].
Definition no_options : dhcp_options :=
  {| dhcp_message_type := None; requested_ip := None; server_identifier := None;
     parameter_request_list := None; option_end := None |}.
Definition discover_options : list tlv :=
  [{| tlv_type := 53; tlv_value := [1] |}; {| tlv_type := 50; tlv_value := [10; 0; 0; 5] |};
   {| tlv_type := 55; tlv_value := [1; 3; 6] |}].
Lemma discover_options_ok : Forall tlv_ok discover_options.
Proof. repeat constructor; try discriminate; simpl; lia. Qed.

(** A second server identifier overrides the first. *)
Definition request_options : list tlv :=
  discover_options ++ [{| tlv_type := 54; tlv_value := [10; 0; 0; 1] |}; {| tlv_type := 54; tlv_value := [10; 0; 0; 2] |}].
Lemma parse_options_roundtrip_witness :
  ∃ o', parse_options (encode_options magic_cookie request_options []) no_options = Ok o' ∧
    last_of_type (encode_options magic_cookie request_options []) request_options 54 None (server_identifier o') ∧
    o' = {| dhcp_message_type := Some 4; requested_ip := Some 7; server_identifier := Some 24;
            parameter_request_list := Some 13; option_end := Some 30 |}.
Proof.
  destruct (parse_options_roundtrip magic_cookie request_options [] no_options)
    as (o' & H & _ & _ & Hs & _).
  - reflexivity.
  - apply Forall_app. split; [exact discover_options_ok|]. repeat constructor; try discriminate; simpl; lia.
  - vm_compute. reflexivity.
  - exists o'. split; [exact H|]. split; [exact Hs|]. vm_compute in H. injection H as <-. reflexivity.
Defined.

(** Two options of other types that leave one byte of the field. *)
Definition filling_options : list tlv :=
  [{| tlv_type := 60; tlv_value := replicate 255 65 |}; {| tlv_type := 61; tlv_value := replicate 48 1 |}].
Example parse_options_bounds_example :
  let options := magic_cookie ++ concat (map encode_tlv filling_options) ++ [53] in
  length options = 312%nat ∧ parse_options options no_options = Fault OutOfBounds ∧
  ∃ o, parse_options (options ++ [0]) no_options = Ok o.
Proof.
  intros options. split; [vm_compute; reflexivity|]. split.
  - destruct (parse_options_bounds options no_options) as (_ & _ & Hf);
      [apply bytes_okb_ok; vm_compute; reflexivity|].
    apply (Hf magic_cookie filling_options 53); [reflexivity|reflexivity| |vm_compute; reflexivity|discriminate].
    repeat constructor; try discriminate; vm_compute; lia.
  - destruct (parse_options_bounds (options ++ [0]) no_options) as (_ & Hok & _);
      [apply bytes_okb_ok; vm_compute; reflexivity|].
    apply Hok. vm_compute. reflexivity.
Qed.

(** The rapid commit option (80) in front of the message type. *)
Example empty_option_hides_rest_example :
  parse_options (magic_cookie ++ [] ++ encode_tlv {| tlv_type := 80; tlv_value := [] |} ++
    encode_tlv {| tlv_type := 53; tlv_value := [1] |} ++ [255]) no_options = Ok no_options.
Proof.
  apply (empty_option_hides_rest magic_cookie [] 80
    (encode_tlv {| tlv_type := 53; tlv_value := [1] |} ++ [255]) no_options);
    [reflexivity|constructor|vm_compute; reflexivity|discriminate].
Qed.

(** A reply for Ethernet. *)
Definition reply_stack : in_packet_stack_t :=
  {| ips_handlers := replicate 10 None; ips_return_args := replicate 10 ArgNull;
     ips_packet_pointers := Some 0%nat :: replicate 9 None; ips_frame := [2; 1; 6; 0]; ips_stack_idx := 0 |}.
Definition reply_world : world := initial_world <| w_in_stacks := {[1%nat := reply_stack]} |>.
Definition reply_interface : interface_t := {| if_port := 0; if_ipv4_addr := 0; if_mac := [] |}.
Example dhcp_read_dispatches_example :
  ∃ w', dhcp_read (λ _, fail TypeConfusion) 1 reply_interface 9 reply_world = Ok (Some 0, w').
Proof.
  eexists. exact (dhcp_read_dispatches (λ _, fail TypeConfusion) 1 reply_interface 9 reply_world reply_stack
    2 1 6 0 (Some 9%nat :: replicate 9 None) eq_refl eq_refl eq_refl eq_refl).
Qed.
