(* ===== verification/Tls.v ===== *)
(** * Tls: writing handshake messages, and the loop over received records

    The parts of [handlers/tls] that are C: [handshake/handshake.c] (without the two empty
    functions), [handshake/extensions.c], [handshake/certificate.c],
    [tls_write_certificate_verify], [tls_write_finished], and [tls_handle_handshake],
    [tls_handle_record] and the loop of [tls_read] in [tls.c].  The flight that answers a
    client hello does not compile and is a parameter.  Memory is one block of bytes, and a pointer an offset into
    it; the structs are packed with alignment 2, so that odd sizes are rounded up. *)

From S2P Require Import Prelude.

(** ** Memory *)

Section Memory.
Definition store_byte (p : Z) (b : Z) : M (list Z) unit := λ m,
  if (0 <=? p) && (p <? Z.of_nat (length m)) then Ok (tt, <[Z.to_nat p := b]> m) else Fault OutOfBounds.
Definition load_byte (p : Z) : M (list Z) Z := λ m,
  if (0 <=? p) && (p <? Z.of_nat (length m)) then Ok (default 0 (m !! Z.to_nat p), m) else Fault OutOfBounds.

(** [memcpy], and the stores of a 16-bit field. *)
Fixpoint store_bytes (p : Z) (bytes : list Z) : M (list Z) unit :=
  match bytes with
  | [] => ret tt
  | b :: bytes => store_byte p b;;; store_bytes (p + 1) bytes
  end.
Definition store16 (p : Z) (x : Z) : M (list Z) unit := store_bytes p (bytes16 x).

(** What the three bytes of a [length] field hold of a number. *)
Definition length24 (x : Z) : list Z :=
  [Z.land (Z.shiftr x 16) 255; Z.land (Z.shiftr x 8) 255; Z.land x 255].
End Memory.

(** ** Handshake messages ([handshake.c]) *)

Definition sizeof_tls_handshake_msg_t : Z := 4.

Definition start_handshake (to_write : Z) (handshake_type : Z) : M (list Z) Z :=
  store_byte to_write handshake_type;;; ret (to_write + sizeof_tls_handshake_msg_t).

Definition end_handshake (to_write : Z) (handshake_length : Z) : M (list Z) Z :=
  let to_write := to_write - sizeof_tls_handshake_msg_t in
  let header := to_write - sizeof_tls_handshake_msg_t in
  store_bytes (header + 1) (length24 handshake_length);;;
  ret (u32 (sizeof_tls_handshake_msg_t + handshake_length)).

(** ** Extensions ([extensions.c]) *)

Definition TLS_EXTENSION_KEY_SHARE : Z := 51.
Definition TLS_EXTENSION_SUPPORTED_VERSIONS : Z := 43.
Definition sizeof_tls_extensions_msg_t : Z := 2.
Definition sizeof_tls_extensions_t : Z := 4.

Definition start_extensions (to_write : Z) : Z := to_write + sizeof_tls_extensions_msg_t.

Definition end_extensions (to_write : Z) (extension_length : Z) : M (list Z) Z :=
  let to_write := to_write - sizeof_tls_extensions_msg_t in
  store16 to_write (htons extension_length);;;
  ret (u16 (sizeof_tls_extensions_msg_t + extension_length)).

(** [extension_data] is the memory of [extension_length] bytes that is copied. *)
Definition tls_write_extension (extension_type : Z) (extension_data : list Z) (to_write : Z)
    : M (list Z) Z :=
  let extension_length := Z.of_nat (length extension_data) in
  store16 to_write extension_type;;;
  store16 (to_write + 2) (htons extension_length);;;
  store_bytes (to_write + sizeof_tls_extensions_t) extension_data;;;
  ret (u16 (sizeof_tls_extensions_t + extension_length)).

Record tls_key_share_entry_t := { ks_group : Z; ks_key_share_length : Z }.
Definition encode_tls_key_share_entry_t (e : tls_key_share_entry_t) : list Z :=
  bytes16 (ks_group e) ++ bytes16 (ks_key_share_length e).

Definition tls_write_server_hello_key_share (server_key_share : tls_key_share_entry_t)
    (generator : Z → M (list Z) Z) (to_write : Z) : M (list Z) Z :=
  num_written <- tls_write_extension TLS_EXTENSION_KEY_SHARE
                   (encode_tls_key_share_entry_t server_key_share) to_write;;
  generated <- generator (to_write + num_written);;
  ret (u16 (num_written + generated)).

Definition tls_write_server_hello_supported_version (version : Z) (to_write : Z) : M (list Z) Z :=
  tls_write_extension TLS_EXTENSION_SUPPORTED_VERSIONS (bytes16 version) to_write.

(** The part of [tls_write_server_hello] from the comment "start extensions" on; the selected
    share and the generator come from two functions with empty bodies. *)
Definition write_server_hello_extensions (version : Z) (selected_key_share : tls_key_share_entry_t)
    (generator : Z → M (list Z) Z) (to_write : Z) : M (list Z) Z :=
  let extensions := start_extensions to_write in
  written <- tls_write_server_hello_supported_version version extensions;;
  let extensions_offset := u16 (0 + written) in
  written <- tls_write_server_hello_key_share selected_key_share generator (extensions + extensions_offset);;
  let extensions_offset := u16 (extensions_offset + written) in
  end_extensions extensions extensions_offset.

(** ** Certificates ([certificate.c], [certificate_verify.c], [finished.c]) *)

(** One, three and three bytes, rounded up. *)
Definition sizeof_certificate_request_context : Z := 2.
Definition sizeof_tls_certificate_list_t : Z := 4.
Definition sizeof_tls_certificate_entry_t : Z := 4.

(** Adding to the byte that is there. *)
Definition add_byte (p : Z) (b : Z) : M (list Z) unit :=
  old <- load_byte p;; store_byte p (u8 (old + b)).
Fixpoint add_bytes (p : Z) (bytes : list Z) : M (list Z) unit :=
  match bytes with [] => ret tt | b :: bytes => add_byte p b;;; add_bytes (p + 1) bytes end.

(** The loop: [cert_entry] stays at the first entry. *)
Fixpoint write_certificate_entries (cert_entry total_size : Z) (certificates : list (list Z))
    : M (list Z) Z :=
  match certificates with
  | [] => ret total_size
  | certificate :: certificates =>
      let size := Z.of_nat (length certificate) in
      add_bytes cert_entry (length24 size);;;
      store_bytes (cert_entry + sizeof_tls_certificate_entry_t + total_size) certificate;;;
      store16 (cert_entry + sizeof_tls_certificate_entry_t + size) 0;;;
      write_certificate_entries cert_entry
        (u32 (total_size + size + sizeof_tls_certificate_list_t + 2)) certificates
  end.

Definition tls_write_certificates (certificates : list (list Z)) (to_write : Z) : M (list Z) Z :=
  store_byte to_write 0;;;
  let cert_list := to_write + sizeof_certificate_request_context in
  let cert_entry := cert_list + sizeof_tls_certificate_list_t in
  total_size <- write_certificate_entries cert_entry 0 certificates;;
  store_bytes cert_list (length24 total_size);;;
  ret (u32 (sizeof_certificate_request_context + sizeof_tls_certificate_list_t + total_size)).

Definition sizeof_tls_certificate_verify_msg_t : Z := 4.
Definition tls_write_certificate_verify (signature_scheme : Z) (signature : list Z) (to_write : Z)
    : M (list Z) Z :=
  let signature_length := Z.of_nat (length signature) in
  store16 to_write (htons signature_scheme);;;
  store16 (to_write + 2) (htons signature_length);;;
  store_bytes (to_write + sizeof_tls_certificate_verify_msg_t) signature;;;
  ret (u32 (sizeof_tls_certificate_verify_msg_t + signature_length)).

Definition tls_write_finished (verify_data : list Z) (to_write : Z) : M (list Z) Z :=
  store_bytes to_write verify_data;;; ret (Z.of_nat (length verify_data)).

(** ** Received records ([tls.c], [record.h]) *)

Definition TLS_RECORD_CONTENT_TYPE_HANDSHAKE : Z := 22.
(** Five bytes, rounded up. *)
Definition sizeof_tls_record_t : Z := 6.

(** [enum TLS_STATES] of [tls.h]. *)
Inductive TLS_STATES :=
  | TLS_SERVER_START
  | TLS_SERVER_RECEIVED_CLIENT_HELLO
  | TLS_SERVER_NEGOTIATED
  | TLS_SERVER_WAIT_END_OF_EARLY_DATA
  | TLS_SERVER_WAIT_FLIGHT_2
  | TLS_SERVER_WAIT_CERTIFICATE
  | TLS_SERVER_WAIT_CERTIFICATE_VERIFY
  | TLS_SERVER_WAIT_FINISHED
  | TLS_CLIENT_START
  | TLS_CLIENT_WAITING_SERVER_HELLO
  | TLS_CLIENT_WAIT_ENCRYPTED_EXTENSIONS
  | TLS_CLIENT_WAIT_CERTIFICATE_REQUEST
  | TLS_CLIENT_WAIT_CERTIFICATE
  | TLS_CLIENT_WAIT_CERTIFICATE_VERIFY
  | TLS_CLIENT_WAIT_FINISHED
  | TLS_CONNECTED.

(** The memory, and the state in the control block; [None] is a number that is no state, which
    is what [tls_read] has it read as a rule: it passes the address of its pointer to the
    private data instead of the pointer. *)
Record tls_world := { tw_memory : list Z; tw_state : option TLS_STATES }.

Definition in_memory {A} (op : M (list Z) A) : M tls_world A := λ w,
  match op (tw_memory w) with
  | Ok (a, m) => Ok (a, {| tw_memory := m; tw_state := tw_state w |})
  | Fault f => Fault f
  | OutOfFuel => OutOfFuel
  end.

Definition TLS_MSG_CLIENT_HELLO : Z := 1.

(** The body is empty. *)
Definition tls_write_alert : M tls_world unit := ret tt.

Section Records.
(** The flight that answers the client hello at a pointer: six calls, of which the last two are
    not C. *)
Context (write_flight : Z → M tls_world unit).

Definition tls_handle_handshake (handshake : Z) : M tls_world unit :=
  state <- gets tw_state;;
  match state with
  | Some TLS_SERVER_START =>
      message_type <- in_memory (load_byte handshake);;
      if negb (message_type =? TLS_MSG_CLIENT_HELLO) then tls_write_alert
      else
        let client_hello := handshake + sizeof_tls_handshake_msg_t in
        write_flight client_hello;;;
        modify (λ w, {| tw_memory := tw_memory w; tw_state := Some TLS_SERVER_RECEIVED_CLIENT_HELLO |})
  | _ => ret tt
  end.

Definition tls_handle_record (record : Z) : M tls_world Z :=
  content_type <- in_memory (load_byte record);;
  if content_type =? TLS_RECORD_CONTENT_TYPE_HANDSHAKE then tls_handle_handshake record;;; ret 0
  else ret 1.

(** The field [length], three bytes behind the start. *)
Definition record_length (record : Z) : M (list Z) Z :=
  b0 <- load_byte (record + 3);; b1 <- load_byte (record + 4);; ret (ntohs (le16 b0 b1)).

Fixpoint tls_read_loop (fuel : nat) (header bytes_left : Z) : M tls_world Z :=
  match fuel with
  | O => no_fuel
  | S fuel =>
      if sizeof_tls_record_t <=? bytes_left then
        length <- in_memory (record_length header);;
        let full_record_length := u16 (sizeof_tls_record_t + length) in
        if bytes_left <? full_record_length then ret 1
        else
          failed <- tls_handle_record header;;
          if negb (failed =? 0) then ret 2
          else tls_read_loop fuel (header + full_record_length) (u16 (bytes_left - full_record_length))
      else ret 0
  end.
End Records.

(** [bytes_left] starts as the constant [11111 - 2222], whatever was received. *)
Definition tls_read_bytes_left : Z := u16 (11111 - 2222).

(** ** What a writer leaves in memory *)

Section Writers.
Implicit Types before hole after bytes : list Z.

Lemma store_byte_middle before x after p b :
  p = Z.of_nat (length before) →
  store_byte p b (before ++ x :: after) = Ok (tt, before ++ b :: after).
Proof.
  intros ->. unfold store_byte. rewrite length_app. cbn [length].
  destruct (Z.leb_spec 0 (Z.of_nat (length before))); [|lia].
  destruct (Z.ltb_spec (Z.of_nat (length before)) (Z.of_nat (length before + S (length after)))); [|lia].
  cbn [andb]. rewrite Nat2Z.id, insert_app_r_alt, Nat.sub_diag by done. done.
Qed.

Lemma load_byte_middle before x after p :
  p = Z.of_nat (length before) → load_byte p (before ++ x :: after) = Ok (x, before ++ x :: after).
Proof.
  intros ->. unfold load_byte. rewrite length_app. cbn [length].
  destruct (Z.leb_spec 0 (Z.of_nat (length before))); [|lia].
  destruct (Z.ltb_spec (Z.of_nat (length before)) (Z.of_nat (length before + S (length after)))); [|lia].
  cbn [andb]. rewrite Nat2Z.id, lookup_app_r, Nat.sub_diag by done. done.
Qed.

(** Bytes are put in place of as many. *)
Lemma store_bytes_middle bytes before hole after p :
  p = Z.of_nat (length before) → length hole = length bytes →
  store_bytes p bytes (before ++ hole ++ after) = Ok (tt, before ++ bytes ++ after).
Proof.
  revert before hole p. induction bytes as [|b bytes IH]; intros before [|x hole] p -> Hl; try done.
  cbn [store_bytes app]. rewrite (bind_ok _ _ _ _ _ (store_byte_middle before x _ _ b eq_refl)).
  specialize (IH (before ++ [b]) hole (Z.of_nat (length before) + 1)). rewrite <- !app_assoc in IH.
  apply IH; [rewrite length_app; simpl; lia|simpl in Hl; lia].
Qed.

Lemma bind_store_bytes {B} bytes (k : unit → M (list Z) B) before hole after p :
  p = Z.of_nat (length before) → length hole = length bytes →
  bind (store_bytes p bytes) k (before ++ hole ++ after) = k tt (before ++ bytes ++ after).
Proof. intros. by apply bind_ok, store_bytes_middle. Qed.

(** A hole is the memory for its parts. *)
Lemma split_hole hole n m :
  length hole = (n + m)%nat → ∃ h1 h2, hole = h1 ++ h2 ∧ length h1 = n ∧ length h2 = m.
Proof.
  intros. exists (take n hole), (drop n hole). rewrite take_drop, length_take, length_drop. split_and!; lia || done.
Qed.

(** A writer that fills a hole with [bytes] and returns their number. *)
Definition writes (f : Z → M (list Z) Z) bytes : Prop :=
  ∀ before hole after, length hole = length bytes →
  f (Z.of_nat (length before)) (before ++ hole ++ after) =
  Ok (Z.of_nat (length bytes), before ++ bytes ++ after).

(** The bytes of an extension as the code writes them. *)
Definition extension_bytes (extension_type : Z) (data : list Z) : list Z :=
  bytes16 extension_type ++ bytes16 (ntohs (Z.of_nat (length data))) ++ data.

Lemma tls_write_extension_writes extension_type data :
  Z.of_nat (length data) + 4 < 65536 →
  writes (tls_write_extension extension_type data) (extension_bytes extension_type data).
Proof.
  intros Hlen before hole after Hh. unfold extension_bytes in *. rewrite !length_app in Hh. cbn [length bytes16] in Hh.
  destruct (split_hole hole 2 (2 + length data)) as (h1 & h2 & -> & H1 & H2); [lia|].
  destruct (split_hole h2 2 (length data)) as (h3 & h4 & -> & H3 & H4); [lia|].
  unfold tls_write_extension, store16. cbv zeta. rewrite <- !app_assoc.
  rewrite bind_store_bytes by done.
  rewrite (app_assoc before (bytes16 _)), (bind_store_bytes (bytes16 _)) by (rewrite ?length_app; simpl; lia).
  rewrite (app_assoc _ (bytes16 (ntohs _))), (bind_store_bytes data)
    by (rewrite ?length_app; unfold sizeof_tls_extensions_t; simpl; lia).
  unfold ret, sizeof_tls_extensions_t. f_equal. f_equal.
  - rewrite !length_app. simpl. unfold u16. rewrite Z.mod_small; lia.
  - by rewrite <- !app_assoc.
Qed.

(** Writers one behind the other. *)
Lemma writes_then f g b1 b2 (h : Z → M (list Z) Z) :
  writes f b1 → writes g b2 → Z.of_nat (length b1 + length b2) < 65536 →
  (∀ p, h p = bind (f p) (λ n, bind (g (p + n)) (λ m, ret (u16 (n + m))))) →
  writes h (b1 ++ b2).
Proof.
  intros Hf Hg Hl Hh before hole after Hhole. rewrite length_app in Hhole.
  destruct (split_hole hole _ _ Hhole) as (h1 & h2 & -> & H1 & H2). rewrite Hh, <- app_assoc.
  rewrite (bind_ok _ _ _ _ _ (Hf before h1 (h2 ++ after) H1)).
  specialize (Hg (before ++ b1) h2 after H2). rewrite length_app, Nat2Z.inj_add in Hg.
  rewrite app_assoc, (bind_ok _ _ _ _ _ Hg).
  unfold ret. rewrite length_app, Nat2Z.inj_add, <- !app_assoc. f_equal. f_equal. unfold u16. rewrite Z.mod_small; lia.
Qed.
End Writers.

(** An extension as RFC 8446 reads it: type and length in network order, then the data. *)
Definition decode_extension (bytes : list Z) : option (Z * list Z * list Z) :=
  match bytes with
  | t0 :: t1 :: l0 :: l1 :: rest =>
      let n := Z.to_nat (256 * l0 + l1) in
      if (n <=? length rest)%nat then Some (256 * t0 + t1, take n rest, drop n rest) else None
  | _ => None
  end.

Section Extensions.
Implicit Types data rest : list Z.

Lemma ntohs_bytes16 w : is_u16 w → bytes16 (ntohs w) = [w / 256; w mod 256].
Proof. intros. unfold bytes16, ntohs. f_equal; [range|f_equal; range]. Qed.

Lemma decode_extension_bytes extension_type data rest :
  is_u16 extension_type → Z.of_nat (length data) < 65536 →
  decode_extension (extension_bytes extension_type data ++ rest) =
  Some (ntohs extension_type, data, rest).
Proof.
  intros Ht Hl. unfold extension_bytes. rewrite ntohs_bytes16 by range. unfold bytes16. cbn [app].
  unfold decode_extension. cbv zeta.
  replace (Z.to_nat _) with (length data) by range. rewrite length_app.
  destruct (Nat.leb_spec (length data) (length data + length rest)) as [_|]; [|lia].
  rewrite take_app_length, drop_app_length. f_equal. f_equal. f_equal. unfold ntohs. range.
Qed.

Lemma length_extension_bytes extension_type data :
  length (extension_bytes extension_type data) = (4 + length data)%nat.
Proof. done. Qed.

Lemma tls_write_server_hello_key_share_writes server_key_share generator key :
  writes generator key → Z.of_nat (length key) + 8 < 65536 →
  writes (tls_write_server_hello_key_share server_key_share generator)
    (extension_bytes TLS_EXTENSION_KEY_SHARE (encode_tls_key_share_entry_t server_key_share) ++ key).
Proof.
  intros Hk Hl. eapply writes_then; [by apply tls_write_extension_writes|exact Hk| |done].
  rewrite length_extension_bytes. simpl. lia.
Qed.

(** The two extensions one behind the other. *)
Definition hello_extension_bytes (version : Z) (share : tls_key_share_entry_t) (key : list Z) : list Z :=
  extension_bytes TLS_EXTENSION_SUPPORTED_VERSIONS (bytes16 version)
  ++ extension_bytes TLS_EXTENSION_KEY_SHARE (encode_tls_key_share_entry_t share) ++ key.

Lemma length_hello_extension_bytes version share key :
  length (hello_extension_bytes version share key) = (14 + length key)%nat.
Proof. unfold hello_extension_bytes. by rewrite !length_app, !length_extension_bytes. Qed.

Lemma write_server_hello_extensions_writes version share generator key :
  writes generator key → Z.of_nat (length key) + 16 < 65536 →
  let body := hello_extension_bytes version share key in
  writes (write_server_hello_extensions version share generator)
    (bytes16 (ntohs (Z.of_nat (length body))) ++ body).
Proof.
  intros Hk Hl body before hole after Hh.
  assert (length body = (14 + length key)%nat) as Hbody by apply length_hello_extension_bytes.
  rewrite length_app, Hbody in Hh. cbn [length bytes16] in Hh.
  destruct (split_hole hole 2 (14 + length key)) as (h1 & h2 & -> & H1 & H2); [lia|].
  destruct (split_hole h2 6 (8 + length key)) as (h3 & h4 & -> & H3 & H4); [lia|].
  unfold write_server_hello_extensions, start_extensions, sizeof_tls_extensions_msg_t. cbv zeta.
  pose proof (tls_write_extension_writes TLS_EXTENSION_SUPPORTED_VERSIONS (bytes16 version) ltac:(simpl; lia)
    (before ++ h1) h3 (h4 ++ after) H3) as W1.
  pose proof (tls_write_server_hello_key_share_writes share generator key Hk ltac:(lia)
    (before ++ h1 ++ extension_bytes TLS_EXTENSION_SUPPORTED_VERSIONS (bytes16 version)) h4 after) as W2.
  rewrite !length_app, !length_extension_bytes in W2. rewrite !length_app, H1, length_extension_bytes in W1.
  cbn [length bytes16] in W1, W2. rewrite <- !app_assoc in *.
  unfold tls_write_server_hello_supported_version.
  replace (Z.of_nat (length before) + 2) with (Z.of_nat (length before + 2)) by lia.
  rewrite (bind_ok _ _ _ _ _ W1).
  replace (Z.of_nat (length before + 2) + u16 (0 + Z.of_nat (4 + 2)))
    with (Z.of_nat (length before + (length h1 + (4 + 2)))) by range.
  rewrite H1 in *. rewrite (bind_ok _ _ _ _ _ (W2 ltac:(simpl; lia))).
  unfold end_extensions, store16, sizeof_tls_extensions_msg_t. cbv zeta.
  rewrite bind_store_bytes by (simpl; lia). unfold ret. rewrite length_app, Hbody. f_equal. f_equal.
  - cbn [length bytes16 encode_tls_key_share_entry_t app]. range.
  - assert (u16 (u16 (0 + Z.of_nat (4 + 2)) +
      Z.of_nat (4 + length (encode_tls_key_share_entry_t share) + length key)) = Z.of_nat (14 + length key)) as ->
      by (cbn [length bytes16 encode_tls_key_share_entry_t app]; range).
    unfold body, hello_extension_bytes. by rewrite <- !app_assoc.
Qed.

(** The other two writers of the server's flight, in network order. *)
Lemma tls_write_certificate_verify_writes scheme signature :
  Z.of_nat (length signature) + 4 < 65536 →
  writes (tls_write_certificate_verify scheme signature)
    (bytes16 (ntohs scheme) ++ bytes16 (ntohs (Z.of_nat (length signature))) ++ signature).
Proof.
  intros Hl. pose proof (tls_write_extension_writes (ntohs scheme) signature ltac:(lia)) as W.
  intros before hole after Hh. refine (eq_trans _ (W before hole after Hh)).
  unfold tls_write_certificate_verify, tls_write_extension. cbv zeta.
  do 3 (apply bind_ext; intros [] ?). unfold ret. f_equal. f_equal.
  unfold sizeof_tls_certificate_verify_msg_t, sizeof_tls_extensions_t. range.
Qed.

Lemma tls_write_finished_writes verify_data : writes (tls_write_finished verify_data) verify_data.
Proof. intros before hole after Hh. unfold tls_write_finished. by rewrite bind_store_bytes. Qed.
End Extensions.

(** The extension block of the server hello is written in its place and nowhere else, with
    its length in network order in front; but the type of each extension stays in the byte
    order of the host, so that a reader of RFC 8446 finds the types 0x2b00 and 0x3300, and the
    key is behind the key share extension, whose length does not count it. *)
Lemma server_hello_extensions_layout version share generator key :
  writes generator key → Z.of_nat (length key) + 16 < 65536 →
  let body := hello_extension_bytes version share key in
  writes (write_server_hello_extensions version share generator)
    (bytes16 (ntohs (Z.of_nat (length body))) ++ body) ∧
  ∃ rest,
    decode_extension body = Some (ntohs TLS_EXTENSION_SUPPORTED_VERSIONS, bytes16 version, rest) ∧
    decode_extension rest = Some (ntohs TLS_EXTENSION_KEY_SHARE, encode_tls_key_share_entry_t share, key).
Proof.
  intros Hk Hl body. split; [by apply write_server_hello_extensions_writes|].
  eexists. split; [apply decode_extension_bytes; [done|simpl; lia]|].
  apply decode_extension_bytes; [done|simpl; lia].
Qed.

(** ** Handshake headers and certificates *)

Section Messages.
Implicit Types before after hole : list Z.

Lemma byte_in x : is_u8 (Z.land x 255).
Proof. pose proof (Z.land_ones x 8 ltac:(lia)) as E. change (Z.ones 8) with 255 in E. rewrite E. range. Qed.

(** On cleared memory adding is storing. *)
Lemma add_bytes_zero bytes before after p :
  p = Z.of_nat (length before) → bytes_ok bytes →
  add_bytes p bytes (before ++ replicate (length bytes) 0 ++ after) = Ok (tt, before ++ bytes ++ after).
Proof.
  revert before p. induction bytes as [|b bytes IH]; intros before p -> Hb; [done|].
  apply Forall_cons in Hb as [Hb Hbs]. cbn [add_bytes length replicate app]. unfold add_byte at 1.
  rewrite bind_assoc, (bind_ok _ _ _ _ _ (load_byte_middle before _ _ _ eq_refl)). rewrite Z.add_0_l, u8_id by done.
  rewrite (bind_ok _ _ _ _ _ (store_byte_middle before _ _ _ b eq_refl)).
  specialize (IH (before ++ [b]) (Z.of_nat (length before) + 1)). rewrite <- !app_assoc in IH.
  apply IH; [rewrite length_app; simpl; lia|done].
Qed.

(** One certificate, as the code lays it out: a filling byte behind the length of the request
    context and behind each three-byte length. *)
Definition certificate_bytes (certificate : list Z) : list Z :=
  let size := Z.of_nat (length certificate) in
  [0; 0] ++ length24 (size + 6) ++ [0] ++ length24 size ++ [0] ++ certificate ++ [0; 0].

(** The layout of RFC 8446. *)
Definition rfc_certificate_bytes (certificate : list Z) : list Z :=
  let size := Z.of_nat (length certificate) in
  [0] ++ length24 (size + 5) ++ length24 size ++ certificate ++ [0; 0].

Lemma length24_ok x : bytes_ok (length24 x).
Proof. unfold bytes_ok, length24. repeat constructor; apply byte_in. Qed.

(** The loop body for one certificate. *)
Lemma write_one_entry certificate before after :
  let size := Z.of_nat (length certificate) in
  size < 65536 →
  write_certificate_entries (Z.of_nat (length before)) 0 [certificate]
    (before ++ replicate (6 + length certificate) 0 ++ after) =
  Ok (size + 6, before ++ (length24 size ++ [0] ++ certificate ++ [0; 0]) ++ after).
Proof.
  intros size Hl. set (p := Z.of_nat (length before)). set (zeros := replicate (length certificate) 0).
  assert (replicate (6 + length certificate) 0 = replicate (length (length24 size)) 0 ++ [0] ++ zeros ++ [0; 0]) as ->.
  { rewrite (Nat.add_comm 6). change 6%nat with (4 + 2)%nat. rewrite Nat.add_assoc, (Nat.add_comm _ 4), <- Nat.add_assoc.
    cbn [Nat.add replicate length length24 app]. unfold zeros. by rewrite replicate_add. }
  cbn [write_certificate_entries]. cbv zeta. fold size.
  unfold sizeof_tls_certificate_entry_t, sizeof_tls_certificate_list_t. rewrite <- !app_assoc.
  rewrite (bind_ok _ _ _ _ _ (add_bytes_zero (length24 size) before _ p eq_refl (length24_ok _))).
  pose proof (store_bytes_middle certificate (before ++ length24 size ++ [0]) zeros ([0; 0] ++ after) (p + 4 + 0)) as E1.
  rewrite <- !app_assoc in E1.
  rewrite (bind_ok _ _ _ _ _ (E1 ltac:(rewrite !length_app; simpl; lia) ltac:(by apply length_replicate))).
  pose proof (store_bytes_middle [0; 0] (before ++ length24 size ++ [0] ++ certificate) [0; 0] after (p + 4 + size)) as E2.
  rewrite <- !app_assoc in E2.
  rewrite (bind_ok (store16 (p + 4 + size) 0) _ _ _ _ (E2 ltac:(rewrite !length_app; simpl; lia) eq_refl)).
  unfold ret. f_equal. f_equal. range.
Qed.
End Messages.

(** The length of a handshake message is not put into its header: [end_handshake] goes back
    over the header twice, and overwrites the three bytes in front of the message; the length
    bytes of the header keep whatever was there. *)
Lemma end_handshake_misplaces_length handshake_type handshake_length before x0 x1 x2 y0 y1 y2 y3 after :
  bind (start_handshake (Z.of_nat (length before) + 3) handshake_type)
    (λ handshake, end_handshake handshake handshake_length)
    (before ++ [x0; x1; x2] ++ [y0; y1; y2; y3] ++ after) =
  Ok (u32 (4 + handshake_length),
      before ++ length24 handshake_length ++ [handshake_type; y1; y2; y3] ++ after).
Proof.
  unfold start_handshake, end_handshake, sizeof_tls_handshake_msg_t. rewrite bind_assoc.
  pose proof (store_byte_middle (before ++ [x0; x1; x2]) y0 ([y1; y2; y3] ++ after)
    (Z.of_nat (length before) + 3) handshake_type) as E.
  rewrite <- !app_assoc in E.
  rewrite (bind_ok _ _ _ _ _ (E ltac:(rewrite length_app; simpl; lia))), bind_ret_l. cbv zeta.
  by rewrite bind_store_bytes by (simpl; lia).
Qed.

(** The certificate message for one certificate on cleared memory; it is three bytes longer
    than the message of RFC 8446, which has no filling bytes. *)
Lemma tls_write_certificates_layout certificate before after :
  Z.of_nat (length certificate) + 12 < 65536 →
  let bytes := certificate_bytes certificate in
  tls_write_certificates [certificate] (Z.of_nat (length before))
    (before ++ replicate (length bytes) 0 ++ after) =
  Ok (Z.of_nat (length bytes), before ++ bytes ++ after) ∧
  length bytes = (3 + length (rfc_certificate_bytes certificate))%nat.
Proof.
  intros Hl bytes. set (size := Z.of_nat (length certificate)) in *.
  assert (length bytes = (12 + length certificate)%nat) as Hb
    by (unfold bytes, certificate_bytes; rewrite !length_app; simpl; lia).
  split; [|rewrite Hb; unfold rfc_certificate_bytes; rewrite !length_app; simpl; lia].
  assert (replicate (length bytes) 0 = [0] ++ [0] ++ [0; 0; 0] ++ [0] ++ replicate (6 + length certificate) 0) as ->
    by (by rewrite Hb). rewrite <- !app_assoc.
  set (p := Z.of_nat (length before)). set (zeros := replicate _ 0).
  unfold tls_write_certificates, sizeof_certificate_request_context, sizeof_tls_certificate_list_t. cbv zeta.
  pose proof (store_byte_middle before 0 ([0] ++ [0; 0; 0] ++ [0] ++ zeros ++ after) p 0 eq_refl) as E1.
  rewrite (bind_ok (store_byte p 0) _ _ _ _ E1). clear E1.
  pose proof (write_one_entry certificate (before ++ [0; 0] ++ [0; 0; 0; 0]) after ltac:(lia)) as E2.
  rewrite <- !app_assoc in E2.
  replace (Z.of_nat (length (before ++ [0; 0] ++ [0; 0; 0; 0]))) with (p + 2 + 4) in E2
    by (rewrite !length_app; simpl; lia).
  rewrite (bind_ok (write_certificate_entries (p + 2 + 4) 0 [certificate]) _ _ _ _ E2). clear E2. fold size.
  pose proof (store_bytes_middle (length24 (size + 6)) (before ++ [0; 0]) [0; 0; 0]
    ([0] ++ length24 size ++ [0] ++ certificate ++ [0; 0] ++ after) (p + 2)) as E3.
  rewrite <- !app_assoc in E3.
  rewrite (bind_ok _ _ _ _ _ (E3 ltac:(rewrite !length_app; simpl; lia) eq_refl)).
  unfold ret. f_equal. f_equal; [rewrite Hb; range|].
  unfold bytes, certificate_bytes. fold size. by rewrite <- !app_assoc.
Qed.

(** ** The loop over the records *)

Section RecordLoop.
Context (write_flight : Z → M tls_world unit).

Lemma load_byte_keeps p m r : load_byte p m = r → r = Fault OutOfBounds ∨ ∃ b, r = Ok (b, m).
Proof. unfold load_byte. intros <-. destruct (_ && _); eauto. Qed.

Lemma record_length_keeps p m :
  record_length p m = Fault OutOfBounds ∨ ∃ length, record_length p m = Ok (length, m) ∧ is_u16 length.
Proof.
  unfold record_length, bind.
  destruct (load_byte_keeps (p + 3) m _ eq_refl) as [-> | [b0 ->]]; [by left|].
  destruct (load_byte_keeps (p + 4) m _ eq_refl) as [-> | [b1 ->]]; [by left|].
  right. eexists. split; [done|]. auto with net.
Qed.

Lemma in_memory_ok {A} (op : M (list Z) A) a w :
  op (tw_memory w) = Ok (a, tw_memory w) → in_memory op w = Ok (a, w).
Proof. unfold in_memory. intros ->. by destruct w. Qed.

Lemma in_memory_fault {A} (op : M (list Z) A) f w :
  op (tw_memory w) = Fault f → in_memory op w = Fault f.
Proof. unfold in_memory. by intros ->. Qed.

(** What is taken for the type of the message is the content type of the record. *)
Lemma tls_handle_handshake_record p w :
  load_byte p (tw_memory w) = Ok (TLS_RECORD_CONTENT_TYPE_HANDSHAKE, tw_memory w) →
  tls_handle_handshake write_flight p w = Ok (tt, w).
Proof.
  intros Hl. unfold tls_handle_handshake, bind, gets.
  destruct (tw_state w) as [[]|]; try done. by rewrite (in_memory_ok _ _ _ Hl).
Qed.

Lemma tls_handle_record_keeps p w :
  tls_handle_record write_flight p w = Fault OutOfBounds ∨
  ∃ r, tls_handle_record write_flight p w = Ok (r, w).
Proof.
  unfold tls_handle_record.
  destruct (load_byte_keeps p (tw_memory w) _ eq_refl) as [E | [b E]].
  { left. by rewrite (bind_fault _ _ _ _ (in_memory_fault _ _ _ E)). }
  right. rewrite (bind_ok _ _ _ _ _ (in_memory_ok _ _ _ E)).
  destruct (Z.eqb_spec b TLS_RECORD_CONTENT_TYPE_HANDSHAKE) as [->|]; [|by eexists].
  rewrite (bind_ok _ _ _ _ _ (tls_handle_handshake_record _ _ E)). by eexists.
Qed.

Lemma tls_handle_record_handshake p w :
  load_byte p (tw_memory w) = Ok (TLS_RECORD_CONTENT_TYPE_HANDSHAKE, tw_memory w) →
  tls_handle_record write_flight p w = Ok (0, w).
Proof.
  intros E. unfold tls_handle_record. rewrite (bind_ok _ _ _ _ _ (in_memory_ok _ _ _ E)), Z.eqb_refl.
  by rewrite (bind_ok _ _ _ _ _ (tls_handle_handshake_record _ _ E)).
Qed.

(** One round that handles its record. *)
Lemma tls_read_loop_round fuel p bytes_left w length :
  sizeof_tls_record_t <= bytes_left → record_length p (tw_memory w) = Ok (length, tw_memory w) →
  let full := u16 (sizeof_tls_record_t + length) in
  full <= bytes_left → tls_handle_record write_flight p w = Ok (0, w) →
  tls_read_loop write_flight (S fuel) p bytes_left w =
  tls_read_loop write_flight fuel (p + full) (u16 (bytes_left - full)) w.
Proof.
  intros Hb Hl full Hf Hh. cbn [tls_read_loop].
  destruct (Z.leb_spec sizeof_tls_record_t bytes_left); [|lia].
  rewrite (bind_ok _ _ _ _ _ (in_memory_ok _ _ _ Hl)). cbv zeta. fold full.
  destruct (Z.ltb_spec bytes_left full); [lia|]. by rewrite (bind_ok _ _ _ _ _ Hh).
Qed.

(** The ways a round goes: it is the last one, or it handles its record. *)
Lemma tls_read_loop_cases fuel p bytes_left w :
  (∃ f, tls_read_loop write_flight (S fuel) p bytes_left w = Fault f) ∨
  (∃ r, 0 <= r <= 2 ∧ tls_read_loop write_flight (S fuel) p bytes_left w = Ok (r, w)) ∨
  ∃ length, sizeof_tls_record_t <= bytes_left ∧ is_u16 length ∧
    record_length p (tw_memory w) = Ok (length, tw_memory w) ∧
    u16 (sizeof_tls_record_t + length) <= bytes_left ∧
    tls_handle_record write_flight p w = Ok (0, w).
Proof.
  assert (∀ r, 0 <= r <= 2 → ∃ r', 0 <= r' <= 2 ∧ ret r w = Ok (r', w)) as Hret by (intros r ?; by exists r).
  cbn [tls_read_loop]. destruct (Z.leb_spec sizeof_tls_record_t bytes_left) as [Hb|]; [|right; left; apply Hret; lia].
  destruct (record_length_keeps p (tw_memory w)) as [E | (length & E & Hl)].
  { left. eexists. by apply bind_fault, in_memory_fault. }
  rewrite (bind_ok _ _ _ _ _ (in_memory_ok _ _ _ E)). cbv zeta.
  destruct (Z.ltb_spec bytes_left (u16 (sizeof_tls_record_t + length))); [right; left; apply Hret; lia|].
  destruct (tls_handle_record_keeps p w) as [Eh | [r Eh]].
  { left. eexists. by apply bind_fault. }
  rewrite (bind_ok _ _ _ _ _ Eh). destruct (Z.eqb_spec r 0) as [->|]; [|right; left; apply Hret; lia].
  right. right. by exists length.
Qed.

Lemma tls_read_loop_keeps fuel p bytes_left w r w' :
  tls_read_loop write_flight fuel p bytes_left w = Ok (r, w') → w' = w ∧ 0 <= r <= 2.
Proof.
  revert p bytes_left. induction fuel as [|fuel IH]; intros p bytes_left; [done|].
  destruct (tls_read_loop_cases fuel p bytes_left w) as [[f ->] | [(r' & ? & ->) | (l & ? & ? & ? & ? & ?)]]; [done| |].
  - by intros [= <- <-].
  - rewrite (tls_read_loop_round _ _ _ _ l) by done. apply IH.
Qed.

Lemma tls_read_loop_returns fuel p bytes_left w :
  (∀ q length, record_length q (tw_memory w) = Ok (length, tw_memory w) → length ≠ 65530) →
  0 <= bytes_left < Z.of_nat fuel → is_u16 bytes_left →
  tls_read_loop write_flight fuel p bytes_left w ≠ OutOfFuel.
Proof.
  intros Hm. revert p bytes_left. induction fuel as [|fuel IH]; intros p bytes_left Hf Hu; [lia|].
  destruct (tls_read_loop_cases fuel p bytes_left w) as [[f ->] | [(r & _ & ->) | (l & ? & Hl & E & ? & ?)]]; [done..|].
  rewrite (tls_read_loop_round _ _ _ _ l) by done. apply Hm in E.
  assert (0 < u16 (sizeof_tls_record_t + l)) as Hpos by (unfold sizeof_tls_record_t; range).
  apply IH; range.
Qed.

Lemma tls_read_loop_stuck fuel p bytes_left w :
  sizeof_tls_record_t <= bytes_left → record_length p (tw_memory w) = Ok (65530, tw_memory w) →
  tls_handle_record write_flight p w = Ok (0, w) → is_u16 bytes_left →
  tls_read_loop write_flight fuel p bytes_left w = OutOfFuel.
Proof.
  intros Hb Hl Hh Hu. induction fuel as [|fuel IH]; [done|].
  rewrite (tls_read_loop_round _ _ _ _ 65530) by (done || unfold sizeof_tls_record_t in *; range).
  change (u16 (sizeof_tls_record_t + 65530)) with 0. by rewrite Z.add_0_r, Z.sub_0_r, u16_id.
Qed.
End RecordLoop.

(** C39: the loop of [tls_read] answers nothing: whatever the state and the flight of the server,
    it leaves the memory and the state as they are, since a record is handed to the handshake
    with its own header, whose first byte is never the type of a client hello.  It ends within
    one round per byte as long as no record has the length 65530; on a handshake record of that
    length, more than there is, the 16-bit sum with the size of the header is 0: the record is
    taken as complete, and the loop handles it again and again and never ends. *)
Theorem tls_read_loop_termination write_flight p w :
  (∀ fuel r w', tls_read_loop write_flight fuel p tls_read_bytes_left w = Ok (r, w') →
   w' = w ∧ 0 <= r <= 2) ∧
  ((∀ q length, record_length q (tw_memory w) = Ok (length, tw_memory w) → length ≠ 65530) →
   tls_read_loop write_flight (S (Z.to_nat tls_read_bytes_left)) p tls_read_bytes_left w ≠ OutOfFuel) ∧
  (load_byte p (tw_memory w) = Ok (TLS_RECORD_CONTENT_TYPE_HANDSHAKE, tw_memory w) →
   record_length p (tw_memory w) = Ok (65530, tw_memory w) →
   ∀ fuel, tls_read_loop write_flight fuel p tls_read_bytes_left w = OutOfFuel).
Proof.
  assert (is_u16 tls_read_bytes_left) as Hu by (vm_compute; split; [by intros [=]|done]).
  split; [|split].
  - intros fuel r w'. apply tls_read_loop_keeps.
  - intros Hm. apply tls_read_loop_returns; [done|vm_compute; split; [by intros [=]|done]|done].
  - intros Hl Hh fuel. apply tls_read_loop_stuck; [done|done|by apply tls_handle_record_handshake|done].
Qed.

(** ** Witnesses *)

Definition group_x25519 : tls_key_share_entry_t := {| ks_group := 7424; ks_key_share_length := 512 |}.
Definition two_byte_key (p : Z) : M (list Z) Z := store_bytes p [171; 205];;; ret 2.
Lemma two_byte_key_writes : writes two_byte_key [171; 205].
Proof. intros before hole after Hh. unfold two_byte_key. by rewrite bind_store_bytes. Qed.

Example server_hello_extensions_layout_example :
  writes (write_server_hello_extensions 772 group_x25519 two_byte_key)
    [0; 16; 43; 0; 0; 2; 4; 3; 51; 0; 0; 4; 0; 29; 0; 2; 171; 205].
Proof.
  apply (server_hello_extensions_layout 772 group_x25519 two_byte_key [171; 205]);
    [exact two_byte_key_writes|vm_compute; reflexivity].
Qed.

Example tls_write_certificates_layout_example :
  tls_write_certificates [[48; 3; 2]] 1 (7 :: replicate 15 0 ++ [9]) =
  Ok (15, [7] ++ [0; 0; 0; 0; 9; 0; 0; 0; 3; 0; 48; 3; 2; 0; 0] ++ [9]).
Proof. apply (tls_write_certificates_layout [48; 3; 2] [7] [9]). vm_compute. reflexivity. Qed.

Definition long_record : tls_world :=
  {| tw_memory := [22; 3; 3; 255; 250; 0; 1; 0; 0; 0]; tw_state := Some TLS_SERVER_START |}.
Lemma tls_read_loop_termination_witness :
  record_length 0 (tw_memory long_record) = Ok (65530, tw_memory long_record) ∧
  ∀ fuel, tls_read_loop (λ _, ret tt) fuel 0 tls_read_bytes_left long_record = OutOfFuel.
Proof.
  split; [reflexivity|].
  apply (tls_read_loop_termination (λ _, ret tt) 0 long_record); reflexivity.
Defined.

(** On a handshake message itself the server does go on. *)
Example client_hello_starts :
  tls_handle_handshake (λ _, ret tt) 6
    {| tw_memory := [22; 3; 3; 0; 6; 0; 1; 0; 0; 2; 3; 3]; tw_state := Some TLS_SERVER_START |} =
  Ok (tt, {| tw_memory := [22; 3; 3; 0; 6; 0; 1; 0; 0; 2; 3; 3];
             tw_state := Some TLS_SERVER_RECEIVED_CLIENT_HELLO |}).
Proof. reflexivity. Qed.
