(* ===== verification/TcpOutput.v ===== *)
(** * TcpOutput: what [tcp_write] puts on the wire

    [tcp_write] on a connection whose out buffer is empty, over a lower layer that
    transmits: the segment goes out at once and the out buffer is empty again. *)

From S2P Require Import Prelude Headers Checksum ProtocolMap BlockBuffer State.
From S2P Require Import TcpShared TcpSocket TcpStates Tcp.

(** ** The interface to the layer below

    [transmits handler i w ps p frame]: from every memory that has the handlers of [w]
    and the packet stack [p], the handler puts [frame] on the wire and changes nothing
    else but the packet stack. *)
Definition transmits `{!Dispatch} (handler : addr) (i : interface_t) (w : world) (ps : addr)
    (p : out_packet_stack_t) (frame : list Z) : Prop :=
  ∀ w', w_handlers w' = w_handlers w → w_out_stacks w' !! ps = Some p →
  ∃ p', op_write handler ps i w' =
    Ok (true, w' <| w_out_stacks ::= <[ps := p']> |> <| w_wire ::= λ l, l ++ [frame] |>).

Section TcpWrite.
Context `{!Platform} `{!Dispatch}.
Variables (w : world) (ps : addr) (i : interface_t) (p : out_packet_stack_t) (k : nat).
Variables (s : addr) (so : tcp_socket_t) (cid flags : Z).
Variables (a : addr) (t : transmission_control_block_t) (n : nat) (next : addr).

(** A segment to write: its arguments, its connection, and the handler below. *)
Record segment_ready : Prop := {
  ready_stack : w_out_stacks w !! ps = Some p;
  ready_idx : ops_stack_idx p = S k;
  ready_args : ops_args p !! S k = Some (ArgTcp
    {| twa_connection_id := cid; twa_socket := Some s; twa_flags := flags |});
  ready_next : ops_handlers p !! k = Some (Some next);
  ready_room : 20 <= ob_offset (ops_out_buffer p);
  ready_cid : cid ≠ 0;
  ready_socket : w_sockets w !! s = Some so;
  ready_slots : slots_ok w (sock_trans_control_block so);
  ready_tcb : head (holders w (sock_trans_control_block so) cid) = Some a;
  ready_alive : w_tcbs w !! a = Some t;
  ready_queue : bb_repr (tcb_out_buffer t) [] (S n)
}.

Definition payload_size : Z := ob_size (ops_out_buffer p) - ob_offset (ops_out_buffer p).
Definition written_header : tcp_header_t := tcp_out_header t (sock_port so) flags payload_size.
Definition written_checksum : option Z :=
  _tcp_calculate_checksum (encode_tcp_header_t written_header ++ tcb_after_header t)
    (sock_ipv4 so) (tcb_remote_ipv4 t) (u16 payload_size).
Definition sent_header (checksum : Z) : tcp_header_t := written_header <| th_checksum := checksum |>.

(** The connection afterwards, but for its out buffer. *)
Definition sent_tcb (checksum : Z) (bb : tcp_block_buffer_t) : transmission_control_block_t :=
  t <| tcb_out_header := sent_header checksum |>
    <| tcb_send_next := if negb (payload_size =? 0) then u32 (tcb_send_next t + payload_size)
                        else tcb_send_next t |>
    <| tcb_out_buffer := bb |>.

(** The packet stack the layer below gets. *)
Definition sent_stack (checksum : Z) : out_packet_stack_t :=
  p <| ops_out_buffer ::= push_header (encode_tcp_header_t (sent_header checksum)) |>
    <| ops_stack_idx := k |>.

Lemma tcp_write_header_ok checksum w' :
  w_tcbs w' !! a = Some t → written_checksum = Some checksum →
  tcp_write_header a (sock_port so) (sock_ipv4 so) flags payload_size w' =
  Ok (sent_header checksum, w' <| w_tcbs ::= <[a := sent_tcb checksum (tcb_out_buffer t)]> |>).
Proof.
  intros Ha Hc. unfold tcp_write_header. rewrite (bind_load _ _ t) by done. cbv zeta.
  rewrite (bind_need _ _ checksum) by exact Hc. by rewrite (bind_update _ _ _ t).
Qed.

(** Flushing a queue of one segment that fits the window. *)
Lemma tcp_write_flush_one fuel checksum bb sg m frame w' :
  w_handlers w' = w_handlers w →
  transmits next i w ps (sent_stack checksum) frame →
  ops_handlers p !! k = Some (Some next) →
  w_tcbs w' !! a = Some (sent_tcb checksum bb) → bb_repr bb [sg] m →
  seg_data sg = ps → seg_size sg <= ntohs (tcb_send_window t) →
  w_out_stacks w' !! ps = Some ((sent_stack checksum) <| ops_stack_idx := S k |>) →
  ∃ p2 bb2, bb_repr bb2 [] (S m) ∧
    tcp_write_flush (S (S fuel)) ps a i w' =
    Ok (true, w' <| w_tcbs ::= <[a := sent_tcb checksum bb2]> |>
                 <| w_out_stacks ::= <[ps := p2]> |>
                 <| w_wire ::= λ l, l ++ [frame] |>).
Proof.
  intros Hh Htr Hn Ht Hbb Hsd Hss Hps.
  destruct (repr_cons _ _ _ _ Hbb) as (j & b & Hj & Hb & Hsg).
  destruct (remove_front_repr _ _ _ 1 Hbb) as (bb2 & Hr & _ & Hbb2). simpl in Hbb2.
  set (w1 := w' <| w_out_stacks ::= <[ps := sent_stack checksum]> |>).
  destruct (Htr w1) as [p2 Hw]; [done|apply lookup_insert_eq|].
  exists p2, bb2. split; [by replace (S m) with (m + 1)%nat by lia|].
  cbn [tcp_write_flush]. rewrite (bind_load _ _ (sent_tcb checksum bb)) by done.
  unfold tcp_block_buffer_get_head. change (tcb_out_buffer (sent_tcb checksum bb)) with bb.
  change (tcb_send_window (sent_tcb checksum bb)) with (tcb_send_window t). rewrite Hj.
  rewrite (bind_lift _ b) by done. cbv zeta. subst sg. simpl in Hsd, Hss. rewrite Hsd.
  destruct (Z.leb_spec (tb_payload_size b) (ntohs (tcb_send_window t))); [|lia].
  rewrite (bind_load _ _ ((sent_stack checksum) <| ops_stack_idx := S k |>)) by done.
  rewrite (bind_update _ _ _ ((sent_stack checksum) <| ops_stack_idx := S k |>)) by done.
  match goal with |- bind _ _ ?x = _ => change x with w1 end.
  rewrite (bind_load _ _ (sent_stack checksum)) by apply lookup_insert_eq.
  rewrite (bind_need _ _ (Some next)) by done. cbn [need]. rewrite bind_ret_l.
  rewrite (bind_ok _ _ _ _ _ Hw). cbn [negb].
  rewrite (bind_load _ _ (sent_tcb checksum bb)) by done.
  rewrite (bind_lift _ bb2) by done.
  rewrite (bind_update _ _ _ (sent_tcb checksum bb)) by done.
  rewrite (bind_load _ _ (sent_tcb checksum bb2)) by apply lookup_insert_eq.
  change (tcb_out_buffer (sent_tcb checksum bb2)) with bb2. rewrite (repr_nil _ _ Hbb2).
  unfold ret, w1, set_field. simpl.
  by rewrite insert_insert_eq.
Qed.

Lemma tcp_write_ready checksum frame :
  segment_ready → written_checksum = Some checksum →
  u16 payload_size <= ntohs (tcb_send_window t) →
  transmits next i w ps (sent_stack checksum) frame →
  ∃ p2 bb2, bb_repr bb2 [] (S n) ∧
    tcp_write ps i w =
    Ok (true, w <| w_tcbs ::= <[a := sent_tcb checksum bb2]> |>
                <| w_out_stacks ::= <[ps := p2]> |>
                <| w_wire ::= λ l, l ++ [frame] |>).
Proof.
  intros [Hps Hidx Hargs Hnext Hroom Hcid Hs Hslots Hhead Ha Hq] Hc Hwin Htr.
  set (sg := {| seg_seq := ntohl (th_sequence_num (sent_header checksum));
                seg_size := u16 payload_size; seg_data := ps |}).
  destruct (add_repr _ _ _ ps (th_sequence_num (sent_header checksum)) (u16 payload_size) Hq I)
    as (j & bb & Hadd & _ & Hbb).
  set (w1 := w <| w_tcbs ::= <[a := sent_tcb checksum bb]> |>
               <| w_out_stacks ::= <[ps := (sent_stack checksum) <| ops_stack_idx := S k |>]> |>).
  destruct (tcp_write_flush_one TCP_BLOCK_BUFFER_DEFAULT_SIZE checksum bb sg n frame w1)
    as (p2 & bb2 & Hbb2 & Hfl); try done; try apply lookup_insert_eq.
  exists p2, bb2. split; [done|]. unfold tcp_write. rewrite (bind_load _ _ p) by done.
  rewrite Hidx, (bind_need _ _ _ _ _ Hargs). rewrite bool_decide_eq_false_2 by done. cbv zeta.
  fold payload_size. destruct (Z.ltb_spec (ob_offset (ops_out_buffer p)) (Z.of_nat sizeof_tcp_header_t));
    [unfold sizeof_tcp_header_t in *; lia|].
  unfold as_tcp_args. rewrite bind_ret_l. cbn [twa_socket twa_connection_id twa_flags].
  destruct (Z.eqb_spec cid 0); [done|].
  erewrite bind_ok; [|by apply (get_tcb_spec w s so)]. rewrite Hhead.
  rewrite (bind_load _ _ so) by done.
  erewrite bind_ok; [|by apply tcp_write_header_ok].
  rewrite (bind_update _ _ _ p) by done.
  rewrite (bind_load _ _ (sent_tcb checksum (tcb_out_buffer t))) by apply lookup_insert_eq.
  rewrite (bind_lift _ _ _ _ Hadd).
  rewrite (bind_update _ _ _ (sent_tcb checksum (tcb_out_buffer t))) by apply lookup_insert_eq.
  match goal with |- tcp_write_flush _ _ _ _ ?x = _ => replace x with w1; [|symmetry] end.
  - etransitivity; [exact Hfl|]. unfold w1, set_field. simpl. by rewrite !insert_insert_eq.
  - unfold w1, set_field. simpl. rewrite insert_insert_eq. do 3 f_equal.
    unfold sent_stack, set_field. simpl. by rewrite Hidx.
Qed.
End TcpWrite.

(** With an empty out buffer and a window that has room for the payload, [tcp_write]
    hands exactly one segment to the layer below, whose header has the ports and
    addresses of the connection, the next sequence and acknowledgement numbers, the
    receive window and the flags (PSH added for a payload); it advances the send
    sequence number by the payload, and leaves the out buffer empty again.  Everything
    else in the memory stays as it is. *)
Lemma tcp_write_sends `{!Platform} `{!Dispatch} w ps i p k s so cid flags a t n next checksum frame :
  segment_ready w ps p k s so cid flags a t n next →
  written_checksum p so flags t = Some checksum →
  u16 (payload_size p) <= ntohs (tcb_send_window t) →
  transmits next i w ps (sent_stack p k so flags t checksum) frame →
  ∃ p2 bb2, bb_repr bb2 [] (S n) ∧
    tcp_write ps i w =
    Ok (true, w <| w_tcbs ::= <[a := sent_tcb p so flags t checksum bb2]> |>
                <| w_out_stacks ::= <[ps := p2]> |>
                <| w_wire ::= λ l, l ++ [frame] |>).
Proof. apply tcp_write_ready. Qed.

(** ** The checksum of a written segment *)

(** The words a receiver sums up for a segment without payload. *)
Definition segment_words (source_ip destination_ip : Z) (h : tcp_header_t) : list Z :=
  words16 (encode_tcp_pseudo_header_t
    {| ph_source_ip := source_ip; ph_destination_ip := destination_ip;
       ph_zero := 0; ph_ptcl := 6; ph_tcp_length := htons 20 |})
  ++ words16 (encode_tcp_header_t h).

Section StaleChecksum.
Lemma words16_checksum h c :
  is_u16 c →
  sum_list (words16 (encode_tcp_header_t (h <| th_checksum := c |>))) =
  sum_list (words16 (encode_tcp_header_t (h <| th_checksum := 0 |>))) + c.
Proof.
  intros Hc. destruct h. unfold set_field. cbn -[Z.modulo Z.div le16].
  rewrite (le16_bytes16 c) by done. unfold sum_list, le16. cbn -[Z.modulo Z.div Z.mul].
  change (0 mod 256) with 0. change (0 / 256) with 0. lia.
Qed.

Lemma tcp_checksum_value_20 h after sip dip :
  tcp_header_t_ok h → th_data_offset h = 80 → bytes_ok after → is_u32 sip → is_u32 dip →
  _tcp_calculate_checksum (encode_tcp_header_t h ++ after) sip dip 0 =
  Some (rfc1071_checksum (segment_words sip dip h)).
Proof.
  intros Hok Hoff Ha Hs Hd. unfold _tcp_calculate_checksum.
  assert ((encode_tcp_header_t h ++ after) !! 12%nat = Some 80) as -> by (destruct h; simpl in *; by subst).
  cbn [mbind option_bind]. cbv zeta.
  change (htons (u16 (u16 (Z.shiftr 80 4 * 4) + 0))) with (htons 20).
  pose proof (encode_tcp_bytes_ok h Hok) as He.
  rewrite tcp_checksum_value.
  - unfold segment_words. do 3 f_equal.
  - unfold pseudo_header_ok. simpl. split_and!; [done|done|range|range|apply ntohs_range].
  - by apply bytes_ok_app.
  - rewrite length_app, length_encode_tcp. change (20 <= 20 + length after)%nat. lia.
Qed.

Lemma header_words_pos h :
  tcp_header_t_ok h → th_data_offset h = 80 →
  0 < sum_list (words16 (encode_tcp_header_t (h <| th_checksum := 0 |>))).
Proof.
  intros (? & ? & ? & ? & ? & ? & ? & _ & ?) Hoff.
  assert (tcp_header_t_ok (h <| th_checksum := 0 |>)) as Hok by (by split_and!; try range).
  pose proof (words16_range _ (encode_tcp_bytes_ok _ Hok)) as Hw.
  destruct h as [sp dp sq ak off cb wd ck up]. simpl in *. subst.
  unfold set_field in *. cbn -[Z.modulo Z.div le16] in *.
  repeat match goal with H : Forall _ (_ :: _) |- _ => apply Forall_cons in H as [? H] end.
  unfold sum_list, is_u16, is_u8 in *. cbn -[Z.modulo Z.div le16].
  assert (0 < le16 80 cb) by (unfold le16; lia). lia.
Qed.

Lemma segment_words_range sip dip h :
  is_u32 sip → is_u32 dip → tcp_header_t_ok h → Forall is_u16 (segment_words sip dip h).
Proof.
  intros. unfold segment_words. apply Forall_app. split; apply words16_range.
  - apply encode_pseudo_ok. unfold pseudo_header_ok. simpl.
    split_and!; [done|done|range|range|apply ntohs_range].
  - by apply encode_tcp_bytes_ok.
Qed.
Lemma rfc1071_checksum_range l : Forall is_u16 l → is_u16 (rfc1071_checksum l).
Proof.
  intros Hl%sum_list_nonneg. unfold rfc1071_checksum.
  pose proof (oc_norm_range (sum_list l) ltac:(lia)). unfold is_u16 in *. lia.
Qed.
End StaleChecksum.

(** C40: the checksum field is not cleared before the checksum is computed over it: a segment
    without payload verifies at the receiver iff the checksum of the segment sent before
    it on this connection was 0 or [0xFFFF]. *)
Theorem tcp_write_stale_checksum p so flags t checksum :
  payload_size p = 0 → tcp_header_t_ok (written_header p so flags t) →
  bytes_ok (tcb_after_header t) → is_u32 (sock_ipv4 so) → is_u32 (tcb_remote_ipv4 t) →
  written_checksum p so flags t = Some checksum →
  rfc1071_checksum (segment_words (sock_ipv4 so) (tcb_remote_ipv4 t)
                      (sent_header p so flags t checksum)) = 0
  ↔ th_checksum (tcb_out_header t) mod 65535 = 0.
Proof.
  intros Hsz Hok Ha Hs Hd Hc. unfold written_checksum in Hc. rewrite Hsz in Hc.
  change (u16 0) with 0 in Hc. rewrite tcp_checksum_value_20 in Hc by done.
  apply (inj Some) in Hc. unfold sent_header. set (h := written_header p so flags t) in *.
  set (stale := th_checksum (tcb_out_header t)).
  assert (is_u16 stale) as Hst by apply Hok.
  assert (h = h <| th_checksum := stale |>) as Eh by done.
  set (P := words16 (encode_tcp_pseudo_header_t
    {| ph_source_ip := sock_ipv4 so; ph_destination_ip := tcb_remote_ipv4 t;
       ph_zero := 0; ph_ptcl := 6; ph_tcp_length := htons 20 |})).
  set (H0 := words16 (encode_tcp_header_t (h <| th_checksum := 0 |>))).
  assert (∀ c, is_u16 c → sum_list (segment_words (sock_ipv4 so) (tcb_remote_ipv4 t)
    (h <| th_checksum := c |>)) = sum_list P + sum_list H0 + c) as Hsum.
  { intros c Hcr. unfold segment_words. rewrite sum_list_app, words16_checksum by done. fold P H0. lia. }
  assert (0 <= sum_list P) as HP.
  { apply sum_list_nonneg, words16_range, encode_pseudo_ok. unfold pseudo_header_ok. simpl.
    split_and!; [done|done|range|range|apply ntohs_range]. }
  assert (0 < sum_list H0) as Hpos by by apply header_words_pos.
  assert (is_u16 checksum) as Hcr.
  { subst checksum. rewrite Eh. unfold rfc1071_checksum. rewrite Hsum by done.
    pose proof (oc_norm_range (sum_list P + sum_list H0 + stale)). unfold is_u16 in *. lia. }
  rewrite Eh in Hc. unfold rfc1071_checksum in *. rewrite Hsum in * by done.
  unfold oc_norm in *. destruct (Z.eqb_spec (sum_list P + sum_list H0 + stale) 0); [unfold is_u16 in *; lia|].
  destruct (Z.eqb_spec (sum_list P + sum_list H0 + checksum) 0); unfold is_u16 in *; lia.
Qed.
