(* ===== verification/Handshake.v ===== *)
(** * Handshake: a SYN through the TCP, IPv4 and Ethernet handlers

    The handlers as the stack links them: what the IPv4 handler puts on the wire for TCP,
    and what [tcp_read] does with the first segment of a connection. *)

From S2P Require Import Prelude Headers Checksum ProtocolMap BlockBuffer State.
From S2P Require Import Ethernet Ipv4 TcpShared TcpSocket TcpStates Tcp TcpOutput Arp Llc Custom Stack.

(** ** IPv4 over Ethernet, as the layer below TCP *)

(** The frame for a segment: the Ethernet header of the answer, the IPv4 header with its
    checksum, the segment. *)
Definition ip_frame (e : ethernet_write_args_t) (ia : ipv4_write_args_t) (i : interface_t)
    (segment : list Z) : list Z :=
  let h := ipv4_response_header ia i (Z.of_nat (length segment) + 20) in
  let c := default 0 (ipv4_calculate_checksum (encode_ipv4_header_t h ++ segment)) in
  encode_ethernet_header_t
    {| eth_destination := ewa_destination e; eth_source := if_mac i;
       eth_ethernet_type := ewa_ethernet_type e |}
  ++ encode_ipv4_header_t (h <| ip_header_checksum := c |>) ++ segment.

Section Lower.
Context `{!Platform}.

(** The handlers of the stack in their memory. *)
Record linked (w : world) (eth ip tcp : addr) : Prop := {
  linked_eth : ∃ h, w_handlers w !! eth = Some h ∧ h_operations h = EthernetHandler;
  linked_ip : ∃ h, w_handlers w !! ip = Some h ∧ h_operations h = Ipv4Handler;
  linked_tcp : ∃ h, w_handlers w !! tcp = Some h ∧ h_operations h = TcpHandler
}.

Lemma ip_transmits n w eth ip tcp ps p i e ia :
  linked w eth ip tcp →
  ops_stack_idx p = 1%nat → ops_handlers p !! 0%nat = Some (Some eth) →
  ops_args p !! 0%nat = Some (ArgEthernet e) → ops_args p !! 1%nat = Some (ArgIpv4 ia) →
  out_buffer_ok (ops_out_buffer p) → 34 <= ob_offset (ops_out_buffer p) →
  bytes_ok (ob_data (ops_out_buffer p)) →
  is_u32 (iwa_destination_ip ia) → is_u8 (iwa_protocol ia) → is_u32 (if_ipv4_addr i) →
  @transmits (dispatch (S (S n))) ip i w ps p (ip_frame e ia i (ob_data (ops_out_buffer p))).
Proof.
  intros [(he & Hhe & Hke) (hi & Hhi & Hki) _] Hidx Hh He Hia [Hb1 Hb2] Ho Hd Hdst Hpr Hown.
  set (data := ob_data (ops_out_buffer p)) in *.
  set (len := Z.of_nat (length data) + 20).
  destruct (response_checksum ia i len data Hdst Hpr Hown Hd) as (c & _ & Hc & _).
  intros w' Hw' Hps.
  assert (ob_size (ops_out_buffer p) - (ob_offset (ops_out_buffer p) - 20) = len) as Hlen
    by (unfold len; lia).
  set (h := (ipv4_response_header ia i len) <| ip_header_checksum := c |>).
  set (p1 := p <| ops_out_buffer := push_header (encode_ipv4_header_t h) (ops_out_buffer p) |>
               <| ops_stack_idx := O |>).
  set (w1 := w' <| w_out_stacks ::= <[ps := p1]> |>).
  assert (op_write (Dispatch := dispatch (S (S n))) ip ps i w' =
          op_write (Dispatch := dispatch (S n)) eth ps i w1) as ->.
  { cbn [dispatch op_write]. rewrite (bind_load _ _ hi) by by rewrite Hw'. rewrite Hki.
    cbn [write_operation]. rewrite (ipv4_write_step ps i w' p ia 0 eth c); try done; try lia.
    - unfold w1, p1, h. by rewrite Hlen.
    - by rewrite Hlen. }
  cbn [dispatch op_write]. rewrite (bind_load _ _ he) by (unfold w1; simpl; by rewrite Hw').
  rewrite Hke. cbn [write_operation].
  rewrite (ethernet_write_ok ps i w1 p1 e); try done; [|apply lookup_insert_eq].
  change (ob_offset (ops_out_buffer p1)) with
    (ob_offset (ops_out_buffer p) - Z.of_nat (length (encode_ipv4_header_t h))).
  rewrite length_encode_ipv4. unfold sizeof_ipv4_header_t.
  destruct (Z.ltb_spec (ob_offset (ops_out_buffer p) - Z.of_nat 20) 14); [lia|].
  eexists. unfold w1, set_field. simpl. rewrite insert_insert_eq. repeat f_equal.
  unfold ip_frame. fold len data. rewrite Hc. done.
Qed.
End Lower.

(** ** A reply of a state function *)

(** A received segment on its packet stack: the IPv4 header at index 1, the TCP header at
    index 2, the handlers and the arguments for an answer below. *)
Record segment_in (q : in_packet_stack_t) (eth ip : addr) (e : ethernet_write_args_t)
    (ia : ipv4_write_args_t) (ih : ipv4_header_t) (th : tcp_header_t) : Prop := {
  seg_idx : ips_stack_idx q = 2%nat;
  seg_handlers : length (ips_handlers q) = STACK_DEPTH;
  seg_eth : ips_handlers q !! 0%nat = Some (Some eth);
  seg_ip : ips_handlers q !! 1%nat = Some (Some ip);
  seg_arguments : length (ips_return_args q) = STACK_DEPTH;
  seg_arg_eth : ips_return_args q !! 0%nat = Some (ArgEthernet e);
  seg_arg_ip : ips_return_args q !! 1%nat = Some (ArgIpv4 ia);
  seg_ip_header : ∃ off, ips_packet_pointers q !! 1%nat = Some (Some off) ∧
    decode_ipv4_header_t (drop off (ips_frame q)) = Some ih;
  seg_tcp_header : ∃ off, ips_packet_pointers q !! 2%nat = Some (Some off) ∧
    decode_tcp_header_t (drop off (ips_frame q)) = Some th;
  seg_arg_ok : is_u32 (iwa_destination_ip ia) ∧ is_u8 (iwa_protocol ia)
}.

Definition same_maps (w w' : world) : Prop :=
  w_ethernet_map w' = w_ethernet_map w ∧ w_ip_map w' = w_ip_map w.

(** What a written segment changes: the connection, the wire, and packet stacks. *)
Record reply_effect (w w' : world) (a : addr) (t' : transmission_control_block_t)
    (frame : list Z) : Prop := {
  reply_tcbs : w_tcbs w' = <[a := t']> (w_tcbs w);
  reply_wire : w_wire w' = w_wire w ++ [frame];
  reply_handlers : w_handlers w' = w_handlers w;
  reply_sockets : w_sockets w' = w_sockets w;
  reply_calls : w_calls w' = w_calls w;
  reply_maps : same_maps w w'
}.

(** Replacing a connection by one with the same identifier. *)
Section SameIdentifier.
Variables (w w' : world) (a : addr) (t t' : transmission_control_block_t).
Hypothesis Ht : w_tcbs w !! a = Some t.
Hypothesis Hw' : w_tcbs w' = <[a := t']> (w_tcbs w).

Lemma slots_ok_replace slots : slots_ok w slots → slots_ok w' slots.
Proof.
  intros [Hlive Hnd]. split; [|done]. eapply Forall_impl; [exact Hlive|].
  intros b Hb. rewrite Hw'. destruct (decide (a = b)) as [<-|Hne];
    [by rewrite lookup_insert_eq|by rewrite lookup_insert_ne].
Qed.

Lemma holders_replace slots cid : tcb_id t' = tcb_id t → holders w' slots cid = holders w slots cid.
Proof.
  intros Hid. apply list_filter_ext. intros b _. rewrite Hw'.
  destruct (decide (a = b)) as [<-|Hne]; [|by rewrite lookup_insert_ne].
  rewrite lookup_insert_eq, Ht. simpl. by rewrite Hid.
Qed.
End SameIdentifier.

(** A new connection in a free slot of its socket. *)
Lemma slots_ok_add w w1 slots a t :
  (∀ b, is_Some (w_tcbs w !! b) → (b < a)%nat) → slots_ok w slots → None ∈ slots →
  holders w slots (tcb_id t) = [] → w_tcbs w1 = <[a := t]> (w_tcbs w) →
  slots_ok w1 (add_slot slots a) ∧ head (holders w1 (add_slot slots a) (tcb_id t)) = Some a.
Proof.
  intros Hnext [Hlive Hnd] Hfree Hnew Hw1. rewrite Forall_forall in Hlive.
  assert (w_tcbs w1 !! a = Some t) as Ht by (rewrite Hw1; apply lookup_insert_eq).
  assert (a ∉ omap id slots) as Hfresh by (intros Hb; specialize (Hnext _ (Hlive _ Hb)); lia).
  assert (∀ b, b ∈ omap id slots → w_tcbs w1 !! b = w_tcbs w !! b) as Hsame
    by (intros b Hb; rewrite Hw1, lookup_insert_ne; [done|by intros <-]).
  split.
  - unfold slots_ok. rewrite omap_add_slot, decide_True by done. split; [|by constructor].
    simpl. constructor; [by rewrite Ht|]. apply Forall_forall. intros b Hb. rewrite Hsame; auto.
  - assert (holders w1 (add_slot slots a) (tcb_id t) ≡ₚ [a]) as Hp.
    { rewrite (holders_add w1 _ a t), decide_True by done.
      replace (holders w1 slots (tcb_id t)) with (@nil addr); [done|].
      symmetry. etransitivity; [|exact Hnew]. apply list_filter_ext. intros b Hb. by rewrite Hsame. }
    apply Permutation_singleton_r in Hp. by rewrite Hp.
Qed.

Lemma packet_headers_ok size w ps q eth ip e ia ih th :
  w_in_stacks w !! ps = Some q → segment_in q eth ip e ia ih th → (size <= 20)%nat →
  packet_headers size ps w = Ok ((th, ih), w).
Proof.
  intros Hq Hs Hsize. destruct (seg_tcp_header _ _ _ _ _ _ _ Hs) as (ot & Hot & Hdt).
  destruct (seg_ip_header _ _ _ _ _ _ _ Hs) as (oi & Hoi & Hdi).
  unfold packet_headers. rewrite (bind_load _ _ q) by done. cbv zeta.
  rewrite (seg_idx _ _ _ _ _ _ _ Hs).
  erewrite bind_ok by by apply packet_at_ok. unfold cast.
  rewrite (bind_need _ _ th) by (by apply tcp_header_prefix_full). rewrite bind_ret_l.
  erewrite bind_ok by by apply packet_at_ok. by rewrite (bind_need _ _ ih).
Qed.

Lemma need_header_ok size w ps q eth ip e ia ih th :
  w_in_stacks w !! ps = Some q → segment_in q eth ip e ia ih th → (size <= 20)%nat →
  need_header size ps w = Ok (tt, w).
Proof.
  intros Hq Hs Hsize. unfold need_header.
  by rewrite (bind_ok _ _ _ _ _ (packet_headers_ok size w ps q eth ip e ia ih th Hq Hs Hsize)).
Qed.

(** The next read of the headers of a packet that is there in full. *)
Ltac read_headers Hq Hseg :=
  erewrite bind_ok by
    (first [eapply packet_headers_ok|eapply need_header_ok]; [exact Hq|exact Hseg|
     unfold up_to_ports, up_to_data_offset, up_to_control_bits, up_to_window, up_to_urgent_pointer; lia]).

Section Reply.
Context `{!Platform}.
Variables (n : nat) (eth ip tcp : addr) (i : interface_t).
#[local] Instance d : Dispatch := dispatch (S (S (S n))).

(** The frame of a segment without payload. *)
Definition control_frame (e : ethernet_write_args_t) (ia : ipv4_write_args_t)
    (h : tcp_header_t) : list Z := ip_frame e ia i (encode_tcp_header_t h).

(** The header of a reply, whose payload size is 0. *)
Definition reply_header (t : transmission_control_block_t) (so : tcp_socket_t) (flags : Z)
    : tcp_header_t :=
  let h := tcp_out_header t (sock_port so) flags 0 in
  h <| th_checksum := default 0 (_tcp_calculate_checksum
         (encode_tcp_header_t h ++ tcb_after_header t) (sock_ipv4 so) (tcb_remote_ipv4 t) 0) |>.

(** The buffer of a new out packet stack. *)
Definition empty_out_buffer : out_buffer_t :=
  {| ob_size := DEFAULT_PACKAGE_BUFFER_SIZE; ob_offset := DEFAULT_PACKAGE_BUFFER_SIZE; ob_data := [] |}.

(** Writing a segment without payload, from a packet stack over IPv4 and Ethernet. *)
Lemma control_write_ok w ps p e ia s so a t m flags :
  linked w eth ip tcp → is_u32 (if_ipv4_addr i) →
  segment_ready w ps p 1 s so (tcb_id t) flags a t m ip → ops_out_buffer p = empty_out_buffer →
  ops_handlers p !! 0%nat = Some (Some eth) →
  ops_args p !! 0%nat = Some (ArgEthernet e) → ops_args p !! 1%nat = Some (ArgIpv4 ia) →
  is_u32 (iwa_destination_ip ia) → is_u8 (iwa_protocol ia) →
  tcp_header_t_ok (tcp_out_header t (sock_port so) flags 0) →
  bytes_ok (tcb_after_header t) → is_u32 (sock_ipv4 so) → is_u32 (tcb_remote_ipv4 t) →
  ∃ p2 bb2, bb_repr bb2 [] (S m) ∧
    op_write tcp ps i w =
    Ok (true, w <| w_tcbs ::= <[a := t <| tcb_out_header := reply_header t so flags |>
                                      <| tcb_out_buffer := bb2 |>]> |>
                <| w_out_stacks ::= <[ps := p2]> |>
                <| w_wire ::= λ l, l ++ [control_frame e ia (reply_header t so flags)] |>).
Proof.
  intros Hln Hown Hready Hbuf Heth Hae Hai Hdst Hpr Hok Haft Hsip Hrip.
  pose proof (tcp_checksum_value_20 _ _ _ _ Hok eq_refl Haft Hsip Hrip) as Hc.
  set (c := rfc1071_checksum (segment_words (sock_ipv4 so) (tcb_remote_ipv4 t)
              (tcp_out_header t (sock_port so) flags 0))) in Hc.
  assert (payload_size p = 0) as Hpay by (unfold payload_size; by rewrite Hbuf).
  assert (written_header p so flags t = tcp_out_header t (sock_port so) flags 0) as Hwh
    by (unfold written_header; by rewrite Hpay).
  assert (reply_header t so flags = sent_header p so flags t c) as Hrh.
  { unfold reply_header, sent_header. cbv zeta. by rewrite Hc, Hwh. }
  assert (tcp_header_t_ok (reply_header t so flags)) as Hokr.
  { rewrite Hrh. unfold sent_header. rewrite Hwh.
    assert (is_u16 c) by by apply rfc1071_checksum_range, segment_words_range.
    destruct Hok as (? & ? & ? & ? & ? & ? & ? & _ & ?). by split_and!. }
  assert (ob_data (ops_out_buffer (sent_stack p 1 so flags t c)) =
          encode_tcp_header_t (reply_header t so flags)) as Hdata.
  { rewrite Hrh.
    change (encode_tcp_header_t (sent_header p so flags t c) ++ ob_data (ops_out_buffer p) =
            encode_tcp_header_t (sent_header p so flags t c)). rewrite Hbuf. apply app_nil_r. }
  destruct (@tcp_write_ready (dispatch (S (S n))) w ps i p 1 s so (tcb_id t) flags a t m ip c
    (control_frame e ia (reply_header t so flags))) as (p2 & bb2 & Hbb2 & Hw); try done.
  { unfold written_checksum. rewrite Hwh, Hpay. exact Hc. }
  { rewrite Hpay. change (u16 0) with 0. apply ntohs_range. }
  { unfold control_frame. rewrite <- Hdata. apply (ip_transmits n w eth ip tcp); try done.
    - unfold sent_stack, set_field. simpl. rewrite Hbuf. done.
    - unfold sent_stack, set_field. simpl. rewrite Hbuf. done.
    - rewrite Hdata. by apply encode_tcp_bytes_ok. }
  exists p2, bb2. split; [done|]. destruct Hln as [_ _ (ht & Hht & Hkt)].
  cbn [d dispatch op_write]. rewrite (bind_load _ _ ht), Hkt by done. cbn [write_operation].
  etransitivity; [exact Hw|]. unfold sent_tcb. rewrite Hpay, <- Hrh. done.
Qed.

Lemma segment_reply_ok w ps q e ia ih th s so a t m flags :
  linked w eth ip tcp → is_u32 (if_ipv4_addr i) →
  w_in_stacks w !! ps = Some q → segment_in q eth ip e ia ih th →
  w_sockets w !! s = Some so → slots_ok w (sock_trans_control_block so) →
  tcb_id t ≠ 0 → head (holders w (sock_trans_control_block so) (tcb_id t)) = Some a →
  w_tcbs w !! a = Some t → bb_repr (tcb_out_buffer t) [] (S m) →
  tcp_header_t_ok (tcp_out_header t (sock_port so) flags 0) →
  bytes_ok (tcb_after_header t) → is_u32 (sock_ipv4 so) → is_u32 (tcb_remote_ipv4 t) →
  ∃ bb2 w' q', bb_repr bb2 [] (S m) ∧
    segment_reply tcp a ps (Some s) flags i w = Ok (tt, w') ∧
    reply_effect w w' a (t <| tcb_out_header := reply_header t so flags |> <| tcb_out_buffer := bb2 |>)
      (control_frame e ia (reply_header t so flags)) ∧
    w_in_stacks w' = <[ps := q']> (w_in_stacks w) ∧ segment_in q' eth ip e ia ih th ∧
    ips_packet_pointers q' = ips_packet_pointers q ∧ ips_handlers q' = ips_handlers q.
Proof.
  intros Hln Hown Hq Hs Hso Hslots Hid Hhead Ha Hbb Hok Haft Hsip Hrip.
  pose proof Hs as [Hidx Hlh Heth Hip Hla Hae Hai Hih Hth [Hdst Hpr]]. unfold STACK_DEPTH in *.
  set (arg := ArgTcp {| twa_connection_id := tcb_id t; twa_socket := Some s; twa_flags := flags |}).
  set (q' := q <| ips_return_args := <[2%nat := arg]> (ips_return_args q) |>).
  set (p := {| ops_handlers := ips_handlers q'; ops_args := ips_return_args q';
               ops_out_buffer := empty_out_buffer; ops_stack_idx := 2%nat |}).
  set (w1 := w <| w_in_stacks ::= <[ps := q']> |>).
  set (w2 := w1 <| w_out_stacks ::= <[w_next w1 := p]> |> <| w_next := S (w_next w1) |>).
  destruct (control_write_ok w2 (w_next w1) p e ia s so a t m flags)
    as (p2 & bb2 & Hbb2 & Hw); try done.
  { by destruct Hln. }
  { split; try done; [apply lookup_insert_eq|]. simpl. rewrite list_lookup_insert_eq; [done|lia]. }
  { simpl. by rewrite list_lookup_insert_ne by lia. }
  { simpl. by rewrite list_lookup_insert_ne by lia. }
  eexists bb2, _, q'. split; [done|]. split; [|split; [|split; [|split]]].
  - unfold segment_reply. rewrite (bind_load _ _ t), (bind_load _ _ q) by done.
    rewrite Hidx. unfold tcp_internal_write. cbv zeta. rewrite (bind_load _ _ q) by done.
    rewrite (bind_need _ _ (<[2%nat := arg]> (ips_return_args q))) by (apply set_array_Some; lia).
    rewrite (bind_update _ _ _ q) by done.
    unfold handler_create_out_package_stack. erewrite bind_then by (apply load_ok, lookup_insert_eq).
    erewrite bind_ok by reflexivity. by rewrite (bind_ok _ _ _ _ _ Hw).
  - by split.
  - done.
  - split; [exact Hidx|exact Hlh|exact Heth|exact Hip| | | |exact Hih|exact Hth|done].
    + simpl. by rewrite length_insert.
    + simpl. by rewrite list_lookup_insert_ne by lia.
    + simpl. by rewrite list_lookup_insert_ne by lia.
  - done.
Qed.

(** ** The first segment of a connection *)

Lemma packet_socket_ok w h p ih th :
  w_handlers w !! tcp = Some h → h_priv h = PrivTcp p →
  Forall (λ b, is_Some (w_sockets w !! b)) (registered (tp_tcp_sockets p)) →
  packet_socket tcp ih th w =
  Ok (head (filter (listens w (ip_destination_ip ih) (th_destination_port th))
              (registered (tp_tcp_sockets p))), w).
Proof.
  intros Hh Hp Hl. unfold packet_socket, tcp_get_socket. rewrite (bind_load _ _ h) by done.
  unfold as_tcp_priv. rewrite Hp, bind_ret_l. by apply find_socket_spec.
Qed.

(** The connection when its SYN has been taken, before the answer. *)
Definition syn_received (t : transmission_control_block_t) (th : tcp_header_t)
    : transmission_control_block_t :=
  t <| tcb_receive_initial_sequence_num := ntohl (th_sequence_num th) |>
    <| tcb_receive_next := u32 (ntohl (th_sequence_num th) + 1) |>
    <| tcb_receive_urgent_pointer := 0 |>
    <| tcb_state := SYN_RECEIVED |>
    <| tcb_state_function := fn_tcp_others |>
    <| tcb_send_next := tcb_send_initial_sequence_num t |>.

Lemma tcp_listen_syn_ok w ps q e ia ih th ht p s so a t sg m mo k :
  linked w eth ip tcp → is_u32 (if_ipv4_addr i) →
  w_in_stacks w !! ps = Some q → segment_in q eth ip e ia ih th →
  w_handlers w !! tcp = Some ht → h_priv ht = PrivTcp p →
  Forall (λ b, is_Some (w_sockets w !! b)) (registered (tp_tcp_sockets p)) →
  head (filter (listens w (ip_destination_ip ih) (th_destination_port th))
          (registered (tp_tcp_sockets p))) = Some s →
  w_sockets w !! s = Some so → slots_ok w (sock_trans_control_block so) →
  tcb_id t ≠ 0 → head (holders w (sock_trans_control_block so) (tcb_id t)) = Some a →
  w_tcbs w !! a = Some t → bb_repr (tcb_out_buffer t) [] (S mo) →
  bb_repr (tcb_in_buffer t) [sg] m → seg_data sg = ps →
  flag_set (th_control_bits th) TCP_RST_FLAG = false →
  flag_set (th_control_bits th) TCP_ACK_FLAG = false →
  tcp_header_t_ok (tcp_out_header (syn_received t th) (sock_port so) 18 0) →
  bytes_ok (tcb_after_header t) → is_u32 (sock_ipv4 so) → is_u32 (tcb_remote_ipv4 t) →
  let h := reply_header (syn_received t th) so 18 in
  ∃ w' bbi bbo, tcp_listen tcp a (S k) i w = Ok (Some 0, w') ∧
    bb_repr bbo [] (S mo) ∧ bb_repr bbi [] (S m) ∧
    reply_effect w w' a
      ((syn_received t th) <| tcb_out_header := h |> <| tcb_out_buffer := bbo |>
         <| tcb_send_unacknowledged := tcb_send_initial_sequence_num t |>
         <| tcb_send_next := u32 (tcb_send_initial_sequence_num t + 1) |>
         <| tcb_in_buffer := bbi |>)
      (control_frame e ia h) ∧
    ∃ q', w_in_stacks w' = <[ps := q']> (w_in_stacks w).
Proof.
  intros Hln Hown Hq Hs Hht Hp Hl Hf Hso Hslots Hid Hhead Ha Hbo Hbi Hsd Hrst Hack Hok Haft Hsip Hrip h.
  unfold tcp_listen. erewrite bind_ok by by eapply head_packet_ok. rewrite Hsd.
  read_headers Hq Hs. cbv beta iota zeta.
  erewrite bind_ok by by eapply packet_socket_ok. rewrite Hf, (bind_load _ _ t) by done.
  rewrite Hrst, Hack. assert (negb (Z.lor (th_control_bits th) 1 =? 0) = true) as ->.
  { destruct (Z.eqb_spec (Z.lor (th_control_bits th) 1) 0) as [E|]; [|done].
    by apply Z.lor_eq_0_iff in E as [_ ?]. }
  unfold set_tcb. rewrite bind_assoc, (bind_update _ _ _ t) by done.
  match goal with |- context [<[a := ?x]>] => change x with (syn_received t th) end.
  set (w1 := w <| w_tcbs ::= <[a := syn_received t th]> |>).
  destruct (segment_reply_ok w1 ps q e ia ih th s so a (syn_received t th) mo 18)
    as (bbo & w2 & q' & Hbo2 & Hr & [Htcb Hwire Hhs Hss Hcs] & Hins & _); try done.
  { by destruct Hln. }
  { by eapply slots_ok_replace. }
  { by erewrite holders_replace. }
  { apply lookup_insert_eq. }
  fold h in Hr, Htcb, Hwire.
  rewrite bind_assoc. erewrite bind_ok by exact Hr.
  rewrite bind_update with (x := (syn_received t th) <| tcb_out_header := h |> <| tcb_out_buffer := bbo |>)
    by (rewrite Htcb; apply lookup_insert_eq).
  match goal with |- context [<[a := ?x]>] => set (t2 := x) end.
  set (w3 := w2 <| w_tcbs ::= <[a := t2]> |>).
  destruct (drop_head_ok w3 a t2 sg [] m) as (bbi & Hbi2 & Hd).
  { apply lookup_insert_eq. }
  { exact Hbi. }
  erewrite bind_ok by exact Hd. eexists _, bbi, bbo. split; [reflexivity|].
  split; [done|]. split; [done|]. split; [|by exists q']. split; simpl; try done.
  rewrite Htcb. simpl. rewrite !insert_insert_eq. done.
Qed.
End Reply.

Section PassiveOpen.
Context `{!Platform}.
Variables (n : nat) (eth ip tcp : addr) (i : interface_t).
#[local] Instance d' : Dispatch := dispatch (S (S (S n))).

(** The connection [tcp_read] creates for a SYN, from the next sequence number. *)
Definition new_tcb (w : world) (p : tcp_priv_t) (ih : ipv4_header_t) (th : tcp_header_t)
    : transmission_control_block_t :=
  let iss := u32 (42 + (w_x w + 100)) in
  {| tcb_id := tcb_header_to_connection_id ih th;
     tcb_remote_ipv4 := ip_source_ip ih;
     tcb_remote_port := th_source_port th;
     tcb_send_unacknowledged := 0;
     tcb_send_next := iss;
     tcb_send_window := th_window th;
     tcb_send_urgent_pointer := 0;
     tcb_send_initial_sequence_num := iss;
     tcb_send_last_update_sequence_num := 0;
     tcb_send_last_update_acknowledgement_num := 0;
     tcb_receive_next := ntohl (th_sequence_num th);
     tcb_receive_window := u16 (tp_window p);
     tcb_receive_urgent_pointer := th_urgent_pointer th;
     tcb_receive_initial_sequence_num := ntohl (th_sequence_num th);
     tcb_fin_num := 0;
     tcb_state := LISTEN;
     tcb_active_mode := raw_tcb_active_mode;
     tcb_active_mode_args := raw_tcb_active_mode_args;
     tcb_out_buffer := create_tcp_block_buffer raw_cells 10;
     tcb_in_buffer := create_tcp_block_buffer raw_cells 10;
     tcb_out_header := raw_tcb_header;
     tcb_after_header := raw_tcb_after_header;
     tcb_state_function := fn_tcp_listen |}.

(** What the allocator has to leave for the created connection. *)
Definition platform_ok : Prop :=
  length raw_cells = S TCP_BLOCK_BUFFER_DEFAULT_SIZE ∧ bytes_ok raw_tcb_after_header ∧
  is_u16 (th_checksum raw_tcb_header).

(** A SYN for a listening socket without a connection for it. *)
Record syn_arrives (w : world) (ps : addr) (q : in_packet_stack_t) (e : ethernet_write_args_t)
    (ia : ipv4_write_args_t) (ih : ipv4_header_t) (th : tcp_header_t) (p : tcp_priv_t)
    (s : addr) (so : tcp_socket_t) : Prop := {
  syn_platform : platform_ok;
  syn_linked : linked w eth ip tcp;
  syn_next : ∀ a, is_Some (w_tcbs w !! a) → (a < w_next w)%nat;
  syn_stack : w_in_stacks w !! ps = Some q;
  syn_segment : segment_in q eth ip e ia ih th;
  syn_frame : bytes_ok (ips_frame q);
  syn_handler : ∃ h, w_handlers w !! tcp = Some h ∧ h_priv h = PrivTcp p;
  syn_sockets : Forall (λ b, is_Some (w_sockets w !! b)) (registered (tp_tcp_sockets p));
  syn_listens : head (filter (listens w (ip_destination_ip ih) (th_destination_port th))
                  (registered (tp_tcp_sockets p))) = Some s;
  syn_socket : w_sockets w !! s = Some so;
  syn_slots : slots_ok w (sock_trans_control_block so);
  syn_free : None ∈ sock_trans_control_block so;
  syn_new : holders w (sock_trans_control_block so) (tcb_header_to_connection_id ih th) = [];
  syn_id : tcb_header_to_connection_id ih th ≠ 0;
  syn_flags : flag_set (th_control_bits th) TCP_SYN_FLAG = true ∧
              flag_set (th_control_bits th) TCP_ACK_FLAG = false ∧
              flag_set (th_control_bits th) TCP_RST_FLAG = false;
  syn_own : is_u32 (if_ipv4_addr i) ∧ is_u32 (sock_ipv4 so) ∧ is_u16 (sock_port so)
}.

Lemma create_tcb_ok w h p ih th :
  w_handlers w !! tcp = Some h → h_priv h = PrivTcp p →
  tcp_create_transmission_control_block tcp (tcb_header_to_connection_id ih th) (Some th)
    (ip_source_ip ih) LISTEN w =
  Ok (w_next w, w <| w_x := w_x w + 100 |> <| w_tcbs ::= <[w_next w := new_tcb w p ih th]> |>
                  <| w_next := S (w_next w) |>).
Proof.
  intros Hh Hp. unfold tcp_create_transmission_control_block. rewrite (bind_load _ _ h) by done.
  erewrite bind_ok by reflexivity. unfold as_tcp_priv. rewrite Hp, bind_ret_l. done.
Qed.

(** The memory when the connection has been created and added to its socket. *)
Lemma tcp_read_connection_ok w ps q e ia ih th p s so :
  syn_arrives w ps q e ia ih th p s so →
  ∃ w', tcp_read_connection tcp s ps (tcb_header_to_connection_id ih th) ih th w =
    Ok (Some (w_next w), w') ∧
    w_tcbs w' = <[w_next w := new_tcb w p ih th]> (w_tcbs w) ∧
    (∃ so', w_sockets w' = <[s := so']> (w_sockets w) ∧
       so' = so <| sock_trans_control_block ::= λ l, add_slot l (w_next w) |> ∧
       slots_ok w' (sock_trans_control_block so') ∧
       head (holders w' (sock_trans_control_block so') (tcb_header_to_connection_id ih th))
         = Some (w_next w)) ∧
    w_handlers w' = w_handlers w ∧ w_in_stacks w' = w_in_stacks w ∧ w_wire w' = w_wire w ∧ same_maps w w'.
Proof.
  intros Hs. destruct Hs as [_ _ Hnext Hq Hseg _ (h & Hh & Hp) _ _ Hso Hslots Hfree Hnew Hid (Hsyn & _ & _) _].
  unfold tcp_read_connection. erewrite bind_ok by by eapply get_tcb_spec. rewrite Hnew. cbn [head].
  read_headers Hq Hseg. rewrite Hsyn.
  read_headers Hq Hseg.
  erewrite bind_ok by by eapply create_tcb_ok.
  unfold tcp_add_transmission_control_block. rewrite (bind_update _ _ _ so) by done.
  set (t := new_tcb w p ih th). set (so' := so <| sock_trans_control_block ::= λ l, add_slot l (w_next w) |>).
  eexists. split; [reflexivity|]. split; [done|]. split; [|done].
  exists so'. split; [done|]. split; [done|].
  apply (slots_ok_add w _ _ _ t); try done.
Qed.

(** [tcp_read] enters itself into the packet stack first. *)
Lemma enter_handler w ps q e ia ih th p s so :
  syn_arrives w ps q e ia ih th p s so →
  let q' := q <| ips_handlers := <[2%nat := Some tcp]> (ips_handlers q) |> in
  syn_arrives (w <| w_in_stacks ::= <[ps := q']> |>) ps q' e ia ih th p s so.
Proof.
  intros [] q'. split; simpl; try done.
  - destruct syn_linked0. by split.
  - apply lookup_insert_eq.
  - destruct syn_segment0. split; simpl; try done.
    + by rewrite length_insert.
    + by rewrite list_lookup_insert_ne.
    + by rewrite list_lookup_insert_ne.
Qed.

(** The header of the answer is well-formed. *)
Lemma syn_answer_ok w ps q e ia ih th p s so :
  syn_arrives w ps q e ia ih th p s so →
  tcp_header_t_ok (tcp_out_header (syn_received (new_tcb w p ih th) th) (sock_port so) 18 0) ∧
  is_u32 (ip_source_ip ih).
Proof.
  intros []. destruct syn_segment0 as [_ _ _ _ _ _ _ (oi & _ & Hdi) (ot & _ & Hdt) _].
  destruct syn_platform0 as (_ & _ & Hck). destruct syn_own0 as (_ & _ & Hport).
  assert (∀ k, bytes_ok (drop k (ips_frame q))) as Hdrop by (intros k; by apply Forall_drop).
  apply decode_ipv4_ok in Hdi as Hoki; [|done]. apply decode_tcp_ok in Hdt as Hokt; [|done].
  split; [|apply Hoki]. destruct Hokt as (Hsp & _).
  unfold tcp_out_header, tcp_header_t_ok. simpl.
  split_and!; auto with net; range.
Qed.

(** Queueing the segment makes it ready. *)
Lemma queue_one raw size data seqnum :
  length raw = S TCP_BLOCK_BUFFER_DEFAULT_SIZE →
  ∃ j bb, tcp_block_buffer_add (create_tcp_block_buffer raw 10) data seqnum size = Ok (Some j, bb) ∧
    bb_repr bb [{| seg_seq := ntohl seqnum; seg_size := size; seg_data := data |}]
      TCP_BLOCK_BUFFER_DEFAULT_SIZE ∧
    tcp_block_buffer_num_ready bb (ntohl seqnum) = Ok 1.
Proof.
  intros Hraw. destruct (create_repr raw 10 Hraw) as [Hc _].
  destruct (add_repr _ _ _ data seqnum size Hc I) as (j & bb & Hadd & _ & Hbb).
  exists j, bb. split; [done|]. split; [done|].
  rewrite (num_ready_repr _ _ _ _ Hbb) by done. simpl. by rewrite Z.eqb_refl.
Qed.

(** A socket whose slots changed still has its address. *)
Lemma sockets_replaced w w' s so slots l ipv4 port :
  w_sockets w !! s = Some so →
  w_sockets w' = <[s := so <| sock_trans_control_block := slots |>]> (w_sockets w) →
  Forall (λ b, is_Some (w_sockets w !! b)) l →
  Forall (λ b, is_Some (w_sockets w' !! b)) l ∧
  filter (listens w' ipv4 port) l = filter (listens w ipv4 port) l.
Proof.
  intros Hso Hw Hl. split.
  - eapply Forall_impl; [exact Hl|]. intros b Hb. rewrite Hw.
    destruct (decide (s = b)) as [->|]; [by rewrite lookup_insert_eq|by rewrite lookup_insert_ne].
  - apply list_filter_ext. intros b _. unfold listens. rewrite Hw.
    destruct (decide (s = b)) as [->|]; [|by rewrite lookup_insert_ne].
    by rewrite lookup_insert_eq, Hso.
Qed.

(** [tcp_read] up to the queue of the connection, for a packet stack it has entered itself into. *)
Lemma tcp_read_queues w ps q e ia ih th p s a w2 :
  w_in_stacks w !! ps = Some q → segment_in q eth ip e ia ih th →
  let q1 := q <| ips_handlers := <[2%nat := Some tcp]> (ips_handlers q) |> in
  let w1 := w <| w_in_stacks ::= <[ps := q1]> |> in
  segment_in q1 eth ip e ia ih th → (∃ h, w_handlers w !! tcp = Some h ∧ h_priv h = PrivTcp p) →
  Forall (λ b, is_Some (w_sockets w !! b)) (registered (tp_tcp_sockets p)) →
  head (filter (listens w1 (ip_destination_ip ih) (th_destination_port th))
    (registered (tp_tcp_sockets p))) = Some s →
  tcp_read_connection tcp s ps (tcb_header_to_connection_id ih th) ih th w1 = Ok (Some a, w2) →
  tcp_read ps i tcp w = tcp_read_segment tcp a ps ih th i w2.
Proof.
  intros Hq Hseg0 q1 w1 Hseg (h & Hh & Hp) Hlive Hl Hconn.
  unfold tcp_read. rewrite (bind_load _ _ q) by done. rewrite (seg_idx _ _ _ _ _ _ _ Hseg0).
  rewrite (bind_need _ _ (<[2%nat := Some tcp]> (ips_handlers q))); last first.
  { apply set_array_Some. rewrite (seg_handlers _ _ _ _ _ _ _ Hseg0). unfold STACK_DEPTH. lia. }
  rewrite (bind_update _ _ _ q) by done. change (w <| w_in_stacks ::= <[ps := _]> |>) with w1.
  assert (w_in_stacks w1 !! ps = Some q1) as Hq1 by apply lookup_insert_eq.
  read_headers Hq1 Hseg. cbv beta iota zeta.
  rewrite (bind_ok _ _ _ _ _ (packet_socket_ok tcp w1 h p ih th Hh Hp Hlive)), Hl.
  by rewrite (bind_ok _ _ _ _ _ Hconn).
Qed.

(** A first segment, in sequence, is handed to the state function at once. *)
Lemma tcp_read_segment_first w a t ps ih th :
  need_header up_to_data_offset ps w = Ok (tt, w) →
  w_tcbs w !! a = Some t → length raw_cells = S TCP_BLOCK_BUFFER_DEFAULT_SIZE →
  tcb_in_buffer t = create_tcp_block_buffer raw_cells 10 → tcb_state t ≠ SYN_SENT →
  tcb_receive_next t = ntohl (th_sequence_num th) →
  ∃ bb, bb_repr bb [{| seg_seq := ntohl (th_sequence_num th);
                       seg_size := tcp_get_payload_length ih th; seg_data := ps |}]
          TCP_BLOCK_BUFFER_DEFAULT_SIZE ∧
    tcp_read_segment tcp a ps ih th i w =
    call_state_function (tcb_state_function t) tcp a 1 i
      (w <| w_tcbs ::= <[a := t <| tcb_in_buffer := bb |>]> |>).
Proof.
  intros Hh Ht Hraw Hin Hst Hn.
  destruct (queue_one raw_cells (tcp_get_payload_length ih th) ps (th_sequence_num th) Hraw)
    as (j & bb & Hadd & Hbb & Hready).
  exists bb. split; [done|]. unfold tcp_read_segment. rewrite (bind_ok _ _ _ _ _ Hh). cbv zeta.
  rewrite (bind_load _ _ t) by done.
  rewrite Hin, (bind_lift _ _ _ _ Hadd). rewrite (bind_update _ _ _ t) by done.
  rewrite bool_decide_eq_false_2 by done. cbn [when snd]. erewrite bind_ok by reflexivity.
  rewrite (bind_load _ _ (t <| tcb_in_buffer := bb |>)) by apply lookup_insert_eq.
  rewrite (bind_lift _ 1); [done|]. change (tcb_receive_next (t <| tcb_in_buffer := bb |>)) with (tcb_receive_next t).
  by rewrite Hn.
Qed.

(** The connection when its SYN has been answered. *)
Definition syn_answered_tcb (t : transmission_control_block_t) (th : tcp_header_t) (so : tcp_socket_t)
    (bbi bbo : tcp_block_buffer_t) : transmission_control_block_t :=
  (syn_received t th) <| tcb_out_header := reply_header (syn_received t th) so 18 |>
    <| tcb_out_buffer := bbo |>
    <| tcb_send_unacknowledged := tcb_send_initial_sequence_num t |>
    <| tcb_send_next := u32 (tcb_send_initial_sequence_num t + 1) |>
    <| tcb_in_buffer := bbi |>.

(** The memory when a SYN has been answered: the connection is in its slot, and the packet stack
    of the segment is still there. *)
Record syn_answered (w w' : world) (ps : addr) (e : ethernet_write_args_t) (ia : ipv4_write_args_t)
    (th : tcp_header_t) (t : transmission_control_block_t) (s : addr) (so so' : tcp_socket_t)
    (bbi bbo : tcp_block_buffer_t) : Prop := {
  sa_wire : w_wire w' = w_wire w ++ [control_frame i e ia (reply_header (syn_received t th) so 18)];
  sa_tcbs : w_tcbs w' = <[w_next w := syn_answered_tcb t th so bbi bbo]> (w_tcbs w);
  sa_sockets : w_sockets w' = <[s := so']> (w_sockets w);
  sa_socket : so' = so <| sock_trans_control_block ::= λ l, add_slot l (w_next w) |>;
  sa_slots : slots_ok w' (sock_trans_control_block so');
  sa_holder : head (holders w' (sock_trans_control_block so') (tcb_id t)) = Some (w_next w);
  sa_handlers : w_handlers w' = w_handlers w;
  sa_stack : ∃ q', w_in_stacks w' = <[ps := q']> (w_in_stacks w);
  sa_in : bb_repr bbi [] (S TCP_BLOCK_BUFFER_DEFAULT_SIZE);
  sa_out : bb_repr bbo [] (S TCP_BLOCK_BUFFER_DEFAULT_SIZE);
  sa_maps : same_maps w w'
}.

Lemma tcp_read_syn_ok w ps q e ia ih th p s so :
  syn_arrives w ps q e ia ih th p s so →
  let t := new_tcb w p ih th in
  ∃ w' so' bbi bbo, tcp_read ps i tcp w = Ok (Some 0, w') ∧
    syn_answered w w' ps e ia th t s so so' bbi bbo.
Proof.
  intros Hs0 t. set (h := reply_header (syn_received t th) so 18). pose proof (enter_handler _ _ _ _ _ _ _ _ _ _ Hs0) as Hs. cbv zeta in Hs.
  set (q1 := q <| ips_handlers := <[2%nat := Some tcp]> (ips_handlers q) |>) in Hs.
  set (w1 := w <| w_in_stacks ::= <[ps := q1]> |>) in Hs.
  destruct (tcp_read_connection_ok _ _ _ _ _ _ _ _ _ _ Hs)
    as (w2 & Hconn & Htcbs & (so' & Hso' & Eso & Hslots' & Hhead') & Hhs & Hins & Hwire & Hms).
  destruct (syn_answer_ok _ _ _ _ _ _ _ _ _ _ Hs) as [Hok Hrip].
  destruct Hs as [(Hraw & Haft & _) Hln _ Hq1 Hseg _ (ht & Hht & Hp) Hlive Hlist Hso _ _ _ Hid
                  (_ & Hack & Hrst) (Hown & Hsip & _)].
  destruct Hs0 as [_ _ _ Hq Hseg0 _ _ _ _ _ _ _ _ _ _ _].
  assert (w_tcbs w2 !! w_next w = Some t) as Ht2 by (rewrite Htcbs; apply lookup_insert_eq).
  destruct (tcp_read_segment_first w2 (w_next w) t ps ih th) as (bb & Hbb & Hqueue); try done.
  { eapply need_header_ok; [by rewrite Hins|done|unfold up_to_data_offset; lia]. }
  set (tq := t <| tcb_in_buffer := bb |>) in *. set (w3 := w2 <| w_tcbs ::= <[w_next w := tq]> |>) in *.
  destruct (sockets_replaced w1 w3 s so (sock_trans_control_block so')
    (registered (tp_tcp_sockets p)) (ip_destination_ip ih)
    (th_destination_port th) Hso) as [Hlive3 Hfilter]; [by subst so'|exact Hlive|].
  destruct (tcp_listen_syn_ok n eth ip tcp i w3 ps q1 e ia ih th ht p s so' (w_next w) tq
    {| seg_seq := ntohl (th_sequence_num th); seg_size := tcp_get_payload_length ih th; seg_data := ps |}
    TCP_BLOCK_BUFFER_DEFAULT_SIZE TCP_BLOCK_BUFFER_DEFAULT_SIZE 0)
    as (w' & bbi & bbo & Hrun & Hbo & Hbi & [Ht' Hw' Hhs' Hss' _ Hms'] & q' & Hins'); try done;
    try (by subst so'); try apply lookup_insert_eq;
    [destruct Hln; split; simpl; by rewrite Hhs|simpl; by rewrite Hins|simpl; by rewrite Hhs
    |by rewrite Hfilter|simpl; rewrite Hso'; apply lookup_insert_eq|by eapply slots_ok_replace
    |by erewrite holders_replace|by apply create_repr|].
  assert (reply_header (syn_received tq th) so' 18 = h) as Hh by by subst so'. rewrite Hh in *.
  exists w', so', bbi, bbo. split.
  { rewrite (tcp_read_queues w ps q e ia ih th p s (w_next w) w2) by (done || by exists ht).
    exact (eq_trans Hqueue Hrun). }
  split; try done.
  - rewrite Hw'. change (w_wire w3) with (w_wire w2). by rewrite Hwire.
  - rewrite Ht'. simpl. rewrite Htcbs, !insert_insert_eq. by subst so'.
  - by rewrite Hss'.
  - eapply slots_ok_replace; [exact Ht'|]. by eapply (slots_ok_replace w2 w3).
  - erewrite (holders_replace w3 w' _ tq); [|apply lookup_insert_eq|exact Ht'|done].
    erewrite (holders_replace w2 w3 _ t) by done. exact Hhead'.
  - rewrite Hhs'. exact Hhs.
  - exists q'. rewrite Hins'. simpl. rewrite Hins. simpl. by rewrite insert_insert_eq.
  - destruct Hms as [He Hi], Hms' as [He' Hi']. split; [exact (eq_trans He' He)|exact (eq_trans Hi' Hi)].
Qed.
End PassiveOpen.

(** Passive open.  A SYN for a listening socket that has a free slot and no connection for
    it makes [tcp_read] create the connection under its identifier, and answer with
    exactly one frame: a SYN-ACK from the socket's port to the sender's, with the
    connection's initial sequence number and an acknowledgement of the SYN, in an IPv4
    datagram to the sender.  The connection is then in SYN_RECEIVED, waits for the octet
    behind the SYN, has counted its own SYN as sent, and has both buffers empty. *)
Lemma passive_open `{!Platform} n eth ip tcp i w ps q e ia ih th p s so :
  syn_arrives eth ip tcp i w ps q e ia ih th p s so →
  let iss := u32 (42 + (w_x w + 100)) in
  ∃ w' t' h, tcp_read (H0 := dispatch (S (S (S n)))) ps i tcp w = Ok (Some 0, w') ∧
    w_wire w' = w_wire w ++ [control_frame i e ia h] ∧
    (th_source_port h = sock_port so ∧ th_destination_port h = th_source_port th ∧
     th_control_bits h = Z.lor TCP_ACK_FLAG TCP_SYN_FLAG ∧ th_sequence_num h = htonl iss ∧
     th_acknowledgement_num h = htonl (u32 (ntohl (th_sequence_num th) + 1))) ∧
    tcp_get_transmission_control_block s (tcb_header_to_connection_id ih th) w' =
      Ok (Some (w_next w), w') ∧
    w_tcbs w' !! w_next w = Some t' ∧
    tcb_state t' = SYN_RECEIVED ∧ tcb_state_function t' = fn_tcp_others ∧
    tcb_receive_next t' = u32 (ntohl (th_sequence_num th) + 1) ∧
    tcb_send_unacknowledged t' = iss ∧ tcb_send_next t' = u32 (iss + 1) ∧
    (∃ m, bb_repr (tcb_in_buffer t') [] m) ∧ (∃ m, bb_repr (tcb_out_buffer t') [] m).
Proof.
  intros Hs iss. destruct (tcp_read_syn_ok n eth ip tcp i w ps q e ia ih th p s so Hs)
    as (w' & so' & bbi & bbo & Hr & [Hw Ht Hso Eso Hslots Hhead _ _ Hbi Hbo _]).
  eexists w', _, _. split; [exact Hr|]. split; [exact Hw|]. split; [done|]. split.
  { rewrite (get_tcb_spec w' s so'); [by do 2 f_equal|by rewrite Hso; apply lookup_insert_eq|done]. }
  split; [rewrite Ht; apply lookup_insert_eq|]. simpl. split_and!; eauto.
Qed.
