(* ===== verification/Transfer.v ===== *)
(** * Transfer: segments of a connection that is opening, open or closing

    What [tcp_others] does with the segment at the head of the queue: the last step of the
    handshake, data, and the FIN of the peer, with the handlers as the stack links them. *)

From S2P Require Import Prelude Headers Checksum ProtocolMap BlockBuffer State.
From S2P Require Import Ethernet Ipv4 TcpShared TcpSocket TcpStates Tcp TcpOutput Arp Llc Custom Stack.
From S2P Require Import Handshake.

(** ** Updates of a connection *)

Lemma set_tcb_ok a f t w :
  w_tcbs w !! a = Some t → set_tcb a f w = Ok (tt, w <| w_tcbs ::= <[a := f t]> |>).
Proof. apply update_ok. Qed.

Lemma world_tcbs_id w a t : w_tcbs w !! a = Some t → w <| w_tcbs ::= <[a := t]> |> = w.
Proof. intros Ht. destruct w. unfold set_field. simpl in *. by rewrite insert_id. Qed.

Lemma when_set_tcb_ok (b : bool) a f t w :
  w_tcbs w !! a = Some t →
  when b (set_tcb a f) w = Ok (tt, w <| w_tcbs ::= <[a := if b then f t else t]> |>).
Proof. intros Ht. destruct b; [by apply set_tcb_ok|]. by rewrite world_tcbs_id. Qed.

(** The same behind a read of the header. *)
Lemma when_header_set_tcb_ok (b : bool) (m : M world unit) a f t w :
  m w = Ok (tt, w) → w_tcbs w !! a = Some t →
  when b (m;;; set_tcb a f) w = Ok (tt, w <| w_tcbs ::= <[a := if b then f t else t]> |>).
Proof.
  intros Hm Ht. destruct b; [|exact (when_set_tcb_ok false a f t w Ht)]. cbn [when].
  by rewrite (bind_ok _ _ _ _ _ Hm), (set_tcb_ok a f t).
Qed.

Lemma world_tcbs_twice w a t t' :
  w <| w_tcbs ::= <[a := t]> |> <| w_tcbs ::= <[a := t']> |> = w <| w_tcbs ::= <[a := t']> |>.
Proof. unfold set_field. simpl. by rewrite insert_insert_eq. Qed.

(** ** The acknowledgement of a segment *)

(** What an ACK tells an open connection: the octets that arrived, and the window if the
    segment is not older than the last one the window was taken from. *)
Definition acknowledged (t : transmission_control_block_t) (th : tcp_header_t)
    : transmission_control_block_t :=
  let ack := ntohl (th_acknowledgement_num th) in
  let seq := ntohl (th_sequence_num th) in
  let ackOk := (ack <=? tcb_send_next t) && (tcb_send_unacknowledged t <? ack) in
  let t1 :=
    if (ackOk || (ack =? tcb_send_unacknowledged t)) && is_window_update t seq ack
    then t <| tcb_send_window := ntohs (th_window th) |> <| tcb_send_last_update_sequence_num := seq |>
    else t in
  if ackOk then t1 <| tcb_send_unacknowledged := ack |> else t1.

(** Only the fields of the send side change. *)
Lemma acknowledged_keeps t th :
  let t' := acknowledged t th in
  tcb_id t' = tcb_id t ∧ tcb_remote_ipv4 t' = tcb_remote_ipv4 t ∧
  tcb_remote_port t' = tcb_remote_port t ∧ tcb_out_buffer t' = tcb_out_buffer t ∧
  tcb_in_buffer t' = tcb_in_buffer t ∧ tcb_out_header t' = tcb_out_header t ∧
  tcb_after_header t' = tcb_after_header t ∧ tcb_receive_next t' = tcb_receive_next t ∧
  tcb_receive_window t' = tcb_receive_window t ∧ tcb_send_next t' = tcb_send_next t ∧
  tcb_state t' = tcb_state t.
Proof. unfold acknowledged. cbv zeta. by repeat case_match. Qed.

Lemma acknowledge_ok `{!Dispatch} h a ps s th i t w :
  w_tcbs w !! a = Some t → need_header up_to_window ps w = Ok (tt, w) →
  ntohl (th_acknowledgement_num th) <= tcb_send_next t →
  tcp_others_acknowledge h a ps s ESTABLISHED th i w =
  Ok (FallThrough, w <| w_tcbs ::= <[a := acknowledged t th]> |>).
Proof.
  intros Ht Hh Hack. unfold tcp_others_acknowledge, tcp_others_acknowledge_data. cbv zeta.
  rewrite !(bind_load _ _ t) by done.
  destruct (Z.ltb_spec (tcb_send_next t) (ntohl (th_acknowledgement_num th))); [lia|].
  erewrite bind_ok by by apply when_header_set_tcb_ok.
  erewrite bind_ok by (apply when_set_tcb_ok, lookup_insert_eq).
  rewrite world_tcbs_twice, (bind_load _ _ (acknowledged t th)) by apply lookup_insert_eq. done.
Qed.

(** ** A segment at the head of the queue of its connection *)

Section Queued.
Context `{!Platform}.
Variables (n : nat) (eth ip tcp : addr) (i : interface_t).
#[local] Instance d3 : Dispatch := dispatch (S (S (S n))).

Record connected (w : world) (ps : addr) (q : in_packet_stack_t) (e : ethernet_write_args_t)
    (ia : ipv4_write_args_t) (ih : ipv4_header_t) (th : tcp_header_t) (p : tcp_priv_t)
    (s : addr) (so : tcp_socket_t) (a : addr) (t : transmission_control_block_t)
    (qs : list segment) (m mo : nat) : Prop := {
  sq_linked : linked w eth ip tcp;
  sq_stack : w_in_stacks w !! ps = Some q;
  sq_segment : segment_in q eth ip e ia ih th;
  sq_pointers : length (ips_packet_pointers q) = STACK_DEPTH;
  sq_handler : ∃ h, w_handlers w !! tcp = Some h ∧ h_priv h = PrivTcp p;
  sq_sockets : Forall (λ b, is_Some (w_sockets w !! b)) (registered (tp_tcp_sockets p));
  sq_listens : head (filter (listens w (ip_destination_ip ih) (th_destination_port th))
                 (registered (tp_tcp_sockets p))) = Some s;
  sq_socket : w_sockets w !! s = Some so;
  sq_slots : slots_ok w (sock_trans_control_block so);
  sq_holder : head (holders w (sock_trans_control_block so) (tcb_id t)) = Some a;
  sq_tcb : w_tcbs w !! a = Some t;
  sq_id : tcb_id t ≠ 0;
  sq_in : bb_repr (tcb_in_buffer t) qs m;
  sq_out : bb_repr (tcb_out_buffer t) [] (S mo);
  sq_own : is_u32 (if_ipv4_addr i) ∧ is_u32 (sock_ipv4 so) ∧ is_u16 (sock_port so);
  sq_peer : is_u32 (tcb_remote_ipv4 t) ∧ is_u16 (tcb_remote_port t);
  sq_header : is_u16 (th_checksum (tcb_out_header t)) ∧ bytes_ok (tcb_after_header t)
}.

(** Two connections that a reply is written for in the same way. *)
Definition same_connection (t t' : transmission_control_block_t) : Prop :=
  tcb_id t' = tcb_id t ∧ tcb_remote_ipv4 t' = tcb_remote_ipv4 t ∧
  tcb_remote_port t' = tcb_remote_port t ∧ tcb_out_buffer t' = tcb_out_buffer t ∧
  tcb_in_buffer t' = tcb_in_buffer t ∧ tcb_out_header t' = tcb_out_header t ∧
  tcb_after_header t' = tcb_after_header t.

Lemma acknowledged_same t th : same_connection t (acknowledged t th).
Proof. pose proof (acknowledged_keeps t th). cbv zeta in *. unfold same_connection. tauto. Qed.

Lemma same_connection_trans t1 t2 t3 :
  same_connection t1 t2 → same_connection t2 t3 → same_connection t1 t3.
Proof. unfold same_connection. intros. destruct_and!. split_and!; congruence. Qed.

(** Changing other fields of the connection leaves the segment where it is. *)
Lemma connected_update w ps q e ia ih th p s so a t qs m mo t' :
  connected w ps q e ia ih th p s so a t qs m mo → same_connection t t' →
  connected (w <| w_tcbs ::= <[a := t']> |>) ps q e ia ih th p s so a t' qs m mo.
Proof.
  intros [] (Hid & Hip & Hport & Hout & Hin & Hhd & Haft).
  assert (w_tcbs (w <| w_tcbs ::= <[a := t']> |>) = <[a := t']> (w_tcbs w)) as E by done.
  split; rewrite ?Hid, ?Hip, ?Hport, ?Hout, ?Hin, ?Hhd, ?Haft; try done.
  - by destruct sq_linked0.
  - by eapply slots_ok_replace.
  - by erewrite (holders_replace w).
  - apply lookup_insert_eq.
Qed.

Lemma out_header_ok t port flags size :
  is_u16 port → is_u16 (tcb_remote_port t) → is_u16 (th_checksum (tcb_out_header t)) → is_u8 flags →
  tcp_header_t_ok (tcp_out_header t port flags size).
Proof.
  intros. assert (is_u8 (Z.lor flags TCP_PSH_FLAG)) by (apply u8_lor; [done|by unfold is_u8, TCP_PSH_FLAG]).
  unfold tcp_out_header, tcp_header_t_ok. simpl.
  split_and!; auto with net; [range| |range]. by case_match.
Qed.

(** The header of a queued segment is there up to the window. *)
Lemma connected_window w ps q e ia ih th p s so a t qs m mo :
  connected w ps q e ia ih th p s so a t qs m mo → need_header up_to_window ps w = Ok (tt, w).
Proof. intros []. eapply need_header_ok; [done..|unfold up_to_window; lia]. Qed.
Lemma connected_data_offset w ps q e ia ih th p s so a t qs m mo :
  connected w ps q e ia ih th p s so a t qs m mo → need_header up_to_data_offset ps w = Ok (tt, w).
Proof. intros []. eapply need_header_ok; [done..|unfold up_to_data_offset; lia]. Qed.

(** A reply on the connection as it is now. *)
Lemma queued_reply w ps q e ia ih th p s so a t qs m mo flags :
  connected w ps q e ia ih th p s so a t qs m mo → is_u8 flags →
  ∃ bbo w' q', bb_repr bbo [] (S mo) ∧
    segment_reply tcp a ps (Some s) flags i w = Ok (tt, w') ∧
    reply_effect w w' a (t <| tcb_out_header := reply_header t so flags |> <| tcb_out_buffer := bbo |>)
      (control_frame i e ia (reply_header t so flags)) ∧
    w_in_stacks w' = <[ps := q']> (w_in_stacks w) ∧ segment_in q' eth ip e ia ih th ∧
    ips_packet_pointers q' = ips_packet_pointers q ∧ ips_handlers q' = ips_handlers q.
Proof.
  intros [] Hfl. destruct sq_own0 as (? & ? & ?), sq_peer0, sq_header0.
  eapply segment_reply_ok; try done. by apply out_header_ok.
Qed.

(** The loop of [tcp_others] for one segment, up to the test of its window. *)
Lemma tcp_others_step w ps q e ia ih th p s so a t sg m mo :
  connected w ps q e ia ih th p s so a t [sg] m mo → seg_data sg = ps →
  is_segment_in_window t th (tcp_get_payload_length ih th) = true →
  tcp_others tcp a 1 i w =
  (f <- and_then (tcp_others_in_window tcp a ps (Some s) (tcb_state t) th
                    (tcp_get_payload_length ih th) i) (drop_and_continue a);;
   match f with Return v => ret (Some v) | _ => ret None end) w.
Proof.
  intros [] Hps Hwin. destruct sq_handler0 as (h & Hh & Hp).
  cbn [tcp_others]. unfold tcp_others_one.
  rewrite bind_assoc, (bind_ok _ _ _ _ _ (head_packet_ok _ _ _ _ _ _ sq_tcb0 sq_in0)), Hps.
  rewrite bind_assoc. read_headers sq_stack0 sq_segment0.
  cbv beta iota zeta. rewrite bind_assoc.
  rewrite (bind_ok _ _ _ _ _ (packet_socket_ok tcp w h p ih th Hh Hp sq_sockets0)), sq_listens0.
  rewrite bind_assoc, (bind_load _ _ t) by done. by rewrite Hwin.
Qed.

(** *** The segment is an acknowledgement without RST and SYN *)

Definition plain_ack (th : tcp_header_t) : Prop :=
  flag_set (th_control_bits th) TCP_RST_FLAG = false ∧
  flag_set (th_control_bits th) TCP_SYN_FLAG = false ∧
  flag_set (th_control_bits th) TCP_ACK_FLAG = true.

Lemma in_window_ack a ps s state th size w w1 :
  plain_ack th → tcp_others_acknowledge tcp a ps s state th i w = Ok (FallThrough, w1) →
  and_then (tcp_others_in_window tcp a ps s state th size i) (drop_and_continue a) w =
  and_then (and_then (tcp_others_payload tcp a ps s state th size i)
                     (tcp_others_finish tcp a ps s state th i)) (drop_and_continue a) w1.
Proof.
  intros (Hr & Hs & Ha) Hack. unfold tcp_others_in_window. rewrite Hr, Hs, Ha.
  unfold and_then at 1 2. rewrite bind_assoc. by rewrite (bind_ok _ _ _ _ _ Hack).
Qed.

Lemma no_payload a ps s state th w :
  tcp_others_payload tcp a ps s state th 0 i w = Ok (FallThrough, w).
Proof. done. Qed.

Lemma no_finish a ps s state th w :
  flag_set (th_control_bits th) TCP_FIN_FLAG = false →
  tcp_others_finish tcp a ps s state th i w = Ok (FallThrough, w).
Proof. intros Hf. unfold tcp_others_finish. by rewrite Hf. Qed.

(** The end of a round: the segment leaves the queue. *)
Lemma round_ends (f : M world flow) w w1 a t sg qs m :
  f w = Ok (FallThrough, w1) → w_tcbs w1 !! a = Some t → bb_repr (tcb_in_buffer t) (sg :: qs) m →
  ∃ bbi, bb_repr bbi qs (S m) ∧
    (f <- and_then f (drop_and_continue a);;
     match f with Return v => ret (Some v) | _ => ret None end) w =
    Ok (None, w1 <| w_tcbs ::= <[a := t <| tcb_in_buffer := bbi |>]> |>).
Proof.
  intros Hf Ht Hbb. destruct (drop_head_ok w1 a t sg qs m Ht Hbb) as (bbi & Hbbi & Hd).
  exists bbi. split; [done|]. unfold and_then. rewrite bind_assoc, (bind_ok _ _ _ _ _ Hf).
  unfold drop_and_continue. rewrite bind_assoc. by rewrite (bind_ok _ _ _ _ _ Hd).
Qed.

(** The connection when the handshake is complete. *)
Definition handshake_done (t : transmission_control_block_t) (th : tcp_header_t)
    : transmission_control_block_t :=
  t <| tcb_send_window := ntohs (th_window th) |>
    <| tcb_send_last_update_sequence_num := ntohl (th_sequence_num th) |>
    <| tcb_send_last_update_acknowledgement_num := ntohl (th_acknowledgement_num th) |>
    <| tcb_state := ESTABLISHED |>.

Lemma handshake_completes_ok w ps q e ia ih th p s so a t sg m mo :
  connected w ps q e ia ih th p s so a t [sg] m mo → seg_data sg = ps →
  tcb_state t = SYN_RECEIVED → plain_ack th →
  is_segment_in_window t th (tcp_get_payload_length ih th) = true →
  tcb_send_unacknowledged t < ntohl (th_acknowledgement_num th) <= tcb_send_next t →
  flag_set (th_control_bits th) TCP_FIN_FLAG = false →
  ∃ bbi, bb_repr bbi [] (S m) ∧
    tcp_others tcp a 1 i w =
    Ok (None, w <| w_tcbs ::= <[a := (handshake_done t th) <| tcb_in_buffer := bbi |>]> |>).
Proof.
  intros Hs Hps Hst Hpl Hwin Hack Hfin. pose proof (sq_tcb _ _ _ _ _ _ _ _ _ _ _ _ _ _ _ Hs) as Ht.
  pose proof (sq_in _ _ _ _ _ _ _ _ _ _ _ _ _ _ _ Hs) as Hsg.
  rewrite (tcp_others_step _ _ _ _ _ _ _ _ _ _ _ _ _ _ _ Hs Hps Hwin), Hst.
  set (w1 := w <| w_tcbs ::= <[a := handshake_done t th]> |>).
  assert (tcp_others_acknowledge tcp a ps (Some s) SYN_RECEIVED th i w = Ok (FallThrough, w1)) as Hk.
  { unfold tcp_others_acknowledge. cbv zeta. rewrite (bind_load _ _ t) by done.
    destruct (Z.leb_spec (ntohl (th_acknowledgement_num th)) (tcb_send_next t)); [|lia].
    destruct (Z.ltb_spec (tcb_send_unacknowledged t) (ntohl (th_acknowledgement_num th))); [|lia].
    cbn [andb negb].
    rewrite bind_assoc, (bind_ok _ _ _ _ _ (connected_window _ _ _ _ _ _ _ _ _ _ _ _ _ _ _ Hs)).
    by rewrite (bind_ok _ _ _ _ _ (set_tcb_ok _ _ _ _ Ht)). }
  erewrite bind_eq by by apply in_window_ack.
  destruct (round_ends (and_then (tcp_others_payload tcp a ps (Some s) SYN_RECEIVED th
      (tcp_get_payload_length ih th) i) (tcp_others_finish tcp a ps (Some s) SYN_RECEIVED th i))
    w1 w1 a (handshake_done t th) sg [] m) as (bbi & Hbbi & Hr).
  - unfold and_then. rewrite (bind_ok _ _ _ FallThrough w1); [by apply no_finish|].
    unfold tcp_others_payload. by rewrite andb_comm.
  - apply lookup_insert_eq.
  - done.
  - exists bbi. split; [done|]. rewrite Hr. unfold w1. by rewrite world_tcbs_twice.
Qed.

(** *** Data *)

(** The connection when a segment's octets have been taken. *)
Definition payload_taken (t : transmission_control_block_t) (th : tcp_header_t) (size : Z)
    : transmission_control_block_t :=
  (acknowledged t th) <| tcb_receive_next ::= λ x, u32 (x + size) |>
                      <| tcb_receive_window ::= λ x, u16 (x - size) |>.

(** The packet stack the next handler gets: its index is on the payload. *)
Record payload_delivered (q : in_packet_stack_t) (th : tcp_header_t) (s : addr) (cid : Z) : Prop := {
  pd_idx : ips_stack_idx q = 3%nat;
  pd_pointer : ∃ off, ips_packet_pointers q !! 2%nat = Some (Some off) ∧
    ips_packet_pointers q !! 3%nat = Some (Some (off + Z.to_nat (tcp_get_payload th))%nat);
  pd_answer : ips_return_args q !! 2%nat =
    Some (ArgTcp {| twa_connection_id := cid; twa_socket := Some s; twa_flags := TCP_ACK_FLAG |})
}.

(** What an answer goes down through. *)
Record answerable (q : in_packet_stack_t) (e : ethernet_write_args_t) (ia : ipv4_write_args_t) : Prop := {
  an_handlers : length (ips_handlers q) = STACK_DEPTH;
  an_eth : ips_handlers q !! 0%nat = Some (Some eth);
  an_ip : ips_handlers q !! 1%nat = Some (Some ip);
  an_tcp : ips_handlers q !! 2%nat = Some (Some tcp);
  an_arg_eth : ips_return_args q !! 0%nat = Some (ArgEthernet e);
  an_arg_ip : ips_return_args q !! 1%nat = Some (ArgIpv4 ia);
  an_arg_ok : is_u32 (iwa_destination_ip ia) ∧ is_u8 (iwa_protocol ia)
}.

(** Handing the payload on, then taking the segment from the queue. *)
Definition deliver (ps a : addr) (next_handler : option addr) : M world (option Z) :=
  match next_handler with
  | Some next => op_read ps i next;;; ret tt
  | None => ret tt
  end;;;
  drop_head a;;; ret None.

Lemma receive_payload_ok w ps q e ia ih th p s so a t qs m mo off size :
  connected w ps q e ia ih th p s so a t qs m mo →
  ips_packet_pointers q !! 2%nat = Some (Some off) →
  let payload := (off + Z.to_nat (tcp_get_payload th))%nat in
  let t1 := t <| tcb_receive_next ::= λ x, u32 (x + size) |>
              <| tcb_receive_window ::= λ x, u16 (x - size) |> in
  let h := reply_header t1 so TCP_ACK_FLAG in
  ∃ bbo w2 q2, bb_repr bbo [] (S mo) ∧
    tcp_receive_payload tcp (Some s) a ps i payload size w =
    match sock_next_handler so with Some next => op_read ps i next;;; ret tt | None => ret tt end w2 ∧
    reply_effect w w2 a (t1 <| tcb_out_header := h |> <| tcb_out_buffer := bbo |>)
      (control_frame i e ia h) ∧
    w_in_stacks w2 !! ps = Some q2 ∧ payload_delivered q2 th s (tcb_id t) ∧
    (ips_handlers q !! 2%nat = Some (Some tcp) → answerable q2 e ia).
Proof.
  intros Hs Hoff payload t1 h.
  pose proof (sq_socket _ _ _ _ _ _ _ _ _ _ _ _ _ _ _ Hs) as Hso.
  pose proof (sq_tcb _ _ _ _ _ _ _ _ _ _ _ _ _ _ _ Hs) as Ht.
  pose proof (sq_pointers _ _ _ _ _ _ _ _ _ _ _ _ _ _ _ Hs) as Hlp.
  apply (connected_update _ _ _ _ _ _ _ _ _ _ _ _ _ _ _ t1) in Hs; [|done].
  destruct (queued_reply _ _ _ _ _ _ _ _ _ _ _ _ _ _ _ TCP_ACK_FLAG Hs)
    as (bbo & w2 & q' & Hbo & Hr & [Htcb Hwire Hhs Hss Hcs] & Hin & Hseg & Hptr & Hqh); [done|].
  set (arg := ArgTcp {| twa_connection_id := tcb_id t; twa_socket := Some s; twa_flags := TCP_ACK_FLAG |}).
  set (q2 := q' <| ips_return_args := <[2%nat := arg]> (ips_return_args q') |> <| ips_stack_idx := 3%nat |>
               <| ips_packet_pointers := <[3%nat := Some payload]> (ips_packet_pointers q') |>).
  pose proof (seg_arguments _ _ _ _ _ _ _ Hseg) as Hla. unfold STACK_DEPTH in *.
  exists bbo, (w2 <| w_in_stacks ::= <[ps := q2]> |>), q2. split; [done|]. split; [|split; [|split; [|split]]].
  - unfold tcp_receive_payload. rewrite (bind_need _ _ s), (bind_load _ _ so) by done. cbv zeta.
    rewrite (bind_ok _ _ _ _ _ (set_tcb_ok _ _ _ _ Ht)), (bind_ok _ _ _ _ _ Hr).
    erewrite bind_load by (rewrite Htcb; apply lookup_insert_eq).
    erewrite bind_load by (rewrite Hin; apply lookup_insert_eq).
    rewrite (seg_idx _ _ _ _ _ _ _ Hseg).
    rewrite (bind_need _ _ (<[2%nat := arg]> (ips_return_args q'))) by (apply set_array_Some; lia).
    rewrite (bind_need _ _ (<[3%nat := Some payload]> (ips_packet_pointers q')))
      by (apply set_array_Some; rewrite Hptr; lia).
    rewrite (bind_update _ _ _ q') by (rewrite Hin; apply lookup_insert_eq).
    rewrite (bind_load _ _ so) by (simpl; by rewrite Hss).
    by destruct (sock_next_handler so).
  - split; simpl; try done. rewrite Htcb. simpl. by rewrite insert_insert_eq.
  - apply lookup_insert_eq.
  - split; [done| |].
    + exists off. simpl. rewrite list_lookup_insert_ne, Hptr by lia. split; [done|].
      apply list_lookup_insert_eq. lia.
    + apply list_lookup_insert_eq. lia.
  - intros Htcp. rewrite <- Hqh in Htcp. destruct Hseg. split; simpl; try done.
    + by rewrite list_lookup_insert_ne by lia.
    + by rewrite list_lookup_insert_ne by lia.
Qed.

Lemma data_received_ok w ps q e ia ih th p s so a t sg m mo :
  connected w ps q e ia ih th p s so a t [sg] m mo → seg_data sg = ps →
  tcb_state t = ESTABLISHED → plain_ack th →
  let size := tcp_get_payload_length ih th in
  is_segment_in_window t th size = true → size ≠ 0 →
  ntohl (th_acknowledgement_num th) <= tcb_send_next t →
  flag_set (th_control_bits th) TCP_FIN_FLAG = false →
  let t1 := payload_taken t th size in
  let h := reply_header t1 so TCP_ACK_FLAG in
  ∃ bbo w2 q2, bb_repr bbo [] (S mo) ∧
    tcp_others tcp a 1 i w = deliver ps a (sock_next_handler so) w2 ∧
    reply_effect w w2 a (t1 <| tcb_out_header := h |> <| tcb_out_buffer := bbo |>)
      (control_frame i e ia h) ∧
    w_in_stacks w2 !! ps = Some q2 ∧ payload_delivered q2 th s (tcb_id t) ∧
    (ips_handlers q !! 2%nat = Some (Some tcp) → answerable q2 e ia).
Proof.
  intros Hs Hps Hst Hpl size Hwin Hsize Hack Hfin t1 h.
  pose proof (sq_tcb _ _ _ _ _ _ _ _ _ _ _ _ _ _ _ Hs) as Ht.
  rewrite (tcp_others_step _ _ _ _ _ _ _ _ _ _ _ _ _ _ _ Hs Hps Hwin), Hst.
  erewrite bind_eq by by (apply in_window_ack; [|apply acknowledge_ok; [|apply (connected_window _ _ _ _ _ _ _ _ _ _ _ _ _ _ _ Hs)|]]).
  set (w1 := w <| w_tcbs ::= <[a := acknowledged t th]> |>).
  assert (connected w1 ps q e ia ih th p s so a (acknowledged t th) [sg] m mo) as Hs1
    by (eapply connected_update; [exact Hs|apply acknowledged_same]).
  destruct (sq_segment _ _ _ _ _ _ _ _ _ _ _ _ _ _ _ Hs) as [Hidx _ _ _ _ _ _ _ (off & Hoff & _) _].
  destruct (receive_payload_ok w1 ps q e ia ih th p s so a (acknowledged t th) [sg] m mo off size Hs1 Hoff)
    as (bbo & w2 & q2 & Hbo & Hrun & [Htcb Hwire Hhs Hss Hcs] & Hq2 & Hd & Han).
  exists bbo, w2, q2. split; [done|]. split; [|split; [|split; [done|split; [|done]]]].
  - assert (tcp_others_payload tcp a ps (Some s) ESTABLISHED th size i w1 =
      (match sock_next_handler so with Some next => op_read ps i next;;; ret tt | None => ret tt end;;;
       ret FallThrough) w2) as Hp.
    { unfold tcp_others_payload. apply Z.eqb_neq in Hsize. rewrite Hsize.
      rewrite bool_decide_eq_true_2 by tauto. cbn [negb andb when]. apply bind_eq.
      unfold payload_pointer.
      rewrite bind_assoc, (bind_load _ _ q) by exact (sq_stack _ _ _ _ _ _ _ _ _ _ _ _ _ _ _ Hs1).
      rewrite Hidx, bind_assoc, (bind_need _ _ _ _ _ Hoff), bind_assoc, (bind_need _ _ off) by done.
      rewrite bind_ret_l. exact Hrun. }
    unfold deliver, and_then. rewrite !bind_assoc. erewrite bind_eq by exact Hp.
    rewrite bind_assoc. apply bind_ext. intros [] w3. rewrite bind_ret_l.
    rewrite (bind_ok _ _ _ FallThrough w3) by by apply no_finish.
    unfold drop_and_continue. rewrite bind_assoc. by apply bind_ext.
  - split; try done. rewrite Htcb. simpl. by rewrite insert_insert_eq.
  - by destruct (acknowledged_keeps t th) as [<- _].
Qed.

(** *** The FIN of the peer *)

Definition fin_taken (t : transmission_control_block_t) (th : tcp_header_t)
    : transmission_control_block_t :=
  (acknowledged t th) <| tcb_receive_next := u32 (ntohl (th_sequence_num th) + 1) |>.

Lemma fin_received_ok w ps q e ia ih th p s so a t sg m mo f :
  connected w ps q e ia ih th p s so a t [sg] m mo → seg_data sg = ps →
  tcb_state t = ESTABLISHED → plain_ack th →
  flag_set (th_control_bits th) TCP_FIN_FLAG = true →
  tcp_get_payload_length ih th = 0 → is_segment_in_window t th 0 = true →
  ntohl (th_acknowledgement_num th) <= tcb_send_next t →
  sock_on_close so = Some f →
  let t1 := fin_taken t th in
  let h := reply_header t1 so (Z.lor TCP_ACK_FLAG TCP_FIN_FLAG) in
  ∃ bbi bbo w', bb_repr bbi [] (S m) ∧ bb_repr bbo [] (S mo) ∧
    tcp_others tcp a 1 i w = Ok (None, w') ∧
    w_tcbs w' = <[a := t1 <| tcb_out_header := h |> <| tcb_out_buffer := bbo |>
                          <| tcb_send_next := u32 (tcb_send_next t + 1) |>
                          <| tcb_state := CLOSE_WAIT |> <| tcb_in_buffer := bbi |>]> (w_tcbs w) ∧
    w_wire w' = w_wire w ++ [control_frame i e ia h] ∧
    w_calls w' = w_calls w ++ [f].
Proof.
  intros Hs Hps Hst Hpl Hfin Hsize Hwin Hack Hclose t1 h.
  pose proof (sq_tcb _ _ _ _ _ _ _ _ _ _ _ _ _ _ _ Hs) as Ht.
  pose proof (sq_socket _ _ _ _ _ _ _ _ _ _ _ _ _ _ _ Hs) as Hso.
  pose proof (sq_in _ _ _ _ _ _ _ _ _ _ _ _ _ _ _ Hs) as Hsg.
  destruct (acknowledged_keeps t th) as (_ & _ & _ & _ & Hib & _ & _ & _ & _ & Hsn & _).
  rewrite <- Hsize in Hwin.
  rewrite (tcp_others_step _ _ _ _ _ _ _ _ _ _ _ _ _ _ _ Hs Hps Hwin), Hst, Hsize.
  erewrite bind_eq by by (apply in_window_ack; [|apply acknowledge_ok; [|apply (connected_window _ _ _ _ _ _ _ _ _ _ _ _ _ _ _ Hs)|]]).
  set (w1 := w <| w_tcbs ::= <[a := acknowledged t th]> |>).
  set (w2 := w1 <| w_tcbs ::= <[a := t1]> |>).
  assert (connected w2 ps q e ia ih th p s so a t1 [sg] m mo) as Hs2.
  { eapply connected_update; [eapply connected_update; [exact Hs|apply acknowledged_same]|done]. }
  destruct (queued_reply _ _ _ _ _ _ _ _ _ _ _ _ _ _ _ (Z.lor TCP_ACK_FLAG TCP_FIN_FLAG) Hs2)
    as (bbo & w3 & q' & Hbo & Hr & [Htcb Hwire Hhs Hss Hcs] & _); [done|].
  set (t3 := t1 <| tcb_out_header := h |> <| tcb_out_buffer := bbo |>).
  set (t4 := t3 <| tcb_send_next := u32 (tcb_send_next t + 1) |> <| tcb_state := CLOSE_WAIT |>).
  set (w4 := w3 <| w_tcbs ::= <[a := t4]> |> <| w_calls ::= λ l, l ++ [f] |>).
  destruct (round_ends (and_then (tcp_others_payload tcp a ps (Some s) ESTABLISHED th 0 i)
      (tcp_others_finish tcp a ps (Some s) ESTABLISHED th i)) w1 w4 a t4 sg [] m)
    as (bbi & Hbbi & Hend).
  - unfold and_then. rewrite (bind_ok _ _ _ FallThrough w1) by done.
    unfold tcp_others_finish. rewrite Hfin, bool_decide_eq_false_2 by naive_solver. cbn [negb].
    assert (w_tcbs w1 !! a = Some (acknowledged t th)) as Ht1 by apply lookup_insert_eq.
    rewrite (bind_ok _ _ _ _ _ (set_tcb_ok _ _ _ _ Ht1)), (bind_ok _ _ _ _ _ Hr).
    assert (w_tcbs w3 !! a = Some t3) as Ht3 by (rewrite Htcb; apply lookup_insert_eq).
    rewrite (bind_ok _ _ _ _ _ (set_tcb_ok _ _ _ _ Ht3)).
    unfold call_on_close. rewrite bind_assoc, (bind_need _ _ s), bind_assoc, (bind_load _ _ so) by
      (simpl; rewrite ?Hss; done).
    rewrite Hclose. unfold callback. rewrite bind_assoc, (bind_need _ _ f), bind_modify by done.
    erewrite bind_load by apply lookup_insert_eq. cbn [state_after_fin].
    erewrite bind_ok by (apply set_tcb_ok, lookup_insert_eq).
    unfold ret, w4, t4, set_field. simpl. rewrite insert_insert_eq, Hsn. done.
  - apply lookup_insert_eq.
  - change (tcb_in_buffer t4) with (tcb_in_buffer (acknowledged t th)). rewrite Hib. exact Hsg.
  - eexists bbi, bbo, _. split; [done|]. split; [done|]. split; [exact Hend|]. simpl.
    rewrite !Htcb, Hwire, Hcs. simpl. rewrite !insert_insert_eq. done.
Qed.

(** ** From [tcp_read] to [tcp_others] *)

Lemma connected_enter w ps q e ia ih th p s so a t qs m mo :
  connected w ps q e ia ih th p s so a t qs m mo →
  let q1 := q <| ips_handlers := <[2%nat := Some tcp]> (ips_handlers q) |> in
  connected (w <| w_in_stacks ::= <[ps := q1]> |>) ps q1 e ia ih th p s so a t qs m mo.
Proof.
  intros [] q1. split; try done.
  - by destruct sq_linked0.
  - apply lookup_insert_eq.
  - destruct sq_segment0. split; simpl; try done.
    + by rewrite length_insert.
    + by rewrite list_lookup_insert_ne.
    + by rewrite list_lookup_insert_ne.
Qed.

(** A segment of a known connection goes to its queue. *)
Lemma tcp_read_enters w ps q e ia ih th p s so a t qs m mo :
  connected w ps q e ia ih th p s so a t qs m mo →
  tcb_id t = tcb_header_to_connection_id ih th →
  let q1 := q <| ips_handlers := <[2%nat := Some tcp]> (ips_handlers q) |> in
  let w1 := w <| w_in_stacks ::= <[ps := q1]> |> in
  connected w1 ps q1 e ia ih th p s so a t qs m mo ∧
  tcp_read ps i tcp w = tcp_read_segment tcp a ps ih th i w1.
Proof.
  intros Hs0 Hid q1 w1. pose proof (connected_enter _ _ _ _ _ _ _ _ _ _ _ _ _ _ _ Hs0) as Hs.
  cbv zeta in Hs. destruct Hs0 as [_ Hq [Hidx Hlh] _ _ _ _ _ _ _ _ _ _ _ _ _ _].
  fold q1 w1 in Hs. split; [exact Hs|].
  destruct Hs as [_ Hq1 Hseg _ (h & Hh & Hp) Hlive Hl Hso Hsl Hhead _ _ _ _ _ _ _].
  unfold tcp_read. rewrite (bind_load _ _ q), Hidx by done.
  rewrite (bind_need _ _ (<[2%nat := Some tcp]> (ips_handlers q)))
    by (apply set_array_Some; rewrite Hlh; unfold STACK_DEPTH; lia).
  rewrite (bind_update _ _ _ q) by done. change (w <| w_in_stacks ::= <[ps := _]> |>) with w1.
  read_headers Hq1 Hseg. cbv beta iota zeta.
  rewrite (bind_ok _ _ _ _ _ (packet_socket_ok tcp w1 h p ih th Hh Hp Hlive)), Hl.
  rewrite (bind_ok _ _ _ (Some a) w1); [done|].
  unfold tcp_read_connection. rewrite (bind_ok _ _ _ (Some a) w1); [done|].
  rewrite (get_tcb_spec w1 s so) by done. by rewrite <- Hid, Hhead.
Qed.

(** The octet a connection expects next, when it looks at a segment: the first one of the
    segment, as long as it knows of none. *)
Definition expected_next (t : transmission_control_block_t) (th : tcp_header_t) : Z :=
  if decide (tcb_state t = SYN_SENT) then ntohl (th_sequence_num th) else tcb_receive_next t.

(** The segment of a packet in the queue. *)
Definition queued_segment (ih : ipv4_header_t) (th : tcp_header_t) (ps : addr) : segment :=
  {| seg_seq := ntohl (th_sequence_num th); seg_size := tcp_get_payload_length ih th; seg_data := ps |}.

(** A segment for an empty queue is ready if it starts there, or one octet behind. *)
Lemma read_segment_ok w ps q e ia ih th p s so a t m mo :
  connected w ps q e ia ih th p s so a t [] (S m) mo →
  ntohl (th_sequence_num th) = expected_next t th ∨
    ntohl (th_sequence_num th) = u32 (expected_next t th + 1) →
  ∃ bb, let t1 := t <| tcb_in_buffer := bb |> <| tcb_receive_next := expected_next t th |> in
    let w1 := w <| w_tcbs ::= <[a := t1]> |> in
    connected w1 ps q e ia ih th p s so a t1 [queued_segment ih th ps] m mo ∧
    tcp_read_segment tcp a ps ih th i w = call_state_function (tcb_state_function t) tcp a 1 i w1.
Proof.
  intros Hs Hseq.
  pose proof Hs as [Hln Hq Hseg Hlp (h & Hh & Hp) Hlive Hl Hso Hsl Hhead Ht Hcid Hin Hout Hown Hpeer Hhd].
  destruct (add_repr _ _ _ ps (th_sequence_num th) (tcp_get_payload_length ih th) Hin I)
    as (j & bb & Hadd & _ & Hbb).
  set (t0 := t <| tcb_in_buffer := bb |>).
  set (t1 := t0 <| tcb_receive_next := expected_next t th |>).
  set (w1 := w <| w_tcbs ::= <[a := t1]> |>).
  exists bb. cbv zeta. split.
  { split; try done.
    - by destruct Hln.
    - by exists h.
    - by eapply (slots_ok_replace w w1).
    - by erewrite (holders_replace w w1).
    - apply lookup_insert_eq. }
  unfold tcp_read_segment. read_headers Hq Hseg. cbv zeta. rewrite (bind_load _ _ t), (bind_lift _ _ _ _ Hadd) by done.
  rewrite (bind_update _ _ _ t) by done. cbn [snd].
  change (t <| tcb_in_buffer := bb |>) with t0.
  assert (when (bool_decide (tcb_state t = SYN_SENT))
    (update w_tcbs a (λ tcb, tcb <| tcb_receive_next := ntohl (th_sequence_num th) |>))
    (w <| w_tcbs ::= <[a := t0]> |>) = Ok (tt, w1)) as Hw.
  { unfold w1, t1, expected_next. destruct (decide (tcb_state t = SYN_SENT)) as [E|E].
    - rewrite bool_decide_eq_true_2 by done. cbn [when].
      rewrite (update_ok _ _ _ t0) by apply lookup_insert_eq. by rewrite world_tcbs_twice.
    - rewrite bool_decide_eq_false_2 by done. by destruct t. }
  rewrite (bind_ok _ _ _ _ _ Hw), (bind_load _ _ t1) by apply lookup_insert_eq.
  rewrite (bind_lift _ 1); [done|]. change (tcb_in_buffer t1) with bb.
  change (tcb_receive_next t1) with (expected_next t th).
  rewrite (num_ready_repr _ _ _ _ Hbb) by done. simpl.
  destruct Hseq as [-> | ->]; by rewrite Z.eqb_refl, ?orb_true_r.
Qed.

(** The next expected segment of a connection with an empty queue goes to [tcp_others]
    right away. *)
Lemma tcp_read_in_order w ps q e ia ih th p s so a t m mo :
  connected w ps q e ia ih th p s so a t [] (S m) mo →
  tcb_id t = tcb_header_to_connection_id ih th → tcb_state_function t = fn_tcp_others →
  ntohl (th_sequence_num th) = tcb_receive_next t ∨
    tcb_state t ≠ SYN_SENT ∧ ntohl (th_sequence_num th) = u32 (tcb_receive_next t + 1) →
  ∃ q1 w1 bb sg, let t1 := t <| tcb_in_buffer := bb |> in
    connected w1 ps q1 e ia ih th p s so a t1 [sg] m mo ∧ seg_data sg = ps ∧
    tcp_read ps i tcp w = tcp_others tcp a 1 i w1 ∧
    w_tcbs w1 = <[a := t1]> (w_tcbs w) ∧ w_wire w1 = w_wire w ∧ w_calls w1 = w_calls w ∧
    same_maps w w1 ∧ w_handlers w1 = w_handlers w ∧ ips_handlers q1 !! 2%nat = Some (Some tcp).
Proof.
  intros Hs Hid Hfn Hseq. destruct (tcp_read_enters _ _ _ _ _ _ _ _ _ _ _ _ _ _ _ Hs Hid) as [Hs1 Hr].
  assert (expected_next t th = tcb_receive_next t) as Hexp.
  { unfold expected_next. case_decide; [|done]. by destruct Hseq as [|[]]. }
  destruct (read_segment_ok _ _ _ _ _ _ _ _ _ _ _ _ _ _ Hs1) as (bb & Hs2 & Hrs).
  { rewrite Hexp. destruct Hseq as [|[]]; [by left|by right]. }
  cbv zeta in *. rewrite Hexp, Hfn in *.
  assert (t <| tcb_in_buffer := bb |> <| tcb_receive_next := tcb_receive_next t |> =
          t <| tcb_in_buffer := bb |>) as E by by destruct t.
  rewrite E in *. eexists _, _, bb, _. split; [exact Hs2|]. split; [done|].
  split; [by rewrite Hr, Hrs|]. split_and!; try done. apply list_lookup_insert_eq.
  destruct Hs as [_ _ Hseg]. rewrite (seg_handlers _ _ _ _ _ _ _ Hseg). unfold STACK_DEPTH. lia.
Qed.
End Queued.

(** ** The theorems *)

Lemma acknowledged_una t th :
  ntohl (th_acknowledgement_num th) <= tcb_send_next t →
  tcb_send_unacknowledged (acknowledged t th) =
  Z.max (tcb_send_unacknowledged t) (ntohl (th_acknowledgement_num th)).
Proof.
  intros H. unfold acknowledged. cbv zeta. rewrite (proj2 (Z.leb_le _ _) H). cbn [andb].
  destruct (Z.ltb_spec (tcb_send_unacknowledged t) (ntohl (th_acknowledgement_num th))); cbn [orb].
  - simpl. lia.
  - case_match; simpl; lia.
Qed.

(** The next expected segment of a connection, an acknowledgement of nothing that was not
    sent, in the window. *)
Record in_order `{!Platform} (eth ip tcp : addr) (i : interface_t) (w : world) (ps : addr)
    (q : in_packet_stack_t) (e : ethernet_write_args_t) (ia : ipv4_write_args_t)
    (ih : ipv4_header_t) (th : tcp_header_t) (p : tcp_priv_t) (s : addr) (so : tcp_socket_t)
    (a : addr) (t : transmission_control_block_t) (m mo : nat) : Prop := {
  io_connected : connected eth ip tcp i w ps q e ia ih th p s so a t [] (S m) mo;
  io_id : tcb_id t = tcb_header_to_connection_id ih th;
  io_function : tcb_state_function t = fn_tcp_others;
  io_sequence : ntohl (th_sequence_num th) = tcb_receive_next t;
  io_window : is_segment_in_window t th (tcp_get_payload_length ih th) = true;
  io_flags : plain_ack th;
  io_ack : ntohl (th_acknowledgement_num th) <= tcb_send_next t
}.

Lemma tcp_read_handshake_ok `{!Platform} n eth ip tcp i w ps q e ia ih th p s so a t m mo :
  in_order eth ip tcp i w ps q e ia ih th p s so a t m mo →
  tcb_state t = SYN_RECEIVED →
  tcb_send_unacknowledged t < ntohl (th_acknowledgement_num th) →
  flag_set (th_control_bits th) TCP_FIN_FLAG = false →
  ∃ w' t', tcp_read (H0 := dispatch (S (S (S n)))) ps i tcp w = Ok (None, w') ∧
    w_tcbs w' = <[a := t']> (w_tcbs w) ∧ w_wire w' = w_wire w ∧ w_calls w' = w_calls w ∧
    tcb_state t' = ESTABLISHED ∧ tcb_state_function t' = fn_tcp_others ∧
    tcb_send_window t' = ntohs (th_window th) ∧
    tcb_receive_next t' = tcb_receive_next t ∧ tcb_send_next t' = tcb_send_next t ∧
    bb_repr (tcb_in_buffer t') [] (S m) ∧ is_Some (w_in_stacks w' !! ps).
Proof.
  intros [Hc Hid Hfn Hseq Hwin Hpl Hack] Hst Hnew Hfin.
  destruct (tcp_read_in_order n eth ip tcp i _ _ _ _ _ _ _ _ _ _ _ _ _ _ Hc Hid Hfn (or_introl Hseq)) as
    (q1 & w1 & bb & sg & Hc1 & Hps & Hr & Htcb & Hwire & Hcalls & _).
  destruct (handshake_completes_ok n eth ip tcp i _ _ _ _ _ _ _ _ _ _ _ _ _ _ _ Hc1 Hps)
    as (bbi & Hbbi & Hrun); try done.
  eexists _, _. split; [exact (eq_trans Hr Hrun)|]. split; [simpl; rewrite Htcb, insert_insert_eq; done|].
  rewrite <- Hwire, <- Hcalls. split_and!; try done. eexists. apply Hc1.
Qed.

(** The end of a passive open.  In SYN_RECEIVED, the ACK of the SYN-ACK makes [tcp_read]
    enter ESTABLISHED and take the peer's window; nothing is written, no callback of the
    socket is called (on_connect is for active connections only), and data in the segment
    is dropped without an acknowledgement: the octet expected next stays the same. *)
Lemma handshake_completes `{!Platform} n eth ip tcp i w ps q e ia ih th p s so a t m mo :
  in_order eth ip tcp i w ps q e ia ih th p s so a t m mo →
  tcb_state t = SYN_RECEIVED →
  tcb_send_unacknowledged t < ntohl (th_acknowledgement_num th) →
  flag_set (th_control_bits th) TCP_FIN_FLAG = false →
  ∃ w' t', tcp_read (H0 := dispatch (S (S (S n)))) ps i tcp w = Ok (None, w') ∧
    w_tcbs w' = <[a := t']> (w_tcbs w) ∧ w_wire w' = w_wire w ∧ w_calls w' = w_calls w ∧
    tcb_state t' = ESTABLISHED ∧ tcb_state_function t' = fn_tcp_others ∧
    tcb_send_window t' = ntohs (th_window th) ∧
    tcb_receive_next t' = tcb_receive_next t ∧ tcb_send_next t' = tcb_send_next t ∧
    bb_repr (tcb_in_buffer t') [] (S m).
Proof.
  intros Hio Hst Hnew Hfin.
  destruct (tcp_read_handshake_ok n eth ip tcp i _ _ _ _ _ _ _ _ _ _ _ _ _ _ Hio) as (w' & t' & Hrest);
    try done. exists w', t'. by destruct_and! Hrest.
Qed.

(** C4: data.  In ESTABLISHED, the next expected segment with a payload makes [tcp_read] write
    exactly one frame, an ACK to the peer for all octets of the segment and with the window
    that is left, and hand the packet to the next handler of the socket, its pointer at
    the first octet of the payload and its arguments ready for an answer; then the segment
    leaves the queue.  Without a next handler that is all that happens. *)
Theorem data_received `{!Platform} n eth ip tcp i w ps q e ia ih th p s so a t m mo :
  in_order eth ip tcp i w ps q e ia ih th p s so a t m mo →
  tcb_state t = ESTABLISHED →
  flag_set (th_control_bits th) TCP_FIN_FLAG = false →
  let size := tcp_get_payload_length ih th in
  size ≠ 0 →
  ∃ w' t' q' h,
    tcp_read (H0 := dispatch (S (S (S n)))) ps i tcp w =
      deliver n i ps a (sock_next_handler so) w' ∧
    w_wire w' = w_wire w ++ [control_frame i e ia h] ∧
    (th_source_port h = sock_port so ∧ th_destination_port h = tcb_remote_port t ∧
     th_control_bits h = TCP_ACK_FLAG ∧ th_sequence_num h = htonl (tcb_send_next t) ∧
     th_acknowledgement_num h = htonl (u32 (tcb_receive_next t + size)) ∧
     th_window h = htons (u16 (tcb_receive_window t - size))) ∧
    w_in_stacks w' !! ps = Some q' ∧ payload_delivered q' th s (tcb_id t) ∧
    w_tcbs w' = <[a := t']> (w_tcbs w) ∧ w_calls w' = w_calls w ∧
    tcb_state t' = ESTABLISHED ∧ tcb_receive_next t' = u32 (tcb_receive_next t + size) ∧
    tcb_send_unacknowledged t' =
      Z.max (tcb_send_unacknowledged t) (ntohl (th_acknowledgement_num th)) ∧
    (sock_next_handler so = None → ∃ bb, bb_repr bb [] (S m) ∧
       tcp_read (H0 := dispatch (S (S (S n)))) ps i tcp w =
       Ok (None, w' <| w_tcbs ::= <[a := t' <| tcb_in_buffer := bb |>]> |>)).
Proof.
  intros [Hc Hid Hfn Hseq Hwin Hpl Hack] Hst Hfin size Hsize.
  destruct (tcp_read_in_order n eth ip tcp i _ _ _ _ _ _ _ _ _ _ _ _ _ _ Hc Hid Hfn (or_introl Hseq)) as
    (q1 & w1 & bb & sg & Hc1 & Hps & Hr & Htcb & Hwire & Hcalls & _).
  destruct (data_received_ok n eth ip tcp i _ _ _ _ _ _ _ _ _ _ _ _ _ _ _ Hc1 Hps)
    as (bbo & w2 & q2 & Hbbo & Hrun & [Htcb2 Hwire2 Hhs Hss Hcs] & Hq2 & Hd & _); try done.
  set (t1 := t <| tcb_in_buffer := bb |>) in *.
  destruct (acknowledged_keeps t1 th) as (_ & _ & Hport & _ & Hib & _ & _ & Hrn & Hrw & Hsn & Hs1).
  eexists w2, _, q2, _. split; [exact (eq_trans Hr Hrun)|]. split; [by rewrite Hwire2, Hwire|].
  split; [|split; [done|split; [done|split; [by rewrite Htcb2, Htcb, insert_insert_eq|]]]].
  { unfold reply_header, tcp_out_header, payload_taken. simpl. by rewrite Hport, Hrn, Hrw, Hsn. }
  split; [by rewrite Hcs, Hcalls|]. split; [simpl; by rewrite Hs1|].
  split; [simpl; by rewrite Hrn|]. split; [by apply (acknowledged_una t1)|].
  intros Hnone. unfold deliver in Hrun. rewrite Hnone, bind_ret_l in Hrun.
  assert (bb_repr (tcb_in_buffer (acknowledged t1 th)) [sg] m) as Hin
    by (rewrite Hib; exact (sq_in _ _ _ _ _ _ _ _ _ _ _ _ _ _ _ _ _ _ _ Hc1)).
  edestruct (drop_head_ok w2 a) as (bbi & Hbbi & Hdrop).
  { rewrite Htcb2. apply lookup_insert_eq. }
  { exact Hin. }
  exists bbi. split; [done|]. rewrite (bind_ok _ _ _ _ _ Hdrop) in Hrun. exact (eq_trans Hr Hrun).
Qed.

(** C15: the FIN of the peer.  In ESTABLISHED, a FIN without data makes [tcp_read] answer with
    one FIN-ACK that acknowledges it, call on_close, count the own FIN as sent and enter
    CLOSE_WAIT; the segment leaves the queue. *)
Theorem fin_received `{!Platform} n eth ip tcp i w ps q e ia ih th p s so a t m mo f :
  in_order eth ip tcp i w ps q e ia ih th p s so a t m mo →
  tcb_state t = ESTABLISHED →
  flag_set (th_control_bits th) TCP_FIN_FLAG = true →
  tcp_get_payload_length ih th = 0 → sock_on_close so = Some f →
  ∃ w' t' h, tcp_read (H0 := dispatch (S (S (S n)))) ps i tcp w = Ok (None, w') ∧
    w_wire w' = w_wire w ++ [control_frame i e ia h] ∧
    (th_source_port h = sock_port so ∧ th_destination_port h = tcb_remote_port t ∧
     th_control_bits h = Z.lor TCP_ACK_FLAG TCP_FIN_FLAG ∧
     th_sequence_num h = htonl (tcb_send_next t) ∧
     th_acknowledgement_num h = htonl (u32 (tcb_receive_next t + 1))) ∧
    w_calls w' = w_calls w ++ [f] ∧
    w_tcbs w' = <[a := t']> (w_tcbs w) ∧
    tcb_state t' = CLOSE_WAIT ∧ tcb_receive_next t' = u32 (tcb_receive_next t + 1) ∧
    tcb_send_next t' = u32 (tcb_send_next t + 1) ∧ bb_repr (tcb_in_buffer t') [] (S m).
Proof.
  intros [Hc Hid Hfn Hseq Hwin Hpl Hack] Hst Hfin Hsize Hclose.
  destruct (tcp_read_in_order n eth ip tcp i _ _ _ _ _ _ _ _ _ _ _ _ _ _ Hc Hid Hfn (or_introl Hseq)) as
    (q1 & w1 & bb & sg & Hc1 & Hps & Hr & Htcb & Hwire & Hcalls & _).
  rewrite Hsize in Hwin.
  destruct (fin_received_ok n eth ip tcp i _ _ _ _ _ _ _ _ _ _ _ _ _ _ _ f Hc1 Hps)
    as (bbi & bbo & w2 & Hbbi & Hbbo & Hrun & Htcb2 & Hwire2 & Hcs); try done.
  set (t1 := t <| tcb_in_buffer := bb |>) in *.
  destruct (acknowledged_keeps t1 th) as (_ & _ & Hport & _ & Hib & _ & _ & Hrn & Hrw & Hsn & Hs1).
  eexists w2, _, _. split; [exact (eq_trans Hr Hrun)|]. split; [by rewrite Hwire2, Hwire|].
  split; [|split; [by rewrite Hcs, Hcalls|split; [by rewrite Htcb2, Htcb, insert_insert_eq|]]].
  - unfold reply_header, tcp_out_header, fin_taken. simpl. by rewrite Hport, Hsn, Hseq.
  - simpl. by rewrite Hseq.
Qed.
