(* ===== verification/Delivery.v ===== *)
(** * Delivery: from the bytes of a frame to the bytes of the answer

    The way of a TCP segment through the whole stack: [consume_packet] of the worker, the
    Ethernet, IPv4 and TCP handlers, and back down to the wire.  The theorems about
    [tcp_read] of [Handshake.v] and [Transfer.v] become theorems about received frames. *)

From S2P Require Import Prelude Headers Checksum ProtocolMap BlockBuffer State.
From S2P Require Import Ethernet Ipv4 TcpShared TcpSocket TcpStates Tcp TcpOutput Arp Llc Custom Stack.
From S2P Require Import Handshake Transfer.

(** A frame with a TCP segment for the own address, in a memory whose protocol maps lead to the
    handlers of the stack; [w'] is the memory after the two lookups. *)
Record tcp_frame_arrives `{!Platform} (eth ip tcp : addr) (i : interface_t) (w : world)
    (frame : list Z) (eh : ethernet_header_t) (ih : ipv4_header_t) (th : tcp_header_t)
    (emap imap : priority_map_t) : Prop := {
  fa_linked : linked w eth ip tcp;
  fa_bytes : bytes_ok frame;
  fa_ethernet : decode_ethernet_header_t frame = Some eh;
  fa_type : eth_ethernet_type eh = htons ETHERNET_TYPE_IPV4;
  fa_ip : decode_ipv4_header_t (drop 14 frame) = Some ih;
  fa_valid : valid_datagram (drop 14 frame) = true;
  fa_own : ip_destination_ip ih = if_ipv4_addr i;
  fa_tcp : decode_tcp_header_t (drop 34 frame) = Some th;
  fa_ethernet_lookup : get_value (w_ethernet_map w) (htons ETHERNET_TYPE_IPV4) = Ok (Some ip, emap);
  fa_ip_lookup : get_value (w_ip_map w) (ip_protocol ih) = Ok (Some tcp, imap)
}.

(** The arguments for an answer, as the headers of the frame give them. *)
Definition answer_ethernet (eh : ethernet_header_t) : ethernet_write_args_t :=
  {| ewa_destination := eth_source eh; ewa_ethernet_type := htons ETHERNET_TYPE_IPV4 |}.
Definition answer_ipv4 (ih : ipv4_header_t) : ipv4_write_args_t :=
  {| iwa_destination_ip := ip_source_ip ih; iwa_protocol := ip_protocol ih |}.

(** The packet stack and the memory when the IPv4 handler is called. *)
Definition datagram_stack (eth : addr) (frame : list Z) (eh : ethernet_header_t) : in_packet_stack_t :=
  {| ips_handlers := Some eth :: replicate 9 None;
     ips_return_args := ArgEthernet (answer_ethernet eh) :: replicate 9 ArgNull;
     ips_packet_pointers := Some 0%nat :: Some 14%nat :: replicate 8 None;
     ips_frame := frame;
     ips_stack_idx := 1 |}.
Definition datagram_world (w : world) (eth : addr) (frame : list Z) (eh : ethernet_header_t)
    (emap : priority_map_t) : world :=
  w <| w_in_stacks ::= <[w_next w := datagram_stack eth frame eh]> |> <| w_next := S (w_next w) |>
    <| w_ethernet_map := emap |>.

(** The packet stack when the TCP handler is called. *)
Definition segment_stack (eth ip : addr) (frame : list Z) (eh : ethernet_header_t) (ih : ipv4_header_t)
    : in_packet_stack_t :=
  {| ips_handlers := Some eth :: Some ip :: replicate 8 None;
     ips_return_args := ArgEthernet (answer_ethernet eh) :: ArgIpv4 (answer_ipv4 ih) :: replicate 8 ArgNull;
     ips_packet_pointers := Some 0%nat :: Some 14%nat :: Some 34%nat :: replicate 7 None;
     ips_frame := frame;
     ips_stack_idx := 2 |}.

(** The memory at that call. *)
Definition delivered_world (w : world) (eth ip : addr) (frame : list Z) (eh : ethernet_header_t)
    (ih : ipv4_header_t) (emap imap : priority_map_t) : world :=
  w <| w_in_stacks ::= <[w_next w := segment_stack eth ip frame eh ih]> |> <| w_next := S (w_next w) |>
    <| w_ethernet_map := emap |> <| w_ip_map := imap |>.

Section Delivery.
Context `{!Platform}.
Variables (n : nat) (eth ip tcp : addr) (i : interface_t).

Lemma ip_frame_ok w frame eh emap :
  linked w eth ip tcp → bytes_ok frame → decode_ethernet_header_t frame = Some eh →
  eth_ethernet_type eh = htons ETHERNET_TYPE_IPV4 →
  get_value (w_ethernet_map w) (htons ETHERNET_TYPE_IPV4) = Ok (Some ip, emap) →
  consume_packet (dispatch (S (S (S (S (S (S n))))))) [eth] frame i w =
  (ipv4_read (H := dispatch (S (S (S (S n))))) (w_next w) i ip;;; free w_in_stacks (w_next w);;; ret tt)
    (datagram_world w eth frame eh emap).
Proof.
  intros [(he & Hhe & Hke) (hi & Hhi & Hki) _] Hb Hde Hty Hel. set (ps := w_next w).
  set (w1 := w <| w_in_stacks ::= <[ps := new_packet_stack frame]> |> <| w_next := S ps |>).
  set (w2 := datagram_world w eth frame eh emap).
  assert (op_read (Dispatch := dispatch (S (S (S (S (S (S n))))))) ps i eth w1 =
    (ipv4_read (H := dispatch (S (S (S (S n))))) ps i ip;;; ret None) w2) as Hread.
  { rewrite (op_read_dispatch _ eth ps i w1 he Hhe), Hke. cbn [read_operation].
    rewrite (ethernet_read_ok ps i eth w1 (new_packet_stack frame) 0 eh 8 0 (Some ip) emap);
      try done; try (simpl; lia); [|apply lookup_insert_eq].
    change ((0 =? 0) && (8 <=? 6)) with false. cbv iota.
    match goal with |- bind _ _ ?x = _ => assert (x = w2) as -> end.
    { unfold w2, w1, datagram_world, set_field. simpl. by rewrite insert_insert_eq. }
    rewrite (bind_eq _ _ _ _ _ (op_read_dispatch _ ip ps i w2 hi Hhi)), Hki. done. }
  cbn [consume_packet]. erewrite bind_ok; [|reflexivity]. fold w1 ps.
  by rewrite (bind_eq _ _ _ _ _ Hread), bind_assoc.
Qed.

(** A valid datagram for the own address, with a handler of TCP for its protocol. *)
Lemma datagram_ok w frame eh ih emap imap :
  linked w eth ip tcp → bytes_ok frame → decode_ipv4_header_t (drop 14 frame) = Some ih →
  valid_datagram (drop 14 frame) = true → ip_destination_ip ih = if_ipv4_addr i →
  get_value (w_ip_map w) (ip_protocol ih) = Ok (Some tcp, imap) →
  ipv4_read (H := dispatch (S (S (S (S n))))) (w_next w) i ip (datagram_world w eth frame eh emap) =
  (tcp_read (H0 := dispatch (S (S (S n)))) (w_next w) i tcp;;; ret (Some 0))
    (delivered_world w eth ip frame eh ih emap imap).
Proof.
  intros [_ _ (ht & Hht & Hkt)] Hb Hdi Hv Hown Hil. set (ps := w_next w).
  set (w2 := delivered_world w eth ip frame eh ih emap imap).
  pose proof (ipv4_read_ok (H := dispatch (S (S (S (S n))))) ps ip i (datagram_world w eth frame eh emap)
    (datagram_stack eth frame eh) 14 ih (Some tcp) imap (lookup_insert_eq _ _ _)
    ltac:(simpl; lia) eq_refl ltac:(simpl; lia) ltac:(simpl; lia) ltac:(by apply Forall_drop) Hdi Hv Hil) as Hip.
  rewrite Hown, Z.eqb_refl in Hip. match type of Hip with _ = _ ?x => assert (x = w2) as E end.
  { unfold w2, datagram_world, delivered_world, set_field. simpl. by rewrite insert_insert_eq. }
  rewrite E in Hip. refine (eq_trans Hip _). apply bind_eq. change (w_handlers w2 !! tcp = Some ht) in Hht.
  by rewrite (op_read_dispatch _ tcp ps i w2 ht Hht), Hkt.
Qed.

Lemma tcp_frame_delivered_ok w frame eh ih th emap imap :
  tcp_frame_arrives eth ip tcp i w frame eh ih th emap imap →
  consume_packet (dispatch (S (S (S (S (S (S n))))))) [eth] frame i w =
  (tcp_read (H0 := dispatch (S (S (S n)))) (w_next w) i tcp;;; free w_in_stacks (w_next w);;; ret tt)
    (delivered_world w eth ip frame eh ih emap imap).
Proof.
  intros [Hln Hb Hde Hty Hdi Hv Hown _ Hel Hil]. rewrite (ip_frame_ok _ _ _ _ Hln Hb Hde Hty Hel).
  by rewrite (bind_eq _ _ _ _ _ (datagram_ok _ _ _ _ _ _ Hln Hb Hdi Hv Hown Hil)), bind_assoc.
Qed.

(** *** Frames that end before their headers *)

Lemma decode_ethernet_short m : (length m < 14)%nat → decode_ethernet_header_t m = None.
Proof. intros Hl. do 14 (destruct m as [|? m]; [done|]). simpl in Hl. lia. Qed.

Lemma short_ethernet_ok w frame :
  linked w eth ip tcp → (length frame < 14)%nat →
  consume_packet (dispatch (S (S (S (S (S (S n))))))) [eth] frame i w = Fault OutOfBounds.
Proof.
  intros [(he & Hhe & Hke) _ _] Hl. set (ps := w_next w).
  set (w1 := w <| w_in_stacks ::= <[ps := new_packet_stack frame]> |> <| w_next := S ps |>).
  cbn [consume_packet]. erewrite bind_ok; [|reflexivity]. fold w1 ps.
  apply bind_fault. rewrite (op_read_dispatch _ eth ps i w1 he Hhe), Hke. cbn [read_operation].
  unfold ethernet_read. erewrite bind_load by apply lookup_insert_eq. cbv zeta.
  erewrite bind_ok by reflexivity. erewrite bind_update by apply lookup_insert_eq.
  erewrite bind_ok by reflexivity. apply bind_fault. unfold cast. change (drop 0 frame) with frame.
  by rewrite decode_ethernet_short.
Qed.

Lemma short_ipv4_ok w frame eh emap :
  linked w eth ip tcp → bytes_ok frame → decode_ethernet_header_t frame = Some eh →
  eth_ethernet_type eh = htons ETHERNET_TYPE_IPV4 →
  get_value (w_ethernet_map w) (htons ETHERNET_TYPE_IPV4) = Ok (Some ip, emap) →
  drop 14 frame = [] ∨ (length (drop 14 frame) < ipv4_header_length (drop 14 frame))%nat →
  consume_packet (dispatch (S (S (S (S (S (S n))))))) [eth] frame i w = Fault OutOfBounds.
Proof.
  intros Hln Hb Hde Hty Hel Hshort. rewrite (ip_frame_ok _ _ _ _ Hln Hb Hde Hty Hel).
  apply bind_fault. unfold ipv4_read. erewrite bind_load by apply lookup_insert_eq. cbv zeta.
  erewrite bind_ok by reflexivity. erewrite bind_update by apply lookup_insert_eq.
  erewrite bind_ok by reflexivity. apply bind_fault.
  change (ips_frame (datagram_stack eth frame eh)) with frame.
  rewrite ipv4_checksum_short; [done|by apply Forall_drop|exact Hshort].
Qed.

(** *** Segments that end before their header *)

(** The TCP handler with the sockets it has. *)
Definition tcp_sockets_ok (w : world) (p : tcp_priv_t) : Prop :=
  (∃ h, w_handlers w !! tcp = Some h ∧ h_priv h = PrivTcp p) ∧
  Forall (λ b, is_Some (w_sockets w !! b)) (registered (tp_tcp_sockets p)).

(** A frame that leaves no trace. *)
Definition ignored (w : world) (r : outcome (unit * world)) : Prop :=
  ∃ w', r = Ok (tt, w') ∧ w_wire w' = w_wire w ∧ w_tcbs w' = w_tcbs w ∧ w_sockets w' = w_sockets w ∧
    w_calls w' = w_calls w.

Section ShortSegment.
Variables (w : world) (frame : list Z) (eh : ethernet_header_t) (ih : ipv4_header_t).
Variables (emap imap : priority_map_t).
Let segment := drop 34 frame.
Let w0 := delivered_world w eth ip frame eh ih emap imap.
Let q := segment_stack eth ip frame eh ih.
Let w1 := w0 <| w_in_stacks ::= <[w_next w := q <| ips_handlers := <[2%nat := Some tcp]> (ips_handlers q) |>]> |>.
Hypothesis decoded : decode_ipv4_header_t (drop 14 frame) = Some ih.

(** Each read of the header is limited by the bytes that are there. *)
Lemma short_headers size :
  packet_headers size (w_next w) w1 =
  match tcp_header_prefix size segment with Some th => Ok ((th, ih), w1) | None => Fault OutOfBounds end.
Proof.
  unfold packet_headers. erewrite bind_load by apply lookup_insert_eq. erewrite bind_ok by reflexivity.
  change (drop 34 _) with segment. unfold cast. destruct (tcp_header_prefix size segment) as [th|]; [|done].
  cbn [need]. rewrite !bind_ret_l. erewrite bind_ok by reflexivity.
  erewrite bind_ok by reflexivity. change (drop 14 (ips_frame _)) with (drop 14 frame).
  by rewrite decoded.
Qed.
Lemma short_need size :
  need_header size (w_next w) w1 =
  if decide (size <= length segment)%nat then Ok (tt, w1) else Fault OutOfBounds.
Proof.
  unfold need_header, bind. rewrite short_headers. case_decide as Hs.
  - by destruct (tcp_header_prefix_some size segment Hs) as [th ->].
  - by rewrite tcp_header_prefix_short by lia.
Qed.

Lemma short_read :
  tcp_read (H0 := dispatch (S (S (S n)))) (w_next w) i tcp w0 =
  (hs <- packet_headers up_to_ports (w_next w);;
   let '(header, ipv4_header) := hs in
   let connection_id := tcb_header_to_connection_id ipv4_header header in
   socket <- packet_socket tcp ipv4_header header;;
   match socket with
   | None => ret (Some 0)
   | Some socket =>
       tcb <- tcp_read_connection tcp socket (w_next w) connection_id ipv4_header header;;
       match tcb with
       | None => ret (Some 1)
       | Some tcb => tcp_read_segment (H0 := dispatch (S (S (S n)))) tcp tcb (w_next w) ipv4_header header i
       end
   end) w1.
Proof.
  unfold tcp_read. erewrite bind_load by apply lookup_insert_eq. erewrite bind_ok by reflexivity.
  by erewrite bind_update by apply lookup_insert_eq.
Qed.

Lemma no_ports : (length segment < 4)%nat → tcp_read (H0 := dispatch (S (S (S n)))) (w_next w) i tcp w0 = Fault OutOfBounds.
Proof.
  intros Hl. rewrite short_read. apply bind_fault. rewrite short_headers.
  by rewrite tcp_header_prefix_short by (unfold up_to_ports; lia).
Qed.

(** With the ports the socket is looked for. *)
Lemma short_socket p th r :
  tcp_sockets_ok w p → tcp_header_prefix up_to_ports segment = Some th →
  head (filter (listens w (ip_destination_ip ih) (th_destination_port th)) (registered (tp_tcp_sockets p))) = r →
  tcp_read (H0 := dispatch (S (S (S n)))) (w_next w) i tcp w0 =
  match r with
  | None => Ok (Some 0, w1)
  | Some s =>
      (tcb <- tcp_read_connection tcp s (w_next w) (tcb_header_to_connection_id ih th) ih th;;
       match tcb with
       | None => ret (Some 1)
       | Some tcb => tcp_read_segment (H0 := dispatch (S (S (S n)))) tcp tcb (w_next w) ih th i
       end) w1
  end.
Proof.
  intros [(h & Hh & Hp) Hl] Hth Hr. rewrite short_read.
  rewrite (bind_ok _ _ w1 (th, ih) w1) by (by rewrite short_headers, Hth). cbv beta iota zeta.
  rewrite (bind_ok _ _ _ _ _ (packet_socket_ok tcp w1 h p ih th Hh Hp Hl)).
  change (head (filter (listens w1 _ _) _)) with
    (head (filter (listens w (ip_destination_ip ih) (th_destination_port th)) (registered (tp_tcp_sockets p)))).
  rewrite Hr. by destruct r.
Qed.

(** A connection that is known: its length and its sequence number are read. *)
Lemma short_known s so th a :
  w_sockets w !! s = Some so → slots_ok w (sock_trans_control_block so) →
  head (holders w (sock_trans_control_block so) (tcb_header_to_connection_id ih th)) = Some a →
  (length segment < 13)%nat →
  (tcb <- tcp_read_connection tcp s (w_next w) (tcb_header_to_connection_id ih th) ih th;;
   match tcb with
   | None => ret (Some 1)
   | Some tcb => tcp_read_segment (H0 := dispatch (S (S (S n)))) tcp tcb (w_next w) ih th i
   end) w1 = Fault OutOfBounds.
Proof.
  intros Hs Hsl Ha Hlen. rewrite (bind_ok _ _ _ (Some a) w1).
  - unfold tcp_read_segment. apply bind_fault. rewrite short_need. unfold up_to_data_offset.
    by rewrite decide_False by lia.
  - unfold tcp_read_connection.
    rewrite (bind_ok _ _ _ (Some a) w1); [done|]. rewrite (get_tcb_spec w1 s so) by done.
    change (holders w1 _ _) with (holders w (sock_trans_control_block so) (tcb_header_to_connection_id ih th)).
    by rewrite Ha.
Qed.

(** An unknown one: the flags are read, and all of the header for a SYN. *)
Lemma short_unknown s so th :
  w_sockets w !! s = Some so → slots_ok w (sock_trans_control_block so) →
  holders w (sock_trans_control_block so) (tcb_header_to_connection_id ih th) = [] →
  let result :=
    (tcb <- tcp_read_connection tcp s (w_next w) (tcb_header_to_connection_id ih th) ih th;;
     match tcb with
     | None => ret (Some 1)
     | Some tcb => tcp_read_segment (H0 := dispatch (S (S (S n)))) tcp tcb (w_next w) ih th i
     end) w1 in
  ((length segment < 14)%nat → result = Fault OutOfBounds) ∧
  ((14 <= length segment)%nat →
   if flag_set (th_control_bits th) TCP_SYN_FLAG
   then (length segment < 20)%nat → result = Fault OutOfBounds
   else result = Ok (Some 1, w1)).
Proof.
  intros Hs Hsl Ha result.
  assert (tcp_get_transmission_control_block s (tcb_header_to_connection_id ih th) w1 = Ok (None, w1)) as Hget.
  { rewrite (get_tcb_spec w1 s so) by done.
    change (holders w1 _ _) with (holders w (sock_trans_control_block so) (tcb_header_to_connection_id ih th)).
    by rewrite Ha. }
  unfold result, tcp_read_connection. rewrite !bind_assoc, (bind_ok _ _ _ _ _ Hget), bind_assoc. split.
  - intros Hlen. apply bind_fault. rewrite short_need. by rewrite decide_False by (unfold up_to_control_bits; lia).
  - intros Hlen. rewrite (bind_ok _ _ _ tt w1)
      by (rewrite short_need; by rewrite decide_True by (unfold up_to_control_bits; lia)).
    destruct (flag_set _ _); [|done]. intros Hshort. apply bind_fault, bind_fault. rewrite short_need.
    by rewrite decide_False by (unfold up_to_urgent_pointer; lia).
Qed.
End ShortSegment.

Lemma segment_delivered w frame eh ih emap imap :
  linked w eth ip tcp → bytes_ok frame → decode_ethernet_header_t frame = Some eh →
  eth_ethernet_type eh = htons ETHERNET_TYPE_IPV4 →
  get_value (w_ethernet_map w) (htons ETHERNET_TYPE_IPV4) = Ok (Some ip, emap) →
  decode_ipv4_header_t (drop 14 frame) = Some ih → valid_datagram (drop 14 frame) = true →
  ip_destination_ip ih = if_ipv4_addr i → get_value (w_ip_map w) (ip_protocol ih) = Ok (Some tcp, imap) →
  consume_packet (dispatch (S (S (S (S (S (S n))))))) [eth] frame i w =
  (tcp_read (H0 := dispatch (S (S (S n)))) (w_next w) i tcp;;; free w_in_stacks (w_next w);;; ret tt)
    (delivered_world w eth ip frame eh ih emap imap).
Proof.
  intros Hln Hb Hde Hty Hel Hdi Hv Hown Hil. rewrite (ip_frame_ok _ _ _ _ Hln Hb Hde Hty Hel).
  by rewrite (bind_eq _ _ _ _ _ (datagram_ok _ _ _ _ _ _ Hln Hb Hdi Hv Hown Hil)), bind_assoc.
Qed.

(** The frame of a segment that is given back. *)
Lemma read_ignored w frame eh ih emap imap r :
  let w0 := delivered_world w eth ip frame eh ih emap imap in
  let q := segment_stack eth ip frame eh ih in
  tcp_read (H0 := dispatch (S (S (S n)))) (w_next w) i tcp w0 =
    Ok (r, w0 <| w_in_stacks ::= <[w_next w := q <| ips_handlers := <[2%nat := Some tcp]> (ips_handlers q) |>]> |>) →
  ignored w ((tcp_read (H0 := dispatch (S (S (S n)))) (w_next w) i tcp;;; free w_in_stacks (w_next w);;; ret tt) w0).
Proof.
  intros w0 q Hr. rewrite (bind_ok _ _ _ _ _ Hr). unfold free, bind. simpl. rewrite lookup_insert_eq.
  eexists. split; [reflexivity|done].
Qed.

(** The segment on its packet stack. *)
Lemma segment_stack_ok w frame eh ih th emap imap :
  tcp_frame_arrives eth ip tcp i w frame eh ih th emap imap →
  segment_in (segment_stack eth ip frame eh ih) eth ip (answer_ethernet eh) (answer_ipv4 ih) ih th.
Proof.
  intros [_ Hb _ _ Hdi _ _ Hdt _ _]. split; try done; [by exists 14%nat|by exists 34%nat|].
  apply decode_ipv4_ok in Hdi; [|by apply Forall_drop].
  unfold ipv4_header_t_ok in Hdi. split; apply Hdi.
Qed.

Lemma delivered_world_linked w frame eh ih emap imap :
  linked w eth ip tcp → linked (delivered_world w eth ip frame eh ih emap imap) eth ip tcp.
Proof. by intros []. Qed.

(** ** The first two frames of a connection *)

(** A SYN for a listening socket with a free slot and without a connection for it, in the memory
    in front of the frame. *)
Record syn_expected (w : world) (ih : ipv4_header_t) (th : tcp_header_t) (p : tcp_priv_t)
    (s : addr) (so : tcp_socket_t) : Prop := {
  se_platform : platform_ok;
  se_next : ∀ a, is_Some (w_tcbs w !! a) → (a < w_next w)%nat;
  se_handler : ∃ h, w_handlers w !! tcp = Some h ∧ h_priv h = PrivTcp p;
  se_sockets : Forall (λ b, is_Some (w_sockets w !! b)) (registered (tp_tcp_sockets p));
  se_listens : head (filter (listens w (ip_destination_ip ih) (th_destination_port th))
                  (registered (tp_tcp_sockets p))) = Some s;
  se_socket : w_sockets w !! s = Some so;
  se_slots : slots_ok w (sock_trans_control_block so);
  se_free : None ∈ sock_trans_control_block so;
  se_new : holders w (sock_trans_control_block so) (tcb_header_to_connection_id ih th) = [];
  se_id : tcb_header_to_connection_id ih th ≠ 0;
  se_flags : flag_set (th_control_bits th) TCP_SYN_FLAG = true ∧
             flag_set (th_control_bits th) TCP_ACK_FLAG = false ∧
             flag_set (th_control_bits th) TCP_RST_FLAG = false;
  se_own : is_u32 (if_ipv4_addr i) ∧ is_u32 (sock_ipv4 so) ∧ is_u16 (sock_port so)
}.

Lemma syn_expected_arrives w frame eh ih th emap imap p s so :
  tcp_frame_arrives eth ip tcp i w frame eh ih th emap imap → syn_expected w ih th p s so →
  syn_arrives eth ip tcp i (delivered_world w eth ip frame eh ih emap imap) (w_next w)
    (segment_stack eth ip frame eh ih) (answer_ethernet eh) (answer_ipv4 ih) ih th p s so.
Proof.
  intros Hf []. split; try done.
  - apply delivered_world_linked, Hf.
  - intros a Ha. specialize (se_next0 a Ha). simpl. lia.
  - apply lookup_insert_eq.
  - by eapply segment_stack_ok.
  - apply Hf.
Qed.

(** The worker frees the packet stack behind [tcp_read]. *)
Lemma read_then_free (ps : addr) (m : M world (option Z)) w r w' :
  m w = Ok (r, w') → is_Some (w_in_stacks w' !! ps) →
  (m;;; free w_in_stacks ps;;; ret tt) w = Ok (tt, w' <| w_in_stacks ::= delete ps |>).
Proof.
  intros Hm [q Hq]. rewrite (bind_ok _ _ _ _ _ Hm). unfold free, bind. by rewrite Hq.
Qed.

Lemma syn_frame_ok w frame eh ih th emap imap p s so :
  tcp_frame_arrives eth ip tcp i w frame eh ih th emap imap → syn_expected w ih th p s so →
  let w0 := delivered_world w eth ip frame eh ih emap imap in
  ∃ w' so' bbi bbo,
    consume_packet (dispatch (S (S (S (S (S (S n))))))) [eth] frame i w =
      Ok (tt, w' <| w_in_stacks ::= delete (w_next w) |>) ∧
    syn_answered i w0 w' (w_next w) (answer_ethernet eh) (answer_ipv4 ih) th (new_tcb w0 p ih th)
      s so so' bbi bbo.
Proof.
  intros Hf Hs w0.
  destruct (tcp_read_syn_ok n eth ip tcp i _ _ _ _ _ _ _ _ _ _ (syn_expected_arrives _ _ _ _ _ _ _ _ _ _ Hf Hs))
    as (w' & so' & bbi & bbo & Hr & Ha).
  exists w', so', bbi, bbo. split; [|exact Ha].
  rewrite (tcp_frame_delivered_ok _ _ _ _ _ _ _ Hf). apply read_then_free with (Some 0); [exact Hr|].
  destruct Ha as [_ _ _ _ _ _ _ (q' & Hq') _ _ _]. rewrite Hq', lookup_insert_eq. by eexists.
Qed.

Lemma reply_header_checksum t so flags :
  tcp_header_t_ok (tcp_out_header t (sock_port so) flags 0) → bytes_ok (tcb_after_header t) →
  is_u32 (sock_ipv4 so) → is_u32 (tcb_remote_ipv4 t) →
  is_u16 (th_checksum (reply_header t so flags)).
Proof.
  intros Hok Ha Hs Hr. unfold reply_header. cbv zeta. rewrite tcp_checksum_value_20 by done.
  by apply rfc1071_checksum_range, segment_words_range.
Qed.

(** The ACK of the SYN-ACK, from the same peer to the same socket, without data. *)
Record ack_of_syn_ack (w : world) (ih : ipv4_header_t) (th : tcp_header_t) (ih2 : ipv4_header_t)
    (th2 : tcp_header_t) : Prop := {
  as_peer : ip_source_ip ih2 = ip_source_ip ih ∧ th_source_port th2 = th_source_port th ∧
            th_destination_port th2 = th_destination_port th;
  as_flags : plain_ack th2 ∧ flag_set (th_control_bits th2) TCP_FIN_FLAG = false;
  as_sequence : ntohl (th_sequence_num th2) = u32 (ntohl (th_sequence_num th) + 1);
  as_ack : ntohl (th_acknowledgement_num th2) = u32 (42 + (w_x w + 100)) + 1;
  as_payload : tcp_get_payload_length ih2 th2 = 0
}.

(** The receive window of the connection does not wrap around. *)
Definition window_fits (p : tcp_priv_t) (th : tcp_header_t) : Prop :=
  0 < u16 (tp_window p) ∧
  u32 (ntohl (th_sequence_num th) + 1) + u16 (tp_window p) < 4294967296.

Lemma second_frame_in_order w frame eh ih th emap imap p s so w' so' bbi bbo
    frame2 eh2 ih2 th2 emap2 imap2 :
  let w0 := delivered_world w eth ip frame eh ih emap imap in
  let t := new_tcb w0 p ih th in
  let w1 := w' <| w_in_stacks ::= delete (w_next w) |> in
  tcp_frame_arrives eth ip tcp i w frame eh ih th emap imap → syn_expected w ih th p s so →
  syn_answered i w0 w' (w_next w) (answer_ethernet eh) (answer_ipv4 ih) th t s so so' bbi bbo →
  tcp_frame_arrives eth ip tcp i w1 frame2 eh2 ih2 th2 emap2 imap2 →
  ack_of_syn_ack w ih th ih2 th2 → window_fits p th →
  in_order eth ip tcp i (delivered_world w1 eth ip frame2 eh2 ih2 emap2 imap2) (w_next w1)
    (segment_stack eth ip frame2 eh2 ih2) (answer_ethernet eh2) (answer_ipv4 ih2) ih2 th2 p s so'
    (w_next w0) (syn_answered_tcb t th so bbi bbo) TCP_BLOCK_BUFFER_DEFAULT_SIZE
    TCP_BLOCK_BUFFER_DEFAULT_SIZE.
Proof.
  intros w0 t w1 Hf Hs Ha Hf2 [(Hsrc & Hsp & Hdp) [Hpl _] Hseq Hack Hpay] [Hwin Hwrap].
  pose proof (syn_answer_ok _ _ _ _ _ _ _ _ _ _ _ _ _ _ (syn_expected_arrives _ _ _ _ _ _ _ _ _ _ Hf Hs))
    as [Hok Hrip].
  destruct Hs as [(_ & Haft & _) _ (h & Hh & Hp) Hlive Hl Hso _ _ _ Hid _ (Hown & Hsip & Hport)].
  destruct Ha as [_ Htcbs Hsocks Eso Hslots Hhead Hhs _ Hbi Hbo _].
  assert (tcp_header_t_ok th) as Hokt
    by (eapply decode_tcp_ok; [|apply Hf]; apply Forall_drop, Hf).
  split; try done.
  - split; try done.
    + apply delivered_world_linked, Hf2.
    + apply lookup_insert_eq.
    + by eapply segment_stack_ok.
    + exists h. split; [|done]. change (w_handlers w' !! tcp = Some h). by rewrite Hhs.
    + apply (sockets_replaced w0 _ s so (sock_trans_control_block so') _ 0 0); [done| |done].
      change (w_sockets w' = <[s := so <| sock_trans_control_block := sock_trans_control_block so' |>]>
        (w_sockets w0)). by rewrite Hsocks, Eso.
    + rewrite Hdp, (fa_own _ _ _ _ _ _ _ _ _ _ _ Hf2), <- (fa_own _ _ _ _ _ _ _ _ _ _ _ Hf).
      rewrite <- Hl. f_equal.
      apply (sockets_replaced w0 _ s so (sock_trans_control_block so') _); [done| |done].
      change (w_sockets w' = <[s := so <| sock_trans_control_block := sock_trans_control_block so' |>]>
        (w_sockets w0)). by rewrite Hsocks, Eso.
    + change (w_sockets w' !! s = Some so'). rewrite Hsocks. apply lookup_insert_eq.
    + change (w_tcbs w' !! w_next w0 = Some (syn_answered_tcb t th so bbi bbo)).
      rewrite Htcbs. apply lookup_insert_eq.
    + by subst so'.
    + split; [done|]. apply Hokt.
    + split; [by apply reply_header_checksum|done].
  - unfold tcb_header_to_connection_id. by rewrite Hsrc, Hsp, Hdp.
  - change (is_segment_in_window (syn_answered_tcb t th so bbi bbo) th2 (tcp_get_payload_length ih2 th2) = true).
    rewrite Hpay. unfold is_segment_in_window. rewrite Hseq.
    change (tcb_receive_window (syn_answered_tcb t th so bbi bbo)) with (u16 (tp_window p)).
    change (tcb_receive_next (syn_answered_tcb t th so bbi bbo)) with (u32 (ntohl (th_sequence_num th) + 1)).
    cbv zeta. pose proof (u32_range (ntohl (th_sequence_num th) + 1)) as Hr.
    set (x := u32 (ntohl (th_sequence_num th) + 1)) in *. rewrite u32_id by (unfold is_u32 in *; lia).
    rewrite Z.eqb_refl. destruct (Z.eqb_spec (u16 (tp_window p)) 0); [lia|]. cbn [negb andb].
    rewrite (proj2 (Z.leb_le _ _)), (proj2 (Z.ltb_lt _ _)) by lia. done.
  - change (ntohl (th_acknowledgement_num th2) <= u32 (u32 (42 + (w_x w + 100)) + 1)).
    rewrite Hack. pose proof (ntohl_range (th_acknowledgement_num th2)) as Hr. rewrite Hack in Hr.
    pose proof (u32_range (42 + (w_x w + 100))). rewrite (u32_id (_ + 1)); [lia|exact Hr].
Qed.
End Delivery.

(** ** Properties *)

(** C3: a frame with a valid datagram for the own address and a TCP header in it is read by
    [tcp_read], and by nothing behind it: the worker's call of the root handler amounts to
    [tcp_read] on the segment, with the packet stack on the TCP header and the arguments
    for an answer to the sender; only the protocol maps have changed before, and the
    packet stack is freed behind it.  The protocol maps have to lead to the handlers of IPv4
    and TCP, which they do not always (C27). *)
Theorem tcp_frame_delivered `{!Platform} n eth ip tcp i w frame eh ih th emap imap :
  tcp_frame_arrives eth ip tcp i w frame eh ih th emap imap →
  let ps := w_next w in
  let w' := delivered_world w eth ip frame eh ih emap imap in
  consume_packet (dispatch (S (S (S (S (S (S n))))))) [eth] frame i w =
    (tcp_read (H0 := dispatch (S (S (S n)))) ps i tcp;;; free w_in_stacks ps;;; ret tt) w' ∧
  w_in_stacks w' !! ps = Some (segment_stack eth ip frame eh ih) ∧
  segment_in (segment_stack eth ip frame eh ih) eth ip (answer_ethernet eh) (answer_ipv4 ih) ih th.
Proof.
  intros Hf ps w'. split; [by eapply tcp_frame_delivered_ok|].
  split; [apply lookup_insert_eq|by eapply segment_stack_ok].
Qed.

(** C17: frames that end within the headers.  A frame that ends within the Ethernet header, or
    whose datagram is shorter than its IPv4 header says, is read behind its end.  Of a TCP
    segment only what is needed is read: without the ports always behind the end; with them, a
    segment that no socket listens for is ignored; a segment of a known connection is read behind
    its end if it ends before the data offset, and one of an unknown connection if it ends before the
    flags, or, when it is a SYN, within the 20 bytes of the header; without SYN it is ignored. *)
Theorem short_frame_overruns `{!Platform} n eth ip tcp i w frame :
  linked w eth ip tcp → bytes_ok frame →
  let consumed := consume_packet (dispatch (S (S (S (S (S (S n))))))) [eth] frame i w in
  ((length frame < 14)%nat → consumed = Fault OutOfBounds) ∧
  ∀ eh emap, decode_ethernet_header_t frame = Some eh → eth_ethernet_type eh = htons ETHERNET_TYPE_IPV4 →
    get_value (w_ethernet_map w) (htons ETHERNET_TYPE_IPV4) = Ok (Some ip, emap) →
    let m := drop 14 frame in
    (m = [] ∨ (length m < ipv4_header_length m)%nat → consumed = Fault OutOfBounds) ∧
    ∀ ih imap, decode_ipv4_header_t m = Some ih → valid_datagram m = true →
      ip_destination_ip ih = if_ipv4_addr i → get_value (w_ip_map w) (ip_protocol ih) = Ok (Some tcp, imap) →
      let segment := drop 20 m in
      ((length segment < 4)%nat → consumed = Fault OutOfBounds) ∧
      ∀ p th, tcp_sockets_ok tcp w p → tcp_header_prefix up_to_ports segment = Some th →
        match head (filter (listens w (ip_destination_ip ih) (th_destination_port th))
                      (registered (tp_tcp_sockets p))) with
        | None => ignored w consumed
        | Some s => ∀ so, w_sockets w !! s = Some so → slots_ok w (sock_trans_control_block so) →
            match head (holders w (sock_trans_control_block so) (tcb_header_to_connection_id ih th)) with
            | Some _ => (length segment < 13)%nat → consumed = Fault OutOfBounds
            | None =>
                ((length segment < 14)%nat → consumed = Fault OutOfBounds) ∧
                ((14 <= length segment)%nat →
                 if flag_set (th_control_bits th) TCP_SYN_FLAG
                 then (length segment < 20)%nat → consumed = Fault OutOfBounds else ignored w consumed)
            end
        end.
Proof.
  intros Hln Hb. cbv zeta. split; [by apply (short_ethernet_ok n eth ip tcp)|].
  intros eh emap Hde Hty Hel. split; [exact (short_ipv4_ok n eth ip tcp i w frame eh emap Hln Hb Hde Hty Hel)|].
  intros ih imap Hdi Hv Hown Hil. rewrite drop_drop.
  rewrite (segment_delivered n eth ip tcp i w frame eh ih emap imap) by done. split.
  { intros Hl. apply bind_fault. by apply no_ports. }
  intros p th Hp Hth.
  pose proof (short_socket n eth ip tcp i w frame eh ih emap imap Hdi p th _ Hp Hth eq_refl) as Hr.
  destruct (head (filter _ _)) as [s|]; [|by eapply read_ignored].
  intros so Hs Hsl. destruct (holders w _ _) as [|a l] eqn:Ha; cbn [head].
  - destruct (short_unknown n eth ip tcp i w frame eh ih emap imap Hdi s so th Hs Hsl Ha) as [H1 H2]. split.
    + intros Hl. apply bind_fault. rewrite Hr. by apply H1.
    + intros Hl. specialize (H2 Hl). destruct (flag_set _ _).
      * intros Hl2. apply bind_fault. rewrite Hr. by apply H2.
      * eapply read_ignored. rewrite Hr. exact H2.
  - intros Hl. apply bind_fault. rewrite Hr. eapply short_known; try done. by rewrite Ha.
Qed.

(** C2: the handshake, from frames to frames.  The frame of a SYN for a listening socket is
    answered by exactly one frame, the SYN-ACK, and leaves a connection in SYN_RECEIVED; when
    then the frame of the ACK for it arrives, from the same peer and without data, nothing
    is written, and the connection is in ESTABLISHED, expects the octet behind the SYN and
    will send from the octet behind its own.  The lookups of both frames lead to IPv4 and TCP
    (see C27 for when they do not), and the receive window is not 0 and does not wrap around. *)
Theorem three_way_handshake `{!Platform} n eth ip tcp i w frame eh ih th emap imap p s so :
  tcp_frame_arrives eth ip tcp i w frame eh ih th emap imap →
  syn_expected tcp i w ih th p s so → window_fits p th →
  let iss := u32 (42 + (w_x w + 100)) in
  let consume frame := consume_packet (dispatch (S (S (S (S (S (S n))))))) [eth] frame i in
  ∃ w1 h a t1, consume frame w = Ok (tt, w1) ∧
    w_wire w1 = w_wire w ++ [control_frame i (answer_ethernet eh) (answer_ipv4 ih) h] ∧
    (th_source_port h = sock_port so ∧ th_destination_port h = th_source_port th ∧
     th_control_bits h = Z.lor TCP_ACK_FLAG TCP_SYN_FLAG ∧ th_sequence_num h = htonl iss ∧
     th_acknowledgement_num h = htonl (u32 (ntohl (th_sequence_num th) + 1))) ∧
    w_tcbs w1 = <[a := t1]> (w_tcbs w) ∧ tcb_state t1 = SYN_RECEIVED ∧
    ∀ frame2 eh2 ih2 th2 emap2 imap2,
      tcp_frame_arrives eth ip tcp i w1 frame2 eh2 ih2 th2 emap2 imap2 →
      ack_of_syn_ack w ih th ih2 th2 →
      ∃ w2 t2, consume frame2 w1 = Ok (tt, w2) ∧ w_wire w2 = w_wire w1 ∧
        w_tcbs w2 = <[a := t2]> (w_tcbs w1) ∧ tcb_state t2 = ESTABLISHED ∧
        tcb_receive_next t2 = u32 (ntohl (th_sequence_num th) + 1) ∧ tcb_send_next t2 = u32 (iss + 1) ∧
        tcb_send_window t2 = ntohs (th_window th2).
Proof.
  intros Hf Hs Hwin iss consume.
  destruct (syn_frame_ok n eth ip tcp i _ _ _ _ _ _ _ _ _ _ Hf Hs) as (w' & so' & bbi & bbo & Hc & Ha).
  set (w0 := delivered_world w eth ip frame eh ih emap imap) in *. set (t := new_tcb w0 p ih th) in *.
  set (w1 := w' <| w_in_stacks ::= delete (w_next w) |>) in *.
  exists w1, (reply_header (syn_received t th) so 18), (w_next w0), (syn_answered_tcb t th so bbi bbo).
  split; [exact Hc|]. split; [apply Ha|]. split; [done|]. split; [apply Ha|]. split; [done|].
  intros frame2 eh2 ih2 th2 emap2 imap2 Hf2 Hack.
  pose proof (second_frame_in_order eth ip tcp i w frame eh ih th emap imap p s so w' so' bbi bbo frame2 eh2 ih2 th2 emap2 imap2 Hf Hs Ha Hf2 Hack Hwin) as Hio.
  destruct (tcp_read_handshake_ok n eth ip tcp i _ _ _ _ _ _ _ _ _ _ _ _ _ _ Hio)
    as (w2 & t2 & Hr & Htcbs & Hwire & _ & Hst & _ & Hsw & Hrn & Hsn & _ & Hps); try done.
  - destruct Hack as [_ _ _ Hack _]. rewrite Hack. apply Z.lt_succ_diag_r.
  - apply Hack.
  - exists (w2 <| w_in_stacks ::= delete (w_next w1) |>), t2. split; [|split; [exact Hwire|split; [exact Htcbs|by split]]].
    unfold consume. rewrite (tcp_frame_delivered_ok _ _ _ _ _ _ _ _ _ _ _ _ Hf2).
    by apply read_then_free with None.
Qed.
