(* ===== verification/Refuse.v ===== *)
(** * Refuse: segments that [tcp_others] does not take

    Outside the window, with a SYN, without an ACK, or with an ACK of what was not sent: the
    segment is answered with an ACK or dropped, and leaves the queue either way. *)

From S2P Require Import Prelude Headers Checksum ProtocolMap BlockBuffer State.
From S2P Require Import Ethernet Ipv4 TcpShared TcpSocket TcpStates Tcp TcpOutput Arp Llc Custom Stack.
From S2P Require Import Handshake Transfer.

(** ** What becomes of a segment *)

Inductive verdict : Type :=
  | Challenge   (* answered with an ACK, and dropped *)
  | Drop        (* dropped *)
  | Stuck       (* the loop returns; the segment stays at the head of the queue *)
  | Report      (* the same, behind the callback [on_close] *)
  | Take.       (* processed further *)

(** The states in which the data of a segment and its ACK are looked at. *)
Definition synchronised (state : TCP_STATE) : bool :=
  bool_decide (state ∈ [ESTABLISHED; FIN_WAIT_1; FIN_WAIT_2; CLOSE_WAIT; CLOSING]).

Definition segment_verdict (t : transmission_control_block_t) (th : tcp_header_t) (size : Z) : verdict :=
  let flag := flag_set (th_control_bits th) in
  if negb (is_segment_in_window t th size) then if flag TCP_RST_FLAG then Drop else Challenge
  else if flag TCP_RST_FLAG then
    if bool_decide (tcb_state t = SYN_RECEIVED) && tcb_active_mode t then Report else Stuck
  else if flag TCP_SYN_FLAG then
    if bool_decide (tcb_state t = SYN_RECEIVED) && negb (tcb_active_mode t) then Stuck else Challenge
  else if flag TCP_ACK_FLAG then
    if synchronised (tcb_state t) && (tcb_send_next t <? ntohl (th_acknowledgement_num th))
    then Challenge else Take
  else Drop.

Section Refused.
Context `{!Platform}.
Variables (n : nat) (eth ip tcp : addr) (i : interface_t).
#[local] Instance d7 : Dispatch := dispatch (S (S (S n))).

(** The loop of [tcp_others] for one segment. *)
Lemma tcp_others_round w ps q e ia ih th p s so a t sg m mo :
  connected eth ip tcp i w ps q e ia ih th p s so a t [sg] m mo → seg_data sg = ps →
  let size := tcp_get_payload_length ih th in
  tcp_others tcp a 1 i w =
  (f <- and_then
     (if is_segment_in_window t th size
      then tcp_others_in_window tcp a ps (Some s) (tcb_state t) th size i
      else tcp_others_out_of_window tcp a ps (Some s) th i) (drop_and_continue a);;
   match f with Return v => ret (Some v) | _ => ret None end) w.
Proof.
  intros [] Hps size. destruct sq_handler as (h & Hh & Hp).
  cbn [tcp_others]. unfold tcp_others_one.
  rewrite bind_assoc, (bind_ok _ _ _ _ _ (head_packet_ok _ _ _ _ _ _ sq_tcb sq_in)), Hps.
  rewrite bind_assoc. read_headers sq_stack sq_segment.
  cbv beta iota zeta. rewrite bind_assoc.
  rewrite (bind_ok _ _ _ _ _ (packet_socket_ok tcp w h p ih th Hh Hp sq_sockets)), sq_listens.
  by rewrite bind_assoc, (bind_load _ _ t).
Qed.

(** Either way the round ends with the segment out of the queue. *)
Definition round (a : addr) (body : M world flow) : M world (option Z) :=
  f <- and_then body (drop_and_continue a);;
  match f with Return v => ret (Some v) | _ => ret None end.

Lemma round_fall_through a body w :
  body w = Ok (FallThrough, w) → round a body w = (drop_head a;;; ret None) w.
Proof.
  intros Hb. unfold round, and_then. rewrite bind_assoc, (bind_ok _ _ _ _ _ Hb).
  unfold drop_and_continue. rewrite bind_assoc. by apply bind_ext.
Qed.

Lemma round_drop a body w :
  body w = drop_and_continue a w → round a body w = (drop_head a;;; ret None) w.
Proof.
  intros Hb. unfold round, and_then. rewrite bind_assoc, (bind_eq _ _ _ _ _ Hb).
  unfold drop_and_continue. rewrite bind_assoc. by apply bind_ext.
Qed.

Lemma round_bind {A} a (m : M world A) (k : A → M world flow) w x w1 :
  m w = Ok (x, w1) → round a (bind m k) w = round a (k x) w1.
Proof.
  intros Hm. unfold round, and_then. by rewrite !bind_assoc, (bind_ok _ _ _ _ _ Hm).
Qed.

Lemma round_returns a body w v :
  body w = Ok (Return v, w) → round a body w = Ok (Some v, w).
Proof. intros Hb. unfold round, and_then. rewrite bind_assoc. by rewrite (bind_ok _ _ _ _ _ Hb). Qed.

Lemma round_faults a body w f : body w = Fault f → round a body w = Fault f.
Proof. intros Hb. unfold round, and_then. rewrite bind_assoc. by apply bind_fault. Qed.

(** The two ways the code answers a segment. *)
Definition challenges (a ps s : addr) (body : M world flow) (w : world) : Prop :=
  body w = (segment_reply tcp a ps (Some s) TCP_ACK_FLAG i;;; ret FallThrough) w ∨
  body w = (segment_reply tcp a ps (Some s) TCP_ACK_FLAG i;;; drop_and_continue a) w.

Lemma round_eq a body body' w : body w = body' w → round a body w = round a body' w.
Proof. intros E. unfold round, and_then. rewrite !bind_assoc. by apply bind_eq. Qed.

Lemma challenge_ok w ps q e ia ih th p s so a t sg m mo body :
  connected eth ip tcp i w ps q e ia ih th p s so a t [sg] m mo →
  challenges a ps s body w →
  let h := reply_header t so TCP_ACK_FLAG in
  ∃ bbi bbo w', bb_repr bbi [] (S m) ∧ bb_repr bbo [] (S mo) ∧
    round a body w = Ok (None, w') ∧
    w_wire w' = w_wire w ++ [control_frame i e ia h] ∧
    w_tcbs w' = <[a := t <| tcb_out_header := h |> <| tcb_out_buffer := bbo |>
                         <| tcb_in_buffer := bbi |>]> (w_tcbs w) ∧
    w_handlers w' = w_handlers w ∧ w_sockets w' = w_sockets w ∧ w_calls w' = w_calls w ∧
    same_maps w w' ∧ is_Some (w_in_stacks w' !! ps).
Proof.
  intros Hs Hbody h. pose proof (sq_in _ _ _ _ _ _ _ _ _ _ _ _ _ _ _ _ _ _ _ Hs) as Hin.
  destruct (queued_reply n eth ip tcp i _ _ _ _ _ _ _ _ _ _ _ _ _ _ _ TCP_ACK_FLAG Hs)
    as (bbo & w1 & q' & Hbbo & Hr & [Htcb Hwire Hhs Hss Hcs Hms] & Hin' & _); [done|].
  set (t1 := t <| tcb_out_header := h |> <| tcb_out_buffer := bbo |>) in *.
  destruct (drop_head_ok w1 a t1 sg [] m) as (bbi & Hbbi & Hd);
    [rewrite Htcb; apply lookup_insert_eq|done|].
  exists bbi, bbo. eexists. split; [done|]. split; [done|]. split.
  - destruct Hbody as [E | E]; rewrite (round_eq _ _ _ _ E), (round_bind _ _ _ _ _ _ Hr).
    + rewrite round_fall_through by done. by rewrite (bind_ok _ _ _ _ _ Hd).
    + rewrite round_drop by done. by rewrite (bind_ok _ _ _ _ _ Hd).
  - split; [exact Hwire|]. split; [simpl; by rewrite Htcb, insert_insert_eq|]. split_and!; try done.
    simpl. rewrite Hin', lookup_insert_eq. by eexists.
Qed.

Lemma and_then_continue (m : M world unit) a k w :
  and_then (m;;; drop_and_continue a) k w = (m;;; drop_and_continue a) w.
Proof.
  unfold and_then, drop_and_continue. rewrite bind_assoc. apply bind_ext. intros [] w'.
  rewrite bind_assoc. by apply bind_ext.
Qed.

(** The code decides as the specification. *)
Lemma body_by_verdict a ps s th size t w :
  w_tcbs w !! a = Some t →
  let body := if is_segment_in_window t th size
    then tcp_others_in_window tcp a ps (Some s) (tcb_state t) th size i
    else tcp_others_out_of_window tcp a ps (Some s) th i in
  match segment_verdict t th size with
  | Challenge => challenges a ps s body w
  | Drop => body w = drop_and_continue a w
  | Stuck => body w = Ok (Return 0, w)
  | Report => body w = (call_on_close (Some s);;; ret (Return 0)) w
  | Take => True
  end.
Proof.
  intros Ht body. unfold segment_verdict, body, challenges. destruct (is_segment_in_window t th size); cbn [negb].
  - unfold tcp_others_in_window. destruct (flag_set _ TCP_RST_FLAG).
    { unfold tcp_others_reset.
      destruct (bool_decide _ && _) eqn:E; rewrite (bind_load _ _ t) by done; by rewrite E. }
    destruct (flag_set _ TCP_SYN_FLAG).
    + unfold tcp_others_synchronise. destruct (bool_decide _ && _) eqn:E.
      * rewrite (bind_load _ _ t) by done. by rewrite E.
      * right. rewrite (bind_load _ _ t) by done. by rewrite E.
    + destruct (flag_set _ TCP_ACK_FLAG); [|done].
      destruct (synchronised (tcb_state t)) eqn:Es; [|done].
      destruct (Z.ltb_spec (tcb_send_next t) (ntohl (th_acknowledgement_num th))); [|done]. right.
      refine (eq_trans (bind_eq _ _ _ _ _ _) (and_then_continue _ _ _ _)). unfold tcp_others_acknowledge. cbv zeta. rewrite (bind_load _ _ t) by done.
      assert (tcb_state t ∈ [ESTABLISHED; FIN_WAIT_1; FIN_WAIT_2; CLOSE_WAIT; CLOSING]) as Hst
        by by apply bool_decide_eq_true in Es.
      transitivity (tcp_others_acknowledge_data tcp a ps (Some s) (tcb_state t) th
        ((ntohl (th_acknowledgement_num th) <=? tcb_send_next t) &&
         (tcb_send_unacknowledged t <? ntohl (th_acknowledgement_num th))) i w).
      { destruct (tcb_state t); (done || (exfalso; set_solver)). }
      unfold tcp_others_acknowledge_data. cbv zeta. rewrite (bind_load _ _ t) by done.
      by destruct (Z.ltb_spec (tcb_send_next t) (ntohl (th_acknowledgement_num th))); [|lia].
  - unfold tcp_others_out_of_window. destruct (flag_set _ TCP_RST_FLAG); [done|]. by left.
Qed.

Lemma drop_ok w ps q e ia ih th p s so a t sg m mo body :
  connected eth ip tcp i w ps q e ia ih th p s so a t [sg] m mo → body w = drop_and_continue a w →
  ∃ bbi, bb_repr bbi [] (S m) ∧
    round a body w = Ok (None, w <| w_tcbs ::= <[a := t <| tcb_in_buffer := bbi |>]> |>).
Proof.
  intros Hs Hbody. pose proof (sq_in _ _ _ _ _ _ _ _ _ _ _ _ _ _ _ _ _ _ _ Hs) as Hin.
  pose proof (sq_tcb _ _ _ _ _ _ _ _ _ _ _ _ _ _ _ _ _ _ _ Hs) as Ht.
  destruct (drop_head_ok w a t sg [] m Ht Hin) as (bbi & Hbbi & Hd).
  exists bbi. split; [done|]. rewrite round_drop by done. by rewrite (bind_ok _ _ _ _ _ Hd).
Qed.

(** The callback [on_close], when the application has set one. *)
Lemma report_ok w ps q e ia ih th p s so a t sg m mo body :
  connected eth ip tcp i w ps q e ia ih th p s so a t [sg] m mo →
  body w = (call_on_close (Some s);;; ret (Return 0)) w →
  round a body w =
  match sock_on_close so with
  | Some f => Ok (Some 0, w <| w_calls ::= λ l, l ++ [f] |>)
  | None => Fault NullDeref
  end.
Proof.
  intros Hs Hbody. pose proof (sq_socket _ _ _ _ _ _ _ _ _ _ _ _ _ _ _ _ _ _ _ Hs) as Hso.
  assert (call_on_close (Some s) w = callback (sock_on_close so) w) as Hc
    by (unfold call_on_close; cbn [need]; rewrite bind_ret_l; by rewrite (bind_load _ _ so)).
  rewrite (round_eq _ _ _ _ Hbody). destruct (sock_on_close so) as [f|].
  - by rewrite (round_bind _ _ _ _ _ _ Hc).
  - apply round_faults, bind_fault. exact Hc.
Qed.
End Refused.

(** C16: the segments that [tcp_others] refuses, in every state.  A segment outside the window is
    answered with an ACK, but dropped when it is a reset; in the window, a SYN and, once
    synchronised, an ACK of what was not sent are answered with an ACK, and a segment without
    ACK is dropped.  The answer is one frame with the connection's numbers, the segment leaves
    the queue, and neither the state nor the numbers of the connection change.  A reset in the
    window, and a SYN on a connection the peer is opening, should close the connection; they
    change nothing at all, and stay at the head of the queue, except that a reset of a connection
    opened from this side that is still in SYN_RECEIVED calls [on_close], and dereferences null
    when the socket has none. *)
Theorem segment_refused `{!Platform} n eth ip tcp i w ps q e ia ih th p s so a t sg m mo :
  connected eth ip tcp i w ps q e ia ih th p s so a t [sg] m mo → seg_data sg = ps →
  let h := reply_header t so TCP_ACK_FLAG in
  match segment_verdict t th (tcp_get_payload_length ih th) with
  | Challenge =>
      ∃ bbi bbo w', bb_repr bbi [] (S m) ∧ bb_repr bbo [] (S mo) ∧
        tcp_others (H := dispatch (S (S (S n)))) tcp a 1 i w = Ok (None, w') ∧
        w_wire w' = w_wire w ++ [control_frame i e ia h] ∧
        w_tcbs w' = <[a := t <| tcb_out_header := h |> <| tcb_out_buffer := bbo |>
                             <| tcb_in_buffer := bbi |>]> (w_tcbs w) ∧
        w_handlers w' = w_handlers w ∧ w_sockets w' = w_sockets w ∧ w_calls w' = w_calls w
  | Drop =>
      ∃ bbi, bb_repr bbi [] (S m) ∧
        tcp_others (H := dispatch (S (S (S n)))) tcp a 1 i w =
        Ok (None, w <| w_tcbs ::= <[a := t <| tcb_in_buffer := bbi |>]> |>)
  | Stuck => tcp_others (H := dispatch (S (S (S n)))) tcp a 1 i w = Ok (Some 0, w)
  | Report =>
      tcp_others (H := dispatch (S (S (S n)))) tcp a 1 i w =
      match sock_on_close so with
      | Some f => Ok (Some 0, w <| w_calls ::= λ l, l ++ [f] |>)
      | None => Fault NullDeref
      end
  | Take => True
  end.
Proof.
  intros Hs Hps h. pose proof (sq_tcb _ _ _ _ _ _ _ _ _ _ _ _ _ _ _ _ _ _ _ Hs) as Ht.
  pose proof (tcp_others_round n eth ip tcp i _ _ _ _ _ _ _ _ _ _ _ _ _ _ _ Hs Hps) as Hr.
  pose proof (body_by_verdict n tcp i a ps s th (tcp_get_payload_length ih th) t w Ht) as Hb.
  destruct (segment_verdict t th _); [| | | |done].
  - destruct (challenge_ok n eth ip tcp i _ _ _ _ _ _ _ _ _ _ _ _ _ _ _ _ Hs Hb)
      as (bbi & bbo & w' & Hbbi & Hbbo & Hround & Hrest).
    exists bbi, bbo, w'. split; [done|]. split; [done|]. split; [exact (eq_trans Hr Hround)|].
    by destruct_and! Hrest.
  - destruct (drop_ok eth ip tcp i _ _ _ _ _ _ _ _ _ _ _ _ _ _ _ _ Hs Hb) as (bbi & Hbbi & Hround).
    exists bbi. split; [done|]. exact (eq_trans Hr Hround).
  - exact (eq_trans Hr (round_returns _ _ _ _ Hb)).
  - exact (eq_trans Hr (report_ok eth ip tcp i _ _ _ _ _ _ _ _ _ _ _ _ _ _ _ _ Hs Hb)).
Qed.
