(* ===== verification/Stream.v ===== *)
(** * Stream: a sequence of data frames

    What becomes of the data a peer sends on an open connection, frame after frame, and of the
    receive window of that connection; and of the data another host sends on it.  The socket has
    no next handler here; what a next handler is given is in [Transfer.v]. *)

From S2P Require Import Prelude Headers Checksum ProtocolMap BlockBuffer State.
From S2P Require Import Ethernet Ipv4 TcpShared TcpSocket TcpStates Tcp TcpOutput Arp Llc Custom Stack.
From S2P Require Import Handshake Transfer Delivery Refuse.

(** ** Received frames *)

(** A frame with its headers. *)
Record received := {
  rc_frame : list Z;
  rc_ethernet : ethernet_header_t;
  rc_ipv4 : ipv4_header_t;
  rc_tcp : tcp_header_t
}.
Definition rc_sequence (f : received) : Z := ntohl (th_sequence_num (rc_tcp f)).
Definition rc_size (f : received) : Z := tcp_get_payload_length (rc_ipv4 f) (rc_tcp f).
Definition octets (fs : list received) : Z := sum_list (rc_size <$> fs).

(** A segment of the connection [cid], to the port [port] of the own address. *)
Record connection_segment (i : interface_t) (port cid : Z) (f : received) : Prop := {
  cg_bytes : bytes_ok (rc_frame f);
  cg_ethernet : decode_ethernet_header_t (rc_frame f) = Some (rc_ethernet f);
  cg_type : eth_ethernet_type (rc_ethernet f) = htons ETHERNET_TYPE_IPV4;
  cg_ip : decode_ipv4_header_t (drop 14 (rc_frame f)) = Some (rc_ipv4 f);
  cg_valid : valid_datagram (drop 14 (rc_frame f)) = true;
  cg_own : ip_destination_ip (rc_ipv4 f) = if_ipv4_addr i;
  cg_protocol : ip_protocol (rc_ipv4 f) = 6;
  cg_tcp : decode_tcp_header_t (drop 34 (rc_frame f)) = Some (rc_tcp f);
  cg_port : th_destination_port (rc_tcp f) = port;
  cg_id : tcb_header_to_connection_id (rc_ipv4 f) (rc_tcp f) = cid
}.

(** One with data, that acknowledges nothing behind [send_next]. *)
Record data_segment (i : interface_t) (port cid send_next : Z) (f : received) : Prop := {
  ds_segment : connection_segment i port cid f;
  ds_flags : plain_ack (rc_tcp f) ∧ flag_set (th_control_bits (rc_tcp f)) TCP_FIN_FLAG = false;
  ds_ack : ntohl (th_acknowledgement_num (rc_tcp f)) <= send_next;
  ds_size : rc_size f ≠ 0
}.

(** Every segment starts where the one before it ends. *)
Fixpoint in_sequence (next : Z) (fs : list received) : Prop :=
  match fs with
  | [] => True
  | f :: fs => rc_sequence f = next ∧ in_sequence (next + rc_size f) fs
  end.

(** The frames a peer expects for these segments: an ACK each, for all octets up to its end, with
    the rest of the window. *)
Definition acknowledges (h : tcp_header_t) (next window : Z) : Prop :=
  th_control_bits h = TCP_ACK_FLAG ∧ th_acknowledgement_num h = htonl next ∧ th_window h = htons window.

Inductive acknowledged_by (i : interface_t) : Z → Z → list received → list (list Z) → Prop :=
  | acknowledged_nil next window : acknowledged_by i next window [] []
  | acknowledged_cons next window f fs h frames :
      acknowledges h (next + rc_size f) (window - rc_size f) →
      acknowledged_by i (next + rc_size f) (window - rc_size f) fs frames →
      acknowledged_by i next window (f :: fs)
        (control_frame i (answer_ethernet (rc_ethernet f)) (answer_ipv4 (rc_ipv4 f)) h :: frames).

(** The frames for segments that are all answered in the same way. *)
Definition answered_by (i : interface_t) (next window : Z) (fs : list received) (frames : list (list Z)) : Prop :=
  Forall2 (λ f frame, ∃ h, acknowledges h next window ∧
    frame = control_frame i (answer_ethernet (rc_ethernet f)) (answer_ipv4 (rc_ipv4 f)) h) fs frames.

(** An established connection with the received segments [qs] in its queue and nothing left to
    send, and lookups that find their handler at once. *)
Record receiving_connection `{!Platform} (eth ip tcp : addr) (i : interface_t) (port : Z) (p : tcp_priv_t)
    (s : addr) (so : tcp_socket_t) (a : addr) (w : world) (t : transmission_control_block_t)
    (qs : list segment) : Prop := {
  oc_linked : linked w eth ip tcp;
  oc_ethernet : leads (w_ethernet_map w) (htons ETHERNET_TYPE_IPV4) ip;
  oc_ip : leads (w_ip_map w) 6 tcp;
  oc_handler : ∃ h, w_handlers w !! tcp = Some h ∧ h_priv h = PrivTcp p;
  oc_sockets : Forall (λ b, is_Some (w_sockets w !! b)) (registered (tp_tcp_sockets p));
  oc_listens : head (filter (listens w (if_ipv4_addr i) port) (registered (tp_tcp_sockets p))) = Some s;
  oc_socket : w_sockets w !! s = Some so;
  oc_slots : slots_ok w (sock_trans_control_block so);
  oc_holder : head (holders w (sock_trans_control_block so) (tcb_id t)) = Some a;
  oc_tcb : w_tcbs w !! a = Some t;
  oc_id : tcb_id t ≠ 0;
  oc_in : ∃ m, bb_repr (tcb_in_buffer t) qs m ∧ (0 < m + length qs)%nat;
  oc_out : ∃ m, bb_repr (tcb_out_buffer t) [] (S m);
  oc_own : is_u32 (if_ipv4_addr i) ∧ is_u32 (sock_ipv4 so) ∧ is_u16 (sock_port so);
  oc_peer : is_u32 (tcb_remote_ipv4 t) ∧ is_u16 (tcb_remote_port t);
  oc_header : is_u16 (th_checksum (tcb_out_header t)) ∧ bytes_ok (tcb_after_header t);
  oc_state : tcb_state t = ESTABLISHED ∧ tcb_state_function t = fn_tcp_others;
  oc_window : is_u32 (tcb_receive_next t) ∧ is_u16 (tcb_receive_window t)
}.

(** What receiving may not change, and how it moves the window. *)
Record received_octets (t t' : transmission_control_block_t) (size : Z) : Prop := {
  ro_id : tcb_id t' = tcb_id t;
  ro_port : tcb_remote_port t' = tcb_remote_port t;
  ro_send_next : tcb_send_next t' = tcb_send_next t;
  ro_next : tcb_receive_next t' = tcb_receive_next t + size;
  ro_window : tcb_receive_window t' = tcb_receive_window t - size
}.

Section Stream.
Context `{!Platform}.
Variables (n : nat) (eth ip tcp : addr) (i : interface_t) (port : Z) (p : tcp_priv_t).
Variables (s : addr) (so : tcp_socket_t) (a : addr).
#[local] Instance d8 : Dispatch := dispatch (S (S (S n))).
Abbreviation opened := (receiving_connection eth ip tcp i port p s so a).

Definition consume_frame (f : received) : M world unit :=
  consume_packet (dispatch (S (S (S (S (S (S n))))))) [eth] (rc_frame f) i.

Fixpoint consume_frames (fs : list received) : M world unit :=
  match fs with
  | [] => ret tt
  | f :: fs => consume_frame f;;; consume_frames fs
  end.

Lemma consume_frames_cons f fs w w1 r :
  consume_frame f w = Ok (tt, w1) → consume_frames fs w1 = r → consume_frames (f :: fs) w = r.
Proof. intros Hf <-. cbn [consume_frames]. by rewrite (bind_ok _ _ _ _ _ Hf). Qed.

Lemma consume_frames_app fs gs w w1 r :
  consume_frames fs w = Ok (tt, w1) → consume_frames gs w1 = r → consume_frames (fs ++ gs) w = r.
Proof.
  revert w. induction fs as [|f fs IH]; intros w Hf Hg; [by injection Hf as ->|].
  cbn [consume_frames] in Hf. apply bind_inv in Hf as ([] & w2 & Hc & Hf).
  eapply consume_frames_cons; [exact Hc|]. by apply IH.
Qed.

(** A frame for the connection reaches [tcp_read], which finds the connection. *)
Definition read_world (w : world) (f : received) (emap imap : priority_map_t) : world :=
  delivered_world w eth ip (rc_frame f) (rc_ethernet f) (rc_ipv4 f) emap imap.

Lemma segment_arrives w cid f :
  linked w eth ip tcp → leads (w_ethernet_map w) (htons ETHERNET_TYPE_IPV4) ip → leads (w_ip_map w) 6 tcp →
  connection_segment i port cid f →
  ∃ emap imap, leads emap (htons ETHERNET_TYPE_IPV4) ip ∧ leads imap 6 tcp ∧
    tcp_frame_arrives eth ip tcp i w (rc_frame f) (rc_ethernet f) (rc_ipv4 f) (rc_tcp f) emap imap.
Proof.
  intros Hln Hel Hil [].
  destruct (get_value_leads _ _ _ Hel) as (emap & He & Hle).
  destruct (get_value_leads _ _ _ Hil) as (imap & Hi & Hli).
  exists emap, imap. split; [done|]. split; [done|].
  apply Build_tcp_frame_arrives; [assumption..|exact He|rewrite cg_protocol0; exact Hi].
Qed.

Lemma open_frame w t qs m f :
  opened w t qs → bb_repr (tcb_in_buffer t) qs m → connection_segment i port (tcb_id t) f →
  ∃ emap imap mo, let w0 := read_world w f emap imap in
    leads emap (htons ETHERNET_TYPE_IPV4) ip ∧ leads imap 6 tcp ∧
    tcp_frame_arrives eth ip tcp i w (rc_frame f) (rc_ethernet f) (rc_ipv4 f) (rc_tcp f) emap imap ∧
    connected eth ip tcp i w0 (w_next w) (segment_stack eth ip (rc_frame f) (rc_ethernet f) (rc_ipv4 f))
      (answer_ethernet (rc_ethernet f)) (answer_ipv4 (rc_ipv4 f)) (rc_ipv4 f) (rc_tcp f) p s so a t
      qs m mo.
Proof.
  intros [] Hin Hd. destruct (segment_arrives w _ f oc_linked0 oc_ethernet0 oc_ip0 Hd) as (emap & imap & Hle & Hli & Hf).
  destruct Hd, oc_out0 as [mo Hout]. exists emap, imap, mo. split; [done|]. split; [done|].
  split; [exact Hf|]. split; try assumption; try reflexivity.
  - by apply delivered_world_linked.
  - apply lookup_insert_eq.
  - by eapply segment_stack_ok.
  - by rewrite cg_own0, cg_port0.
Qed.

(** An empty queue has room. *)
Lemma opened_room w t : opened w t [] → ∃ m, bb_repr (tcb_in_buffer t) [] (S m).
Proof. intros [_ _ _ _ _ _ _ _ _ _ _ ([|m] & Hm & Hr) _ _ _ _ _ _]; [simpl in Hr; lia|by exists m]. Qed.

(** A segment at work is on such a connection. *)
Lemma connected_opened w ps q e ia f t qs m mo :
  connected eth ip tcp i w ps q e ia (rc_ipv4 f) (rc_tcp f) p s so a t qs m mo →
  connection_segment i port (tcb_id t) f → (0 < m + length qs)%nat →
  leads (w_ethernet_map w) (htons ETHERNET_TYPE_IPV4) ip → leads (w_ip_map w) 6 tcp →
  tcb_state t = ESTABLISHED ∧ tcb_state_function t = fn_tcp_others →
  is_u32 (tcb_receive_next t) ∧ is_u16 (tcb_receive_window t) →
  opened w t qs.
Proof.
  intros [] [] Hm He Hi Hst Hw. rewrite cg_own0, cg_port0 in sq_listens. split; try done; [by exists m|by exists mo].
Qed.

Lemma enqueued_opened w t f emap imap w1 ps q e ia bb sg m mo :
  opened w t [] → connection_segment i port (tcb_id t) f →
  leads emap (htons ETHERNET_TYPE_IPV4) ip → leads imap 6 tcp → same_maps (read_world w f emap imap) w1 →
  connected eth ip tcp i w1 ps q e ia (rc_ipv4 f) (rc_tcp f) p s so a (t <| tcb_in_buffer := bb |>) [sg] m mo →
  opened w1 (t <| tcb_in_buffer := bb |>) [sg].
Proof.
  intros [] Hd He Hi [Hme Hmi] Hc.
  eapply connected_opened; [exact Hc|exact Hd|simpl; lia| | |exact oc_state0|exact oc_window0];
    by rewrite ?Hme, ?Hmi.
Qed.

(** Replacing the connection, and nothing else that matters. *)
Lemma opened_update w t qs w' t' qs' :
  opened w t qs →
  w_handlers w' = w_handlers w → w_sockets w' = w_sockets w → w_tcbs w' = <[a := t']> (w_tcbs w) →
  same_maps w w' →
  tcb_id t' = tcb_id t → tcb_remote_ipv4 t' = tcb_remote_ipv4 t →
  tcb_remote_port t' = tcb_remote_port t → tcb_after_header t' = tcb_after_header t →
  (∃ m, bb_repr (tcb_in_buffer t') qs' m ∧ (0 < m + length qs')%nat) →
  (∃ m, bb_repr (tcb_out_buffer t') [] (S m)) →
  is_u16 (th_checksum (tcb_out_header t')) →
  tcb_state t' = ESTABLISHED ∧ tcb_state_function t' = fn_tcp_others →
  is_u32 (tcb_receive_next t') ∧ is_u16 (tcb_receive_window t') →
  opened w' t' qs'.
Proof.
  intros [] Hh Hs Ht [He Hi] Hid Hip Hport Haft Hin Hout Hck Hst Hw.
  assert (∀ q : list addr, filter (listens w' (if_ipv4_addr i) port) q = filter (listens w (if_ipv4_addr i) port) q) as Hl.
  { intros l. apply list_filter_ext. intros b _. unfold listens. by rewrite Hs. }
  split; rewrite ?Hid, ?Hip, ?Hport, ?Haft, ?Hl, ?Hs, ?He, ?Hi; try done.
  - destruct oc_linked0. by split; rewrite Hh.
  - by rewrite Hh.
  - by eapply slots_ok_replace.
  - by erewrite (holders_replace w).
  - rewrite Ht. apply lookup_insert_eq.
  - by destruct oc_header0.
Qed.

(** Packet stacks come and go. *)
Lemma opened_in_stacks w t qs f : opened w t qs → opened (w <| w_in_stacks ::= f |>) t qs.
Proof. intros []. split; try done. by destruct oc_linked0. Qed.

(** The segment at the head of the queue leaves it. *)
Lemma opened_drop w t sg qs :
  opened w t (sg :: qs) →
  ∃ bb, let t' := t <| tcb_in_buffer := bb |> in let w' := w <| w_tcbs ::= <[a := t']> |> in
    drop_head a w = Ok (tt, w') ∧ opened w' t' qs.
Proof.
  intros Ho. pose proof Ho as [].  destruct oc_in0 as (m & Hin & _).
  destruct (drop_head_ok w a t sg qs m oc_tcb0 Hin) as (bb & Hbb & Hd). exists bb. split; [exact Hd|].
  eapply opened_update; [exact Ho|done..| | | | |]; try done; [|by destruct oc_header0].
  exists (S m). split; [done|lia].
Qed.

(** What [tcp_read] takes: the octet expected next may be missing. *)
Definition takes (t : transmission_control_block_t) (f : received) : Prop :=
  (rc_sequence f = tcb_receive_next t ∨ rc_sequence f = tcb_receive_next t + 1) ∧
  rc_sequence f + rc_size f <= tcb_receive_next t + tcb_receive_window t < 4294967296.

Lemma takes_next t f :
  rc_sequence f = tcb_receive_next t → rc_size f <= tcb_receive_window t →
  tcb_receive_next t + tcb_receive_window t < 4294967296 → takes t f.
Proof. intros Hs ? ?. split; [by left|lia]. Qed.

Lemma window_has t f :
  is_u32 (tcb_receive_next t) → takes t f → 0 < rc_size f →
  is_segment_in_window t (rc_tcp f) (rc_size f) = true.
Proof.
  intros Hn [Hseq Hsize] Hpos. unfold is_segment_in_window. cbv zeta.
  change (ntohl (th_sequence_num (rc_tcp f))) with (rc_sequence f).
  rewrite !u32_id by (unfold is_u32 in *; lia).
  destruct (Z.eqb_spec (rc_size f) 0); [lia|]. destruct (Z.eqb_spec (tcb_receive_window t) 0); [lia|].
  cbn [negb andb]. rewrite (proj2 (Z.leb_le _ _)), !(proj2 (Z.ltb_lt _ _)) by lia. done.
Qed.

Lemma rc_size_range f : 0 <= rc_size f.
Proof. apply u16_range. Qed.

Lemma acknowledged_function t th : tcb_state_function (acknowledged t th) = tcb_state_function t.
Proof. unfold acknowledged. cbv zeta. by repeat case_match. Qed.

(** The received segments play no part in it. *)
Lemma acknowledged_send_window t bb th :
  tcb_send_window (acknowledged (t <| tcb_in_buffer := bb |>) th) = tcb_send_window (acknowledged t th).
Proof. unfold acknowledged, is_window_update, set_field. simpl. by repeat case_match. Qed.

Lemma reply_checksum w ps q e ia ih th t1 qs m mo t' :
  connected eth ip tcp i w ps q e ia ih th p s so a t1 qs m mo →
  tcb_remote_port t' = tcb_remote_port t1 → tcb_remote_ipv4 t' = tcb_remote_ipv4 t1 →
  tcb_after_header t' = tcb_after_header t1 → is_u16 (th_checksum (tcb_out_header t')) →
  is_u16 (th_checksum (reply_header t' so TCP_ACK_FLAG)).
Proof.
  intros [] Hport Hip Haft Hck. destruct sq_own as (? & ? & ?), sq_peer, sq_header.
  apply reply_header_checksum; [|by rewrite Haft|done|by rewrite Hip].
  apply out_header_ok; [done|by rewrite Hport|done|done].
Qed.

(** A data frame that is expected and fits the window is acknowledged, and its packet goes to the
    next handler, with everything an answer needs. *)
Lemma data_frame_delivered w t f :
  opened w t [] → data_segment i port (tcb_id t) (tcb_send_next t) f →
  takes t f →
  let e := answer_ethernet (rc_ethernet f) in let ia := answer_ipv4 (rc_ipv4 f) in
  ∃ ps sg w2 q2 t2 h,
    consume_frame f w =
      (deliver n i ps a (sock_next_handler so);;; free w_in_stacks ps;;; ret tt) w2 ∧
    opened w2 t2 [sg] ∧ w_wire w2 = w_wire w ++ [control_frame i e ia h] ∧
    acknowledges h (tcb_receive_next t + rc_size f) (tcb_receive_window t - rc_size f) ∧
    received_octets t t2 (rc_size f) ∧
    tcb_after_header t2 = tcb_after_header t ∧
    tcb_send_window t2 = tcb_send_window (acknowledged t (rc_tcp f)) ∧
    w_in_stacks w2 !! ps = Some q2 ∧ payload_delivered q2 (rc_tcp f) s (tcb_id t) ∧
    answerable eth ip tcp q2 e ia ∧ w_handlers w2 = w_handlers w.
Proof.
  intros Ho Hd Htk e ia. pose proof Htk as [Hseq Hsize].
  destruct (opened_room w t Ho) as [m Hm].
  destruct (open_frame w t [] (S m) f Ho Hm (ds_segment _ _ _ _ _ Hd)) as (emap & imap & mo & Hle & Hli & Hf & Hc).
  set (ps := w_next w) in *. set (w0 := read_world w f emap imap) in *.
  pose proof (oc_state _ _ _ _ _ _ _ _ _ _ _ _ Ho) as [Hst Hfn].
  pose proof (oc_window _ _ _ _ _ _ _ _ _ _ _ _ Ho) as [Hrn Hrw].
  pose proof (ds_size _ _ _ _ _ Hd) as Hne. pose proof (ds_flags _ _ _ _ _ Hd) as [Hpl Hfin].
  pose proof (rc_size_range f) as Hpos.
  assert (u32 (tcb_receive_next t + rc_size f) = tcb_receive_next t + rc_size f) as Ku32
    by (apply u32_id; unfold is_u32, is_u16 in *; lia).
  assert (u16 (tcb_receive_window t - rc_size f) = tcb_receive_window t - rc_size f) as Ku16
    by (apply u16_id; unfold is_u16 in *; lia).
  assert (rc_sequence f = tcb_receive_next t ∨
    tcb_state t ≠ SYN_SENT ∧ rc_sequence f = u32 (tcb_receive_next t + 1)) as Hseq'.
  { destruct Hseq as [|Hseq]; [by left|right]. split; [congruence|]. rewrite u32_id; [done|].
    unfold is_u32, is_u16 in *. lia. }
  destruct (tcp_read_in_order n eth ip tcp i _ _ _ _ _ _ _ _ _ _ _ _ _ _ Hc (eq_sym (cg_id _ _ _ _ (ds_segment _ _ _ _ _ Hd))) Hfn Hseq')
    as (q1 & w1 & bb & sg & Hc1 & Hps & Hr & Htcb & Hwire & Hcalls & Hmaps & Hwh & Hq1).
  set (t1 := t <| tcb_in_buffer := bb |>) in *.
  destruct (data_received_ok n eth ip tcp i _ _ _ _ _ _ _ _ _ _ _ _ _ _ _ Hc1 Hps Hst Hpl
    (window_has t1 f Hrn Htk ltac:(lia))
    Hne (ds_ack _ _ _ _ _ Hd) Hfin)
    as (bbo & w2 & q2 & Hbbo & Hrun & [Htcb2 Hwire2 Hhs Hss Hcs Hms] & Hq2 & Hpd & Han).
  set (h := reply_header (payload_taken t1 (rc_tcp f) (rc_size f)) so TCP_ACK_FLAG) in *.
  set (t2 := _ <| tcb_out_buffer := bbo |>) in Htcb2.
  destruct (acknowledged_keeps t1 (rc_tcp f)) as (Kid & Kip & Kport & Kob & Kib & Khd & Kaft & Krn & Krw & Ksn & Kst).
  pose proof (enqueued_opened _ _ _ _ _ _ _ _ _ _ _ _ _ _ Ho (ds_segment _ _ _ _ _ Hd) Hle Hli Hmaps Hc1) as Ho1.
  exists ps, sg, w2, q2, t2, h.
  split; [|split; [|split; [|split; [|split; [|split; [|split; [|split; [exact Hq2|split; [exact Hpd|split; [exact (Han Hq1)|]]]]]]]]]].
  - unfold consume_frame. rewrite (tcp_frame_delivered_ok _ _ _ _ _ _ _ _ _ _ _ _ Hf).
    apply bind_eq. exact (eq_trans Hr Hrun).
  - eapply (opened_update w1); [exact Ho1|exact Hhs|exact Hss|exact Htcb2|exact Hms|exact Kid|exact Kip|exact Kport
      |exact Kaft| | | | |].
    + exists m. split; [|simpl; lia]. change (tcb_in_buffer t2) with (tcb_in_buffer (acknowledged t1 (rc_tcp f))).
      rewrite Kib. exact (sq_in _ _ _ _ _ _ _ _ _ _ _ _ _ _ _ _ _ _ _ Hc1).
    + by exists mo.
    + eapply (reply_checksum w1); [exact Hc1|exact Kport|exact Kip|exact Kaft|].
      destruct (sq_header _ _ _ _ _ _ _ _ _ _ _ _ _ _ _ _ _ _ _ Hc1) as [Hck _].
      exact (eq_ind_r (λ x, is_u16 (th_checksum x)) Hck Khd).
    + split; [exact (eq_trans Kst Hst)|exact (eq_trans (acknowledged_function t1 (rc_tcp f)) Hfn)].
    + split; [apply u32_range|apply u16_range].
  - exact (eq_trans Hwire2 (f_equal (λ l, l ++ _) Hwire)).
  - unfold acknowledges, h, reply_header, tcp_out_header, payload_taken. simpl. rewrite Krn, Krw.
    change (tcb_receive_next t1) with (tcb_receive_next t).
    change (tcb_receive_window t1) with (tcb_receive_window t).
    rewrite Ku32, Ku16. by split_and!.
  - split; [exact Kid|exact Kport|exact Ksn| |]; simpl; rewrite ?Krn, ?Krw.
    + exact Ku32.
    + exact Ku16.
  - exact Kaft.
  - exact (acknowledged_send_window t bb (rc_tcp f)).
  - exact (eq_trans Hhs Hwh).
Qed.

Lemma data_frame_ok w t f :
  opened w t [] → data_segment i port (tcb_id t) (tcb_send_next t) f → sock_next_handler so = None → takes t f →
  ∃ w' t' h, consume_frame f w = Ok (tt, w') ∧
    w_wire w' = w_wire w ++ [control_frame i (answer_ethernet (rc_ethernet f)) (answer_ipv4 (rc_ipv4 f)) h] ∧
    acknowledges h (tcb_receive_next t + rc_size f) (tcb_receive_window t - rc_size f) ∧
    opened w' t' [] ∧ received_octets t t' (rc_size f).
Proof.
  intros Ho Hd Hnone Htk.
  destruct (data_frame_delivered w t f Ho Hd Htk)
    as (ps & sg & w2 & q2 & t2 & h & Hc & Ho2 & Hw2 & Hack & [] & _ & _ & Hq2 & _).
  destruct (opened_drop w2 t2 sg [] Ho2) as (bb & Hdrop & Ho').
  set (t' := t2 <| tcb_in_buffer := bb |>) in *.
  exists (w2 <| w_tcbs ::= <[a := t']> |> <| w_in_stacks ::= delete ps |>), t', h.
  split; [|split; [exact Hw2|split; [exact Hack|split; [apply opened_in_stacks; exact Ho'|by split]]]].
  rewrite Hc. apply read_then_free with None; [|by exists q2].
  unfold deliver. rewrite Hnone, bind_ret_l. by rewrite (bind_ok _ _ _ _ _ Hdrop).
Qed.

(** With the window at 0, the next segment is answered and dropped. *)
Lemma full_window_ok w t f :
  opened w t [] → data_segment i port (tcb_id t) (tcb_send_next t) f →
  rc_sequence f = tcb_receive_next t → tcb_receive_window t = 0 →
  ∃ w' t' h, consume_frame f w = Ok (tt, w') ∧
    w_wire w' = w_wire w ++ [control_frame i (answer_ethernet (rc_ethernet f)) (answer_ipv4 (rc_ipv4 f)) h] ∧
    acknowledges h (tcb_receive_next t) 0 ∧ opened w' t' [] ∧ received_octets t t' 0.
Proof.
  intros Ho Hd Hseq Hzero.
  destruct (opened_room w t Ho) as [m Hm].
  destruct (open_frame w t [] (S m) f Ho Hm (ds_segment _ _ _ _ _ Hd)) as (emap & imap & mo & Hle & Hli & Hf & Hc).
  set (ps := w_next w) in *. set (w0 := read_world w f emap imap) in *.
  pose proof (oc_state _ _ _ _ _ _ _ _ _ _ _ _ Ho) as [Hst Hfn].
  pose proof (ds_size _ _ _ _ _ Hd) as Hne. pose proof (ds_flags _ _ _ _ _ Hd) as [(Hrst & _) _].
  destruct (tcp_read_in_order n eth ip tcp i _ _ _ _ _ _ _ _ _ _ _ _ _ _ Hc (eq_sym (cg_id _ _ _ _ (ds_segment _ _ _ _ _ Hd))) Hfn (or_introl Hseq))
    as (q1 & w1 & bb & sg & Hc1 & Hps & Hr & Htcb & Hwire & Hcalls & Hmaps & _).
  set (t1 := t <| tcb_in_buffer := bb |>) in *.
  pose proof (sq_tcb _ _ _ _ _ _ _ _ _ _ _ _ _ _ _ _ _ _ _ Hc1) as Ht1.
  pose proof (tcp_others_round n eth ip tcp i _ _ _ _ _ _ _ _ _ _ _ _ _ _ _ Hc1 Hps) as Hround.
  pose proof (body_by_verdict n tcp i a ps s (rc_tcp f) (rc_size f) t1 w1 Ht1) as Hb.
  assert (segment_verdict t1 (rc_tcp f) (rc_size f) = Challenge) as Hv.
  { unfold segment_verdict, is_segment_in_window. cbv zeta.
    change (tcb_receive_window t1) with (tcb_receive_window t).
    by rewrite Hzero, (proj2 (Z.eqb_neq _ _) Hne), Hrst. }
  rewrite Hv in Hb.
  destruct (challenge_ok n eth ip tcp i _ _ _ _ _ _ _ _ _ _ _ _ _ _ _ _ Hc1 Hb)
    as (bbi & bbo & w2 & Hbbi & Hbbo & Hrun & Hwire2 & Htcb2 & Hhs & Hss & Hcs & Hms & Hin).
  set (h := reply_header t1 so TCP_ACK_FLAG) in *. set (t' := _ <| tcb_in_buffer := bbi |>) in Htcb2.
  exists (w2 <| w_in_stacks ::= delete ps |>), t', h. split; [|split; [|split; [|split]]].
  - unfold consume_frame. rewrite (tcp_frame_delivered_ok _ _ _ _ _ _ _ _ _ _ _ _ Hf).
    apply read_then_free with None; [|done]. exact (eq_trans Hr (eq_trans Hround Hrun)).
  - exact (eq_trans Hwire2 (f_equal (λ l, l ++ _) Hwire)).
  - split_and!; try done. exact (f_equal htons Hzero).
  - apply opened_in_stacks.
    pose proof (enqueued_opened _ _ _ _ _ _ _ _ _ _ _ _ _ _ Ho (ds_segment _ _ _ _ _ Hd) Hle Hli Hmaps Hc1) as Ho1.
    eapply (opened_update w1); [exact Ho1|exact Hhs|exact Hss|exact Htcb2|exact Hms|done..| | | | |].
    + exists (S m). split; [done|simpl; lia].
    + by exists mo.
    + eapply (reply_checksum w1); [exact Hc1|done..|]. apply (sq_header _ _ _ _ _ _ _ _ _ _ _ _ _ _ _ _ _ _ _ Hc1).
    + done.
    + exact (oc_window _ _ _ _ _ _ _ _ _ _ _ _ Ho).
  - split; simpl; try done; lia.
Qed.

(** ** Sequences of frames *)

Lemma received_octets_trans t1 t2 t3 x y :
  received_octets t1 t2 x → received_octets t2 t3 y → received_octets t1 t3 (x + y).
Proof. intros [] []. split; congruence || lia. Qed.

Lemma octets_nonneg fs : 0 <= octets fs.
Proof.
  induction fs as [|f fs IH]; [done|]. pose proof (rc_size_range f).
  change (octets (f :: fs)) with (rc_size f + octets fs). lia.
Qed.

(** What is sent for the first frame is sent before the rest. *)
Lemma wire_app w w1 w2 (frame : list Z) frames :
  w_wire w1 = w_wire w ++ [frame] → w_wire w2 = w_wire w1 ++ frames → w_wire w2 = w_wire w ++ frame :: frames.
Proof. intros H1 ->. by rewrite H1, <- app_assoc. Qed.

Lemma stream_ok fs w t :
  opened w t [] → sock_next_handler so = None →
  Forall (data_segment i port (tcb_id t) (tcb_send_next t)) fs →
  in_sequence (tcb_receive_next t) fs → octets fs <= tcb_receive_window t →
  tcb_receive_next t + tcb_receive_window t < 4294967296 →
  ∃ w' t' frames, consume_frames fs w = Ok (tt, w') ∧ w_wire w' = w_wire w ++ frames ∧
    acknowledged_by i (tcb_receive_next t) (tcb_receive_window t) fs frames ∧
    opened w' t' [] ∧ received_octets t t' (octets fs).
Proof.
  revert w t. induction fs as [|f fs IH]; intros w t Ho Hnone Hfs Hseq Hsize Hwrap.
  { exists w, t, []. rewrite app_nil_r. split_and!; try done; [constructor|].
    split; unfold octets, sum_list; simpl; lia || done. }
  inversion Hfs as [|? ? Hf Hrest]; subst. destruct Hseq as [Hseq Hin].
  change (octets (f :: fs)) with (rc_size f + octets fs) in *. pose proof (octets_nonneg fs).
  destruct (data_frame_ok w t f) as (w1 & t1 & h & Hc & Hw & Hack & Ho1 & Hro); try done;
    [by apply takes_next; [|lia|]|].
  pose proof Hro as [Hid Hpt Hsn Hn Hwin].
  destruct (IH w1 t1) as (w' & t' & frames & Hcs & Hw' & Hacks & Ho' & Hro'); try done;
    rewrite ?Hid, ?Hsn, ?Hn, ?Hwin; try done; try lia.
  rewrite Hn, Hwin in Hacks. eexists w', t', (_ :: frames). split; [by eapply consume_frames_cons|].
  split; [by eapply wire_app|]. split; [by constructor|]. split; [done|]. by eapply received_octets_trans.
Qed.

Lemma stalled_ok gs w t :
  opened w t [] → Forall (data_segment i port (tcb_id t) (tcb_send_next t)) gs →
  Forall (λ g, rc_sequence g = tcb_receive_next t) gs → tcb_receive_window t = 0 →
  ∃ w' t' frames, consume_frames gs w = Ok (tt, w') ∧ w_wire w' = w_wire w ++ frames ∧
    answered_by i (tcb_receive_next t) 0 gs frames ∧ opened w' t' [] ∧ received_octets t t' 0.
Proof.
  revert w t. induction gs as [|g gs IH]; intros w t Ho Hgs Hseq Hzero.
  { exists w, t, []. rewrite app_nil_r. split_and!; try done; [constructor|]. split; lia || done. }
  inversion Hgs as [|? ? Hg Hrest]; subst. inversion Hseq as [|? ? Hg' Hrest']; subst.
  destruct (full_window_ok w t g) as (w1 & t1 & h & Hc & Hw & Hack & Ho1 & Hro); try done.
  pose proof Hro as [Hid Hpt Hsn Hn Hwin]. rewrite Z.add_0_r in Hn. rewrite Z.sub_0_r in Hwin.
  destruct (IH w1 t1) as (w' & t' & frames & Hcs & Hw' & Hacks & Ho' & Hro'); try done;
    rewrite ?Hid, ?Hsn, ?Hn, ?Hwin; try done.
  rewrite Hn in Hacks. eexists w', t', (_ :: frames). split; [by eapply consume_frames_cons|].
  split; [by eapply wire_app|]. split; [constructor; [by exists h|done]|]. split; [done|].
  by apply (received_octets_trans _ _ _ 0 0 Hro).
Qed.
End Stream.

(** C5: data in sequence, frame after frame, and its end.  As long as the segments fit the window
    the connection started with, each is answered by one frame, an ACK for all octets up to its
    end with the window that is left; the connection stays open and counts the octets.  But
    taking them never opens the window again: when they have filled it, every further data
    segment, however often it is sent, is answered by an ACK for the same octets and with
    window 0, and none of its octets is ever taken.  The socket has no next handler, the lookups
    lead to IPv4 and TCP, and the sequence numbers of the window do not wrap around. *)
Theorem stream_fills_window `{!Platform} n eth ip tcp i port p s so a w t fs :
  receiving_connection eth ip tcp i port p s so a w t [] → sock_next_handler so = None →
  Forall (data_segment i port (tcb_id t) (tcb_send_next t)) fs →
  in_sequence (tcb_receive_next t) fs → octets fs <= tcb_receive_window t →
  tcb_receive_next t + tcb_receive_window t < 4294967296 →
  ∃ w' t' frames, consume_frames n eth i fs w = Ok (tt, w') ∧ w_wire w' = w_wire w ++ frames ∧
    acknowledged_by i (tcb_receive_next t) (tcb_receive_window t) fs frames ∧
    receiving_connection eth ip tcp i port p s so a w' t' [] ∧ received_octets t t' (octets fs) ∧
    (octets fs = tcb_receive_window t → ∀ gs,
     Forall (data_segment i port (tcb_id t) (tcb_send_next t)) gs →
     Forall (λ g, rc_sequence g = tcb_receive_next t + octets fs) gs →
     ∃ w'' t'' frames', consume_frames n eth i gs w' = Ok (tt, w'') ∧ w_wire w'' = w_wire w' ++ frames' ∧
       answered_by i (tcb_receive_next t + octets fs) 0 gs frames' ∧
       receiving_connection eth ip tcp i port p s so a w'' t'' [] ∧ received_octets t' t'' 0).
Proof.
  intros Ho Hnone Hfs Hseq Hsize Hwrap.
  destruct (stream_ok n eth ip tcp i port p s so a fs w t) as (w' & t' & frames & Hc & Hw & Hack & Ho' & Hro);
    try done.
  exists w', t', frames. split_and!; try done. intros Hfull gs Hgs Hsame.
  destruct Hro as [Hid Hpt Hsn Hn Hwin]. rewrite <- Hn in Hsame |- *.
  apply (stalled_ok n eth ip tcp i port p s so a); rewrite ?Hid, ?Hsn; done || lia.
Qed.

(** ** Other hosts *)

(** A segment of a connection of its own, with the ports of the connection. *)
Lemma stranger_id i port t f :
  tcb_id t = tcp_shared_calculate_connection_id (tcb_remote_ipv4 t) (tcb_remote_port t) port →
  is_u32 (tcb_remote_ipv4 t) ∧ is_u16 (tcb_remote_port t) →
  connection_segment i port (tcb_header_to_connection_id (rc_ipv4 f) (rc_tcp f)) f →
  th_source_port (rc_tcp f) = tcb_remote_port t →
  tcb_header_to_connection_id (rc_ipv4 f) (rc_tcp f) = tcb_id t.
Proof.
  intros -> [Hip Hrp] [Hb _ _ Hi _ _ _ Ht Hp _] Hs. unfold tcb_header_to_connection_id. rewrite Hs, Hp.
  apply decode_ipv4_ok in Hi as (_ & _ & _ & _ & _ & _ & _ & _ & Hsrc & _); [|by apply Forall_drop].
  apply decode_tcp_ok in Ht as (_ & Hdp & _); [|by apply Forall_drop]. rewrite Hp in Hdp.
  by rewrite !connection_id_value.
Qed.

(** C8: data from another host.  The connection to a peer takes data segments of any host that sends
    them from the port of the peer, because the address of the sender is not part of the
    identifier: the data is counted as the peer's, and acknowledged to the other host.  The lookups
    lead to IPv4 and TCP, and the sequence numbers of the window do not wrap around. *)
Theorem stranger_data_taken `{!Platform} n eth ip tcp i port p s so a w t f :
  receiving_connection eth ip tcp i port p s so a w t [] → sock_next_handler so = None →
  tcb_id t = tcp_shared_calculate_connection_id (tcb_remote_ipv4 t) (tcb_remote_port t) port →
  data_segment i port (tcb_header_to_connection_id (rc_ipv4 f) (rc_tcp f)) (tcb_send_next t) f →
  th_source_port (rc_tcp f) = tcb_remote_port t →
  rc_sequence f = tcb_receive_next t → rc_size f <= tcb_receive_window t →
  tcb_receive_next t + tcb_receive_window t < 4294967296 →
  ∃ w' t' ia h, consume_frame n eth i f w = Ok (tt, w') ∧
    w_wire w' = w_wire w ++ [control_frame i (answer_ethernet (rc_ethernet f)) ia h] ∧
    iwa_destination_ip ia = ip_source_ip (rc_ipv4 f) ∧
    acknowledges h (tcb_receive_next t + rc_size f) (tcb_receive_window t - rc_size f) ∧
    received_octets t t' (rc_size f) ∧
    receiving_connection eth ip tcp i port p s so a w' t' [].
Proof.
  intros Ho Hnone Hid Hd Hport Hseq Hsize Hwrap.
  rewrite (stranger_id i port t f Hid (oc_peer _ _ _ _ _ _ _ _ _ _ _ _ Ho) (ds_segment _ _ _ _ _ Hd) Hport) in Hd.
  destruct (data_frame_ok n eth ip tcp i port p s so a w t f Ho Hd Hnone (takes_next t f Hseq Hsize Hwrap))
    as (w' & t' & h & Hc & Hw & Hack & Ho' & Hro).
  exists w', t', (answer_ipv4 (rc_ipv4 f)), h. by split_and!.
Qed.
