(* ===== verification/Reorder.v ===== *)
(** * Reorder: data frames that do not arrive in order

    The connection of [Stream.v], when a data frame overtakes the one before it, is lost, or
    starts one octet behind what the connection expects. *)

From S2P Require Import Prelude Headers Checksum ProtocolMap BlockBuffer State.
From S2P Require Import Ethernet Ipv4 TcpShared TcpSocket TcpStates Tcp TcpOutput Arp Llc Custom Stack.
From S2P Require Import Handshake Transfer Delivery Refuse Stream.

(** ** The queue of segments that wait *)

(** Nothing is ready as long as the head is not next. *)
Definition waits (next : Z) (q : list segment) : Prop :=
  match q with [] => True | x :: _ => seg_seq x ≠ next ∧ seg_seq x ≠ u32 (next + 1) end.

Lemma waits_ready next q : waits next q → queue_ready next q = 0%nat.
Proof.
  destruct q as [|x q]; [done|]. intros [Hn Hs]. cbn [queue_ready].
  by rewrite (proj2 (Z.eqb_neq _ _) Hn), (proj2 (Z.eqb_neq _ _) Hs).
Qed.

(** A segment behind the head leaves the head where it is. *)
Lemma queue_insert_head x q s : seg_seq x <= seg_seq s → queue_insert s (x :: q) = x :: queue_insert s q.
Proof. intros H. cbn [queue_insert]. by rewrite (proj2 (Z.leb_le _ _) H). Qed.

(** The segment of a frame in the packet stack [ps]. *)
Definition frame_segment (f : received) (ps : addr) : segment :=
  queued_segment (rc_ipv4 f) (rc_tcp f) ps.

Section Reorder.
Context `{!Platform}.
Variables (n : nat) (eth ip tcp : addr) (i : interface_t) (port : Z) (p : tcp_priv_t).
Variables (s : addr) (so : tcp_socket_t) (a : addr).
#[local] Instance d9 : Dispatch := dispatch (S (S (S n))).
Abbreviation opened := (receiving_connection eth ip tcp i port p s so a).
Implicit Types (t : transmission_control_block_t) (f g : received).

(** ** [tcp_read_segment] when nothing is ready *)

Lemma nothing_ready t w f ps r qs m :
  need_header up_to_data_offset ps w = Ok (tt, w) →
  w_tcbs w !! a = Some t → tcb_state t = ESTABLISHED →
  tcp_block_buffer_add (tcb_in_buffer t) ps (th_sequence_num (rc_tcp f)) (rc_size f) = Ok r →
  bb_repr (snd r) qs m → Z.of_nat (length qs) < 65536 → waits (tcb_receive_next t) qs →
  tcp_read_segment tcp a ps (rc_ipv4 f) (rc_tcp f) i w =
  Ok (Some 0, w <| w_tcbs ::= <[a := t <| tcb_in_buffer := snd r |>]> |>).
Proof.
  intros Hh Ht Hst Hadd Hbb Hlen Hw. unfold tcp_read_segment. rewrite (bind_ok _ _ _ _ _ Hh). cbv zeta.
  rewrite (bind_load _ _ t), (bind_lift _ _ _ _ Hadd), (bind_update _ _ _ t) by done.
  rewrite bool_decide_eq_false_2 by congruence. cbn [when]. rewrite bind_ret_l.
  rewrite (bind_load _ _ (t <| tcb_in_buffer := snd r |>)) by apply lookup_insert_eq.
  change (tcb_in_buffer (t <| tcb_in_buffer := snd r |>)) with (snd r).
  change (tcb_receive_next (t <| tcb_in_buffer := snd r |>)) with (tcb_receive_next t).
  pose proof (num_ready_repr _ _ _ (tcb_receive_next t) Hbb Hlen) as Hn. rewrite (waits_ready _ _ Hw) in Hn.
  by rewrite (bind_lift _ _ _ _ Hn).
Qed.

(** ** A frame for the connection *)

(** It reaches the queue of the connection, whatever waits there. *)
Lemma frame_enters w t qs m f :
  opened w t qs → bb_repr (tcb_in_buffer t) qs m → (0 < m + length qs)%nat →
  connection_segment i port (tcb_id t) f →
  ∃ w1, opened w1 t qs ∧ w_tcbs w1 = w_tcbs w ∧ w_wire w1 = w_wire w ∧
    is_Some (w_in_stacks w1 !! w_next w) ∧
    w_next w1 = S (w_next w) ∧ (∀ b, b ≠ w_next w → w_in_stacks w1 !! b = w_in_stacks w !! b) ∧
    need_header up_to_data_offset (w_next w) w1 = Ok (tt, w1) ∧
    (∃ q mo, connected eth ip tcp i w1 (w_next w) q (answer_ethernet (rc_ethernet f)) (answer_ipv4 (rc_ipv4 f))
       (rc_ipv4 f) (rc_tcp f) p s so a t qs m mo) ∧
    consume_frame n eth i f w =
    (tcp_read_segment tcp a (w_next w) (rc_ipv4 f) (rc_tcp f) i;;; free w_in_stacks (w_next w);;; ret tt) w1.
Proof.
  intros Ho Hm Hpos Hd.
  destruct (open_frame eth ip tcp i port p s so a w t qs m f Ho Hm Hd)
    as (emap & imap & mo & Hle & Hli & Hf & Hc).
  destruct (tcp_read_enters n eth ip tcp i _ _ _ _ _ _ _ _ _ _ _ _ _ _ _ Hc (eq_sym (cg_id _ _ _ _ Hd)))
    as [Hc1 Hr]. cbv zeta in Hc1, Hr. eexists.
  split; [|split; [|split; [|split; [|split; [|split; [|split; [|split]]]]]]].
  - eapply (connected_opened eth ip tcp i port p s so a);
      [exact Hc1|exact Hd|exact Hpos|exact Hle|exact Hli|by destruct Ho|by destruct Ho].
  - reflexivity.
  - reflexivity.
  - eexists. apply lookup_insert_eq.
  - reflexivity.
  - intros b Hb. simpl. by rewrite !lookup_insert_ne by done.
  - exact (connected_data_offset _ _ _ _ _ _ _ _ _ _ _ _ _ _ _ _ _ _ _ Hc1).
  - eexists _, mo. exact Hc1.
  - unfold consume_frame. rewrite (tcp_frame_delivered_ok _ _ _ _ _ _ _ _ _ _ _ _ Hf).
    apply bind_eq. exact Hr.
Qed.

(** Behind the head of the queue, it waits. *)
Lemma frame_waits w t qs m f :
  opened w t qs → bb_repr (tcb_in_buffer t) qs (S m) → Z.of_nat (S (length qs)) < 65536 →
  connection_segment i port (tcb_id t) f →
  let sg := frame_segment f (w_next w) in
  insertable sg qs → waits (tcb_receive_next t) (queue_insert sg qs) →
  ∃ w' bb, let t' := t <| tcb_in_buffer := bb |> in
    consume_frame n eth i f w = Ok (tt, w') ∧ w_wire w' = w_wire w ∧ w_tcbs w' = <[a := t']> (w_tcbs w) ∧
    bb_repr bb (queue_insert sg qs) m ∧ opened w' t' (queue_insert sg qs).
Proof.
  intros Ho Hm Hlen Hd sg Hins Hw.
  destruct (frame_enters w t qs (S m) f Ho Hm ltac:(lia) Hd) as (w1 & Ho1 & Ht & Hwire & Hps & _ & _ & Hh & _ & Hc).
  destruct (add_repr _ _ _ (w_next w) (th_sequence_num (rc_tcp f)) (rc_size f) Hm Hins) as (j & bb & Hadd & _ & Hbb).
  pose proof (oc_state _ _ _ _ _ _ _ _ _ _ _ _ Ho) as Hst.
  pose proof (nothing_ready t w1 f (w_next w) _ _ _ Hh (oc_tcb _ _ _ _ _ _ _ _ _ _ _ _ Ho1) (proj1 Hst) Hadd Hbb) as Hr.
  rewrite length_queue_insert in Hr. specialize (Hr Hlen Hw).
  set (t' := t <| tcb_in_buffer := bb |>) in *.
  exists (w1 <| w_tcbs ::= <[a := t']> |> <| w_in_stacks ::= delete (w_next w) |>), bb.
  split; [|split; [exact Hwire|split; [by rewrite <- Ht|split; [exact Hbb|]]]].
  - rewrite Hc. by apply read_then_free with (Some 0).
  - apply opened_in_stacks.
    apply (opened_update eth ip tcp i port p s so a w1 t qs); try done; try (by destruct Ho1).
    + exists m. split; [exact Hbb|]. rewrite length_queue_insert. lia.
    + by destruct (oc_header _ _ _ _ _ _ _ _ _ _ _ _ Ho).
Qed.

(** In front of it, there is no block to link it to. *)
Lemma frame_before_head w t qs m f :
  opened w t qs → bb_repr (tcb_in_buffer t) qs (S m) →
  connection_segment i port (tcb_id t) f → ¬ insertable (frame_segment f (w_next w)) qs →
  consume_frame n eth i f w = Fault NullDeref.
Proof.
  intros Ho Hm Hd Hins. destruct (frame_enters w t qs (S m) f Ho Hm ltac:(lia) Hd) as (w1 & Ho1 & _ & _ & _ & _ & _ & Hh & _ & Hc).
  rewrite Hc. apply bind_fault. unfold tcp_read_segment. rewrite (bind_ok _ _ _ _ _ Hh). cbv zeta.
  rewrite (bind_load _ _ t) by apply Ho1. apply bind_fault.
  destruct qs as [|x qs]; [by destruct Hins|].
  rewrite (add_before_head _ _ _ _ _ _ _ Hm); [done|]. simpl in Hins. unfold rc_sequence in Hins. lia.
Qed.

(** Without a free block it is forgotten. *)
Lemma frame_without_block w t qs f :
  opened w t qs → bb_repr (tcb_in_buffer t) qs 0 → qs ≠ [] → Z.of_nat (length qs) < 65536 →
  connection_segment i port (tcb_id t) f → waits (tcb_receive_next t) qs →
  ∃ w', consume_frame n eth i f w = Ok (tt, w') ∧ w_wire w' = w_wire w ∧ w_tcbs w' = w_tcbs w ∧ opened w' t qs.
Proof.
  intros Ho Hm Hne Hlen Hd Hw.
  assert (0 < 0 + length qs)%nat as Hpos by (destruct qs; [done|simpl; lia]).
  destruct (frame_enters w t qs 0 f Ho Hm Hpos Hd) as (w1 & Ho1 & Ht & Hwire & Hps & _ & _ & Hh & _ & Hc).
  pose proof (oc_tcb _ _ _ _ _ _ _ _ _ _ _ _ Ho1) as Ht1.
  pose proof (nothing_ready t w1 f (w_next w) _ _ _ Hh Ht1 (proj1 (oc_state _ _ _ _ _ _ _ _ _ _ _ _ Ho))
    (tcp_block_buffer_add_full _ _ _ _ _ Hm) Hm Hlen Hw) as Hr.
  assert (t <| tcb_in_buffer := tcb_in_buffer t |> = t) as E by by destruct t.
  cbn [snd] in Hr. rewrite E, (world_tcbs_id _ _ _ Ht1) in Hr.
  exists (w1 <| w_in_stacks ::= delete (w_next w) |>).
  split; [|split; [exact Hwire|split; [exact Ht|by apply opened_in_stacks]]].
  rewrite Hc. by apply read_then_free with (Some 0).
Qed.

(** ** Sequences of frames *)

(** A connection with the segments [x :: qs] in its queue and [m] free blocks. *)
Definition waiting w t x qs m : Prop :=
  opened w t (x :: qs) ∧ bb_repr (tcb_in_buffer t) (x :: qs) m ∧
  (S (length qs) + m = S TCP_BLOCK_BUFFER_DEFAULT_SIZE)%nat ∧ waits (tcb_receive_next t) [x].

Lemma waiting_frame w t x qs m f :
  waiting w t x qs m → connection_segment i port (tcb_id t) f → seg_seq x <= rc_sequence f →
  ∃ w' bb qs', let t' := t <| tcb_in_buffer := bb |> in
    consume_frame n eth i f w = Ok (tt, w') ∧ w_wire w' = w_wire w ∧ w_tcbs w' = <[a := t']> (w_tcbs w) ∧
    waiting w' t' x qs' (pred m).
Proof.
  intros (Ho & Hm & Hcap & Hw) Hd Hseq. unfold TCP_BLOCK_BUFFER_DEFAULT_SIZE in *. destruct m as [|m].
  - destruct (frame_without_block w t (x :: qs) f) as (w' & Hc & Hwire & Ht & Ho'); try done; [simpl; lia|].
    exists w', (tcb_in_buffer t), qs. assert (t <| tcb_in_buffer := tcb_in_buffer t |> = t) as -> by by destruct t.
    split; [done|]. split; [done|]. split; [|by split_and!].
    rewrite Ht, insert_id; [done|]. apply Ho.
  - destruct (frame_waits w t (x :: qs) m f) as (w' & bb & Hc & Hwire & Ht & Hbb & Ho'); try done; [cbn [length]; lia| |].
    { by rewrite queue_insert_head. }
    rewrite queue_insert_head in Hbb, Ho' by done.
    exists w', bb, (queue_insert (frame_segment f (w_next w)) qs).
    split; [exact Hc|]. split; [exact Hwire|]. split; [exact Ht|].
    split; [exact Ho'|]. split; [exact Hbb|]. split; [|exact Hw]. rewrite length_queue_insert. unfold TCP_BLOCK_BUFFER_DEFAULT_SIZE. simpl. lia.
Qed.

Lemma waiting_frames fs w t x qs m :
  waiting w t x qs m → Forall (connection_segment i port (tcb_id t)) fs →
  Forall (λ f, seg_seq x <= rc_sequence f) fs →
  ∃ w' bb qs', let t' := t <| tcb_in_buffer := bb |> in
    consume_frames n eth i fs w = Ok (tt, w') ∧ w_wire w' = w_wire w ∧ w_tcbs w' = <[a := t']> (w_tcbs w) ∧
    waiting w' t' x qs' (m - length fs).
Proof.
  revert w t qs m. induction fs as [|f fs IH]; intros w t qs m Hwait Hd Hseq.
  { exists w, (tcb_in_buffer t), qs. assert (t <| tcb_in_buffer := tcb_in_buffer t |> = t) as -> by by destruct t.
    rewrite Nat.sub_0_r. split; [done|]. split; [done|]. split; [|done]. rewrite insert_id; [done|]. apply Hwait. }
  inversion Hd as [|? ? Hf Hfs]; subst. inversion Hseq as [|? ? Hx Hxs]; subst.
  destruct (waiting_frame _ _ _ _ _ _ Hwait Hf Hx) as (w1 & b1 & q1 & Hc & Hwire & Ht & Hwait1).
  destruct (IH _ _ _ _ Hwait1 Hfs Hxs) as (w' & bb & qs' & Hcs & Hwire' & Ht' & Hwait').
  exists w', bb, qs'. split; [by eapply consume_frames_cons|]. split; [congruence|].
  split; [by rewrite Ht', Ht, insert_insert_eq|]. by replace (m - length (f :: fs))%nat with (pred m - length fs)%nat by (simpl; lia).
Qed.

(** With all blocks in use nothing is taken any more, whatever is sent. *)
Lemma full_frames fs w t x qs :
  waiting w t x qs 0 → Forall (connection_segment i port (tcb_id t)) fs →
  ∃ w', consume_frames n eth i fs w = Ok (tt, w') ∧ w_wire w' = w_wire w ∧ w_tcbs w' = w_tcbs w ∧
    waiting w' t x qs 0.
Proof.
  revert w. induction fs as [|f fs IH]; intros w Hwait Hd; [by exists w|].
  inversion Hd as [|? ? Hf Hfs]; subst. pose proof Hwait as (Ho & Hm & Hcap & Hw).
  unfold TCP_BLOCK_BUFFER_DEFAULT_SIZE in *.
  destruct (frame_without_block w t (x :: qs) f) as (w1 & Hc & Hwire & Ht & Ho1); try done; [simpl; lia|].
  destruct (IH w1) as (w' & Hcs & Hwire' & Ht' & Hwait'); [by split_and!|done|].
  exists w'. split; [by eapply consume_frames_cons|]. split; [congruence|]. split; [congruence|done].
Qed.
End Reorder.

(** C6: a frame that arrives too early.  It is not answered; its segment waits in the queue, as do
    those of the frames behind it, and nothing is sent and nothing else of the connection
    changes.  But the frame that is missing never helps: as long as a block is free, taking a
    frame in front of those that wait brings the program down, because the queue cannot be
    extended at its front; and when eleven segments wait, every further frame of the connection
    is ignored, for ever. *)
Theorem early_frame_blocks `{!Platform} n eth ip tcp i port p s so a w t g hs :
  receiving_connection eth ip tcp i port p s so a w t [] →
  bb_repr (tcb_in_buffer t) [] (S TCP_BLOCK_BUFFER_DEFAULT_SIZE) →
  Forall (connection_segment i port (tcb_id t)) (g :: hs) →
  rc_sequence g ≠ tcb_receive_next t → rc_sequence g ≠ u32 (tcb_receive_next t + 1) →
  Forall (λ h, rc_sequence g <= rc_sequence h) hs →
  ∃ w' bb qs, let t' := t <| tcb_in_buffer := bb |> in
    consume_frames n eth i (g :: hs) w = Ok (tt, w') ∧ w_wire w' = w_wire w ∧
    w_tcbs w' = <[a := t']> (w_tcbs w) ∧ receiving_connection eth ip tcp i port p s so a w' t' qs ∧
    ((length hs < TCP_BLOCK_BUFFER_DEFAULT_SIZE)%nat → ∀ f,
     connection_segment i port (tcb_id t) f → rc_sequence f < rc_sequence g →
     consume_frame n eth i f w' = Fault NullDeref) ∧
    ((TCP_BLOCK_BUFFER_DEFAULT_SIZE <= length hs)%nat → ∀ fs,
     Forall (connection_segment i port (tcb_id t)) fs →
     ∃ w'', consume_frames n eth i fs w' = Ok (tt, w'') ∧ w_wire w'' = w_wire w' ∧ w_tcbs w'' = w_tcbs w').
Proof.
  intros Ho Hm Hd Hn Hs Hseq. inversion Hd as [|? ? Hg Hhs]; subst.
  destruct (frame_waits n eth ip tcp i port p s so a w t [] TCP_BLOCK_BUFFER_DEFAULT_SIZE g)
    as (w1 & b1 & Hc1 & Hwire1 & Ht1 & Hbb1 & Ho1); try done.
  set (x := frame_segment g (w_next w)) in *. set (t1 := t <| tcb_in_buffer := b1 |>) in *.
  destruct (waiting_frames n eth ip tcp i port p s so a hs w1 t1 x [] TCP_BLOCK_BUFFER_DEFAULT_SIZE)
    as (w' & bb & qs & Hc & Hwire & Ht & Hwait); try done.
  exists w', bb, (x :: qs). pose proof Hwait as (Ho' & Hbb & Hcap & _). cbv zeta.
  split; [by eapply consume_frames_cons|]. split; [congruence|].
  split; [by rewrite Ht, Ht1, insert_insert_eq|]. split; [exact Ho'|]. split.
  - intros Hroom f Hf Hlt. destruct (TCP_BLOCK_BUFFER_DEFAULT_SIZE - length hs)%nat as [|m] eqn:Hfree; [lia|].
    apply (frame_before_head n eth ip tcp i port p s so a w' _ (x :: qs) m f Ho' Hbb Hf). simpl. unfold rc_sequence in Hlt. lia.
  - intros Hfull fs Hfs. replace (TCP_BLOCK_BUFFER_DEFAULT_SIZE - length hs)%nat with 0%nat in Hwait by lia.
    destruct (full_frames n eth ip tcp i port p s so a fs w' _ x qs Hwait Hfs) as (w'' & Hr). exists w''. tauto.
Qed.

(** C9: an octet that is missing.  A data frame that starts one octet behind the one that is
    expected is taken as if it were the next: it is answered by an ACK that counts its octets
    from the expected one on, so the missing octet is acknowledged although it never arrived, and
    the last one that did arrive is not.  The lookups lead to IPv4 and TCP, and the sequence
    numbers of the window do not wrap around. *)
Theorem missing_octet_acknowledged `{!Platform} n eth ip tcp i port p s so a w t f :
  receiving_connection eth ip tcp i port p s so a w t [] → sock_next_handler so = None →
  data_segment i port (tcb_id t) (tcb_send_next t) f →
  rc_sequence f = tcb_receive_next t + 1 → rc_size f < tcb_receive_window t →
  tcb_receive_next t + tcb_receive_window t < 4294967296 →
  ∃ w' t' h, consume_frame n eth i f w = Ok (tt, w') ∧
    w_wire w' = w_wire w ++ [control_frame i (answer_ethernet (rc_ethernet f)) (answer_ipv4 (rc_ipv4 f)) h] ∧
    acknowledges h (rc_sequence f + rc_size f - 1) (tcb_receive_window t - rc_size f) ∧
    receiving_connection eth ip tcp i port p s so a w' t' [] ∧
    tcb_receive_next t' = rc_sequence f + rc_size f - 1.
Proof.
  intros Ho Hnone Hd Hseq Hsize Hwrap.
  destruct (data_frame_ok n eth ip tcp i port p s so a w t f Ho Hd Hnone) as (w' & t' & h & Hc & Hw & Hack & Ho' & Hro).
  - split; [by right|lia].
  - destruct Hro as [_ _ _ Hn _]. replace (rc_sequence f + rc_size f - 1) with (tcb_receive_next t + rc_size f) by lia.
    by exists w', t', h.
Qed.
