(* ===== verification/Reset.v ===== *)
(** * Reset: what a reset leaves behind

    A reset in the window should close the connection.  [tcp_others] returns from it instead, with
    its segment still at the head of the queue; what becomes of the frames that follow. *)

From S2P Require Import Prelude Headers Checksum ProtocolMap BlockBuffer State.
From S2P Require Import Ethernet Ipv4 TcpShared TcpSocket TcpStates Tcp TcpOutput Arp Llc Custom Stack.
From S2P Require Import Handshake Transfer Delivery Refuse Stream Reorder.

Section Reset.
Context `{!Platform}.
Variables (n : nat) (eth ip tcp : addr) (i : interface_t) (port : Z) (p : tcp_priv_t).
Variables (s : addr) (so : tcp_socket_t) (a : addr).
#[local] Instance d10 : Dispatch := dispatch (S (S (S n))).
Abbreviation opened := (receiving_connection eth ip tcp i port p s so a).

(** A reset where the next octet is expected. *)
Definition resets (t : transmission_control_block_t) (f : received) : Prop :=
  flag_set (th_control_bits (rc_tcp f)) TCP_RST_FLAG = true ∧
  rc_sequence f = tcb_receive_next t ∧ is_segment_in_window t (rc_tcp f) (rc_size f) = true.

Lemma reset_verdict t f :
  tcb_state t = ESTABLISHED → resets t f → segment_verdict t (rc_tcp f) (rc_size f) = Stuck.
Proof. intros Hst (Hr & _ & Hw). unfold segment_verdict. by rewrite Hw, Hr, Hst. Qed.

(** It stays in the queue, and its packet stack is gone. *)
Lemma reset_stays w t m f :
  opened w t [] → bb_repr (tcb_in_buffer t) [] (S m) → connection_segment i port (tcb_id t) f → resets t f →
  ∃ w' bb, let t' := t <| tcb_in_buffer := bb |> in let sg := frame_segment f (w_next w) in
    consume_frame n eth i f w = Ok (tt, w') ∧ w_wire w' = w_wire w ∧ w_tcbs w' = <[a := t']> (w_tcbs w) ∧
    opened w' t' [sg] ∧ bb_repr bb [sg] m ∧ w_next w' = S (w_next w) ∧ w_in_stacks w' !! w_next w = None.
Proof.
  intros Ho Hm Hd Hr.
  destruct (frame_enters n eth ip tcp i port p s so a w t [] (S m) f Ho Hm ltac:(lia) Hd)
    as (w1 & Ho1 & Ht & Hwire & Hps & Hnext & _ & _ & (q & mo & Hc1) & Hc).
  pose proof (oc_state _ _ _ _ _ _ _ _ _ _ _ _ Ho) as [Hst Hfn]. pose proof Hr as (_ & Hseq & _).
  assert (expected_next t (rc_tcp f) = tcb_receive_next t) as Hexp by (apply decide_False; congruence).
  destruct (read_segment_ok n eth ip tcp i _ _ _ _ _ _ _ _ _ _ _ _ _ _ Hc1) as (bb & Hc2 & Hrs);
    [left; exact (eq_trans Hseq (eq_sym Hexp))|].
  assert (t <| tcb_in_buffer := bb |> <| tcb_receive_next := tcb_receive_next t |> = t <| tcb_in_buffer := bb |>)
    as E by by destruct t.
  cbv zeta in Hc2, Hrs. rewrite Hexp, E in Hc2, Hrs. rewrite Hfn in Hrs.
  change (queued_segment (rc_ipv4 f) (rc_tcp f) (w_next w)) with (frame_segment f (w_next w)) in Hc2.
  set (t' := t <| tcb_in_buffer := bb |>) in *. set (w2 := w1 <| w_tcbs ::= <[a := t']> |>) in *.
  pose proof (sq_in _ _ _ _ _ _ _ _ _ _ _ _ _ _ _ _ _ _ _ Hc2) as Hbb.
  pose proof (tcp_others_round n eth ip tcp i _ _ _ _ _ _ _ _ _ _ _ _ _ _ _ Hc2 eq_refl) as Hround.
  pose proof (body_by_verdict n tcp i a (w_next w) s (rc_tcp f) (rc_size f) t' w2 (lookup_insert_eq _ _ _)) as Hb.
  rewrite (reset_verdict t' f Hst Hr) in Hb.
  exists (w2 <| w_in_stacks ::= delete (w_next w) |>), bb.
  split; [|split; [exact Hwire|split; [by rewrite <- Ht|split; [|split; [exact Hbb|split; [exact Hnext|]]]]]].
  - rewrite Hc. apply read_then_free with (Some 0); [|exact Hps].
    exact (eq_trans Hrs (eq_trans Hround (round_returns _ _ _ _ Hb))).
  - apply opened_in_stacks.
    apply (opened_update eth ip tcp i port p s so a w1 t []); try done; try (by destruct Ho1).
    + exists m. split; [exact Hbb|simpl; lia].
    + by destruct (oc_header _ _ _ _ _ _ _ _ _ _ _ _ Ho).
  - apply lookup_delete_eq.
Qed.

(** [tcp_others] starts with the packet stack of the first segment. *)
Lemma stale_head w t sg qs m k :
  w_tcbs w !! a = Some t → bb_repr (tcb_in_buffer t) (sg :: qs) m → w_in_stacks w !! seg_data sg = None →
  tcp_others tcp a (S k) i w = Fault Dangling.
Proof.
  intros Ht Hm Hps. cbn [tcp_others]. apply bind_fault. unfold tcp_others_one.
  rewrite (bind_ok _ _ _ _ _ (head_packet_ok _ _ _ _ _ _ Ht Hm)). apply bind_fault.
  unfold packet_headers. apply bind_fault. unfold load. by rewrite Hps.
Qed.

(** With it at the head, the queue is ready for whatever arrives. *)
Lemma frame_after_reset w t sg m f :
  opened w t [sg] → bb_repr (tcb_in_buffer t) [sg] (S m) → seg_seq sg = tcb_receive_next t →
  w_in_stacks w !! seg_data sg = None → seg_data sg ≠ w_next w →
  connection_segment i port (tcb_id t) f →
  consume_frame n eth i f w = Fault (if rc_sequence f <? tcb_receive_next t then NullDeref else Dangling).
Proof.
  intros Ho Hm Hseq Hps Hne Hd. destruct (Z.ltb_spec (rc_sequence f) (tcb_receive_next t)) as [Hlt|Hge].
  { apply (frame_before_head n eth ip tcp i port p s so a w t [sg] m); try done. simpl.
    unfold rc_sequence in Hlt. lia. }
  destruct (frame_enters n eth ip tcp i port p s so a w t [sg] (S m) f Ho Hm ltac:(lia) Hd)
    as (w1 & Ho1 & Ht & Hwire & _ & _ & Hsame & Hh & _ & Hc).
  pose proof (oc_state _ _ _ _ _ _ _ _ _ _ _ _ Ho) as [Hst Hfn].
  destruct (add_repr _ _ _ (w_next w) (th_sequence_num (rc_tcp f)) (rc_size f) Hm) as (j & bb & Hadd & _ & Hbb).
  { simpl. unfold rc_sequence in Hge. lia. }
  rewrite queue_insert_head in Hbb by (simpl; unfold rc_sequence in Hge; lia). cbn [queue_insert] in Hbb.
  set (t' := t <| tcb_in_buffer := bb |>).
  assert (queue_ready (tcb_receive_next t) (sg :: [frame_segment f (w_next w)]) ≠ 0%nat) as Hready.
  { cbn [queue_ready]. by rewrite Hseq, Z.eqb_refl. }
  rewrite Hc. apply bind_fault. unfold tcp_read_segment. rewrite (bind_ok _ _ _ _ _ Hh). cbv zeta.
  rewrite (bind_load _ _ t), (bind_lift _ _ _ _ Hadd), (bind_update _ _ _ t) by apply Ho1.
  rewrite bool_decide_eq_false_2 by congruence. cbn [when snd]. rewrite bind_ret_l.
  rewrite (bind_load _ _ t') by apply lookup_insert_eq.
  rewrite (bind_lift _ _ _ _ (num_ready_repr _ _ _ (tcb_receive_next t) Hbb ltac:(done))).
  change (queued_segment (rc_ipv4 f) (rc_tcp f) (w_next w)) with (frame_segment f (w_next w)).
  destruct (queue_ready _ _) as [|k]; [done|]. rewrite (proj2 (Z.eqb_neq _ _)) by lia. cbn [negb].
  rewrite Nat2Z.id. change (tcb_state_function t') with (tcb_state_function t). rewrite Hfn.
  eapply (stale_head _ t'); [apply lookup_insert_eq|exact Hbb|]. simpl. by rewrite Hsame.
Qed.
End Reset.

(** C7: a reset does not close a connection, it makes it deadly.  A reset where the connection expects
    the next octet is not answered and leaves the connection ESTABLISHED; nothing of it changes
    but its queue, which keeps the segment of the reset.  The next frame
    of the connection, whatever it is, brings the program down: through the packet stack of the
    reset, which is gone, or, if it lies in front of the reset, at the insertion into the queue. *)
Theorem reset_is_deadly `{!Platform} n eth ip tcp i port p s so a w t m f :
  receiving_connection eth ip tcp i port p s so a w t [] →
  bb_repr (tcb_in_buffer t) [] (S (S m)) →
  connection_segment i port (tcb_id t) f → resets t f →
  ∃ w' bb qs, let t' := t <| tcb_in_buffer := bb |> in
    consume_frame n eth i f w = Ok (tt, w') ∧ w_wire w' = w_wire w ∧ w_tcbs w' = <[a := t']> (w_tcbs w) ∧
    receiving_connection eth ip tcp i port p s so a w' t' qs ∧ tcb_state t' = ESTABLISHED ∧
    ∀ g, connection_segment i port (tcb_id t) g →
      consume_frame n eth i g w' =
      Fault (if rc_sequence g <? tcb_receive_next t then NullDeref else Dangling).
Proof.
  intros Ho Hm Hd Hr.
  destruct (reset_stays n eth ip tcp i port p s so a w t (S m) f Ho Hm Hd Hr)
    as (w' & bb & Hc & Hwire & Ht & Ho' & Hbb & Hnext & Hps).
  exists w', bb, [frame_segment f (w_next w)]. cbv zeta.
  split; [exact Hc|]. split; [exact Hwire|]. split; [exact Ht|]. split; [exact Ho'|].
  split; [apply (oc_state _ _ _ _ _ _ _ _ _ _ _ _ Ho')|]. intros g Hg.
  apply (frame_after_reset n eth ip tcp i port p s so a w' _ _ m g Ho' Hbb); [apply Hr|exact Hps| |exact Hg].
  rewrite Hnext. simpl. lia.
Qed.
