(* ===== verification/ActiveOpen.v ===== *)
(** * ActiveOpen: a connection the application opens

    [tcp_socket_connect] and [tcp_syn_sent], with the handlers as the stack links them. *)

From S2P Require Import Prelude Headers Checksum ProtocolMap BlockBuffer State.
From S2P Require Import Ethernet Ipv4 TcpShared TcpSocket TcpStates Tcp TcpOutput Arp Llc Custom Stack.
From S2P Require Import Handshake Transfer.

Section SynSent.
Context `{!Platform}.
Variables (n : nat) (eth ip tcp : addr) (i : interface_t).
#[local] Instance d4 : Dispatch := dispatch (S (S (S n))).

(** The connection when the peer's SYN-ACK has been taken, before the answer. *)
Definition syn_acknowledged (t : transmission_control_block_t) (th : tcp_header_t)
    : transmission_control_block_t :=
  t <| tcb_receive_initial_sequence_num := ntohl (th_sequence_num th) |>
    <| tcb_receive_next := u32 (ntohl (th_sequence_num th) + 1) |>
    <| tcb_send_unacknowledged := ntohl (th_acknowledgement_num th) |>
    <| tcb_state := ESTABLISHED |>
    <| tcb_state_function := fn_tcp_others |>.

Definition window_taken (t : transmission_control_block_t) (th : tcp_header_t)
    : transmission_control_block_t :=
  t <| tcb_send_window := ntohs (th_window th) |>
    <| tcb_send_last_update_sequence_num := ntohl (th_sequence_num th) |>
    <| tcb_send_last_update_acknowledgement_num := ntohl (th_acknowledgement_num th) |>.

Lemma syn_sent_synchronise_ok w ps q e ia ih th p s so a t sg m mo f :
  connected eth ip tcp i w ps q e ia ih th p s so a t [sg] m mo →
  flag_set (th_control_bits th) TCP_ACK_FLAG = true →
  tcb_send_initial_sequence_num t < ntohl (th_acknowledgement_num th) →
  tcp_get_payload_length ih th = 0 → sock_on_connect so = Some f →
  let t1 := syn_acknowledged t th in
  let h := reply_header t1 so TCP_ACK_FLAG in
  ∃ bbi bbo w', bb_repr bbi [] (S m) ∧ bb_repr bbo [] (S mo) ∧
    tcp_syn_sent_synchronise tcp a ps (Some s) th ih i w = Ok (tt, w') ∧
    w_tcbs w' = <[a := (window_taken (t1 <| tcb_out_header := h |> <| tcb_out_buffer := bbo |>) th)
                         <| tcb_in_buffer := bbi |>]> (w_tcbs w) ∧
    w_wire w' = w_wire w ++ [control_frame i e ia h] ∧ w_calls w' = w_calls w ++ [f].
Proof.
  intros Hs Hack Hnew Hsize Hconn t1 h.
  pose proof (sq_tcb _ _ _ _ _ _ _ _ _ _ _ _ _ _ _ _ _ _ _ Hs) as Ht.
  pose proof (sq_socket _ _ _ _ _ _ _ _ _ _ _ _ _ _ _ _ _ _ _ Hs) as Hso.
  pose proof (sq_in _ _ _ _ _ _ _ _ _ _ _ _ _ _ _ _ _ _ _ Hs) as Hin.
  apply (connected_update _ _ _ _ _ _ _ _ _ _ _ _ _ _ _ _ _ _ _ t1) in Hs; [|done].
  destruct (queued_reply n _ _ _ _ _ _ _ _ _ _ _ _ _ _ _ _ _ _ _ TCP_ACK_FLAG Hs)
    as (bbo & w2 & q' & Hbo & Hr & [Htcb Hwire Hhs Hss Hcs] & Hin2 & Hseg & _); [done|].
  set (t2 := t1 <| tcb_out_header := h |> <| tcb_out_buffer := bbo |>).
  set (w3 := w2 <| w_calls ::= λ l, l ++ [f] |> <| w_tcbs ::= <[a := window_taken t2 th]> |>).
  destruct (drop_head_ok w3 a (window_taken t2 th) sg [] m) as (bbi & Hbbi & Hd).
  { apply lookup_insert_eq. }
  { exact Hin. }
  exists bbi, bbo. eexists. split; [done|]. split; [done|]. split; [|split; [|split]].
  - unfold tcp_syn_sent_synchronise. cbv zeta. rewrite Hack. cbn [when].
    rewrite (bind_ok _ _ _ _ _ (set_tcb_ok _ _ _ _ Ht)).
    erewrite bind_ok by (apply set_tcb_ok, lookup_insert_eq).
    erewrite bind_load by apply lookup_insert_eq. cbn [tcb_send_initial_sequence_num].
    match goal with |- context [Z.ltb ?x ?y] => replace (Z.ltb x y) with true
      by (symmetry; apply Z.ltb_lt; exact Hnew) end.
    rewrite bind_assoc. erewrite bind_ok by (apply set_tcb_ok, lookup_insert_eq).
    rewrite !world_tcbs_twice, Hsize. cbn [negb Z.eqb].
    rewrite bind_assoc, (bind_ok _ _ _ _ _ Hr). unfold call_on_connect.
    rewrite bind_assoc, (bind_need _ _ s), bind_assoc, (bind_load _ _ so) by (rewrite ?Hss; done).
    rewrite Hconn. unfold callback. rewrite bind_assoc, (bind_need _ _ f), bind_modify by done.
    rewrite (bind_ok (need_header up_to_window ps) _ _ tt (w2 <| w_calls ::= λ l, l ++ [f] |>)).
    2: { eapply need_header_ok; [simpl; rewrite Hin2; apply lookup_insert_eq|exact Hseg|unfold up_to_window; lia]. }
    erewrite bind_ok by (apply set_tcb_ok; simpl; rewrite Htcb; apply lookup_insert_eq).
    exact Hd.
  - simpl. rewrite Htcb. simpl. by rewrite !insert_insert_eq.
  - simpl. by rewrite Hwire.
  - simpl. by rewrite Hcs.
Qed.

Lemma tcp_syn_sent_ok w ps q e ia ih th p s so a t sg m mo f :
  connected eth ip tcp i w ps q e ia ih th p s so a t [sg] m mo → seg_data sg = ps →
  flag_set (th_control_bits th) TCP_SYN_FLAG = true →
  flag_set (th_control_bits th) TCP_ACK_FLAG = true →
  flag_set (th_control_bits th) TCP_RST_FLAG = false →
  tcb_send_initial_sequence_num t < ntohl (th_acknowledgement_num th) <= tcb_send_next t →
  tcp_get_payload_length ih th = 0 → sock_on_connect so = Some f →
  let t1 := syn_acknowledged t th in
  let h := reply_header t1 so TCP_ACK_FLAG in
  ∃ bbi bbo w', bb_repr bbi [] (S m) ∧ bb_repr bbo [] (S mo) ∧
    tcp_syn_sent tcp a 1 i w = Ok (Some 0, w') ∧
    w_tcbs w' = <[a := (window_taken (t1 <| tcb_out_header := h |> <| tcb_out_buffer := bbo |>) th)
                         <| tcb_in_buffer := bbi |>]> (w_tcbs w) ∧
    w_wire w' = w_wire w ++ [control_frame i e ia h] ∧ w_calls w' = w_calls w ++ [f].
Proof.
  intros Hs Hps Hsyn Hack Hrst [Hnew Hmax] Hsize Hconn t1 h.
  destruct (syn_sent_synchronise_ok _ _ _ _ _ _ _ _ _ _ _ _ _ _ _ f Hs Hack Hnew Hsize Hconn)
    as (bbi & bbo & w' & Hbbi & Hbbo & Hrun & Hres).
  exists bbi, bbo, w'. split; [done|]. split; [done|]. split; [|exact Hres].
  destruct Hs as [_ Hq Hseg _ (hd & Hh & Hp) Hlive Hl _ _ _ Ht _ Hin _ _ _ _].
  unfold tcp_syn_sent. rewrite (bind_ok _ _ _ _ _ (head_packet_ok _ _ _ _ _ _ Ht Hin)), Hps.
  read_headers Hq Hseg. cbv beta iota zeta.
  rewrite (bind_ok _ _ _ _ _ (packet_socket_ok tcp w hd p ih th Hh Hp Hlive)), Hl.
  rewrite (bind_load _ _ t), Hack, Hrst, Hsyn by done.
  rewrite (proj2 (Z.leb_gt _ _) Hnew), (proj2 (Z.ltb_ge _ _) Hmax). cbn [orb andb when].
  rewrite (bind_ok _ _ _ _ _ Hrun).
  destruct (Z.eqb_spec (th_control_bits th) 0) as [E|]; [by rewrite E in Hsyn|]. done.
Qed.
End SynSent.

(** C13: the end of an active open.  In SYN_SENT, a SYN-ACK of the own SYN makes [tcp_read]
    answer with exactly one ACK, which acknowledges the peer's SYN and carries the next
    sequence number, call on_connect, take the peer's window and enter ESTABLISHED with
    both buffers empty. *)
Theorem active_open_completes `{!Platform} n eth ip tcp i w ps q e ia ih th p s so a t m mo f :
  connected eth ip tcp i w ps q e ia ih th p s so a t [] (S m) mo →
  tcb_id t = tcb_header_to_connection_id ih th →
  tcb_state t = SYN_SENT → tcb_state_function t = fn_tcp_syn_sent →
  flag_set (th_control_bits th) TCP_SYN_FLAG = true →
  flag_set (th_control_bits th) TCP_ACK_FLAG = true →
  flag_set (th_control_bits th) TCP_RST_FLAG = false →
  tcb_send_initial_sequence_num t < ntohl (th_acknowledgement_num th) <= tcb_send_next t →
  tcp_get_payload_length ih th = 0 → sock_on_connect so = Some f →
  ∃ w' t' h, tcp_read (H0 := dispatch (S (S (S n)))) ps i tcp w = Ok (Some 0, w') ∧
    w_wire w' = w_wire w ++ [control_frame i e ia h] ∧
    (th_source_port h = sock_port so ∧ th_destination_port h = tcb_remote_port t ∧
     th_control_bits h = TCP_ACK_FLAG ∧ th_sequence_num h = htonl (tcb_send_next t) ∧
     th_acknowledgement_num h = htonl (u32 (ntohl (th_sequence_num th) + 1))) ∧
    w_calls w' = w_calls w ++ [f] ∧ w_tcbs w' = <[a := t']> (w_tcbs w) ∧
    tcb_state t' = ESTABLISHED ∧ tcb_state_function t' = fn_tcp_others ∧
    tcb_receive_next t' = u32 (ntohl (th_sequence_num th) + 1) ∧
    tcb_send_unacknowledged t' = ntohl (th_acknowledgement_num th) ∧
    tcb_send_next t' = tcb_send_next t ∧ tcb_send_window t' = ntohs (th_window th) ∧
    bb_repr (tcb_in_buffer t') [] (S m) ∧ bb_repr (tcb_out_buffer t') [] (S mo).
Proof.
  intros Hs Hid Hst Hfn Hsyn Hack Hrst Hnum Hsize Hconn.
  destruct (tcp_read_enters n eth ip tcp i _ _ _ _ _ _ _ _ _ _ _ _ _ _ _ Hs Hid) as [Hs1 Hr].
  assert (expected_next t th = ntohl (th_sequence_num th)) as Hexp by by apply decide_True.
  destruct (read_segment_ok n eth ip tcp i _ _ _ _ _ _ _ _ _ _ _ _ _ _ Hs1)
    as (bb & Hs2 & Hrs); [by left|]. rewrite Hexp in Hs2, Hrs. rewrite Hfn in Hrs.
  destruct (tcp_syn_sent_ok n eth ip tcp i _ _ _ _ _ _ _ _ _ _ _ _ _ _ _ f Hs2 eq_refl Hsyn Hack Hrst)
    as (bbi & bbo & w' & Hbbi & Hbbo & Hrun & Htcb & Hwire & Hcalls); try done.
  eexists w', _, _. split; [exact (eq_trans Hr (eq_trans Hrs Hrun))|]. split; [exact Hwire|].
  split; [done|]. split; [exact Hcalls|]. split; [rewrite Htcb; simpl; by rewrite insert_insert_eq|].
  done.
Qed.

(** ** [tcp_socket_connect] *)

Section Connect.
Context `{!Platform}.
Variables (n : nat) (eth ip tcp : addr).
#[local] Instance d5 : Dispatch := dispatch (S (S (S n))).

(** The connection an application opens, from the next sequence number. *)
Definition client_tcb (w : world) (p : tcp_priv_t) (args : addr) (cid remote_ip remote_port : Z)
    : transmission_control_block_t :=
  let iss := u32 (42 + (w_x w + 100)) in
  {| tcb_id := cid;
     tcb_remote_ipv4 := remote_ip;
     tcb_remote_port := remote_port;
     tcb_send_unacknowledged := 0;
     tcb_send_next := iss;
     tcb_send_window := 0;
     tcb_send_urgent_pointer := 0;
     tcb_send_initial_sequence_num := iss;
     tcb_send_last_update_sequence_num := 0;
     tcb_send_last_update_acknowledgement_num := 0;
     tcb_receive_next := 0;
     tcb_receive_window := u16 (tp_window p);
     tcb_receive_urgent_pointer := 0;
     tcb_receive_initial_sequence_num := 0;
     tcb_fin_num := 0;
     tcb_state := SYN_SENT;
     tcb_active_mode := true;
     tcb_active_mode_args := Some args;
     tcb_out_buffer := create_tcp_block_buffer raw_cells 10;
     tcb_in_buffer := create_tcp_block_buffer raw_cells 10;
     tcb_out_header := raw_tcb_header;
     tcb_after_header := raw_tcb_after_header;
     tcb_state_function := fn_tcp_syn_sent |}.

(** A socket with a free slot and no connection to the peer, and arguments that lead over
    IPv4 and Ethernet. *)
Record can_connect (w : world) (p : tcp_priv_t) (s : addr) (so : tcp_socket_t) (args : addr)
    (ca : socket_client_args) (e : ethernet_write_args_t) (ia : ipv4_write_args_t)
    (cid remote_ip remote_port : Z) : Prop := {
  cc_platform : platform_ok;
  cc_linked : linked w eth ip tcp;
  cc_next : ∀ a, is_Some (w_tcbs w !! a) → (a < w_next w)%nat;
  cc_handler : ∃ h, w_handlers w !! tcp = Some h ∧ h_priv h = PrivTcp p;
  cc_socket : w_sockets w !! s = Some so;
  cc_slots : slots_ok w (sock_trans_control_block so);
  cc_free : None ∈ sock_trans_control_block so;
  cc_cid : cid = tcp_shared_calculate_connection_id remote_ip remote_port (sock_port so);
  cc_new : holders w (sock_trans_control_block so) cid = [];
  cc_id : cid ≠ 0;
  cc_args : w_client_args w !! args = Some ca;
  cc_depth : sca_depth ca = 3;
  cc_length : length (sca_handler_args ca) = STACK_DEPTH;
  cc_eth : sca_handlers ca !! 0%nat = Some (Some eth);
  cc_ip : sca_handlers ca !! 1%nat = Some (Some ip);
  cc_arg_eth : sca_handler_args ca !! 0%nat = Some (ArgEthernet e);
  cc_arg_ip : sca_handler_args ca !! 1%nat = Some (ArgIpv4 ia);
  cc_arg_ok : is_u32 (iwa_destination_ip ia) ∧ is_u8 (iwa_protocol ia);
  cc_own : is_u32 (if_ipv4_addr (sock_interface so)) ∧ is_u32 (sock_ipv4 so) ∧ is_u16 (sock_port so);
  cc_peer : is_u32 remote_ip ∧ is_u16 remote_port
}.

(** The memory when the connection has been created. *)
Definition client_world (w : world) (p : tcp_priv_t) (args : addr) (cid remote_ip remote_port : Z)
    : world :=
  w <| w_x := w_x w + 100 |>
    <| w_tcbs ::= <[w_next w := client_tcb w p args cid remote_ip remote_port]> |>
    <| w_next := S (w_next w) |>.

Lemma client_tcb_created {B} w hd p args cid remote_ip remote_port header (k : addr → M world B) :
  w_handlers w !! tcp = Some hd → h_priv hd = PrivTcp p →
  header = {| th_source_port := remote_port; th_destination_port := 0; th_sequence_num := 0;
              th_acknowledgement_num := 0; th_data_offset := 0; th_control_bits := 0;
              th_window := 0; th_checksum := 0; th_urgent_pointer := 0 |} →
  bind (tcp_create_transmission_control_block tcp cid (Some header) remote_ip SYN_SENT)
    (λ tcb, update w_tcbs tcb (λ tcb, tcb <| tcb_active_mode := true |>
                                          <| tcb_active_mode_args := Some args |>);;; k tcb) w =
  k (w_next w) (client_world w p args cid remote_ip remote_port).
Proof.
  intros Hh Hp ->. unfold tcp_create_transmission_control_block.
  rewrite bind_assoc, (bind_load _ _ hd) by done.
  rewrite bind_assoc. erewrite bind_ok by reflexivity. unfold as_tcp_priv. rewrite Hp, bind_assoc, bind_ret_l.
  erewrite bind_ok by reflexivity. erewrite bind_update by apply lookup_insert_eq.
  unfold client_world, set_field. cbn [w_tcbs]. by rewrite insert_insert_eq.
Qed.

Lemma connect_sends_syn_ok w p s so args ca e ia cid local_port remote_ip remote_port :
  can_connect w p s so args ca e ia cid remote_ip remote_port →
  let a := w_next w in
  let t := client_tcb w p args cid remote_ip remote_port in
  let h := reply_header t so TCP_SYN_FLAG in
  ∃ bbo w', bb_repr bbo [] (S TCP_BLOCK_BUFFER_DEFAULT_SIZE) ∧
    tcp_socket_connect tcp s args local_port remote_ip remote_port w = Ok (cid, w') ∧
    w_wire w' = w_wire w ++ [control_frame (sock_interface so) e ia h] ∧
    w_tcbs w' = <[a := t <| tcb_out_header := h |> <| tcb_out_buffer := bbo |>
                         <| tcb_send_next ::= λ x, u32 (x + 1) |>]> (w_tcbs w) ∧
    w_sockets w' = <[s := so <| sock_trans_control_block ::= λ l, add_slot l a |>]> (w_sockets w) ∧
    tcp_get_transmission_control_block s cid w' = Ok (Some a, w').
Proof.
  intros [] a t h. destruct cc_handler0 as (hd & Hhd & Hp), cc_platform0 as (Hraw & Haft & Hck).
  destruct cc_arg_ok0, cc_own0 as (Hown & Hsip & Hport), cc_peer0. unfold STACK_DEPTH in *.
  set (arg := ArgTcp {| twa_connection_id := cid; twa_socket := Some s; twa_flags := TCP_SYN_FLAG |}).
  set (ca' := ca <| sca_handler_args := <[2%nat := arg]> (sca_handler_args ca) |>).
  set (po := {| ops_handlers := sca_handlers ca'; ops_args := sca_handler_args ca';
                ops_out_buffer := empty_out_buffer; ops_stack_idx := 2%nat |}).
  set (so' := so <| sock_trans_control_block ::= λ l, add_slot l a |>).
  set (w0 := client_world w p args cid remote_ip remote_port).
  set (w1 := w0 <| w_client_args ::= <[args := ca']> |> <| w_out_stacks ::= <[S a := po]> |>
                <| w_next := S (S a) |> <| w_sockets ::= <[s := so']> |>).
  destruct (slots_ok_add w w1 (sock_trans_control_block so) a t) as [Hsl1 Hhead1]; try done.
  destruct (control_write_ok n eth ip tcp (sock_interface so) w1 (S a) po e ia s so' a t
    TCP_BLOCK_BUFFER_DEFAULT_SIZE TCP_SYN_FLAG) as (p2 & bbo & Hbbo & Hw); try done.
  { by destruct cc_linked0. }
  { split; try done.
    - apply lookup_insert_eq.
    - simpl. rewrite list_lookup_insert_eq; [done|lia].
    - apply lookup_insert_eq.
    - apply lookup_insert_eq.
    - by apply create_repr. }
  { simpl. by rewrite list_lookup_insert_ne by lia. }
  { simpl. by rewrite list_lookup_insert_ne by lia. }
  { by apply out_header_ok. }
  exists bbo. eexists. split; [done|]. split; [|split; [|split; [|split]]].
  - unfold tcp_socket_connect. rewrite (bind_load _ _ so) by done. cbv zeta. rewrite <- cc_cid0.
    erewrite (client_tcb_created w hd p) by done. fold w0.
    rewrite (bind_store_client_args _ ca) by done. cbv zeta. fold arg. change (ca <| sca_handler_args ::= _ |>) with ca'.
    rewrite bind_top_of by done.
    erewrite bind_ok by reflexivity.
    unfold tcp_add_transmission_control_block. rewrite (bind_update _ _ _ so) by done.
    match goal with |- bind _ _ ?x = _ => change x with w1 end.
    rewrite (bind_ok _ _ _ _ _ Hw). cbn [negb].
    erewrite bind_update by apply lookup_insert_eq. reflexivity.
  - done.
  - simpl. by rewrite !insert_insert_eq.
  - done.
  - set (w2 := w1 <| w_tcbs ::= <[a := t <| tcb_out_header := h |> <| tcb_out_buffer := bbo |>
       <| tcb_send_next ::= λ x, u32 (x + 1) |>]> |>).
    assert (w_tcbs w1 !! a = Some t) as Ht1 by apply lookup_insert_eq.
    match goal with |- _ ?x = _ => set (w3 := x) end.
    assert (w_tcbs w3 = w_tcbs w2) as E by (simpl; by rewrite !insert_insert_eq).
    rewrite (get_tcb_spec w3 s so'); [|apply lookup_insert_eq|].
    + do 2 f_equal. rewrite <- Hhead1. change (tcb_id t) with cid.
      f_equal. by apply (holders_replace w1 w3 a t _ Ht1 E).
    + by apply (slots_ok_replace w1 w3 a _ E).
Qed.
End Connect.

(** C14: the start of an active open.  [tcp_socket_connect] returns the identifier of the new
    connection after writing exactly one frame, a SYN from the socket's port to the peer's
    with the connection's initial sequence number; the connection is then in a slot of the
    socket under its identifier, in SYN_SENT, with its own SYN counted as sent and both
    buffers empty. *)
Theorem connect_sends_syn `{!Platform} n eth ip tcp w p s so args ca e ia cid local_port remote_ip
    remote_port :
  can_connect eth ip tcp w p s so args ca e ia cid remote_ip remote_port →
  let iss := u32 (42 + (w_x w + 100)) in
  ∃ w' t' h,
    tcp_socket_connect (H0 := dispatch (S (S (S n)))) tcp s args local_port remote_ip remote_port w =
      Ok (cid, w') ∧
    w_wire w' = w_wire w ++ [control_frame (sock_interface so) e ia h] ∧
    (th_source_port h = sock_port so ∧ th_destination_port h = remote_port ∧
     th_control_bits h = TCP_SYN_FLAG ∧ th_sequence_num h = htonl iss) ∧
    tcp_get_transmission_control_block s cid w' = Ok (Some (w_next w), w') ∧
    w_tcbs w' = <[w_next w := t']> (w_tcbs w) ∧
    tcb_id t' = cid ∧ tcb_state t' = SYN_SENT ∧ tcb_state_function t' = fn_tcp_syn_sent ∧
    tcb_send_initial_sequence_num t' = iss ∧ tcb_send_next t' = u32 (iss + 1) ∧
    tcb_send_unacknowledged t' = 0 ∧ tcb_remote_ipv4 t' = remote_ip ∧ tcb_remote_port t' = remote_port ∧
    bb_repr (tcb_in_buffer t') [] (S TCP_BLOCK_BUFFER_DEFAULT_SIZE) ∧
    bb_repr (tcb_out_buffer t') [] (S TCP_BLOCK_BUFFER_DEFAULT_SIZE).
Proof.
  intros Hc iss. pose proof (cc_platform _ _ _ _ _ _ _ _ _ _ _ _ _ _ Hc) as (Hraw & _).
  destruct (connect_sends_syn_ok n eth ip tcp _ _ _ _ _ _ _ _ _ local_port _ _ Hc)
    as (bbo & w' & Hbbo & Hrun & Hwire & Htcb & _ & Hget).
  eexists w', _, _. split; [exact Hrun|]. split; [exact Hwire|]. split; [done|].
  split; [exact Hget|]. split; [exact Htcb|].
  repeat (split; [done|]). split; [|exact Hbbo]. by apply create_repr.
Qed.
