(* ===== verification/SendData.v ===== *)
(** * SendData: an application sends data on its connection

    [tcp_socket_send] through [tcp_write], the IPv4 and the Ethernet handler: what goes out,
    and what the checksum reads for it. *)

From S2P Require Import Prelude Headers Checksum ProtocolMap BlockBuffer State.
From S2P Require Import Ethernet Ipv4 TcpShared TcpSocket TcpStates Tcp TcpOutput Arp Llc Custom Stack.
From S2P Require Import Handshake.

(** ** The checksum over the copy of the header *)

(** With [size] bytes of data it runs over the header and this many bytes behind the copy; the
    data itself is not there. *)
Definition behind_header (size : Z) : Z := 2 * (size / 2).
Definition checksum_covered (t : transmission_control_block_t) (size : Z) : Prop :=
  behind_header size <= Z.of_nat (length (tcb_after_header t)).
#[export] Instance checksum_covered_dec t size : Decision (checksum_covered t size).
Proof. unfold checksum_covered. apply _. Defined.

Section ShortChecksum.
Lemma tcp_checksum_loop_short n m s : (length m < 2 * n)%nat → tcp_checksum_loop n m s = None.
Proof.
  revert m s. induction n as [|n IH]; intros m s Hl; [lia|].
  destruct m as [|b0 [|b1 m]]; [done|done|]. cbn [tcp_checksum_loop]. apply IH. simpl in Hl. lia.
Qed.

(** The header with the bytes behind it. *)
Lemma tcp_checksum_after_header h after sip dip size :
  tcp_header_t_ok h → th_data_offset h = 80 → bytes_ok after →
  is_u32 sip → is_u32 dip → 0 <= size <= 65515 →
  let r := _tcp_calculate_checksum (encode_tcp_header_t h ++ after) sip dip size in
  if decide (behind_header size <= Z.of_nat (length after)) then ∃ c, r = Some c ∧ is_u16 c else r = None.
Proof.
  intros Hok Hoff Ha Hs Hd Hsize r.
  assert (bytes_ok (encode_tcp_header_t h ++ after)) as Hb by (apply bytes_ok_app; [by apply encode_tcp_bytes_ok|done]).
  assert (length (encode_tcp_header_t h ++ after) = 20 + length after)%nat as Hl
    by (by rewrite length_app, length_encode_tcp).
  set (len := 20 + size).
  set (ph := {| ph_source_ip := sip; ph_destination_ip := dip; ph_zero := 0; ph_ptcl := 6;
                ph_tcp_length := ntohs len |}).
  assert (r = tcp_calculate_checksum ph (encode_tcp_header_t h ++ after)) as ->.
  { unfold r, _tcp_calculate_checksum.
    assert ((encode_tcp_header_t h ++ after) !! 12%nat = Some 80) as -> by (destruct h; simpl in *; by subst).
    cbn [mbind option_bind]. cbv zeta. unfold ph, len. do 2 f_equal. f_equal.
    change (u16 (Z.shiftr 80 4 * 4)) with 20. apply u16_id. range. }
  assert (ntohs (ph_tcp_length ph) = len) as Hlen by (apply ntohs_involutive; unfold len; range).
  assert (pseudo_header_ok ph) as Hph.
  { unfold pseudo_header_ok, ph. simpl. split_and!; [done|done|range|range|apply ntohs_range]. }
  unfold behind_header. case_decide.
  - rewrite tcp_checksum_value by (rewrite ?Hl, ?Hlen; unfold len; (done || lia)).
    eexists. split; [done|]. apply rfc1071_checksum_range, Forall_app. split; apply words16_range.
    + by apply encode_pseudo_ok.
    + by apply Forall_take.
  - unfold tcp_calculate_checksum. rewrite (tcp_checksum_loop_spec 6);
      [|by apply encode_pseudo_ok|simpl; lia|lia|lia].
    cbn [mbind option_bind]. rewrite Hlen, tcp_checksum_loop_short; [done|]. rewrite Hl. unfold len. lia.
Qed.
End ShortChecksum.

(** ** Data on its way down *)

(** The buffer of an out packet stack with data at its end. *)
Definition data_buffer (data : list Z) : out_buffer_t :=
  {| ob_size := DEFAULT_PACKAGE_BUFFER_SIZE;
     ob_offset := DEFAULT_PACKAGE_BUFFER_SIZE - Z.of_nat (length data); ob_data := data |}.

Section Data.
Context `{!Platform}.
Variables (n : nat) (eth ip tcp : addr) (i : interface_t).
Variables (p : out_packet_stack_t) (so : tcp_socket_t) (flags : Z) (t : transmission_control_block_t)
  (data : list Z).

(** What the connection and its addresses have to be for a segment with the data. *)
Record data_ready : Prop := {
  dr_buffer : ops_out_buffer p = data_buffer data;
  dr_data : bytes_ok data;
  dr_header : tcp_header_t_ok (tcp_out_header t (sock_port so) flags (Z.of_nat (length data)));
  dr_after : bytes_ok (tcb_after_header t);
  dr_addresses : is_u32 (sock_ipv4 so) ∧ is_u32 (tcb_remote_ipv4 t)
}.

Hypothesis Hd : data_ready.
Let size : Z := Z.of_nat (length data).

Lemma data_payload_size : payload_size p = size.
Proof. unfold payload_size. rewrite (dr_buffer Hd). simpl. lia. Qed.

Lemma data_checksum :
  size <= 65515 →
  if decide (checksum_covered t size) then ∃ c, written_checksum p so flags t = Some c ∧ is_u16 c
  else written_checksum p so flags t = None.
Proof.
  intros Hsize. pose proof data_payload_size as Hp. destruct Hd as [_ _ Hok ? []].
  assert (0 <= size) by (unfold size; lia).
  unfold written_checksum, written_header. rewrite Hp, u16_id by range.
  by apply tcp_checksum_after_header.
Qed.

Lemma data_transmits w ps e ia c :
  linked w eth ip tcp → ops_handlers p !! 0%nat = Some (Some eth) →
  ops_args p !! 0%nat = Some (ArgEthernet e) → ops_args p !! 1%nat = Some (ArgIpv4 ia) →
  is_u32 (iwa_destination_ip ia) ∧ is_u8 (iwa_protocol ia) → is_u32 (if_ipv4_addr i) →
  is_u16 c → size <= 65481 →
  let p' := sent_stack p 1 so flags t c in
  transmits (H := dispatch (S (S n))) ip i w ps p' (ip_frame e ia i (ob_data (ops_out_buffer p'))).
Proof.
  intros Hln Heth Hae Hai [Hdst Hpr] Hown Hcr Hsize p'.
  assert (tcp_header_t_ok (sent_header p so flags t c)) as Hok.
  { unfold sent_header, written_header. rewrite data_payload_size.
    destruct (dr_header Hd) as (? & ? & ? & ? & ? & ? & ? & _ & ?). by split_and!. }
  assert (ops_out_buffer p' = push_header (encode_tcp_header_t (sent_header p so flags t c)) (data_buffer data)) as Hb
    by (unfold p', sent_stack, set_field; simpl; by rewrite (dr_buffer Hd)).
  apply (ip_transmits n w eth ip tcp); try done; rewrite Hb.
  - apply push_header_ok; [unfold out_buffer_ok; simpl; unfold DEFAULT_PACKAGE_BUFFER_SIZE, size in *; lia|].
    rewrite length_encode_tcp. simpl. unfold DEFAULT_PACKAGE_BUFFER_SIZE, sizeof_tcp_header_t, size in *. lia.
  - unfold push_header, set_field. cbn [ob_offset data_buffer]. rewrite length_encode_tcp.
    unfold DEFAULT_PACKAGE_BUFFER_SIZE, sizeof_tcp_header_t, size in *. lia.
  - apply bytes_ok_app; [by apply encode_tcp_bytes_ok|apply Hd].
Qed.

(** What the checksum covers leaves at once. *)
Lemma data_write_ok w ps e ia s cid a m :
  linked w eth ip tcp → segment_ready w ps p 1 s so cid flags a t m ip →
  ops_handlers p !! 0%nat = Some (Some eth) →
  ops_args p !! 0%nat = Some (ArgEthernet e) → ops_args p !! 1%nat = Some (ArgIpv4 ia) →
  is_u32 (iwa_destination_ip ia) ∧ is_u8 (iwa_protocol ia) → is_u32 (if_ipv4_addr i) →
  size <= 65481 → checksum_covered t size → size <= ntohs (tcb_send_window t) →
  ∃ c p2 bb2, is_u16 c ∧ bb_repr bb2 [] (S m) ∧
    tcp_write (H0 := dispatch (S (S n))) ps i w =
    Ok (true, w <| w_tcbs ::= <[a := sent_tcb p so flags t c bb2]> |>
                <| w_out_stacks ::= <[ps := p2]> |>
                <| w_wire ::= λ l, l ++ [ip_frame e ia i
                     (encode_tcp_header_t (sent_header p so flags t c) ++ data)] |>).
Proof.
  intros Hln Hr Heth Hae Hai Harg Hown Hsize Hcov Hwin. pose proof data_checksum as Hck.
  assert (0 <= size) by (unfold size; lia).
  rewrite decide_True in Hck by exact Hcov. destruct Hck as (c & Hck & Hcr); [lia|].
  destruct (tcp_write_ready (H0 := dispatch (S (S n))) w ps i p 1 s so cid flags a t m ip c
    (ip_frame e ia i (encode_tcp_header_t (sent_header p so flags t c) ++ data))) as (p2 & bb2 & Hbb2 & Hw).
  - exact Hr.
  - exact Hck.
  - rewrite data_payload_size, u16_id by range. done.
  - assert (ob_data (ops_out_buffer (sent_stack p 1 so flags t c)) =
      encode_tcp_header_t (sent_header p so flags t c) ++ data) as <-
      by (unfold sent_stack, set_field; simpl; by rewrite (dr_buffer Hd)).
    by apply data_transmits.
  - by exists c, p2, bb2.
Qed.
End Data.

(** ** [tcp_socket_send] *)

Section Send.
Context `{!Platform}.
Variables (n : nat) (eth ip tcp : addr).
#[local] Instance d6 : Dispatch := dispatch (S (S (S n))).

(** A connection with nothing left to send, its arguments over IPv4 and Ethernet, and data. *)
Record can_send (w : world) (s : addr) (so : tcp_socket_t) (cid : Z) (a : addr)
    (t : transmission_control_block_t) (m : nat) (args : addr) (ca : socket_client_args)
    (e : ethernet_write_args_t) (ia : ipv4_write_args_t) (buffer : list Z) : Prop := {
  cs_linked : linked w eth ip tcp;
  cs_socket : w_sockets w !! s = Some so;
  cs_slots : slots_ok w (sock_trans_control_block so);
  cs_cid : cid ≠ 0;
  cs_found : head (holders w (sock_trans_control_block so) cid) = Some a;
  cs_alive : w_tcbs w !! a = Some t;
  cs_queue : bb_repr (tcb_out_buffer t) [] (S m);
  cs_mode : tcb_active_mode_args t = Some args;
  cs_after : bytes_ok (tcb_after_header t);
  cs_header : tcp_header_t_ok
    (tcp_out_header t (sock_port so) (Z.lor TCP_ACK_FLAG TCP_PSH_FLAG) (Z.of_nat (length buffer)));
  cs_addresses : is_u32 (sock_ipv4 so) ∧ is_u32 (tcb_remote_ipv4 t) ∧ is_u32 (if_ipv4_addr (sock_interface so));
  cs_args : w_client_args w !! args = Some ca;
  cs_depth : sca_depth ca = 3;
  cs_length : length (sca_handler_args ca) = STACK_DEPTH;
  cs_eth : sca_handlers ca !! 0%nat = Some (Some eth);
  cs_ip : sca_handlers ca !! 1%nat = Some (Some ip);
  cs_tcp : sca_handlers ca !! 2%nat = Some (Some tcp);
  cs_arg_eth : sca_handler_args ca !! 0%nat = Some (ArgEthernet e);
  cs_arg_ip : sca_handler_args ca !! 1%nat = Some (ArgIpv4 ia);
  cs_arg_ok : is_u32 (iwa_destination_ip ia) ∧ is_u8 (iwa_protocol ia);
  cs_data : bytes_ok buffer
}.

Context (w : world) (s : addr) (so : tcp_socket_t) (cid : Z) (a : addr)
  (t : transmission_control_block_t) (m : nat) (args : addr) (ca : socket_client_args)
  (e : ethernet_write_args_t) (ia : ipv4_write_args_t) (buffer : list Z).
Context (Hc : can_send w s so cid a t m args ca e ia buffer).

Definition send_flags : Z := Z.lor TCP_ACK_FLAG TCP_PSH_FLAG.
Definition send_size : Z := Z.of_nat (length buffer).
Definition send_args : socket_client_args :=
  ca <| sca_handler_args ::= <[2%nat := ArgTcp {| twa_connection_id := cid; twa_socket := Some s;
                                                 twa_flags := send_flags |}]> |>.
Definition send_stack : out_packet_stack_t :=
  {| ops_handlers := sca_handlers ca; ops_args := sca_handler_args send_args;
     ops_out_buffer := data_buffer buffer;
     ops_stack_idx := 2 |}.
Definition send_world : world :=
  w <| w_client_args ::= <[args := send_args]> |>
    <| w_out_stacks ::= <[w_next w := send_stack]> |> <| w_next := S (w_next w) |>.

(** Down to the call of the TCP handler. *)
Lemma tcp_socket_send_writes :
  send_size <= 65515 →
  tcp_socket_send s cid buffer w =
  tcp_write (H0 := dispatch (S (S n))) (w_next w) (sock_interface so) send_world.
Proof.
  intros Hsize. destruct Hc. unfold STACK_DEPTH in *. unfold tcp_socket_send.
  erewrite bind_ok; [|by apply (get_tcb_spec w s so)]. rewrite cs_found0. cbn [need].
  rewrite bind_ret_l, (bind_load _ _ t) by done. rewrite cs_mode0. cbn [need].
  rewrite bind_ret_l, (bind_load _ _ ca) by done.
  rewrite bind_top_of, (bind_need _ _ _ _ _ cs_tcp0), (bind_store_client_args _ ca) by done. cbv zeta.
  fold send_size. destruct (Z.ltb_spec DEFAULT_PACKAGE_BUFFER_SIZE send_size);
    [unfold DEFAULT_PACKAGE_BUFFER_SIZE in *; lia|].
  erewrite bind_ok by reflexivity. rewrite (bind_load _ _ so) by done. cbn [need]. rewrite bind_ret_l.
  destruct cs_linked0 as [_ _ (ht & Hht & Hkt)].
  cbn [d6 dispatch op_write]. rewrite (bind_load _ _ ht), Hkt by done. reflexivity.
Qed.

Lemma send_ready : send_size <= 65515 →
  segment_ready send_world (w_next w) send_stack 1 s so cid send_flags a t m ip.
Proof.
  intros Hsize. destruct Hc. unfold STACK_DEPTH in *. split; try done.
  - apply lookup_insert_eq.
  - simpl. rewrite list_lookup_insert_eq; [done|lia].
  - simpl. unfold DEFAULT_PACKAGE_BUFFER_SIZE, send_size in *. lia.
Qed.

Lemma send_data_ready : data_ready send_stack so send_flags t buffer.
Proof. destruct Hc. destruct cs_addresses0 as (? & ? & ?). by split. Qed.
End Send.

(** Without a checksum the write ends in the read behind the header. *)
Lemma tcp_write_no_checksum `{!Platform} `{!Dispatch} w ps i p k s so cid flags a t m next :
  segment_ready w ps p k s so cid flags a t m next → written_checksum p so flags t = None →
  tcp_write ps i w = Fault OutOfBounds.
Proof.
  intros [Hps Hidx Hargs Hnext Hroom Hcid Hs Hslots Hhead Ha Hq] Hc.
  unfold tcp_write. rewrite (bind_load _ _ p) by done.
  rewrite Hidx, (bind_need _ _ _ _ _ Hargs). rewrite bool_decide_eq_false_2 by done. cbv zeta.
  destruct (Z.ltb_spec (ob_offset (ops_out_buffer p)) (Z.of_nat sizeof_tcp_header_t));
    [unfold sizeof_tcp_header_t in *; lia|].
  unfold as_tcp_args. rewrite bind_ret_l. cbn [twa_socket twa_connection_id twa_flags].
  destruct (Z.eqb_spec cid 0); [done|].
  erewrite bind_ok; [|by apply (get_tcb_spec w s so)]. rewrite Hhead.
  rewrite (bind_load _ _ so) by done.
  apply bind_fault. unfold tcp_write_header. rewrite (bind_load _ _ t) by done. cbv zeta.
  apply bind_fault. unfold written_checksum, written_header, payload_size in Hc. by rewrite Hc.
Qed.

(** C10: sending application data.  With an empty out queue and a window that has room, data leaves
    at once as one frame: a segment with the ports of the connection, the next sequence number,
    ACK and PSH, and the data; the send sequence number advances by its size and nothing stays
    queued.  The checksum runs over the copy of the header in the connection, where the data is not,
    and over as many bytes behind it as there are bytes of data: up to 41 bytes stay in the 60
    bytes of [out_header], from 42 bytes on it reads behind them; that goes well as long as the
    memory there can be read, and is the fault otherwise. *)
Theorem application_data_sent `{!Platform} n eth ip tcp w s so cid a t m args ca e ia buffer :
  can_send eth ip tcp w s so cid a t m args ca e ia buffer →
  let size := Z.of_nat (length buffer) in
  (0 < size <= 65481 → checksum_covered t size → size <= ntohs (tcb_send_window t) →
   ∃ w' t' h,
     tcp_socket_send (H0 := dispatch (S (S (S n)))) s cid buffer w = Ok (true, w') ∧
     w_wire w' = w_wire w ++ [ip_frame e ia (sock_interface so) (encode_tcp_header_t h ++ buffer)] ∧
     (th_source_port h = sock_port so ∧ th_destination_port h = tcb_remote_port t ∧
      th_control_bits h = Z.lor TCP_ACK_FLAG TCP_PSH_FLAG ∧
      th_sequence_num h = htonl (tcb_send_next t) ∧
      th_acknowledgement_num h = htonl (tcb_receive_next t)) ∧
     w_tcbs w' = <[a := t']> (w_tcbs w) ∧ tcb_send_next t' = u32 (tcb_send_next t + size) ∧
     tcb_state t' = tcb_state t ∧ bb_repr (tcb_out_buffer t') [] (S m)) ∧
  (size <= 65515 → ¬ checksum_covered t size →
   tcp_socket_send (H0 := dispatch (S (S (S n)))) s cid buffer w = Fault OutOfBounds).
Proof.
  intros Hc size.
  pose proof (tcp_socket_send_writes n eth ip tcp w s so cid a t m args ca e ia buffer Hc) as Hsend.
  unfold send_size in Hsend. fold size in Hsend. change (d6 n) with (dispatch (S (S (S n)))) in Hsend. split.
  - intros Hsize Hcov Hwin.
    destruct (data_write_ok n eth ip tcp (sock_interface so) (send_stack s cid ca buffer) so send_flags t buffer
      (send_data_ready eth ip tcp w s so cid a t m args ca e ia buffer Hc)
      (send_world w s cid args ca buffer) (w_next w) e ia s cid a m) as (c & p2 & bb2 & Hcr & Hbb2 & Hw); try lia.
    + destruct (cs_linked _ _ _ _ _ _ _ _ _ _ _ _ _ _ _ Hc). by split.
    + apply (send_ready eth ip tcp w s so cid a t m args ca e ia buffer Hc). unfold send_size. lia.
    + apply Hc.
    + simpl. rewrite list_lookup_insert_ne by lia. apply Hc.
    + simpl. rewrite list_lookup_insert_ne by lia. apply Hc.
    + apply Hc.
    + apply (cs_addresses _ _ _ _ _ _ _ _ _ _ _ _ _ _ _ Hc).
    + exact Hcov.
    + assert (payload_size (send_stack s cid ca buffer) = size) as Hpay
        by (eapply data_payload_size, send_data_ready; exact Hc).
      eexists _, _, _. split; [|split; [|split; [|split]]].
      * exact (eq_trans (Hsend ltac:(lia)) Hw).
      * reflexivity.
      * unfold sent_header, written_header. rewrite Hpay. unfold tcp_out_header, set_field. simpl.
        destruct (Z.eqb_spec size 0); [lia|]. done.
      * reflexivity.
      * unfold sent_tcb. rewrite Hpay. destruct (Z.eqb_spec size 0); [lia|]. done.
  - intros Hsize Hcov.
    refine (eq_trans (Hsend ltac:(lia)) _).
    eapply tcp_write_no_checksum.
    + apply (send_ready eth ip tcp w s so cid a t m args ca e ia buffer Hc). unfold send_size; lia.
    + pose proof (data_checksum (send_stack s cid ca buffer) so send_flags t buffer
        (send_data_ready eth ip tcp w s so cid a t m args ca e ia buffer Hc)) as Hck. cbv zeta in Hck.
      fold size in Hck. rewrite decide_False in Hck by exact Hcov. apply Hck. lia.
Qed.
