(* ===== verification/Serve.v ===== *)
(** * Serve: a request and its answer

    A server as [server.c] outlines it: the next handler of the socket is the custom handler, which
    answers every packet with predefined data.  What goes out for the data frames of an open
    connection, and when the answer reads behind the memory of the connection. *)

From S2P Require Import Prelude Headers Checksum ProtocolMap BlockBuffer State.
From S2P Require Import Ethernet Ipv4 TcpShared TcpSocket TcpStates Tcp TcpOutput Arp Llc Custom Stack.
From S2P Require Import Handshake Transfer Delivery Refuse Stream SendData.


Section Serve.
Context `{!Platform}.
Variables (k : nat) (eth ip tcp : addr) (i : interface_t) (port : Z) (p : tcp_priv_t).
Variables (s : addr) (so : tcp_socket_t) (a custom : addr) (response : list Z).
Abbreviation opened := (receiving_connection eth ip tcp i port p s so a).









(** ** Requests *)






(** *** One after the other *)




End Serve.

