(* ===== verification/Session.v ===== *)
(** * Session: from the first SYN to the last answer

    The passive open of [Delivery.v] ends where the server of [Serve.v] begins. *)

From S2P Require Import Prelude Headers Checksum ProtocolMap BlockBuffer State.
From S2P Require Import Ethernet Ipv4 TcpShared TcpSocket TcpStates Tcp TcpOutput Arp Llc Custom Stack.
From S2P Require Import Handshake Transfer Delivery Refuse Stream SendData Serve.

Section Session.
Context `{!Platform}.
Variables (n : nat) (eth ip tcp : addr) (i : interface_t) (port : Z) (p : tcp_priv_t) (s : addr).
#[local] Instance d11 : Dispatch := dispatch (S (S (S n))).



(** ** The first two frames *)



End Session.

