(* ===== verification/Lifecycle.v ===== *)
(** * Lifecycle: the states a connection goes through

    An abstract machine of the TCP states the code can move between, and the proof that
    every operation of the stack, for every frame and every way the handlers are
    linked, moves each connection along it.  [Evolving] is the interface between the
    layers: what a handler promises about its [read] and [write] to the one that calls
    it. *)

From stdpp Require Import relations.
From S2P Require Import Prelude Headers Checksum ProtocolMap BlockBuffer State.
From S2P Require Import Ethernet Ipv4 TcpShared TcpSocket TcpStates Tcp Arp Llc Custom Stack.

(** ** The abstract machine *)

Inductive tcp_transition : TCP_STATE → TCP_STATE → Prop :=
  | receive_syn : tcp_transition LISTEN SYN_RECEIVED
  | receive_syn_ack : tcp_transition SYN_SENT ESTABLISHED
  | simultaneous_open : tcp_transition SYN_SENT SYN_RECEIVED
  | receive_ack_of_syn : tcp_transition SYN_RECEIVED ESTABLISHED
  | receive_fin : tcp_transition ESTABLISHED CLOSE_WAIT.

(** The states connections are created in and the ones the machine reaches from them. *)
Definition reachable_state (s : TCP_STATE) : Prop :=
  rtc tcp_transition LISTEN s ∨ rtc tcp_transition SYN_SENT s.

Section Machine.
(** A state is reachable iff it is one of five. *)
Definition live_state (s : TCP_STATE) : bool :=
  match s with
  | LISTEN | SYN_SENT | SYN_RECEIVED | ESTABLISHED | CLOSE_WAIT => true
  | _ => false
  end.

Lemma live_state_step s s' : live_state s = true → rtc tcp_transition s s' → live_state s' = true.
Proof. intros Hs. induction 1 as [|s s' s'' H _ IH]; [done|]. apply IH. by destruct H. Qed.

Lemma reachable_live s : reachable_state s ↔ live_state s = true.
Proof.
  split.
  - by intros [H|H]; eapply live_state_step; eauto.
  - assert (rtc tcp_transition LISTEN SYN_RECEIVED) as H1 by (apply rtc_once; constructor).
    assert (rtc tcp_transition LISTEN ESTABLISHED) as H2
      by (eapply rtc_r; [done|constructor]).
    assert (rtc tcp_transition LISTEN CLOSE_WAIT) as H3
      by (eapply rtc_r; [done|constructor]).
    unfold reachable_state. destruct s; try done; intros _; auto using rtc_refl.
Qed.

(** From [ESTABLISHED] only [CLOSE_WAIT] is left. *)
Lemma established_step s : rtc tcp_transition ESTABLISHED s → s = ESTABLISHED ∨ s = CLOSE_WAIT.
Proof.
  intros H. apply rtc_inv in H as [->|(s' & H1 & H2)]; [by left|].
  inversion H1; subst. apply rtc_inv in H2 as [->|(s'' & H3 & _)]; [by right|inversion H3].
Qed.
End Machine.

(** ** One connection, and the memory *)

Record tcb_inv (t : transmission_control_block_t) : Prop := {
  inv_state : reachable_state (tcb_state t);
  inv_function : tcb_state_function t = initial_state_function (tcb_state t);
  inv_fin_num : tcb_fin_num t = 0;
  inv_initial : is_u32 (tcb_send_initial_sequence_num t);
  inv_send_next : is_u32 (tcb_send_next t);
  inv_receive_next : is_u32 (tcb_receive_next t);
  inv_receive_window : is_u16 (tcb_receive_window t)
}.

(** What later operations may change of a connection. *)
Record tcb_step (t t' : transmission_control_block_t) : Prop := {
  step_id : tcb_id t' = tcb_id t;
  step_remote_ipv4 : tcb_remote_ipv4 t' = tcb_remote_ipv4 t;
  step_remote_port : tcb_remote_port t' = tcb_remote_port t;
  step_initial : tcb_send_initial_sequence_num t' = tcb_send_initial_sequence_num t;
  step_state : rtc tcp_transition (tcb_state t) (tcb_state t')
}.

#[export] Instance tcb_step_preorder : PreOrder tcb_step.
Proof.
  split.
  - by intros t.
  - intros t t' t'' [] []. split; try congruence. by etrans.
Qed.

Record world_inv (w : world) : Prop := {
  inv_tcbs : map_Forall (λ _ t, tcb_inv t) (w_tcbs w);
  inv_next : ∀ a, is_Some (w_tcbs w !! a) → (a < w_next w)%nat
}.

Record world_step (w w' : world) : Prop := {
  step_next : (w_next w <= w_next w')%nat;
  step_gone : ∀ a, (a < w_next w)%nat → w_tcbs w !! a = None → w_tcbs w' !! a = None;
  step_tcbs : ∀ a t t', w_tcbs w !! a = Some t → w_tcbs w' !! a = Some t' → tcb_step t t'
}.

Lemma world_step_refl w : world_step w w.
Proof. split; [lia|done|]. intros a t t' H H'. by simplify_eq. Qed.

Lemma world_step_trans w w' w'' :
  world_inv w → world_step w w' → world_step w' w'' → world_step w w''.
Proof.
  intros [_ Hn] [H1 H2 H3] [H4 H5 H6]. split; [lia| |].
  - intros a Ha Hw. apply H5; [lia|]. by apply H2.
  - intros a t t'' Ht Ht''. destruct (w_tcbs w' !! a) as [t'|] eqn:Ht'.
    + etrans; eauto.
    + assert (a < w_next w)%nat by eauto. rewrite (H5 a) in Ht''; [done|lia|done].
Qed.

(** A computation that keeps the invariant and moves connections along the machine. *)
Definition evolves {A} (m : M world A) : Prop :=
  ∀ w, world_inv w → wlp m (λ _ w', world_inv w' ∧ world_step w w') w.

Class Evolving (d : Dispatch) : Prop := {
  evolving_write handler packet_stack interface :
    evolves (op_write handler packet_stack interface);
  evolving_read packet_stack interface handler :
    evolves (op_read packet_stack interface handler)
}.

Section Evolves.
(** The general rule of sequencing: the second part runs from a world that is a step
    later. *)
Lemma evolves_bind_at {A B} (m : M world A) (k : A → M world B) w :
  world_inv w →
  wlp m (λ a w', (world_inv w' ∧ world_step w w') ∧
    wlp (k a) (λ _ w'', world_inv w'' ∧ world_step w' w'') w') w →
  wlp (bind m k) (λ _ w'', world_inv w'' ∧ world_step w w'') w.
Proof.
  intros Hw H. apply wlp_bind. eapply wlp_mono; [exact H|].
  intros a w' [[Hi Hs] Hk]. eapply wlp_mono; [exact Hk|].
  intros b w'' [Hi' Hs']. split; [done|]. eauto using world_step_trans.
Qed.

Lemma evolves_bind {A B} (m : M world A) (k : A → M world B) :
  evolves m → (∀ a, evolves (k a)) → evolves (bind m k).
Proof.
  intros Hm Hk w Hw. apply evolves_bind_at; [done|].
  eapply wlp_mono; [by apply Hm|]. intros a w' [Hi Hs]. split; [done|]. by apply Hk.
Qed.

Lemma evolves_bind_post {A B} (P : A → Prop) (m : M world A) (k : A → M world B) :
  evolves m → (∀ w, wlp m (λ a _, P a) w) → (∀ a, P a → evolves (k a)) → evolves (bind m k).
Proof.
  intros Hm HP Hk w Hw. apply evolves_bind_at; [done|]. specialize (Hm w Hw). specialize (HP w).
  unfold wlp in *. destruct (m w) as [[a w']| |]; try done. split; [done|].
  apply Hk; [done|]. apply Hm.
Qed.

Lemma evolves_ret {A} (a : A) : evolves (ret a).
Proof. intros w Hw. apply wlp_ret. split; [done|apply world_step_refl]. Qed.
Lemma evolves_fail {A} f : evolves (fail f : M world A).
Proof. done. Qed.
Lemma evolves_no_fuel {A} : evolves (no_fuel : M world A).
Proof. done. Qed.
Lemma evolves_need {A} f (o : option A) : evolves (need f o).
Proof. destruct o; [apply evolves_ret|apply evolves_fail]. Qed.
Lemma evolves_lift {A} (o : outcome A) : evolves (lift_outcome o).
Proof. destruct o; [apply evolves_ret|done..]. Qed.
Lemma evolves_get : evolves get.
Proof. intros w Hw. split; [done|apply world_step_refl]. Qed.
Lemma evolves_when b m : evolves m → evolves (when b m).
Proof. destruct b; [done|]. intros. apply evolves_ret. Qed.
Lemma evolves_if {A} (b : bool) (m m' : M world A) :
  evolves m → evolves m' → evolves (if b then m else m').
Proof. by destruct b. Qed.

Lemma evolves_load {T} (store : world → gmap addr T) a : evolves (load store a).
Proof. intros w Hw. apply wlp_load. intros x _. split; [done|apply world_step_refl]. Qed.

(** A change of the memory that is not about connections. *)
Lemma evolves_modify f :
  (∀ w, w_tcbs (f w) = w_tcbs w) → (∀ w, w_next (f w) = w_next w) → evolves (modify f).
Proof.
  intros Ht Hn w [Hi Hb]. apply wlp_modify. split; split; rewrite ?Ht, ?Hn; auto.
  intros a t t' H H'. by simplify_eq.
Qed.
Lemma evolves_update {T} (store : world → gmap addr T) `{!Setter store} a f :
  (∀ g w, w_tcbs (w <| store ::= g |>) = w_tcbs w) →
  (∀ g w, w_next (w <| store ::= g |>) = w_next w) → evolves (update store a f).
Proof.
  intros Ht Hn w Hw. apply wlp_update. intros x _.
  by apply (evolves_modify (λ w, w <| store ::= <[a := f x]> |>)).
Qed.
Lemma evolves_free {T} (store : world → gmap addr T) `{!Setter store} a :
  (∀ g w, w_tcbs (w <| store ::= g |>) = w_tcbs w) →
  (∀ g w, w_next (w <| store ::= g |>) = w_next w) → evolves (free store a).
Proof.
  intros Ht Hn w Hw. unfold free, wlp. destruct (store w !! a); [|done].
  by apply (evolves_modify (λ w, w <| store ::= delete a |>)).
Qed.
Lemma evolves_alloc {T} (store : world → gmap addr T) `{!Setter store} x :
  (∀ g w, w_tcbs (w <| store ::= g |>) = w_tcbs w) →
  (∀ g w, w_next (w <| store ::= g |>) = w_next w) → evolves (alloc store x).
Proof.
  intros Ht Hn w [Hi Hb]. unfold alloc, wlp. split; split; simpl.
  - by rewrite Ht.
  - intros a. rewrite Ht. intros Ha. specialize (Hb a Ha). lia.
  - lia.
  - intros a _. by rewrite Ht.
  - intros a t t'. rewrite Ht. intros H H'. by simplify_eq.
Qed.

(** The connections themselves. *)
Lemma tcb_update_at w a t f :
  world_inv w → w_tcbs w !! a = Some t → tcb_inv (f t) → tcb_step t (f t) →
  wlp (update w_tcbs a f) (λ _ w', world_inv w' ∧ world_step w w') w.
Proof.
  intros [Hi Hb] Ht Hf Hs. apply wlp_update. intros t0 Ht0. simplify_eq. split; split; simpl.
  - by apply map_Forall_insert_2.
  - intros b [x Hx]. destruct (decide (a = b)) as [->|Hne]; [eauto|].
    rewrite lookup_insert_ne in Hx by done. eauto.
  - done.
  - intros b Hb' Hn. rewrite lookup_insert_ne; [done|]. intros ->. by simplify_eq.
  - intros b u u' Hu Hu'. destruct (decide (a = b)) as [->|Hne].
    + rewrite lookup_insert_eq in Hu'. by simplify_eq.
    + rewrite lookup_insert_ne in Hu' by done. by simplify_eq.
Qed.

Lemma evolves_update_tcb a f :
  (∀ t, tcb_inv t → tcb_inv (f t) ∧ tcb_step t (f t)) → evolves (update w_tcbs a f).
Proof.
  intros Hf w Hw. destruct (w_tcbs w !! a) as [t|] eqn:Ht.
  - destruct (Hf t); [by apply (inv_tcbs w Hw a)|]. by eapply tcb_update_at.
  - unfold wlp, update. by rewrite Ht.
Qed.

Lemma evolves_free_tcb a : evolves (free w_tcbs a).
Proof.
  intros w [Hi Hb]. unfold free, wlp. destruct (w_tcbs w !! a) as [t|] eqn:Ht; [|done].
  split; split; simpl.
  - by apply map_Forall_delete.
  - intros b [x Hx]. apply lookup_delete_Some in Hx as [_ Hx]. eauto.
  - done.
  - intros b _ Hn. rewrite lookup_delete_None. by right.
  - intros b u u' Hu Hu'. apply lookup_delete_Some in Hu' as [_ Hu']. by simplify_eq.
Qed.

Lemma evolves_alloc_tcb t : tcb_inv t → evolves (alloc w_tcbs t).
Proof.
  intros Ht w [Hi Hb]. unfold alloc, wlp. split; split; simpl.
  - by apply map_Forall_insert_2.
  - intros b [x Hx]. destruct (decide (w_next w = b)) as [<-|Hne]; [lia|].
    rewrite lookup_insert_ne in Hx by done. assert (b < w_next w)%nat by eauto. lia.
  - lia.
  - intros b Hb' Hn. rewrite lookup_insert_ne; [done|lia].
  - intros b u u' Hu Hu'. destruct (decide (w_next w = b)) as [<-|Hne].
    + assert (w_next w < w_next w)%nat by eauto. lia.
    + rewrite lookup_insert_ne in Hu' by done. by simplify_eq.
Qed.

(** A connection that was there before a step. *)
Lemma step_at_least w w' a s :
  world_step w w' → world_inv w →
  (∀ t, w_tcbs w !! a = Some t → rtc tcp_transition s (tcb_state t)) → is_Some (w_tcbs w !! a) →
  ∀ t, w_tcbs w' !! a = Some t → rtc tcp_transition s (tcb_state t).
Proof.
  intros Hs Hi H [t0 Ht0] t Ht. etrans; [by apply H|].
  exact (step_state _ _ (step_tcbs _ _ Hs _ _ _ Ht0 Ht)).
Qed.
End Evolves.

(** The same from the worlds where [P] holds, and the two facts about a connection the
    state functions rely on: its state now, and a state it had before. *)
Definition evolves_from {A} (P : world → Prop) (m : M world A) : Prop :=
  ∀ w, world_inv w → P w → wlp m (λ _ w', world_inv w' ∧ world_step w w') w.

Definition in_state (a : addr) (s : TCP_STATE) (w : world) : Prop :=
  ∃ t, w_tcbs w !! a = Some t ∧ tcb_state t = s.
Definition past_state (a : addr) (s : TCP_STATE) (w : world) : Prop :=
  (a < w_next w)%nat ∧ ∀ t, w_tcbs w !! a = Some t → rtc tcp_transition s (tcb_state t).

(** A computation that changes nothing. *)
Definition reads {A} (m : M world A) : Prop := ∀ w, wlp m (λ _ w', w' = w) w.

Section EvolvesFrom.
Lemma in_state_past a s w : world_inv w → in_state a s w → past_state a s w.
Proof.
  intros Hi (t & Ht & <-). split; [by eapply (inv_next w Hi)|].
  intros u Hu. by simplify_eq.
Qed.

Lemma past_state_step a s w w' : world_step w w' → past_state a s w → past_state a s w'.
Proof.
  intros Hs [Ha Hp]. split; [pose proof (step_next w w' Hs); lia|]. intros t Ht.
  destruct (w_tcbs w !! a) as [t0|] eqn:Ht0.
  - etrans; [by apply Hp|]. exact (step_state _ _ (step_tcbs _ _ Hs _ _ _ Ht0 Ht)).
  - rewrite (step_gone w w' Hs a Ha Ht0) in Ht. done.
Qed.

Lemma evolves_weaken {A} P (m : M world A) : evolves m → evolves_from P m.
Proof. intros H w Hw _. by apply H. Qed.

Lemma evolves_from_mono {A} (P Q : world → Prop) (m : M world A) :
  (∀ w, world_inv w → P w → Q w) → evolves_from Q m → evolves_from P m.
Proof. intros HPQ H w Hw HP. auto. Qed.

Lemma evolves_from_past {A B} a s (m : M world A) (k : A → M world B) :
  evolves_from (past_state a s) m → (∀ x, evolves_from (past_state a s) (k x)) →
  evolves_from (past_state a s) (bind m k).
Proof.
  intros Hm Hk w Hw HP. apply evolves_bind_at; [done|].
  eapply wlp_mono; [by apply Hm|]. intros x w' [Hi Hs]. split; [done|].
  apply Hk; [done|]. by eapply past_state_step.
Qed.

Lemma evolves_from_reads {A B} P (m : M world A) (k : A → M world B) :
  reads m → (∀ x, evolves_from P (k x)) → evolves_from P (bind m k).
Proof.
  intros Hm Hk w Hw HP. apply wlp_bind. eapply wlp_mono; [apply Hm|].
  intros x w' ->. by apply Hk.
Qed.

(** Reading a connection gives its state. *)
Lemma evolves_load_tcb {B} a (k : _ → M world B) :
  (∀ t, tcb_inv t → evolves_from (in_state a (tcb_state t)) (k t)) →
  evolves (bind (load w_tcbs a) k).
Proof.
  intros Hk w Hw. apply wlp_bind, wlp_load. intros t Ht.
  apply Hk; [by apply (inv_tcbs w Hw a)|done|]. by exists t.
Qed.

Lemma in_state_first {A B} a s (m : M world A) (k : A → M world B) :
  evolves_from (in_state a s) m → (∀ x, evolves_from (past_state a s) (k x)) →
  evolves_from (in_state a s) (bind m k).
Proof.
  intros Hm Hk w Hw HP. apply evolves_bind_at; [done|].
  eapply wlp_mono; [by apply Hm|]. intros x w' [Hi Hs]. split; [done|].
  apply Hk; [done|]. eapply past_state_step; [done|]. by apply in_state_past.
Qed.

Lemma evolves_update_in a s f :
  (∀ t, tcb_inv t → tcb_state t = s → tcb_inv (f t) ∧ tcb_step t (f t)) →
  evolves_from (in_state a s) (update w_tcbs a f).
Proof.
  intros Hf w Hw (t & Ht & Hs). destruct (Hf t); [by apply (inv_tcbs w Hw a)|done|].
  by eapply tcb_update_at.
Qed.

Lemma evolves_update_past a s f :
  (∀ t, tcb_inv t → rtc tcp_transition s (tcb_state t) → tcb_inv (f t) ∧ tcb_step t (f t)) →
  evolves_from (past_state a s) (update w_tcbs a f).
Proof.
  intros Hf w Hw [_ Hp]. destruct (w_tcbs w !! a) as [t|] eqn:Ht.
  - destruct (Hf t); [by apply (inv_tcbs w Hw a)|by apply Hp|]. by eapply tcb_update_at.
  - unfold wlp, update. by rewrite Ht.
Qed.

Lemma in_state_keep {B} a s f (k : unit → M world B) :
  (∀ t, tcb_state (f t) = tcb_state t) →
  (∀ t, tcb_inv t → tcb_inv (f t) ∧ tcb_step t (f t)) →
  (∀ x, evolves_from (in_state a s) (k x)) →
  evolves_from (in_state a s) (bind (update w_tcbs a f) k).
Proof.
  intros Hf Hi Hk w Hw (u & Hu & Hs). apply evolves_bind_at; [done|].
  destruct (Hi u) as [H1 H2]; [by apply (inv_tcbs w Hw a)|].
  pose proof (tcb_update_at w a u f Hw Hu H1 H2) as Ht.
  unfold wlp, update in *. rewrite Hu in *. split; [done|].
  apply Hk; [apply Ht|]. exists (f u). simpl. rewrite lookup_insert_eq.
  split; [done|]. by rewrite Hf.
Qed.
Lemma in_state_keep_when {B} b a s f (k : unit → M world B) :
  (∀ t, tcb_state (f t) = tcb_state t) →
  (∀ t, tcb_inv t → tcb_inv (f t) ∧ tcb_step t (f t)) →
  (∀ x, evolves_from (in_state a s) (k x)) →
  evolves_from (in_state a s) (bind (when b (update w_tcbs a f)) k).
Proof. destruct b; [apply in_state_keep|]. intros _ _ Hk. apply Hk. Qed.

Lemma reads_bind {A B} (m : M world A) (k : A → M world B) :
  reads m → (∀ x, reads (k x)) → reads (bind m k).
Proof.
  intros Hm Hk w. apply wlp_bind. eapply wlp_mono; [apply Hm|]. intros x w' ->. apply Hk.
Qed.
Lemma reads_ret {A} (x : A) : reads (ret x).
Proof. by intros w. Qed.
Lemma reads_fail {A} f : reads (fail f : M world A).
Proof. by intros w. Qed.
Lemma reads_need {A} f (o : option A) : reads (need f o).
Proof. by destruct o. Qed.
Lemma reads_lift {A} (o : outcome A) : reads (lift_outcome o).
Proof. by destruct o. Qed.
Lemma reads_load {T} (store : world → gmap addr T) a : reads (load store a).
Proof. intros w. by apply wlp_load. Qed.
End EvolvesFrom.

Ltac reads :=
  repeat match goal with
  | |- reads (bind _ _) => apply reads_bind; [|intros ?]
  | |- reads (ret _) => apply reads_ret
  | |- reads (fail _) => apply reads_fail
  | |- reads (need _ _) => apply reads_need
  | |- reads (lift_outcome _) => apply reads_lift
  | |- reads (load _ _) => apply reads_load
  | |- reads (match ?x with _ => _ end) => destruct x
  end; try done.

(** Rules for the operations on memory and control flow; [evolve] applies them and the
    hints for the functions of the program. *)
Ltac evolve_step :=
  match goal with
  | |- evolves (bind _ _) => apply evolves_bind; [|intros ?]
  | |- evolves (ret _) => apply evolves_ret
  | |- evolves (fail _) => apply evolves_fail
  | |- evolves no_fuel => apply evolves_no_fuel
  | |- evolves (need _ _) => apply evolves_need
  | |- evolves (lift_outcome _) => apply evolves_lift
  | |- evolves get => apply evolves_get
  | |- evolves (load _ _) => apply evolves_load
  | |- evolves (when _ _) => apply evolves_when
  | |- evolves (if _ then _ else _) => apply evolves_if
  | |- evolves (modify _) => apply evolves_modify; done
  | |- evolves (free w_tcbs _) => apply evolves_free_tcb
  | |- evolves (update w_tcbs _ _) => apply evolves_update_tcb
  | |- evolves (update _ _ _) => apply evolves_update; done
  | |- evolves (alloc w_tcbs _) => apply evolves_alloc_tcb
  | |- evolves (alloc _ _) => apply evolves_alloc; done
  | |- evolves (free _ _) => apply evolves_free; done
  | |- evolves (match ?x with _ => _ end) => destruct x
  | |- evolves (let _ := _ in _) => cbv zeta
  end.
Ltac evolve := repeat (evolve_step || solve [eauto with evolve]).

Create HintDb evolve.
#[export] Hint Resolve evolving_write evolving_read : evolve.

(** An update of the fields that [tcb_step] and the coupling of state and function do
    not speak of. *)
Ltac tcb_update :=
  let t := fresh in let H := fresh in
  intros t H; destruct H; split; [split|split]; simpl; try done; eauto with net.

Section Operations.
Context `{!Platform} {d : Dispatch} `{!Evolving d}.

Lemma handler_write_evolves b i : evolves (handler_write b i).
Proof. unfold handler_write. evolve. Qed.
Lemma callback_evolves f : evolves (callback f).
Proof. unfold callback. evolve. Qed.
#[local] Hint Resolve handler_write_evolves callback_evolves : evolve.

Lemma write_down_evolves ps i : evolves (write_down ps i).
Proof. unfold write_down. evolve. Qed.
Lemma out_stack_evolves ps n : evolves (handler_create_out_package_stack ps n).
Proof. unfold handler_create_out_package_stack. evolve. Qed.
Lemma packet_at_evolves ps n : evolves (packet_at ps n).
Proof. unfold packet_at. evolve. Qed.
Lemma cast_evolves {T} (f : list Z → option T) m : evolves (cast f m).
Proof. unfold cast. evolve. Qed.
#[local] Hint Resolve write_down_evolves out_stack_evolves packet_at_evolves cast_evolves : evolve.

Lemma ethernet_evolves ps i h : evolves (ethernet_write ps i) ∧ evolves (ethernet_read ps i h).
Proof.
  split; unfold ethernet_write, ethernet_read, as_ethernet_args, ethernet_get_handler; evolve.
Qed.
Lemma ipv4_evolves ps i h : evolves (ipv4_write ps i) ∧ evolves (ipv4_read ps i h).
Proof. split; unfold ipv4_write, ipv4_read, as_ipv4_args, ipv4_get_handler; evolve. Qed.
Lemma llc_evolves ps i h : evolves (llc_write ps i) ∧ evolves (llc_read ps i h).
Proof. split; unfold llc_write, llc_read, as_llc_args, llc_get_handler; evolve. Qed.
Lemma custom_evolves ps i h : evolves (custom_write ps i) ∧ evolves (custom_read ps i h).
Proof. split; unfold custom_write, custom_read, as_custom_priv; evolve. Qed.
Lemma arp_evolves ps i h : evolves (arp_write ps i) ∧ evolves (arp_read ps i h).
Proof.
  split; unfold arp_write, arp_read, arp_read_socket, arp_read_packet, as_arp_args, as_arp_priv;
    evolve.
Qed.

Lemma as_tcp_priv_evolves h : evolves (as_tcp_priv h).
Proof. unfold as_tcp_priv. evolve. Qed.
Lemma as_tcp_args_evolves a : evolves (as_tcp_args a).
Proof. unfold as_tcp_args. evolve. Qed.
#[local] Hint Resolve as_tcp_priv_evolves as_tcp_args_evolves : evolve.

Lemma find_tcb_evolves slots id : evolves (find_tcb slots id).
Proof. induction slots as [|[a|] slots IH]; simpl; evolve. Qed.
Lemma free_connection_evolves a : evolves (delete_transmission_control_block a).
Proof. unfold delete_transmission_control_block. evolve. Qed.
#[local] Hint Resolve free_connection_evolves : evolve.
Lemma delete_tcbs_evolves slots id : evolves (delete_tcbs slots id).
Proof. induction slots as [|[a|] slots IH]; simpl; evolve. Qed.
Lemma find_socket_evolves l ip port : evolves (find_socket l ip port).
Proof. induction l as [|[a|] l IH]; simpl; evolve. Qed.
#[local] Hint Resolve find_tcb_evolves delete_tcbs_evolves find_socket_evolves : evolve.

Lemma get_tcb_evolves s id : evolves (tcp_get_transmission_control_block s id).
Proof. unfold tcp_get_transmission_control_block. evolve. Qed.
Lemma delete_tcb_evolves s id : evolves (tcp_delete_transmission_control_block s id).
Proof. unfold tcp_delete_transmission_control_block. evolve. Qed.
Lemma add_tcb_evolves s a : evolves (tcp_add_transmission_control_block s a).
Proof. unfold tcp_add_transmission_control_block. evolve. Qed.
Lemma get_socket_evolves h ip port : evolves (tcp_get_socket h ip port).
Proof. unfold tcp_get_socket. evolve. Qed.
#[local] Hint Resolve get_tcb_evolves delete_tcb_evolves add_tcb_evolves get_socket_evolves
  : evolve.

Lemma create_tcb_evolves handler id header ip state :
  state = LISTEN ∨ state = SYN_SENT →
  evolves (tcp_create_transmission_control_block handler id header ip state).
Proof.
  intros Hs. unfold tcp_create_transmission_control_block.
  apply evolves_bind; [evolve|intros h].
  apply (evolves_bind_post is_u32).
  - unfold tcp_shared_generate_sequence_number. evolve.
  - intros w. unfold tcp_shared_generate_sequence_number, wlp, bind, modify, get, ret. simpl.
    auto with net.
  - intros iss Hiss. apply evolves_bind; [evolve|intros priv]. apply evolves_alloc_tcb.
    split; simpl; auto with net.
    + destruct Hs as [->| ->]; [left|right]; apply rtc_refl.
    + destruct header; [auto with net|done].
Qed.

Lemma tcp_write_flush_evolves fuel ps a i : evolves (tcp_write_flush fuel ps a i).
Proof.
  induction fuel as [|fuel IH]; simpl; evolve. tcb_update.
Qed.
#[local] Hint Resolve tcp_write_flush_evolves : evolve.

Lemma tcp_write_header_evolves a port ip flags size :
  evolves (tcp_write_header a port ip flags size).
Proof.
  unfold tcp_write_header. evolve. tcb_update. destruct (negb _); auto with net.
Qed.
#[local] Hint Resolve tcp_write_header_evolves : evolve.

Lemma tcp_write_evolves ps i : evolves (tcp_write ps i).
Proof. unfold tcp_write. evolve. tcb_update. Qed.

(** ** The state functions *)

Lemma segment_reply_evolves h a ps s flags i : evolves (segment_reply h a ps s flags i).
Proof. unfold segment_reply, tcp_internal_write. evolve. Qed.
Lemma drop_head_evolves a : evolves (drop_head a).
Proof. unfold drop_head, set_tcb. evolve. tcb_update. Qed.
Lemma head_packet_evolves a : evolves (head_packet a).
Proof. unfold head_packet. evolve. Qed.
Lemma packet_headers_evolves size ps : evolves (packet_headers size ps).
Proof. unfold packet_headers. evolve. Qed.
Lemma need_header_evolves size ps : evolves (need_header size ps).
Proof. apply evolves_bind; [apply packet_headers_evolves|intros; apply evolves_ret]. Qed.
Lemma packet_socket_evolves h ip tcp : evolves (packet_socket h ip tcp).
Proof. unfold packet_socket. evolve. Qed.
Lemma call_on_connect_evolves s : evolves (call_on_connect s).
Proof. unfold call_on_connect. evolve. Qed.
Lemma call_on_close_evolves s : evolves (call_on_close s).
Proof. unfold call_on_close. evolve. Qed.
Lemma payload_pointer_evolves ps h : evolves (payload_pointer ps h).
Proof. unfold payload_pointer. evolve. Qed.
#[local] Hint Resolve segment_reply_evolves drop_head_evolves head_packet_evolves
  packet_headers_evolves need_header_evolves packet_socket_evolves call_on_connect_evolves call_on_close_evolves
  payload_pointer_evolves : evolve.

Lemma tcp_receive_payload_evolves h s a ps i payload size :
  evolves (tcp_receive_payload h s a ps i payload size).
Proof. unfold tcp_receive_payload, set_tcb. evolve. tcb_update. Qed.
#[local] Hint Resolve tcp_receive_payload_evolves : evolve.

Lemma tcp_close_evolves h a n i : evolves (tcp_close h a n i).
Proof.
  unfold tcp_close. apply evolves_bind; [|intros; apply evolves_ret].
  induction n as [|n IH]; simpl; [evolve|]. apply evolves_bind; [|done].
  unfold tcp_close_one, set_tcb. evolve; tcb_update; range.
Qed.

Lemma head_packet_reads a : reads (head_packet a).
Proof. unfold head_packet. reads. Qed.
Lemma packet_headers_reads size ps : reads (packet_headers size ps).
Proof. unfold packet_headers, packet_at, cast. reads. Qed.
Lemma find_socket_reads l ip port : reads (find_socket l ip port).
Proof. induction l as [|[a|] l IH]; simpl; reads. Qed.
Lemma packet_socket_reads h ip tcp : reads (packet_socket h ip tcp).
Proof.
  unfold packet_socket, tcp_get_socket, as_tcp_priv.
  apply reads_bind; [apply reads_load|intros x]. apply reads_bind; [reads|intros p].
  apply find_socket_reads.
Qed.

Lemma drop_and_continue_evolves a : evolves (drop_and_continue a).
Proof. unfold drop_and_continue. evolve. Qed.
#[local] Hint Resolve drop_and_continue_evolves : evolve.

Lemma and_then_evolves m k : evolves m → evolves k → evolves (and_then m k).
Proof. unfold and_then. intros. evolve. Qed.

Lemma finish_evolves h a ps s state hd i :
  reachable_state state →
  evolves_from (past_state a state) (tcp_others_finish h a ps s state hd i).
Proof.
  intros Hr. apply reachable_live in Hr. unfold tcp_others_finish.
  destruct (negb _); [apply evolves_weaken; evolve|].
  case_bool_decide; [apply evolves_weaken; evolve|].
  unfold set_tcb. do 4 (apply evolves_from_past;
    [apply evolves_weaken; evolve; tcb_update|intros _]).
  apply evolves_from_past; [apply evolves_weaken; evolve|intros t].
  destruct state; try done; simpl; try by (apply evolves_weaken; evolve).
  apply evolves_from_past; [|intros; apply evolves_weaken; evolve].
  apply evolves_update_past. intros u Hu [Hs|Hs]%established_step.
  - split.
    + destruct Hu. split; simpl; try done; [|by rewrite Hs in *].
      apply reachable_live. done.
    + split; try done. simpl. rewrite Hs. apply rtc_once. constructor.
  - split; [destruct Hu; split; simpl; try done|].
    + by rewrite Hs in *.
    + by rewrite Hs in *.
    + split; try done. simpl. by rewrite Hs.
Qed.

Lemma acknowledge_data_evolves h a ps s state hd ok i :
  live_state state = true → evolves (tcp_others_acknowledge_data h a ps s state hd ok i).
Proof.
  intros Hr. unfold tcp_others_acknowledge_data, set_tcb. destruct state; try done; evolve;
    tcb_update.
Qed.

(** [SYN_RECEIVED] is left when its SYN is acknowledged. *)
Lemma acknowledge_evolves h a ps s state hd i :
  reachable_state state →
  evolves_from (in_state a state) (tcp_others_acknowledge h a ps s state hd i).
Proof.
  intros Hr%reachable_live. unfold tcp_others_acknowledge.
  apply evolves_from_reads; [reads|intros tcb].
  destruct state; try done; try by (apply evolves_weaken, acknowledge_data_evolves).
  1-2: apply evolves_weaken; evolve.
  unfold set_tcb. apply in_state_first; [|intros; apply evolves_weaken; evolve].
  case_match; [apply evolves_weaken; evolve; tcb_update|].
  apply evolves_from_reads; [unfold need_header, packet_headers, packet_at, cast; reads|intros _].
  apply evolves_update_in. intros t Ht Hs. split.
  - destruct Ht. split; simpl; try done; [by apply reachable_live|by rewrite Hs in *].
  - split; try done. simpl. rewrite Hs. apply rtc_once. constructor.
Qed.

Lemma payload_evolves h a ps s state hd size i :
  evolves (tcp_others_payload h a ps s state hd size i).
Proof. unfold tcp_others_payload. evolve. Qed.

Lemma and_then_from a s m k :
  evolves_from (in_state a s) m → evolves_from (past_state a s) k →
  evolves_from (in_state a s) (and_then m k).
Proof.
  intros Hm Hk. unfold and_then. apply in_state_first; [done|].
  intros []; [done|apply evolves_weaken, evolves_ret..].
Qed.
Lemma and_then_past a s m k :
  evolves_from (past_state a s) m → evolves_from (past_state a s) k →
  evolves_from (past_state a s) (and_then m k).
Proof.
  intros Hm Hk. unfold and_then. apply evolves_from_past; [done|].
  intros []; [done|apply evolves_weaken, evolves_ret..].
Qed.

Lemma in_window_evolves h a ps s state hd size i :
  reachable_state state →
  evolves_from (in_state a state) (tcp_others_in_window h a ps s state hd size i).
Proof.
  intros Hr. unfold tcp_others_in_window.
  case_match; [apply evolves_weaken; unfold tcp_others_reset; evolve|].
  case_match; [apply evolves_weaken; unfold tcp_others_synchronise; evolve|].
  case_match; [|apply evolves_weaken; evolve].
  apply and_then_from; [by apply acknowledge_evolves|].
  apply and_then_past; [apply evolves_weaken, payload_evolves|by apply finish_evolves].
Qed.

Lemma tcp_others_evolves h a n i : evolves (tcp_others h a n i).
Proof.
  induction n as [|n IH]; simpl; [evolve|]. apply evolves_bind; [|intros []; evolve].
  unfold tcp_others_one. apply evolves_bind; [evolve|intros ps].
  apply evolves_bind; [evolve|intros [hd ip]]. apply evolves_bind; [evolve|intros s].
  apply evolves_load_tcb. intros t Ht. apply and_then_from.
  - case_match; [apply in_window_evolves; apply Ht|].
    apply evolves_weaken. unfold tcp_others_out_of_window. evolve.
  - apply evolves_weaken; evolve.
Qed.

(** The common start of [tcp_listen] and [tcp_syn_sent] leaves the connection in its
    state. *)
Ltac state_function_start :=
  apply evolves_from_reads; [apply head_packet_reads|intros ps];
  apply evolves_from_reads; [apply packet_headers_reads|intros [hd ip]];
  cbv zeta; apply evolves_from_reads; [apply packet_socket_reads|intros s];
  apply evolves_from_reads; [reads|intros tcb].

Lemma tcp_listen_evolves h a n i : evolves_from (in_state a LISTEN) (tcp_listen h a n i).
Proof.
  unfold tcp_listen, set_tcb. destruct n; [apply evolves_weaken; evolve|].
  state_function_start. case_match; [apply evolves_weaken; evolve|].
  apply in_state_first; [|intros; apply evolves_weaken; evolve].
  case_match; [apply evolves_weaken; evolve; tcb_update|].
  case_match; [|apply evolves_weaken; evolve].
  apply in_state_first; [|intros; apply evolves_weaken; evolve; tcb_update].
  apply evolves_update_in. intros t Ht Hs. split.
  - destruct Ht. split; simpl; auto with net. apply reachable_live. done.
  - split; try done. simpl. rewrite Hs. apply rtc_once. constructor.
Qed.

(** Opening a connection: the new state and the function for it. *)
Lemma open_connection t s :
  tcb_inv t → tcp_transition (tcb_state t) s → live_state s = true →
  initial_state_function s = fn_tcp_others →
  let t' := t <| tcb_state := s |> <| tcb_state_function := fn_tcp_others |> in
  tcb_inv t' ∧ tcb_step t t'.
Proof.
  intros [] Ht Hs Hf. split.
  - split; simpl; try done. by apply reachable_live.
  - split; try done. simpl. by apply rtc_once.
Qed.

Lemma synchronise_evolves h a ps s hd ip i :
  evolves_from (in_state a SYN_SENT) (tcp_syn_sent_synchronise h a ps s hd ip i).
Proof.
  unfold tcp_syn_sent_synchronise, set_tcb. cbv zeta.
  apply in_state_keep; [done|tcb_update|intros _].
  apply in_state_keep_when; [done|tcb_update|intros _].
  apply evolves_from_reads; [reads|intros tcb].
  apply in_state_first; [|intros; apply evolves_weaken; evolve; tcb_update].
  case_match; (apply in_state_first; [|intros; apply evolves_weaken; evolve]);
    apply evolves_update_in; intros t Ht Hs; apply open_connection; try done;
    rewrite Hs; constructor.
Qed.

Lemma tcp_syn_sent_evolves h a n i : evolves_from (in_state a SYN_SENT) (tcp_syn_sent h a n i).
Proof.
  unfold tcp_syn_sent. destruct n; [apply evolves_weaken; evolve|].
  state_function_start. case_match; [apply evolves_weaken; evolve|].
  case_match; [apply evolves_weaken; evolve|].
  apply in_state_first; [|intros; apply evolves_weaken; evolve].
  unfold when. case_match; [apply synchronise_evolves|apply evolves_weaken, evolves_ret].
Qed.

(** The function pointer of a connection fits its state. *)
Lemma state_function_evolves h a n i t :
  tcb_inv t →
  evolves_from (in_state a (tcb_state t)) (call_state_function (tcb_state_function t) h a n i).
Proof.
  intros Ht. destruct Ht as [Hr%reachable_live -> _ _ _ _ _]. destruct (tcb_state t); try done; simpl;
    auto using tcp_listen_evolves, tcp_syn_sent_evolves, evolves_weaken, tcp_others_evolves.
Qed.

Lemma tcp_read_segment_evolves h a ps ip hd i : evolves (tcp_read_segment h a ps ip hd i).
Proof.
  unfold tcp_read_segment. cbv zeta.
  do 5 (apply evolves_bind; [evolve; tcb_update|intros ?]).
  apply evolves_load_tcb. intros t Ht. apply evolves_from_reads; [reads|intros nr].
  case_match; [by apply state_function_evolves|apply evolves_weaken, evolves_ret].
Qed.
Lemma tcp_read_connection_evolves h s ps id ip hd : evolves (tcp_read_connection h s ps id ip hd).
Proof. unfold tcp_read_connection. evolve. apply create_tcb_evolves. by left. Qed.
#[local] Hint Resolve tcp_read_segment_evolves tcp_read_connection_evolves : evolve.

Lemma tcp_read_evolves ps i h : evolves (tcp_read ps i h).
Proof. unfold tcp_read. evolve. Qed.

Lemma write_operation_evolves kind ps i : evolves (write_operation d kind ps i).
Proof.
  destruct kind; simpl; try apply tcp_write_evolves;
    [apply ethernet_evolves|apply arp_evolves|apply ipv4_evolves|apply llc_evolves
    |apply custom_evolves]; exact 0%nat.
Qed.
Lemma read_operation_evolves kind ps i h : evolves (read_operation d kind ps i h).
Proof.
  destruct kind; simpl; try apply tcp_read_evolves;
    [apply ethernet_evolves|apply arp_evolves|apply ipv4_evolves|apply llc_evolves
    |apply custom_evolves].
Qed.

(** The operations of a socket. *)
Lemma tcp_socket_connect_evolves h s args lp ip rp :
  evolves (tcp_socket_connect h s args lp ip rp).
Proof.
  unfold tcp_socket_connect, store_client_args, top_of. evolve; try tcb_update.
  apply create_tcb_evolves. by right.
Qed.
Lemma tcp_socket_send_evolves s id buffer : evolves (tcp_socket_send s id buffer).
Proof. unfold tcp_socket_send, store_client_args, top_of. evolve. Qed.
End Operations.

(** ** The whole stack *)

Section WholeStack.
Context `{!Platform}.

#[export] Instance dispatch_evolving fuel : Evolving (dispatch fuel).
Proof.
  induction fuel as [|fuel IH]; [done|]. split; intros; simpl.
  - apply evolves_bind; [evolve|intros x; apply write_operation_evolves].
  - apply evolves_bind; [evolve|intros x; apply read_operation_evolves].
Qed.

(** Everything the outside does to the stack: a received frame, and the calls of an
    application. *)
Inductive event : Type :=
  | Receive (handlers : list addr) (frame : list Z) (interface : interface_t)
  | Connect (handler socket args : addr) (local_port remote_ip remote_port : Z)
  | Send (socket : addr) (connection_id : Z) (buffer : list Z)
  | OpenSocket (handler : addr) (interface : interface_t) (next_handler : option addr)
      (port ipv4 : Z) (on_connect on_close : option addr)
  | SetArpSocket (handler : addr) (socket : option addr)
  | SendArp (handler socket : addr) (protocol_stack : socket_client_args)
  | DeleteSocket (socket : addr)
  | CloseHandler (handler : addr).

Definition handle (fuel : nat) (e : event) : M world unit :=
  let d := dispatch fuel in
  match e with
  | Receive handlers frame interface => consume_packet d handlers frame interface
  | Connect handler socket args lp ip rp => tcp_socket_connect handler socket args lp ip rp;;; ret tt
  | Send socket id buffer => tcp_socket_send socket id buffer;;; ret tt
  | OpenSocket handler interface next_handler port ipv4 on_connect on_close =>
      socket <- tcp_create_socket interface next_handler port ipv4 on_connect on_close;;
      tcp_add_socket handler socket;;; ret tt
  | SetArpSocket handler socket => arp_set_socket handler socket
  | SendArp handler socket protocol_stack =>
      arp_socket_send handler socket protocol_stack;;; ret tt
  | DeleteSocket socket => tcp_delete_socket socket
  | CloseHandler handler => close_handler handler
  end.

Fixpoint run (fuel : nat) (es : list event) : M world unit :=
  match es with [] => ret tt | e :: es => handle fuel e;;; run fuel es end.

Lemma consume_packet_evolves (d : Dispatch) `{!Evolving d} hs frame i :
  evolves (consume_packet d hs frame i).
Proof. destruct hs as [|h [|h' hs]]; simpl; evolve. Qed.

Lemma tcp_delete_socket_evolves s : evolves (tcp_delete_socket s).
Proof.
  assert (∀ l, evolves (tcp_delete_socket_loop l)).
  { intros l. induction l as [|[a|] l IH]; simpl; unfold delete_transmission_control_block; evolve. }
  unfold tcp_delete_socket. evolve.
Qed.

Lemma close_handler_evolves h : evolves (close_handler h).
Proof.
  apply evolves_bind; [evolve|intros x]. destruct (h_operations x); simpl;
    unfold ethernet_close_handler, arp_close_handler, ipv4_close_handler, tcp_close_handler,
      llc_close_handler, custom_close_handler, free_priv; evolve.
Qed.

Lemma handle_evolves fuel e : evolves (handle fuel e).
Proof.
  destruct e; simpl.
  - apply consume_packet_evolves, _.
  - apply evolves_bind; [apply tcp_socket_connect_evolves|intros; apply evolves_ret].
  - apply evolves_bind; [apply tcp_socket_send_evolves|intros; apply evolves_ret].
  - unfold tcp_create_socket, tcp_add_socket, as_tcp_priv. evolve.
  - unfold arp_set_socket, as_arp_priv. evolve.
  - pose proof (dispatch_evolving fuel). unfold arp_socket_send. evolve.
  - apply tcp_delete_socket_evolves.
  - apply close_handler_evolves.
Qed.

Lemma run_evolves fuel es : evolves (run fuel es).
Proof.
  induction es as [|e es IH]; simpl; [evolve|].
  apply evolves_bind; [apply handle_evolves|done].
Qed.

Lemma initial_world_inv : world_inv initial_world.
Proof. by split; [apply map_Forall_empty|intros a [x Hx]]. Qed.

Lemma net_stack_init_evolves i : evolves (net_stack_init i).
Proof.
  unfold net_stack_init, ethernet_create_handler, arp_create_handler, arp_init_handler,
    ipv4_create_handler, ipv4_init_handler, tcp_create_handler, tcp_init_handler. evolve.
Qed.
End WholeStack.

(** C1: whatever happens to the stack, in any order and however deep the handlers call
    each other, every connection only moves along the abstract machine, keeps its
    identity (identifier, remote address and port, initial sequence number), and always
    has the state function of its state; and a freed connection never comes back. *)
Theorem connections_follow_machine `{!Platform} fuel es w w' :
  world_inv w → run fuel es w = Ok (tt, w') →
  world_inv w' ∧
  (∀ a t, (a < w_next w)%nat → w_tcbs w' !! a = Some t →
    ∃ t0, w_tcbs w !! a = Some t0 ∧ rtc tcp_transition (tcb_state t0) (tcb_state t) ∧
      tcb_id t = tcb_id t0 ∧ tcb_remote_ipv4 t = tcb_remote_ipv4 t0 ∧
      tcb_remote_port t = tcb_remote_port t0 ∧
      tcb_send_initial_sequence_num t = tcb_send_initial_sequence_num t0) ∧
  (∀ a t, w_tcbs w' !! a = Some t → tcb_state_function t = initial_state_function (tcb_state t)).
Proof.
  intros Hw Hr. pose proof (run_evolves fuel es w Hw) as He. unfold wlp in He. rewrite Hr in He.
  destruct He as [Hi Hs]. split; [done|]. split.
  - intros a t Ha Ht. destruct (w_tcbs w !! a) as [t0|] eqn:Ht0.
    + exists t0. destruct (step_tcbs _ _ Hs a t0 t Ht0 Ht). by repeat split.
    + by rewrite (step_gone _ _ Hs a Ha Ht0) in Ht.
  - intros a t Ht. apply (inv_tcbs w' Hi a t Ht).
Qed.

(** C28: no sequence of events closes a connection from the initial memory on: its
    state is never FIN_WAIT_1, FIN_WAIT_2, CLOSING, LAST_ACK, TIME_WAIT or CLOSED,
    although RFC 9293 asks for CLOSED after an acceptable RST. *)
Theorem connections_never_close `{!Platform} fuel interface es app w' a t :
  (app <- net_stack_init interface;; run fuel (es app);;; ret app) initial_world = Ok (app, w') →
  w_tcbs w' !! a = Some t →
  tcb_state t ∈ [LISTEN; SYN_SENT; SYN_RECEIVED; ESTABLISHED; CLOSE_WAIT].
Proof.
  intros Hr Ht.
  assert (evolves (app <- net_stack_init interface;; run fuel (es app);;; ret app)) as He.
  { apply evolves_bind; [apply net_stack_init_evolves|intros x].
    apply evolves_bind; [apply run_evolves|intros; apply evolves_ret]. }
  specialize (He initial_world initial_world_inv). unfold wlp in He. rewrite Hr in He.
  destruct He as [Hi _]. destruct (inv_tcbs w' Hi a t Ht) as [Hs _ _ _ _ _ _].
  apply reachable_live in Hs. destruct (tcb_state t); try done; set_solver.
Qed.
