(* ===== verification/Fuel.v ===== *)
(** * Fuel: the bounds of the model do not decide its results

    [dispatch] bounds how deep the handlers call each other, and [tcp_write_flush] how many
    rounds its loop makes.  A run that ends within a bound ends in the same way within any
    larger one, and the loop ends within its bound over every layer below that leaves the
    connection alone. *)

From S2P Require Import Prelude Headers Checksum ProtocolMap BlockBuffer State.
From S2P Require Import Ethernet Ipv4 TcpShared TcpSocket TcpStates Tcp Arp Llc Custom Stack.
From S2P Require Import Lifecycle.

(** ** Computations that agree where the first one ends *)

Definition agrees {S A} (m m' : M S A) : Prop := ∀ w, m w = OutOfFuel ∨ m' w = m w.
Infix "⊑ₘ" := agrees (at level 70) : net_scope.

(** What two ways to resolve the calls through function pointers have in common. *)
Class Extends (d d' : Dispatch) : Prop := {
  extends_write h ps i : @op_write d h ps i ⊑ₘ @op_write d' h ps i;
  extends_read ps i h : @op_read d ps i h ⊑ₘ @op_read d' ps i h
}.

#[export] Instance agrees_preorder {S A} : PreOrder (@agrees S A).
Proof.
  split; [intros m w; by right|]. intros m1 m2 m3 H1 H2 w.
  destruct (H1 w) as [E1|E1]; [by left|]. destruct (H2 w) as [E2|E2]; [left|right]; congruence.
Qed.

Section Agrees.
Context {S A B : Type}.

Lemma agrees_bind (m m' : M S A) (k k' : A → M S B) :
  m ⊑ₘ m' → (∀ a, k a ⊑ₘ k' a) → bind m k ⊑ₘ bind m' k'.
Proof.
  intros Hm Hk w. unfold bind. destruct (Hm w) as [-> | ->]; [by left|].
  destruct (m w) as [[a w1]| |]; [apply Hk|by right|by left].
Qed.

Lemma agrees_when (b : bool) (m m' : M S unit) : m ⊑ₘ m' → when b m ⊑ₘ when b m'.
Proof. destruct b; [done|reflexivity]. Qed.
End Agrees.

Ltac agree_step :=
  match goal with
  | |- ?m ⊑ₘ ?m => reflexivity
  | H : ?m ⊑ₘ ?m' |- ?m ⊑ₘ ?m' => exact H
  | H : ∀ _, _ |- _ ⊑ₘ _ => apply H
  | |- bind _ _ ⊑ₘ bind _ _ => apply agrees_bind; [|intros ?]
  | |- when _ _ ⊑ₘ when _ _ => apply agrees_when
  | |- @op_write _ _ _ _ ⊑ₘ _ => apply extends_write
  | |- @op_read _ _ _ _ ⊑ₘ _ => apply extends_read
  | |- (if ?b then _ else _) ⊑ₘ _ => destruct b
  | |- (match ?x with _ => _ end) ⊑ₘ _ => destruct x
  | |- (let _ := _ in _) ⊑ₘ _ => cbv zeta
  end.
Ltac agree := repeat (cbv zeta beta; agree_step).

Section Handlers.
Context `{!Platform} {d d' : Dispatch} `{!Extends d d'}.

Lemma write_down_agrees ps i : @write_down d ps i ⊑ₘ @write_down d' ps i.
Proof. unfold write_down. agree. Qed.

Lemma ethernet_agrees ps i h :
  @ethernet_write d ps i ⊑ₘ @ethernet_write d' ps i ∧ @ethernet_read d ps i h ⊑ₘ @ethernet_read d' ps i h.
Proof.
  pose proof write_down_agrees. unfold ethernet_write, ethernet_read. split; agree.
Qed.
Lemma ipv4_agrees ps i h :
  @ipv4_write d ps i ⊑ₘ @ipv4_write d' ps i ∧ @ipv4_read d ps i h ⊑ₘ @ipv4_read d' ps i h.
Proof. pose proof write_down_agrees. unfold ipv4_write, ipv4_read. split; agree. Qed.
Lemma llc_agrees ps i h :
  @llc_write _ d ps i ⊑ₘ @llc_write _ d' ps i ∧ @llc_read d ps i h ⊑ₘ @llc_read d' ps i h.
Proof. pose proof write_down_agrees. unfold llc_write, llc_read. split; agree. Qed.
Lemma custom_agrees ps i h :
  @custom_write d ps i ⊑ₘ @custom_write d' ps i ∧ @custom_read d ps i h ⊑ₘ @custom_read d' ps i h.
Proof. pose proof write_down_agrees. unfold custom_write, custom_read. split; agree. Qed.
Lemma arp_agrees ps i h :
  @arp_write d ps i ⊑ₘ @arp_write d' ps i ∧ @arp_read d ps i h ⊑ₘ @arp_read d' ps i h.
Proof.
  pose proof write_down_agrees.
  unfold arp_write, arp_read, arp_read_socket, arp_read_packet. split; agree.
Qed.
End Handlers.

Section TcpHandler.
Context `{!Platform} {d d' : Dispatch} `{!Extends d d'}.

Lemma tcp_write_flush_agrees fuel ps a i : @tcp_write_flush d fuel ps a i ⊑ₘ @tcp_write_flush d' fuel ps a i.
Proof. induction fuel as [|fuel IH]; simpl; agree. Qed.

Lemma tcp_write_agrees ps i : @tcp_write d ps i ⊑ₘ @tcp_write d' ps i.
Proof. pose proof tcp_write_flush_agrees. unfold tcp_write. agree. Qed.

Lemma segment_reply_agrees h a ps s flags i :
  @segment_reply d h a ps s flags i ⊑ₘ @segment_reply d' h a ps s flags i.
Proof. unfold segment_reply, tcp_internal_write. agree. Qed.

Lemma tcp_receive_payload_agrees h s a ps i p size :
  @tcp_receive_payload d h s a ps i p size ⊑ₘ @tcp_receive_payload d' h s a ps i p size.
Proof. pose proof segment_reply_agrees. unfold tcp_receive_payload. agree. Qed.

Lemma tcp_close_agrees h a n i : @tcp_close d h a n i ⊑ₘ @tcp_close d' h a n i.
Proof.
  pose proof segment_reply_agrees.
  assert (@tcp_close_loop d h a n i ⊑ₘ @tcp_close_loop d' h a n i).
  { induction n as [|n IH]; simpl; unfold tcp_close_one; agree. }
  unfold tcp_close. agree.
Qed.

Lemma tcp_syn_sent_agrees h a n i : @tcp_syn_sent d h a n i ⊑ₘ @tcp_syn_sent d' h a n i.
Proof.
  pose proof segment_reply_agrees. pose proof tcp_receive_payload_agrees.
  unfold tcp_syn_sent, tcp_syn_sent_synchronise. agree.
Qed.

Lemma and_then_agrees (m m' k k' : M world flow) : m ⊑ₘ m' → k ⊑ₘ k' → and_then m k ⊑ₘ and_then m' k'.
Proof. intros ? ?. unfold and_then. agree. Qed.

Lemma tcp_others_one_agrees h a i : @tcp_others_one d h a i ⊑ₘ @tcp_others_one d' h a i.
Proof.
  pose proof segment_reply_agrees. pose proof tcp_receive_payload_agrees.
  pose proof and_then_agrees.
  unfold tcp_others_one, tcp_others_in_window, tcp_others_out_of_window, tcp_others_synchronise,
    tcp_others_acknowledge, tcp_others_acknowledge_data, tcp_others_payload, tcp_others_finish.
  agree.
Qed.

Lemma state_function_agrees f h a n i :
  @call_state_function d f h a n i ⊑ₘ @call_state_function d' f h a n i.
Proof.
  pose proof segment_reply_agrees. pose proof tcp_others_one_agrees.
  destruct f; simpl.
  - apply tcp_close_agrees.
  - unfold tcp_listen. agree.
  - apply tcp_syn_sent_agrees.
  - induction n as [|n IH]; simpl; agree.
Qed.

Lemma tcp_read_agrees ps i h : @tcp_read _ d ps i h ⊑ₘ @tcp_read _ d' ps i h.
Proof.
  pose proof state_function_agrees. unfold tcp_read, tcp_read_segment. agree.
Qed.
End TcpHandler.

(** ** The whole stack *)

Section WholeStack.
Context `{!Platform}.

Lemma write_operation_agrees d d' `{!Extends d d'} kind ps i :
  write_operation d kind ps i ⊑ₘ write_operation d' kind ps i.
Proof.
  destruct kind; simpl; [apply ethernet_agrees|apply arp_agrees|apply ipv4_agrees|apply tcp_write_agrees
                        |apply llc_agrees|apply custom_agrees]; exact 0%nat.
Qed.
Lemma read_operation_agrees d d' `{!Extends d d'} kind ps i h :
  read_operation d kind ps i h ⊑ₘ read_operation d' kind ps i h.
Proof.
  destruct kind; simpl; [apply ethernet_agrees|apply arp_agrees|apply ipv4_agrees|apply tcp_read_agrees
                        |apply llc_agrees|apply custom_agrees].
Qed.

#[export] Instance dispatch_extends fuel : Extends (dispatch fuel) (dispatch (S fuel)).
Proof.
  induction fuel as [|fuel IH]; [split; intros; by left|].
  split; intros; apply agrees_bind; try reflexivity; intros x;
    [by apply write_operation_agrees|by apply read_operation_agrees].
Qed.

Lemma handle_agrees fuel e : handle fuel e ⊑ₘ handle (S fuel) e.
Proof.
  pose proof (dispatch_extends fuel).
  destruct e; unfold handle, consume_packet, tcp_socket_connect, tcp_socket_send, arp_socket_send; agree.
Qed.

Lemma run_agrees fuel es : run fuel es ⊑ₘ run (S fuel) es.
Proof. pose proof (handle_agrees fuel). induction es as [|e es IH]; cbn [run]; agree. Qed.
End WholeStack.

(** ** The loop that flushes an out buffer ends

    [ends m Q w]: from [w] the computation ends, in a fault or in a result and a state
    that satisfy [Q]. *)

Definition ends {S A} (m : M S A) (Q : A → S → Prop) (w : S) : Prop :=
  match m w with Ok (a, w') => Q a w' | Fault _ => True | OutOfFuel => False end.

Section Ends.
Context {S : Type}.

Lemma ends_bind {A B} (m : M S A) (k : A → M S B) Q w :
  ends m (λ a, ends (k a) Q) w → ends (bind m k) Q w.
Proof. unfold ends, bind. by destruct (m w) as [[a w']| |]. Qed.
Lemma ends_ret {A} (x : A) (Q : A → S → Prop) w : Q x w → ends (ret x) Q w.
Proof. done. Qed.
Lemma ends_need {A} f (o : option A) (Q : A → S → Prop) w :
  (∀ a, o = Some a → Q a w) → ends (need f o) Q w.
Proof. destruct o; simpl; [intros H; by apply H|done]. Qed.
Lemma ends_lift {A} (o : outcome A) (Q : A → S → Prop) w :
  o ≠ OutOfFuel → (∀ a, o = Ok a → Q a w) → ends (lift_outcome o) Q w.
Proof. unfold ends. destruct o; simpl; [intros _ H; by apply H|done|done]. Qed.
Lemma ends_mono {A} (m : M S A) (P Q : A → S → Prop) w :
  ends m P w → (∀ a w', P a w' → Q a w') → ends m Q w.
Proof. unfold ends. destruct (m w) as [[? ?]| |]; naive_solver. Qed.
Lemma ends_not {A} (m : M S A) Q w : ends m Q w → m w ≠ OutOfFuel.
Proof. unfold ends. intros H E. by rewrite E in H. Qed.
End Ends.

Lemma ends_load {R} (f : world → gmap addr R) a (Q : R → world → Prop) w :
  (∀ x, f w !! a = Some x → Q x w) → ends (load f a) Q w.
Proof. unfold ends, load. destruct (f w !! a); auto. Qed.
Lemma ends_update {R} (f : world → gmap addr R) `{!Setter f} a g (Q : unit → world → Prop) w :
  (∀ x, f w !! a = Some x → Q tt (w <| f ::= <[a := g x]> |>)) → ends (update f a g) Q w.
Proof. unfold ends, update. destruct (f w !! a); auto. Qed.

(** The layer of the write functions below a call: every nested call is preceded by the
    decrement of the index of some out packet stack, so the sum of these indices bounds how
    deep the calls nest. *)
Definition idx_sum (m : gmap addr out_packet_stack_t) : nat :=
  map_fold (λ _ p n, ops_stack_idx p + n)%nat O m.

Lemma idx_sum_update m a p f :
  m !! a = Some p → (idx_sum (<[a := f p]> m) + ops_stack_idx p = idx_sum m + ops_stack_idx (f p))%nat.
Proof.
  intros Hp. rewrite <- insert_delete_eq. unfold idx_sum.
  rewrite (map_fold_insert_L _ _ a (f p)), (map_fold_delete_L _ _ a p m);
    [lia|intros; lia|done|intros; lia|apply lookup_delete_eq].
Qed.

(** The out buffers of the connections are linked as [create_tcp_block_buffer] and the operations
    on them leave them, and the arrays of the out packet stacks have [STACK_DEPTH] places at most. *)
Record can_write (w : world) : Prop := {
  cw_buffers : ∀ a t, w_tcbs w !! a = Some t → ∃ q n, bb_repr (tcb_out_buffer t) q n;
  cw_stacks : ∀ a p, w_out_stacks w !! a = Some p →
    (length (ops_args p) <= STACK_DEPTH ∧ length (ops_handlers p) <= STACK_DEPTH)%nat
}.

(** What a write leaves: no index of an out packet stack is larger than before. *)
Record written (w w' : world) : Prop := {
  wr_can : can_write w';
  wr_sum : (idx_sum (w_out_stacks w') <= idx_sum (w_out_stacks w))%nat;
  wr_idx : ∀ a p', w_out_stacks w' !! a = Some p' →
    ∃ p, w_out_stacks w !! a = Some p ∧ (ops_stack_idx p' <= ops_stack_idx p)%nat
}.

Lemma written_refl w : can_write w → written w w.
Proof. intros Hw. split; [done|lia|eauto]. Qed.
Lemma written_trans w1 w2 w3 : written w1 w2 → written w2 w3 → written w1 w3.
Proof.
  intros [_ Hs1 Hi1] [Hc Hs2 Hi2]. split; [done|lia|]. intros a p3 Hp3.
  destruct (Hi2 _ _ Hp3) as (p2 & Hp2 & ?). destruct (Hi1 _ _ Hp2) as (p1 & ? & ?). exists p1. split; [done|lia].
Qed.

(** An update of an out packet stack that does not raise its index. *)
Lemma written_stack w ps p f :
  can_write w → w_out_stacks w !! ps = Some p →
  ops_args (f p) = ops_args p → ops_handlers (f p) = ops_handlers p →
  (ops_stack_idx (f p) <= ops_stack_idx p)%nat →
  let w' := w <| w_out_stacks ::= <[ps := f p]> |> in
  written w w' ∧ (idx_sum (w_out_stacks w') + ops_stack_idx p = idx_sum (w_out_stacks w) + ops_stack_idx (f p))%nat.
Proof.
  intros [Hb Hs] Hp Ha Hh Hi w'. pose proof (idx_sum_update _ _ _ f Hp) as Hsum. split; [|exact Hsum].
  split; [split; [exact Hb|]|simpl; lia|].
  - intros a q. simpl. destruct (decide (a = ps)) as [-> | Hne].
    + rewrite lookup_insert_eq. intros [= <-]. rewrite Ha, Hh. by apply (Hs ps).
    + rewrite lookup_insert_ne by done. apply Hs.
  - intros a q. simpl. destruct (decide (a = ps)) as [-> | Hne].
    + rewrite lookup_insert_eq. intros [= <-]. eauto.
    + rewrite lookup_insert_ne by done. eauto.
Qed.

(** An update of a connection that leaves its out buffer linked. *)
Lemma written_tcb w a f :
  can_write w → (∀ t, w_tcbs w !! a = Some t → ∃ q n, bb_repr (tcb_out_buffer (f t)) q n) →
  ends (update w_tcbs a f) (λ _ w', written w w') w.
Proof.
  intros [Hb Hs] Hf. apply ends_update. intros t Ht. split; [split; [|exact Hs]|done|eauto].
  intros b u. simpl. destruct (decide (b = a)) as [-> | Hne].
  - rewrite lookup_insert_eq. intros [= <-]. auto.
  - rewrite lookup_insert_ne by done. apply Hb.
Qed.

Lemma add_ends bb q n data seqnum size :
  bb_repr bb q n → tcp_block_buffer_add bb data seqnum size ≠ OutOfFuel ∧
  ∀ r, tcp_block_buffer_add bb data seqnum size = Ok r → ∃ q' n', bb_repr (snd r) q' n'.
Proof.
  intros Hr. destruct n as [|n].
  { rewrite (tcp_block_buffer_add_full _ _ _ _ _ Hr). split; [done|]. intros ? [= <-]. eauto. }
  destruct q as [|x q]; [|destruct (Z.leb_spec (seg_seq x) (ntohl seqnum)) as [Hle|Hlt]].
  3: { rewrite (add_before_head _ _ _ _ _ _ _ Hr) by lia. split; [done|]. by intros ? [=]. }
  all: destruct (add_repr _ _ _ data seqnum size Hr) as (p & bb' & -> & _ & Hr'); [done|];
    split; [done|]; intros ? [= <-]; eauto.
Qed.

Section Writes.
Context `{!Platform} (i : interface_t).

(** [ends] with a [written] state, composed. *)
Lemma written_bind {A B} (m : M world A) (k : A → M world B) w :
  ends m (λ _ w', written w w') w →
  (∀ a w', written w w' → ends (k a) (λ _ w'', written w' w'') w') →
  ends (bind m k) (λ _ w', written w w') w.
Proof.
  intros Hm Hk. apply ends_bind. eapply ends_mono; [exact Hm|]. intros a w' Hw. cbv beta in Hw.
  eapply ends_mono; [by apply Hk|]. intros b w''. by apply written_trans.
Qed.

Section Below.
Context {d : Dispatch} (n : nat).
Hypothesis below : ∀ h ps w, can_write w → (idx_sum (w_out_stacks w) < n)%nat →
  ends (op_write h ps i) (λ _ w', written w w') w.

Lemma write_down_ends ps w :
  can_write w → (idx_sum (w_out_stacks w) < S n)%nat → ends (write_down ps i) (λ _ w', written w w') w.
Proof.
  intros Hw Hn. unfold write_down. apply ends_bind, ends_load. intros p Hp.
  destruct (ops_stack_idx p) as [|idx] eqn:Hidx; [split; [by destruct Hw|done|simpl; eauto]|].
  destruct (written_stack w ps p (λ p, p <| ops_stack_idx := idx |>) Hw Hp) as [Hw1 Hsum];
    [done|done|simpl; lia|]. cbn [ops_stack_idx] in Hsum.
  apply ends_bind. unfold ends, update. rewrite Hp.
  change (ends (next <- need OutOfBounds (ops_handlers p !! idx);; next_handler <- need NullDeref next;;
    op_write next_handler ps i) (λ _ w', written w w') (w <| w_out_stacks ::= <[ps := p <| ops_stack_idx := idx |>]> |>)).
  apply ends_bind, ends_need. intros next _. apply ends_bind, ends_need. intros h _.
  eapply ends_mono; [apply below; [apply Hw1|cbv zeta in Hsum; rewrite Hidx in Hsum; simpl in *; lia]|].
  intros b w'. by apply written_trans.
Qed.

(** A write that pushes a header and goes on below. *)
Lemma push_ends ps f w :
  (∀ p, ops_args (f p) = ops_args p ∧ ops_handlers (f p) = ops_handlers p ∧ ops_stack_idx (f p) = ops_stack_idx p) →
  can_write w → (idx_sum (w_out_stacks w) < S n)%nat →
  ends (update w_out_stacks ps f;;; write_down ps i) (λ _ w', written w w') w.
Proof.
  intros Hf Hw Hn. apply ends_bind, ends_update. intros p Hp. destruct (Hf p) as (Ha & Hh & Hi).
  destruct (written_stack w ps p f Hw Hp Ha Hh) as [Hw1 Hsum]; [lia|]. cbv zeta in Hsum.
  eapply ends_mono; [apply write_down_ends; [apply Hw1|lia]|]. intros b w'. by apply written_trans.
Qed.

Lemma lower_writes_end ps w :
  can_write w → (idx_sum (w_out_stacks w) < S n)%nat →
  ends (ethernet_write ps i) (λ _ w', written w w') w ∧ ends (arp_write ps i) (λ _ w', written w w') w ∧
  ends (ipv4_write ps i) (λ _ w', written w w') w ∧ ends (llc_write ps i) (λ _ w', written w w') w ∧
  ends (custom_write ps i) (λ _ w', written w w') w.
Proof.
  intros Hw Hn. pose proof (written_refl w Hw) as Hrefl.
  split_and!; [unfold ethernet_write|unfold arp_write|unfold ipv4_write|unfold llc_write|unfold custom_write];
    apply ends_bind, ends_load; intros p _; apply ends_bind, ends_need; intros args _.
  1-4: cbv zeta; case_match; [done|]; apply ends_bind; destruct args; try exact I; apply ends_ret.
  5: apply ends_bind, ends_need; intros self _; apply ends_bind, ends_load; intros h _;
    apply ends_bind; unfold as_custom_priv; destruct (h_priv h); try exact I; apply ends_ret;
    cbv zeta; case_match; [done|]; case_match; [exact I|].
  3: apply ends_bind, ends_need; intros c _.
  all: apply push_ends; [intros; by destruct p|done..].
Qed.

(** Every round of the loop moves the index of the packet stack down, and behind the bottom there
    is no handler to call. *)
Lemma flush_ends fuel ps a w :
  (∀ p, w_out_stacks w !! ps = Some p → (ops_stack_idx p < fuel)%nat) → (0 < fuel)%nat →
  can_write w → (idx_sum (w_out_stacks w) < S n)%nat →
  ends (tcp_write_flush fuel ps a i) (λ _ w', written w w') w.
Proof.
  revert w. induction fuel as [|fuel IH]; intros w Hidx Hpos Hw Hn; [lia|]. clear Hpos.
  cbn [tcp_write_flush]. apply ends_bind, ends_load. intros t Ht. pose proof (written_refl w Hw) as Hrefl.
  destruct (cw_buffers w Hw a t Ht) as (q & m & Hr).
  destruct q as [|s q]; [unfold tcp_block_buffer_get_head; by rewrite (repr_nil _ _ Hr)|].
  destruct (repr_cons _ _ _ _ Hr) as (j & b & Hj & Hb & _).
  unfold tcp_block_buffer_get_head. rewrite Hj.
  apply ends_bind, ends_lift; rewrite Hb; [done|]. intros ? [= <-]. cbv zeta.
  destruct (_ <=? _); [|done]. apply ends_bind, ends_load. intros p Hp. specialize (Hidx p Hp).
  destruct (ops_stack_idx p) as [|idx] eqn:Hi.
  { apply ends_bind, ends_update. intros p1 Hp1. apply ends_bind, ends_load. intros ops Hops.
    apply ends_bind, ends_need. intros nx Hnx. exfalso. apply lookup_lt_Some in Hnx. assert (length (ops_handlers ops) <= STACK_DEPTH)%nat; [|unfold STACK_DEPTH in *; lia].
    simpl in Hops. destruct (decide (tb_data b = ps)) as [E|E].
    - rewrite E, lookup_insert_eq in Hops. injection Hops as <-. simpl. by apply (cw_stacks w Hw ps).
    - rewrite lookup_insert_ne in Hops by done. by apply (cw_stacks w Hw (tb_data b)). }
  destruct (written_stack w ps p (λ p, p <| ops_stack_idx := idx |>) Hw Hp) as [Hw1 Hsum];
    [done|done|simpl; lia|]. cbv zeta in Hw1, Hsum. simpl in Hsum. rewrite Hi in Hsum.
  apply ends_bind. unfold ends at 1, update. rewrite Hp.
  match type of Hw1 with written _ ?w1 => set (w1' := w1) in * end.
  eapply ends_mono; [|intros b' w'; apply (written_trans w w1' w' Hw1)].
  apply ends_bind, ends_load. intros ops _. apply ends_bind, ends_need. intros nx _.
  apply ends_bind, ends_need. intros next _.
  apply written_bind; [apply below; [apply Hw1|simpl in *; lia]|]. intros ok w2 Hw2.
  destruct ok; [|by apply written_refl, Hw2]. cbn [negb].
  apply ends_bind, ends_load. intros t2 Ht2.
  destruct (cw_buffers w2 (wr_can _ _ Hw2) a t2 Ht2) as (q2 & m2 & Hr2).
  destruct (remove_front_repr _ _ _ 1 Hr2) as (bb2 & Hrm & _ & Hr3).
  apply ends_bind, ends_lift; rewrite Hrm; [done|]. intros ? [= <-].
  apply written_bind; [apply written_tcb; [apply Hw2|eauto]|]. intros [] w3 Hw3.
  pose proof (written_trans _ _ _ Hw2 Hw3) as H3.
  assert (∀ p3, w_out_stacks w3 !! ps = Some p3 → ops_stack_idx p3 <= idx)%nat as Hidx3.
  { intros p3 Hp3. destruct (wr_idx _ _ H3 _ _ Hp3) as (p1 & Hp1 & Hle). unfold w1' in Hp1. simpl in Hp1.
    rewrite lookup_insert_eq in Hp1. injection Hp1 as <-. exact Hle. }
  pose proof (wr_sum _ _ H3) as Hs3.
  apply IH; [intros p3 Hp3; specialize (Hidx3 p3 Hp3); lia|lia|apply H3|].
  unfold w1' in Hs3. simpl in Hs3, Hsum. lia.
Qed.

Lemma find_tcb_ends slots cid w : ends (find_tcb slots cid) (λ _ w', w' = w) w.
Proof.
  induction slots as [|[a|] slots IH]; simpl; [done| |done].
  apply ends_bind, ends_load. intros t _. by destruct (_ =? _).
Qed.

Lemma tcp_write_header_ends a port ipv4 flags size w :
  can_write w → ends (tcp_write_header a port ipv4 flags size) (λ _ w', written w w') w.
Proof.
  intros Hw. unfold tcp_write_header. apply ends_bind, ends_load. intros t _. cbv zeta.
  apply ends_bind, ends_need. intros c _.
  apply written_bind; [apply written_tcb; [done|]; intros t' Ht'; exact (cw_buffers w Hw a t' Ht')|].
  intros _ w' Hw'. by apply written_refl, Hw'.
Qed.

Lemma tcp_write_ends ps w :
  can_write w → (idx_sum (w_out_stacks w) < S n)%nat → ends (tcp_write ps i) (λ _ w', written w w') w.
Proof.
  intros Hw Hn. pose proof (written_refl w Hw) as Hrefl.
  unfold tcp_write. apply ends_bind, ends_load. intros p Hp.
  apply ends_bind, ends_need. intros args Hargs. cbv zeta.
  case_bool_decide; [done|]. destruct (_ <? _); [done|].
  apply ends_bind. destruct args as [| | |wa| |]; try exact I. apply ends_ret.
  destruct (twa_socket wa) as [s|]; [|done]. destruct (_ =? 0); [done|].
  apply ends_bind. unfold tcp_get_transmission_control_block. apply ends_bind, ends_load. intros so _.
  eapply ends_mono; [apply find_tcb_ends|]. intros [a|] w1 ->; [|done].
  apply ends_bind, ends_load. intros so' _.
  apply written_bind; [by apply tcp_write_header_ends|]. intros h w2 Hw2.
  apply ends_bind, ends_update. intros p2 Hp2.
  match goal with |- context [<[ps := ?x]>] => pattern x at 1 end.
  destruct (written_stack w2 ps p2 (λ ps, ps <| ops_out_buffer ::= push_header (encode_tcp_header_t h) |>)
    (wr_can _ _ Hw2) Hp2) as [Hw3 Hsum3]; [done..|]. cbv zeta in Hw3, Hsum3. simpl in Hsum3.
  match type of Hw3 with written _ ?w => set (w3 := w) in * end.
  eapply ends_mono; [|intros b' w'; apply (written_trans w2 w3 w' Hw3)].
  apply ends_bind, ends_load. intros t Ht. destruct (cw_buffers w3 (wr_can _ _ Hw3) a t Ht) as (q & m & Hr).
  destruct (add_ends _ _ _ ps (th_sequence_num h) (u16 (ob_size (ops_out_buffer p) -
    ob_offset (ops_out_buffer p))) Hr) as [Hne Hadd].
  apply ends_bind, ends_lift; [done|]. intros r Hrr. destruct (Hadd _ Hrr) as (q' & n' & Hr').
  apply written_bind; [apply written_tcb; [apply Hw3|eauto]|]. intros [] w4 Hw4.
  pose proof (written_trans _ _ _ Hw2 (written_trans _ _ _ Hw3 Hw4)) as H4.
  apply flush_ends; [|unfold flush_fuel; lia|apply H4|pose proof (wr_sum _ _ H4); lia].
  intros p4 Hp4. destruct (wr_idx _ _ H4 _ _ Hp4) as (p0 & Hp0 & Hle). simplify_eq.
  apply lookup_lt_Some in Hargs. pose proof (cw_stacks w Hw ps p Hp) as [Hla _].
  unfold flush_fuel, TCP_BLOCK_BUFFER_DEFAULT_SIZE, STACK_DEPTH in *. lia.
Qed.
End Below.

(** All together, for the calls through the function pointers. *)
Lemma dispatch_write_ends n h ps w :
  can_write w → (idx_sum (w_out_stacks w) < n)%nat →
  ends (op_write (Dispatch := dispatch n) h ps i) (λ _ w', written w w') w.
Proof.
  revert h ps w. induction n as [|n IH]; intros h ps w Hw Hn; [lia|].
  cbn [dispatch op_write]. apply ends_bind, ends_load. intros hd _.
  destruct (lower_writes_end n IH ps w Hw Hn) as (He & Ha & Hi & Hl & Hc).
  destruct (h_operations hd); try done. by apply (tcp_write_ends n IH).
Qed.
End Writes.

(** C31: writing ends.  In every state in which the out buffers of the connections are linked and the
    arrays of the out packet stacks have at most 10 places, the write of every handler, and
    [tcp_write] in particular, ends: every call of a handler below, and every round of the
    loop that flushes the out buffer, has moved the index of an out packet stack down, so that the
    sum of the indices bounds how deep the calls nest, and 10 how often the loop runs.  What it
    leaves is such a state again. *)
Theorem tcp_write_terminates `{!Platform} n i h ps w :
  can_write w → (idx_sum (w_out_stacks w) < n)%nat →
  tcp_write (H0 := dispatch n) ps i w ≠ OutOfFuel ∧
  op_write (Dispatch := dispatch n) h ps i w ≠ OutOfFuel ∧
  ∀ ok w', op_write (Dispatch := dispatch n) h ps i w = Ok (ok, w') →
    can_write w' ∧ (idx_sum (w_out_stacks w') <= idx_sum (w_out_stacks w))%nat.
Proof.
  intros Hw Hn. pose proof (dispatch_write_ends i n h ps w Hw Hn) as He. split_and!.
  - eapply ends_not, (tcp_write_ends i n (dispatch_write_ends i n)); [done|lia].
  - by eapply ends_not.
  - intros ok w' E. unfold ends in He. rewrite E in He. destruct He. by split.
Qed.


(** The bound on the depth of the calls between handlers does not decide a result: what
    a run of the stack does with some bound, it does with every larger one. *)
Lemma run_enough_fuel `{!Platform} fuel fuel' es w :
  (fuel <= fuel')%nat → run fuel es w ≠ OutOfFuel → run fuel' es w = run fuel es w.
Proof.
  intros Hle Hne. induction Hle as [|fuel' Hle IH]; [done|].
  rewrite <- IH. destruct (run_agrees fuel' es w) as [Ho|E]; [congruence|exact E].
Qed.
