(* ===== verification/Traces.v ===== *)
(** * Traces: what no operation of the stack ever undoes

    The frames given to the interface and the callbacks that were called are only ever
    appended to, no handler changes its kind, and the private data of a handler is of the
    type its operations cast it to, or freed, so that the casts of the ARP and the TCP handler
    never fail.  [Keeping] is the interface between the layers: what [read] and [write] of a
    handler promise about this to their caller. *)

From S2P Require Import Prelude Headers Checksum ProtocolMap BlockBuffer State.
From S2P Require Import Ethernet Ipv4 TcpShared TcpSocket TcpStates Tcp Arp Llc Custom Stack.
From S2P Require Import Lifecycle.

(** ** What is kept *)

(** The [priv] of a handler is what its operations cast it to.  Only the ARP, the TCP and
    the custom handler read theirs. *)
Definition priv_typed (h : handler_t) : Prop :=
  match h_priv h with
  | PrivFreed => True
  | PrivArp _ => h_operations h = ArpHandler
  | PrivTcp _ => h_operations h = TcpHandler
  | PrivCustom _ => h_operations h = CustomHandler
  | PrivNone | PrivDummy =>
      h_operations h ≠ ArpHandler ∧ h_operations h ≠ TcpHandler ∧ h_operations h ≠ CustomHandler
  end.

(** The kinds of the handlers, which stay as they are, when they are known. *)
Class Kinds := { known : Prop; kind_of : addr → option handler_kind }.

Record typed `{!Kinds} (w : world) : Prop := {
  typed_kind a : known → h_operations <$> w_handlers w !! a = kind_of a;
  typed_priv a h : known → w_handlers w !! a = Some h → priv_typed h
}.
Definition expected `{!Kinds} (a : addr) (kind : handler_kind) : Prop := known → kind_of a = Some kind.

Record kept `{!Kinds} (w w' : world) : Prop := {
  kept_wire : w_wire w `prefix_of` w_wire w';
  kept_calls : w_calls w `prefix_of` w_calls w';
  kept_typed : typed w → typed w'
}.

#[export] Instance kept_preorder `{!Kinds} : PreOrder kept.
Proof.
  split; [by split|]. intros w1 w2 w3 [H1 H2 H3] [H4 H5 H6]. split; [by etrans..|auto].
Qed.

(** Where the private data are typed, a computation does not confuse them, and what it
    leaves is kept. *)
Definition unconfused {A} (o : outcome A) : Prop := o ≠ Fault PrivConfusion.
Definition keeps `{!Kinds} {A} (m : M world A) : Prop :=
  ∀ w, typed w → (known → unconfused (m w)) ∧ wlp m (λ _ w', kept w w') w.

Class Keeping `{!Kinds} (d : Dispatch) : Prop := {
  keeping_write handler packet_stack interface : keeps (op_write handler packet_stack interface);
  keeping_read packet_stack interface handler : keeps (op_read packet_stack interface handler)
}.

(** ** Rules *)

Section Keeps.
Context `{!Kinds}.

Lemma keeps_bind {A B} (m : M world A) (k : A → M world B) :
  keeps m → (∀ a, keeps (k a)) → keeps (bind m k).
Proof.
  intros Hm Hk w Hw. destruct (Hm w Hw) as [Hf Hl]. unfold unconfused, wlp, bind in *.
  destruct (m w) as [[a w1]|f|]; [|split; [|done]; intros Kn [= ->]; by apply Hf|done].
  destruct (Hk a w1 (kept_typed _ _ Hl Hw)) as [Hf2 Hl2]. split; [done|]. unfold wlp in Hl2.
  destruct (k a w1) as [[b w2]| |]; [by transitivity w1|done..].
Qed.
Lemma keeps_ret {A} (x : A) : keeps (ret x).
Proof. intros w _. split; [done|]. apply kept_preorder. Qed.
Lemma keeps_fail {A} f : (known → f ≠ PrivConfusion) → keeps (fail f : M world A).
Proof. intros Hf w _. split; [|done]. intros Kn [= ->]. by apply Hf. Qed.
Lemma keeps_need {A} f (o : option A) : f ≠ PrivConfusion → keeps (need f o).
Proof. destruct o; [intros _; apply keeps_ret|intros; by apply keeps_fail]. Qed.
Lemma keeps_lift {A} (o : outcome A) : unconfused o → keeps (lift_outcome o).
Proof.
  intros Ho w _. unfold unconfused, wlp, lift_outcome in *.
  destruct o; split; try done. by intros _ [= ->].
Qed.
Lemma keeps_load {T} (store : world → gmap addr T) a : keeps (load store a).
Proof.
  intros w _. unfold unconfused, wlp, load. by destruct (store w !! a).
Qed.
Lemma keeps_get : keeps get.
Proof. intros w _. split; [done|]. apply kept_preorder. Qed.
Lemma keeps_no_fuel {A} : keeps (no_fuel : M world A).
Proof. done. Qed.
Lemma keeps_when b m : keeps m → keeps (when b m).
Proof. destruct b; [done|]. intros _. apply keeps_ret. Qed.

(** A handler that is loaded is typed. *)
Lemma keeps_load_handler {B} a (k : handler_t → M world B) :
  (∀ h, expected a (h_operations h) → (known → priv_typed h) → keeps (k h)) →
  keeps (bind (load w_handlers a) k).
Proof.
  intros Hk w Hw. unfold load, bind, unconfused, wlp. destruct (w_handlers w !! a) as [h|] eqn:Hh; [|done].
  apply Hk; [intros Kn; by rewrite <- (typed_kind w Hw a Kn), Hh|intros Kn; by apply (typed_priv w Hw a)|done].
Qed.

(** A change of the memory that is not about handlers or traces. *)
Lemma kept_other w w' :
  w_wire w' = w_wire w → w_calls w' = w_calls w → w_handlers w' = w_handlers w → kept w w'.
Proof.
  intros H1 H2 H3. split; rewrite ?H1, ?H2; [reflexivity..|]. intros [Hk Hp]. split; by rewrite H3.
Qed.

Lemma keeps_modify f : (∀ w, kept w (f w)) → keeps (modify f).
Proof. intros Hf w _. split; [done|]. apply wlp_modify, Hf. Qed.

Section Store.
Context {T} (store : world → gmap addr T) `{!Setter store}.
Hypothesis other_wire : ∀ g w, w_wire (w <| store ::= g |>) = w_wire w.
Hypothesis other_calls : ∀ g w, w_calls (w <| store ::= g |>) = w_calls w.
Hypothesis other_handlers : ∀ g w, w_handlers (w <| store ::= g |>) = w_handlers w.

Lemma keeps_update a f : keeps (update store a f).
Proof.
  intros w _. unfold update, unconfused, wlp. destruct (store w !! a); split; try done. by apply kept_other.
Qed.
Lemma keeps_free a : keeps (free store a).
Proof.
  intros w _. unfold free, unconfused, wlp. destruct (store w !! a); split; try done. by apply kept_other.
Qed.
Lemma keeps_alloc x : keeps (alloc store x).
Proof. intros w _. split; [done|]. unfold alloc, wlp. by apply kept_other; simpl. Qed.
End Store.

(** Storing the private data of a handler. *)
Lemma keeps_store_priv a priv :
  (∀ kind, expected a kind → known → priv_typed {| h_operations := kind; h_priv := priv |}) →
  keeps (update w_handlers a (λ h, h <| h_priv := priv |>)).
Proof.
  intros Hp w Hw. unfold update, unconfused, wlp. destruct (w_handlers w !! a) as [h|] eqn:Hh; split; try done.
  split; [reflexivity..|]. intros _. pose proof (typed_kind w Hw a) as Ha. rewrite Hh in Ha.
  split; intros b; simpl; (destruct (decide (a = b)) as [<-|Hne];
    [rewrite lookup_insert_eq|rewrite lookup_insert_ne by done; try apply Hw]).
  - exact Ha.
  - intros ? Kn [= <-]. apply Hp; [|done]. intros _. by rewrite <- (Ha Kn).
Qed.
End Keeps.

(** The operations on tables and queues never meet private data. *)
Section Unconfused.
Lemma unconfused_need {A} f (o : option A) : f ≠ PrivConfusion → unconfused (from_option_fault f o).
Proof. intros Hf. by destruct o; [|intros [= ->]]. Qed.
Lemma unconfused_bind {A B} (o : outcome A) (k : A → outcome B) :
  unconfused o → (∀ a, unconfused (k a)) → unconfused (mbind k o).
Proof. destruct o; simpl; try done. intros Ho _ [= ->]. by apply Ho. Qed.
End Unconfused.

Create HintDb unconfused.
Ltac unconfused :=
  repeat match goal with
  | |- unconfused (mbind _ _) => apply unconfused_bind; [|intros ?]
  | |- unconfused (from_option_fault _ _) => by apply unconfused_need
  | |- unconfused (match ?x with _ => _ end) => destruct x
  | |- unconfused _ => done
  | |- unconfused _ => solve [eauto with unconfused]
  end.

Section Tables.
Lemma block_at_unconfused bb p : unconfused (block_at bb p).
Proof. unfold block_at. unconfused. Qed.
#[local] Hint Resolve block_at_unconfused : unconfused.
Lemma add_position_unconfused fuel bb n p b : unconfused (add_position fuel bb n p b).
Proof. revert p b. induction fuel; intros p b; simpl; unconfused. Qed.
#[local] Hint Resolve add_position_unconfused : unconfused.
Lemma add_unconfused bb data n size : unconfused (tcp_block_buffer_add bb data n size).
Proof. unfold tcp_block_buffer_add. unconfused. Qed.
Lemma remove_front_unconfused bb n : unconfused (tcp_block_buffer_remove_front bb n).
Proof. revert bb. induction n; intros bb; simpl; unconfused. Qed.
Lemma num_ready_unconfused bb n : unconfused (tcp_block_buffer_num_ready bb n).
Proof.
  unfold tcp_block_buffer_num_ready.
  assert (∀ fuel n r b, unconfused (num_ready_loop fuel bb n r b)).
  { induction fuel; intros n' r b; simpl; unconfused. }
  unconfused.
Qed.
Lemma get_value_unconfused map key : unconfused (get_value map key).
Proof.
  unfold get_value. generalize 257%nat 0. intros fuel. induction fuel; intros i; simpl; unconfused.
Qed.
End Tables.
#[export] Hint Resolve block_at_unconfused add_unconfused remove_front_unconfused num_ready_unconfused
  get_value_unconfused : unconfused.

Create HintDb keep.
#[export] Hint Resolve keeping_write keeping_read : keep.

Ltac keep_step :=
  match goal with
  | |- keeps (bind (load w_handlers _) _) => apply keeps_load_handler; intros ? ? ?
  | |- keeps (bind _ _) => apply keeps_bind; [|intros ?]
  | |- keeps (ret _) => apply keeps_ret
  | |- keeps (fail _) => by apply keeps_fail
  | |- keeps (need _ _) => by apply keeps_need
  | |- keeps (lift_outcome _) => apply keeps_lift; eauto with unconfused
  | |- keeps (load _ _) => apply keeps_load
  | |- keeps no_fuel => apply keeps_no_fuel
  | |- keeps get => apply keeps_get
  | |- keeps (when _ _) => apply keeps_when
  | |- keeps (update w_handlers _ _) => fail
  | |- keeps (update _ _ _) => apply keeps_update; done
  | |- keeps (alloc _ _) => apply keeps_alloc; done
  | |- keeps (free _ _) => apply keeps_free; done
  | |- keeps (modify _) => apply keeps_modify; intros ?; by apply kept_other
  | |- keeps (match ?x with _ => _ end) => destruct x
  | |- keeps (let _ := _ in _) => cbv zeta
  end.
Ltac keep := repeat (keep_step || solve [eauto with keep]).

(** ** The operations *)

Section Operations.
Context `{!Platform} `{!Kinds} {d : Dispatch} `{!Keeping d}.

(** The two that do append. *)
Lemma handler_write_keeps b i : keeps (handler_write b i).
Proof.
  apply keeps_modify. intros w. split; simpl; [by apply prefix_app_r|reflexivity|]. intros []. by split.
Qed.
Lemma callback_keeps f : keeps (callback f).
Proof.
  unfold callback. apply keeps_bind; [keep|intros a]. apply keeps_modify. intros w.
  split; simpl; [reflexivity|by apply prefix_app_r|]. intros []. by split.
Qed.
#[local] Hint Resolve handler_write_keeps callback_keeps : keep.

Lemma write_down_keeps ps i : keeps (write_down ps i).
Proof. unfold write_down. keep. Qed.
Lemma out_stack_keeps ps n : keeps (handler_create_out_package_stack ps n).
Proof. unfold handler_create_out_package_stack. keep. Qed.
Lemma packet_at_keeps ps n : keeps (packet_at ps n).
Proof. unfold packet_at. keep. Qed.
Lemma cast_keeps {T} (f : list Z → option T) m : keeps (cast f m).
Proof. unfold cast. keep. Qed.
#[local] Hint Resolve write_down_keeps out_stack_keeps packet_at_keeps cast_keeps : keep.

Lemma ethernet_keeps ps i h : keeps (ethernet_write ps i) ∧ keeps (ethernet_read ps i h).
Proof. split; unfold ethernet_write, ethernet_read, as_ethernet_args, ethernet_get_handler; keep. Qed.
Lemma ipv4_keeps ps i h : keeps (ipv4_write ps i) ∧ keeps (ipv4_read ps i h).
Proof. split; unfold ipv4_write, ipv4_read, as_ipv4_args, ipv4_get_handler; keep. Qed.
Lemma llc_keeps ps i h : keeps (llc_write ps i) ∧ keeps (llc_read ps i h).
Proof. split; unfold llc_write, llc_read, as_llc_args, llc_get_handler; keep. Qed.
Lemma custom_keeps ps i h : keeps (custom_write ps i) ∧ keeps (custom_read ps i h).
Proof. split; unfold custom_write, custom_read, as_custom_priv; keep. Qed.

(** The casts, of the private data of a handler of the kind. *)
Lemma as_arp_priv_keeps h :
  (known → h_operations h = ArpHandler ∧ priv_typed h) → keeps (as_arp_priv h).
Proof.
  intros Hk. unfold priv_typed, as_arp_priv in *.
  destruct (h_priv h); try apply keeps_ret; apply keeps_fail; try done; intros [Ho Ht]%Hk;
    rewrite Ho in Ht; first [done|by destruct Ht].
Qed.
Lemma as_tcp_priv_keeps h :
  (known → h_operations h = TcpHandler ∧ priv_typed h) → keeps (as_tcp_priv h).
Proof.
  intros Hk. unfold priv_typed, as_tcp_priv in *.
  destruct (h_priv h); try apply keeps_ret; apply keeps_fail; try done; intros [Ho Ht]%Hk;
    rewrite Ho in Ht; first [done|by destruct Ht as (_ & [] & _)].
Qed.
Lemma expected_kind a h kind :
  expected a (h_operations h) → expected a kind → (known → priv_typed h) →
  known → h_operations h = kind ∧ priv_typed h.
Proof. intros H1 H2 Ht Kn. specialize (H1 Kn). specialize (H2 Kn). split; [congruence|auto]. Qed.

Lemma load_arp_keeps {B} a (k : arp_priv_t → M world B) :
  expected a ArpHandler → (∀ p, keeps (k p)) → keeps (h <- load w_handlers a;; p <- as_arp_priv h;; k p).
Proof.
  intros Ha Hk. apply keeps_load_handler. intros h Hh Ht. apply keeps_bind; [|done].
  apply as_arp_priv_keeps. by apply (expected_kind a).
Qed.
Lemma load_tcp_keeps {B} a (k : tcp_priv_t → M world B) :
  expected a TcpHandler → (∀ p, keeps (k p)) → keeps (h <- load w_handlers a;; p <- as_tcp_priv h;; k p).
Proof.
  intros Ha Hk. apply keeps_load_handler. intros h Hh Ht. apply keeps_bind; [|done].
  apply as_tcp_priv_keeps. by apply (expected_kind a).
Qed.
Lemma store_arp_keeps a p :
  expected a ArpHandler → keeps (update w_handlers a (λ h, h <| h_priv := PrivArp p |>)).
Proof. intros Ha. apply keeps_store_priv. intros kind Hk Kn. specialize (Ha Kn). specialize (Hk Kn).
  unfold priv_typed. simpl. congruence. Qed.
Lemma store_tcp_keeps a p :
  expected a TcpHandler → keeps (update w_handlers a (λ h, h <| h_priv := PrivTcp p |>)).
Proof. intros Ha. apply keeps_store_priv. intros kind Hk Kn. specialize (Ha Kn). specialize (Hk Kn).
  unfold priv_typed. simpl. congruence. Qed.
#[local] Hint Resolve store_arp_keeps store_tcp_keeps : keep.

Lemma arp_write_keeps ps i : keeps (arp_write ps i).
Proof. unfold arp_write, as_arp_args. keep. Qed.
Lemma arp_read_packet_keeps h ps k hd i : expected h ArpHandler → keeps (arp_read_packet h ps k hd i).
Proof.
  intros Hh. unfold arp_read_packet. destruct (_ && _); [|keep]. apply load_arp_keeps; [done|]. intros p. keep.
Qed.
Lemma arp_read_socket_keeps h ps k i : expected h ArpHandler → keeps (arp_read_socket h ps k i).
Proof.
  intros Hh. unfold arp_read_socket. apply load_arp_keeps; [done|]. intros p. destruct (ap_socket p); [|keep].
  apply keeps_bind; [keep|intros s]. destruct (as_next_handler s); [|keep].
  do 7 (apply keeps_bind; [keep|intros ?]). apply load_arp_keeps; [done|]. intros p'. keep.
Qed.
#[local] Hint Resolve arp_read_packet_keeps arp_read_socket_keeps : keep.
Lemma arp_read_keeps ps i h : expected h ArpHandler → keeps (arp_read ps i h).
Proof. intros Hh. unfold arp_read. keep. Qed.

Lemma arp_set_socket_keeps h s : expected h ArpHandler → keeps (arp_set_socket h s).
Proof. intros Hh. unfold arp_set_socket. apply load_arp_keeps; [done|]. intros p. keep. Qed.
Lemma tcp_add_socket_keeps h s : expected h TcpHandler → keeps (tcp_add_socket h s).
Proof. intros Hh. unfold tcp_add_socket. apply load_tcp_keeps; [done|]. intros p. keep. Qed.

(** *** TCP *)
Lemma find_tcb_keeps slots id : keeps (find_tcb slots id).
Proof. induction slots as [|[a|] slots IH]; simpl; keep. Qed.
Lemma free_connection_keeps a : keeps (delete_transmission_control_block a).
Proof. unfold delete_transmission_control_block. keep. Qed.
#[local] Hint Resolve free_connection_keeps : keep.
Lemma delete_tcbs_keeps slots id : keeps (delete_tcbs slots id).
Proof. induction slots as [|[a|] slots IH]; simpl; keep. Qed.
Lemma find_socket_keeps l ip port : keeps (find_socket l ip port).
Proof. induction l as [|[a|] l IH]; simpl; keep. Qed.
#[local] Hint Resolve find_tcb_keeps delete_tcbs_keeps find_socket_keeps : keep.
Lemma get_tcb_keeps s id : keeps (tcp_get_transmission_control_block s id).
Proof. unfold tcp_get_transmission_control_block. keep. Qed.
Lemma delete_tcb_keeps s id : keeps (tcp_delete_transmission_control_block s id).
Proof. unfold tcp_delete_transmission_control_block. keep. Qed.
Lemma add_tcb_keeps s a : keeps (tcp_add_transmission_control_block s a).
Proof. unfold tcp_add_transmission_control_block. keep. Qed.
Lemma get_socket_keeps h ip port : expected h TcpHandler → keeps (tcp_get_socket h ip port).
Proof. intros Hh. unfold tcp_get_socket. apply load_tcp_keeps; [done|]. intros p. keep. Qed.
Lemma create_tcb_keeps h id hd ip st :
  expected h TcpHandler → keeps (tcp_create_transmission_control_block h id hd ip st).
Proof.
  intros Hh. unfold tcp_create_transmission_control_block, tcp_shared_generate_sequence_number.
  apply keeps_load_handler. intros x Hx Ht. apply keeps_bind; [keep|intros iss].
  apply keeps_bind; [apply as_tcp_priv_keeps; by apply (expected_kind h)|intros p]. keep.
Qed.
#[local] Hint Resolve get_tcb_keeps delete_tcb_keeps add_tcb_keeps get_socket_keeps create_tcb_keeps
  : keep.

Lemma as_tcp_args_keeps a : keeps (as_tcp_args a).
Proof. unfold as_tcp_args. keep. Qed.
Lemma tcp_write_flush_keeps fuel ps a i : keeps (tcp_write_flush fuel ps a i).
Proof. induction fuel as [|fuel IH]; cbn [tcp_write_flush]; keep. Qed.
Lemma tcp_write_header_keeps a port ip flags size : keeps (tcp_write_header a port ip flags size).
Proof. unfold tcp_write_header. keep. Qed.
#[local] Hint Resolve as_tcp_args_keeps tcp_write_flush_keeps tcp_write_header_keeps : keep.
Lemma tcp_write_keeps ps i : keeps (tcp_write ps i).
Proof. unfold tcp_write. keep. Qed.

Lemma segment_reply_keeps h a ps s flags i : keeps (segment_reply h a ps s flags i).
Proof. unfold segment_reply, tcp_internal_write. keep. Qed.
Lemma set_tcb_keeps a f : keeps (set_tcb a f).
Proof. unfold set_tcb. keep. Qed.
Lemma drop_head_keeps a : keeps (drop_head a).
Proof. unfold drop_head, set_tcb. keep. Qed.
Lemma head_packet_keeps a : keeps (head_packet a).
Proof. unfold head_packet. keep. Qed.
Lemma packet_headers_keeps size ps : keeps (packet_headers size ps).
Proof. unfold packet_headers. keep. Qed.
Lemma need_header_keeps size ps : keeps (need_header size ps).
Proof. apply keeps_bind; [apply packet_headers_keeps|intros ?; keep]. Qed.
Lemma packet_socket_keeps h ip tcp : expected h TcpHandler → keeps (packet_socket h ip tcp).
Proof. intros Hh. unfold packet_socket. keep. Qed.
Lemma call_on_connect_keeps s : keeps (call_on_connect s).
Proof. unfold call_on_connect. keep. Qed.
Lemma call_on_close_keeps s : keeps (call_on_close s).
Proof. unfold call_on_close. keep. Qed.
Lemma payload_pointer_keeps ps hd : keeps (payload_pointer ps hd).
Proof. unfold payload_pointer. keep. Qed.
#[local] Hint Resolve segment_reply_keeps set_tcb_keeps drop_head_keeps head_packet_keeps
  packet_headers_keeps need_header_keeps packet_socket_keeps call_on_connect_keeps call_on_close_keeps
  payload_pointer_keeps : keep.
Lemma receive_payload_keeps h s a ps i p size : keeps (tcp_receive_payload h s a ps i p size).
Proof. unfold tcp_receive_payload. keep. Qed.
Lemma drop_and_continue_keeps a : keeps (drop_and_continue a).
Proof. unfold drop_and_continue. keep. Qed.
#[local] Hint Resolve receive_payload_keeps drop_and_continue_keeps : keep.

Lemma tcp_others_one_keeps h a i : expected h TcpHandler → keeps (tcp_others_one h a i).
Proof.
  intros Hh.
  unfold tcp_others_one, tcp_others_in_window, tcp_others_out_of_window, tcp_others_reset,
    tcp_others_synchronise, tcp_others_acknowledge, tcp_others_acknowledge_data,
    tcp_others_payload, tcp_others_finish, and_then. keep.
Qed.
#[local] Hint Resolve tcp_others_one_keeps : keep.
Lemma state_function_keeps f h a n i :
  expected h TcpHandler → keeps (call_state_function f h a n i).
Proof.
  intros Hh. destruct f; simpl.
  - assert (keeps (tcp_close_loop h a n i)).
    { induction n as [|n IH]; simpl; [keep|]. unfold tcp_close_one. keep. }
    unfold tcp_close. keep.
  - unfold tcp_listen. keep.
  - unfold tcp_syn_sent, tcp_syn_sent_synchronise. keep.
  - induction n as [|n IH]; simpl; keep.
Qed.
#[local] Hint Resolve state_function_keeps : keep.
Lemma tcp_read_keeps ps i h : expected h TcpHandler → keeps (tcp_read ps i h).
Proof. intros Hh. unfold tcp_read, tcp_read_connection, tcp_read_segment. keep. Qed.

Lemma socket_connect_keeps h s args lp ip rp :
  expected h TcpHandler → keeps (tcp_socket_connect h s args lp ip rp).
Proof. intros Hh. unfold tcp_socket_connect, store_client_args, top_of. keep. Qed.
Lemma socket_send_keeps s id buffer : keeps (tcp_socket_send s id buffer).
Proof. unfold tcp_socket_send, store_client_args, top_of. keep. Qed.

Lemma write_operation_keeps kind ps i : keeps (write_operation d kind ps i).
Proof.
  destruct kind; simpl; try apply tcp_write_keeps; try apply arp_write_keeps;
    [apply ethernet_keeps|apply ipv4_keeps|apply llc_keeps|apply custom_keeps]; exact 0%nat.
Qed.
Lemma read_operation_keeps kind ps i h : expected h kind → keeps (read_operation d kind ps i h).
Proof.
  intros Hh. destruct kind; simpl; try (by apply tcp_read_keeps); try (by apply arp_read_keeps);
    [apply ethernet_keeps|apply ipv4_keeps|apply llc_keeps|apply custom_keeps].
Qed.
End Operations.

(** ** The whole stack *)

(** Events whose handlers are of the kind their operation is of. *)
Definition event_typed `{!Kinds} (e : event) : Prop :=
  match e with
  | Connect handler _ _ _ _ _ | OpenSocket handler _ _ _ _ _ _ => expected handler TcpHandler
  | SetArpSocket handler _ => expected handler ArpHandler
  | _ => True
  end.

Section WholeStack.
Context `{!Platform} `{!Kinds}.

#[export] Instance dispatch_keeping fuel : Keeping (dispatch fuel).
Proof.
  induction fuel as [|fuel IH]; [done|]. split; intros; simpl; apply keeps_load_handler; intros x Hx Ht;
    [apply write_operation_keeps|by apply read_operation_keeps].
Qed.

Lemma consume_packet_keeps (d : Dispatch) `{!Keeping d} hs frame i : keeps (consume_packet d hs frame i).
Proof. destruct hs as [|h [|h' hs]]; simpl; keep. Qed.

Lemma delete_socket_keeps s : keeps (tcp_delete_socket s).
Proof.
  assert (∀ l, keeps (tcp_delete_socket_loop l)).
  { intros l. induction l as [|[a|] l IH]; simpl; unfold delete_transmission_control_block; keep. }
  unfold tcp_delete_socket. keep.
Qed.

Lemma close_handler_keeps h : keeps (close_handler h).
Proof.
  assert (keeps (free_priv h)) as Hf.
  { unfold free_priv. keep; by apply keeps_store_priv. }
  unfold close_handler. apply keeps_load_handler. intros x _ _. destruct (h_operations x); exact Hf.
Qed.

Lemma handle_keeps fuel e : event_typed e → keeps (handle fuel e).
Proof.
  pose proof (dispatch_keeping fuel).
  destruct e; simpl; intros He; auto using arp_set_socket_keeps, delete_socket_keeps, close_handler_keeps.
  - apply consume_packet_keeps, _.
  - apply keeps_bind; [by apply socket_connect_keeps|intros; keep].
  - apply keeps_bind; [apply socket_send_keeps|intros; keep].
  - unfold tcp_create_socket. pose proof tcp_add_socket_keeps. keep.
  - unfold arp_socket_send. keep.
Qed.

Lemma run_keeps fuel es : Forall event_typed es → keeps (run fuel es).
Proof.
  induction 1 as [|e es He _ IH]; simpl; [keep|]. apply keeps_bind; [by apply handle_keeps|done].
Qed.
End WholeStack.

(** The kinds of the handlers of a state. *)
Definition kinds (w : world) : Kinds :=
  {| known := True; kind_of a := h_operations <$> w_handlers w !! a |}.
#[local] Definition unknown_kinds : Kinds := {| known := False; kind_of _ := None |}.

(** Whatever the handlers are, what was given to the interface stays. *)
Lemma consume_packet_wire `{!Platform} fuel hs frame i w w' :
  consume_packet (dispatch fuel) hs frame i w = Ok (tt, w') → w_wire w `prefix_of` w_wire w'.
Proof.
  intros Hr. destruct (consume_packet_keeps (H0 := unknown_kinds) (dispatch fuel) hs frame i w) as [_ Hk];
    [by split|]. unfold wlp in Hk. rewrite Hr in Hk. apply Hk.
Qed.

(** C18: the private data of the ARP and the TCP handlers are never confused.  When in a state the private
    data of every handler are of the type its operations cast them to, and the application
    calls name handlers of the right kind, no sequence of received frames and
    application calls casts the private data of another handler to those of ARP or TCP, whatever
    the frames are and wherever else the run may end (the custom handler, which takes itself from the
    packet stack, is not covered); in the end the private data are typed as
    before, handlers have neither appeared nor changed their kind, and
    what was written to the interface or called back is never taken back or reordered. *)
Theorem private_data_typed `{!Platform} fuel es w :
  map_Forall (λ _ h, priv_typed h) (w_handlers w) → Forall (@event_typed (kinds w)) es →
  run fuel es w ≠ Fault PrivConfusion ∧
  ∀ w', run fuel es w = Ok (tt, w') →
    map_Forall (λ _ h, priv_typed h) (w_handlers w') ∧
    (∀ a, h_operations <$> w_handlers w' !! a = h_operations <$> w_handlers w !! a) ∧
    w_wire w `prefix_of` w_wire w' ∧ w_calls w `prefix_of` w_calls w'.
Proof.
  intros Hw Hes. assert (@typed (kinds w) w) as Hty by (split; [done|intros a h _; exact (Hw a h)]).
  destruct (run_keeps (H0 := kinds w) fuel es Hes w Hty) as [Hu Hk]. split; [exact (Hu I)|].
  intros w' Hr. unfold wlp in Hk. rewrite Hr in Hk. destruct Hk as [H1 H2 H3].
  destruct (H3 Hty) as [Hkind Hpriv]. split_and!; [intros a h; exact (Hpriv a h I)|intros a; exact (Hkind a I)|done..].
Qed.
