(* ===== verification/Rings.v ===== *)
(** * Rings: what the offloader and the workers use of DPDK

    The operations of [rte_ring], [rte_mempool] and [rte_mbuf] the sources call, as
    interfaces with the behaviour DPDK documents for them, and one simple implementation
    of each, at which the theorems of the clients are evaluated. *)

From S2P Require Import Prelude.

(** ** [rte_ring]

    A bounded queue.  An enqueue gives 0, or an error when the ring is full; a dequeue of
    several elements gives all of them or none.  Every operation is atomic. *)

Class RteRing (R : Type → Type) := {
  ring_contents {A} : R A → list A;
  ring_capacity {A} : R A → nat;
  rte_ring_create A : nat → R A;
  rte_ring_enqueue {A} : A → R A → Z * R A;
  rte_ring_dequeue {A} : R A → option A * R A;
  rte_ring_dequeue_bulk {A} : nat → R A → list A * R A
}.

Class RteRingLaws R `{RteRing R} : Prop := {
  create_contents A count : ring_contents (rte_ring_create A count) = [];
  (* one slot is never used *)
  create_capacity A count : ring_capacity (rte_ring_create A count) = pred count;
  enqueue_room {A} (x : A) r :
    (length (ring_contents r) < ring_capacity r)%nat →
    fst (rte_ring_enqueue x r) = 0 ∧
    ring_contents (snd (rte_ring_enqueue x r)) = ring_contents r ++ [x];
  enqueue_full {A} (x : A) r :
    (ring_capacity r <= length (ring_contents r))%nat →
    fst (rte_ring_enqueue x r) ≠ 0 ∧ ring_contents (snd (rte_ring_enqueue x r)) = ring_contents r;
  enqueue_capacity {A} (x : A) r : ring_capacity (snd (rte_ring_enqueue x r)) = ring_capacity r;
  dequeue_spec {A} (r : R A) :
    fst (rte_ring_dequeue r) = head (ring_contents r) ∧
    ring_contents (snd (rte_ring_dequeue r)) = tail (ring_contents r);
  dequeue_capacity {A} (r : R A) : ring_capacity (snd (rte_ring_dequeue r)) = ring_capacity r;
  bulk_enough {A} n (r : R A) :
    (n <= length (ring_contents r))%nat →
    fst (rte_ring_dequeue_bulk n r) = take n (ring_contents r) ∧
    ring_contents (snd (rte_ring_dequeue_bulk n r)) = drop n (ring_contents r);
  bulk_short {A} n (r : R A) :
    (length (ring_contents r) < n)%nat →
    fst (rte_ring_dequeue_bulk n r) = [] ∧
    ring_contents (snd (rte_ring_dequeue_bulk n r)) = ring_contents r;
  bulk_capacity {A} n (r : R A) : ring_capacity (snd (rte_ring_dequeue_bulk n r)) = ring_capacity r
}.

Section RingFacts.
Context `{RteRingLaws R} {A : Type}.
Implicit Types r : R A.

Lemma enqueue_sublist (x : A) r :
  ring_contents (snd (rte_ring_enqueue x r)) `sublist_of` ring_contents r ++ [x].
Proof.
  destruct (decide (length (ring_contents r) < ring_capacity r)%nat).
  - by rewrite (proj2 (enqueue_room x r ltac:(done))).
  - rewrite (proj2 (enqueue_full x r ltac:(lia))). by apply sublist_inserts_r.
Qed.
Lemma enqueue_prefix (x : A) r :
  ring_contents r `prefix_of` ring_contents (snd (rte_ring_enqueue x r)).
Proof.
  destruct (decide (length (ring_contents r) < ring_capacity r)%nat).
  - rewrite (proj2 (enqueue_room x r ltac:(done))). by apply prefix_app_r.
  - by rewrite (proj2 (enqueue_full x r ltac:(lia))).
Qed.

(** What is taken and what is left is what was there. *)
Lemma dequeue_app r :
  ring_contents r =
  option_list (fst (rte_ring_dequeue r)) ++ ring_contents (snd (rte_ring_dequeue r)).
Proof. destruct (dequeue_spec r) as [-> ->]. by destruct (ring_contents r). Qed.
Lemma bulk_app n r :
  ring_contents r =
  fst (rte_ring_dequeue_bulk n r) ++ ring_contents (snd (rte_ring_dequeue_bulk n r)).
Proof.
  destruct (decide (n <= length (ring_contents r))%nat).
  - destruct (bulk_enough n r) as [-> ->]; [done|]. by rewrite take_drop.
  - destruct (bulk_short n r) as [-> ->]; [lia|]. done.
Qed.
Lemma bulk_length n r :
  length (fst (rte_ring_dequeue_bulk n r)) = 0%nat ∨ length (fst (rte_ring_dequeue_bulk n r)) = n.
Proof.
  destruct (decide (n <= length (ring_contents r))%nat).
  - right. rewrite (proj1 (bulk_enough n r ltac:(done))), length_take. lia.
  - left. by rewrite (proj1 (bulk_short n r ltac:(lia))).
Qed.
End RingFacts.

(** ** [rte_mbuf] and its pool *)

Record rte_mbuf := { mb_id : nat; mb_port : nat; mb_data : list Z }.
#[export] Instance eta_rte_mbuf : Eta rte_mbuf := λ r, Build_rte_mbuf (mb_id r) (mb_port r) (mb_data r).

(** [rte_pktmbuf_alloc_bulk] retrieves all the buffers it is asked for, or none. *)
Class Mempool (P : Type) := {
  pool_available : P → nat;
  (* the bytes of a buffer behind its headroom *)
  mbuf_data_room : nat;
  rte_pktmbuf_alloc_bulk : nat → P → option (list rte_mbuf) * P;
  rte_pktmbuf_free : rte_mbuf → P → P
}.
Class MempoolLaws P `{Mempool P} : Prop := {
  alloc_enough n p :
    (n <= pool_available p)%nat →
    ∃ l, fst (rte_pktmbuf_alloc_bulk n p) = Some l ∧ length l = n ∧
      pool_available (snd (rte_pktmbuf_alloc_bulk n p)) = (pool_available p - n)%nat;
  alloc_short n p : (pool_available p < n)%nat → rte_pktmbuf_alloc_bulk n p = (None, p);
  free_available m p : pool_available (rte_pktmbuf_free m p) = S (pool_available p)
}.

(** ** A simple implementation *)

Record list_ring (A : Type) := { lr_list : list A; lr_capacity : nat }.
Arguments lr_list {A}. Arguments lr_capacity {A}. Arguments Build_list_ring {A}.

#[export] Instance list_rte_ring : RteRing list_ring := {|
  ring_contents _ := lr_list;
  ring_capacity _ := lr_capacity;
  rte_ring_create _ count := {| lr_list := []; lr_capacity := pred count |};
  rte_ring_enqueue _ x r :=
    if bool_decide (length (lr_list r) < lr_capacity r)%nat
    then (0, {| lr_list := lr_list r ++ [x]; lr_capacity := lr_capacity r |}) else (-105, r);
  rte_ring_dequeue _ r :=
    (head (lr_list r), {| lr_list := tail (lr_list r); lr_capacity := lr_capacity r |});
  rte_ring_dequeue_bulk _ n r :=
    if bool_decide (n <= length (lr_list r))%nat
    then (take n (lr_list r), {| lr_list := drop n (lr_list r); lr_capacity := lr_capacity r |})
    else ([], r)
|}.

#[export] Instance list_rte_ring_laws : RteRingLaws list_ring.
Proof.
  split; intros; simpl in *; try done;
    repeat first [rewrite bool_decide_eq_true_2 by lia|rewrite bool_decide_eq_false_2 by lia]; try done;
    by case_bool_decide.
Qed.

(** Buffers are numbered, and a pool is the numbers that are free. *)
#[export] Instance count_mempool : Mempool (list nat) := {|
  pool_available := length;
  mbuf_data_room := 2048;
  rte_pktmbuf_alloc_bulk n p :=
    if bool_decide (n <= length p)%nat
    then (Some (map (λ i, {| mb_id := i; mb_port := 0; mb_data := [] |}) (take n p)), drop n p)
    else (None, p);
  rte_pktmbuf_free m p := mb_id m :: p
|}.

#[export] Instance count_mempool_laws : MempoolLaws (list nat).
Proof.
  split; intros; simpl in *; [|by rewrite bool_decide_eq_false_2 by lia|done].
  rewrite bool_decide_eq_true_2 by lia. eexists. split; [done|]. simpl.
  rewrite length_map, length_take, length_drop. lia.
Qed.
