(* ===== verification/Offloader.v ===== *)
(** * Offloader: packets between the device, the workers and the stack

    [offloader_loop] of [main.c] moves received buffers to the work queues and frames from
    the write queue to the device; [consume_tasks] of [worker.c] moves them from the work
    queue through the stack; [dpdk/write.c] and [dpdk/packet.c] are what the stack and the
    worker call.  The offloader and one worker run in parallel and share the two rings: a
    run of both is a sequence of atomic steps, one per operation on a ring. *)

From stdpp Require Import relations.
From S2P Require Import Prelude Rings Headers ProtocolMap BlockBuffer State.
From S2P Require Import Stack Lifecycle Traces.

Definition MAX_PKT_BURST : nat := 32.
Definition QUEUE_SIZE : nat := 64.
Definition WRITE_QUEUE_SIZE : nat := 8.

(** ** The loop of the offloader *)

(** What the loop works on: the work queue of each worker, [dpdk_write_write_queue],
    [pktmbuf_pool], the first two slots of [write_buffers] ([None]: never set, or handed
    to the device), and the frames the device has taken.  An out buffer is the frame it
    holds, the bytes from [offset] to [size]. *)
Record offloader (R : Type → Type) (P : Type) := {
  of_work_queues : list (R rte_mbuf);
  of_write_queue : R (list Z);
  of_pool : P;
  of_write_buffers : list (option rte_mbuf);
  of_sent : list (list Z)
}.
Arguments of_work_queues {R P}. Arguments of_write_queue {R P}. Arguments of_pool {R P}.
Arguments of_write_buffers {R P}. Arguments of_sent {R P}. Arguments Build_offloader {R P}.
#[export] Instance eta_offloader R P : Eta (offloader R P) := λ r,
  Build_offloader (of_work_queues r) (of_write_queue r) (of_pool r) (of_write_buffers r) (of_sent r).

Section Offloader.
Context {R : Type → Type} `{!RteRing R} {P : Type} `{!Mempool P}.
Abbreviation offloader := (offloader R P).

(** The body of the first [for]: the result of the enqueue is ignored. *)
Definition distribute_one (j : nat) (buffer : rte_mbuf) : M offloader unit :=
  workers <- gets of_work_queues;;
  let worker := (j mod length workers)%nat in
  work_queue <- need OutOfBounds (workers !! worker);;
  modify (λ s, s <| of_work_queues ::= <[worker := snd (rte_ring_enqueue buffer work_queue)]> |>).
Fixpoint distribute (j : nat) (read_buffers : list rte_mbuf) : M offloader unit :=
  match read_buffers with
  | [] => ret tt
  | buffer :: read_buffers => distribute_one j buffer;;; distribute (S j) read_buffers
  end.

(** The second [for]: each frame is copied to the start of a buffer. *)
Fixpoint copy_frames (i : nat) (out_buffers : list (list Z)) : M offloader unit :=
  match out_buffers with
  | [] => ret tt
  | frame :: out_buffers =>
      let data_length := u16 (Z.of_nat (length frame)) in
      write_buffers <- gets of_write_buffers;;
      slot <- need OutOfBounds (write_buffers !! i);;
      buffer <- need Dangling slot;;
      (if Z.of_nat (mbuf_data_room (P := P)) <? data_length then fail OutOfBounds else ret tt);;;
      modify (λ s, s <| of_write_buffers ::=
        <[i := Some (buffer <| mb_data := take (Z.to_nat data_length) frame |>)]> |>);;;
      copy_frames (S i) out_buffers
  end.

(** [rte_eth_tx_burst] of both slots; the device takes the first [packages_sent]. *)
Definition tx_burst (packages_sent : nat) : M offloader unit :=
  modify (λ s, s
    <| of_sent ::= λ sent, sent ++ map mb_data (omap id (take packages_sent (of_write_buffers s))) |>
    <| of_write_buffers ::= λ l, replicate packages_sent None ++ drop packages_sent l |>).

(** A failed allocation leaves the slots as they are. *)
Definition alloc_write_buffers : M offloader unit :=
  allocated <- gets (λ s, rte_pktmbuf_alloc_bulk 2 (of_pool s));;
  modify (λ s, s <| of_pool := snd allocated |>);;;
  match fst allocated with
  | Some buffers => modify (λ s, s <| of_write_buffers := map Some buffers |>)
  | None => ret tt
  end.

(** The rest of the loop body. *)
Definition transmit (packages_sent : nat) : M offloader unit :=
  dequeued <- gets (λ s, rte_ring_dequeue_bulk 2 (of_write_queue s));;
  modify (λ s, s <| of_write_queue := snd dequeued |>);;;
  alloc_write_buffers;;;
  match fst dequeued with
  | [] => ret tt
  | out_buffers => copy_frames 0 out_buffers;;; tx_burst packages_sent
  end.

(** One round; [read_buffers] is what [rte_eth_rx_burst] returns. *)
Definition offloader_iteration (read_buffers : list rte_mbuf) (packages_sent : nat)
    : M offloader unit :=
  match read_buffers with
  | [] => ret tt
  | _ => distribute 0 read_buffers;;; transmit packages_sent
  end.

(** The loop until [force_quit], with what the device does in each round. *)
Fixpoint offloader_loop (device : list (list rte_mbuf * nat)) : M offloader unit :=
  match device with
  | [] => ret tt
  | (read_buffers, packages_sent) :: device =>
      offloader_iteration read_buffers packages_sent;;; offloader_loop device
  end.

(** [dpdk_write_write]: a full ring is only logged. *)
Definition dpdk_write_write (out_buffer : list Z) : M offloader unit :=
  modify (λ s, s <| of_write_queue ::= λ r, snd (rte_ring_enqueue out_buffer r) |>).

(** [dpdk/packet.c] *)
Definition dpdk_packet_get_packet_buffer (packet : rte_mbuf) : list Z := mb_data packet.
Definition dpdk_packet_free_packet (packet : rte_mbuf) : M offloader unit :=
  modify (λ s, s <| of_pool ::= rte_pktmbuf_free packet |>).
Definition dpdk_packet_get_interface (interfaces : list interface_t) (packet : rte_mbuf)
    : option interface_t :=
  interfaces !! mb_port packet.

(** What the loop starts from: [main] creates the rings with one worker. *)
Definition initial_offloader (pool : P) : offloader :=
  {| of_work_queues := [rte_ring_create _ QUEUE_SIZE];
     of_write_queue := rte_ring_create _ WRITE_QUEUE_SIZE;
     of_pool := pool; of_write_buffers := [None; None]; of_sent := [] |}.
End Offloader.

(** ** The offloader and a worker in parallel *)

(** [sys_pc]: where the offloader is; [None] at the top of the loop, [Some (j, l)] with the
    buffers [l] still to be distributed, from the [j]th on.  [sys_busy]: the packet the worker
    reads; [sys_pending]: the frames its handlers have written in that and that are not yet
    in the write queue.  The last two fields record what was received and freed. *)
Record system (R : Type → Type) (P : Type) := {
  sys_offloader : offloader R P;
  sys_pc : option (nat * list rte_mbuf);
  sys_world : world;
  sys_busy : option rte_mbuf;
  sys_pending : list (list Z);
  sys_received : list rte_mbuf;
  sys_consumed : list rte_mbuf
}.
Arguments sys_offloader {R P}. Arguments sys_pc {R P}. Arguments sys_world {R P}.
Arguments sys_busy {R P}. Arguments sys_pending {R P}. Arguments sys_received {R P}.
Arguments sys_consumed {R P}. Arguments Build_system {R P}.
#[export] Instance eta_system R P : Eta (system R P) := λ r,
  Build_system (sys_offloader r) (sys_pc r) (sys_world r) (sys_busy r) (sys_pending r)
    (sys_received r) (sys_consumed r).

Inductive label : Type :=
  | Rx (read_buffers : list rte_mbuf)
  | Distribute
  | Transmit (packages_sent : nat)
  | Take
  | Enqueue
  | Done.

Section System.
Context {R : Type → Type} `{!RteRing R} {P : Type} `{!Mempool P} `{!Platform}.
Abbreviation system := (system R P).
Variables (fuel : nat) (handlers : list addr) (interfaces : list interface_t).

Inductive sys_step : label → system → system → Prop :=
  | step_rx read_buffers s :
      sys_pc s = None → read_buffers ≠ [] →
      sys_step (Rx read_buffers) s
        (s <| sys_pc := Some (0%nat, read_buffers) |> <| sys_received ::= λ l, l ++ read_buffers |>)
  | step_distribute j buffer read_buffers s o :
      sys_pc s = Some (j, buffer :: read_buffers) →
      distribute_one j buffer (sys_offloader s) = Ok (tt, o) →
      sys_step Distribute s (s <| sys_offloader := o |> <| sys_pc := Some (S j, read_buffers) |>)
  | step_transmit packages_sent j s o :
      sys_pc s = Some (j, []) → (packages_sent <= 2)%nat →
      transmit packages_sent (sys_offloader s) = Ok (tt, o) →
      sys_step (Transmit packages_sent) s (s <| sys_offloader := o |> <| sys_pc := None |>)
  | step_take s q m i w :
      sys_busy s = None → of_work_queues (sys_offloader s) !! 0%nat = Some q →
      fst (rte_ring_dequeue q) = Some m →
      dpdk_packet_get_interface interfaces m = Some i →
      consume_packet (dispatch fuel) handlers (dpdk_packet_get_packet_buffer m) i (sys_world s)
        = Ok (tt, w) →
      sys_step Take s
        (s <| sys_offloader ::= λ o, o <| of_work_queues ::= <[0%nat := snd (rte_ring_dequeue q)]> |> |>
           <| sys_world := w |> <| sys_busy := Some m |>
           <| sys_pending := drop (length (w_wire (sys_world s))) (w_wire w) |>)
  | step_enqueue s frame pending o :
      sys_pending s = frame :: pending →
      dpdk_write_write frame (sys_offloader s) = Ok (tt, o) →
      sys_step Enqueue s (s <| sys_offloader := o |> <| sys_pending := pending |>)
  | step_done s m o :
      sys_busy s = Some m → sys_pending s = [] →
      dpdk_packet_free_packet m (sys_offloader s) = Ok (tt, o) →
      sys_step Done s
        (s <| sys_offloader := o |> <| sys_busy := None |> <| sys_consumed ::= λ l, l ++ [m] |>).

(** The step with a label, when it is enabled. *)
Definition sys_exec (l : label) (s : system) : option system :=
  match l with
  | Rx read_buffers =>
      match sys_pc s, read_buffers with
      | None, _ :: _ =>
          Some (s <| sys_pc := Some (0%nat, read_buffers) |> <| sys_received ::= λ l, l ++ read_buffers |>)
      | _, _ => None
      end
  | Distribute =>
      match sys_pc s with
      | Some (j, buffer :: read_buffers) =>
          match distribute_one j buffer (sys_offloader s) with
          | Ok (_, o) => Some (s <| sys_offloader := o |> <| sys_pc := Some (S j, read_buffers) |>)
          | _ => None
          end
      | _ => None
      end
  | Transmit packages_sent =>
      match sys_pc s with
      | Some (_, []) =>
          if decide (packages_sent <= 2)%nat then
            match transmit packages_sent (sys_offloader s) with
            | Ok (_, o) => Some (s <| sys_offloader := o |> <| sys_pc := None |>)
            | _ => None
            end
          else None
      | _ => None
      end
  | Take =>
      match sys_busy s, of_work_queues (sys_offloader s) !! 0%nat with
      | None, Some q =>
          m ← fst (rte_ring_dequeue q);
          i ← dpdk_packet_get_interface interfaces m;
          match consume_packet (dispatch fuel) handlers (dpdk_packet_get_packet_buffer m) i (sys_world s) with
          | Ok (_, w) =>
              Some (s <| sys_offloader ::= λ o,
                           o <| of_work_queues ::= <[0%nat := snd (rte_ring_dequeue q)]> |> |>
                      <| sys_world := w |> <| sys_busy := Some m |>
                      <| sys_pending := drop (length (w_wire (sys_world s))) (w_wire w) |>)
          | _ => None
          end
      | _, _ => None
      end
  | Enqueue =>
      match sys_pending s with
      | frame :: pending =>
          match dpdk_write_write frame (sys_offloader s) with
          | Ok (_, o) => Some (s <| sys_offloader := o |> <| sys_pending := pending |>)
          | _ => None
          end
      | [] => None
      end
  | Done =>
      match sys_busy s, sys_pending s with
      | Some m, [] =>
          match dpdk_packet_free_packet m (sys_offloader s) with
          | Ok (_, o) =>
              Some (s <| sys_offloader := o |> <| sys_busy := None |> <| sys_consumed ::= λ l, l ++ [m] |>)
          | _ => None
          end
      | _, _ => None
      end
  end.
Fixpoint sys_run (ls : list label) (s : system) : option system :=
  match ls with [] => Some s | l :: ls => s' ← sys_exec l s; sys_run ls s' end.

Inductive sys_steps : list label → system → system → Prop :=
  | steps_nil s : sys_steps [] s s
  | steps_cons l ls s1 s2 s3 : sys_step l s1 s2 → sys_steps ls s2 s3 → sys_steps (l :: ls) s1 s3.
End System.

Definition initial_system {R P} `{!RteRing R} (pool : P) (w : world) : system R P :=
  {| sys_offloader := initial_offloader pool; sys_pc := None; sys_world := w; sys_busy := None;
     sys_pending := []; sys_received := []; sys_consumed := [] |}.

Section Executable.
Context {R : Type → Type} `{!RteRing R} {P : Type} `{!Mempool P} `{!Platform}.

Ltac exec_cases :=
  repeat match goal with
  | H : (match ?x with _ => _ end) = Some _ |- _ => destruct x eqn:?; try done
  | u : unit |- _ => destruct u
  | H : (_ ← _; _) = Some _ |- _ => apply bind_Some in H as (? & ? & H)
  end.

Lemma sys_exec_sound fuel handlers interfaces l (s s' : system R P) :
  sys_exec fuel handlers interfaces l s = Some s' → sys_step fuel handlers interfaces l s s'.
Proof.
  destruct l; cbn [sys_exec]; intros Hexec; exec_cases; injection Hexec as <-;
    [apply step_rx|eapply step_distribute|eapply step_transmit|eapply step_take|eapply step_enqueue
    |eapply step_done]; eauto.
Qed.
Lemma sys_run_sound fuel handlers interfaces ls (s s' : system R P) :
  sys_run fuel handlers interfaces ls s = Some s' → sys_steps fuel handlers interfaces ls s s'.
Proof.
  revert s. induction ls as [|l ls IH]; simpl; intros s Hrun; [injection Hrun as <-; constructor|].
  apply bind_Some in Hrun as (s1 & H1 & H2). econstructor; eauto using sys_exec_sound.
Qed.
End Executable.

(** ** Properties of one round *)

(** The length of a frame fits the [data_len] of a buffer. *)
Definition fits (frame : list Z) : Prop := Z.of_nat (length frame) < 65536.
(** What is copied of it. *)
Definition on_wire (frame : list Z) : list Z := take (Z.to_nat (u16 (Z.of_nat (length frame)))) frame.
Lemma on_wire_fits frame : fits frame → on_wire frame = frame.
Proof.
  unfold fits, on_wire, u16. intros H. rewrite Z.mod_small, Nat2Z.id by lia. apply firstn_all.
Qed.

Section Round.
Context {R : Type → Type} `{!RteRing R, !RteRingLaws R} {P : Type} `{!Mempool P, !MempoolLaws P}.
Implicit Types o : offloader R P.

Lemma distribute_one_ok j m o q :
  of_work_queues o = [q] →
  distribute_one j m o = Ok (tt, o <| of_work_queues := [snd (rte_ring_enqueue m q)] |>).
Proof.
  intros Hq. unfold distribute_one, gets, bind, need, modify, ret. rewrite Hq.
  change (length [q]) with 1%nat. rewrite Nat.mod_1_r. simpl. by rewrite Hq.
Qed.

Lemma copy_frame_inv i frame k o r :
  copy_frames (P := P) i (frame :: k) o = Ok (tt, r) →
  ∃ m, of_write_buffers o !! i = Some (Some m) ∧
    copy_frames i (frame :: k) o =
    copy_frames (S i) k (o <| of_write_buffers ::= <[i := Some (m <| mb_data := on_wire frame |>)]> |>).
Proof.
  intros H. cbn [copy_frames] in *. unfold gets, bind, need in *.
  destruct (of_write_buffers o !! i) as [[m|]|]; simpl in *; [|done..].
  exists m. split; [done|]. unfold modify, set_field in *. by destruct (_ <? _).
Qed.

Lemma alloc_write_buffers_spec o :
  ∃ buffers, alloc_write_buffers o = Ok (tt, o <| of_write_buffers := buffers |>
      <| of_pool := snd (rte_pktmbuf_alloc_bulk 2 (of_pool o)) |>) ∧
    if decide (2 <= pool_available (of_pool o))%nat
    then length buffers = 2%nat ∧ Forall is_Some buffers else buffers = of_write_buffers o.
Proof.
  unfold alloc_write_buffers, gets, bind, modify. destruct (decide _) as [Ha|Ha].
  - destruct (alloc_enough 2 (of_pool o) Ha) as (l & -> & Hl & _). exists (map Some l).
    split; [done|]. rewrite length_map. split; [done|]. apply Forall_forall. intros x Hx.
    apply list_elem_of_fmap in Hx as (y & -> & _). by eexists.
  - rewrite alloc_short by lia. exists (of_write_buffers o). by destruct o.
Qed.

(** What [transmit] does to the frames: as many as the device takes of the two it has
    dequeued are sent, in their order. *)
Lemma transmit_spec n o o' :
  transmit n o = Ok (tt, o') → (n <= 2)%nat → length (of_write_buffers o) = 2%nat →
  of_work_queues o' = of_work_queues o ∧ length (of_write_buffers o') = 2%nat ∧
  of_sent o' = of_sent o ++ map on_wire (take n (fst (rte_ring_dequeue_bulk 2 (of_write_queue o)))) ∧
  of_write_queue o' = snd (rte_ring_dequeue_bulk 2 (of_write_queue o)).
Proof.
  intros H Hn Hl. unfold transmit in H. unfold gets, bind, modify in H.
  destruct (rte_ring_dequeue_bulk 2 (of_write_queue o)) as [taken q'] eqn:Hd. cbn [fst snd] in H |- *.
  pose proof (bulk_length 2 (of_write_queue o)) as Hlen. rewrite Hd in Hlen. simpl in Hlen.
  match type of H with context [alloc_write_buffers ?x] =>
    destruct (alloc_write_buffers_spec x) as (buffers & E & Hb) end.
  simpl in Hb.
  assert (length buffers = 2%nat) as Hlb by (destruct (decide _); [by destruct Hb|by subst]).
  rewrite E in H. destruct taken as [|f1 [|f2 [|f3 taken]]]; simpl in Hlen; try (exfalso; lia).
  { injection H as <-. rewrite take_nil, app_nil_r. done. }
  match type of H with context [copy_frames 0 _ ?x] => set (o2 := x) in * end.
  destruct (copy_frames 0 [f1; f2] o2) as [[[] o3]| |] eqn:Hc; [|done..].
  pose proof Hc as Hc'. destruct (copy_frame_inv _ _ _ _ _ Hc) as (m1 & Hm1 & E1).
  rewrite E1 in Hc. destruct (copy_frame_inv _ _ _ _ _ Hc) as (m2 & Hm2 & E2). rewrite E2 in Hc.
  destruct buffers as [|b1 [|b2 [|]]]; try done.
  cbn [copy_frames] in Hc. unfold ret in Hc. injection Hc as <-. unfold tx_burst, modify in H.
  injection H as <-. unfold set_field. simpl.
  destruct n as [|[|[|n]]]; [done..|lia].
Qed.

(** Every frame is transmitted or lost with the second of its pair; the rest stays. *)
Lemma transmit_sublist n o o' :
  transmit n o = Ok (tt, o') → (n <= 2)%nat → length (of_write_buffers o) = 2%nat →
  Forall fits (ring_contents (of_write_queue o)) →
  of_sent o' ++ ring_contents (of_write_queue o')
    `sublist_of` of_sent o ++ ring_contents (of_write_queue o).
Proof.
  intros H Hn Hl Hf. destruct (transmit_spec n o o' H Hn Hl) as (_ & _ & -> & ->).
  rewrite <- app_assoc. apply sublist_app; [done|].
  pose proof (bulk_app 2 (of_write_queue o)) as E. rewrite E in Hf |- *.
  apply Forall_app in Hf as [Hf _]. apply sublist_app; [|done].
  rewrite (map_ext_Forall _ id), map_id; [apply sublist_take|].
  eapply Forall_impl; [|apply on_wire_fits]. eapply Forall_sublist; [apply sublist_take|done].
Qed.
End Round.

(** ** Properties of the two in parallel *)

Section Parallel.
Context {R : Type → Type} `{!RteRing R, !RteRingLaws R} {P : Type} `{!Mempool P, !MempoolLaws P}.
Context `{!Platform}.
Variables (fuel : nat) (handlers : list addr) (interfaces : list interface_t).
Implicit Types s : system R P.
Abbreviation step := (sys_step fuel handlers interfaces).
Abbreviation steps := (sys_steps fuel handlers interfaces).

(** What is on its way: packets to the stack, frames to the device. *)
Definition work_queue s : list rte_mbuf :=
  match of_work_queues (sys_offloader s) with q :: _ => ring_contents q | [] => [] end.
Definition write_queue s : list (list Z) := ring_contents (of_write_queue (sys_offloader s)).
Definition undistributed s : list rte_mbuf := match sys_pc s with Some (_, l) => l | None => [] end.

Record sys_inv s : Prop := {
  inv_worker : ∃ q, of_work_queues (sys_offloader s) = [q];
  inv_slots : length (of_write_buffers (sys_offloader s)) = 2%nat;
  inv_idle : sys_busy s = None → sys_pending s = [];
  inv_frames : Forall fits (w_wire (sys_world s)) →
    of_sent (sys_offloader s) ++ write_queue s ++ sys_pending s `sublist_of` w_wire (sys_world s);
  inv_packets :
    sys_consumed s ++ option_list (sys_busy s) ++ work_queue s ++ undistributed s
      `sublist_of` sys_received s
}.

Lemma initial_inv pool w : w_wire w = [] → sys_inv (initial_system pool w).
Proof.
  intros Hw. split; try done; [by eexists| |].
  - intros _. unfold write_queue. simpl. by rewrite create_contents, Hw.
  - unfold work_queue. simpl. by rewrite create_contents.
Qed.

(** One stage of a queue may drop the new element. *)
Lemma enqueue_stage {A} (a b c : list A) x r :
  a ++ b ++ ring_contents (snd (rte_ring_enqueue x r)) ++ c
    `sublist_of` a ++ b ++ ring_contents r ++ x :: c.
Proof.
  do 2 (apply sublist_app; [done|]). change (x :: c) with ([x] ++ c). rewrite app_assoc.
  apply sublist_app; [apply enqueue_sublist|done].
Qed.

Lemma step_inv l s s' : step l s s' → sys_inv s → sys_inv s'.
Proof.
  intros Hstep [[q Hq] Hsl Hid Hfr Hpk]. destruct Hstep as
    [rx s Hpc _|j m rx s o Hpc Hd|n j s o Hpc Hn Ht|s q' m i w Hb Hq' Hm Hi Hc|s f fs o Hp Hd|s m o Hb Hp Hd].
  - split; simpl; eauto. unfold work_queue, undistributed in *. simpl. rewrite Hpc, app_nil_r in Hpk.
    rewrite !app_assoc in *. by apply sublist_app.
  - rewrite (distribute_one_ok _ _ _ q) in Hd by done. injection Hd as <-.
    split; simpl; eauto. unfold work_queue, undistributed in *. simpl. rewrite Hq, Hpc in Hpk.
    etrans; [apply enqueue_stage|done].
  - destruct (transmit_spec n _ o Ht Hn Hsl) as (Hw & Hl & _). split; simpl; eauto.
    + exists q. by rewrite Hw.
    + intros Hf. specialize (Hfr Hf). etrans; [|exact Hfr]. rewrite !app_assoc.
      apply sublist_app; [|done]. apply (transmit_sublist n); try done.
      eapply Forall_sublist; [|exact Hf]. etrans; [|exact Hfr].
      by apply sublist_inserts_l, sublist_inserts_r.
    + unfold work_queue, undistributed in *. simpl. by rewrite Hw, Hpc in *.
  - rewrite Hq in Hq'. injection Hq' as <-. pose proof (dequeue_app q) as Hdq. rewrite Hm in Hdq.
    destruct (consume_packet_wire _ _ _ _ _ _ Hc) as [new Hnew].
    split; simpl; try done.
    + exists (snd (rte_ring_dequeue q)). by rewrite Hq.
    + rewrite Hnew, drop_app_length. intros [Hf _]%Forall_app. specialize (Hfr Hf).
      rewrite (Hid Hb), app_nil_r in Hfr. unfold write_queue in *. simpl. rewrite app_assoc.
      by apply sublist_app.
    + unfold work_queue, undistributed in *. simpl. rewrite Hq in *. rewrite Hb, Hdq in Hpk.
      by rewrite <- app_assoc in Hpk.
  - unfold dpdk_write_write, modify in Hd. injection Hd as <-. split; simpl; eauto.
    + intros Hb. by rewrite (Hid Hb) in Hp.
    + intros Hf. specialize (Hfr Hf). rewrite Hp in Hfr. etrans; [|exact Hfr].
      apply (enqueue_stage (of_sent (sys_offloader s)) []).
  - unfold dpdk_packet_free_packet, modify in Hd. injection Hd as <-. split; simpl; eauto.
    unfold work_queue, undistributed in *. simpl. rewrite Hb in Hpk. by rewrite <- app_assoc.
Qed.

Lemma steps_inv ls s s' : steps ls s s' → sys_inv s → sys_inv s'.
Proof. induction 1; eauto using step_inv. Qed.

(** The packets the worker has taken and not yet given back, then those behind them. *)
Definition in_work s : list rte_mbuf := option_list (sys_busy s) ++ work_queue s.

Definition count (f : label → bool) (ls : list label) : nat := length (filter (λ l, f l = true) ls).
Definition is_done (l : label) : bool := match l with Done => true | _ => false end.

Lemma count_cons f l ls : count f (l :: ls) = (if f l then S (count f ls) else count f ls).
Proof. unfold count. rewrite filter_cons. by destruct (f l). Qed.

(** One step serves packets in their order. *)
Lemma step_fifo l s s' :
  step l s s' → sys_inv s →
  (∃ added, sys_consumed s' ++ in_work s' = sys_consumed s ++ in_work s ++ added) ∧
  length (sys_consumed s') = (length (sys_consumed s) + if is_done l then 1 else 0)%nat.
Proof.
  intros Hstep [[q Hq] Hsl _ _ _]. unfold in_work, work_queue. destruct Hstep as
    [rx s Hpc _|j m rx s o Hpc Hd|n j s o Hpc Hn Ht|s q' m i w Hb Hq' Hm Hi Hc|s f fs o Hp Hd|s m o Hb Hp Hd];
    simpl; split; try lia.
  - exists []. by rewrite app_nil_r.
  - rewrite (distribute_one_ok _ _ _ q) in Hd by done. injection Hd as <-. simpl. rewrite Hq.
    destruct (enqueue_prefix m q) as [added ->]. exists added. by rewrite <- !app_assoc.
  - destruct (transmit_spec n _ o Ht Hn Hsl) as (-> & _). exists []. by rewrite app_nil_r.
  - rewrite Hq in Hq'. injection Hq' as <-. pose proof (dequeue_app q) as Hdq. rewrite Hm in Hdq.
    exists []. rewrite Hq, Hb, Hdq, app_nil_r. done.
  - injection Hd as <-. exists []. by rewrite app_nil_r.
  - injection Hd as <-. exists []. rewrite Hb, app_nil_r. simpl. by rewrite <- app_assoc.
  - rewrite length_app. done.
Qed.

Lemma steps_fifo ls s s' :
  steps ls s s' → sys_inv s →
  (∃ added, sys_consumed s' ++ in_work s' = sys_consumed s ++ in_work s ++ added) ∧
  length (sys_consumed s') = (length (sys_consumed s) + count is_done ls)%nat.
Proof.
  induction 1 as [s|l ls s1 s2 s3 H1 H2 IH]; intros Hi.
  - split; [|unfold count; simpl; lia]. exists []. by rewrite app_nil_r.
  - destruct (step_fifo _ _ _ H1 Hi) as [[a1 E1] L1].
    destruct (IH (step_inv _ _ _ H1 Hi)) as [[a2 E2] L2]. split.
    + exists (a1 ++ a2). rewrite E2. rewrite app_assoc, E1. by rewrite <- !app_assoc.
    + rewrite L2, L1, count_cons. destruct (is_done l); lia.
Qed.

(** How many frames the device takes in each round. *)
Definition counts (ls : list label) : list nat :=
  omap (λ l, match l with Transmit n => Some n | _ => None end) ls.
(** What it takes of a queue: in every round the first frames of the pair at the front. *)
Fixpoint taken (ns : list nat) (queue : list (list Z)) : list (list Z) :=
  match ns, queue with
  | n :: ns, a :: b :: queue => take n [a; b] ++ taken ns queue
  | _, _ => []
  end.
(** And what stays in the queue behind these rounds. *)
Fixpoint left_over (ns : list nat) (queue : list (list Z)) : list (list Z) :=
  match ns, queue with
  | _ :: ns, _ :: _ :: queue => left_over ns queue
  | _, _ => queue
  end.

Lemma taken_short ns queue :
  (length queue < 2)%nat → taken ns queue = [] ∧ left_over ns queue = queue.
Proof. intros Hl. destruct ns as [|n ns], queue as [|a [|b queue]]; simpl in *; (done || lia). Qed.
Lemma taken_app ns queue added : taken ns queue `prefix_of` taken ns (queue ++ added).
Proof.
  revert queue. induction ns as [|n ns IH]; intros queue; [done|].
  destruct queue as [|a [|b queue]]; [apply prefix_nil..|]. simpl. apply prefix_app, IH.
Qed.

(** A step takes frames from the front of the queue, and the offloader alone. *)
Lemma step_frames l s s' :
  step l s s' → sys_inv s →
  of_sent (sys_offloader s') = of_sent (sys_offloader s) ++ map on_wire (taken (counts [l]) (write_queue s)) ∧
  ∃ added, write_queue s' = left_over (counts [l]) (write_queue s) ++ added ∧ (l ≠ Enqueue → added = []).
Proof.
  intros Hstep [[q Hq] Hsl _ _ _]. unfold write_queue in *. destruct Hstep as
    [rx s Hpc _|j m rx s o Hpc Hd|n j s o Hpc Hn Ht|s q' m i w Hb Hq' Hm Hi Hc|s f fs o Hp Hd|s m o Hb Hp Hd];
    cbn [counts omap list_omap taken left_over map]; rewrite ?app_nil_r.
  - split; [done|]. exists []. by rewrite app_nil_r.
  - rewrite (distribute_one_ok _ _ _ q) in Hd by done. injection Hd as <-.
    split; [done|]. exists []. by rewrite app_nil_r.
  - destruct (transmit_spec n _ o Ht Hn Hsl) as (_ & _ & Hs & Hw). simpl. rewrite Hs, Hw.
    set (r := of_write_queue (sys_offloader s)) in *.
    destruct (decide (2 <= length (ring_contents r))%nat) as [Hl|Hl].
    + destruct (bulk_enough 2 r Hl) as [-> ->]. destruct (ring_contents r) as [|a [|b k]]; simpl in Hl; [lia..|].
      simpl. rewrite app_nil_r, !take_0. split; [done|]. exists []. by rewrite app_nil_r, drop_0; destruct k.
    + destruct (bulk_short 2 r) as [-> ->]; [lia|]. destruct (taken_short [n] (ring_contents r)) as [Ht' Hl']; [lia|].
      simpl in Ht', Hl'.
      rewrite Ht', Hl', take_nil. split; [done|]. exists []. by rewrite app_nil_r.
  - split; [done|]. exists []. by rewrite app_nil_r.
  - injection Hd as <-. split; [done|]. simpl.
    destruct (enqueue_prefix f (of_write_queue (sys_offloader s))) as [added ->]. by exists added.
  - injection Hd as <-. split; [done|]. exists []. by rewrite app_nil_r.
Qed.

Lemma step_wire l s s' : step l s s' → w_wire (sys_world s) `prefix_of` w_wire (sys_world s').
Proof.
  intros Hstep. destruct Hstep as [| | |s q m i w _ _ _ _ Hc| |]; simpl; try done.
  exact (consume_packet_wire _ _ _ _ _ _ Hc).
Qed.
Lemma steps_wire ls s s' : steps ls s s' → w_wire (sys_world s) `prefix_of` w_wire (sys_world s').
Proof. induction 1; [done|]. etrans; [by eapply step_wire|done]. Qed.

Lemma counts_cons l ls : counts (l :: ls) = counts [l] ++ counts ls.
Proof. by destruct l. Qed.
Lemma taken_cons l ns queue :
  taken (counts [l] ++ ns) queue = taken (counts [l]) queue ++ taken ns (left_over (counts [l]) queue) ∧
  left_over (counts [l] ++ ns) queue = left_over ns (left_over (counts [l]) queue).
Proof.
  destruct l as [| |n| | |]; [done|done| |done..].
  destruct queue as [|a [|b queue]]; simpl.
  - by destruct ns.
  - by destruct ns.
  - by destruct queue; rewrite app_nil_r.
Qed.

Lemma steps_frames ls s s' :
  steps ls s s' → sys_inv s →
  of_sent (sys_offloader s) ++ map on_wire (taken (counts ls) (write_queue s))
    `prefix_of` of_sent (sys_offloader s') ∧
  (Enqueue ∉ ls →
   of_sent (sys_offloader s') = of_sent (sys_offloader s) ++ map on_wire (taken (counts ls) (write_queue s)) ∧
   write_queue s' = left_over (counts ls) (write_queue s)).
Proof.
  induction 1 as [s|l ls s1 s2 s3 H1 H2 IH]; intros Hi; [by rewrite app_nil_r|].
  destruct (step_frames _ _ _ H1 Hi) as (Hs & added & Hq & Ha).
  destruct (IH (step_inv _ _ _ H1 Hi)) as [Hp He]. rewrite counts_cons.
  destruct (taken_cons l (counts ls) (write_queue s1)) as [-> ->].
  rewrite Hs, Hq in Hp, He. split.
  - etrans; [|exact Hp]. rewrite map_app, app_assoc. apply prefix_app.
    destruct (taken_app (counts ls) (left_over (counts [l]) (write_queue s1)) added) as [k ->].
    rewrite map_app. by apply prefix_app_r.
  - intros Hn. apply not_elem_of_cons in Hn as [Hn1 Hn2]. destruct (He Hn2) as [-> ->].
    rewrite (Ha (not_eq_sym Hn1)), app_nil_r, map_app, app_assoc. done.
Qed.
End Parallel.

(** ** The pool of buffers *)

Section Pool.
Context {R : Type → Type} `{!RteRing R, !RteRingLaws R} {P : Type} `{!Mempool P, !MempoolLaws P}.
Implicit Types o : offloader R P.

Definition available o : nat := pool_available (of_pool o).

Lemma distribute_ok l j o :
  of_work_queues o ≠ [] →
  ∃ queues, distribute j l o = Ok (tt, o <| of_work_queues := queues |>) ∧ queues ≠ [].
Proof.
  revert j o. induction l as [|m l IH]; intros j o Hne.
  { exists (of_work_queues o). split; [by destruct o|done]. }
  cbn [distribute]. unfold distribute_one.
  set (i := (j mod length (of_work_queues o))%nat).
  assert (i < length (of_work_queues o))%nat as [q Hq]%lookup_lt_is_Some_2.
  { apply Nat.mod_upper_bound. by destruct (of_work_queues o). }
  set (o1 := o <| of_work_queues ::= <[i := snd (rte_ring_enqueue m q)]> |>).
  destruct (IH (S j) o1) as (queues & Hd & Hne').
  { simpl. intros E. apply (f_equal length) in E. rewrite length_insert in E. by destruct (of_work_queues o). }
  exists queues. split; [|done]. refine (eq_trans _ Hd). unfold gets, bind at 1 2 3, modify. fold i.
  by rewrite Hq.
Qed.

(** A round that receives packets while fewer than two frames wait. *)
Lemma idle_round rx n o :
  of_work_queues o ≠ [] → rx ≠ [] → (length (ring_contents (of_write_queue o)) < 2)%nat →
  ∃ o', offloader_iteration rx n o = Ok (tt, o') ∧ of_work_queues o' ≠ [] ∧
    ring_contents (of_write_queue o') = ring_contents (of_write_queue o) ∧
    of_sent o' = of_sent o ∧
    available o' = (if decide (2 <= available o)%nat then available o - 2 else available o)%nat.
Proof.
  intros Hw Hrx Hq. destruct (distribute_ok rx 0 o Hw) as (queues & Hd & Hne).
  destruct (bulk_short 2 (of_write_queue o) Hq) as [Hb1 Hb2].
  set (o1 := o <| of_work_queues := queues |> <| of_write_queue := snd (rte_ring_dequeue_bulk 2 (of_write_queue o)) |>).
  destruct (alloc_write_buffers_spec o1) as (buffers & Ha & _).
  exists (o1 <| of_write_buffers := buffers |>
             <| of_pool := snd (rte_pktmbuf_alloc_bulk 2 (of_pool o1)) |>). split; [|split_and!].
  - unfold offloader_iteration. destruct rx as [|m rx]; [done|]. rewrite (bind_ok _ _ _ _ _ Hd).
    unfold transmit. erewrite (bind_ok (gets _)) by reflexivity.
    erewrite (bind_ok (modify _)) by reflexivity. erewrite bind_ok by exact Ha.
    cbn [of_write_queue set_field]. by rewrite Hb1.
  - done.
  - exact Hb2.
  - done.
  - unfold available. cbn [of_pool set_field]. unfold o1. cbn [of_pool set_field]. destruct (decide _) as [H|H].
    + destruct (alloc_enough 2 (of_pool o) H) as (l & _ & _ & E). exact E.
    + by rewrite alloc_short by (unfold available in *; lia).
Qed.

Lemma idle_rounds device o :
  of_work_queues o ≠ [] → (length (ring_contents (of_write_queue o)) < 2)%nat →
  Forall (λ r, fst r ≠ []) device →
  ∃ o', offloader_loop device o = Ok (tt, o') ∧ of_sent o' = of_sent o ∧
    available o' = (available o - 2 * Nat.min (length device) (available o / 2))%nat.
Proof.
  revert o. induction device as [|[rx n] device IH]; intros o Hw Hq Hall.
  { exists o. split_and!; [done..|]. simpl. lia. }
  apply Forall_cons in Hall as [Hrx Hall].
  destruct (idle_round rx n o Hw Hrx Hq) as (o1 & H1 & Hw1 & Hq1 & Hs1 & Ha1).
  destruct (IH o1 Hw1 ltac:(by rewrite Hq1) Hall) as (o2 & H2 & Hs2 & Ha2).
  exists o2. cbn [offloader_loop]. rewrite (bind_ok _ _ _ _ _ H1). split_and!; [done|congruence|].
  rewrite Ha2, Ha1. cbn [length]. destruct (decide _) as [H|H].
  - assert (available o / 2 = S ((available o - 2) / 2))%nat as ->; [|lia].
    replace (available o) with ((available o - 2) + 1 * 2)%nat at 1 by lia. rewrite Nat.div_add; lia.
  - rewrite (Nat.div_small (available o)) by lia. lia.
Qed.

Lemma starved_round rx n o :
  of_work_queues o ≠ [] → rx ≠ [] → (2 <= length (ring_contents (of_write_queue o)))%nat →
  (available o < 2)%nat → of_write_buffers o = [None; None] →
  offloader_iteration rx n o = Fault Dangling.
Proof.
  intros Hw Hrx Hq Ha Hb. destruct (distribute_ok rx 0 o Hw) as (queues & Hd & Hne).
  destruct (bulk_enough 2 (of_write_queue o) Hq) as [Hb1 Hb2].
  set (o1 := o <| of_work_queues := queues |> <| of_write_queue := snd (rte_ring_dequeue_bulk 2 (of_write_queue o)) |>).
  destruct (alloc_write_buffers_spec o1) as (buffers & He & Hbuf).
  rewrite decide_False in Hbuf by (unfold available in Ha; simpl; lia). subst buffers.
  unfold offloader_iteration. destruct rx as [|m rx]; [done|]. rewrite (bind_ok _ _ _ _ _ Hd).
  unfold transmit. erewrite (bind_ok (gets _)) by reflexivity.
  erewrite (bind_ok (modify _)) by reflexivity. erewrite bind_ok by exact He.
  cbn [of_write_queue set_field]. rewrite Hb1.
  destruct (ring_contents (of_write_queue o)) as [|f1 [|f2 l]]; simpl in Hq; [lia..|].
  cbn [take]. apply bind_fault. cbn [copy_frames]. erewrite (bind_ok (gets _)) by reflexivity.
  cbn [of_write_buffers set_field]. unfold o1. cbn [of_write_buffers set_field]. by rewrite Hb.
Qed.
End Pool.

(** ** The properties *)

(** C19: whatever the interleaving of the offloader and the worker, packets are given back by the
    worker in the order the device delivered them and frames reach the device in the
    order the handlers wrote them; none is invented, duplicated or overtaken (full rings
    and a busy device can lose some). *)
Theorem packets_and_frames_in_order {R} `{!RteRing R, !RteRingLaws R} {P} `{!Mempool P, !MempoolLaws P}
    `{!Platform} fuel handlers interfaces ls (pool : P) w (s : system R P) :
  w_wire w = [] → sys_steps fuel handlers interfaces ls (initial_system pool w) s →
  sys_consumed s `sublist_of` sys_received s ∧
  (Forall fits (w_wire (sys_world s)) →
   of_sent (sys_offloader s) `sublist_of` w_wire (sys_world s)).
Proof.
  intros Hw Hs. destruct (steps_inv _ _ _ _ _ _ Hs (initial_inv pool w Hw)) as [_ _ _ Hf Hp]. split.
  - etrans; [|exact Hp]. by apply sublist_inserts_r.
  - intros Hfit. etrans; [|by apply Hf]. by apply sublist_inserts_r.
Qed.

(** C20: a packet in the work queue is served: once the worker has given back as many packets as
    were in front of it and one more, however the offloader runs meanwhile, the packet is
    among them, at its place. *)
Theorem packet_is_served {R} `{!RteRing R, !RteRingLaws R} {P} `{!Mempool P, !MempoolLaws P}
    `{!Platform} fuel handlers interfaces ls0 ls (pool : P) w (s s' : system R P) k m :
  w_wire w = [] → sys_steps fuel handlers interfaces ls0 (initial_system pool w) s →
  sys_steps fuel handlers interfaces ls s s' →
  in_work s !! k = Some m → (k < count is_done ls)%nat →
  sys_consumed s' !! (length (sys_consumed s) + k)%nat = Some m.
Proof.
  intros Hw H0 Hs Hk Hd. pose proof (steps_inv _ _ _ _ _ _ H0 (initial_inv pool w Hw)) as Hi.
  destruct (steps_fifo _ _ _ _ _ _ Hs Hi) as [[added E] L].
  rewrite <- (lookup_app_l _ (in_work s')), E by lia.
  rewrite lookup_app_r by lia. replace (_ + k - _)%nat with k by lia.
  rewrite lookup_app_l; [done|]. by eapply lookup_lt_Some.
Qed.

(** C21: frames leave in pairs.  Every round of the offloader in which two frames wait takes the two at the
    front of the write queue, of which the device gets as many as it takes and the others are lost,
    and a round with fewer waiting takes none: whatever is written meanwhile, what
    the rounds take of the frames in the queue is what is sent next, in that order, each frame cut to its
    length modulo 65536; and as long as no frame is written nothing else is sent, the rest
    stays in the queue, and a frame that waits alone is not sent by any number of rounds. *)
Theorem frames_leave_in_pairs {R} `{!RteRing R, !RteRingLaws R} {P} `{!Mempool P, !MempoolLaws P}
    `{!Platform} fuel handlers interfaces ls0 ls (pool : P) w (s s' : system R P) :
  w_wire w = [] → sys_steps fuel handlers interfaces ls0 (initial_system pool w) s →
  sys_steps fuel handlers interfaces ls s s' →
  of_sent (sys_offloader s) ++ map on_wire (taken (counts ls) (write_queue s))
    `prefix_of` of_sent (sys_offloader s') ∧
  (Enqueue ∉ ls →
   of_sent (sys_offloader s') = of_sent (sys_offloader s) ++ map on_wire (taken (counts ls) (write_queue s)) ∧
   write_queue s' = left_over (counts ls) (write_queue s) ∧
   ∀ f, write_queue s = [f] → write_queue s' = [f] ∧ of_sent (sys_offloader s') = of_sent (sys_offloader s)).
Proof.
  intros Hw H0 Hs.
  destruct (steps_frames _ _ _ _ _ _ Hs (steps_inv _ _ _ _ _ _ H0 (initial_inv pool w Hw))) as [Hp He].
  split; [exact Hp|]. intros Hn. destruct (He Hn) as [Hsent Hq]. split_and!; [done..|].
  intros f Hf. rewrite Hf in Hsent, Hq. destruct (taken_short (counts ls) [f]) as [Ht Hl]; [simpl; lia|].
  rewrite Ht, app_nil_r in Hsent. by rewrite Hl in Hq.
Qed.

(** C30: every round of the offloader that receives packets takes two buffers from the pool, and
    while fewer than two frames wait it neither uses them nor gives them back: after
    [length device] such rounds the pool has two buffers less for each, until it is empty.
    From then on the allocation fails, and two frames that are dequeued after the last
    buffers were handed to the device are copied into buffers that are not the loop's. *)
Theorem buffers_leak {R} `{!RteRing R, !RteRingLaws R} {P} `{!Mempool P, !MempoolLaws P}
    device (o : offloader R P) :
  of_work_queues o ≠ [] → Forall (λ r, fst r ≠ []) device →
  ((length (ring_contents (of_write_queue o)) < 2)%nat →
   ∃ o', offloader_loop device o = Ok (tt, o') ∧ of_sent o' = of_sent o ∧
    available o' = (available o - 2 * Nat.min (length device) (available o / 2))%nat) ∧
  (device ≠ [] → (2 <= length (ring_contents (of_write_queue o)))%nat → (available o < 2)%nat →
   of_write_buffers o = [None; None] → offloader_loop device o = Fault Dangling).
Proof.
  intros Hw Hall. split; [intros; by apply idle_rounds|].
  intros Hne Hq Ha Hb. destruct device as [|[rx n] device]; [done|].
  apply Forall_cons in Hall as [Hrx _]. cbn [offloader_loop]. apply bind_fault.
  by apply starved_round.
Qed.
