(* ===== verification/Worker.v ===== *)
(** * Worker: starting and stopping the thread of a worker

    [start] and [stop] of [worker.c] on an execution context, and the condition of the loop of
    [consume_tasks].  Any number of callers may run [start] and [stop] on one
    context, and their statements interleave with those of the threads that were created;
    the body of the loop is in [Offloader.v]. *)

From stdpp Require Import relations.
From S2P Require Import Prelude State.

Inductive Execution_state : Type :=
  | NET_STACK_EXECUTION_STARTING
  | NET_STACK_EXECUTION_STOPPED
  | NET_STACK_EXECUTION_STOPPING
  | NET_STACK_EXECUTION_RUNNING.
#[export] Instance Execution_state_eq_dec : EqDecision Execution_state.
Proof. solve_decision. Defined.

(** The fields [start], [stop] and the loop use; [state_lock] is the caller that holds it,
    and [thread_handle] the thread it was set to. *)
Record execution_context_t := {
  ec_worker_id : Z;
  ec_work_queue : option addr;
  ec_thread_handle : option nat;
  ec_state : Execution_state;
  ec_state_lock : option nat;
  ec_handlers : list addr;
  ec_num_handlers : Z
}.
#[export] Instance eta_execution_context_t : Eta execution_context_t := λ r,
  Build_execution_context_t (ec_worker_id r) (ec_work_queue r) (ec_thread_handle r) (ec_state r) (ec_state_lock r)
    (ec_handlers r) (ec_num_handlers r).

(** The fields [create_netstack_execution_context] sets, around the ring it is given; [state] keeps
    what the allocation left, [raw_state]. *)
Definition new_execution_context (raw_state : Execution_state) (worker_id : Z)
    (work_queue : option addr) (handlers : list addr) (num_handlers : Z) : execution_context_t :=
  {| ec_worker_id := u8 worker_id; ec_work_queue := work_queue; ec_thread_handle := None; ec_state := raw_state;
     ec_state_lock := None; ec_handlers := handlers; ec_num_handlers := u8 num_handlers |}.

(** The statement a caller is in front of. *)
Inductive call : Type :=
  | StartLock | StartState | StartCreate | StartUnlock | StartReturned
  | StopLock | StopJoin | StopState | StopUnlock | StopReturned
  | StopUndefined.  (* it has joined a thread that was never started *)

(** [cf_threads]: for every thread that was created, whether it is still in [consume_tasks]. *)
Record config := {
  cf_context : execution_context_t;
  cf_threads : list bool;
  cf_calls : list call
}.
#[export] Instance eta_config : Eta config := λ r,
  Build_config (cf_context r) (cf_threads r) (cf_calls r).

(** The statements of [start], of [stop], and the loop condition of [consume_tasks]. *)
Inductive start_step (i : nat) : config → config → Prop :=
  | start_lock c :
      cf_calls c !! i = Some StartLock → ec_state_lock (cf_context c) = None →
      start_step i c (c <| cf_calls ::= <[i := StartState]> |>
                        <| cf_context ::= λ x, x <| ec_state_lock := Some i |> |>)
  | start_state c :
      cf_calls c !! i = Some StartState →
      start_step i c (c <| cf_calls ::= <[i := StartCreate]> |>
                        <| cf_context ::= λ x, x <| ec_state := NET_STACK_EXECUTION_RUNNING |> |>)
  | start_create c :
      cf_calls c !! i = Some StartCreate →
      start_step i c (c <| cf_calls ::= <[i := StartUnlock]> |>
                        <| cf_context ::= λ x, x <| ec_thread_handle := Some (length (cf_threads c)) |> |>
                        <| cf_threads ::= λ l, l ++ [true] |>)
  | start_unlock c :
      cf_calls c !! i = Some StartUnlock →
      start_step i c (c <| cf_calls ::= <[i := StartReturned]> |>
                        <| cf_context ::= λ x, x <| ec_state_lock := None |> |>).

Inductive stop_step (i : nat) : config → config → Prop :=
  | stop_lock c :
      cf_calls c !! i = Some StopLock → ec_state_lock (cf_context c) = None →
      stop_step i c (c <| cf_calls ::= <[i := StopJoin]> |>
                       <| cf_context ::= λ x, x <| ec_state_lock := Some i |> |>)
  (* joining waits until the thread has ended *)
  | stop_join c t :
      cf_calls c !! i = Some StopJoin → ec_thread_handle (cf_context c) = Some t →
      cf_threads c !! t = Some false →
      stop_step i c (c <| cf_calls ::= <[i := StopState]> |>)
  (* the handle was never set: undefined behaviour, and nothing is said of what follows *)
  | stop_join_unset c :
      cf_calls c !! i = Some StopJoin → ec_thread_handle (cf_context c) = None →
      stop_step i c (c <| cf_calls ::= <[i := StopUndefined]> |>)
  | stop_state c :
      cf_calls c !! i = Some StopState →
      stop_step i c (c <| cf_calls ::= <[i := StopUnlock]> |>
                       <| cf_context ::= λ x, x <| ec_state := NET_STACK_EXECUTION_STOPPED |> |>)
  | stop_unlock c :
      cf_calls c !! i = Some StopUnlock →
      stop_step i c (c <| cf_calls ::= <[i := StopReturned]> |>
                       <| cf_context ::= λ x, x <| ec_state_lock := None |> |>).

Inductive thread_step (t : nat) : config → config → Prop :=
  | thread_round c :
      cf_threads c !! t = Some true → ec_state (cf_context c) = NET_STACK_EXECUTION_RUNNING →
      thread_step t c c
  | thread_return c :
      cf_threads c !! t = Some true → ec_state (cf_context c) ≠ NET_STACK_EXECUTION_RUNNING →
      thread_step t c (c <| cf_threads ::= <[t := false]> |>).

Inductive worker_step (c c' : config) : Prop :=
  | call_start : c' = c <| cf_calls ::= λ l, l ++ [StartLock] |> → worker_step c c'
  | call_stop : c' = c <| cf_calls ::= λ l, l ++ [StopLock] |> → worker_step c c'
  | in_start i : start_step i c c' → worker_step c c'
  | in_stop i : stop_step i c c' → worker_step c c'
  | in_thread t : thread_step t c c' → worker_step c c'.

Definition fresh_config (x : execution_context_t) : config :=
  {| cf_context := x; cf_threads := []; cf_calls := [] |}.

(** ** What holds in every configuration *)

(** Whether a caller is past waiting for the thread. *)
Definition past_join (k : call) : bool :=
  match k with StopState | StopUnlock | StopReturned => true | _ => false end.
(** Whether [start] has set the state already. *)
Definition set_running (k : call) : bool :=
  match k with StartCreate => true | _ => false end.

Record worker_inv (c : config) : Prop := {
  inv_calls i k : cf_calls c !! i = Some k →
    past_join k = false ∧
    (set_running k = true → ec_state (cf_context c) = NET_STACK_EXECUTION_RUNNING);
  inv_threads t b : cf_threads c !! t = Some b →
    b = true ∧ ec_state (cf_context c) = NET_STACK_EXECUTION_RUNNING
}.

Section Invariant.
(** A caller moves on from [k] to [k']. *)
Lemma calls_insert c i k' (x : Execution_state) :
  worker_inv c → past_join k' = false → (set_running k' = true → x = NET_STACK_EXECUTION_RUNNING) →
  (x = ec_state (cf_context c) ∨ x = NET_STACK_EXECUTION_RUNNING) →
  ∀ j k, <[i := k']> (cf_calls c) !! j = Some k →
    past_join k = false ∧ (set_running k = true → x = NET_STACK_EXECUTION_RUNNING).
Proof.
  intros [Hc _] Hp Hr Hx j k [(-> & <- & _)|(_ & Hk)]%list_lookup_insert_Some; [done|].
  destruct (Hc j k Hk). naive_solver.
Qed.

Lemma calls_app c k' :
  worker_inv c → past_join k' = false → set_running k' = false →
  worker_inv (c <| cf_calls ::= λ l, l ++ [k'] |>).
Proof.
  intros [Hc Ht] Hp Hr. split; simpl; [|done]. intros i k.
  intros [Hk|(_ & Hk)]%lookup_app_Some; [by apply (Hc i)|].
  apply list_lookup_singleton_Some in Hk as [_ <-]. by rewrite Hr.
Qed.

Lemma start_step_inv i c c' : start_step i c c' → worker_inv c → worker_inv c'.
Proof.
  intros Hs Hi. pose proof Hi as [Hc Ht]. destruct Hs as [c Hk _|c Hk|c Hk|c Hk].
  - split; simpl; [|done]. apply calls_insert; naive_solver.
  - split; simpl; [apply calls_insert; naive_solver|]. intros t b Hb. by destruct (Ht t b Hb).
  - destruct (Hc i _ Hk) as [_ Hr]. specialize (Hr eq_refl).
    split; simpl; [apply calls_insert; naive_solver|].
    intros t b [Hb|(_ & Hb)]%lookup_app_Some; [by apply (Ht t)|].
    by apply list_lookup_singleton_Some in Hb as [_ <-].
  - split; simpl; [|done]. apply calls_insert; naive_solver.
Qed.

(** The join is the end of every [stop]. *)
Lemma stop_step_inv i c c' : stop_step i c c' → worker_inv c → worker_inv c'.
Proof.
  intros Hs Hi. pose proof Hi as [Hc Ht]. destruct Hs as [c Hk _|c t Hk _ Hf|c Hk _|c Hk|c Hk].
  - split; simpl; [|done]. apply calls_insert; naive_solver.
  - by destruct (Ht _ _ Hf).
  - split; simpl; [|done]. apply calls_insert; naive_solver.
  - by destruct (Hc _ _ Hk).
  - by destruct (Hc _ _ Hk).
Qed.

Lemma worker_step_inv c c' : worker_step c c' → worker_inv c → worker_inv c'.
Proof.
  intros [-> | -> |i Hs|i Hs|t Hs] Hi; [by apply calls_app..|by eapply start_step_inv|by eapply stop_step_inv|].
  destruct Hs as [c _ _|c Hb Hne]; [done|]. by destruct (inv_threads c Hi t true Hb).
Qed.

Lemma worker_steps_inv c c' : rtc worker_step c c' → worker_inv c → worker_inv c'.
Proof. induction 1; eauto using worker_step_inv. Qed.

Lemma fresh_inv x : worker_inv (fresh_config x).
Proof. by split. Qed.
End Invariant.

(** *** The lock *)

(** Whether a caller is between locking and unlocking. *)
Definition critical (k : call) : bool :=
  match k with
  | StartState | StartCreate | StartUnlock | StopJoin | StopState | StopUnlock | StopUndefined => true
  | _ => false
  end.
Definition lock_inv (c : config) : Prop :=
  ∀ i k, cf_calls c !! i = Some k → critical k = true → ec_state_lock (cf_context c) = Some i.

Section Lock.
Lemma lock_taken c i k' :
  lock_inv c → ec_state_lock (cf_context c) = None →
  ∀ j k, <[i := k']> (cf_calls c) !! j = Some k → critical k = true → Some i = Some j.
Proof.
  intros Hl Hn j k [(-> & _ & _)|(_ & Hk)]%list_lookup_insert_Some Hc; [done|].
  specialize (Hl j k Hk Hc). congruence.
Qed.
Lemma lock_held c i k' :
  lock_inv c → ec_state_lock (cf_context c) = Some i →
  ∀ j k, <[i := k']> (cf_calls c) !! j = Some k → critical k = true →
    ec_state_lock (cf_context c) = Some j.
Proof.
  intros Hl Hi j k [(-> & _ & _)|(_ & Hk)]%list_lookup_insert_Some Hc; [done|]. by apply (Hl j k).
Qed.
Lemma lock_released c i k' l :
  lock_inv c → ec_state_lock (cf_context c) = Some i → critical k' = false →
  ∀ j k, <[i := k']> (cf_calls c) !! j = Some k → critical k = true → l = Some j.
Proof.
  intros Hl Hi Hk' j k [(_ & <- & _)|(Hne & Hk)]%list_lookup_insert_Some Hc; [congruence|].
  specialize (Hl j k Hk Hc). congruence.
Qed.

Lemma lock_step c c' : worker_step c c' → lock_inv c → lock_inv c'.
Proof.
  intros [-> | -> |i Hs|i Hs|t Hs] Hl.
  1-2: intros i k [Hk|(_ & Hk)]%lookup_app_Some Hc; [by apply (Hl i k)|];
    by apply list_lookup_singleton_Some in Hk as [_ <-].
  - destruct Hs as [c Hk Hn|c Hk|c Hk|c Hk]; unfold lock_inv; simpl;
      [by apply lock_taken|apply lock_held|apply lock_held|apply lock_released]; eauto.
  - destruct Hs as [c Hk Hn|c t Hk _ _|c Hk _|c Hk|c Hk]; unfold lock_inv; simpl;
      [by apply lock_taken|apply lock_held|apply lock_held|apply lock_held|apply lock_released]; eauto.
  - by destruct Hs.
Qed.

(** The caller that holds the lock in front of the join never lets go of it: it waits for the
    thread, or, when there is none, is in undefined behaviour. *)
Definition joining (handle : option nat) (k k' : call) : Prop :=
  k' = k ∨ (handle = None ∧ k = StopJoin ∧ k' = StopUndefined).
Record held (i : nat) (k : call) (c c' : config) : Prop := {
  held_joining : ∃ k', cf_calls c' !! i = Some k' ∧ joining (ec_thread_handle (cf_context c)) k k';
  held_threads : cf_threads c' = cf_threads c;
  held_handle : ec_thread_handle (cf_context c') = ec_thread_handle (cf_context c);
  held_others j l : j ≠ i → cf_calls c !! j = Some l → cf_calls c' !! j = Some l
}.

Lemma join_step i k c c' :
  worker_step c c' → worker_inv c → lock_inv c → cf_calls c !! i = Some k →
  k = StopJoin ∨ k = StopUndefined → held i k c c'.
Proof.
  intros Hs Hi Hl Hj Hk. assert (critical k = true) as Hck by by destruct Hk as [-> | ->].
  specialize (Hl i _ Hj Hck) as Hlock.
  assert (∀ j l, cf_calls c !! j = Some l → critical l = true → j = i) as Hcrit.
  { intros j l Hl' Hc. specialize (Hl j l Hl' Hc). congruence. }
  assert (∀ j l, cf_calls c !! j = Some l → critical l = true → l = k) as Hsame.
  { intros j l Hl' Hc. pose proof (Hcrit _ _ Hl' Hc). congruence. }
  destruct Hs as [-> | -> |j Hs|j Hs|t Hs].
  1-2: split; simpl; [exists k; split; [by apply lookup_app_l_Some|by left]|done|done|];
    intros; by apply lookup_app_l_Some.
  - exfalso. destruct Hs as [c Hl' Hn|c Hl'|c Hl'|c Hl']; [congruence|..];
      specialize (Hsame _ _ Hl' eq_refl); by destruct Hk as [-> | ->].
  - destruct Hs as [c Hl' Hn|c t Hl' _ Hf|c Hl' Hu|c Hl'|c Hl']; [congruence| | |..].
    + by destruct (inv_threads c Hi _ _ Hf).
    + pose proof (Hcrit _ _ Hl' eq_refl) as ->. pose proof (Hsame _ _ Hl' eq_refl) as <-. split; simpl; try done.
      * exists StopUndefined. split; [|by right]. apply list_lookup_insert_eq. by eapply lookup_lt_Some.
      * intros j l Hne Hjl. by rewrite list_lookup_insert_ne.
    + specialize (Hsame _ _ Hl' eq_refl). by destruct Hk as [-> | ->].
    + specialize (Hsame _ _ Hl' eq_refl). by destruct Hk as [-> | ->].
  - destruct Hs as [c _ _|c Hb Hne]; [split; try done; exists k; by split; [|left]|].
    by destruct (inv_threads c Hi t true Hb).
Qed.

Lemma join_steps i k c c' :
  rtc worker_step c c' → worker_inv c → lock_inv c → cf_calls c !! i = Some k →
  k = StopJoin ∨ k = StopUndefined → held i k c c'.
Proof.
  intros Hs. revert k. induction Hs as [c|c1 c2 c3 H1 _ IH]; intros k Hi Hl Hj Hk.
  { split; try done. exists k. by split; [|left]. }
  destruct (join_step i k _ _ H1 Hi Hl Hj Hk) as [(k2 & Hj2 & Hk2) Ht Hh Ho].
  destruct (IH k2) as [(k3 & Hj3 & Hk3) Ht' Hh' Ho']; eauto using worker_step_inv, lock_step.
  { destruct Hk2 as [-> | (_ & _ & ->)]; auto. }
  split; [|congruence|congruence|eauto]. exists k3. split; [done|]. rewrite Hh in Hk3. unfold joining in *.
  naive_solver congruence.
Qed.

Lemma lock_steps c c' : rtc worker_step c c' → lock_inv c → lock_inv c'.
Proof. induction 1; eauto using lock_step. Qed.
End Lock.

(** C29: [stop] never returns: it waits for the thread before it changes the state, and the thread
    ends only when the state has changed.  In every run of any number of callers, every
    thread that was started is still in its loop, no caller of [stop] is past the join,
    and from the moment one waits there it holds the lock: no call of [start] or [stop]
    that has not returned before makes any progress, and no thread is created any more.  The caller
    itself stays in front of the join once a thread was started; a [stop] before any [start] joins
    a handle that was never set, which is undefined behaviour. *)
Theorem stop_never_returns x c c' :
  rtc worker_step (fresh_config x) c → rtc worker_step c c' →
  (∀ t b, cf_threads c !! t = Some b → b = true) ∧
  (∀ i k, cf_calls c !! i = Some k → past_join k = false) ∧
  (∀ i, cf_calls c !! i = Some StopJoin →
    (is_Some (ec_thread_handle (cf_context c)) → cf_calls c' !! i = Some StopJoin) ∧
    (ec_thread_handle (cf_context c) = None →
     cf_calls c' !! i = Some StopJoin ∨ cf_calls c' !! i = Some StopUndefined) ∧
    cf_threads c' = cf_threads c ∧
    ∀ j k, j ≠ i → cf_calls c !! j = Some k → cf_calls c' !! j = Some k).
Proof.
  intros H0 Hs. pose proof (worker_steps_inv _ _ H0 (fresh_inv x)) as Hi.
  assert (lock_inv (fresh_config x)) as Hf by done.
  pose proof (lock_steps _ _ H0 Hf) as Hl. split_and!.
  - intros t b Hb. by destruct (inv_threads c Hi t b Hb).
  - intros i k Hk. by destruct (inv_calls c Hi i k Hk).
  - intros i Hj. destruct (join_steps i StopJoin c c' Hs Hi Hl Hj) as [(k' & Hk' & Hjoin) Ht _ Ho]; [by left|].
    unfold joining in Hjoin. rewrite Hk'. split_and!; [intros [t Hh]; naive_solver congruence|naive_solver|done|done].
Qed.

(** ** A witness: [start] and [stop], then another [start] *)

Definition example_context : execution_context_t :=
  new_execution_context NET_STACK_EXECUTION_STARTING 1 (Some 3%nat) [1%nat] 1.
Definition running_context (lock : option nat) : execution_context_t :=
  example_context <| ec_state := NET_STACK_EXECUTION_RUNNING |> <| ec_thread_handle := Some 0%nat |>
                  <| ec_state_lock := lock |>.
Definition example_config (lock : option nat) (calls : list call) : config :=
  {| cf_context := running_context lock; cf_threads := [true]; cf_calls := calls |}.

Lemma example_started : rtc worker_step (fresh_config example_context) (example_config None [StartReturned]).
Proof.
  eapply rtc_l; [by apply call_start|]. eapply rtc_l; [by apply (in_start _ _ 0), start_lock|].
  eapply rtc_l; [by apply (in_start _ _ 0), start_state|].
  eapply rtc_l; [by apply (in_start _ _ 0), start_create|].
  eapply rtc_l; [by apply (in_start _ _ 0), start_unlock|]. apply rtc_refl.
Qed.
Lemma example_stopping :
  rtc worker_step (example_config None [StartReturned]) (example_config (Some 1%nat) [StartReturned; StopJoin]).
Proof.
  eapply rtc_l; [by apply call_stop|]. eapply rtc_l; [by apply (in_stop _ _ 1), stop_lock|]. apply rtc_refl.
Qed.
Lemma example_blocked :
  rtc worker_step (example_config (Some 1%nat) [StartReturned; StopJoin])
    (example_config (Some 1%nat) [StartReturned; StopJoin; StartLock]).
Proof.
  eapply rtc_l; [by apply (in_thread _ _ 0), thread_round|]. apply rtc_once. by apply call_start.
Qed.

Lemma stop_never_returns_witness :
  rtc worker_step (fresh_config example_context) (example_config (Some 1%nat) [StartReturned; StopJoin]) ∧
  cf_calls (example_config (Some 1%nat) [StartReturned; StopJoin; StartLock]) !! 1%nat = Some StopJoin.
Proof.
  assert (rtc worker_step (fresh_config example_context)
    (example_config (Some 1%nat) [StartReturned; StopJoin])) as H0
    by exact (transitivity example_started example_stopping).
  split; [exact H0|].
  destruct (stop_never_returns example_context _ _ H0 example_blocked) as (_ & _ & Hj).
  destruct (Hj 1%nat eq_refl) as [H1 _]. apply H1. exists 0%nat. reflexivity.
Defined.
