(* ===== verification/Main.v ===== *)
(** * Main: the start and the end of the program

    [main], [check_all_ports_link_status] and [signal_handler] of [main.c].  They talk to
    DPDK, which is not part of the sources, so a run is a tree of calls: [Next c k] makes
    the call [c] and goes on with what [k] does with the answer.  What DPDK and the device
    answer is an environment, a function of everything that was called before; the theorems
    hold for every environment.

    The ports and the cores are those the environment abstraction layer has found, fixed for
    the run.  [fflush] is left out. *)

From stdpp Require Import strings pretty.
From S2P Require Import Prelude Headers ProtocolMap BlockBuffer State Stack Worker Offloader.

(** ** DPDK *)

(** The types and constants of DPDK that [main] passes on; what an allocation leaves in the
    state of a worker and in an interface; and [RTE_ETH_FOREACH_DEV], [RTE_LCORE_FOREACH_WORKER] as the lists of
    what they go through. *)
Class Dpdk := {
  rte_eth_rxconf : Type;
  rte_eth_txconf : Type;
  set_rx_offloads : Z → rte_eth_rxconf → rte_eth_rxconf;
  set_tx_offloads : Z → rte_eth_txconf → rte_eth_txconf;
  RTE_ETH_TX_OFFLOAD_MBUF_FAST_FREE : Z;
  RTE_MBUF_DEFAULT_BUF_SIZE : Z;
  RTE_ETH_TX_BUFFER_SIZE : Z → Z;
  RTE_ETH_LINK_DOWN : Z;
  raw_execution_state : Execution_state;
  raw_interface : interface_t;
  eth_ports : list Z;
  worker_lcores : list Z
}.

(** The fields of [struct rte_eth_conf] and [struct rte_eth_dev_info] that are used. *)
Record rte_eth_conf := { rxmode_offloads : Z; txmode_offloads : Z }.

Section Calls.
Context `{!Dpdk}.

Record rte_eth_dev_info := {
  tx_offload_capa : Z;
  default_rxconf : rte_eth_rxconf;
  default_txconf : rte_eth_txconf
}.

Inductive dpdk_call : Type :=
  | rte_eal_init
  | signal (signum : string)
  | rte_socket_id
  | rte_pktmbuf_pool_create (n cache_size priv_size data_room_size socket_id : Z)
  | rte_eth_dev_info_get (port_id : Z)
  | rte_eth_dev_configure (port_id nb_rx_queue nb_tx_queue : Z) (eth_conf : rte_eth_conf)
  | rte_eth_dev_adjust_nb_rx_tx_desc (port_id nb_rx_desc nb_tx_desc : Z)
  | rte_eth_dev_socket_id (port_id : Z)
  | rte_eth_rx_queue_setup (port_id queue_id nb_rx_desc socket_id : Z) (rx_conf : rte_eth_rxconf)
      (mb_pool : addr)
  | rte_eth_tx_queue_setup (port_id queue_id nb_tx_desc socket_id : Z) (tx_conf : rte_eth_txconf)
  | rte_zmalloc_socket (size align socket_id : Z)
  | rte_eth_tx_buffer_init (buffer : addr) (size : Z)
  | rte_eth_tx_buffer_set_err_callback (buffer : addr)
  | rte_eth_dev_set_ptypes (port_id : Z)
  | rte_eth_dev_start (port_id : Z)
  | rte_eth_promiscuous_enable (port_id : Z)
  | rte_eth_macaddr_get (port_id : Z)
  | read_force_quit
  | rte_eth_link_get_nowait (port_id : Z)
  | rte_delay_ms (ms : Z)
  | printf (format : string) (args : list Z)
  | arp_program_start (net_stack : net_stack_app)
  | start_worker (execution_context : execution_context_t)
  | rte_ring_create (name : string) (count socket_id : Z)
  | run_offloader_loop (interface : interface_t) (workers : list (option execution_context_t))
      (num_execution_contexts : Z)
  | rte_eal_wait_lcore (lcore_id : Z)
  | rte_eth_dev_stop (port_id : Z)
  | rte_eth_dev_close (port_id : Z)
  | rte_eal_cleanup.

(** What a call gives back: its result, [None] for a null pointer, and what it stores through
    the pointers it is given; that of [start_worker] is the result of the thread creation in
    [start]. *)
Definition answer (c : dpdk_call) : Type :=
  match c with
  | rte_pktmbuf_pool_create _ _ _ _ _ | rte_zmalloc_socket _ _ _ | rte_ring_create _ _ _ => option addr
  | rte_eth_dev_info_get _ => Z * rte_eth_dev_info
  | rte_eth_dev_adjust_nb_rx_tx_desc _ _ _ => Z * (Z * Z)
  | rte_eth_macaddr_get _ => Z * list Z
  | read_force_quit => bool
  | rte_eth_link_get_nowait _ => Z * Z
  | rte_eal_init | rte_socket_id | rte_eth_dev_configure _ _ _ _ | rte_eth_dev_socket_id _
  | rte_eth_rx_queue_setup _ _ _ _ _ _ | rte_eth_tx_queue_setup _ _ _ _ _
  | rte_eth_tx_buffer_set_err_callback _ | rte_eth_dev_set_ptypes _ | rte_eth_dev_start _
  | rte_eth_promiscuous_enable _ | rte_eal_wait_lcore _ | rte_eth_dev_stop _
  | rte_eth_tx_buffer_init _ _ | start_worker _ | rte_eth_dev_close _ | rte_eal_cleanup => Z
  | signal _ | rte_delay_ms _ | printf _ _ | arp_program_start _ | run_offloader_loop _ _ _ => unit
  end.

(** A call with its answer. *)
Record dpdk_event := Event { ev_call : dpdk_call; ev_answer : answer ev_call }.

(** ** Programs that make calls *)

(** How a program ends other than by returning: [rte_exit], undefined behaviour, or a loop
    bound that was too small. *)
Inductive halt : Type :=
  | Exited (format : string) (args : list Z)
  | Faulted (f : fault)
  | NoFuel.

Inductive program (A : Type) : Type :=
  | Return (a : A)
  | Halt (h : halt)
  | Next (c : dpdk_call) (k : answer c → program A).
#[global] Arguments Return {A} a.
#[global] Arguments Halt {A} h.
#[global] Arguments Next {A} c k.

Fixpoint program_bind_def {A B} (k : A → program B) (p : program A) : program B :=
  match p with
  | Return a => k a
  | Halt h => Halt h
  | Next c l => Next c (λ r, program_bind_def k (l r))
  end.
#[global] Instance program_ret : MRet program := @Return.
#[global] Instance program_bind : MBind program := @program_bind_def.

Definition do_call (c : dpdk_call) : program (answer c) := Next c Return.
Definition rte_exit {A} (format : string) (args : list Z) : program A := Halt (Exited format args).
Definition from_outcome {A} (o : outcome A) : program A :=
  match o with Ok a => Return a | Fault f => Halt (Faulted f) | OutOfFuel => Halt NoFuel end.

(** An environment answers a call by what happened before. *)
Definition environment : Type := list dpdk_event → ∀ c : dpdk_call, answer c.

Fixpoint run_program {A} (env : environment) (p : program A) (past : list dpdk_event) : list dpdk_event * (A + halt) :=
  match p with
  | Return a => (past, inl a)
  | Halt h => (past, inr h)
  | Next c k => let r := env past c in run_program env (k r) (past ++ [Event c r])
  end.

(** ** The link status of the ports *)

Definition CHECK_INTERVAL : Z := 100.
Definition MAX_CHECK_TIME : Z := 90.

(** The inner loop, from [portid] on; [None] when [force_quit] makes the function return. *)
Fixpoint check_ports (print_flag all_ports_up : bool) (ports : list Z) : program (option bool) :=
  match ports with
  | [] => mret (Some all_ports_up)
  | portid :: ports =>
      force_quit ← do_call read_force_quit;
      if force_quit : bool then mret None
      else
        '(ret, link_status) ← do_call (rte_eth_link_get_nowait portid);
        if ret <? 0 then
          (if print_flag then do_call (printf "Port %u link get failed: %s\n" [portid; - ret])
           else mret tt) ≫= λ _,
          check_ports print_flag false ports
        else if print_flag then
          _ ← do_call (printf "Port %d %s\n" [portid; link_status]);
          check_ports print_flag all_ports_up ports
        else if (link_status =? RTE_ETH_LINK_DOWN) && negb (portid =? 1) then mret (Some false)
        else check_ports print_flag all_ports_up ports
  end.

(** The outer loop; [fuel] bounds its rounds. *)
Fixpoint check_rounds (fuel : nat) (count : Z) (print_flag : bool) : program unit :=
  if count <=? MAX_CHECK_TIME then
    match fuel with
    | O => Halt NoFuel
    | S fuel =>
        force_quit ← do_call read_force_quit;
        if force_quit : bool then mret tt
        else
          all_ports_up ← check_ports print_flag true eth_ports;
          match all_ports_up with
          | None => mret tt
          | Some all_ports_up =>
              if print_flag then mret tt
              else
                (if all_ports_up then mret tt
                 else _ ← do_call (printf "." []); do_call (rte_delay_ms CHECK_INTERVAL)) ≫= λ _,
                if all_ports_up || (count =? MAX_CHECK_TIME - 1) then
                  _ ← do_call (printf "done\n" []); check_rounds fuel (u8 (count + 1)) true
                else check_rounds fuel (u8 (count + 1)) false
          end
    end
  else mret tt.

Definition check_all_ports_link_status : program unit :=
  _ ← do_call (printf "\nChecking link status" []);
  check_rounds (Z.to_nat MAX_CHECK_TIME + 1) 0 false.

(** ** The ports *)

Definition MEMPOOL_CACHE_SIZE : Z := 256.
Definition RX_DESC_DEFAULT : Z := 1024.
Definition TX_DESC_DEFAULT : Z := 1024.
(** 192.168.0.238 *)
Definition INTERFACE_IPV4_ADDR : Z := 3993020608.

(** What the loop over the ports changes: [num_rxd], [num_txd], and [interfaces], a null pointer
    until the first port is initialised and then an array of one pointer. *)
Record ports_state := {
  num_rxd : Z;
  num_txd : Z;
  interfaces : option (list (option interface_t));
  first_port_initialized : bool
}.

(** The condition of an [if] that leads to [rte_exit]. *)
Definition exit_if (b : bool) (format : string) (args : list Z) : program unit :=
  if b then rte_exit format args else mret tt.

Definition port_conf : rte_eth_conf := {| rxmode_offloads := 0; txmode_offloads := 0 |}.

(** [rte_eth_dev_configure] and [rte_eth_dev_adjust_nb_rx_tx_desc]. *)
Definition configure_port (portid : Z) (s : ports_state)
    : program (rte_eth_dev_info * rte_eth_conf * ports_state) :=
  _ ← do_call (printf "Initializing port %u... " [portid]);
  '(ret, dev_info) ← do_call (rte_eth_dev_info_get portid);
  _ ← exit_if (negb (ret =? 0)) "Error during getting device (port %u) info: %s\n" [portid; - ret];
  let local_port_conf :=
    if flag_set (tx_offload_capa dev_info) RTE_ETH_TX_OFFLOAD_MBUF_FAST_FREE
    then {| rxmode_offloads := rxmode_offloads port_conf;
            txmode_offloads := Z.lor (txmode_offloads port_conf) RTE_ETH_TX_OFFLOAD_MBUF_FAST_FREE |}
    else port_conf in
  ret ← do_call (rte_eth_dev_configure portid 1 1 local_port_conf);
  _ ← exit_if (ret <? 0) "Cannot configure device: err=%d, port=%u\n" [ret; portid];
  '(ret, (rxd, txd)) ← do_call (rte_eth_dev_adjust_nb_rx_tx_desc portid (num_rxd s) (num_txd s));
  _ ← exit_if (ret <? 0) "Cannot adjust number of descriptors: err=%d, port=%u\n" [ret; portid];
  mret (dev_info, local_port_conf,
        {| num_rxd := rxd; num_txd := txd; interfaces := interfaces s;
           first_port_initialized := first_port_initialized s |}).

(** One receive and one transmit queue, and the buffer of the latter. *)
Definition setup_queues (portid : Z) (pktmbuf_pool : addr) (dev_info : rte_eth_dev_info)
    (local_port_conf : rte_eth_conf) (s : ports_state) : program unit :=
  socket ← do_call (rte_eth_dev_socket_id portid);
  let rxq_conf := set_rx_offloads (rxmode_offloads local_port_conf) (default_rxconf dev_info) in
  ret ← do_call (rte_eth_rx_queue_setup portid 0 (num_rxd s) socket rxq_conf pktmbuf_pool);
  _ ← exit_if (ret <? 0) "rte_eth_rx_queue_setup:err=%d, port=%u\n" [ret; portid];
  socket ← do_call (rte_eth_dev_socket_id portid);
  let txq_conf := set_tx_offloads (txmode_offloads local_port_conf) (default_txconf dev_info) in
  ret ← do_call (rte_eth_tx_queue_setup portid 0 (num_txd s) socket txq_conf);
  _ ← exit_if (ret <? 0) "rte_eth_tx_queue_setup:err=%d, port=%u\n" [ret; portid];
  socket ← do_call (rte_eth_dev_socket_id portid);
  tx_buffer ← do_call (rte_zmalloc_socket (RTE_ETH_TX_BUFFER_SIZE (Z.of_nat MAX_PKT_BURST)) 0 socket);
  match tx_buffer with
  | None => rte_exit "Cannot allocate buffer for tx on port %u\n" [portid]
  | Some dpdk_write_tx_buffer =>
      _ ← do_call (rte_eth_tx_buffer_init dpdk_write_tx_buffer (Z.of_nat MAX_PKT_BURST));
      ret ← do_call (rte_eth_tx_buffer_set_err_callback dpdk_write_tx_buffer);
      exit_if (ret <? 0) "Cannot set error callback for tx buffer on port %u\n" [portid]
  end.

(** [promiscuous_on] is never cleared. *)
Definition start_port (portid : Z) : program unit :=
  ret ← do_call (rte_eth_dev_set_ptypes portid);
  (if ret <? 0 then do_call (printf "Port %u, Failed to disable Ptype parsing\n" [portid])
   else mret tt) ≫= λ _,
  ret ← do_call (rte_eth_dev_start portid);
  _ ← exit_if (ret <? 0) "rte_eth_dev_start:err=%d, port=%u\n" [ret; portid];
  _ ← do_call (printf "done: \n" []);
  ret ← do_call (rte_eth_promiscuous_enable portid);
  exit_if (negb (ret =? 0)) "rte_eth_promiscuous_enable:err=%s, port=%u\n" [- ret; portid].

(** [interface_create_interface] of [interface.c] sets the operations only; the interface has one,
    [dpdk_write_write]. *)
Definition interface_create_interface : interface_t := raw_interface.

(** The first port gets the interface of the stack; its number is tested after it was stored. *)
Definition create_interface (portid : Z) (mac_addr : list Z) (s : ports_state) : program ports_state :=
  if first_port_initialized s then mret s
  else
    let interface := interface_create_interface <| if_port := portid |> <| if_mac := take 6 mac_addr |>
      <| if_ipv4_addr := INTERFACE_IPV4_ADDR |> in
    _ ← exit_if (negb (portid =? 0)) "Port on interface must be 0 for now %u\n" [portid];
    match set_array (Z.to_nat portid) (Some interface) [None] with
    | Some array =>
        mret {| num_rxd := num_rxd s; num_txd := num_txd s; interfaces := Some array;
                first_port_initialized := true |}
    | None => Halt (Faulted OutOfBounds)
    end.

(** The body of the loop over the ports. *)
Definition init_port (pktmbuf_pool : addr) (portid : Z) (s : ports_state) : program ports_state :=
  '(dev_info, local_port_conf, s) ← configure_port portid s;
  _ ← setup_queues portid pktmbuf_pool dev_info local_port_conf s;
  _ ← start_port portid;
  '(_, mac_addr) ← do_call (rte_eth_macaddr_get portid);
  _ ← do_call (printf "Port %u, MAC address: " (portid :: mac_addr));
  create_interface portid mac_addr s.

Fixpoint init_ports (pktmbuf_pool : addr) (ports : list Z) (s : ports_state) : program ports_state :=
  match ports with
  | [] => mret s
  | portid :: ports => s ← init_port pktmbuf_pool portid s; init_ports pktmbuf_pool ports s
  end.

(** ** The program *)

Definition signal_handler (signum : string) (force_quit : bool) : bool :=
  if bool_decide (signum = "SIGINT" ∨ signum = "SIGTERM")%string then true else force_quit.

Definition NUM_WORKERS : Z := 1.

(** [create_netstack_execution_context], with [QUEUE_CREATE_QUEUE], whose ring is stored whatever
    it is. *)
Definition worker_queue_name (worker_id : Z) : string := ("Worker " +:+ pretty worker_id)%string.
Definition create_netstack_execution_context (worker_id : Z) (handlers : list addr) (num_handlers : Z)
    : program execution_context_t :=
  socket ← do_call rte_socket_id;
  work_queue ← do_call (rte_ring_create (worker_queue_name (u8 worker_id)) (Z.of_nat QUEUE_SIZE) socket);
  mret (new_execution_context raw_execution_state worker_id work_queue handlers num_handlers).

(** The workers, one per core until there are enough; an entry that was not set is [None]. *)
Fixpoint launch_workers (app : net_stack_app) (lcores : list Z) (worker_idx : Z)
    (workers : list (option execution_context_t)) : program (list (option execution_context_t)) :=
  match lcores with
  | [] => mret workers
  | lcore_id :: lcores =>
      execution_context ← create_netstack_execution_context lcore_id (root_handlers app) 1;
      match set_array (Z.to_nat worker_idx) (Some execution_context) workers with
      | Some workers =>
          _ ← do_call (start_worker execution_context);
          if u8 (worker_idx + 1) =? NUM_WORKERS then mret workers
          else launch_workers app lcores (u8 (worker_idx + 1)) workers
      | None => Halt (Faulted OutOfBounds)
      end
  end.

Fixpoint wait_workers (lcores : list Z) (ret : Z) : program Z :=
  match lcores with
  | [] => mret ret
  | lcore_id :: lcores =>
      r ← do_call (rte_eal_wait_lcore lcore_id);
      if r <? 0 then mret (-1) else wait_workers lcores ret
  end.

Fixpoint close_ports (ports : list Z) (ret : Z) : program Z :=
  match ports with
  | [] => mret ret
  | portid :: ports =>
      _ ← do_call (printf "Closing port %d..." [portid]);
      ret ← do_call (rte_eth_dev_stop portid);
      (if negb (ret =? 0) then do_call (printf "rte_eth_dev_stop: err=%d, port=%d\n" [ret; portid])
       else mret tt) ≫= λ _,
      _ ← do_call (rte_eth_dev_close portid);
      _ ← do_call (printf " Done\n" []);
      close_ports ports ret
  end.

(** EAL, the signals, the pool and the ports. *)
Definition initialise : program ports_state :=
  ret ← do_call rte_eal_init;
  _ ← exit_if (ret <? 0) "Invalid EAL arguments\n" [];
  _ ← do_call (signal "SIGINT");
  _ ← do_call (signal "SIGTERM");
  let num_lcores := 1 in
  let num_mbufs := Z.max (2 * (RX_DESC_DEFAULT + TX_DESC_DEFAULT + Z.of_nat MAX_PKT_BURST
                               + num_lcores * MEMPOOL_CACHE_SIZE)) 8192 in
  socket ← do_call rte_socket_id;
  pktmbuf_pool ← do_call (rte_pktmbuf_pool_create num_mbufs MEMPOOL_CACHE_SIZE 0 RTE_MBUF_DEFAULT_BUF_SIZE socket);
  match pktmbuf_pool with
  | None => rte_exit "Cannot init mbuf pool\n" []
  | Some pktmbuf_pool =>
      init_ports pktmbuf_pool eth_ports
        {| num_rxd := RX_DESC_DEFAULT; num_txd := TX_DESC_DEFAULT; interfaces := None;
           first_port_initialized := false |}
  end.

(** The stack, the workers and the offloader; [interfaces[0]] is read twice. *)
Definition run_stack `{!Platform} (s : ports_state) : program unit :=
  interface ← from_outcome (
    array ← from_option_fault NullDeref (interfaces s);
    entry ← from_option_fault OutOfBounds (array !! 0%nat);
    from_option_fault NullDeref entry);
  '(net_stack, _) ← from_outcome (net_stack_init interface initial_world);
  _ ← do_call (arp_program_start net_stack);
  workers ← launch_workers net_stack worker_lcores 0 [None];
  socket ← do_call rte_socket_id;
  write_queue ← do_call (rte_ring_create "write ring" (Z.of_nat WRITE_QUEUE_SIZE) socket);
  match write_queue with
  | None => rte_exit "Could not create ring for write queue" []
  | Some _ => do_call (run_offloader_loop interface workers NUM_WORKERS)
  end.

Definition main `{!Platform} : program Z :=
  s ← initialise;
  _ ← check_all_ports_link_status;
  _ ← run_stack s;
  ret ← wait_workers worker_lcores 0;
  ret ← close_ports eth_ports ret;
  _ ← do_call rte_eal_cleanup;
  _ ← do_call (printf "Bye...\n" []);
  mret ret.
End Calls.
