(* ===== verification/StartUp.v ===== *)
(** * StartUp: what [main] does on every device

    The theorems about [Main.v]: the check of the links ends, [main] stops at the first call
    that fails, and what has been done when the loop of the offloader is entered. *)

From stdpp Require Import strings.
From S2P Require Import Prelude Headers ProtocolMap BlockBuffer State Stack Worker Offloader Main.

Section Calls.
Context `{!Dpdk}.

(** ** Reasoning about all environments *)

(** [wp_program p Q past]: however the calls are answered, [Q] holds of the calls that were made
    in the end and of the result. *)
Fixpoint wp_program {A} (p : program A) (Q : list dpdk_event → A + halt → Prop)
    (past : list dpdk_event) : Prop :=
  match p with
  | Return a => Q past (inl a)
  | Halt h => Q past (inr h)
  | Next c k => ∀ r, wp_program (k r) Q (past ++ [Event c r])
  end.

Lemma wp_program_run {A} (p : program A) Q past env :
  wp_program p Q past → Q (run_program env p past).1 (run_program env p past).2.
Proof. revert past. induction p as [a|h|c k IH]; intros past Hp; [done|done|]. apply IH, Hp. Qed.

Lemma wp_program_mono {A} (p : program A) (P Q : list dpdk_event → A + halt → Prop) past :
  (∀ past' r, P past' r → Q past' r) → wp_program p P past → wp_program p Q past.
Proof. intros HPQ. revert past. induction p as [a|h|c k IH]; simpl; auto. Qed.

(** The postcondition of the first part of a program. *)
Definition and_then_program {A B} (k : A → program B) (Q : list dpdk_event → B + halt → Prop)
    (past : list dpdk_event) (r : A + halt) : Prop :=
  match r with inl a => wp_program (k a) Q past | inr h => Q past (inr h) end.

Lemma wp_program_bind {A B} (p : program A) (k : A → program B) Q past :
  wp_program p (and_then_program k Q) past → wp_program (p ≫= k) Q past.
Proof.
  revert past. induction p as [a|h|c l IH]; intros past Hp; [done|done|].
  intros r. apply IH, Hp.
Qed.

(** A postcondition about the calls a part of a program adds. *)
Definition adds {A} (past : list dpdk_event) (Q : list dpdk_event → A + halt → Prop)
    (past' : list dpdk_event) (r : A + halt) : Prop :=
  ∃ new, past' = past ++ new ∧ Q new r.

Lemma wp_program_frame {A} (p : program A) Q past :
  wp_program p Q [] → wp_program p (adds past Q) past.
Proof.
  enough (∀ past0, wp_program p Q past0 → wp_program p (adds past Q) (past ++ past0)) as Hall.
  { intros Hp. rewrite <- (app_nil_r past) at 2. by apply Hall. }
  induction p as [a|h|c k IH]; intros past0 Hp; [by eexists|by eexists|].
  intros r. rewrite <- app_assoc. apply IH, Hp.
Qed.

(** Running two programs one after the other, each from no calls. *)
Lemma wp_program_seq {A B} (p : program A) (k : A → program B) P Q :
  wp_program p P [] →
  (∀ new h, P new (inr h) → Q new (inr h)) →
  (∀ new a, P new (inl a) → wp_program (k a) (λ more r, Q (new ++ more) r) []) →
  wp_program (p ≫= k) Q [].
Proof.
  intros Hp Hh Hk. apply wp_program_bind. eapply wp_program_mono; [|exact Hp].
  intros new [a|h] HP; [|by apply Hh]. simpl.
  eapply wp_program_mono; [|by apply wp_program_frame, Hk]. by intros past' r (more & -> & Hmore).
Qed.

(** *** What happens in a run *)

(** The answers that report a failure, by the documentation of the calls. *)
Definition reports_failure (e : dpdk_event) : bool :=
  match e with
  | Event rte_eal_init r => r <? 0
  | Event (rte_pktmbuf_pool_create _ _ _ _ _) r => bool_decide (r = None)
  | Event (rte_eth_dev_info_get _) (r, _) => negb (r =? 0)
  | Event (rte_eth_dev_configure _ _ _ _) r => r <? 0
  | Event (rte_eth_dev_adjust_nb_rx_tx_desc _ _ _) (r, _) => r <? 0
  | Event (rte_eth_rx_queue_setup _ _ _ _ _ _) r => r <? 0
  | Event (rte_eth_tx_queue_setup _ _ _ _ _) r => r <? 0
  | Event (rte_zmalloc_socket _ _ _) r => bool_decide (r = None)
  | Event (rte_eth_tx_buffer_init _ _) r => negb (r =? 0)
  | Event (rte_eth_tx_buffer_set_err_callback _) r => r <? 0
  | Event (rte_eth_dev_set_ptypes _) r => r <? 0
  | Event (rte_eth_dev_start _) r => r <? 0
  | Event (rte_eth_promiscuous_enable _) r => negb (r =? 0)
  | Event (rte_eth_macaddr_get _) (r, _) => negb (r =? 0)
  | Event (rte_eth_link_get_nowait _) (r, _) => r <? 0
  | Event (start_worker _) r => negb (r =? 0)
  | Event (rte_ring_create _ _ _) r => bool_decide (r = None)
  | Event (rte_eal_wait_lcore _) r => r <? 0
  | Event (rte_eth_dev_stop _) r => negb (r =? 0)
  | Event (rte_eth_dev_close _) r => negb (r =? 0)
  | Event rte_eal_cleanup r => negb (r =? 0)
  | _ => false
  end.

(** The calls whose failures [main] passes over: of the address and the transmit buffer of a port, of
    the packet types and the link (which it reports), of everything about a worker, its ring
    included, and at the end of the program. *)
Definition passed_over (c : dpdk_call) : bool :=
  match c with
  | rte_eth_tx_buffer_init _ _ | rte_eth_dev_set_ptypes _ | rte_eth_macaddr_get _
  | rte_eth_link_get_nowait _ | start_worker _ | rte_eal_wait_lcore _ | rte_eth_dev_stop _
  | rte_eth_dev_close _ | rte_eal_cleanup => true
  | rte_ring_create name _ _ => negb (String.eqb name "write ring")
  | _ => false
  end.
Definition failed (e : dpdk_event) : bool :=
  if passed_over (ev_call e) then false else reports_failure e.

(** The calls that bring a port up, in their order. *)
Inductive port_step : Type :=
  | GetInfo | Configure | AdjustDescriptors | SetupRxQueue | SetupTxQueue | StartPort
  | EnablePromiscuous | GetMac.
Definition bring_up : list port_step :=
  [GetInfo; Configure; AdjustDescriptors; SetupRxQueue; SetupTxQueue; StartPort; EnablePromiscuous; GetMac].
Definition port_call (e : dpdk_event) : option (Z * port_step) :=
  match ev_call e with
  | rte_eth_dev_info_get p => Some (p, GetInfo)
  | rte_eth_dev_configure p _ _ _ => Some (p, Configure)
  | rte_eth_dev_adjust_nb_rx_tx_desc p _ _ => Some (p, AdjustDescriptors)
  | rte_eth_rx_queue_setup p _ _ _ _ _ => Some (p, SetupRxQueue)
  | rte_eth_tx_queue_setup p _ _ _ _ => Some (p, SetupTxQueue)
  | rte_eth_dev_start p => Some (p, StartPort)
  | rte_eth_promiscuous_enable p => Some (p, EnablePromiscuous)
  | rte_eth_macaddr_get p => Some (p, GetMac)
  | _ => None
  end.

Definition offloader_call (e : dpdk_event) : bool :=
  match ev_call e with run_offloader_loop _ _ _ => true | _ => false end.
(** The calls behind the initialisation. *)
Definition late_call (e : dpdk_event) : bool :=
  match ev_call e with run_offloader_loop _ _ _ | start_worker _ => true | _ => false end.
Definition worker_start (e : dpdk_event) : option execution_context_t :=
  match ev_call e with start_worker x => Some x | _ => None end.

(** How long the program has waited, the ports a line was printed for, whether it was told to
    quit, and whether a port was found that is not up (port 1 does not count). *)
Fixpoint waited (l : list dpdk_event) : Z :=
  match l with
  | [] => 0
  | e :: l => match ev_call e with rte_delay_ms ms => ms | _ => 0 end + waited l
  end.
Definition reports (e : dpdk_event) : option Z :=
  match ev_call e with
  | printf format (portid :: _) =>
      if bool_decide (format = "Port %d %s\n" ∨ format = "Port %u link get failed: %s\n")%string
      then Some portid else None
  | _ => None
  end.
Definition told_to_quit (e : dpdk_event) : bool :=
  match e with Event read_force_quit quit => quit | _ => false end.
Definition port_down (e : dpdk_event) : bool :=
  match e with
  | Event (rte_eth_link_get_nowait portid) (ret, link_status) =>
      (ret <? 0) || ((link_status =? RTE_ETH_LINK_DOWN) && negb (portid =? 1))
  | _ => false
  end.

Lemma waited_app l k : waited (l ++ k) = waited l + waited k.
Proof. induction l as [|e l IH]; simpl; lia. Qed.

(** The events of a run satisfy [P], and so do those of what comes before and behind. *)
Lemma existsb_app_false {A} (f : A → bool) l k :
  existsb f (l ++ k) = false ↔ existsb f l = false ∧ existsb f k = false.
Proof. rewrite existsb_app. apply orb_false_iff. Qed.

(** *** The link status *)

(** What one pass over the ports adds. *)
Definition checked (print_flag all_ports_up : bool) (ports : list Z) (new : list dpdk_event)
    (r : option bool + halt) : Prop :=
  waited new = 0 ∧ omap reports new `prefix_of` (if print_flag then ports else []) ∧
  match r with
  | inl None => existsb told_to_quit new = true
  | inl (Some up) =>
      existsb told_to_quit new = false ∧
      omap reports new = (if print_flag then ports else []) ∧
      (existsb port_down new = false → up = all_ports_up)
  | inr _ => False
  end.

Lemma checked_app (print_flag up up' : bool) (portid : Z) ports pre new r :
  waited pre = 0 → existsb told_to_quit pre = false →
  omap reports pre = (if print_flag then [portid] else []) →
  (existsb port_down pre = false → up' = up) →
  checked print_flag up' ports new r → checked print_flag up (portid :: ports) (pre ++ new) r.
Proof.
  intros Hw Hq Hr Hd (Hw' & Hr' & Hc). unfold checked. rewrite waited_app, omap_app, Hr. split; [lia|]. split.
  { destruct print_flag; [|done]. by apply prefix_cons. }
  destruct r as [[b|]|h]; [|by rewrite existsb_app, Hc, orb_true_r|done].
  destruct Hc as (Hq' & Ho & Hu). rewrite existsb_app_false. split; [done|]. split.
  - rewrite Ho. by destruct print_flag.
  - rewrite existsb_app_false. intros [Hd1 Hd2]. rewrite Hu by done. by apply Hd.
Qed.

Lemma check_ports_ok print_flag ports up :
  wp_program (check_ports print_flag up ports) (checked print_flag up ports) [].
Proof.
  revert up. induction ports as [|portid ports IH]; intros up.
  { simpl. split; [done|]. split; [by destruct print_flag|]. split; [done|]. by destruct print_flag. }
  assert (∀ pre up', waited pre = 0 → existsb told_to_quit pre = false →
    omap reports pre = (if print_flag then [portid] else []) →
    (existsb port_down pre = false → up' = up) →
    wp_program (check_ports print_flag up' ports) (checked print_flag up (portid :: ports)) pre) as Hgo.
  { intros pre up' Hw Hq Hr Hd. eapply wp_program_mono; [|apply wp_program_frame, IH].
    intros past r (new & -> & Hn). by apply (checked_app print_flag up up'). }
  intros [|]; simpl.
  { split; [done|]. split; [by destruct print_flag; apply prefix_nil|done]. }
  intros [ret st]. destruct (Z.ltb_spec ret 0) as [Hret|Hret].
  - assert ((ret <? 0) = true) as Eret by lia. destruct print_flag.
    + intros []. apply Hgo; try done. simpl. by rewrite Eret.
    + apply Hgo; try done. simpl. by rewrite Eret.
  - destruct print_flag; [intros []; apply Hgo; try done|].
    destruct (st =? RTE_ETH_LINK_DOWN) eqn:E; [|by apply Hgo].
    destruct (portid =? 1) eqn:E1; [by apply Hgo|].
    simpl. split; [done|]. split; [done|]. split; [done|]. split; [done|]. simpl. by rewrite E, E1, orb_true_r.
Qed.

(** What the rounds add, from [count] on. *)
Definition polled (print_flag : bool) (count : Z) (new : list dpdk_event) (r : unit + halt) : Prop :=
  r = inl tt ∧
  0 <= waited new <= (if print_flag then 0 else CHECK_INTERVAL * (MAX_CHECK_TIME - count)) ∧
  omap reports new `prefix_of` eth_ports ∧
  (existsb told_to_quit new = false → omap reports new = eth_ports) ∧
  (existsb port_down new = false → waited new = 0).

Lemma polled_app (print_flag print_flag' : bool) count count' pre new r :
  existsb told_to_quit pre = false → omap reports pre = [] →
  (existsb port_down pre = false → waited pre = 0) →
  0 <= waited pre →
  waited pre + (if print_flag' then 0 else CHECK_INTERVAL * (MAX_CHECK_TIME - count'))
    <= (if print_flag then 0 else CHECK_INTERVAL * (MAX_CHECK_TIME - count)) →
  polled print_flag' count' new r → polled print_flag count (pre ++ new) r.
Proof.
  intros Hq Hr Hd Hpos Hw (-> & Hw' & Hp & Hl & Hu). unfold polled.
  rewrite waited_app, omap_app, Hr. split; [done|]. split; [lia|]. split; [done|].
  rewrite !existsb_app_false. split; [by intros [_ ?]; apply Hl|].
  intros [? ?]. rewrite Hd, Hu; done.
Qed.

Lemma check_rounds_ok fuel count (print_flag : bool) :
  (Z.to_nat (91 - count) <= fuel)%nat → 0 <= count → (if print_flag : bool then count <= 90 else count <= 89) →
  wp_program (check_rounds fuel count print_flag) (polled print_flag count) [].
Proof.
  revert count print_flag. induction fuel as [|fuel IH]; intros count print_flag Hf H0 Hc;
    [destruct print_flag; lia|].
  assert ((count <=? MAX_CHECK_TIME) = true) as Ecount by (unfold MAX_CHECK_TIME; destruct print_flag; lia).
  cbn [check_rounds]. rewrite Ecount.
  intros [|].
  { change (polled print_flag count [Event read_force_quit true] (inl tt)). split; [done|].
    change (waited _) with 0. unfold CHECK_INTERVAL, MAX_CHECK_TIME.
    split; [destruct print_flag; lia|]. split; [apply prefix_nil|done]. }
  simpl. apply wp_program_bind. eapply wp_program_mono; [|apply wp_program_frame, check_ports_ok].
  intros past r (new & -> & Hw & Hp & Hr).
  assert (∀ pre (print_flag' : bool), existsb told_to_quit pre = false → omap reports pre = [] →
    (existsb port_down pre = false → waited pre = 0) → 0 <= waited pre →
    waited pre + (if print_flag' then 0 else CHECK_INTERVAL * (MAX_CHECK_TIME - (count + 1)))
      <= (if print_flag then 0 else CHECK_INTERVAL * (MAX_CHECK_TIME - count)) →
    (if print_flag' then count < 90 else count < 89) →
    wp_program (check_rounds fuel (u8 (count + 1)) print_flag') (polled print_flag count) pre) as Hgo.
  { intros pre pf Hq0 Hr0 Hd0 Hw0 Hw1 Hc1. rewrite u8_id by (destruct pf; unfold is_u8; lia).
    eapply wp_program_mono; [|apply wp_program_frame, IH; destruct pf; lia].
    intros past r' (new' & -> & Hn). by apply (polled_app print_flag pf count (count + 1)). }
  set (pre := _ ++ new).
  assert (waited pre = 0) as Hwp by exact Hw.
  assert (omap reports pre = omap reports new) as Hop by done.
  assert (existsb told_to_quit pre = existsb told_to_quit new) as Hqp by done.
  assert (existsb port_down pre = existsb port_down new) as Hdp by done.
  rewrite <- Hop in Hp. clearbody pre. destruct r as [[up|]|h]; [| |done].
  - destruct Hr as (Hq & Ho & Hd). rewrite <- Hop in Ho. rewrite <- Hqp in Hq. rewrite <- Hdp in Hd.
    clear new Hw Hop Hqp Hdp. destruct print_flag.
    { split; [done|]. rewrite Hwp, Ho. split; [done|]. done. }
    destruct up.
    + intros []. apply Hgo; rewrite ?existsb_app, ?omap_app, ?waited_app, ?Hq, ?Ho, ?Hwp; try done;
        simpl; unfold CHECK_INTERVAL, MAX_CHECK_TIME in *; lia.
    + assert (existsb port_down pre = true) as Hdown.
      { destruct (existsb port_down pre); [done|]. by specialize (Hd eq_refl). }
      intros [] []. cbn [orb]. destruct (Z.eqb_spec count (MAX_CHECK_TIME - 1)) as [->|Hne]; [intros []|];
        apply Hgo; rewrite ?existsb_app, ?omap_app, ?waited_app, ?Hq, ?Ho, ?Hwp, ?Hdown; try done;
        simpl; unfold CHECK_INTERVAL, MAX_CHECK_TIME in *; lia.
  - split; [done|]. rewrite Hwp, Hqp, Hr. unfold CHECK_INTERVAL, MAX_CHECK_TIME.
    split; [destruct print_flag; lia|]. split; [|done]. destruct print_flag; [done|].
    by rewrite (prefix_nil_inv _ Hp); apply prefix_nil.
Qed.

Lemma check_all_ports_link_status_ok :
  wp_program check_all_ports_link_status (polled false 0) [].
Proof.
  intros []. eapply wp_program_mono; [|apply wp_program_frame, check_rounds_ok; done || lia].
  intros past r (new & -> & Hn). by apply (polled_app false false 0 0).
Qed.

(** *** Stages of [main]

    A stage that returns has made no call that failed; one that exits has made the call that
    failed last, or has found that [bad] holds. *)
Definition stopped_by_failure (new : list dpdk_event) : Prop :=
  ∃ pre e, new = pre ++ [e] ∧ existsb failed pre = false ∧ failed e = true.
Definition port_message : string := "Port on interface must be 0 for now %u\n".

Definition stage {A} (bad : Prop) (Q : list dpdk_event → A → Prop) (new : list dpdk_event)
    (r : A + halt) : Prop :=
  existsb late_call new = false ∧
  match r with
  | inl a => existsb failed new = false ∧ Q new a
  | inr (Exited m _) =>
      stopped_by_failure new ∨ (existsb failed new = false ∧ m = port_message ∧ bad)
  | inr _ => False
  end.

Lemma stopped_app l k :
  existsb failed l = false → stopped_by_failure k → stopped_by_failure (l ++ k).
Proof.
  intros Hl (pre & e & -> & Hp & He). exists (l ++ pre), e.
  by rewrite app_assoc, existsb_app_false.
Qed.

Lemma stage_mono {A} (bad bad' : Prop) (P Q : list dpdk_event → A → Prop) new r :
  (bad → bad') → (∀ a, P new a → Q new a) → stage bad P new r → stage bad' Q new r.
Proof.
  intros Hb HPQ [Ho Hr]. split; [done|]. destruct r as [a|[m args|f|]]; try done.
  - destruct Hr. auto.
  - destruct Hr as [?|(? & ? & ?)]; auto.
Qed.

Lemma stage_app {A} (bad : Prop) (Q : list dpdk_event → A → Prop) l new r :
  existsb failed l = false → existsb late_call l = false →
  stage bad (λ k a, Q (l ++ k) a) new r → stage bad Q (l ++ new) r.
Proof.
  intros Hl Hl' [Ho Hr]. unfold stage. rewrite existsb_app_false. split; [done|].
  destruct r as [a|[m args|f|]]; try done.
  - by rewrite existsb_app_false; destruct Hr.
  - rewrite existsb_app_false. destruct Hr as [?|(? & ? & ?)]; [left|by right].
    by apply stopped_app.
Qed.

Lemma stage_seq {A B} (bad bad' : Prop) (p : program A) (k : A → program B) P Q :
  wp_program p (stage bad P) [] → (bad → bad') →
  (∀ new a, P new a → wp_program (k a) (stage bad' (λ more b, Q (new ++ more) b)) []) →
  wp_program (p ≫= k) (stage bad' Q) [].
Proof.
  intros Hp Hbad Hk. apply wp_program_seq with (stage bad P); [done| |].
  - intros new h [Ho Hh]. split; [done|]. destruct h; try done. naive_solver.
  - intros new a (Ho & Hf & HP). eapply wp_program_mono; [|by apply Hk].
    intros more r. by apply stage_app.
Qed.

(** One call that cannot fail, or whose failure is tested next. *)
Lemma stage_exit_if {A} (bad : Prop) (b : bool) m args (k : unit → program A) Q past e :
  last past = Some e → existsb late_call past = false →
  existsb failed (removelast past) = false → failed e = b →
  (b = false → wp_program (k tt) (stage bad Q) past) →
  wp_program (exit_if b m args ≫= k) (stage bad Q) past.
Proof.
  intros He Ho Hf Hb Hk. destruct b; [|by apply Hk].
  apply last_Some in He as [pre ->]. rewrite removelast_last in Hf.
  split; [done|]. left. by exists pre, e.
Qed.

Lemma stage_exit_if_end (bad : Prop) (b : bool) m args Q past e :
  last past = Some e → existsb late_call past = false →
  existsb failed (removelast past) = false → failed e = b →
  (b = false → stage bad Q past (inl tt)) → wp_program (exit_if b m args) (stage bad Q) past.
Proof.
  intros. assert (∀ p : program unit, (p ≫= Return) = p → wp_program (p ≫= Return) (stage bad Q) past →
    wp_program p (stage bad Q) past) as Hret by (by intros p ->).
  apply Hret; [by destruct b|]. eapply stage_exit_if; eauto.
Qed.

Lemma wp_call {A} c (k : answer c → program A) Q past :
  (∀ r, wp_program (k r) Q (past ++ [Event c r])) → wp_program (do_call c ≫= k) Q past.
Proof. done. Qed.

Lemma wp_mret {A B} (a : A) (k : A → program B) Q past :
  wp_program (k a) Q past → wp_program (mret a ≫= k) Q past.
Proof. done. Qed.

(** The calls of a stage are answered one by one; a test of an answer ends the run or goes on. *)
Ltac stage_steps :=
  repeat match goal with
  | |- wp_program (do_call _ ≫= _) _ _ => apply wp_call; intros ?; cbv beta zeta
  | |- wp_program (mret _ ≫= _) _ _ => apply wp_mret
  | |- context [let '(_, _) := ?r in _] => destruct r
  | |- wp_program (exit_if _ _ _ ≫= _) _ _ =>
      eapply stage_exit_if;
        [apply last_snoc|reflexivity|by (simpl; rewrite ?orb_false_r in *; repeat (apply orb_false_iff; split))
        |reflexivity|intros ?]
  | |- wp_program (exit_if _ _ _) _ _ =>
      eapply stage_exit_if_end;
        [apply last_snoc|reflexivity|by (simpl; rewrite ?orb_false_r in *; repeat (apply orb_false_iff; split))
        |reflexivity|intros ?]
  end.
Ltac stage_done :=
  split; [reflexivity|split; [by (simpl; rewrite ?orb_false_r in *; repeat (apply orb_false_iff; split))|]].

Lemma configure_port_ok portid s :
  wp_program (configure_port portid s)
    (stage False (λ new '(_, s'), omap port_call new = pair portid <$> [GetInfo; Configure; AdjustDescriptors] ∧
       interfaces s' = interfaces s ∧ first_port_initialized s' = first_port_initialized s)) [].
Proof.
  unfold configure_port. stage_steps. by stage_done.
Qed.

Lemma setup_queues_ok portid pool dev_info conf s :
  wp_program (setup_queues portid pool dev_info conf s)
    (stage False (λ new _, omap port_call new = pair portid <$> [SetupRxQueue; SetupTxQueue])) [].
Proof.
  unfold setup_queues. stage_steps.
  match goal with o : answer (rte_zmalloc_socket _ _ _) |- _ => destruct o as [buffer|] end.
  - stage_steps. by stage_done.
  - split; [reflexivity|]. left. eexists _, _. split; [reflexivity|].
    split; [by (simpl; rewrite ?orb_false_r in *; repeat (apply orb_false_iff; split))|reflexivity].
Qed.

Lemma start_port_ok portid :
  wp_program (start_port portid)
    (stage False (λ new _, omap port_call new = pair portid <$> [StartPort; EnablePromiscuous])) [].
Proof.
  unfold start_port. apply wp_call. intros ret. cbv beta zeta.
  destruct (ret <? 0).
  all: stage_steps; by stage_done.
Qed.

(** The interface of the stack. *)
Definition own_interface (mac_addr : list Z) : interface_t :=
  {| if_port := 0; if_ipv4_addr := INTERFACE_IPV4_ADDR; if_mac := take 6 mac_addr |}.

(** The interface is made for the first port, with the address the device has given. *)
Definition interface_made (portid : Z) (new : list dpdk_event) (s : ports_state) : Prop :=
  portid = 0 ∧
  ∃ ret mac, Event (rte_eth_macaddr_get portid) (ret, mac) ∈ new ∧
    interfaces s = Some [Some (own_interface mac)].

Definition port_brought_up (portid : Z) (s : ports_state) (new : list dpdk_event) (s' : ports_state)
    : Prop :=
  omap port_call new = pair portid <$> bring_up ∧ first_port_initialized s' = true ∧
  if first_port_initialized s then interfaces s' = interfaces s else interface_made portid new s'.

Lemma init_port_ok pool portid s :
  wp_program (init_port pool portid s)
    (stage (first_port_initialized s = false ∧ portid ≠ 0) (port_brought_up portid s)) [].
Proof.
  unfold init_port. eapply stage_seq; [apply configure_port_ok|done|].
  intros new1 [[dev_info conf] s1] (Hc1 & Hi1 & Hf1).
  eapply stage_seq; [apply setup_queues_ok|done|]. intros new2 [] Hc2.
  eapply stage_seq; [apply start_port_ok|done|]. intros new3 [] Hc3.
  apply wp_call. intros [ret mac]. apply wp_call. intros u. unfold create_interface. rewrite <- Hf1.
  assert (omap port_call (new1 ++ new2 ++ new3 ++ [Event (rte_eth_macaddr_get portid) (ret, mac);
            Event (printf "Port %u, MAC address: " (portid :: mac)) u]) = pair portid <$> bring_up) as Hcalls
    by by rewrite !omap_app, Hc1, Hc2, Hc3.
  destruct (first_port_initialized s1) eqn:Ef.
  - stage_done. unfold port_brought_up. split; [exact Hcalls|]. split; [done|].
    by rewrite <- Hf1.
  - destruct (Z.eqb_spec portid 0) as [->|Hne].
    + stage_done. unfold port_brought_up. split; [exact Hcalls|]. split; [done|]. rewrite <- Hf1.
      split; [done|]. exists ret, mac. split; [|done]. set_solver.
    + split; [reflexivity|]. right. done.
Qed.

Definition all_brought_up (ports : list Z) : list (Z * port_step) :=
  ports ≫= λ p, pair p <$> bring_up.

Lemma init_ports_rest pool ports s :
  first_port_initialized s = true →
  wp_program (init_ports pool ports s)
    (stage False (λ new s', omap port_call new = all_brought_up ports ∧ interfaces s' = interfaces s)) [].
Proof.
  revert s. induction ports as [|portid ports IH]; intros s Hs; [by stage_done|].
  cbn [init_ports]. eapply stage_seq; [apply init_port_ok|naive_solver congruence|].
  intros new s1 (Hc & Hf & Hi). rewrite Hs in Hi. eapply wp_program_mono; [|by apply IH].
  intros more r. apply stage_mono; [done|]. intros s' [Hc' Hi'].
  rewrite omap_app, Hc, Hc', Hi', Hi. done.
Qed.

(** All ports come up in turn, and the first one has to be port 0. *)
Lemma init_ports_ok pool ports s :
  first_port_initialized s = false → interfaces s = None →
  wp_program (init_ports pool ports s)
    (stage (∃ p ps, ports = p :: ps ∧ p ≠ 0) (λ new s',
       omap port_call new = all_brought_up ports ∧
       match ports with
       | [] => interfaces s' = None
       | portid :: _ => interface_made portid new s'
       end)) [].
Proof.
  intros Hf Hi. destruct ports as [|portid ports]; [by stage_done|].
  cbn [init_ports]. eapply stage_seq; [apply init_port_ok|naive_solver|].
  intros new s1 (Hc & Hf1 & Hm). rewrite Hf in Hm. eapply wp_program_mono; [|by apply init_ports_rest].
  intros more r. apply stage_mono; [done|]. intros s' [Hc' Hi']. rewrite omap_app, Hc, Hc'.
  split; [done|]. destruct Hm as (Hp & ret & mac & Hmac & Hif). split; [done|]. exists ret, mac.
  split; [by apply elem_of_app; left|congruence].
Qed.

Definition bad_first_port : Prop := ∃ p ps, eth_ports = p :: ps ∧ p ≠ 0.

Lemma initialise_ok :
  wp_program initialise
    (stage bad_first_port (λ new s,
       omap port_call new = all_brought_up eth_ports ∧
       match eth_ports with
       | [] => interfaces s = None
       | portid :: _ => interface_made portid new s
       end)) [].
Proof.
  unfold initialise. stage_steps. cbv zeta. stage_steps.
  match goal with o : answer (rte_pktmbuf_pool_create _ _ _ _ _) |- _ => destruct o as [pool|] end.
  - eapply wp_program_mono; [|apply wp_program_frame, init_ports_ok; done].
    intros past res (new & -> & Hres). apply stage_app;
      [by (simpl; rewrite ?orb_false_r in *; repeat (apply orb_false_iff; split))|reflexivity|].
    eapply stage_mono; [| |exact Hres]; [done|]. intros s [Hc Hi]. rewrite omap_app, Hc. split; [done|].
    destruct eth_ports as [|portid ports]; [done|]. destruct Hi as (Hp & ret & mac & Hmac & Hif).
    split; [done|]. exists ret, mac. split; [by apply elem_of_app; right|done].
  - split; [reflexivity|]. left. eexists _, _. split; [reflexivity|].
    split; [by (simpl; rewrite ?orb_false_r in *; repeat (apply orb_false_iff; split))|reflexivity].
Qed.

(** *** The calls that decide nothing: the link status, and the end of the program *)

Definition quiet_call (c : dpdk_call) : bool :=
  match c with
  | read_force_quit | rte_eth_link_get_nowait _ | rte_delay_ms _ | printf _ _
  | rte_eal_wait_lcore _ | rte_eth_dev_stop _ | rte_eth_dev_close _ | rte_eal_cleanup => true
  | _ => false
  end.

Fixpoint quiet {A} (p : program A) : Prop :=
  match p with
  | Next c k => quiet_call c = true ∧ ∀ r, quiet (k r)
  | _ => True
  end.

Lemma quiet_bind {A B} (p : program A) (k : A → program B) :
  quiet p → (∀ a, quiet (k a)) → quiet (p ≫= k).
Proof.
  intros Hp Hk. induction p as [a|h|c l IH]; [apply Hk|done|].
  destruct Hp as [Hc Hl]. split; [done|]. intros r. apply IH, Hl.
Qed.

Definition quiet_events (new : list dpdk_event) : Prop :=
  existsb failed new = false ∧ existsb late_call new = false ∧ omap port_call new = [].

Lemma quiet_events_app l k : quiet_events l → quiet_events k → quiet_events (l ++ k).
Proof.
  intros (? & ? & Hl) (? & ? & Hk). unfold quiet_events.
  by rewrite !existsb_app_false, omap_app, Hl, Hk.
Qed.

Lemma quiet_wp {A} (p : program A) past :
  quiet p → quiet_events past → wp_program p (λ new _, quiet_events new) past.
Proof.
  revert past. induction p as [a|h|c k IH]; intros past Hp Hpast; [done|done|].
  destruct Hp as [Hc Hk]. intros r. apply IH; [done|]. apply quiet_events_app; [done|].
  destruct c; try discriminate Hc; done.
Qed.

Lemma wp_program_and {A} (p : program A) P Q past :
  wp_program p P past → wp_program p Q past → wp_program p (λ new r, P new r ∧ Q new r) past.
Proof. revert past. induction p as [a|h|c k IH]; simpl; auto. Qed.

Lemma quiet_check_ports print_flag ports up : quiet (check_ports print_flag up ports).
Proof.
  revert up. induction ports as [|portid ports IH]; intros up; [done|].
  split; [done|]. intros [|]; [done|]. split; [done|]. intros [ret st]. simpl.
  destruct (ret <? 0), print_flag; try (split; [done|intros []]); try apply IH.
  by destruct ((st =? RTE_ETH_LINK_DOWN) && negb (portid =? 1)).
Qed.

Lemma quiet_check_rounds fuel count print_flag : quiet (check_rounds fuel count print_flag).
Proof.
  revert count print_flag. induction fuel as [|fuel IH]; intros count print_flag; simpl.
  { by destruct (count <=? MAX_CHECK_TIME). }
  destruct (count <=? MAX_CHECK_TIME); [|done]. split; [done|]. intros [|]; [done|].
  apply quiet_bind; [apply quiet_check_ports|]. intros [up|]; [|done]. destruct print_flag; [done|].
  apply quiet_bind; [by destruct up|]. intros [].
  destruct (up || (count =? MAX_CHECK_TIME - 1)); [split; [done|intros []]|]; apply IH.
Qed.

Lemma quiet_wait lcores ret : quiet (wait_workers lcores ret).
Proof.
  induction lcores as [|l lcores IH]; [done|]. split; [done|]. intros r. simpl. by destruct (r <? 0).
Qed.

Lemma quiet_close ports ret : quiet (close_ports ports ret).
Proof.
  revert ret. induction ports as [|p ports IH]; intros ret; [done|]. split; [done|]. intros [].
  split; [done|]. intros r. simpl. apply quiet_bind; [by destruct (negb (r =? 0))|]. intros [].
  split; [done|]. intros ?. split; [done|]. intros []. apply IH.
Qed.

(** They return, too. *)
Fixpoint returns {A} (p : program A) : Prop :=
  match p with Return _ => True | Halt _ => False | Next c k => ∀ r, returns (k r) end.
Lemma returns_bind {A B} (p : program A) (k : A → program B) :
  returns p → (∀ a, returns (k a)) → returns (p ≫= k).
Proof. intros Hp Hk. induction p as [a|h|c l IH]; [apply Hk|done|]. intros r. apply IH, Hp. Qed.
Lemma returns_wp {A} (p : program A) past :
  returns p → wp_program p (λ _ r, ∃ a, r = inl a) past.
Proof. revert past. induction p as [a|h|c k IH]; intros past Hp; [by eexists|done|]. intros r. apply IH, Hp. Qed.

Lemma returns_wait lcores ret : returns (wait_workers lcores ret).
Proof. induction lcores as [|l lcores IH]; [done|]. intros r. simpl. by destruct (r <? 0). Qed.
Lemma returns_close ports ret : returns (close_ports ports ret).
Proof.
  revert ret. induction ports as [|p ports IH]; intros ret; [done|]. intros [] r. simpl.
  apply returns_bind; [by destruct (negb (r =? 0))|]. intros [] ? []. apply IH.
Qed.

(** The end of the program, from the return of the offloader's loop. *)
Definition shut_down : program Z :=
  ret ← wait_workers worker_lcores 0;
  ret ← close_ports eth_ports ret;
  _ ← do_call rte_eal_cleanup;
  _ ← do_call (printf "Bye...\n" []);
  mret ret.

Lemma shut_down_ok : wp_program shut_down (λ new r, quiet_events new ∧ ∃ a, r = inl a) [].
Proof.
  apply wp_program_and.
  - apply quiet_wp; [|done]. apply quiet_bind; [apply quiet_wait|]. intros ret.
    apply quiet_bind; [apply quiet_close|]. by intros ret'.
  - apply returns_wp, returns_bind; [apply returns_wait|]. intros ret.
    apply returns_bind; [apply returns_close|]. by intros ret'.
Qed.

(** *** The start of the offloader *)

Definition worker_context (lcore_id : Z) (work_queue : option addr) : execution_context_t :=
  new_execution_context raw_execution_state lcore_id work_queue [1%nat] 1.

(** The worker [main] gives to the offloader, on the first core there is, with whatever ring DPDK has
    given for it; without a core, none. *)
Definition worker_launched (before : list dpdk_event) (worker : option execution_context_t) : Prop :=
  match worker_lcores with
  | [] => worker = None
  | lcore_id :: _ => ∃ socket work_queue,
      Event (rte_ring_create (worker_queue_name (u8 lcore_id)) (Z.of_nat QUEUE_SIZE) socket) work_queue ∈ before ∧
      worker = Some (worker_context lcore_id work_queue)
  end.

(** Everything that was done before the loop of the offloader is entered. *)
Record offloader_starts (before : list dpdk_event) (interface : interface_t)
    (workers : list (option execution_context_t)) (n : Z) : Prop := {
  os_no_failure : existsb failed before = false;
  os_first_port : head eth_ports = Some 0;
  os_ports : omap port_call before = all_brought_up eth_ports;
  os_interface : ∃ ret mac, Event (rte_eth_macaddr_get 0) (ret, mac) ∈ before ∧
    interface = own_interface mac;
  os_workers : ∃ worker, workers = [worker] ∧ n = NUM_WORKERS ∧ worker_launched before worker ∧
    omap worker_start before = option_list worker;
  os_write_queue : ∃ socket ring,
    last before = Some (Event (rte_ring_create "write ring" (Z.of_nat WRITE_QUEUE_SIZE) socket) (Some ring))
}.

Lemma worker_launched_mono before before' worker :
  (∀ e, e ∈ before → e ∈ before') → worker_launched before worker → worker_launched before' worker.
Proof.
  unfold worker_launched. destruct worker_lcores as [|lcore_id lcores]; [done|].
  intros Hin (socket & queue & He & ->). exists socket, queue. split; [by apply Hin|done].
Qed.

Context `{!Platform}.

Lemma launch_workers_ok app :
  root_handlers app = [1%nat] →
  wp_program (launch_workers app worker_lcores 0 [None])
    (λ new r, ∃ worker, r = inl [worker] ∧ worker_launched new worker ∧
              omap worker_start new = option_list worker ∧
              existsb offloader_call new = false ∧ existsb failed new = false ∧
              omap port_call new = []) [].
Proof.
  intros Happ. unfold worker_launched. destruct worker_lcores as [|lcore_id lcores]; [by exists None|].
  cbn [launch_workers]. rewrite Happ. intros socket queue started.
  exists (Some (worker_context lcore_id queue)). split; [done|]. split; [|by split_and!].
  exists socket, queue. split; [|done]. right. left.
Qed.

Lemma run_stack_ok i s :
  interfaces s = Some [Some i] →
  wp_program (run_stack s) (λ new r,
    match r with
    | inl _ => ∃ before worker u, new = before ++ [Event (run_offloader_loop i [worker] NUM_WORKERS) u] ∧
        existsb offloader_call before = false ∧ existsb failed before = false ∧
        omap port_call before = [] ∧ worker_launched before worker ∧
        omap worker_start before = option_list worker ∧
        ∃ socket ring, last before =
          Some (Event (rte_ring_create "write ring" (Z.of_nat WRITE_QUEUE_SIZE) socket) (Some ring))
    | inr (Exited _ _) => existsb offloader_call new = false ∧ stopped_by_failure new
    | inr _ => False
    end) [].
Proof.
  intros Hi. unfold run_stack. rewrite Hi. apply (wp_mret i).
  destruct (net_stack_init_ok i) as (w & Hinit & _). rewrite Hinit. apply (wp_mret (_, w)).
  apply wp_call. intros []. apply wp_program_bind. eapply wp_program_mono;
    [|by apply wp_program_frame, launch_workers_ok].
  intros past r (new & -> & worker & -> & Hl & Hst & Hoff & Hf & Hp). unfold and_then_program.
  apply wp_call. intros socket. apply wp_call. intros [ring|].
  - intros u. eexists _, worker, u. split; [reflexivity|].
    rewrite !existsb_app_false, !omap_app, Hst, Hp. split; [done|]. split; [done|]. split; [done|].
    split; [eapply worker_launched_mono; [|exact Hl]; intros e He; rewrite !elem_of_app; tauto|].
    split; [by simpl; rewrite !app_nil_r|]. eexists _, ring. apply last_snoc.
  - split; [by rewrite !existsb_app_false|]. eexists _, _. split; [reflexivity|].
    by rewrite !existsb_app_false.
Qed.

(** How [main] ends. *)
Definition main_ends (calls : list dpdk_event) (r : Z + halt) : Prop :=
  match r with
  | inl _ => existsb failed calls = false
  | inr (Exited m _) =>
      stopped_by_failure calls ∨ (existsb failed calls = false ∧ m = port_message ∧ bad_first_port)
  | inr (Faulted f) => f = NullDeref ∧ existsb failed calls = false ∧ eth_ports = []
  | inr NoFuel => False
  end.
Definition offloader_start (calls : list dpdk_event) : Prop :=
  ∀ before i workers n u after,
    calls = before ++ Event (run_offloader_loop i workers n) u :: after →
    offloader_starts before i workers n.

Lemma no_offloader_start calls : existsb offloader_call calls = false → offloader_start calls.
Proof.
  intros Hc before i workers n u after ->. rewrite existsb_app_false in Hc. by destruct Hc.
Qed.

Lemma no_late_call calls :
  existsb late_call calls = false → existsb offloader_call calls = false ∧ omap worker_start calls = [].
Proof.
  induction calls as [|[c r] calls IH]; [done|]. simpl. intros [Hc Hl]%orb_false_iff.
  destruct IH as [IHo IHw]; [done|]. rewrite IHo. by destruct c.
Qed.

(** There is one call of the loop only. *)
Lemma one_offloader_start before i workers n u after :
  existsb offloader_call before = false → existsb offloader_call after = false →
  offloader_starts before i workers n →
  offloader_start (before ++ Event (run_offloader_loop i workers n) u :: after).
Proof.
  intros Hb Ha Hs before' i' workers' n' u' after' E.
  apply app_eq_inv in E as [(k & -> & E)|(k & -> & E)]; destruct k as [|e k]; simpl in *.
  - inversion E; subst. by rewrite app_nil_r in *.
  - inversion E; subst. rewrite existsb_app_false in Hb. by destruct Hb.
  - inversion E; subst. by rewrite app_nil_r in *.
  - inversion E; subst. rewrite existsb_app_false in Ha. by destruct Ha.
Qed.

Lemma main_ok : wp_program main (λ calls r, main_ends calls r ∧ offloader_start calls) [].
Proof.
  unfold main. apply wp_program_seq with (stage bad_first_port (λ new s,
    omap port_call new = all_brought_up eth_ports ∧
    match eth_ports with [] => interfaces s = None | portid :: _ => interface_made portid new s end));
    [apply initialise_ok| |].
  { intros new h [[Ho _]%no_late_call Hh]. split; [|by apply no_offloader_start]. by destruct h. }
  intros new s ([Ho Hnw]%no_late_call & Hf & Hp & Hi).
  apply wp_program_seq with (λ more r, quiet_events more ∧ r = inl tt).
  { apply (wp_program_mono _ (λ more r, polled false 0 more r ∧ quiet_events more)); [by intros ? ? [[-> _] ?]|].
    apply wp_program_and; [apply check_all_ports_link_status_ok|].
    apply quiet_wp; [|done]. split; [done|]. intros []. apply quiet_check_rounds. }
  { by intros more h [_ ?]. }
  intros more [] ((Hqf & [Hqo Hmw]%no_late_call & Hqp) & _).
  assert ((eth_ports = [] ∧ interfaces s = None) ∨
          (∃ portid ports, eth_ports = portid :: ports ∧ interface_made portid new s))
    as [[Eports Hno]|(portid & ports & Eports & -> & ret0 & mac & Hmac & Hif)]
    by (destruct eth_ports; [by left|right; by eexists _, _]).
  { unfold run_stack. rewrite Hno.
    change (main_ends (new ++ more ++ []) (inr (Faulted NullDeref)) ∧ offloader_start (new ++ more ++ [])).
    rewrite app_nil_r. split.
    - split; [done|]. by rewrite existsb_app_false.
    - apply no_offloader_start. by rewrite existsb_app_false. }
  apply wp_program_bind. eapply wp_program_mono; [|by apply (run_stack_ok (own_interface mac))].
  intros past [[]|h].
  - intros (before & worker & u & -> & Hbo & Hbf & Hbp & Hbl & Hbs & Hlast).
    eapply wp_program_mono; [|apply wp_program_frame, shut_down_ok].
    intros calls r (tail & -> & (Htf & [Hto _]%no_late_call & _) & ret & ->). split.
    + unfold main_ends. rewrite !existsb_app_false. by split_and!.
    + replace (new ++ more ++ _) with ((new ++ more ++ before) ++
        Event (run_offloader_loop (own_interface mac) [worker] NUM_WORKERS) u :: tail)
        by by rewrite <- !app_assoc.
      apply one_offloader_start; [by rewrite !existsb_app_false|done|]. split.
      * by rewrite !existsb_app_false.
      * by rewrite Eports.
      * by rewrite !omap_app, Hp, Hqp, Hbp, app_nil_r.
      * exists ret0, mac. split; [apply elem_of_app; by left|done].
      * exists worker. split_and!; [done|done| |by rewrite !omap_app, Hnw, Hmw, Hbs].
        eapply worker_launched_mono; [|exact Hbl]. intros e He. rewrite !elem_of_app. tauto.
      * destruct Hlast as (socket & ring & Hlast). exists socket, ring.
        apply last_Some in Hlast as [before' ->]. by rewrite !app_assoc, last_snoc.
  - intros Hh. destruct h as [m args|f|]; [|done..]. destruct Hh as [Hho Hstop]. split.
    + left. apply stopped_app; [done|]. by apply stopped_app.
    + apply no_offloader_start. by rewrite !existsb_app_false.
Qed.

(** A call that failed is the last one, and ends the program with a message. *)
Lemma ends_at_failure calls r before e after :
  main_ends calls r → calls = before ++ e :: after → failed e = true →
  after = [] ∧ ∃ m args, r = inr (Exited m args).
Proof.
  intros Hr -> He.
  assert (existsb failed (before ++ e :: after) = true) as Hf
    by (rewrite existsb_app; simpl; by rewrite He, orb_true_r).
  destruct r as [ret|[m args|f|]]; simpl in Hr; rewrite ?Hf in Hr; try naive_solver.
  destruct Hr as [(pre & e' & E & Hpre & _)|[? _]]; [|done]. split; [|by eexists _, _].
  destruct after as [|a after _] using rev_ind; [done|exfalso].
  rewrite app_comm_cons, app_assoc in E. apply app_inj_tail in E as [<- _].
  rewrite existsb_app_false in Hpre. simpl in Hpre. rewrite He in Hpre. by destruct Hpre.
Qed.
End Calls.

(** ** Properties *)

(** C24: the check of the links ends on every device: it waits for nine seconds at most, and not at
    all when every link is up at once.  Unless the program is told to quit, a line is printed
    for each port, once and in order; if it is, for the first ports of them. *)
Theorem link_check_ends `{!Dpdk} env past :
  ∃ new, run_program env check_all_ports_link_status past = (past ++ new, inl tt) ∧
    0 <= waited new <= 9000 ∧
    omap reports new `prefix_of` eth_ports ∧
    (existsb told_to_quit new = false → omap reports new = eth_ports) ∧
    (existsb port_down new = false → waited new = 0).
Proof.
  pose proof (wp_program_run _ _ _ env (wp_program_frame _ _ past check_all_ports_link_status_ok))
    as (new & Hnew & Hr & Hw & Hrest).
  exists new. split; [|by split]. by rewrite (surjective_pairing (run_program _ _ _)), Hnew, Hr.
Qed.

(** C23: [main] stops at the first failure it looks at: when a call reports a failure, as it is documented to,
    and is not one of those that are passed over ([passed_over]), [main] makes no other call and exits
    with a message; no other failure ends it, so that with a failed address, link, packet type,
    worker ring or worker start it goes on.  Otherwise it exits only when the first port is not
    port 0; it ends in undefined behaviour only when there is no port at all, through the null
    pointer [interfaces]; and it never returns with a call that failed and is not passed over
    behind it. *)
Theorem main_stops_at_failure `{!Dpdk, !Platform} env :
  let '(calls, r) := run_program env main [] in
  (∀ before e after, calls = before ++ e :: after → failed e = true →
     after = [] ∧ ∃ m args, r = inr (Exited m args)) ∧
  match r with
  | inl _ => existsb failed calls = false
  | inr (Exited m _) =>
      stopped_by_failure calls ∨
      (existsb failed calls = false ∧ m = port_message ∧ ∃ p ps, eth_ports = p :: ps ∧ p ≠ 0)
  | inr (Faulted f) => f = NullDeref ∧ existsb failed calls = false ∧ eth_ports = []
  | inr NoFuel => False
  end.
Proof.
  pose proof (wp_program_run _ _ _ env main_ok) as [Hends _].
  destruct (run_program env main []) as [calls r]. split; [|exact Hends].
  intros before e after. by apply ends_at_failure.
Qed.

(** C22: when the loop of the offloader is entered, no call has failed but those whose failures are
    passed over; port 0 is the first port, and
    every port was configured, given its queues, started and set promiscuous, in this order
    and one port after the other; the interface of the stack is port 0 with the address the
    device has given; the write queue was created last; and the offloader gets the one
    worker that was started, on the first core there is, with the ring DPDK has given for it, which
    is null if that failed, or, without a second core, an entry nobody has set. *)
Theorem main_starts_offloader `{!Dpdk, !Platform} env before interface workers n u after r :
  run_program env main [] = (before ++ Event (run_offloader_loop interface workers n) u :: after, r) →
  offloader_starts before interface workers n.
Proof.
  intros E. pose proof (wp_program_run _ _ _ env main_ok) as [_ Hs]. rewrite E in Hs.
  by eapply Hs.
Qed.

(** ** A device on which everything succeeds *)

Definition example_dpdk (ports lcores : list Z) : Dpdk :=
  {| rte_eth_rxconf := Z; rte_eth_txconf := Z;
     set_rx_offloads offloads _ := offloads; set_tx_offloads offloads _ := offloads;
     RTE_ETH_TX_OFFLOAD_MBUF_FAST_FREE := 65536; RTE_MBUF_DEFAULT_BUF_SIZE := 2176;
     RTE_ETH_TX_BUFFER_SIZE n := 32 + 8 * n; RTE_ETH_LINK_DOWN := 0;
     raw_execution_state := NET_STACK_EXECUTION_STARTING;
     raw_interface := {| if_port := 7; if_ipv4_addr := 7; if_mac := [] |};
     eth_ports := ports; worker_lcores := lcores |}.

(** [link] is the status of every port. *)
Definition working (ports lcores : list Z) (link : Z) : environment (H := example_dpdk ports lcores) :=
  λ past c,
    match c return answer (H := example_dpdk ports lcores) c with
    | rte_pktmbuf_pool_create _ _ _ _ _ => Some 1%nat
    | rte_zmalloc_socket _ _ _ => Some 2%nat
    | rte_ring_create _ _ _ => Some 3%nat
    | rte_eth_dev_info_get _ =>
        (0, {| tx_offload_capa := 0; default_rxconf := 0 : rte_eth_rxconf (Dpdk := example_dpdk ports lcores);
               default_txconf := 0 : rte_eth_txconf (Dpdk := example_dpdk ports lcores) |})
    | rte_eth_dev_adjust_nb_rx_tx_desc _ rxd txd => (0, (rxd, txd))
    | rte_eth_macaddr_get _ => (0, [2; 0; 0; 0; 0; 1])
    | read_force_quit => false
    | rte_eth_link_get_nowait _ => (0, link)
    | rte_eal_init | rte_socket_id | rte_eth_dev_configure _ _ _ _ | rte_eth_dev_socket_id _
    | rte_eth_rx_queue_setup _ _ _ _ _ _ | rte_eth_tx_queue_setup _ _ _ _ _
    | rte_eth_tx_buffer_set_err_callback _ | rte_eth_dev_set_ptypes _ | rte_eth_dev_start _
    | rte_eth_promiscuous_enable _ | rte_eal_wait_lcore _ | rte_eth_dev_stop _
    | rte_eth_tx_buffer_init _ _ | start_worker _ | rte_eth_dev_close _ | rte_eal_cleanup => 0
    | signal _ | rte_delay_ms _ | printf _ _ | arp_program_start _ | run_offloader_loop _ _ _ => tt
    end.
