(* ===== verification/Scenario.v ===== *)
(** * Scenario: one run of the stack, and the theorems at concrete inputs

    A platform whose allocator hands out zeroed memory, an interface, a socket on port 80
    and the frames of one client; the runs of the stack on them are evaluated. *)

From S2P Require Import Prelude Headers Checksum ProtocolMap BlockBuffer State.
From S2P Require Import Ethernet Ipv4 TcpShared TcpSocket TcpStates Tcp Arp Llc Custom Stack.
From S2P Require Import TcpOutput Handshake Transfer Refuse ActiveOpen SendData Lifecycle Fuel Traces.

(** ** The setting *)

Definition zero_tcp_header : tcp_header_t :=
  {| th_source_port := 0; th_destination_port := 0; th_sequence_num := 0;
     th_acknowledgement_num := 0; th_data_offset := 0; th_control_bits := 0;
     th_window := 0; th_checksum := 0; th_urgent_pointer := 0 |}.

#[export] Instance example_platform : Platform :=
  {| raw_cells := replicate 11 {| tb_payload_size := 0; tb_sequence_num := 0; tb_data := 0;
                                  tb_next := None |};
     raw_handler_priv := PrivNone;
     raw_tcb_header := zero_tcp_header;
     raw_tcb_after_header := replicate 40 0;
     raw_tcb_active_mode := false;
     raw_tcb_active_mode_args := None;
     raw_trans_control_block := replicate TCP_SOCKET_NUM_TCB None;
     raw_tcp_sockets := replicate SOCKET_BUFFER_SIZE None;
     raw_insert_idx := 0;
     raw_num_arp_entries := 0;
     raw_llc_padding := 0 |}.

(** 10.0.0.1 *)
Definition example_interface : interface_t :=
  {| if_port := 0; if_ipv4_addr := 16777226; if_mac := [2; 0; 0; 0; 0; 1] |}.

Definition with_checksum (h : ipv4_header_t) : ipv4_header_t :=
  h <| ip_header_checksum := default 0 (ipv4_calculate_checksum (encode_ipv4_header_t h)) |>.

(** A datagram from 10.0.0.2 to 10.0.0.1. *)
Definition example_ipv4_header (payload_size : Z) : ipv4_header_t :=
  with_checksum
    {| ip_flags_1 := 69; ip_flags_2 := 0; ip_total_length := htons (40 + payload_size);
       ip_identification := 0; ip_flags_3 := 64; ip_time_to_live := 64; ip_protocol := 6;
       ip_header_checksum := 0; ip_source_ip := 33554442; ip_destination_ip := 16777226 |}.

Definition example_tcp_header (flags sequence_num acknowledgement_num : Z) : tcp_header_t :=
  {| th_source_port := htons 5000; th_destination_port := htons 80;
     th_sequence_num := htonl sequence_num; th_acknowledgement_num := htonl acknowledgement_num;
     th_data_offset := 80; th_control_bits := flags; th_window := htons 1000;
     th_checksum := 0; th_urgent_pointer := 0 |}.

Definition example_ethernet_header : ethernet_header_t :=
  {| eth_destination := [2; 0; 0; 0; 0; 1]; eth_source := [2; 0; 0; 0; 0; 2];
     eth_ethernet_type := 8 |}.

Definition tcp_frame (flags sequence_num acknowledgement_num : Z) (payload : list Z) : list Z :=
  encode_ethernet_header_t example_ethernet_header
  ++ encode_ipv4_header_t (example_ipv4_header (Z.of_nat (length payload)))
  ++ encode_tcp_header_t (example_tcp_header flags sequence_num acknowledgement_num)
  ++ payload.

(** The stack with one listening socket. *)
Definition setup : M world net_stack_app :=
  app <- net_stack_init example_interface;;
  s <- tcp_create_socket example_interface None (htons 80) 16777226 (Some 101%nat) (Some 102%nat);;
  tcp_add_socket (tcp_handler app) s;;;
  ret app.

Definition world_of {A} (o : outcome (A * world)) : world :=
  match o with Ok (_, w) => w | _ => initial_world end.
Definition setup_world : world := world_of (setup initial_world).

Definition receive (flags sequence_num acknowledgement_num : Z) (payload : list Z) : event :=
  Receive [1%nat] (tcp_frame flags sequence_num acknowledgement_num payload) example_interface.

(** The first SYN is lost to the ARP handler; the client repeats it. *)
Definition open_events : list event :=
  [receive 2 1000 0 []; receive 2 1000 0 []; receive 16 1001 643 []].
Definition opened_world : world := world_of (run 12 open_events setup_world).

(** The connections of a memory: state, next octet expected, next octet to send. *)
Definition connections (w : world) : list (TCP_STATE * Z * Z) :=
  (λ t, (tcb_state t, tcb_receive_next t, tcb_send_next t)) <$> (map_to_list (w_tcbs w)).*2.

Example open_run :
  run 12 open_events setup_world = Ok (tt, opened_world) ∧
  connections opened_world = [(ESTABLISHED, 1001, 643)] ∧
  length (w_wire opened_world) = 1%nat.
Proof. vm_compute. done. Qed.

Example data_run :
  let w := world_of (run 12 [receive 16 1001 643 [65; 66; 67; 68]] opened_world) in
  connections w = [(ESTABLISHED, 1005, 643)] ∧ length (w_wire w) = 2%nat.
Proof. vm_compute. done. Qed.

Example close_run :
  let w := world_of (run 12 [receive 17 1001 643 []] opened_world) in
  connections w = [(CLOSE_WAIT, 1002, 644)] ∧ w_calls w = [102%nat].
Proof. vm_compute. done. Qed.

(** The last data segment of a peer, with FIN set, in an open connection: taking the
    payload has moved the stack index, so that the answer to the FIN starts one handler too
    high; the TCP handler then writes it twice, and its stack index runs below 0, to the
    handler 255 of an array of 10.  The same segments without FIN, or without payload, are taken. *)
Lemma data_with_fin_faults :
  run 12 (open_events ++ [receive 17 1001 643 [65; 66; 67; 68]]) setup_world = Fault OutOfBounds ∧
  is_Some (match run 12 (open_events ++ [receive 16 1001 643 [65; 66; 67; 68]]) setup_world with
           | Ok (_, w) => Some w | _ => None end) ∧
  is_Some (match run 12 (open_events ++ [receive 17 1001 643 []]) setup_world with
           | Ok (_, w) => Some w | _ => None end).
Proof. vm_compute. split; [done|]. split; by eexists. Qed.

(** A reset, and the next segment of the connection. *)
Example reset_run :
  let w := world_of (run 12 [receive 4 1001 643 []] opened_world) in
  connections w = [(ESTABLISHED, 1001, 643)] ∧
  run 12 [receive 16 1001 643 [65]] w = Fault Dangling.
Proof. vm_compute. done. Qed.

(** ** Witnesses *)

Lemma setup_world_inv : world_inv setup_world.
Proof.
  assert (w_tcbs setup_world = ∅) as E by (vm_compute; reflexivity).
  split; rewrite E; [apply map_Forall_empty|intros a [x Hx]; done].
Qed.

Lemma connections_follow_machine_witness :
  run 12 open_events setup_world = Ok (tt, opened_world) ∧
  ∀ a t, w_tcbs opened_world !! a = Some t →
    tcb_state_function t = initial_state_function (tcb_state t).
Proof.
  split; [apply open_run|].
  refine (proj2 (proj2 (connections_follow_machine 12 open_events setup_world opened_world
    setup_world_inv _))). apply open_run.
Defined.

(** The same run from the memory at program start, the socket opened by the application. *)
Definition all_events (app : net_stack_app) : list event :=
  OpenSocket (tcp_handler app) example_interface None (htons 80) 16777226 (Some 101%nat) (Some 102%nat)
  :: open_events.
Definition all_run : outcome (net_stack_app * world) :=
  (app <- net_stack_init example_interface;; run 12 (all_events app);;; ret app) initial_world.

Lemma connections_never_close_witness :
  connections (world_of all_run) = [(ESTABLISHED, 1001, 643)] ∧
  ∀ a t, w_tcbs (world_of all_run) !! a = Some t →
    tcb_state t ∈ [LISTEN; SYN_SENT; SYN_RECEIVED; ESTABLISHED; CLOSE_WAIT].
Proof.
  split; [vm_compute; reflexivity|]. intros a t.
  eapply (connections_never_close 12 example_interface all_events). vm_compute. reflexivity.
Defined.

Lemma first_ipv4_frame_to_arp_witness :
  h_operations <$> w_handlers (world_of (net_stack_init example_interface initial_world)) !! 2%nat
  = Some ArpHandler.
Proof.
  refine (proj1 (proj2 (first_ipv4_frame_to_arp 11 example_interface
    {| arp_handler := 2; ipv4_handler := 3; tcp_handler := 4; ethernet_handler := 1;
       root_handlers := [1%nat]; app_interface := example_interface |}
    (world_of (net_stack_init example_interface initial_world)) (tcp_frame 2 1000 0 [])
    example_ethernet_header _ _ _))); vm_compute; reflexivity.
Defined.

(** *** IPv4 and Ethernet *)

(** The bounds of a concrete machine integer, by evaluation. *)
Ltac u_range :=
  lazymatch goal with
  | |- is_u8 _ => idtac | |- is_u16 _ => idtac | |- is_u32 _ => idtac
  end; vm_compute; split; discriminate || reflexivity.

Definition example_ip_args : ipv4_write_args_t := {| iwa_destination_ip := 33554442; iwa_protocol := 6 |}.
Definition example_eth_args : ethernet_write_args_t :=
  {| ewa_destination := [2; 0; 0; 0; 0; 2]; ewa_ethernet_type := 8 |}.
Definition example_out_stack : out_packet_stack_t :=
  {| ops_handlers := Some 1%nat :: Some 3%nat :: replicate 8 None;
     ops_args := ArgEthernet example_eth_args :: ArgIpv4 example_ip_args :: replicate 8 ArgNull;
     ops_out_buffer := {| ob_size := 65535; ob_offset := 65533; ob_data := [104; 105] |};
     ops_stack_idx := 1 |}.
Definition out_world : world := setup_world <| w_out_stacks ::= <[50%nat := example_out_stack]> |>.

Example ipv4_write_sends_example :
  ∃ header, decode_ipv4_header_t (encode_ipv4_header_t header ++ [104; 105]) = Some header ∧
    ntohs (ip_total_length header) = 22.
Proof.
  destruct (ipv4_write_sends (H := dispatch 3) 50 example_interface out_world example_out_stack
    example_ip_args 0 1) as (header & _ & _ & Hd & _ & _ & _ & _ & Hl);
    try reflexivity; try u_range.
  - split; [discriminate|reflexivity].
  - discriminate.
  - by apply bytes_okb_ok.
  - exists header. split; [exact Hd|exact Hl].
Qed.

(** A packet stack whose frame [ethernet_read] has taken apart. *)
Definition ipv4_in_stack (frame : list Z) : in_packet_stack_t :=
  {| ips_handlers := Some 1%nat :: replicate 9 None;
     ips_return_args := ArgEthernet example_eth_args :: replicate 9 ArgNull;
     ips_packet_pointers := Some 0%nat :: Some 14%nat :: replicate 8 None;
     ips_frame := frame;
     ips_stack_idx := 1 |}.
Definition ipv4_in_world (frame : list Z) : world :=
  setup_world <| w_in_stacks ::= <[50%nat := ipv4_in_stack frame]> |>.

Definition damaged_frame : list Z := <[22%nat := 1]> (tcp_frame 2 1000 0 []).
Definition damaged_header : ipv4_header_t :=
  (example_ipv4_header 0) <| ip_time_to_live := 1 |>.

Definition tcp_lookup : option addr * priority_map_t :=
  match get_value (w_ip_map setup_world) 6 with Ok r => r | _ => (None, w_ip_map setup_world) end.

Lemma ipv4_read_delivers_witness :
  (∃ w', ipv4_read (H := dispatch 3) 50 example_interface 3 (ipv4_in_world (tcp_frame 2 1000 0 [])) =
    (op_read (Dispatch := dispatch 3) 50 example_interface 4;;; ret (Some 0)) w') ∧
  ∃ code, code ∈ [1; 2; 3] ∧
    ipv4_read (H := dispatch 3) 50 example_interface 3 (ipv4_in_world damaged_frame) =
    Ok (Some code, (ipv4_in_world damaged_frame)
          <| w_in_stacks ::= <[50%nat := entered 3 (ipv4_in_stack damaged_frame)]> |>).
Proof.
  assert (fst tcp_lookup = Some 4%nat) as E by (vm_compute; reflexivity). split.
  - pose proof (ipv4_read_delivers (H := dispatch 3) 50 3 example_interface
      (ipv4_in_world (tcp_frame 2 1000 0 [])) (ipv4_in_stack (tcp_frame 2 1000 0 [])) 14
      (example_ipv4_header 0) (fst tcp_lookup) (snd tcp_lookup)) as H. cbv zeta in H.
    replace (valid_datagram _) with true in H by (vm_compute; reflexivity).
    eexists. etransitivity; [apply H; try (vm_compute; reflexivity); try (vm_compute; lia);
      apply bytes_okb_ok; vm_compute; reflexivity|].
    rewrite E. change (ip_destination_ip (example_ipv4_header 0) =? if_ipv4_addr example_interface) with true.
    cbv iota. reflexivity.
  - pose proof (ipv4_read_delivers (H := dispatch 3) 50 3 example_interface (ipv4_in_world damaged_frame)
      (ipv4_in_stack damaged_frame) 14 damaged_header (fst tcp_lookup) (snd tcp_lookup)) as H.
    cbv zeta in H. replace (valid_datagram _) with false in H by (vm_compute; reflexivity).
    apply H; try (vm_compute; reflexivity); try (vm_compute; lia).
    apply bytes_okb_ok. vm_compute. reflexivity.
Defined.

Example ethernet_read_delivers_example :
  ∃ w', ethernet_read (H := dispatch 3) 50 example_interface 1
      (setup_world <| w_in_stacks ::= <[50%nat := new_packet_stack (tcp_frame 2 1000 0 [])]> |>) =
    (op_read (Dispatch := dispatch 3) 50 example_interface 2;;; ret None) w'.
Proof.
  destruct first_ipv4_lookup as [map' Hm]. eexists. etransitivity.
  - apply (ethernet_read_delivers (H := dispatch 3) 50 example_interface 1 _
      (new_packet_stack (tcp_frame 2 1000 0 [])) 0 example_ethernet_header 8 0 (Some 2%nat) map');
      try (vm_compute; reflexivity); try (vm_compute; lia); try u_range.
    rewrite <- Hm. vm_compute. reflexivity.
  - reflexivity.
Qed.

(** *** Sockets and connections *)

Definition example_socket : tcp_socket_t :=
  match w_sockets setup_world !! 5%nat with
  | Some s => s
  | None => {| sock_port := 0; sock_ipv4 := 0; sock_trans_control_block := []; sock_on_connect := None;
               sock_on_close := None; sock_interface := example_interface; sock_next_handler := None |}
  end.
Definition tcb_world : world := setup_world <| w_tcbs ::= <[100%nat := example_tcb LISTEN 1000 4096]> |>.

Example tcb_add_get_example :
  ∃ w', tcp_add_transmission_control_block 5 100 tcb_world = Ok (tt, w') ∧
    tcp_get_transmission_control_block 5 5242960 w' = Ok (Some 100%nat, w').
Proof.
  destruct (tcb_add_get tcb_world 5 example_socket 100 (example_tcb LISTEN 1000 4096)) as (w' & Ha & Hg).
  - vm_compute. reflexivity.
  - split; vm_compute; constructor.
  - vm_compute. reflexivity.
  - change (omap id (sock_trans_control_block example_socket)) with (@nil addr). apply not_elem_of_nil.
  - vm_compute. reflexivity.
  - exists w'. split; [exact Ha|]. rewrite decide_True in Hg by (vm_compute; left). apply Hg.
Qed.

Definition opened_socket : tcp_socket_t :=
  match w_sockets opened_world !! 5%nat with Some s => s | None => example_socket end.

Example tcb_delete_get_example :
  ∃ w', tcp_delete_transmission_control_block 5 (tcp_shared_calculate_connection_id 0 (htons 5000) (htons 80))
          opened_world = Ok (tt, w') ∧
    tcp_get_transmission_control_block 5 (tcp_shared_calculate_connection_id 0 (htons 5000) (htons 80)) w'
      = Ok (None, w').
Proof.
  destruct (tcb_delete_get opened_world 5 opened_socket
    (tcp_shared_calculate_connection_id 0 (htons 5000) (htons 80))) as (w' & Hd & Hg & _).
  - vm_compute. reflexivity.
  - split; vm_compute; [|apply NoDup_singleton]. constructor; [by eexists|constructor].
  - exists w'. split; [exact Hd|exact Hg].
Qed.

Definition two_sockets_world : world :=
  setup_world <| w_sockets ::= <[77%nat := example_socket <| sock_port := htons 443 |>]> |>.
Definition tcp_handler_object : handler_t :=
  match w_handlers setup_world !! 4%nat with
  | Some h => h | None => {| h_operations := TcpHandler; h_priv := PrivNone |} end.
Definition tcp_private : tcp_priv_t :=
  match h_priv tcp_handler_object with PrivTcp p => p | _ => {| tp_window := 0; tp_tcp_sockets := [] |} end.

Example tcp_add_socket_get_example :
  ∃ w', tcp_add_socket 4 77 two_sockets_world = Ok (true, w') ∧
    tcp_get_socket 4 16777226 (htons 443) w' = Ok (Some 77%nat, w').
Proof.
  pose proof (tcp_add_socket_get two_sockets_world 4 tcp_handler_object tcp_private 77
    (example_socket <| sock_port := htons 443 |>)) as Hw.
  rewrite decide_True in Hw by (vm_compute; lia).
  destruct Hw as (w' & Ha & Hg); try (vm_compute; reflexivity).
  - vm_compute. constructor; [by eexists|constructor].
  - exists w'. split; [exact Ha|]. destruct (Hg 16777226 (htons 443)) as (r & H1 & H2).
    assert (tcp_get_socket 4 16777226 (htons 443) two_sockets_world = Ok (None, two_sockets_world)) as E
      by (vm_compute; reflexivity).
    rewrite E in H1. assert (r = None) as -> by congruence. exact H2.
Qed.

(** *** ARP *)

(** Who has 10.0.0.1, asks 10.0.0.2. *)
Definition example_arp_request : arp_header_t :=
  {| ah_hdw_type := 256; ah_pro_type := 8; ah_hdw_addr_length := 6; ah_pro_addr_length := 4;
     ah_operation := 256; ah_sender_hardware_addr := [2; 0; 0; 0; 0; 2];
     ah_sender_protocol_addr := 33554442; ah_target_hardware_addr := [0; 0; 0; 0; 0; 0];
     ah_target_protocol_addr := 16777226 |}.

(** 256 senders; the entry in slot 5 is the oldest. *)
Definition full_arp_senders : list arp_entry_t :=
  (λ n, {| ae_ipv4 := Z.of_nat n; ae_mac := [2; 0; 0; 0; 1; Z.of_nat n] |}) <$> seq 0 256.
Definition full_arp_list : arp_resoltion_list_t :=
  {| arl_list := Some <$> full_arp_senders; arl_insert_idx := 5 |}.
Definition full_arp_queue : list arp_entry_t := drop 5 full_arp_senders ++ take 5 full_arp_senders.

Lemma full_arp_ages : arp_ages full_arp_list full_arp_queue.
Proof.
  exists full_arp_senders. split; [|reflexivity]. split; [vm_compute; reflexivity|].
  split; [vm_compute; lia|]. split.
  - apply (bool_decide_unpack _). vm_compute. exact I.
  - split; [simpl; lia|]. vm_compute. lia.
Qed.

(** The sender of the oldest entry is forgotten, the next one is not. *)
Lemma arp_learn_refines_witness :
  ∃ l', arp_learn full_arp_list example_arp_request true = Some l' ∧
    arp_resolve l' 33554442 = Some [2; 0; 0; 0; 0; 2] ∧ arp_resolve l' 5 = None ∧
    arp_resolve l' 6 = Some [2; 0; 0; 0; 1; 6].
Proof.
  destruct (arp_learn_refines full_arp_list full_arp_queue example_arp_request true full_arp_ages)
    as (l' & Hl & _ & _ & Hr).
  exists l'. split; [exact Hl|]. rewrite !Hr. split_and!; vm_compute; reflexivity.
Defined.

(** Memory that is not zeroed. *)
Definition dirty_platform : Platform :=
  {| raw_cells := raw_cells; raw_handler_priv := raw_handler_priv; raw_tcb_header := raw_tcb_header;
     raw_tcb_after_header := raw_tcb_after_header; raw_tcb_active_mode := true;
     raw_tcb_active_mode_args := Some 9%nat; raw_trans_control_block := raw_trans_control_block;
     raw_tcp_sockets := raw_tcp_sockets; raw_insert_idx := 7; raw_num_arp_entries := 5;
     raw_llc_padding := 1 |}.

Example arp_uninitialised_index_example :
  ∃ l', arp_learn {| arl_list := replicate ARP_RESOLUTION_LIST_SIZE None; arl_insert_idx := 7 |}
          example_arp_request true = Some l' ∧
    ∀ ip, arp_resolve l' ip = None.
Proof.
  destruct (@arp_uninitialised_index dirty_platform example_arp_request) as (l' & Hl & _ & Hr).
  - simpl. lia.
  - exists l'. split; [exact Hl|exact Hr].
Qed.

Definition arp_in_stack : in_packet_stack_t :=
  {| ips_handlers := Some 1%nat :: replicate 9 None;
     ips_return_args := ArgEthernet example_eth_args :: replicate 9 ArgNull;
     ips_packet_pointers := Some 0%nat :: Some 14%nat :: replicate 8 None;
     ips_frame := encode_ethernet_header_t example_ethernet_header
                  ++ encode_arp_header_t example_arp_request;
     ips_stack_idx := 1 |}.
Definition arp_world : world := setup_world <| w_in_stacks ::= <[50%nat := arp_in_stack]> |>.
Definition arp_private : arp_priv_t :=
  {| ap_socket := None;
     ap_resolution_list := {| arl_list := replicate ARP_RESOLUTION_LIST_SIZE None; arl_insert_idx := 0 |} |}.

(** The socket that the ARP program sets. *)
Definition watched_private : arp_priv_t := arp_private <| ap_socket := Some 7%nat |>.
Definition watched_arp_world : world :=
  arp_world
    <| w_handlers ::= <[2%nat := {| h_operations := ArpHandler; h_priv := PrivArp watched_private |}]> |>
    <| w_arp_sockets ::= <[7%nat := {| as_next_handler := None; as_passthrough := true;
                                       as_interface := example_interface |}]> |>.

Lemma arp_request_answered_witness :
  ∃ l w', arp_read (H0 := dispatch 3) 50 example_interface 2 watched_arp_world =
      (ok <- op_write (Dispatch := dispatch 3) 2 (w_next arp_world) example_interface;;
       if negb ok then ret (Some 65535) else ret (Some 0)) w' ∧
    arp_resolve l 33554442 = Some [2; 0; 0; 0; 0; 2].
Proof.
  destruct (arp_learn (ap_resolution_list watched_private) example_arp_request true) as [l|] eqn:Hl;
    [|vm_compute in Hl; discriminate Hl].
  destruct (arp_request_answered (H0 := dispatch 3) 50 example_interface 2 watched_arp_world arp_in_stack 14
    example_arp_request {| h_operations := ArpHandler; h_priv := PrivArp watched_private |} watched_private l)
    as [_ [(w' & Hr & _) Hlearned]];
    [vm_compute; reflexivity|vm_compute; lia|vm_compute; lia|reflexivity|vm_compute; reflexivity
    |vm_compute; reflexivity|reflexivity| |exact Hl|reflexivity|reflexivity|reflexivity|reflexivity|].
  - eexists. split; [vm_compute; reflexivity|reflexivity].
  - exists l, w'. split; [exact Hr|]. apply (Hlearned []). exists []. split; [|reflexivity].
    split; [reflexivity|]. split; [vm_compute; lia|]. split; [apply NoDup_nil_2|].
    split; [simpl; lia|reflexivity].
Defined.

(** *** TCP *)

(** The stack with one open connection, whose packet stack for a segment to send or a
    segment received is at address 50. *)
Definition connected_socket : tcp_socket_t :=
  example_socket <| sock_trans_control_block := Some 100%nat :: replicate 31 None |>.
Definition connected_world (t : transmission_control_block_t) : world :=
  setup_world <| w_tcbs ::= <[100%nat := t]> |> <| w_sockets ::= <[5%nat := connected_socket]> |>.

Definition segment_out_stack (data : list Z) : out_packet_stack_t :=
  {| ops_handlers := Some 1%nat :: Some 3%nat :: Some 4%nat :: replicate 7 None;
     ops_args := ArgEthernet example_eth_args :: ArgIpv4 example_ip_args
       :: ArgTcp {| twa_connection_id := 5242960; twa_socket := Some 5%nat; twa_flags := 16 |}
       :: replicate 7 ArgNull;
     ops_out_buffer := {| ob_size := 65535; ob_offset := 65535 - Z.of_nat (length data); ob_data := data |};
     ops_stack_idx := 2 |}.
Definition established_tcb : transmission_control_block_t :=
  (example_tcb ESTABLISHED 1001 4096) <| tcb_send_window := htons 1000 |>.
Definition sending_world : world :=
  (connected_world established_tcb) <| w_out_stacks ::= <[50%nat := segment_out_stack [104; 105]]> |>.

Lemma setup_linked w :
  w_handlers w = w_handlers setup_world → linked w 1 3 4.
Proof. intros E. split; rewrite E; eexists; (split; [vm_compute; reflexivity|reflexivity]). Qed.

Definition sending_checksum : Z :=
  default 0 (written_checksum (segment_out_stack [104; 105]) connected_socket 16 established_tcb).

Example tcp_write_sends_example :
  ∃ w' frame, tcp_write (H0 := dispatch 4) 50 example_interface sending_world = Ok (true, w') ∧
    w_wire w' = w_wire sending_world ++ [frame].
Proof.
  set (sp := sent_stack (segment_out_stack [104; 105]) 1 connected_socket 16 established_tcb sending_checksum).
  destruct (tcp_write_sends (H0 := dispatch 4) sending_world 50 example_interface
    (segment_out_stack [104; 105]) 1 5 connected_socket 5242960 16 100 established_tcb 10 3
    sending_checksum (ip_frame example_eth_args example_ip_args example_interface (ob_data (ops_out_buffer sp))))
    as (p2 & bb2 & _ & Hw).
  - split; try (vm_compute; reflexivity); try (vm_compute; lia).
    + discriminate.
    + split; vm_compute; [|apply NoDup_singleton]. constructor; [by eexists|constructor].
    + by apply create_repr.
  - vm_compute. reflexivity.
  - vm_compute. discriminate.
  - apply (ip_transmits 2 sending_world 1 3 4); try (vm_compute; reflexivity); try u_range.
    + apply setup_linked. vm_compute. reflexivity.
    + split; [vm_compute; discriminate|vm_compute; reflexivity].
    + vm_compute. discriminate.
    + apply bytes_okb_ok. vm_compute. reflexivity.
  - do 2 eexists. split; [exact Hw|reflexivity].
Qed.

(** A connection that has sent a segment with the checksum 7. *)
Definition plain_socket : tcp_socket_t :=
  {| sock_port := htons 80; sock_ipv4 := 16777226; sock_trans_control_block := [];
     sock_on_connect := None; sock_on_close := None; sock_interface := example_interface;
     sock_next_handler := None |}.
Definition used_tcb : transmission_control_block_t :=
  established_tcb <| tcb_out_header := (zero_tcp_header <| th_checksum := 7 |>) |>.
Definition second_checksum : Z :=
  default 0 (written_checksum (segment_out_stack []) plain_socket 16 used_tcb).

Lemma tcp_write_stale_checksum_witness :
  rfc1071_checksum (segment_words (sock_ipv4 plain_socket) (tcb_remote_ipv4 used_tcb)
    (sent_header (segment_out_stack []) plain_socket 16 used_tcb second_checksum)) ≠ 0.
Proof.
  assert (tcp_header_t_ok (written_header (segment_out_stack []) plain_socket 16 used_tcb)) as Hok
    by (split_and!; u_range).
  assert (bytes_ok (tcb_after_header used_tcb)) as Haft
    by (apply bytes_okb_ok; vm_compute; reflexivity).
  assert (written_checksum (segment_out_stack []) plain_socket 16 used_tcb = Some second_checksum) as Hc
    by (vm_compute; reflexivity).
  assert (is_u32 (sock_ipv4 plain_socket)) as Hs by (split; [discriminate|reflexivity]).
  assert (is_u32 (tcb_remote_ipv4 used_tcb)) as Hr by (split; [discriminate|reflexivity]).
  intros E. apply (proj1 (tcp_write_stale_checksum (segment_out_stack []) plain_socket 16 used_tcb
    second_checksum eq_refl Hok Haft Hs Hr Hc)) in E. vm_compute in E. discriminate E.
Defined.

(** *** Received segments *)

Definition segment_in_stack (frame : list Z) : in_packet_stack_t :=
  {| ips_handlers := Some 1%nat :: Some 3%nat :: replicate 8 None;
     ips_return_args := ArgEthernet example_eth_args :: ArgIpv4 example_ip_args :: replicate 8 ArgNull;
     ips_packet_pointers := Some 0%nat :: Some 14%nat :: Some 34%nat :: replicate 7 None;
     ips_frame := frame;
     ips_stack_idx := 2 |}.
Definition syn_world : world :=
  setup_world <| w_in_stacks ::= <[50%nat := segment_in_stack (tcp_frame 2 1000 0 [])]> |>.

Example passive_open_example :
  ∃ w' t', tcp_read (H0 := dispatch 3) 50 example_interface 4 syn_world = Ok (Some 0, w') ∧
    w_tcbs w' !! w_next syn_world = Some t' ∧ tcb_state t' = SYN_RECEIVED ∧
    tcb_receive_next t' = 1001.
Proof.
  destruct (passive_open 0 1 3 4 example_interface syn_world 50 (segment_in_stack (tcp_frame 2 1000 0 []))
    example_eth_args example_ip_args (example_ipv4_header 0) (example_tcp_header 2 1000 0)
    tcp_private 5 example_socket) as (w' & t' & h & Hr & _ & _ & _ & Ht & Hs & _ & Hn & _).
  - split.
    + split; [reflexivity|]. split; [by apply bytes_okb_ok|u_range].
    + apply setup_linked. vm_compute. reflexivity.
    + intros a [x Hx]. vm_compute in Hx. discriminate Hx.
    + reflexivity.
    + split; try reflexivity.
      * exists 14%nat. split; vm_compute; reflexivity.
      * exists 34%nat. split; vm_compute; reflexivity.
      * split; u_range.
    + apply bytes_okb_ok. vm_compute. reflexivity.
    + exists tcp_handler_object. split; vm_compute; reflexivity.
    + vm_compute. constructor; [by eexists|constructor].
    + vm_compute. reflexivity.
    + vm_compute. reflexivity.
    + split; vm_compute; constructor.
    + vm_compute. left.
    + vm_compute. reflexivity.
    + vm_compute. discriminate.
    + split_and!; vm_compute; reflexivity.
    + split_and!; u_range.
  - exists w', t'. split; [exact Hr|]. split; [exact Ht|]. split; [exact Hs|exact Hn].
Qed.

Definition reset_queue : tcp_block_buffer_t :=
  match tcp_block_buffer_add (create_tcp_block_buffer raw_cells 10) 50 (htonl 1001) 0 with
  | Ok (_, bb) => bb
  | _ => create_tcp_block_buffer raw_cells 10
  end.
Definition reset_tcb : transmission_control_block_t := established_tcb <| tcb_in_buffer := reset_queue |>.
Definition reset_world : world :=
  (connected_world reset_tcb) <| w_in_stacks ::= <[50%nat := segment_in_stack (tcp_frame 4 1001 0 [])]> |>.

Example reset_stays_queued_example :
  tcp_others (H := dispatch 3) 4 100 1 example_interface reset_world = Ok (Some 0, reset_world).
Proof.
  destruct (queue_one raw_cells 0 50 (htonl 1001)) as (j & bb & Hadd & Hbb & _); [reflexivity|].
  assert (reset_queue = bb) as E by (unfold reset_queue; by rewrite Hadd).
  refine (proj1 (reset_stays_queued (H := dispatch 3) 4 100 example_interface 0 reset_world reset_tcb _ []
    _ (example_ipv4_header 0) (example_tcp_header 4 1001 0) (Some 5%nat) _ _) _ _ _ _ _).
  - reflexivity.
  - change (tcb_in_buffer reset_tcb) with reset_queue. rewrite E. exact Hbb.
  - vm_compute. reflexivity.
  - vm_compute. reflexivity.
  - vm_compute. reflexivity.
  - vm_compute. reflexivity.
  - left. discriminate.
Qed.

(** *** Segments of a connection *)

(** A connection to the client, with an acknowledged SYN of its own. *)
Definition client_id : Z := tcp_shared_calculate_connection_id 33554442 (htons 5000) (htons 80).
Definition peer_tcb (state : TCP_STATE) : transmission_control_block_t :=
  (example_tcb state 1001 4096) <| tcb_id := client_id |> <| tcb_remote_port := htons 5000 |>.
(** The memory in which [tcp_read] gets a segment of it. *)
Definition segment_world (t : transmission_control_block_t) (frame : list Z) : world :=
  (connected_world t) <| w_in_stacks ::= <[50%nat := segment_in_stack frame]> |>.

Ltac example_segment :=
  split; try reflexivity;
  [exists 14%nat; split; vm_compute; reflexivity|exists 34%nat; split; vm_compute; reflexivity
  |split; u_range].
Ltac example_connected_with queue :=
  split;
  [apply setup_linked; vm_compute; reflexivity
  |reflexivity
  |example_segment
  |reflexivity
  |exists tcp_handler_object; split; vm_compute; reflexivity
  |vm_compute; constructor; [by eexists|constructor]
  |vm_compute; reflexivity
  |vm_compute; reflexivity
  |split; vm_compute; [|apply NoDup_singleton]; constructor; [by eexists|constructor]
  |vm_compute; reflexivity
  |vm_compute; reflexivity
  |vm_compute; discriminate
  |queue
  |by apply create_repr
  |split_and!; u_range
  |split; u_range
  |split; [u_range|by apply bytes_okb_ok]].
Ltac example_connected := example_connected_with ltac:(by apply create_repr).

Example handshake_completes_example :
  ∃ w' t', tcp_read (H0 := dispatch 3) 50 example_interface 4
      (segment_world (peer_tcb SYN_RECEIVED) (tcp_frame 16 1001 643 [])) = Ok (None, w') ∧
    w_tcbs w' !! 100%nat = Some t' ∧ tcb_state t' = ESTABLISHED.
Proof.
  destruct (handshake_completes 0 1 3 4 example_interface
    (segment_world (peer_tcb SYN_RECEIVED) (tcp_frame 16 1001 643 [])) 50
    (segment_in_stack (tcp_frame 16 1001 643 [])) example_eth_args example_ip_args
    (example_ipv4_header 0) (example_tcp_header 16 1001 643) tcp_private 5 connected_socket 100
    (peer_tcb SYN_RECEIVED) 10 10) as (w' & t' & Hr & Ht & _ & _ & Hs & _).
  - split; [example_connected|vm_compute; reflexivity|reflexivity|reflexivity|vm_compute; reflexivity
           |by split_and!|vm_compute; discriminate].
  - reflexivity.
  - vm_compute. reflexivity.
  - reflexivity.
  - exists w', t'. split; [exact Hr|]. split; [rewrite Ht; apply lookup_insert_eq|exact Hs].
Qed.

Lemma data_received_witness :
  ∃ w' t', tcp_read (H0 := dispatch 3) 50 example_interface 4
      (segment_world (peer_tcb ESTABLISHED) (tcp_frame 16 1001 643 [65; 66; 67; 68])) = Ok (None, w') ∧
    w_tcbs w' !! 100%nat = Some t' ∧ tcb_receive_next t' = 1005.
Proof.
  destruct (data_received 0 1 3 4 example_interface
    (segment_world (peer_tcb ESTABLISHED) (tcp_frame 16 1001 643 [65; 66; 67; 68])) 50
    (segment_in_stack (tcp_frame 16 1001 643 [65; 66; 67; 68])) example_eth_args example_ip_args
    (example_ipv4_header 4) (example_tcp_header 16 1001 643) tcp_private 5 connected_socket 100
    (peer_tcb ESTABLISHED) 10 10)
    as (w' & t' & q' & h & _ & _ & _ & _ & _ & Ht & _ & _ & Hn & _ & Hnone).
  - split; [example_connected|vm_compute; reflexivity|reflexivity|reflexivity|vm_compute; reflexivity
           |by split_and!|vm_compute; discriminate].
  - reflexivity.
  - reflexivity.
  - vm_compute. discriminate.
  - destruct Hnone as (bb & _ & Hr); [reflexivity|].
    eexists _, _. split; [exact Hr|]. split; [apply lookup_insert_eq|exact Hn].
Defined.

Lemma fin_received_witness :
  ∃ w' t', tcp_read (H0 := dispatch 3) 50 example_interface 4
      (segment_world (peer_tcb ESTABLISHED) (tcp_frame 17 1001 643 [])) = Ok (None, w') ∧
    w_calls w' = [102%nat] ∧ w_tcbs w' !! 100%nat = Some t' ∧ tcb_state t' = CLOSE_WAIT.
Proof.
  destruct (fin_received 0 1 3 4 example_interface
    (segment_world (peer_tcb ESTABLISHED) (tcp_frame 17 1001 643 [])) 50
    (segment_in_stack (tcp_frame 17 1001 643 [])) example_eth_args example_ip_args
    (example_ipv4_header 0) (example_tcp_header 17 1001 643) tcp_private 5 connected_socket 100
    (peer_tcb ESTABLISHED) 10 10 102) as (w' & t' & h & Hr & _ & _ & Hc & Ht & Hs & _).
  - split; [example_connected|vm_compute; reflexivity|reflexivity|reflexivity|vm_compute; reflexivity
           |by split_and!|vm_compute; discriminate].
  - reflexivity.
  - reflexivity.
  - vm_compute. reflexivity.
  - vm_compute. reflexivity.
  - exists w', t'. split; [exact Hr|]. split; [exact Hc|].
    split; [rewrite Ht; apply lookup_insert_eq|exact Hs].
Defined.

Lemma active_open_completes_witness :
  ∃ w' t', tcp_read (H0 := dispatch 3) 50 example_interface 4
      (segment_world (peer_tcb SYN_SENT) (tcp_frame 18 7000 643 [])) = Ok (Some 0, w') ∧
    w_calls w' = [101%nat] ∧ w_tcbs w' !! 100%nat = Some t' ∧ tcb_state t' = ESTABLISHED.
Proof.
  destruct (active_open_completes 0 1 3 4 example_interface
    (segment_world (peer_tcb SYN_SENT) (tcp_frame 18 7000 643 [])) 50
    (segment_in_stack (tcp_frame 18 7000 643 [])) example_eth_args example_ip_args
    (example_ipv4_header 0) (example_tcp_header 18 7000 643) tcp_private 5 connected_socket 100
    (peer_tcb SYN_SENT) 10 10 101) as (w' & t' & h & Hr & _ & _ & Hc & Ht & Hs & _).
  - example_connected.
  - vm_compute. reflexivity.
  - reflexivity.
  - reflexivity.
  - reflexivity.
  - reflexivity.
  - reflexivity.
  - split; [vm_compute; reflexivity|vm_compute; discriminate].
  - vm_compute. reflexivity.
  - vm_compute. reflexivity.
  - exists w', t'. split; [exact Hr|]. split; [exact Hc|].
    split; [rewrite Ht; apply lookup_insert_eq|exact Hs].
Defined.

(** The arguments of an application for a connection over the three handlers. *)
Definition example_client_args : socket_client_args :=
  {| sca_handlers := Some 1%nat :: Some 3%nat :: Some 4%nat :: replicate 7 None;
     sca_handler_args := ArgEthernet example_eth_args :: ArgIpv4 example_ip_args :: replicate 8 ArgNull;
     sca_depth := 3 |}.
Definition client_start : world := setup_world <| w_client_args ::= <[60%nat := example_client_args]> |>.

Lemma connect_sends_syn_witness :
  ∃ w' t', tcp_socket_connect (H0 := dispatch 3) 4 5 60 0 33554442 (htons 5000) client_start =
      Ok (client_id, w') ∧
    w_tcbs w' !! w_next client_start = Some t' ∧ tcb_state t' = SYN_SENT.
Proof.
  destruct (connect_sends_syn 0 1 3 4 client_start tcp_private 5 example_socket 60 example_client_args
    example_eth_args example_ip_args client_id 0 33554442 (htons 5000))
    as (w' & t' & h & Hr & _ & _ & _ & Ht & _ & Hs & _).
  - split.
    + split; [reflexivity|]. split; [by apply bytes_okb_ok|u_range].
    + apply setup_linked. vm_compute. reflexivity.
    + intros a [x Hx]. vm_compute in Hx. discriminate Hx.
    + exists tcp_handler_object. split; vm_compute; reflexivity.
    + vm_compute. reflexivity.
    + split; vm_compute; constructor.
    + vm_compute. left.
    + vm_compute. reflexivity.
    + vm_compute. reflexivity.
    + vm_compute. discriminate.
    + reflexivity.
    + reflexivity.
    + reflexivity.
    + reflexivity.
    + reflexivity.
    + reflexivity.
    + reflexivity.
    + split; u_range.
    + split_and!; u_range.
    + split; u_range.
  - exists w', t'. split; [exact Hr|]. split; [rewrite Ht; apply lookup_insert_eq|exact Hs].
Defined.

(** An ACK of an octet that was not sent. *)
Definition refused_tcb : transmission_control_block_t :=
  (peer_tcb ESTABLISHED) <| tcb_in_buffer := reset_queue |>.
Lemma segment_refused_witness :
  ∃ w', tcp_others (H := dispatch 3) 4 100 1 example_interface
      (segment_world refused_tcb (tcp_frame 16 1001 9000 [])) = Ok (None, w') ∧
    length (w_wire w') = 1%nat ∧ tcb_state <$> w_tcbs w' !! 100%nat = Some ESTABLISHED.
Proof.
  destruct (queue_one raw_cells 0 50 (htonl 1001)) as (j & bb & Hadd & Hbb & _); [reflexivity|].
  assert (reset_queue = bb) as E by (unfold reset_queue; by rewrite Hadd).
  pose proof (segment_refused 0 1 3 4 example_interface
    (segment_world refused_tcb (tcp_frame 16 1001 9000 [])) 50
    (segment_in_stack (tcp_frame 16 1001 9000 [])) example_eth_args example_ip_args
    (example_ipv4_header 0) (example_tcp_header 16 1001 9000) tcp_private 5 connected_socket 100
    refused_tcb {| seg_seq := 1001; seg_size := 0; seg_data := 50%nat |}
    TCP_BLOCK_BUFFER_DEFAULT_SIZE 10) as Hr.
  change (segment_verdict _ _ _) with Challenge in Hr.
  destruct Hr as (bbi & bbo & w' & _ & _ & Hrun & Hw & Ht & _); [|reflexivity|].
  - example_connected_with ltac:(change (tcb_in_buffer refused_tcb) with reset_queue; rewrite E; exact Hbb).
  - exists w'. split; [exact Hrun|]. split; [rewrite Hw; reflexivity|].
    rewrite Ht, lookup_insert_eq. reflexivity.
Defined.

(** An application that sends two bytes on an open connection. *)
Definition client_tcb_open : transmission_control_block_t :=
  (peer_tcb ESTABLISHED) <| tcb_active_mode_args := Some 60%nat |>.
Definition client_open : world :=
  (connected_world client_tcb_open) <| w_client_args := {[60%nat := example_client_args]} |>.
Lemma application_data_sent_witness :
  ∃ w' t', tcp_socket_send (H0 := dispatch 3) 5 client_id [104; 105] client_open = Ok (true, w') ∧
    w_tcbs w' !! 100%nat = Some t' ∧ tcb_send_next t' = u32 (tcb_send_next client_tcb_open + 2).
Proof.
  destruct (application_data_sent 0 1 3 4 client_open 5 connected_socket client_id 100 client_tcb_open
    10 60 example_client_args example_eth_args example_ip_args [104; 105]) as [Hsent _].
  - split.
    + apply setup_linked. vm_compute. reflexivity.
    + vm_compute. reflexivity.
    + split; vm_compute; [|apply NoDup_singleton]. constructor; [by eexists|constructor].
    + vm_compute. discriminate.
    + vm_compute. reflexivity.
    + vm_compute. reflexivity.
    + by apply create_repr.
    + reflexivity.
    + by apply bytes_okb_ok.
    + split_and!; u_range.
    + split_and!; u_range.
    + reflexivity.
    + reflexivity.
    + reflexivity.
    + reflexivity.
    + reflexivity.
    + reflexivity.
    + reflexivity.
    + reflexivity.
    + split; u_range.
    + by apply bytes_okb_ok.
  - destruct Hsent as (w' & t' & h & Hr & _ & _ & Ht & Hn & _);
      [simpl; lia|vm_compute; discriminate|vm_compute; discriminate|].
    exists w', t'. split; [exact Hr|]. split; [rewrite Ht; apply lookup_insert_eq|exact Hn].
Defined.

(** ** Fuel *)

Example run_enough_fuel_example :
  run 12 open_events setup_world ≠ OutOfFuel ∧
  run 100 open_events setup_world = Ok (tt, opened_world).
Proof.
  assert (run 12 open_events setup_world = Ok (tt, opened_world)) as E by (vm_compute; reflexivity).
  split; [rewrite E; discriminate|].
  refine (eq_trans (run_enough_fuel 12 100 open_events setup_world _ _) E);
    [lia|rewrite E; discriminate].
Qed.

Lemma tcp_write_terminates_witness :
  can_write sending_world ∧ idx_sum (w_out_stacks sending_world) = 2%nat ∧
  tcp_write (H0 := dispatch 3) 50 example_interface sending_world ≠ OutOfFuel.
Proof.
  assert (can_write sending_world) as Hw.
  { split.
    - change (w_tcbs sending_world) with ({[100%nat := established_tcb]} : gmap addr _).
      intros a t [_ <-]%lookup_singleton_Some. exists [], 11%nat. by apply create_repr.
    - change (w_out_stacks sending_world) with ({[50%nat := segment_out_stack [104; 105]]} : gmap addr _).
      intros a p [_ <-]%lookup_singleton_Some. vm_compute. split; lia. }
  split; [exact Hw|]. split; [vm_compute; reflexivity|].
  destruct (tcp_write_terminates 3 example_interface 4 50 sending_world Hw) as [H _];
    [vm_compute; lia|exact H].
Defined.

(** Frames, and a socket that the application opens between them. *)
Definition typed_events : list event :=
  OpenSocket 4 example_interface None 80 0 None None :: open_events.

Lemma private_data_typed_witness :
  map_Forall (λ _ h, priv_typed h) (w_handlers setup_world) ∧
  run 12 typed_events setup_world ≠ Fault PrivConfusion ∧
  ∃ w', run 12 typed_events setup_world = Ok (tt, w') ∧ map_Forall (λ _ h, priv_typed h) (w_handlers w').
Proof.
  assert (map_Forall (λ _ h, priv_typed h) (w_handlers setup_world)) as H.
  { apply map_Forall_to_list. vm_compute. repeat constructor; discriminate. }
  split; [exact H|].
  destruct (private_data_typed 12 typed_events setup_world H) as [Hu Hok].
  { by repeat constructor. }
  split; [exact Hu|]. exists (world_of (run 12 typed_events setup_world)).
  destruct (Hok (world_of (run 12 typed_events setup_world))) as [Ht _]; [vm_compute; reflexivity|].
  split; [vm_compute; reflexivity|exact Ht].
Defined.
