(* ===== verification/Running.v ===== *)
(** * Running: the program, at concrete inputs

    The theorems about the offloader and the worker at the run in which one client opens a
    connection to the stack of [Scenario.v] and sends it four octets; a window of four octets, a
    server with predefined answers, and [main] on devices on which everything succeeds. *)

From S2P Require Import Prelude Rings Headers Checksum ProtocolMap BlockBuffer State.
From S2P Require Import Ethernet Ipv4 TcpShared TcpSocket TcpStates Tcp Stack Handshake Transfer Delivery.
From S2P Require Import Refuse Stream Reorder Reset Serve Session Lifecycle Traces Offloader Worker Main StartUp Scenario.

Definition example_mbuf (n : nat) (frame : list Z) : rte_mbuf :=
  {| mb_id := 100 + n; mb_port := 0; mb_data := frame |}.
Definition syn_mbuf (n : nat) : rte_mbuf := example_mbuf n (tcp_frame 2 1000 0 []).
Definition ack_mbuf : rte_mbuf := example_mbuf 3 (tcp_frame 16 1001 643 []).
Definition data_mbuf : rte_mbuf := example_mbuf 4 (tcp_frame 16 1001 643 [65; 66; 67; 68]).

(** Up to the SYN-ACK, which waits in the write queue; then the acknowledgement of the data,
    with which it leaves. *)
Definition opening_labels : list label :=
  [Rx [syn_mbuf 1; syn_mbuf 2; ack_mbuf]; Distribute; Take; Distribute; Done; Take; Distribute;
   Transmit 2; Enqueue; Done].
Definition waiting_labels : list label := [Rx [data_mbuf]; Distribute; Transmit 2; Take; Done].
Definition data_labels : list label := [Take; Enqueue; Done; Rx [data_mbuf]; Distribute; Transmit 2].

Definition example_system : system list_ring (list nat) := initial_system (seq 0 20) setup_world.
Definition example_run (ls : list label) (s : system list_ring (list nat)) : system list_ring (list nat) :=
  default s (sys_run 12 [1%nat] [example_interface] ls s).
Definition opening : system list_ring (list nat) := example_run opening_labels example_system.
Definition waiting : system list_ring (list nat) := example_run waiting_labels opening.
Definition answered : system list_ring (list nat) := example_run data_labels waiting.

Lemma opening_steps : sys_steps 12 [1%nat] [example_interface] opening_labels example_system opening.
Proof. apply sys_run_sound. vm_compute. reflexivity. Qed.
Lemma waiting_steps : sys_steps 12 [1%nat] [example_interface] waiting_labels opening waiting.
Proof. apply sys_run_sound. vm_compute. reflexivity. Qed.
Lemma answered_steps : sys_steps 12 [1%nat] [example_interface] data_labels waiting answered.
Proof. apply sys_run_sound. vm_compute. reflexivity. Qed.

Example answered_sent :
  of_sent (sys_offloader waiting) = [] ∧ length (write_queue waiting) = 1%nat ∧
  of_sent (sys_offloader answered) = w_wire (sys_world answered) ∧
  length (of_sent (sys_offloader answered)) = 2%nat.
Proof. vm_compute. done. Qed.

(** Both frames in the write queue. *)
Definition written : system list_ring (list nat) := example_run [Take; Enqueue; Done] waiting.
Definition leaving_labels : list label := [Rx [data_mbuf]; Distribute; Transmit 2].

Ltac run_steps := apply sys_run_sound; vm_compute; reflexivity.

Lemma written_steps :
  sys_steps 12 [1%nat] [example_interface] (opening_labels ++ waiting_labels ++ [Take; Enqueue; Done])
    example_system written.
Proof. run_steps. Qed.
Lemma leaving_steps : sys_steps 12 [1%nat] [example_interface] leaving_labels written answered.
Proof. run_steps. Qed.
Lemma example_fits : Forall fits (w_wire (sys_world answered)).
Proof. vm_compute. repeat constructor. Qed.

Lemma packets_and_frames_in_order_witness :
  length (sys_consumed answered) = 4%nat ∧ sys_consumed answered `sublist_of` sys_received answered ∧
  of_sent (sys_offloader answered) `sublist_of` w_wire (sys_world answered).
Proof.
  destruct (packets_and_frames_in_order 12 [1%nat] [example_interface]
    (opening_labels ++ waiting_labels ++ data_labels) (seq 0 20) setup_world answered) as [Hp Hf];
    [vm_compute; reflexivity|run_steps|].
  split; [vm_compute; reflexivity|]. split; [exact Hp|exact (Hf example_fits)].
Defined.

Lemma packet_is_served_witness :
  in_work opening !! 0%nat = Some ack_mbuf ∧ sys_consumed waiting !! 2%nat = Some ack_mbuf.
Proof.
  split; [vm_compute; reflexivity|].
  apply (packet_is_served 12 [1%nat] [example_interface] opening_labels waiting_labels (seq 0 20)
    setup_world opening waiting 0 ack_mbuf);
    [vm_compute; reflexivity|exact opening_steps|exact waiting_steps|vm_compute; reflexivity
    |vm_compute; lia].
Defined.

Definition second_frame : list Z := default [] (write_queue written !! 1%nat).

Lemma frames_leave_in_pairs_witness :
  of_sent (sys_offloader answered) = [default [] (write_queue written !! 0%nat); second_frame] ∧
  (∃ f, write_queue opening = [f] ∧ write_queue waiting = [f]).
Proof.
  split.
  - destruct (frames_leave_in_pairs 12 [1%nat] [example_interface]
      (opening_labels ++ waiting_labels ++ [Take; Enqueue; Done]) leaving_labels (seq 0 20) setup_world
      written answered) as [_ He]; [vm_compute; reflexivity|exact written_steps|exact leaving_steps|].
    destruct He as [Hs _]; [unfold leaving_labels; rewrite !not_elem_of_cons;
      refine (conj _ (conj _ (conj _ _))); [discriminate..|apply not_elem_of_nil]|].
    rewrite Hs. vm_compute. reflexivity.
  - destruct (frames_leave_in_pairs 12 [1%nat] [example_interface] opening_labels waiting_labels (seq 0 20)
      setup_world opening waiting) as [_ He]; [vm_compute; reflexivity|exact opening_steps|exact waiting_steps|].
    destruct He as (_ & _ & Hl); [unfold waiting_labels; rewrite !not_elem_of_cons;
      refine (conj _ (conj _ (conj _ (conj _ (conj _ _))))); [discriminate..|apply not_elem_of_nil]|].
    assert (∃ f, write_queue opening = [f]) as [f Hf] by (eexists; vm_compute; reflexivity).
    exists f. split; [exact Hf|]. by apply (Hl f Hf).
Defined.

(** Twelve rounds with received packets, and two frames when the pool is empty. *)
Definition busy_device : list (list rte_mbuf * nat) := replicate 12 ([data_mbuf], 2%nat).
Definition fresh_offloader : offloader list_ring (list nat) := initial_offloader (seq 0 20).
Definition starved_offloader : offloader list_ring (list nat) :=
  fresh_offloader <| of_pool := [] |>
    <| of_write_queue := {| lr_list := [[1]; [2]]; lr_capacity := 7 |} |>.

Lemma buffers_leak_witness :
  (∃ o', offloader_loop busy_device fresh_offloader = Ok (tt, o') ∧ available o' = 0%nat) ∧
  offloader_loop busy_device starved_offloader = Fault Dangling.
Proof.
  assert (Forall (λ r : list rte_mbuf * nat, fst r ≠ []) busy_device) as Hd by (repeat constructor; discriminate).
  split.
  - destruct (buffers_leak busy_device fresh_offloader) as [Hl _]; [discriminate|exact Hd|].
    destruct Hl as (o' & Ho & _ & Ha); [vm_compute; lia|]. exists o'. split; [exact Ho|]. exact Ha.
  - destruct (buffers_leak busy_device starved_offloader) as [_ Hf]; [discriminate|exact Hd|].
    apply Hf; [discriminate|vm_compute; lia|vm_compute; lia|reflexivity].
Defined.

(** ** Two frames, from the first one that reaches the IPv4 handler *)

Definition warm_world : world := world_of (run 12 [receive 2 1000 0 []] setup_world).
Definition consume_example (frame : list Z) : M world unit :=
  consume_packet (dispatch 6) [1%nat] frame example_interface.
Definition syn_frame : list Z := tcp_frame 2 1000 0 [].
Definition ack_frame : list Z := tcp_frame 16 1001 643 [].
Definition answered_world : world := world_of (consume_example syn_frame warm_world).

Definition lookup_map (o : outcome (option addr * priority_map_t)) (m : priority_map_t) : priority_map_t :=
  match o with Ok (_, m') => m' | _ => m end.
Definition warm_emap (w : world) : priority_map_t := lookup_map (get_value (w_ethernet_map w) 8) (w_ethernet_map w).
Definition warm_imap (w : world) : priority_map_t := lookup_map (get_value (w_ip_map w) 6) (w_ip_map w).

Ltac frame_arrives :=
  split; try (vm_compute; reflexivity);
  [split; eexists; (split; [vm_compute; reflexivity|reflexivity])|apply bytes_okb_ok; vm_compute; reflexivity].

Lemma syn_frame_arrives :
  tcp_frame_arrives 1 3 4 example_interface warm_world syn_frame example_ethernet_header
    (example_ipv4_header 0) (example_tcp_header 2 1000 0) (warm_emap warm_world) (warm_imap warm_world).
Proof. frame_arrives. Qed.
Lemma ack_frame_arrives :
  tcp_frame_arrives 1 3 4 example_interface answered_world ack_frame example_ethernet_header
    (example_ipv4_header 0) (example_tcp_header 16 1001 643) (warm_emap answered_world) (warm_imap answered_world).
Proof. frame_arrives. Qed.

Lemma tcp_frame_delivered_witness :
  consume_example syn_frame warm_world =
    (tcp_read (H0 := dispatch 3) (w_next warm_world) example_interface 4;;;
     free w_in_stacks (w_next warm_world);;; ret tt)
      (delivered_world warm_world 1 3 syn_frame example_ethernet_header (example_ipv4_header 0)
         (warm_emap warm_world) (warm_imap warm_world)).
Proof.
  exact (proj1 (tcp_frame_delivered 0 1 3 4 example_interface warm_world syn_frame example_ethernet_header
    (example_ipv4_header 0) (example_tcp_header 2 1000 0) (warm_emap warm_world) (warm_imap warm_world)
    syn_frame_arrives)).
Defined.

Lemma three_way_handshake_witness :
  ∃ w2, (consume_example syn_frame;;; consume_example ack_frame) warm_world = Ok (tt, w2) ∧
    length (w_wire w2) = 1%nat ∧
    ∃ a t2, w_tcbs w2 !! a = Some t2 ∧ tcb_state t2 = ESTABLISHED ∧ tcb_receive_next t2 = 1001.
Proof.
  destruct (three_way_handshake 0 1 3 4 example_interface warm_world syn_frame example_ethernet_header
    (example_ipv4_header 0) (example_tcp_header 2 1000 0) (warm_emap warm_world) (warm_imap warm_world)
    tcp_private 5 example_socket syn_frame_arrives) as (w1 & h & a & t1 & Hc & Hwire & _ & _ & _ & Hsecond).
  - split.
    + split; [reflexivity|]. split; [by apply bytes_okb_ok|u_range].
    + intros b [x Hx]. vm_compute in Hx. discriminate Hx.
    + exists tcp_handler_object. split; vm_compute; reflexivity.
    + vm_compute. constructor; [by eexists|constructor].
    + vm_compute. reflexivity.
    + vm_compute. reflexivity.
    + split; vm_compute; constructor.
    + vm_compute. left.
    + vm_compute. reflexivity.
    + vm_compute. discriminate.
    + split_and!; vm_compute; reflexivity.
    + split_and!; u_range.
  - split; vm_compute; reflexivity.
  - assert (w1 = answered_world) as E by (unfold answered_world, consume_example; by rewrite Hc).
    destruct (Hsecond ack_frame example_ethernet_header (example_ipv4_header 0)
      (example_tcp_header 16 1001 643) (warm_emap answered_world) (warm_imap answered_world))
      as (w2 & t2 & Hc2 & Hw2 & Ht2 & Hst & Hrn & _).
    + rewrite E. exact ack_frame_arrives.
    + split; [split_and!; reflexivity|split; [split_and!|]; reflexivity|vm_compute; reflexivity..].
    + exists w2. split; [unfold bind, consume_example; by rewrite Hc|]. split.
      * rewrite Hw2, Hwire, length_app. vm_compute. reflexivity.
      * exists a, t2. split; [rewrite Ht2; apply lookup_insert_eq|]. split; [exact Hst|exact Hrn].
Defined.

(** The frame of the SYN, cut off in each of its headers. *)
(** The SYN cut behind its ports, and for a port nobody listens on. *)
Definition cut_header (frame : list Z) : tcp_header_t :=
  default (example_tcp_header 2 1000 0) (tcp_header_prefix up_to_ports (drop 34 frame)).
Definition other_port_frame : list Z := take 38 (<[36%nat := 1]> syn_frame).

Lemma short_frame_overruns_witness :
  consume_example (take 10 syn_frame) warm_world = Fault OutOfBounds ∧
  consume_example (take 30 syn_frame) warm_world = Fault OutOfBounds ∧
  consume_example (take 37 syn_frame) warm_world = Fault OutOfBounds ∧
  consume_example (take 44 syn_frame) warm_world = Fault OutOfBounds ∧
  ignored warm_world (consume_example other_port_frame warm_world).
Proof.
  assert (linked warm_world 1 3 4) as Hln by apply syn_frame_arrives.
  assert (bytes_ok other_port_frame) as Ho by (apply bytes_okb_ok; vm_compute; reflexivity).
  assert (∀ k, bytes_ok (take k syn_frame)) as Hb by (intros k; apply Forall_take, syn_frame_arrives).
  assert (tcp_sockets_ok 4 warm_world tcp_private) as Hsock.
  { split; [eexists; split; vm_compute; reflexivity|]. vm_compute. constructor; [by eexists|constructor]. }
  unfold consume_example. change 6%nat with (S (S (S (S (S (S 0)))))). split_and!.
  - destruct (short_frame_overruns 0 1 3 4 example_interface warm_world (take 10 syn_frame) Hln (Hb 10%nat)) as [Hs _].
    apply Hs. vm_compute. lia.
  - destruct (short_frame_overruns 0 1 3 4 example_interface warm_world (take 30 syn_frame) Hln (Hb 30%nat)) as [_ Hs].
    destruct (Hs example_ethernet_header (warm_emap warm_world)) as [Hs' _]; [vm_compute; reflexivity..|].
    apply Hs'. right. vm_compute. lia.
  - destruct (short_frame_overruns 0 1 3 4 example_interface warm_world (take 37 syn_frame) Hln (Hb 37%nat)) as [_ Hs].
    destruct (Hs example_ethernet_header (warm_emap warm_world)) as [_ Hs']; [vm_compute; reflexivity..|].
    destruct (Hs' (example_ipv4_header 0) (warm_imap warm_world)) as [Hp _]; [vm_compute; reflexivity..|].
    apply Hp. vm_compute. lia.
  - destruct (short_frame_overruns 0 1 3 4 example_interface warm_world (take 44 syn_frame) Hln (Hb 44%nat)) as [_ Hs].
    destruct (Hs example_ethernet_header (warm_emap warm_world)) as [_ Hs']; [vm_compute; reflexivity..|].
    destruct (Hs' (example_ipv4_header 0) (warm_imap warm_world)) as [_ Hp]; [vm_compute; reflexivity..|].
    specialize (Hp tcp_private (cut_header (take 44 syn_frame)) Hsock ltac:(vm_compute; reflexivity)).
    destruct (Hp example_socket) as [Hc _]; [vm_compute; reflexivity|vm_compute; split; [constructor|constructor]|].
    apply Hc. vm_compute. lia.
  - destruct (short_frame_overruns 0 1 3 4 example_interface warm_world other_port_frame Hln Ho) as [_ Hs].
    destruct (Hs example_ethernet_header (warm_emap warm_world)) as [_ Hs']; [vm_compute; reflexivity..|].
    destruct (Hs' (example_ipv4_header 0) (warm_imap warm_world)) as [_ Hp]; [vm_compute; reflexivity..|].
    exact (Hp tcp_private (cut_header other_port_frame) Hsock ltac:(vm_compute; reflexivity)).
Defined.

(** ** A window of four octets *)

Definition filling_tcb : transmission_control_block_t := (peer_tcb ESTABLISHED) <| tcb_receive_window := 4 |>.
Definition filling_world : world :=
  warm_world <| w_tcbs ::= <[100%nat := filling_tcb]> |> <| w_sockets ::= <[5%nat := connected_socket]> |>.
Definition example_received (seq : Z) (data : list Z) : received :=
  {| rc_frame := tcp_frame 16 seq 643 data; rc_ethernet := example_ethernet_header;
     rc_ipv4 := example_ipv4_header (Z.of_nat (length data)); rc_tcp := example_tcp_header 16 seq 643 |}.

(** A connection of the example socket, by evaluation. *)
Ltac open_example :=
  split;
  [split; eexists; (split; [vm_compute; reflexivity|reflexivity])
  |split; [split; vm_compute; [discriminate|reflexivity]|]; split; [discriminate|];
   eexists; split; [vm_compute; reflexivity|]; by split
  |split; [split; vm_compute; [discriminate|reflexivity]|]; split; [discriminate|];
   eexists; split; [vm_compute; reflexivity|]; by split
  |exists tcp_handler_object; split; vm_compute; reflexivity
  |vm_compute; constructor; [by eexists|constructor]
  |vm_compute; reflexivity
  |vm_compute; reflexivity
  |split; vm_compute; [|apply NoDup_singleton]; constructor; [by eexists|constructor]
  |vm_compute; reflexivity
  |vm_compute; reflexivity
  |vm_compute; discriminate
  |eexists; split; [by apply create_repr|vm_compute; lia]
  |eexists; by apply create_repr
  |split_and!; u_range
  |split; u_range
  |split; [u_range|by apply bytes_okb_ok]
  |by split
  |split; u_range].

Lemma filling_open :
  receiving_connection 1 3 4 example_interface (sock_port example_socket) tcp_private 5 connected_socket 100
    filling_world filling_tcb [].
Proof. open_example. Qed.

(** A segment of the example connection, by evaluation. *)
Ltac example_connection_segment :=
  split; first [apply bytes_okb_ok; vm_compute; reflexivity|vm_compute; reflexivity].
Ltac example_data_frame :=
  split; [example_connection_segment|split; [split_and!|]; reflexivity|vm_compute; discriminate..].

Lemma example_data_segment :
  data_segment example_interface (sock_port example_socket) (tcb_id filling_tcb) (tcb_send_next filling_tcb)
    (example_received 1001 [65; 66; 67; 68]) ∧
  data_segment example_interface (sock_port example_socket) (tcb_id filling_tcb) (tcb_send_next filling_tcb)
    (example_received 1005 [69]).
Proof. split; example_data_frame. Qed.

Lemma stream_fills_window_witness :
  ∃ w'', (consume_frames 0 1 example_interface [example_received 1001 [65; 66; 67; 68]];;;
          consume_frames 0 1 example_interface [example_received 1005 [69]; example_received 1005 [69]])
           filling_world = Ok (tt, w'') ∧
    length (w_wire w'') = 3%nat ∧ ∃ t'', w_tcbs w'' !! 100%nat = Some t'' ∧ tcb_receive_next t'' = 1005.
Proof.
  destruct example_data_segment as [Hs1 Hs2].
  destruct (stream_fills_window 0 1 3 4 example_interface (sock_port example_socket) tcp_private 5 connected_socket
    100 filling_world filling_tcb [example_received 1001 [65; 66; 67; 68]])
    as (w' & t' & frames & Hc & Hw & Hack & _ & Hro & Hstall).
  - exact filling_open.
  - reflexivity.
  - constructor; [exact Hs1|constructor].
  - split; [vm_compute; reflexivity|exact I].
  - vm_compute. discriminate.
  - vm_compute. reflexivity.
  - destruct (Hstall eq_refl [example_received 1005 [69]; example_received 1005 [69]])
      as (w'' & t'' & frames' & Hc' & Hw' & Hack' & Ho & Hro').
    + repeat (constructor; [exact Hs2|]). constructor.
    + repeat (constructor; [vm_compute; reflexivity|]). constructor.
    + exists w''. split; [by rewrite (bind_ok _ _ _ _ _ Hc)|]. split.
      * apply Forall2_length in Hack'. inversion Hack as [|? ? ? ? ? ? ? Hnil]; subst.
        inversion Hnil; subst. rewrite Hw', Hw, length_app, length_app, <- Hack'. vm_compute. reflexivity.
      * exists t''. split; [apply Ho|]. destruct Hro as [_ _ _ Hn _], Hro' as [_ _ _ Hn' _].
        rewrite Hn', Hn. vm_compute. reflexivity.
Defined.

(** *** Frames out of order *)

Definition early : received := example_received 1005 [69].
Definition behind_gap : received := example_received 1002 [66; 67].

Lemma example_gap_segment :
  data_segment example_interface (sock_port example_socket) (tcb_id filling_tcb) (tcb_send_next filling_tcb) behind_gap.
Proof. example_data_frame. Qed.

(** The missing frame after one early frame, and after eleven. *)
Lemma early_frame_blocks_witness :
  (∃ w', consume_frames 0 1 example_interface [early] filling_world = Ok (tt, w') ∧
     w_wire w' = w_wire filling_world ∧
     Stream.consume_frame 0 1 example_interface (example_received 1001 [65; 66; 67; 68]) w' = Fault NullDeref) ∧
  (∃ w' w'', consume_frames 0 1 example_interface (early :: replicate 10 early) filling_world = Ok (tt, w') ∧
     consume_frames 0 1 example_interface [example_received 1001 [65; 66; 67; 68]] w' = Ok (tt, w'') ∧
     w_wire w'' = w_wire filling_world).
Proof.
  destruct example_data_segment as [Hs1 Hs2].
  assert (bb_repr (tcb_in_buffer filling_tcb) [] (S TCP_BLOCK_BUFFER_DEFAULT_SIZE)) as Hbb by by apply create_repr.
  split.
  - destruct (early_frame_blocks 0 1 3 4 example_interface (sock_port example_socket) tcp_private 5 connected_socket
      100 filling_world filling_tcb early []) as (w' & bb & qs & Hc & Hw & _ & _ & Hcrash & _).
    + exact filling_open.
    + exact Hbb.
    + constructor; [exact (ds_segment _ _ _ _ _ Hs2)|constructor].
    + vm_compute. discriminate.
    + vm_compute. discriminate.
    + constructor.
    + exists w'. split; [exact Hc|]. split; [exact Hw|].
      apply Hcrash; [vm_compute; lia|exact (ds_segment _ _ _ _ _ Hs1)|vm_compute; reflexivity].
  - destruct (early_frame_blocks 0 1 3 4 example_interface (sock_port example_socket) tcp_private 5 connected_socket
      100 filling_world filling_tcb early (replicate 10 early)) as (w' & bb & qs & Hc & Hw & _ & _ & _ & Hdeaf).
    + exact filling_open.
    + exact Hbb.
    + constructor; [|apply Forall_replicate]; exact (ds_segment _ _ _ _ _ Hs2).
    + vm_compute. discriminate.
    + vm_compute. discriminate.
    + apply Forall_replicate. vm_compute. discriminate.
    + destruct (Hdeaf ltac:(vm_compute; lia) [example_received 1001 [65; 66; 67; 68]]) as (w'' & Hc' & Hw' & _).
      * constructor; [exact (ds_segment _ _ _ _ _ Hs1)|constructor].
      * exists w', w''. split; [exact Hc|]. split; [exact Hc'|]. by rewrite Hw', Hw.
Defined.

Lemma missing_octet_acknowledged_witness :
  ∃ w' t', Stream.consume_frame 0 1 example_interface behind_gap filling_world = Ok (tt, w') ∧
    w_tcbs w' !! 100%nat = Some t' ∧ tcb_receive_next t' = 1003.
Proof.
  destruct (missing_octet_acknowledged 0 1 3 4 example_interface (sock_port example_socket) tcp_private 5
    connected_socket 100 filling_world filling_tcb behind_gap) as (w' & t' & h & Hc & _ & _ & Ho & Hn).
  - exact filling_open.
  - reflexivity.
  - exact example_gap_segment.
  - vm_compute. reflexivity.
  - vm_compute. reflexivity.
  - vm_compute. reflexivity.
  - exists w', t'. split; [exact Hc|]. split; [apply Ho|]. rewrite Hn. vm_compute. reflexivity.
Defined.

(** *** A reset, and data from another host *)

Definition example_reset : received :=
  {| rc_frame := tcp_frame 4 1001 643 []; rc_ethernet := example_ethernet_header;
     rc_ipv4 := example_ipv4_header 0; rc_tcp := example_tcp_header 4 1001 643 |}.

Lemma reset_is_deadly_witness :
  ∃ w' t', Stream.consume_frame 0 1 example_interface example_reset filling_world = Ok (tt, w') ∧
    w_tcbs w' !! 100%nat = Some t' ∧ tcb_state t' = ESTABLISHED ∧
    Stream.consume_frame 0 1 example_interface (example_received 1001 [65; 66; 67; 68]) w' = Fault Dangling.
Proof.
  destruct (reset_is_deadly 0 1 3 4 example_interface (sock_port example_socket) tcp_private 5 connected_socket
    100 filling_world filling_tcb 9 example_reset) as (w' & bb & qs & Hc & _ & _ & Ho & Hst & Hnext).
  - exact filling_open.
  - by apply create_repr.
  - example_connection_segment.
  - split; [reflexivity|]. split; vm_compute; reflexivity.
  - eexists w', _. split; [exact Hc|]. split; [apply Ho|]. split; [exact Hst|].
    apply (Hnext (example_received 1001 [65; 66; 67; 68])). example_connection_segment.
Defined.

(** From 10.0.0.9. *)
Definition stranger : received :=
  let ih := with_checksum ((example_ipv4_header 1) <| ip_header_checksum := 0 |> <| ip_source_ip := 150994954 |>) in
  {| rc_frame := encode_ethernet_header_t example_ethernet_header ++ encode_ipv4_header_t ih
       ++ encode_tcp_header_t (example_tcp_header 16 1001 643) ++ [65];
     rc_ethernet := example_ethernet_header; rc_ipv4 := ih; rc_tcp := example_tcp_header 16 1001 643 |}.

Lemma stranger_data_taken_witness :
  tcb_remote_ipv4 filling_tcb ≠ ip_source_ip (rc_ipv4 stranger) ∧
  ∃ w' t', Stream.consume_frame 0 1 example_interface stranger filling_world = Ok (tt, w') ∧
    w_tcbs w' !! 100%nat = Some t' ∧ tcb_receive_next t' = 1002.
Proof.
  split; [vm_compute; discriminate|].
  destruct (stranger_data_taken 0 1 3 4 example_interface (sock_port example_socket) tcp_private 5 connected_socket
    100 filling_world filling_tcb stranger) as (w' & t' & ia & h & Hc & _ & _ & _ & Hro & Ho).
  - exact filling_open.
  - reflexivity.
  - vm_compute. reflexivity.
  - example_data_frame.
  - reflexivity.
  - vm_compute. reflexivity.
  - vm_compute. discriminate.
  - vm_compute. reflexivity.
  - exists w', t'. split; [exact Hc|]. split; [apply Ho|].
    rewrite (ro_next _ _ _ Hro). vm_compute. reflexivity.
Defined.

(** ** A server that answers with three octets *)









(** A thousand octets that are not there: the length the datagram claims is not compared with the
    frame, and they are acknowledged. *)
Example octets_behind_the_frame :
  let frame := encode_ethernet_header_t example_ethernet_header ++ encode_ipv4_header_t (example_ipv4_header 1000)
    ++ encode_tcp_header_t (example_tcp_header 16 1001 643) in
  let w := world_of (consume_example frame (filling_world <| w_tcbs ::= <[100%nat := peer_tcb ESTABLISHED]> |>)) in
  length frame = 54%nat ∧ length (w_wire w) = 1%nat ∧ tcb_receive_next <$> w_tcbs w !! 100%nat = Some 2001.
Proof. vm_compute. done. Qed.

(** ** The start of the program *)

(** Two ports and three cores. *)
Definition two_ports : Dpdk := example_dpdk [0; 1] [1; 2].
Definition start_up : list (dpdk_event (H := two_ports)) * (Z + halt) :=
  run_program (H := two_ports) (working [0; 1] [1; 2] 1) (main (H := two_ports)) [].

(** On one core there is no worker, and on a machine without ports no interface. *)
Example main_without_worker :
  let d := example_dpdk [0] [] in
  omap (λ e, match ev_call (H := d) e with run_offloader_loop _ workers _ => Some workers | _ => None end)
    (run_program (H := d) (working [0] [] 1) (main (H := d)) []).1 = [[None]].
Proof. vm_compute. reflexivity. Qed.
Example main_without_port :
  let d := example_dpdk [] [1] in
  (run_program (H := d) (working [] [1] 1) (main (H := d)) []).2 = inr (Faulted NullDeref).
Proof. vm_compute. reflexivity. Qed.
(** The nine seconds are reached; a second port without a link is not waited for. *)
Example dead_link :
  let d := example_dpdk [0] [1] in
  waited (H := d) (run_program (H := d) (working [0] [1] 0) (check_all_ports_link_status (H := d)) []).1 = 9000.
Proof. vm_compute. reflexivity. Qed.
Example second_port_ignored :
  let d := example_dpdk [1] [1] in
  waited (H := d) (run_program (H := d) (working [1] [1] 0) (check_all_ports_link_status (H := d)) []).1 = 0.
Proof. vm_compute. reflexivity. Qed.

(** Without a ring for the worker the program goes on, and hands the null pointer over. *)
Definition ringless : environment (H := two_ports) :=
  λ past c,
    match c return answer (H := two_ports) c → answer (H := two_ports) c with
    | rte_ring_create name n socket => λ r, if passed_over (H := two_ports) (Main.rte_ring_create (H := two_ports) name n socket) then None else r
    | _ => λ r, r
    end (working [0; 1] [1; 2] 1 past c).
Example worker_without_ring :
  omap (λ e, match ev_call (H := two_ports) e with
             | run_offloader_loop _ workers _ => Some (map (option_map ec_work_queue) workers)
             | _ => None
             end)
    (run_program (H := two_ports) ringless (main (H := two_ports)) []).1 = [[Some None]].
Proof. vm_compute. reflexivity. Qed.

Lemma main_starts_offloader_witness :
  (∃ before interface workers,
     offloader_starts (H := two_ports) before interface workers 1 ∧ if_mac interface = [2; 0; 0; 0; 0; 1] ∧
     length workers = 1%nat ∧ length before = 61%nat).
Proof.
  exists (take 61 start_up.1), (own_interface [2; 0; 0; 0; 0; 1]), [Some (worker_context (H := two_ports) 1 (Some 3%nat))].
  split; [|split; [|split]]; [|reflexivity..].
  apply (main_starts_offloader (H := two_ports) (working [0; 1] [1; 2] 1) (take 61 start_up.1)
    (own_interface [2; 0; 0; 0; 0; 1]) [Some (worker_context (H := two_ports) 1 (Some 3%nat))] 1 tt (drop 62 start_up.1) start_up.2).
  vm_compute. reflexivity.
Defined.
