(* ===== verification/ArpProgram.v ===== *)
(** * ArpProgram: the program on top of the ARP handler

    [programs/arp/arp.c]: [arp_spoof], which builds an announcement of the own address (it has
    no caller), [arp_status], and [arp_thread_run], whose loop reads [net_stack->state], which nothing
    in the sources sets. *)

From S2P Require Import Prelude Headers ProtocolMap BlockBuffer State Ethernet Arp Stack.
From S2P Require Import Scenario.

Definition IPV4_ADDR_SIZE : Z := 4.

Section ArpProgram.
Context `{!Platform} `{!Dispatch}.

Definition spoof_header (interface : interface_t) : arp_header_t :=
  {| ah_hdw_type := ARP_HDW_TYPE_ETHERNET;
     ah_pro_type := ARP_PRO_TYPE_IPV4;
     ah_hdw_addr_length := Z.of_nat ETHERNET_MAC_SIZE;
     ah_pro_addr_length := IPV4_ADDR_SIZE;
     ah_operation := ARP_OPERATION_REQUEST;
     ah_sender_hardware_addr := if_mac interface;
     ah_sender_protocol_addr := if_ipv4_addr interface;
     ah_target_hardware_addr := replicate 6 0;
     ah_target_protocol_addr := if_ipv4_addr interface |}.

Definition arp_spoof (net_stack : net_stack_app) (socket : addr) : M world bool :=
  let interface := app_interface net_stack in
  let ethernet_write_args :=
    {| ewa_destination := if_mac interface; ewa_ethernet_type := ETHERNET_TYPE_ARP |} in
  let write_args :=
    {| sca_handlers :=
         [Some (ethernet_handler net_stack); Some (arp_handler net_stack)] ++ replicate 8 None;
       sca_handler_args :=
         [ArgEthernet ethernet_write_args; ArgArp (spoof_header interface)] ++ replicate 8 ArgNull;
       sca_depth := 2 |} in
  arp_socket_send (arp_handler net_stack) socket write_args.

(** The octets [inet_ntoa] prints for an [s_addr]: the bytes as they are in memory. *)
Definition inet_ntoa (s_addr : Z) : list Z := bytes32 s_addr.

Definition status_line (entry : arp_entry_t) : list Z * list Z :=
  (inet_ntoa (htonl (ae_ipv4 entry)), ae_mac entry).

(** The lines that are printed; an entry behind those the status copied is not defined. *)
Definition print_arp_status (handler : addr) : M world (list (list Z * list Z)) :=
  status <- arp_status handler;;
  let '(entries, num_arp_entries) := status in
  if Z.of_nat (length entries) <? num_arp_entries then fail OutOfBounds
  else ret (map status_line (take (Z.to_nat num_arp_entries) entries)).

Definition arp_thread_start (net_stack : net_stack_app) : M world addr :=
  socket <- arp_create_socket None (app_interface net_stack) true;;
  arp_set_socket (arp_handler net_stack) (Some socket);;;
  ret socket.

(** [state] of the stack: [net_stack_init] does not set it and nothing else does, so that it is
    what the allocated memory held, in every round the same. *)
Inductive net_stack_state_t := NET_STACK_STOPPED | NET_STACK_RUNNING.

(** The loop, with what is printed in each round; [sleep] is left out. *)
Fixpoint arp_thread_loop (fuel : nat) (state : net_stack_state_t) (handler : addr)
    : M world (list (list (list Z * list Z))) :=
  match state with
  | NET_STACK_STOPPED => ret []
  | NET_STACK_RUNNING =>
      match fuel with
      | O => no_fuel
      | S fuel =>
          table <- print_arp_status handler;;
          tables <- arp_thread_loop fuel state handler;;
          ret (table :: tables)
      end
  end.

Definition arp_thread_run (fuel : nat) (state : net_stack_state_t) (net_stack : net_stack_app)
    : M world (list (list (list Z * list Z))) :=
  arp_thread_start net_stack;;;
  arp_thread_loop fuel state (arp_handler net_stack).
End ArpProgram.

(** ** Properties *)

Section Properties.
Context `{!Platform}.

Lemma bytes32_ntohl x : bytes32 (ntohl x) = rev (bytes32 x).
Proof.
  unfold bytes32. cbn [rev app]. unfold ntohl.
  set (a := x mod 256). set (b := (x / 256) mod 256).
  set (c := (x / 65536) mod 256). set (d := (x / 16777216) mod 256).
  assert (0 <= a < 256 ∧ 0 <= b < 256 ∧ 0 <= c < 256 ∧ 0 <= d < 256) as (? & ? & ? & ?)
    by (unfold a, b, c, d; lia).
  clearbody a b c d. repeat f_equal; lia.
Qed.

(** A full list: the slots are the entries, and the count is not set. *)
Lemma arp_status_entries_list es n :
  arp_status_entries ((Some <$> es) ++ replicate n None) = es.
Proof. induction es as [|e es IH]; cbn; [by destruct n|by rewrite <- IH at 2]. Qed.

(** [arp_write] above another handler. *)
Lemma arp_write_down `{!Dispatch} ps i w p idx next header :
  w_out_stacks w !! ps = Some p → ops_stack_idx p = S idx →
  ops_args p !! S idx = Some (ArgArp header) → ops_handlers p !! idx = Some (Some next) →
  Z.of_nat sizeof_arp_header_t <= ob_offset (ops_out_buffer p) →
  let p' := p <| ops_out_buffer ::= push_header (encode_arp_header_t header) |> <| ops_stack_idx := idx |> in
  arp_write ps i w = op_write next ps i (w <| w_out_stacks ::= <[ps := p']> |>).
Proof.
  intros Hp Hi Ha Hn Ho p'. unfold arp_write. rewrite (bind_load _ _ p) by done. rewrite Hi.
  rewrite (bind_need _ _ (ArgArp header)) by done.
  destruct (Z.ltb_spec (ob_offset (ops_out_buffer p)) (Z.of_nat sizeof_arp_header_t)); [lia|].
  cbn [as_arp_args]. rewrite bind_ret_l, (bind_update _ _ _ p) by done.
  rewrite (write_down_next _ _ _ _ idx next) by (apply lookup_insert_eq || done).
  unfold set_field. cbn. by rewrite insert_insert_eq.
Qed.

Lemma length_6 (l : list Z) : length l = 6%nat → ∃ a b c d e f, l = [a; b; c; d; e; f].
Proof. intros Hl. do 6 (destruct l as [|? l]; [done|]). destruct l; [by repeat eexists|done]. Qed.
End Properties.

(** The program that prints the ARP table converts addresses that are in network order
    already, and so prints every address with its four bytes reversed; and it prints a
    full table only by luck, since then the number of entries is not set. *)
Lemma arp_status_reversed `{!Platform} h w hd ap es :
  w_handlers w !! h = Some hd → h_priv hd = PrivArp ap → arp_ok (ap_resolution_list ap) es →
  (length es < length (arl_list (ap_resolution_list ap)))%nat →
  print_arp_status h w = Ok (map (λ e, (rev (bytes32 (ae_ipv4 e)), ae_mac e)) es, w).
Proof.
  intros Hh Hp Hok Hlen. unfold print_arp_status, arp_status. rewrite bind_assoc, (bind_load _ _ hd) by done.
  unfold as_arp_priv. rewrite Hp, bind_assoc, bind_ret_l. cbv zeta. rewrite bind_ret_l.
  destruct Hok as (Hs & _). rewrite Hs, arp_status_entries_list.
  rewrite Hs in Hlen. rewrite bool_decide_true by done.
  rewrite Z.ltb_irrefl, Nat2Z.id, take_ge by done. unfold ret. f_equal. f_equal.
  apply map_ext. intros e. unfold status_line, inet_ntoa. by rewrite bytes32_ntohl.
Qed.

(** The thread has its socket set on the ARP handler; then, by the state it happens to find, it
    ends without printing anything, or prints and never ends. *)
Lemma arp_thread_run_by_chance `{!Platform, !Dispatch} fuel net_stack w w' socket :
  arp_thread_start net_stack w = Ok (socket, w') →
  arp_thread_run fuel NET_STACK_STOPPED net_stack w = Ok ([], w') ∧
  ∀ r, arp_thread_run fuel NET_STACK_RUNNING net_stack w ≠ Ok r.
Proof.
  intros Hs. unfold arp_thread_run. split; [by rewrite (bind_ok _ _ _ _ _ Hs); destruct fuel|].
  intros r. rewrite (bind_ok _ _ _ _ _ Hs). clear Hs. revert w' r.
  induction fuel as [|fuel IH]; intros w1 r; [done|]. cbn [arp_thread_loop]. intros Hr.
  apply bind_inv in Hr as (table & w2 & _ & Hr). apply bind_inv in Hr as (tables & w3 & Hr & _).
  by apply IH in Hr.
Qed.

(** The announcement that [arp_spoof] builds leaves as one Ethernet frame, but with types in
    the byte order of the host: it has the Ethernet type 0x0608 and the protocol type
    0x0008, and [ethernet_read] of the same stack does not take it for ARP. *)
Lemma arp_spoof_frame `{!Platform} n net_stack socket w s he ha i :
  app_interface net_stack = i → mac_ok (if_mac i) →
  w_arp_sockets w !! socket = Some s → as_interface s = i →
  w_handlers w !! ethernet_handler net_stack = Some he → h_operations he = EthernetHandler →
  w_handlers w !! arp_handler net_stack = Some ha → h_operations ha = ArpHandler →
  let frame := if_mac i ++ if_mac i ++ [6; 8]
    ++ [0; 1; 0; 8; 6; 4; 0; 1] ++ if_mac i ++ bytes32 (if_ipv4_addr i)
    ++ [0; 0; 0; 0; 0; 0] ++ bytes32 (if_ipv4_addr i) in
  (∃ w', arp_spoof (H0 := dispatch (S (S n))) net_stack socket w = Ok (true, w') ∧
         w_wire w' = w_wire w ++ [frame]) ∧
  ∃ header, decode_ethernet_header_t frame = Some header ∧
            eth_ethernet_type header ≠ htons ETHERNET_TYPE_ARP.
Proof.
  intros Hi [Hm _] Hs Hsi Hhe He Hha Ha frame.
  destruct (length_6 _ Hm) as (a & b & c & d & e & f & Hm6). clear Hm. rename Hm6 into Hm. split.
  - eexists. split.
    + unfold arp_spoof. rewrite Hi. cbv zeta. unfold arp_socket_send.
      erewrite bind_ok by reflexivity. rewrite (bind_load _ _ s) by done. rewrite Hsi.
      rewrite (op_write_dispatch _ _ _ _ _ ha) by done. rewrite Ha. cbn [write_operation].
      erewrite arp_write_down; [|apply lookup_insert_eq|reflexivity|reflexivity|reflexivity|vm_compute; discriminate].
      rewrite (op_write_dispatch _ _ _ _ _ he) by done. rewrite He. cbn [write_operation].
      erewrite ethernet_write_ok; [|apply lookup_insert_eq|reflexivity|reflexivity].
      match goal with |- (if ?c then _ else _) = _ => assert (c = false) as -> end; [|reflexivity].
      cbn. by rewrite Hm.
    + unfold frame. cbn. by rewrite Hm.
  - unfold frame. rewrite Hm. eexists. split; [reflexivity|]. vm_compute. discriminate.
Qed.

(** ** Witnesses *)

Definition example_app : net_stack_app :=
  {| arp_handler := 2; ipv4_handler := 3; tcp_handler := 4; ethernet_handler := 1;
     root_handlers := [1%nat]; app_interface := example_interface |}.
Definition example_entry : arp_entry_t := {| ae_ipv4 := 3389040832; ae_mac := [4; 4; 4; 4; 4; 4] |}.
Definition example_list : arp_resoltion_list_t :=
  {| arl_list := Some example_entry :: replicate (pred ARP_RESOLUTION_LIST_SIZE) None; arl_insert_idx := 1 |}.
Definition example_arp_world : world :=
  initial_world
    <| w_handlers := {[1%nat := {| h_operations := EthernetHandler; h_priv := PrivDummy |};
         2%nat := {| h_operations := ArpHandler;
                     h_priv := PrivArp {| ap_socket := None; ap_resolution_list := example_list |} |}]} |>
    <| w_arp_sockets := {[7%nat := {| as_next_handler := None; as_passthrough := true;
                                     as_interface := example_interface |}]} |>.

(** The entry for 192.168.0.202 is printed as 202.0.168.192. *)
Example arp_status_reversed_example :
  print_arp_status 2 example_arp_world = Ok ([([202; 0; 168; 192], [4; 4; 4; 4; 4; 4])], example_arp_world).
Proof.
  apply (arp_status_reversed 2 example_arp_world
    {| h_operations := ArpHandler; h_priv := PrivArp {| ap_socket := None; ap_resolution_list := example_list |} |}
    {| ap_socket := None; ap_resolution_list := example_list |} [example_entry]);
    [reflexivity|reflexivity| |vm_compute; lia].
  split; [reflexivity|]. split; [vm_compute; lia|]. split; [|split; [simpl; lia|reflexivity]].
  repeat constructor. set_solver.
Qed.

Example arp_spoof_frame_example :
  ∃ w', arp_spoof (H0 := dispatch 2) example_app 7 example_arp_world = Ok (true, w') ∧
        length (w_wire w') = 1%nat.
Proof.
  destruct (arp_spoof_frame 0 example_app 7 example_arp_world
    {| as_next_handler := None; as_passthrough := true; as_interface := example_interface |}
    {| h_operations := EthernetHandler; h_priv := PrivDummy |}
    {| h_operations := ArpHandler; h_priv := PrivArp {| ap_socket := None; ap_resolution_list := example_list |} |}
    example_interface) as [(w' & Hr & Hw) _];
    [reflexivity|split; [reflexivity|apply bytes_okb_ok; reflexivity]|reflexivity|reflexivity
    |reflexivity|reflexivity|reflexivity|reflexivity|].
  exists w'. split; [exact Hr|]. rewrite Hw. reflexivity.
Qed.
